(* ===== verification/_CoqProject ===== *)
-Q . S2P
Prelude.v
Externs.v
Addressing.v
Packet.v
Stats.v
Peers.v
Forward.v
Ratelimit.v
Names.v
Codecs.v
Invite.v
Dht.v
Members.v
Control.v
Blob.v
Select.v
Network.v
Ipc.v
Settings.v
Storage.v
Convergence.v
Admission.v
Coordinator.v
Joining.v
Manager.v
Lifecycle.v
Daemon.v
Redial.v
Status.v
Service.v
Veilid.v
Transport.v
System.v
Show.v
Cli.v
Client.v
Tunnel.v
Files.v
Boot.v
Platform.v
