(* ===== verification/Prelude.v ===== *)
(** * tetron: verification development

    tetron is a peer-to-peer mesh VPN: a daemon in Rust (src/src), the messages between it and
    local programs (src/tetron-proto/src) and a datagram transport over Veilid
    (src/veilid-transport/src).  A network is a key pair.  Its coordinators hold the secret key and
    sign a record in the DHT that names, by hash and generation, a blob with the roster, the invites
    and the rules of the network.  Nodes find the record, fetch the blob from each other, dial the
    peers of the roster and carry IP packets between a tun device and these connections.

    ** The files, in the order in which they depend on each other

    Ground.
    - Prelude: the scope, the [outcome] and [Result] monads (a run that panics, an error value), machine
      integers as [Z] with their wrap-around, text as Rust reads it, tactics and hints.
    - Externs, Codecs: the code outside src/ as classes of operations with classes of laws (iroh
      keys, blake3, the token bucket, base 58, msgpack), and concrete instances.

    Data and the packet path.
    - Addressing (addressing.rs): subnets, CIDR text, derived addresses.
    - Packet (packet.rs): header parsing, checksum, both kinds of fragments, the reassembler.
    - Stats (stats.rs): counters and the drop monitor.
    - Peers (peers.rs): [PeerTable], both address maps; [peer_table_links] is its contract, a map of links.
    - Forward (forward.rs): the loops between tun device and connections; [evaluate_inbound].
    - Ratelimit (ratelimit.rs): the gates in front of control messages.

    The network's shared data.
    - Names (hostname.rs, network_name.rs), Invite (both invite.rs), Dht (dht.rs): names, invite codes
      and the text of the signed record.
    - Members, Blob (membership.rs): [MemberList], [ApprovedList], the assignment of addresses
      and the resolution of duplicates; the canonical blob, its verification, invites, nuke proposals.
    - Control (control.rs): messages and frames.
    - Select (daemon/mesh/select.rs, path_selector.rs): the decisions written as pure functions there.
    - Network (daemon/mod.rs, reconverge.rs, publish.rs): [NetworkState], one pass of the poller,
      of the hint handler and of the publishers.
    - Convergence: several nodes around one record; the steps of Network cut where the code awaits.

    The daemon.
    - Ipc (ipc.rs, [check_authorized], permits, the status cache), Settings (config/overrides.rs),
      Storage (config/storage.rs): who may ask what, the configuration keys, the files and the load cache.
    - Admission (accept.rs), Coordinator (coordinator.rs), Joining (join.rs), Redial (the
      [spawn_reconnect_loop] of join.rs): incoming connections, lost ones, both sides of the
      handshake and the tasks that dial again.
    - Manager (runtime.rs, admin.rs, invite_handler.rs, daemon/mod.rs): [MeshManager] and every
      command on a running network; Lifecycle (create_join.rs, runtime.rs): creating, joining, restoring.
    - Daemon (bootstrap.rs, [handle_request]): the requests, and the loop that serves them.
    - Status (diagnostics.rs), Service (cli/service.rs): reports; the systemd unit.
    - Veilid (veilid-transport): node ids, the task that owns the connection.
    - Transport (peercache.rs, transport.rs, [ProtocolRouter] of accept.rs): the address cache, the
      candidates of a dial, the router.
    - System (identity.rs, userdb.rs, tun.rs, selfcapture.rs): key file, lookups, interfaces, routing rule.
    - Boot ([run_daemon] of bootstrap.rs, [create_endpoint_with_alpns] of transport.rs): the start.
    - Tunnel (tun.rs, [attach_tun] of daemon/mod.rs, [activate] of runtime.rs): the interface, the tasks
      and the channel of each network, with shared flags and tasks as the code shares them.
    - Files ([write_file] and [migrate_location] of config/storage.rs): one write as its system calls.
    - Platform (tun.rs on macOS, logdir.rs, log_reload.rs, firewall.rs, types.rs): what is left of the host.

    The command line.
    - Show, Cli (main.rs, cli/): what is printed; each command as a tree of what it does next
      (print, connect, send, receive, wait, run a program), and [run], which plays it against a world.
    - Client: the world in which the other end of the socket is [handle_request] of Daemon.

    A file keeps the names of the source.  A struct is a record, an enum an inductive type, a
    [HashMap] a [gmap], a handler a function from the state to the state and what it sends.  What the
    code can not decide (clock, randomness, the network, files as they are read) is an argument.
    Code that runs side by side is cut at its awaits and locks where the order matters:
    [Convergence], [Redial], [Storage] (load cache), [Files], [Veilid] and the two halves of an admission in
    [Admission].

    ** What the theorems show

    - From one end to the other: [invited_stranger_joins] runs creation, record, blob, dial, admission and
      handshake; [printed_invite_joins] the invite from one user's terminal to the other's;
      [daemon_starts], [coordinator_restart_roundtrip] and [offline_restart_keeps_network] starts and
      restarts; [published_blob_reads_back] the blob.
    - Who gets in: [join_request_outcome], [no_credential_no_effect], [member_hello_bound_to_roster],
      [invite_single_use], [invite_lifecycle], [verify_group_blob_sound].
    - Who may change a network: [network_key_only_by_grant], [nuke_only_by_consensus], [kick_exact],
      [leave_strands_nobody], [grant_is_announced], [only_root_or_operator_changes],
      [unprivileged_commands_refused].
    - Agreement: [generation_lost_only_to_stale_poll], [poll_settles], [resolve_ip_tiebreak_converges],
      [roster_reachable_unique_ips], [restored_roster_or_panic], [fresh_join_first_welcome].
    - Packets: [peer_reader_no_spoofing], [ipv6_packet_delivered], [reassembler_bounded],
      [parse_packet_info_safe], [data_planes_never_leak], [standby_stops_traffic].
    - Connections: [one_dial_per_peer], [member_redial_reaches_peer], [disconnect_effect],
      [connection_reaches_its_network], [addresses_survive_restart], [peer_table_links],
      [veilid_requests_conserved].
    - Local state: [config_cache_coherent], [config_file_never_torn], [settings_independent],
      [upgrade_keeps_paths], [selfcapture_single_rule].
    - The user's side: [status_shows_roster], [network_printed], [commands_end].
    - Limits of the code that the model makes visible: [standby_stops_traffic] (its second half),
      [assign_ip_full_subnet_never_returns] and [restarted_member_loses_address], and lemmas in the
      files beside what they are about.

    A theorem over a class of laws has a witness at the concrete instances.

    ** Bounds and fuel

    - The checksum folds carries three times: [fold_carries_u16] shows that is enough.
    - A fragmentation loop has one round per byte of the packet, and every round takes at least
      one, so the list of fragments is never cut short.
    - [assign_ip] walks the 2^32 collision indices; [None] is a loop that does not end.
    - [words] has the length of the text, and every word takes a character.
    - [db_lookup] has ten doublings, from 1024 to the limit of 2^20; [user_lookup_total].
    - [poll_daemon] has 121 polls: thirty seconds, 250 milliseconds apart, and the first; [commands_end]
      shows for every command that the fuel never runs out.
    - [trim_0x] has the length of the text, and every round takes two characters.
    - [strip_leading] has the length of the text.  Everything else is structural.

    ** Not modelled

    - Tasks, timers, sockets, QUIC and TLS: the runtime's and iroh's.  A step ends at an await
      only in the files named above; elsewhere a handler runs through.
    - iroh's endpoint, Tor's and Veilid's clients and the kernel's network devices, beyond what a start,
      a bind or a command answers; a packet is given to and taken from a device as bytes.
    - The bytes that a fetch leaves in the local blob store.
    - [jitter_backoff], which is floating point, and round-trip times.
    - A disk that fails halfway and file permissions, except in Files.
    - Argument parsing and completions, which are clap's; the set-up of the tracing library and the panic
      hook; the texts of log lines.
    - launchd on macOS, and Android. *)

From Stdlib Require Export ZArith Lia Ascii.
From stdpp Require Export base numbers list strings gmap sorting pretty.

#[global] Open Scope Z_scope.
#[global] Arguments String.append !_ _ / : simpl nomatch.

Declare Scope tetron_scope.
Delimit Scope tetron_scope with tetron.
#[global] Open Scope tetron_scope.

(** ** Fallible results

    [Result] is Rust's [Result<T, E>]. *)
Inductive Result (A E : Type) : Type :=
| Ok (a : A)
| Err (e : E).
Arguments Ok {A E} a.
Arguments Err {A E} e.

#[global] Instance Result_eq_dec {A E} `{EqDecision A, EqDecision E} : EqDecision (Result A E).
Proof. solve_decision. Defined.

Definition is_ok {A E} (r : Result A E) : bool :=
  match r with Ok _ => true | Err _ => false end.

(** [x <-? r ; k] is Rust's [let x = r?; k]. *)
Definition rbind {A B E} (r : Result A E) (k : A -> Result B E) : Result B E :=
  match r with Ok a => k a | Err e => Err e end.
Notation "x '<-?' r ';' k" := (rbind r (fun x => k))
  (at level 100, r at next level, k at level 200, right associativity) : tetron_scope.

Lemma rbind_ok {A B E} (r : Result A E) (k : A -> Result B E) b :
  rbind r k = Ok b <-> exists a, r = Ok a /\ k a = Ok b.
Proof.
  destruct r as [a|e]; simpl; split.
  - eauto.
  - by intros (? & [= <-] & ?).
  - done.
  - by intros (? & ? & _).
Qed.

(** ** Computations that may panic

    Rust indexing, slicing and checked arithmetic abort the thread when they
    go out of range.  [Panic] is that outcome; a theorem [f x = Ret y] says that
    the run does not abort. *)
Inductive outcome (A : Type) : Type :=
| Ret (a : A)
| Panic.
Arguments Ret {A} a.
Arguments Panic {A}.

Definition obind {A B} (m : outcome A) (k : A -> outcome B) : outcome B :=
  match m with Ret a => k a | Panic => Panic end.
Notation "x '<-!' m ';' k" := (obind m (fun x => k))
  (at level 100, m at next level, k at level 200, right associativity) : tetron_scope.

(** ** Machine integers

    A [w]-bit unsigned integer is a [Z] in [0, 2^w).  The release profile of
    the crate leaves overflow checks off, so [+], [*] and [<<] wrap. *)
Definition in_width (w z : Z) : Prop := 0 <= z < 2 ^ w.
Abbreviation is_u8 := (in_width 8).
Abbreviation is_u16 := (in_width 16).
Abbreviation is_u32 := (in_width 32).
Abbreviation is_u64 := (in_width 64).

#[global] Instance in_width_dec w z : Decision (in_width w z).
Proof. unfold in_width; apply _. Defined.

Definition wrap (w z : Z) : Z := z mod 2 ^ w.
Definition u32_not (z : Z) : Z := wrap 32 (Z.lnot z).
Definition u64_max : Z := 2 ^ 64 - 1.
Definition u32_max : Z := 2 ^ 32 - 1.
Definition saturating_sub (a b : Z) : Z := Z.max 0 (a - b).
Definition saturating_add (w a b : Z) : Z := Z.min (2 ^ w - 1) (a + b).

Lemma wrap_in_width w z : 0 <= w -> in_width w (wrap w z).
Proof. intros Hw. apply Z.mod_pos_bound. by apply Z.pow_pos_nonneg. Qed.

Lemma wrap_small w z : in_width w z -> wrap w z = z.
Proof. apply Z.mod_small. Qed.

(** The bits of a [w]-bit value above position [w] are zero. *)
Lemma in_width_testbit w z i :
  0 <= w -> in_width w z -> w <= i -> Z.testbit z i = false.
Proof.
  intros Hw Hz Hi. rewrite <- (wrap_small w z Hz). unfold wrap.
  by apply Z.mod_pow2_bits_high.
Qed.

Lemma testbit_in_width w z :
  0 <= w -> 0 <= z -> (forall i, w <= i -> Z.testbit z i = false) -> in_width w z.
Proof.
  intros Hw Hz Hbits.
  assert (z = wrap w z) as ->; [|by apply wrap_in_width].
  apply Z.bits_inj'. intros n Hn. unfold wrap.
  destruct (Z.lt_ge_cases n w).
  - by rewrite Z.mod_pow2_bits_low.
  - rewrite Hbits by done. by rewrite Z.mod_pow2_bits_high.
Qed.

Lemma u32_not_testbit z i :
  0 <= i < 32 -> Z.testbit (u32_not z) i = negb (Z.testbit z i).
Proof.
  intros Hi. unfold u32_not, wrap.
  rewrite Z.mod_pow2_bits_low by lia. by rewrite Z.lnot_spec by lia.
Qed.

Lemma land_in_width w a b : 0 <= w -> in_width w a -> 0 <= b -> in_width w (Z.land a b).
Proof.
  intros Hw Ha Hb. apply testbit_in_width; [done| |].
  - apply Z.land_nonneg; destruct Ha; lia.
  - intros i Hi. rewrite Z.land_spec, (in_width_testbit w a) by done. done.
Qed.

Lemma lor_in_width w a b : 0 <= w -> in_width w a -> in_width w b -> in_width w (Z.lor a b).
Proof.
  intros Hw Ha Hb. apply testbit_in_width; [done| |].
  - apply Z.lor_nonneg; destruct Ha, Hb; lia.
  - intros i Hi. rewrite Z.lor_spec, !(in_width_testbit w) by done. done.
Qed.

(** Masking a 32-bit value with [!(2^k - 1)] clears its low [k] bits. *)
Lemma land_not_ones k z :
  0 <= k <= 32 -> is_u32 z -> Z.land z (u32_not (Z.ones k)) = (z / 2 ^ k) * 2 ^ k.
Proof.
  intros Hk Hz. rewrite <- Z.shiftr_div_pow2, <- Z.shiftl_mul_pow2 by lia.
  apply Z.bits_inj'. intros i Hi. rewrite Z.land_spec.
  destruct (Z.lt_ge_cases i 32) as [Hlt|Hge].
  - rewrite u32_not_testbit by lia. rewrite Z.testbit_ones_nonneg by lia.
    rewrite Z.shiftl_spec by lia.
    destruct (Z.ltb_spec i k).
    + by rewrite (Z.testbit_neg_r _ (i - k)), andb_false_r by lia.
    + rewrite Z.shiftr_spec by lia. replace (i - k + k) with i by lia.
      by rewrite andb_true_r.
  - rewrite (in_width_testbit 32 z) by (lia || done).
    rewrite Z.shiftl_spec, Z.shiftr_spec by lia.
    by rewrite (in_width_testbit 32 z) by (lia || done).
Qed.

Lemma land_ones_mod k z : 0 <= k -> Z.land z (Z.ones k) = z mod 2 ^ k.
Proof. apply Z.land_ones. Qed.

(** Or-ing a multiple of [2^k] with a value below [2^k] adds them. *)
Lemma lor_mul_pow2 k a b : 0 <= k -> 0 <= b < 2 ^ k -> Z.lor (a * 2 ^ k) b = a * 2 ^ k + b.
Proof.
  intros Hk Hb. symmetry. apply Z.add_nocarry_lor.
  apply Z.bits_inj'. intros i Hi. rewrite Z.land_spec, Z.bits_0.
  destruct (Z.lt_ge_cases i k).
  - by rewrite Z.mul_pow2_bits_low.
  - rewrite (in_width_testbit k b) by done. by rewrite andb_false_r.
Qed.

(** ** Solving routine goals *)
(** Splits a chain of boolean tests in a hypothesis into their propositions. *)
Ltac btac :=
  repeat match goal with
  | H : _ && _ = true |- _ => apply andb_true_iff in H as [? ?]
  | H : negb _ = true |- _ => apply negb_true_iff in H
  | H : bool_decide _ = true |- _ => apply bool_decide_eq_true in H
  | H : bool_decide _ = false |- _ => apply bool_decide_eq_false in H
  | H : (_ <=? _)%Z = true |- _ => apply Z.leb_le in H
  | H : (_ <=? _)%Z = false |- _ => apply Z.leb_gt in H
  | H : (_ <? _)%Z = true |- _ => apply Z.ltb_lt in H
  | H : (_ <? _)%Z = false |- _ => apply Z.ltb_ge in H
  | H : (_ =? _)%Z = true |- _ => apply Z.eqb_eq in H
  | H : (_ =? _)%Z = false |- _ => apply Z.eqb_neq in H
  end.

(** Closes a decidable closed goal by evaluation. *)
Ltac by_decide :=
  match goal with |- ?P => apply (bool_decide_eq_true_1 P); vm_compute; reflexivity end.

(** A property of all bytes, by evaluation at each of them. *)
Lemma check_byte (P : Z -> bool) z : forallb P (seqZ 0 256) = true -> 0 <= z < 256 -> P z = true.
Proof. rewrite forallb_forall. intros HP Hz. apply HP, list_elem_of_In, elem_of_seqZ. lia. Qed.

(** The length of a slice. *)
Definition len {A} (l : list A) : Z := Z.of_nat (length l).

(** ** Bytes and text

    A byte string is a list of [Z] in [0, 256); Rust [String]s are [string]s
    whose characters are their UTF-8 bytes. *)
Definition byte_of_ascii (c : Ascii.ascii) : Z := Z.of_N (Ascii.N_of_ascii c).

Fixpoint as_bytes (s : string) : list Z :=
  match s with
  | EmptyString => []
  | String c s' => byte_of_ascii c :: as_bytes s'
  end.

Definition bytes_ok (l : list Z) : Prop := Forall is_u8 l.

Lemma byte_of_ascii_u8 c : is_u8 (byte_of_ascii c).
Proof.
  unfold byte_of_ascii, in_width. pose proof (Ascii.N_ascii_bounded c). lia.
Qed.

Lemma as_bytes_ok s : bytes_ok (as_bytes s).
Proof. induction s; constructor; auto using byte_of_ascii_u8. Qed.

Lemma as_bytes_length s : length (as_bytes s) = String.length s.
Proof. induction s; simpl; congruence. Qed.

#[global] Instance as_bytes_inj : Inj (=) (=) as_bytes.
Proof.
  intros s. induction s as [|c s IH]; intros [|c' s']; simpl; intros [=]; [done|].
  f_equal; [|by apply IH].
  rewrite <- (Ascii.ascii_N_embedding c), <- (Ascii.ascii_N_embedding c').
  unfold byte_of_ascii in *. f_equal. lia.
Qed.

(** Rust's [str::starts_with]. *)
Definition starts_with (s p : string) : bool := String.prefix p s.

(** Rust's [to_string] of an unsigned integer. *)
Definition dec (z : Z) : string := pretty (Z.to_N z).

Lemma dec_inj a b : 0 <= a -> 0 <= b -> dec a = dec b -> a = b.
Proof. unfold dec. intros Ha Hb H%(inj pretty). lia. Qed.

(** *** Scanning text *)
Fixpoint all_chars (p : ascii -> bool) (s : string) : bool :=
  match s with
  | EmptyString => true
  | String c s' => p c && all_chars p s'
  end.

Definition not_char (c d : ascii) : bool := negb (bool_decide (c = d)).

Definition is_digit (c : ascii) : bool := (48 <=? byte_of_ascii c) && (byte_of_ascii c <=? 57).

Fixpoint digits_value (acc : Z) (s : string) : Z :=
  match s with
  | EmptyString => acc
  | String c s' => digits_value (acc * 10 + (byte_of_ascii c - 48)) s'
  end.

(** [from_str] of an unsigned integer type: an optional plus sign, then digits. *)
Definition parse_unsigned (max : Z) (s : string) : option Z :=
  let digits := match s with String "+" s' => s' | _ => s end in
  match digits with
  | EmptyString => None
  | _ => if all_chars is_digit digits && (digits_value 0 digits <=? max)
         then Some (digits_value 0 digits) else None
  end.
Definition parse_u8 : string -> option Z := parse_unsigned 255.
Definition parse_u32 : string -> option Z := parse_unsigned u32_max.
Definition parse_u64 : string -> option Z := parse_unsigned u64_max.

Lemma pretty_N_char_digit x : (x < 10)%N ->
  is_digit (pretty_N_char x) = true /\ byte_of_ascii (pretty_N_char x) - 48 = Z.of_N x.
Proof.
  intros Hx. assert (x = 0 \/ x = 1 \/ x = 2 \/ x = 3 \/ x = 4 \/ x = 5 \/ x = 6 \/ x = 7 \/ x = 8 \/ x = 9)%N as Hc by lia.
  by repeat destruct Hc as [->|Hc]; [..|subst x].
Qed.

Lemma pretty_N_go_digits x s :
  all_chars is_digit (pretty_N_go x s) = all_chars is_digit s
  /\ digits_value 0 (pretty_N_go x s) = digits_value (Z.of_N x) s
  /\ (pretty_N_go x s = EmptyString -> x = 0%N).
Proof.
  revert s. induction (N.lt_wf_0 x) as [x _ IH]; intros s.
  destruct (decide (x = 0)%N) as [->|Hx]; [by rewrite pretty_N_go_0|].
  rewrite pretty_N_go_step by lia.
  destruct (IH (x / 10)%N) with (s := String (pretty_N_char (x mod 10)) s) as (-> & -> & Hn).
  { apply N.div_lt; lia. }
  destruct (pretty_N_char_digit (x mod 10)) as [Hd Hv]; [apply N.mod_lt; lia|].
  cbn [all_chars digits_value]. rewrite Hd, Hv. split; [done|]. split; [f_equal; pose proof (N.div_mod x 10 ltac:(lia)); lia|].
  intros E. exfalso. assert (x / 10 = 0)%N as E0 by (by apply Hn). rewrite E0 in E. by rewrite pretty_N_go_0 in E.
Qed.

Lemma dec_digits z : 0 <= z ->
  all_chars is_digit (dec z) = true /\ digits_value 0 (dec z) = z /\ dec z <> EmptyString.
Proof.
  intros Hz. unfold dec, pretty, pretty_N. case_decide as E; [by replace z with 0 by lia|].
  destruct (pretty_N_go_digits (Z.to_N z) "") as (-> & -> & Hn). cbn. split; [done|]. split; [lia|].
  intros He. by apply E, Hn.
Qed.

Lemma parse_unsigned_dec max z : 0 <= z <= max -> parse_unsigned max (dec z) = Some z.
Proof.
  intros Hz. destruct (dec_digits z ltac:(lia)) as (Hd & Hv & Hn). unfold parse_unsigned.
  destruct (dec z) as [|c s] eqn:E; [done|].
  assert ((match String c s with String "+" s' => s' | _ => String c s end) = String c s) as ->.
  { cbn in Hd. destruct c as [[] [] [] [] [] [] [] []]; try done. }
  rewrite Hd, Hv. by rewrite (proj2 (Z.leb_le z max)) by lia.
Qed.

(** [str::strip_prefix]. *)
Fixpoint strip_prefix (p s : string) : option string :=
  match p, s with
  | EmptyString, _ => Some s
  | String a p', String b s' => if bool_decide (a = b) then strip_prefix p' s' else None
  | _, EmptyString => None
  end.

Lemma strip_prefix_app p s : strip_prefix p (p +:+ s) = Some s.
Proof. induction p as [|c p IH]; cbn; [done|]. by rewrite bool_decide_eq_true_2. Qed.

(** [str::split] at every character that satisfies [p]. *)
Fixpoint split_by (p : ascii -> bool) (s : string) : list string :=
  match s with
  | EmptyString => [EmptyString]
  | String d s' =>
      if p d then EmptyString :: split_by p s'
      else match split_by p s' with
           | h :: t => String d h :: t
           | [] => [String d EmptyString]
           end
  end.

(** [str::split(c)]. *)
Definition split_on (c : ascii) : string -> list string := split_by (fun d => bool_decide (c = d)).

(** [str::split_once(c)]. *)
Fixpoint split_once (c : ascii) (s : string) : option (string * string) :=
  match s with
  | EmptyString => None
  | String d s' =>
      if bool_decide (c = d) then Some (EmptyString, s')
      else match split_once c s' with
           | Some (a, b) => Some (String d a, b)
           | None => None
           end
  end.

Lemma split_by_nosep p s : all_chars (fun c => negb (p c)) s = true -> split_by p s = [s].
Proof.
  induction s as [|d s IH]; simpl; [done|]. intros [Hd Hs]%andb_true_iff.
  apply negb_true_iff in Hd. by rewrite Hd, IH.
Qed.

Lemma split_by_app p s d t :
  all_chars (fun c => negb (p c)) s = true -> p d = true ->
  split_by p (s +:+ String d t) = s :: split_by p t.
Proof.
  intros Hs Hd. induction s as [|e s IH]; simpl in *; [by rewrite Hd|].
  apply andb_true_iff in Hs as [He Hs]. apply negb_true_iff in He. by rewrite He, IH.
Qed.

Lemma split_on_nosep c s : all_chars (not_char c) s = true -> split_on c s = [s].
Proof. apply split_by_nosep. Qed.

Lemma split_on_app c s t :
  all_chars (not_char c) s = true -> split_on c (s +:+ String c t) = s :: split_on c t.
Proof. intros Hs. apply split_by_app; [done|]. by apply bool_decide_eq_true_2. Qed.

Lemma split_once_app c s t :
  all_chars (not_char c) s = true -> split_once c (s +:+ String c t) = Some (s, t).
Proof.
  induction s as [|d s IH]; simpl; [by rewrite bool_decide_true|]. unfold not_char at 1.
  intros H. btac. rewrite bool_decide_false by done. by rewrite IH.
Qed.

Lemma sapp_assoc (a b c : string) : a +:+ (b +:+ c) = (a +:+ b) +:+ c.
Proof. induction a as [|x a IH]; simpl; congruence. Qed.

Lemma sapp_nil_r (a : string) : a +:+ EmptyString = a.
Proof. induction a as [|x a IH]; simpl; congruence. Qed.

Lemma all_chars_app p s t : all_chars p (s +:+ t) = all_chars p s && all_chars p t.
Proof. induction s as [|c s IH]; simpl; [done|]. by rewrite IH, andb_assoc. Qed.

Lemma all_chars_impl (p q : ascii -> bool) s :
  (forall c, p c = true -> q c = true) -> all_chars p s = true -> all_chars q s = true.
Proof.
  intros Hpq. induction s as [|c s IH]; simpl; [done|]. intros [? ?]%andb_true_iff.
  apply andb_true_iff; auto.
Qed.

(** *** Trimming

    [str::trim] removes characters of Unicode's [White_Space] at both ends; each
    is listed by its UTF-8 bytes. *)
Definition utf8 (l : list Z) : string :=
  foldr (fun b s => String (ascii_of_N (Z.to_N b)) s) EmptyString l.

Definition white_space : list string :=
  ([utf8 [9]; utf8 [10]; utf8 [11]; utf8 [12]; utf8 [13]; utf8 [32];
   utf8 [194; 133]; utf8 [194; 160]; utf8 [225; 154; 128]] ++
  ((fun b => utf8 [226; 128; b]) <$> seqZ 128 11) ++
  [utf8 [226; 128; 168]; utf8 [226; 128; 169]; utf8 [226; 128; 175];
   utf8 [226; 129; 159]; utf8 [227; 128; 128]])%list.

Fixpoint string_drop (n : nat) (s : string) : string :=
  match n, s with
  | O, _ => s
  | S n', String _ s' => string_drop n' s'
  | S _, EmptyString => EmptyString
  end.

Fixpoint string_rev_app (s acc : string) : string :=
  match s with
  | EmptyString => acc
  | String c s' => string_rev_app s' (String c acc)
  end.
Definition string_rev (s : string) : string := string_rev_app s EmptyString.

(** Drops leading occurrences of the patterns; [String.length s] rounds are
    enough because every pattern is non-empty. *)
Fixpoint strip_leading (pats : list string) (fuel : nat) (s : string) : string :=
  match fuel with
  | O => s
  | S fuel' =>
      match List.find (fun p => String.prefix p s) pats with
      | Some p => strip_leading pats fuel' (string_drop (String.length p) s)
      | None => s
      end
  end.

Definition trim_start (s : string) : string := strip_leading white_space (String.length s) s.
Definition trim_end (s : string) : string :=
  string_rev (strip_leading (string_rev <$> white_space) (String.length s) (string_rev s)).
Definition trim (s : string) : string := trim_end (trim_start s).

(** A text whose first and last characters are ASCII and not white space is
    its own trimmed form. *)
Definition trim_safe (c : ascii) : bool := (33 <=? byte_of_ascii c) && (byte_of_ascii c <=? 126).

Lemma strip_leading_safe pats n c s :
  forallb (fun p => match p with String d _ => negb (trim_safe d) | EmptyString => false end) pats
    = true ->
  trim_safe c = true -> strip_leading pats n (String c s) = String c s.
Proof.
  intros Hp Hc. destruct n as [|n]; simpl; [done|].
  destruct (List.find _ pats) as [p|] eqn:E; [|done]. exfalso.
  apply List.find_some in E as [Hin Hpre]. rewrite forallb_forall in Hp. specialize (Hp p Hin).
  destruct p as [|d p]; [done|]. simpl in Hpre. case_match; [|done]. subst. by rewrite Hc in Hp.
Qed.

Lemma string_rev_app_spec s acc : string_rev_app s acc = string_rev s +:+ acc.
Proof.
  unfold string_rev. revert acc. induction s as [|c s IH]; intros acc; simpl; [done|].
  rewrite IH, (IH (String c EmptyString)). by rewrite <- sapp_assoc.
Qed.

Lemma string_rev_involutive s : string_rev (string_rev s) = s.
Proof.
  assert (forall s acc, string_rev_app (string_rev_app s acc) EmptyString
    = string_rev_app acc s) as H.
  { intros t. induction t as [|c t IH]; intros acc; simpl; [done|]. by rewrite IH. }
  unfold string_rev. by rewrite H.
Qed.

Lemma trim_id s c t d u :
  s = String c t -> string_rev s = String d u -> trim_safe c = true -> trim_safe d = true ->
  trim s = s.
Proof.
  intros Hs Hr Hc Hd. unfold trim, trim_start, trim_end.
  rewrite Hs at 1 2 3 4. rewrite strip_leading_safe by (vm_compute; done || done).
  rewrite <- Hs, Hr. rewrite strip_leading_safe by (vm_compute; done || done).
  rewrite <- Hr. apply string_rev_involutive.
Qed.

Lemma all_chars_rev_app p s acc :
  all_chars p (string_rev_app s acc) = all_chars p s && all_chars p acc.
Proof.
  revert acc. induction s as [|c s IH]; intros acc; simpl; [done|]. rewrite IH. simpl.
  by rewrite andb_assoc, (andb_comm (all_chars p s)).
Qed.

Lemma trim_safe_id s : all_chars trim_safe s = true -> trim s = s.
Proof.
  intros Hs. destruct s as [|c t] eqn:E; [done|]. rewrite <- E in *.
  destruct (string_rev s) as [|d u] eqn:Er.
  - rewrite <- (string_rev_involutive s), Er. done.
  - apply (trim_id s c t d u); [done..| |].
    + rewrite E in Hs. simpl in Hs. by btac.
    + assert (all_chars trim_safe (string_rev s) = true) as Hr.
      { unfold string_rev. rewrite all_chars_rev_app, Hs. done. }
      rewrite Er in Hr. simpl in Hr. by btac.
Qed.

(** ASCII white space around a text is what [trim] removes. *)
Definition ascii_blank (c : ascii) : bool :=
  (9 <=? byte_of_ascii c) && (byte_of_ascii c <=? 13) || (byte_of_ascii c =? 32).

Lemma strip_leading_blank n c s :
  ascii_blank c = true ->
  strip_leading white_space (S n) (String c s) = strip_leading white_space n s
  /\ strip_leading (string_rev <$> white_space) (S n) (String c s)
     = strip_leading (string_rev <$> white_space) n s.
Proof.
  destruct c as [[] [] [] [] [] [] [] []]; intros Hc; vm_compute in Hc; try discriminate Hc;
    destruct s; split; reflexivity.
Qed.

Lemma strip_leading_blanks b n s :
  all_chars ascii_blank b = true ->
  strip_leading white_space (String.length b + n) (b +:+ s) = strip_leading white_space n s
  /\ strip_leading (string_rev <$> white_space) (String.length b + n) (b +:+ s)
     = strip_leading (string_rev <$> white_space) n s.
Proof.
  induction b as [|c b IH]; cbn [all_chars String.length Nat.add]; [done|].
  intros [Hc Hb]%andb_true_iff. change (String c b +:+ s) with (String c (b +:+ s)).
  destruct (strip_leading_blank (String.length b + n) c (b +:+ s) Hc) as [-> ->]. by apply IH.
Qed.

Lemma sapp_length (a b : string) : String.length (a +:+ b) = (String.length a + String.length b)%nat.
Proof. induction a as [|c a IH]; simpl; congruence. Qed.

Lemma string_rev_app_distr (a b : string) : string_rev (a +:+ b) = string_rev b +:+ string_rev a.
Proof.
  unfold string_rev at 1. assert (forall acc, string_rev_app (a +:+ b) acc
    = string_rev_app b (string_rev_app a acc)) as E.
  { induction a as [|c a IH]; intros acc; simpl; [done|]. apply IH. }
  rewrite E, string_rev_app_spec. by rewrite (string_rev_app_spec a EmptyString), sapp_nil_r.
Qed.

Lemma string_rev_length s : String.length (string_rev s) = String.length s.
Proof.
  induction s as [|c s IH]; [done|]. unfold string_rev. simpl.
  rewrite string_rev_app_spec, sapp_length, IH. simpl. lia.
Qed.

Lemma trim_blanks_l b s : all_chars ascii_blank b = true -> trim (b +:+ s) = trim s.
Proof.
  intros Hb. unfold trim, trim_start. rewrite sapp_length.
  by rewrite (proj1 (strip_leading_blanks b (String.length s) s Hb)).
Qed.

Lemma trim_pad s b :
  all_chars trim_safe s = true -> all_chars ascii_blank b = true -> trim (s +:+ b) = s.
Proof.
  intros Hs Hb. destruct s as [|c t].
  { replace (EmptyString +:+ b) with (b +:+ EmptyString) by apply sapp_nil_r. by rewrite trim_blanks_l. }
  assert (trim_safe c = true) as Hc by (simpl in Hs; by btac).
  rewrite <- (trim_safe_id (String c t)) at 2 by done. unfold trim, trim_start.
  change (String c t +:+ b) with (String c (t +:+ b)).
  rewrite !strip_leading_safe by (vm_compute; done || done).
  change (String c (t +:+ b)) with (String c t +:+ b). unfold trim_end.
  rewrite string_rev_app_distr, sapp_length, Nat.add_comm, <- (string_rev_length b).
  rewrite (proj2 (strip_leading_blanks (string_rev b) _ _ ltac:(unfold string_rev;
    by rewrite all_chars_rev_app, Hb))). done.
Qed.

Lemma utf8_as_bytes s : utf8 (as_bytes s) = s.
Proof.
  induction s as [|c s IH]; [done|]. cbn [as_bytes]. unfold utf8 in *. cbn [foldr].
  rewrite IH. unfold byte_of_ascii. by rewrite N2Z.id, ascii_N_embedding.
Qed.

(** [std::str::from_utf8]: which byte strings are UTF-8. *)
Definition between (lo hi z : Z) : bool := (lo <=? z) && (z <=? hi).
Definition continuation (z : Z) : bool := between 128 191 z.

Definition utf8_lead3 (a b : Z) : bool :=
  (a =? 224) && between 160 191 b || between 225 236 a && continuation b
  || (a =? 237) && between 128 159 b || between 238 239 a && continuation b.

Definition utf8_lead4 (a b : Z) : bool :=
  (a =? 240) && between 144 191 b || between 241 243 a && continuation b
  || (a =? 244) && between 128 143 b.

Fixpoint utf8_valid (l : list Z) : bool :=
  match l with
  | [] => true
  | a :: l1 =>
      if a <? 128 then utf8_valid l1
      else match l1 with
      | [] => false
      | b :: l2 =>
          if between 194 223 a then continuation b && utf8_valid l2
          else match l2 with
          | [] => false
          | c :: l3 =>
              if between 224 239 a then utf8_lead3 a b && continuation c && utf8_valid l3
              else match l3 with
              | [] => false
              | d :: l4 => utf8_lead4 a b && continuation c && continuation d && utf8_valid l4
              end
          end
      end
  end.

Lemma utf8_valid_ascii s : all_chars (fun c => byte_of_ascii c <? 128) s = true -> utf8_valid (as_bytes s) = true.
Proof.
  induction s as [|c s IH]; cbn [all_chars as_bytes utf8_valid]; [done|].
  intros [Hc Hs]%andb_true_iff. rewrite Hc. by apply IH.
Qed.

(** ** Big-endian encodings *)
Definition from_be16 (a b : Z) : Z := a * 256 + b.
Definition from_be32 (a b c d : Z) : Z := ((a * 256 + b) * 256 + c) * 256 + d.
Definition to_be16 (z : Z) : list Z := [z / 256; z mod 256].
Definition to_be32 (z : Z) : list Z :=
  [z / 2 ^ 24; (z / 2 ^ 16) mod 256; (z / 2 ^ 8) mod 256; z mod 256].

Lemma to_be32_value z : is_u32 z ->
  exists a b c d, to_be32 z = [a; b; c; d] /\ from_be32 a b c d = z.
Proof.
  intros Hz. unfold to_be32. do 4 eexists. split; [reflexivity|]. unfold from_be32, in_width in *.
  Z.to_euclidean_division_equations. lia.
Qed.

(** ** Loops with a machine-integer counter

    [loop_pow2 k step s] runs [step] at most [2^k] times, stopping at the first
    [inl].  The recursion is on [k], so a loop that is bounded by the width of
    its counter is total and still computes. *)
Fixpoint loop_pow2 {A S : Type} (k : nat) (step : S -> A + S) (s : S) : A + S :=
  match k with
  | O => step s
  | S k' => match loop_pow2 k' step s with
            | inl a => inl a
            | inr s' => loop_pow2 k' step s'
            end
  end.

(** Running [n] steps. *)
Fixpoint loop_steps {A S : Type} (n : nat) (step : S -> A + S) (s : S) : A + S :=
  match n with
  | O => inr s
  | Datatypes.S n' => match step s with
                      | inl a => inl a
                      | inr s' => loop_steps n' step s'
                      end
  end.

Lemma loop_steps_add {A S} n m (step : S -> A + S) s :
  loop_steps (n + m) step s
  = match loop_steps n step s with inl a => inl a | inr s' => loop_steps m step s' end.
Proof. revert s. induction n as [|n IH]; intros s; simpl; [done|]. by destruct (step s). Qed.

Lemma loop_pow2_steps {A S} k (step : S -> A + S) s :
  loop_pow2 k step s = loop_steps (2 ^ k) step s.
Proof.
  revert s. induction k as [|k IH]; intros s; simpl.
  - by destruct (step s).
  - rewrite IH, Nat.add_0_r, loop_steps_add. by destruct (loop_steps _ step s).
Qed.

(** A test of what an option holds. *)
Definition some_such {A} (P : A -> bool) (o : option A) : bool :=
  match o with Some a => P a | None => false end.

Lemma some_such_that {A} (P : A -> bool) (o : option A) : some_such P o = true -> exists a, o = Some a /\ P a = true.
Proof. destruct o as [a|]; cbn; [|done]. eauto. Qed.

Lemma length_omap_le {A B} (f : A -> option B) (l : list A) : (length (omap f l) <= length l)%nat.
Proof. induction l as [|x l IH]; cbn; [lia|]. destruct (f x); cbn; lia. Qed.

(** What a loop returns, some step returned. *)
Lemma loop_pow2_inl {A S} k (step : S -> A + S) s a :
  loop_pow2 k step s = inl a -> exists s', step s' = inl a.
Proof.
  rewrite loop_pow2_steps. generalize (2 ^ k)%nat as n. intros n. revert s.
  induction n as [|n IH]; intros s; simpl; [done|].
  destruct (step s) as [a'|s'] eqn:E; [|apply IH]. intros [= <-]. eauto.
Qed.

(** A loop over a counter that starts at [i] finds the first value at which
    the body stops, if there is one among the [n] values it visits. *)
Lemma loop_steps_first {A} n (f : Z -> A + Z) (g : Z -> option A) i :
  (forall j, i <= j < i + Z.of_nat n ->
     match g j with
     | Some a => f j = inl a
     | None => exists j', f j = inr j' /\ (j + 1 < i + Z.of_nat n -> j' = j + 1)
     end) ->
  match loop_steps n f i with
  | inl a => exists j, i <= j < i + Z.of_nat n /\ g j = Some a
                       /\ forall j', i <= j' < j -> g j' = None
  | inr _ => forall j', i <= j' < i + Z.of_nat n -> g j' = None
  end.
Proof.
  revert i. induction n as [|n IH]; intros i Hf; simpl; [lia|].
  pose proof (Hf i ltac:(lia)) as Hi. destruct (g i) as [a|] eqn:E.
  - rewrite Hi. exists i. split; [lia|]. split; [done|lia].
  - destruct Hi as (j1 & -> & Hj1). destruct n as [|n].
    + simpl. intros j' Hj'. by replace j' with i by lia.
    + rewrite Hj1 by lia.
      specialize (IH (i + 1)). destruct (loop_steps (S n) f (i + 1)) as [a|j].
      * destruct IH as (j & Hj & Hg & Hlt).
        { intros j Hj. pose proof (Hf j ltac:(lia)) as Hfj. destruct (g j); [done|].
          destruct Hfj as (j2 & ? & ?). exists j2. split; [done|lia]. }
        exists j. split; [lia|]. split; [done|].
        intros j' Hj'. destruct (decide (j' = i)) as [->|]; [done|]. apply Hlt. lia.
      * intros j' Hj'. destruct (decide (j' = i)) as [->|]; [done|]. apply IH; [|lia].
        intros j2 Hj2. pose proof (Hf j2 ltac:(lia)) as Hfj. destruct (g j2); [done|].
        destruct Hfj as (j3 & ? & ?). exists j3. split; [done|lia].
Qed.

(** ** Stable sorting by a key

    [sort_by leb] is Rust's [sort_by_key]: a stable sort. *)
Section StableSort.
Context {A : Type} (leb : A -> A -> bool).

Fixpoint insert_by (x : A) (l : list A) : list A :=
  match l with
  | [] => [x]
  | y :: l' => if leb x y then x :: y :: l' else y :: insert_by x l'
  end.

Definition sort_by (l : list A) : list A := foldr insert_by [] l.

Lemma insert_by_perm x l : insert_by x l ≡ₚ x :: l.
Proof.
  induction l as [|y l IH]; simpl; [done|]. destruct (leb x y); [done|].
  rewrite IH. by rewrite Permutation_swap.
Qed.

Lemma sort_by_perm l : sort_by l ≡ₚ l.
Proof. induction l as [|x l IH]; simpl; [done|]. by rewrite insert_by_perm, IH. Qed.

Lemma sort_by_length l : length (sort_by l) = length l.
Proof. apply Permutation_length, sort_by_perm. Qed.

Lemma sort_by_elem x l : x ∈ sort_by l <-> x ∈ l.
Proof. by rewrite sort_by_perm. Qed.

Context (leb_total : forall x y, leb x y = true \/ leb y x = true)
        (leb_trans : forall x y z, leb x y = true -> leb y z = true -> leb x z = true).

Lemma insert_by_sorted x l :
  StronglySorted (fun a b => leb a b = true) l ->
  StronglySorted (fun a b => leb a b = true) (insert_by x l).
Proof.
  induction 1 as [|y l Hl IH Hy]; simpl; [repeat constructor|].
  destruct (leb x y) eqn:E.
  - constructor; [by constructor|]. constructor; [done|].
    eapply Forall_impl; [exact Hy|]. eauto.
  - constructor; [done|]. rewrite insert_by_perm. constructor; [|done].
    destruct (leb_total x y); [congruence|done].
Qed.

Lemma sort_by_sorted l : StronglySorted (fun a b => leb a b = true) (sort_by l).
Proof. induction l; simpl; [constructor|]. by apply insert_by_sorted. Qed.

(** When ties only arise between equal elements, the sorted list does not
    depend on the order in which the elements arrived. *)
Lemma sort_by_unique l k :
  (forall x y, x ∈ l -> y ∈ l -> leb x y = true -> leb y x = true -> x = y) ->
  l ≡ₚ k -> sort_by l = sort_by k.
Proof.
  intros Hanti Hp. eapply (StronglySorted_unique_strong (fun a b => leb a b = true)).
  - intros x y Hx Hy. rewrite sort_by_elem in Hx, Hy. apply Hanti; [done|]. by rewrite Hp.
  - apply sort_by_sorted.
  - apply sort_by_sorted.
  - by rewrite !sort_by_perm.
Qed.
End StableSort.

(** Sorting commutes with a map that does not change the key. *)
Lemma sort_by_fmap {A B} (leb : A -> A -> bool) (leb' : B -> B -> bool) (f : A -> B) l :
  (forall x y, leb' (f x) (f y) = leb x y) ->
  sort_by leb' (f <$> l) = f <$> sort_by leb l.
Proof.
  intros Hf. assert (forall x k, insert_by leb' (f x) (f <$> k) = f <$> insert_by leb x k) as Hins.
  { intros x k. induction k as [|y k IH]; csimpl; [done|]. rewrite Hf, IH. by destruct (leb x y). }
  induction l as [|x l IH]; csimpl; [done|]. by rewrite IH, Hins.
Qed.

(** ** Lists with distinct keys *)
Lemma NoDup_fmap_elem_inj {A B} (f : A -> B) l x y :
  NoDup (f <$> l) -> x ∈ l -> y ∈ l -> f x = f y -> x = y.
Proof.
  induction l as [|z l IH]; csimpl; [intros _ []%elem_of_nil|].
  rewrite NoDup_cons, !elem_of_cons. intros [Hz Hl] [->|Hx] [->|Hy] E; [done| | |by apply IH].
  - destruct Hz. rewrite E. by apply list_elem_of_fmap_2.
  - destruct Hz. rewrite <- E. by apply list_elem_of_fmap_2.
Qed.

(** ** Maps read in the order of their keys

    A [BTreeMap] with string keys is a [gmap] and the list [btree_iter]. *)
Fixpoint string_leb (s t : string) : bool :=
  match s, t with
  | EmptyString, _ => true
  | String _ _, EmptyString => false
  | String c s', String d t' =>
      if byte_of_ascii c <? byte_of_ascii d then true
      else if byte_of_ascii d <? byte_of_ascii c then false
      else string_leb s' t'
  end.

Definition btree_iter {V} (m : gmap string V) : list (string * V) :=
  sort_by (fun a b => string_leb a.1 b.1) (map_to_list m).

Lemma byte_of_ascii_inj c d : byte_of_ascii c = byte_of_ascii d -> c = d.
Proof.
  unfold byte_of_ascii. intros E%N2Z.inj. rewrite <- (ascii_N_embedding c), E. apply ascii_N_embedding.
Qed.

Lemma string_leb_total s t : string_leb s t = true \/ string_leb t s = true.
Proof.
  revert t. induction s as [|c s IH]; intros [|d t]; simpl; auto.
  destruct (Z.ltb_spec (byte_of_ascii c) (byte_of_ascii d)), (Z.ltb_spec (byte_of_ascii d) (byte_of_ascii c)); auto.
Qed.

Lemma string_leb_antisym s t : string_leb s t = true -> string_leb t s = true -> s = t.
Proof.
  revert t. induction s as [|c s IH]; intros [|d t]; simpl; try done.
  destruct (Z.ltb_spec (byte_of_ascii c) (byte_of_ascii d)), (Z.ltb_spec (byte_of_ascii d) (byte_of_ascii c));
    try done; try lia. intros H1 H2. f_equal; [apply byte_of_ascii_inj; lia|by apply IH].
Qed.

Lemma string_leb_trans s t u : string_leb s t = true -> string_leb t u = true -> string_leb s u = true.
Proof.
  revert t u. induction s as [|c s IH]; intros [|d t] [|e u]; simpl; try done.
  destruct (Z.ltb_spec (byte_of_ascii c) (byte_of_ascii d)), (Z.ltb_spec (byte_of_ascii d) (byte_of_ascii c)),
    (Z.ltb_spec (byte_of_ascii d) (byte_of_ascii e)), (Z.ltb_spec (byte_of_ascii e) (byte_of_ascii d)),
    (Z.ltb_spec (byte_of_ascii c) (byte_of_ascii e)), (Z.ltb_spec (byte_of_ascii e) (byte_of_ascii c));
    try done; try lia. apply IH.
Qed.

(** A list with distinct keys sorts the same way whatever its order. *)
Lemma sort_by_string_key {A} (key : A -> string) l k :
  NoDup (key <$> l) -> l ≡ₚ k ->
  sort_by (fun a b => string_leb (key a) (key b)) l = sort_by (fun a b => string_leb (key a) (key b)) k.
Proof.
  intros Hnd. apply sort_by_unique.
  - intros x y. apply string_leb_total.
  - intros x y z. apply string_leb_trans.
  - intros x y Hx Hy H1 H2. apply (NoDup_fmap_elem_inj key l); [done..|]. by apply string_leb_antisym.
Qed.

Lemma btree_iter_perm {V} (m : gmap string V) : btree_iter m ≡ₚ map_to_list m.
Proof. apply sort_by_perm. Qed.

Lemma btree_iter_elem {V} (m : gmap string V) k x : (k, x) ∈ btree_iter m <-> m !! k = Some x.
Proof. rewrite btree_iter_perm. apply elem_of_map_to_list. Qed.

(** ** Hints *)
Create HintDb tetron discriminated.

#[export] Hint Resolve wrap_in_width land_in_width lor_in_width as_bytes_ok : tetron.
#[export] Hint Extern 1 (0 <= _)%Z => lia : tetron.
