(* ===== verification/Externs.v ===== *)
(** * Code outside the repository, as interfaces

    tetron calls the iroh key types, blake3, bs58, the MessagePack codec of
    rmp_serde and the token bucket of the ratelimit crate.  None of these is in
    the repository.  Each is a class: the operations tetron calls, and beside
    it a class of laws, the documented behaviour that the theorems rely on.
    [Module Demo] has concrete instances, used to evaluate the model. *)

From S2P Require Import Prelude.

(** ** Keys

    [iroh::EndpointId] is an Ed25519 public key: 32 bytes.  It is modelled by
    the number those bytes spell in big-endian order, so that comparing
    [as_bytes] lexicographically is comparing the numbers. *)
Definition in256 (z : Z) : bool := (0 <=? z) && (z <? 2 ^ 256).

Record EndpointId := {
  id_key : Z;
  id_key_ok : Is_true (in256 id_key);
}.

Lemma mkId_ok z : Is_true (in256 (z mod 2 ^ 256)).
Proof.
  unfold in256. apply Is_true_true. apply andb_true_iff.
  rewrite Z.leb_le, Z.ltb_lt. apply Z.mod_pos_bound. lia.
Qed.

Definition mkId (z : Z) : EndpointId :=
  {| id_key := z mod 2 ^ 256; id_key_ok := mkId_ok z |}.

Lemma id_key_bound id : 0 <= id_key id < 2 ^ 256.
Proof.
  pose proof (Is_true_true_1 _ (id_key_ok id)) as H. unfold in256 in H. btac. lia.
Qed.

#[global] Instance id_key_inj : Inj (=) (=) id_key.
Proof.
  intros [a Ha] [b Hb]; simpl; intros ->. f_equal. apply proof_irrel.
Qed.

#[global] Instance EndpointId_eq_dec : EqDecision EndpointId.
Proof.
  intros a b. destruct (decide (id_key a = id_key b)) as [E|E].
  - left. by apply (inj id_key).
  - right. by intros ->.
Defined.

Lemma mkId_key id : mkId (id_key id) = id.
Proof. apply (inj id_key). simpl. apply Z.mod_small, id_key_bound. Qed.

#[global] Instance EndpointId_countable : Countable EndpointId :=
  inj_countable' id_key mkId mkId_key.

(** [n] big-endian bytes of [z]. *)
Fixpoint be_bytes (n : nat) (z : Z) : list Z :=
  match n with
  | O => []
  | S n' => be_bytes n' (z / 256) ++ [z mod 256]
  end.

Definition be_value (l : list Z) : Z := fold_left (fun acc b => acc * 256 + b) l 0.

Lemma be_bytes_length n z : length (be_bytes n z) = n.
Proof. revert z. induction n as [|n IH]; intros z; simpl; [done|]. rewrite length_app, IH. simpl. lia. Qed.

Lemma be_value_bytes n z : 0 <= z < 256 ^ Z.of_nat n -> be_value (be_bytes n z) = z.
Proof.
  revert z. induction n as [|n IH]; intros z Hz; simpl; [simpl in Hz; unfold be_value; simpl; lia|].
  unfold be_value in *. rewrite fold_left_app. simpl. rewrite IH.
  - pose proof (Z.div_mod z 256). lia.
  - rewrite Nat2Z.inj_succ, Z.pow_succ_r in Hz by lia. split; [apply Z.div_pos; lia|].
    apply Z.div_lt_upper_bound; lia.
Qed.

Lemma be_bytes_ok n z : bytes_ok (be_bytes n z).
Proof.
  revert z. induction n as [|n IH]; intros z; simpl; [constructor|].
  apply Forall_app. split; [apply IH|]. repeat constructor; apply Z.mod_pos_bound; lia.
Qed.

Lemma be_bytes_S n z : be_bytes (S n) z = be_bytes n (z / 256) ++ [z mod 256].
Proof. done. Qed.

#[global] Arguments be_bytes : simpl never.

(** [EndpointId::as_bytes]. *)
Definition id_as_bytes (id : EndpointId) : list Z := be_bytes 32 (id_key id).

Lemma id_as_bytes_length id : length (id_as_bytes id) = 32%nat.
Proof. apply be_bytes_length. Qed.

#[global] Instance id_as_bytes_inj : Inj (=) (=) id_as_bytes.
Proof.
  intros a b H. apply (inj id_key). unfold id_as_bytes in H.
  pose proof (id_key_bound a). pose proof (id_key_bound b).
  rewrite <- (be_value_bytes 32 (id_key a)), <- (be_value_bytes 32 (id_key b)) by lia.
  by rewrite H.
Qed.

Class IrohKeys := {
  (** [Display for EndpointId]. *)
  id_to_string : EndpointId -> string;
  (** [EndpointId::from_bytes], which fails on bytes that are no curve point. *)
  id_from_bytes : list Z -> option EndpointId;
  (** [SecretKey::from(bytes).public()]. *)
  secret_public : list Z -> EndpointId;
  (** [EndpointId::fmt_short]. *)
  id_fmt_short : EndpointId -> string;
}.

Class IrohKeysLaws `{IrohKeys} : Prop := {
  (** The printed form identifies the key. *)
  id_to_string_inj :: Inj (=) (=) id_to_string;
  (** A key parses back from its own bytes. *)
  id_from_as_bytes : forall id, id_from_bytes (id_as_bytes id) = Some id;
  (** Only the bytes of a key parse to it. *)
  id_from_bytes_sound : forall l id, id_from_bytes l = Some id -> l = id_as_bytes id;
  (** A printed key has 64 hexadecimal digits, of which the short form is the first ten. *)
  id_to_string_length : forall id, String.length (id_to_string id) = 64%nat;
  id_fmt_short_prefix : forall id, id_fmt_short id = String.substring 0 10 (id_to_string id);
}.

(** ** Hashing *)
Abbreviation Hash := (list Z).

Class Blake3 := {
  blake3_hash : list Z -> Hash;
}.

Class Blake3Laws `{Blake3} : Prop := {
  blake3_length : forall l, length (blake3_hash l) = 32%nat;
  blake3_bytes : forall l, bytes_ok (blake3_hash l);
}.

(** Lower-case hexadecimal, [Hash::to_hex]. *)
Definition hex_digit (z : Z) : Ascii.ascii :=
  match String.get (Z.to_nat z) "0123456789abcdef" with
  | Some c => c
  | None => "0"%char
  end.

Fixpoint to_hex (l : list Z) : string :=
  match l with
  | [] => EmptyString
  | b :: l' => String (hex_digit (b / 16)) (String (hex_digit (b mod 16)) (to_hex l'))
  end.

Lemma hex_digit_inj a b : 0 <= a < 16 -> 0 <= b < 16 -> hex_digit a = hex_digit b -> a = b.
Proof.
  intros Ha Hb.
  assert (forallb (fun a => forallb (fun b =>
    implb (bool_decide (hex_digit a = hex_digit b)) (a =? b)) (seqZ 0 16)) (seqZ 0 16) = true) as H
    by (vm_compute; reflexivity).
  rewrite forallb_forall in H.
  assert (forall z, 0 <= z < 16 -> In z (seqZ 0 16)) as Hin
    by (intros; apply list_elem_of_In, elem_of_seqZ; lia).
  specialize (H a (Hin a Ha)). rewrite forallb_forall in H. specialize (H b (Hin b Hb)).
  intros E. rewrite bool_decide_true in H by done. by apply Z.eqb_eq.
Qed.

Lemma to_hex_inj l k : bytes_ok l -> bytes_ok k -> to_hex l = to_hex k -> l = k.
Proof.
  intros Hl. revert k. induction Hl as [|a l Ha Hl IH]; intros [|b k] Hk; simpl; intros [=]; [done|].
  apply Forall_cons_1 in Hk as [Hb Hk]. f_equal; [|by apply IH].
  unfold in_width in *.
  assert (a / 16 = b / 16).
  { apply hex_digit_inj; [..|done]; (split; [apply Z.div_pos; lia|apply Z.div_lt_upper_bound; lia]). }
  assert (a mod 16 = b mod 16).
  { apply hex_digit_inj; [..|done]; apply Z.mod_pos_bound; lia. }
  rewrite (Z.div_mod a 16), (Z.div_mod b 16) by lia. congruence.
Qed.

Lemma to_hex_length l : String.length (to_hex l) = (2 * length l)%nat.
Proof. induction l; simpl; lia. Qed.

(** ** Concrete instances *)
Module Demo.

(** Keys print as 64 hexadecimal digits; every 32-byte string is a key. *)
#[export] Instance keys : IrohKeys := {
  id_to_string id := to_hex (id_as_bytes id);
  id_from_bytes l :=
    if decide (length l = 32%nat /\ bytes_ok l) then Some (mkId (be_value l)) else None;
  secret_public l := mkId (be_value l + 1);
  id_fmt_short id := String.substring 0 10 (to_hex (id_as_bytes id));
}.

Lemma be_bytes_value l : bytes_ok l -> be_bytes (length l) (be_value l) = l.
Proof.
  induction l as [|b l IH] using rev_ind; [done|]. intros [Hl Hb]%Forall_app.
  rewrite Forall_singleton in Hb. unfold in_width in Hb.
  rewrite length_app. replace (length l + length [b])%nat with (S (length l)) by (simpl; lia).
  rewrite be_bytes_S. unfold be_value in *. rewrite fold_left_app. cbn [fold_left].
  rewrite Z.div_add_l, (Z.div_small b), Z.add_0_r by lia. rewrite IH by done.
  by rewrite (Z.add_comm _ b), Z.mod_add, Z.mod_small by lia.
Qed.

Lemma be_value_bound l : bytes_ok l -> 0 <= be_value l < 256 ^ Z.of_nat (length l).
Proof.
  induction l as [|b l IH] using rev_ind; [unfold be_value; simpl; lia|].
  intros [Hl Hb]%Forall_app. rewrite Forall_singleton in Hb. unfold in_width in Hb.
  specialize (IH Hl). rewrite length_app. cbn [length]. rewrite Nat2Z.inj_add.
  rewrite Z.pow_add_r by lia. unfold be_value in *. rewrite fold_left_app. cbn [fold_left].
  change (256 ^ Z.of_nat 1) with 256. lia.
Qed.

#[export] Instance keys_laws : IrohKeysLaws.
Proof.
  split.
  - intros a b H. apply (inj id_as_bytes). apply to_hex_inj; [apply be_bytes_ok..|done].
  - intros id. cbn [id_from_bytes keys]. rewrite decide_True by (split; [apply id_as_bytes_length|apply be_bytes_ok]).
    f_equal. unfold id_as_bytes. rewrite be_value_bytes by exact (id_key_bound id). apply mkId_key.
  - intros l id. cbn [id_from_bytes keys]. case_decide as Hl; [|done]. destruct Hl as [Hlen Hok]. intros [= <-].
    unfold id_as_bytes. cbn [id_key mkId]. pose proof (be_value_bound l Hok) as Hb. rewrite Hlen in Hb.
    rewrite Z.mod_small by exact Hb. rewrite <- Hlen. symmetry. by apply be_bytes_value.
  - intros id. cbn [id_to_string keys]. by rewrite to_hex_length, id_as_bytes_length.
  - done.
Qed.

(** A 32-byte digest: a running polynomial of the input modulo 2^61, followed by zeros. *)
#[export] Instance digest : Blake3 := {
  blake3_hash l := be_bytes 32 (Z.shiftl (fold_left (fun acc b => Z.land (acc * 16777619 + b + 1) (Z.ones 61)) l 7) 192);
}.

#[export] Instance digest_laws : Blake3Laws.
Proof. split; intros; [apply be_bytes_length|apply be_bytes_ok]. Qed.

End Demo.
