(* ===== verification/Addressing.v ===== *)
(** * Overlay addressing (src/src/addressing.rs)

    The overlay subnet, its arithmetic on 32-bit addresses, the derivation of a
    member's IPv4 and IPv6 address from its identity, and the textual CIDR form
    used on disk and on the wire.

    An [Ipv4Addr] is its [u32]; an [Ipv6Addr] is its list of 16 octets.  The two
    functions of addressing.rs that need a roster ([assign_ip] and
    [validate_subnet_matches_roster]) are in the file of the roster, Members. *)

From S2P Require Import Prelude Externs.

Abbreviation Ipv4Addr := Z.
Abbreviation Ipv6Addr := (list Z).
Abbreviation Subnet := (Ipv4Addr * Z)%type.

Definition ipv4_new (a b c d : Z) : Ipv4Addr := from_be32 a b c d.

(** ** Subnet arithmetic *)
Definition default_subnet : Subnet := (ipv4_new 10 88 0 0, 24).

Definition resolve_subnet (subnet : option Subnet) : Subnet := default default_subnet subnet.

(** [1u32 << n]: the shift amount is taken modulo the width. *)
Definition u32_shl (z n : Z) : Z := wrap 32 (Z.shiftl z (n mod 32)).

Definition subnet_host_mask (prefix : Z) : Z :=
  if 32 <=? prefix then 0 else wrap 32 (u32_shl 1 (32 - prefix) - 1).

Definition subnet_netmask (prefix : Z) : Ipv4Addr := u32_not (subnet_host_mask prefix).

Definition ip_in_subnet (ip : Ipv4Addr) (subnet : Subnet) : bool :=
  let '(base_addr, prefix) := subnet in
  let host_mask := subnet_host_mask prefix in
  let base := Z.land base_addr (u32_not host_mask) in
  Z.land ip (u32_not host_mask) =? base.

Definition subnets_overlap (a b : Subnet) : bool :=
  let '(a_addr, a_prefix) := a in
  let '(b_addr, b_prefix) := b in
  let host_mask := subnet_host_mask (Z.min a_prefix b_prefix) in
  Z.land a_addr (u32_not host_mask) =? Z.land b_addr (u32_not host_mask).

(** [1u32.checked_shl(n)]. *)
Definition u32_checked_shl (z n : Z) : option Z :=
  if n <? 32 then Some (wrap 32 (Z.shiftl z n)) else None.

Definition block_size (prefix : Z) : Z := default 0 (u32_checked_shl 1 (wrap 8 (32 - prefix))).

Definition next_base (block : Z) (attempt : Subnet) : Subnet :=
  (wrap 32 (attempt.1 + block), attempt.2).

(** The [for _ in 0..n] loop. *)
Fixpoint next_available_loop (n : nat) (block : Z) (existing : list Subnet) (attempt : Subnet)
  : Subnet :=
  match n with
  | O => attempt
  | S n' =>
      if negb (existsb (fun e => subnets_overlap e attempt) existing) then attempt
      else if block =? 0 then attempt
      else next_available_loop n' block existing (next_base block attempt)
  end.

Definition next_available_attempts : nat := 4096.

Definition next_available_subnet (candidate : Subnet) (existing : list Subnet) : Subnet :=
  next_available_loop next_available_attempts (block_size candidate.2) existing candidate.

Definition subnet_gateway (subnet : Subnet) : Ipv4Addr := wrap 32 (subnet.1 + 1).

(** ** Text forms *)

(** [Display for Ipv4Addr]. *)
Definition ipv4_to_string (ip : Ipv4Addr) : string :=
  dec (ip / 2 ^ 24) +:+ "." +:+ dec ((ip / 2 ^ 16) mod 256) +:+ "." +:+
  dec ((ip / 2 ^ 8) mod 256) +:+ "." +:+ dec (ip mod 256).

(** [Display for Ipv6Addr]: eight groups in hexadecimal, with the first longest run
    of at least two zero groups written as [::]; an IPv4-mapped address shows the
    IPv4 address. *)
Fixpoint groups16 (l : list Z) : list Z :=
  match l with a :: b :: rest => from_be16 a b :: groups16 rest | _ => [] end.

Definition hex16 (z : Z) : string :=
  let d k := hex_digit (z / 2 ^ k mod 16) in
  if z <? 16 then String (d 0) ""
  else if z <? 256 then String (d 4) (String (d 0) "")
  else if z <? 4096 then String (d 8) (String (d 4) (String (d 0) ""))
  else String (d 12) (String (d 8) (String (d 4) (String (d 0) ""))).

Definition span_step (st : (nat * nat) * (nat * nat) * nat) (g : Z) : (nat * nat) * (nat * nat) * nat :=
  let '(longest, current, i) := st in
  if g =? 0 then
    let current := ((if (current.2 =? 0)%nat then i else current.1), S current.2) in
    ((if (longest.2 <? current.2)%nat then current else longest), current, S i)
  else (longest, (O, O), S i).

Definition ipv6_to_string (ip : Ipv6Addr) : string :=
  let gs := groups16 ip in
  if bool_decide (take 6 gs = [0; 0; 0; 0; 0; 65535]) then
    "::ffff:" +:+ ipv4_to_string (from_be32 (nth 12 ip 0) (nth 13 ip 0) (nth 14 ip 0) (nth 15 ip 0))
  else
    let '((start, n), _, _) := fold_left span_step gs ((O, O), (O, O), O) in
    let join l := String.concat ":" (hex16 <$> l) in
    if (1 <? n)%nat then join (take start gs) +:+ "::" +:+ join (drop (start + n) gs) else join gs.

(** One component of [Ipv4Addr::from_str]: one to three digits, at most 255,
    no leading zero. *)
Definition parse_octet (s : string) : option Z :=
  match s with
  | EmptyString => None
  | String c s' =>
      if all_chars is_digit s && (String.length s <=? 3)%nat
         && (bool_decide (s' = EmptyString) || negb (bool_decide (c = "0"%char)))
         && (digits_value 0 s <=? 255)
      then Some (digits_value 0 s) else None
  end.

(** [Ipv4Addr::from_str]. *)
Definition parse_ipv4_addr (s : string) : option Ipv4Addr :=
  match split_on "." s with
  | [a; b; c; d] =>
      match parse_octet a, parse_octet b, parse_octet c, parse_octet d with
      | Some a, Some b, Some c, Some d => Some (ipv4_new a b c d)
      | _, _, _, _ => None
      end
  | _ => None
  end.

Inductive CidrError := NotCidr | BadBase | BadPrefix | PrefixTooLong.

Definition parse_cidr (s : string) : Result Subnet CidrError :=
  match split_once "/" s with
  | None => Err NotCidr
  | Some (base, prefix) =>
      match parse_ipv4_addr (trim base) with
      | None => Err BadBase
      | Some base =>
          match parse_u8 (trim prefix) with
          | None => Err BadPrefix
          | Some prefix => if prefix <=? 32 then Ok (base, prefix) else Err PrefixTooLong
          end
      end
  end.

(** The [cidr_opt] serde helper: an optional CIDR string. *)
Definition format_cidr (s : Subnet) : string := ipv4_to_string s.1 +:+ "/" +:+ dec s.2.

Definition cidr_opt_serialize (v : option Subnet) : option string := format_cidr <$> v.

Definition cidr_opt_deserialize (opt : option string) : Result (option Subnet) CidrError :=
  match opt with
  | None => Ok None
  | Some cidr => sub <-? parse_cidr cidr; Ok (Some sub)
  end.

Definition subnet_change_warning (chosen live : Subnet) : option string :=
  if bool_decide (chosen = live) then None
  else Some ("subnet " +:+ format_cidr chosen +:+
    " takes effect after `sudo tetron restart` (this node's live overlay is still on the previous subnet)").

(** ** Address derivation *)

(** FNV-1a over the bytes, on 32 bits. *)
Definition fnv1a (bytes : list Z) : Z :=
  fold_left (fun hash b => wrap 32 (Z.lxor hash b * 16777619)) bytes 2166136261.

Section Derivation.
Context `{IrohKeys, Blake3}.

Definition derive_ip_with_index (identity : EndpointId) (index : Z) (subnet : Subnet) : Ipv4Addr :=
  let input := if index =? 0 then id_to_string identity
               else id_to_string identity +:+ dec index in
  let hash := fnv1a (as_bytes input) in
  let '(base_addr, prefix) := subnet in
  let host_mask := subnet_host_mask prefix in
  let base := Z.land base_addr (u32_not host_mask) in
  let host_bits := Z.land hash host_mask in
  let host_bits := if host_bits <=? 1 then host_bits + 2 else host_bits in
  Z.lor base host_bits.

Definition derive_ip (identity : EndpointId) (subnet : Subnet) : Ipv4Addr :=
  derive_ip_with_index identity 0 subnet.

Definition IPV6_NETWORK_PREFIX_LEN : Z := 56.

Definition ipv6_network_prefix (network : EndpointId) : Ipv6Addr :=
  let bytes := blake3_hash (as_bytes (id_to_string network)) in
  [2; nth 0 bytes 0; nth 1 bytes 0; nth 2 bytes 0; nth 3 bytes 0; nth 4 bytes 0; nth 5 bytes 0;
   0; 0; 0; 0; 0; 0; 0; 0; 0].

Definition derive_ipv6 (identity network : EndpointId) : Ipv6Addr :=
  let prefix := ipv6_network_prefix network in
  let peer_bytes := blake3_hash (as_bytes (id_to_string identity +:+ ":" +:+ id_to_string network)) in
  (take 7 prefix ++ take 9 peer_bytes)%list.

Definition ipv6_in_network (addr : Ipv6Addr) (network : EndpointId) : bool :=
  let prefix_bytes := Z.to_nat (IPV6_NETWORK_PREFIX_LEN / 8) in
  bool_decide (take prefix_bytes addr = take prefix_bytes (ipv6_network_prefix network)).

End Derivation.

(** ** Lemmas: masks *)

(** The number of host bits of a prefix. *)
Definition host_bits_of (prefix : Z) : Z := 32 - prefix.

Lemma subnet_host_mask_ones p : 1 <= p <= 32 -> subnet_host_mask p = Z.ones (32 - p).
Proof.
  intros Hp. unfold subnet_host_mask. destruct (Z.leb_spec 32 p).
  - by replace p with 32 by lia.
  - unfold u32_shl. rewrite Z.mod_small, Z.shiftl_1_l by lia.
    assert (2 ^ (32 - p) < 2 ^ 32) by (apply Z.pow_lt_mono_r; lia).
    assert (0 < 2 ^ (32 - p)) by (apply Z.pow_pos_nonneg; lia).
    rewrite (wrap_small 32 (2 ^ _)) by (unfold in_width; lia).
    rewrite wrap_small by (unfold in_width; lia). rewrite Z.ones_equiv. lia.
Qed.

Lemma mask_host p z : 1 <= p <= 32 -> Z.land z (subnet_host_mask p) = z mod 2 ^ (32 - p).
Proof. intros Hp. rewrite subnet_host_mask_ones by done. apply land_ones_mod. lia. Qed.

Lemma mask_net p z :
  1 <= p <= 32 -> is_u32 z ->
  Z.land z (u32_not (subnet_host_mask p)) = z / 2 ^ (32 - p) * 2 ^ (32 - p).
Proof. intros Hp Hz. rewrite subnet_host_mask_ones by done. apply land_not_ones; [lia|done]. Qed.

Lemma ip_in_subnet_div ip base p :
  1 <= p <= 32 -> is_u32 ip -> is_u32 base ->
  ip_in_subnet ip (base, p) = true <-> ip / 2 ^ (32 - p) = base / 2 ^ (32 - p).
Proof.
  intros Hp Hi Hb. unfold ip_in_subnet. rewrite !mask_net by done. rewrite Z.eqb_eq.
  assert (0 < 2 ^ (32 - p)) by (apply Z.pow_pos_nonneg; lia). nia.
Qed.

Lemma subnets_overlap_div a b p q :
  1 <= p <= 32 -> 1 <= q <= 32 -> is_u32 a -> is_u32 b ->
  subnets_overlap (a, p) (b, q) = true
  <-> a / 2 ^ (32 - Z.min p q) = b / 2 ^ (32 - Z.min p q).
Proof.
  intros Hp Hq Ha Hb. unfold subnets_overlap. rewrite !mask_net by (done || lia).
  rewrite Z.eqb_eq. assert (0 < 2 ^ (32 - Z.min p q)) by (apply Z.pow_pos_nonneg; lia). nia.
Qed.

(** Equal high parts stay equal when more low bits are dropped. *)
Lemma div_pow2_coarsen x y i j :
  0 <= i <= j -> x / 2 ^ i = y / 2 ^ i -> x / 2 ^ j = y / 2 ^ j.
Proof.
  intros Hij E. replace j with (i + (j - i)) by lia. rewrite Z.pow_add_r by lia.
  assert (0 < 2 ^ i) by (apply Z.pow_pos_nonneg; lia).
  assert (0 < 2 ^ (j - i)) by (apply Z.pow_pos_nonneg; lia).
  rewrite <- !Z.div_div by lia. by rewrite E.
Qed.

Lemma subnets_overlap_sym a b : subnets_overlap a b = subnets_overlap b a.
Proof.
  destruct a as [a p], b as [b q]. unfold subnets_overlap. rewrite Z.min_comm. apply Z.eqb_sym.
Qed.

(** ** Subnets as sets of addresses *)

(** [subnets_overlap] answers exactly whether the two ranges share an
    address: for prefix lengths 1 to 32 it is true if and only if some 32-bit
    address is in both subnets by [ip_in_subnet]. *)
Theorem subnets_overlap_iff_common_address (a b : Subnet) :
  1 <= a.2 <= 32 -> 1 <= b.2 <= 32 -> is_u32 a.1 -> is_u32 b.1 ->
  subnets_overlap a b = true
  <-> exists ip, is_u32 ip /\ ip_in_subnet ip a = true /\ ip_in_subnet ip b = true.
Proof.
  destruct a as [a p], b as [b q]; cbn [fst snd]. intros Hp Hq Ha Hb.
  rewrite subnets_overlap_div by done. split.
  - intros E. destruct (Z.le_ge_cases p q) as [Hpq|Hpq].
    + exists b. rewrite Z.min_l in E by done. by rewrite !ip_in_subnet_div.
    + exists a. rewrite Z.min_r in E by done. by rewrite !ip_in_subnet_div.
  - intros (ip & Hip & H1 & H2). rewrite ip_in_subnet_div in H1, H2 by done.
    trans (ip / 2 ^ (32 - Z.min p q)).
    + symmetry. apply (div_pow2_coarsen _ _ (32 - p)); [lia|done].
    + apply (div_pow2_coarsen _ _ (32 - q)); [lia|done].
Qed.

Lemma subnets_overlap_iff_common_address_witness :
  subnets_overlap (ipv4_new 10 0 0 5, 8) (ipv4_new 10 88 0 0, 16) = true
  <-> exists ip, is_u32 ip /\ ip_in_subnet ip (ipv4_new 10 0 0 5, 8) = true
               /\ ip_in_subnet ip (ipv4_new 10 88 0 0, 16) = true.
Proof. apply subnets_overlap_iff_common_address; vm_compute; intuition congruence. Defined.

(** A prefix length of zero is accepted by [parse_cidr], but the mask shift of
    a release build wraps: the whole-space range becomes the single address. *)
Lemma host_mask_zero_prefix : subnet_host_mask 0 = 0.
Proof. reflexivity. Qed.

(** ** Choosing a free subnet *)

Definition free (existing : list Subnet) (s : Subnet) : bool :=
  negb (existsb (fun e => subnets_overlap e s) existing).

(** The [i]-th candidate tried. *)
Definition nth_attempt (candidate : Subnet) (i : nat) : Subnet :=
  Nat.iter i (next_base (block_size candidate.2)) candidate.

Lemma nth_attempt_shift block s i :
  Nat.iter i (next_base block) (next_base block s) = Nat.iter (S i) (next_base block) s.
Proof. by rewrite Nat.iter_succ_r. Qed.

Lemma next_available_loop_spec n block existing s :
  block <> 0 ->
  let r := next_available_loop n block existing s in
  (exists i, (i < n)%nat /\ r = Nat.iter i (next_base block) s /\ free existing r = true
     /\ forall j, (j < i)%nat -> free existing (Nat.iter j (next_base block) s) = false)
  \/ ((forall j, (j < n)%nat -> free existing (Nat.iter j (next_base block) s) = false)
      /\ r = Nat.iter n (next_base block) s).
Proof.
  intros Hb. revert s. induction n as [|n IH]; intros s r; subst r; simpl.
  - right. split; [lia|done].
  - destruct (negb _) eqn:Hf.
    + left. exists O. split; [lia|]. split; [done|]. split; [exact Hf|lia].
    + rewrite (proj2 (Z.eqb_neq _ _) Hb).
      destruct (IH (next_base block s)) as [(i & Hi & Hr & Hfree & Hj)|[Hj Hr]].
      * left. exists (S i). rewrite Hr in *. rewrite nth_attempt_shift in *.
        repeat split; [lia|done|]. intros [|j] ?; [done|]. rewrite <- nth_attempt_shift.
        apply Hj. lia.
      * right. rewrite Hr, nth_attempt_shift. split; [|done].
        intros [|j] ?; [done|]. rewrite <- nth_attempt_shift. apply Hj. lia.
Qed.

Lemma block_size_pos p : 1 <= p <= 32 -> block_size p <> 0.
Proof.
  intros Hp. unfold block_size, u32_checked_shl.
  rewrite wrap_small by (unfold in_width; lia).
  destruct (Z.ltb_spec (32 - p) 32); [|lia]. simpl. rewrite Z.shiftl_1_l.
  assert (2 ^ (32 - p) < 2 ^ 32) by (apply Z.pow_lt_mono_r; lia).
  assert (0 < 2 ^ (32 - p)) by (apply Z.pow_pos_nonneg; lia).
  rewrite wrap_small; [lia|unfold in_width; lia].
Qed.

(** [next_available_subnet] returns the first block, counting up from the
    candidate by its own block size, that overlaps none of the node's other
    networks; when all 4096 blocks tried overlap, it returns the block after
    them.  Every candidate before the returned one does overlap. *)
Theorem next_available_subnet_first_free (candidate : Subnet) (existing : list Subnet) :
  1 <= candidate.2 <= 32 ->
  let r := next_available_subnet candidate existing in
  (exists i, (i < next_available_attempts)%nat /\ r = nth_attempt candidate i
     /\ free existing r = true
     /\ forall j, (j < i)%nat -> free existing (nth_attempt candidate j) = false)
  \/ ((forall j, (j < next_available_attempts)%nat ->
         free existing (nth_attempt candidate j) = false)
      /\ r = nth_attempt candidate next_available_attempts).
Proof. intros Hp. apply next_available_loop_spec, block_size_pos, Hp. Qed.

Lemma next_available_subnet_first_free_witness :
  next_available_subnet default_subnet [default_subnet] = (ipv4_new 10 88 1 0, 24)
  /\ (let r := next_available_subnet default_subnet [default_subnet] in
     (exists i, (i < next_available_attempts)%nat /\ r = nth_attempt default_subnet i
        /\ free [default_subnet] r = true
        /\ forall j, (j < i)%nat -> free [default_subnet] (nth_attempt default_subnet j) = false)
     \/ ((forall j, (j < next_available_attempts)%nat ->
            free [default_subnet] (nth_attempt default_subnet j) = false)
         /\ r = nth_attempt default_subnet next_available_attempts)).
Proof.
  split; [vm_compute; reflexivity|].
  apply (next_available_subnet_first_free default_subnet [default_subnet]). simpl; lia.
Defined.

(** When it gives up, [next_available_subnet] does not hand back the
    candidate: asked for a /24 in a fully used 10.0.0.0/8 it returns
    10.16.0.0/24, which was never tested and does overlap. *)
Theorem next_available_subnet_gives_up_elsewhere :
  let candidate := (ipv4_new 10 0 0 0, 24) in
  let existing := [(ipv4_new 10 0 0 0, 8)] in
  next_available_subnet candidate existing = (ipv4_new 10 16 0 0, 24)
  /\ next_available_subnet candidate existing <> candidate
  /\ free existing (next_available_subnet candidate existing) = false.
Proof. vm_compute. intuition congruence. Qed.

(** ** Derived addresses *)
Section DerivedAddresses.
Context `{IrohKeys, Blake3}.

(** A derived address is the network part of the base plus a host part that is
    neither 0 (network) nor 1 (gateway). *)
Lemma derive_ip_split id index base p :
  1 <= p <= 30 -> is_u32 base ->
  exists h, 2 <= h < 2 ^ (32 - p)
    /\ derive_ip_with_index id index (base, p) = base / 2 ^ (32 - p) * 2 ^ (32 - p) + h.
Proof.
  intros Hp Hb. unfold derive_ip_with_index.
  set (hash := fnv1a _). rewrite mask_net, mask_host by (done || lia).
  set (k := 32 - p). assert (2 <= k) by lia.
  assert (4 <= 2 ^ k) by (change 4 with (2 ^ 2); apply Z.pow_le_mono_r; lia).
  pose proof (Z.mod_pos_bound hash (2 ^ k)) as Hm.
  exists (if hash mod 2 ^ k <=? 1 then hash mod 2 ^ k + 2 else hash mod 2 ^ k).
  assert (2 <= (if hash mod 2 ^ k <=? 1 then hash mod 2 ^ k + 2 else hash mod 2 ^ k) < 2 ^ k).
  { destruct (Z.leb_spec (hash mod 2 ^ k) 1); lia. }
  split; [done|]. apply lor_mul_pow2; lia.
Qed.

Lemma derive_ip_u32 id index base p :
  1 <= p <= 30 -> is_u32 base -> is_u32 (derive_ip_with_index id index (base, p)).
Proof.
  intros Hp Hb. destruct (derive_ip_split id index base p) as (h & Hh & ->); [done..|].
  unfold in_width in *. assert (2 ^ 32 = 2 ^ p * 2 ^ (32 - p)) as E.
  { rewrite <- Z.pow_add_r by lia. f_equal; lia. }
  assert (0 < 2 ^ (32 - p)) by (apply Z.pow_pos_nonneg; lia).
  assert (base / 2 ^ (32 - p) < 2 ^ p) by (apply Z.div_lt_upper_bound; lia).
  assert (0 <= base / 2 ^ (32 - p)) by (apply Z.div_pos; lia). nia.
Qed.

(** For every identity, collision index and subnet with prefix 1 to 30, the
    derived IPv4 address lies in the subnet and is neither its network address
    nor its gateway (the address the TUN device takes). *)
Theorem derive_ip_in_subnet (id : EndpointId) (index : Z) (subnet : Subnet) :
  1 <= subnet.2 <= 30 -> is_u32 subnet.1 ->
  let ip := derive_ip_with_index id index subnet in
  ip_in_subnet ip subnet = true
  /\ ip <> Z.land subnet.1 (u32_not (subnet_host_mask subnet.2))
  /\ ip <> Z.land subnet.1 (u32_not (subnet_host_mask subnet.2)) + 1.
Proof.
  destruct subnet as [base p]; cbn [fst snd]. intros Hp Hb.
  set (ip := derive_ip_with_index id index (base, p)).
  pose proof (derive_ip_u32 id index base p Hp Hb) as Hu. fold ip in Hu.
  destruct (derive_ip_split id index base p) as (h & Hh & E); [done..|]. fold ip in E.
  rewrite ip_in_subnet_div by (done || lia). rewrite mask_net by (done || lia).
  split; [|lia]. rewrite E, Z.add_comm, Z.div_add by lia. rewrite (Z.div_small h) by lia. lia.
Qed.

(** Every address derived for a network lies in that network's own /56, and
    an address derived for one network is recognised as part of another exactly
    when the 48-bit hash prefixes of the two network keys coincide. *)
Theorem derive_ipv6_in_network (id net net' : EndpointId) :
  ipv6_in_network (derive_ipv6 id net) net = true
  /\ (ipv6_in_network (derive_ipv6 id net) net' = true
      <-> forall i, (i < 6)%nat ->
            nth i (blake3_hash (as_bytes (id_to_string net))) 0
            = nth i (blake3_hash (as_bytes (id_to_string net'))) 0).
Proof.
  assert (forall n, ipv6_in_network (derive_ipv6 id net) n
    = bool_decide (take 7 (ipv6_network_prefix net) = take 7 (ipv6_network_prefix n))) as E.
  { intros n. unfold ipv6_in_network, derive_ipv6. change (Z.to_nat _) with 7%nat.
    by rewrite take_app_length' by reflexivity. }
  rewrite !E, !bool_decide_eq_true. split; [done|]. unfold ipv6_network_prefix. cbn [take]. split.
  - intros [=]. intros i Hi. do 6 (destruct i as [|i]; [done|]). lia.
  - intros Hi. by rewrite (Hi 0%nat), (Hi 1%nat), (Hi 2%nat), (Hi 3%nat), (Hi 4%nat), (Hi 5%nat) by lia.
Qed.

Lemma derive_ipv6_shape `{!Blake3Laws} id net :
  length (derive_ipv6 id net) = 16%nat /\ nth 0 (derive_ipv6 id net) 0 = 2.
Proof.
  split; [|done]. unfold derive_ipv6. rewrite length_app, !length_take, blake3_length. done.
Qed.

End DerivedAddresses.

Lemma derive_ip_in_subnet_witness :
  let ip := derive_ip_with_index (H := Demo.keys) (mkId 1) 3 default_subnet in
  ip_in_subnet ip default_subnet = true
  /\ ip <> Z.land default_subnet.1 (u32_not (subnet_host_mask default_subnet.2))
  /\ ip <> Z.land default_subnet.1 (u32_not (subnet_host_mask default_subnet.2)) + 1.
Proof. apply (derive_ip_in_subnet (H := Demo.keys)); vm_compute; intuition congruence. Defined.

(** The printed forms of some addresses. *)
Example ipv6_to_string_examples :
  ipv6_to_string [253; 0; 0; 0; 0; 0; 0; 0; 0; 0; 0; 0; 0; 0; 0; 1] = "fd00::1"
  /\ ipv6_to_string [32; 1; 13; 184; 0; 0; 0; 0; 0; 1; 0; 0; 0; 0; 0; 1] = "2001:db8::1:0:0:1"
  /\ ipv6_to_string [0; 0; 0; 0; 0; 0; 0; 0; 0; 0; 255; 255; 10; 0; 0; 1] = "::ffff:10.0.0.1"
  /\ ipv6_to_string (repeat 0 16) = "::".
Proof. split_and!; reflexivity. Qed.

(** ** CIDR text *)

(** What holds of every byte value can be checked on all of them. *)
Lemma parse_octet_dec z : 0 <= z < 256 -> parse_octet (dec z) = Some z.
Proof.
  intros Hz. apply (check_byte (fun z => bool_decide (parse_octet (dec z) = Some z))) in Hz;
    [by apply bool_decide_eq_true in Hz|vm_compute; done].
Qed.

Lemma dec_byte_chars z : 0 <= z < 256 -> all_chars is_digit (dec z) = true.
Proof. intros Hz. apply dec_digits. lia. Qed.

Lemma digit_not_char c d : is_digit c = true -> is_digit d = false -> not_char d c = true.
Proof. intros Hc Hd. apply negb_true_iff, bool_decide_eq_false. intros ->. congruence. Qed.

Lemma digits_not_char s d : all_chars is_digit s = true -> is_digit d = false ->
  all_chars (not_char d) s = true.
Proof. intros Hs Hd. eapply all_chars_impl, Hs. eauto using digit_not_char. Qed.

(** Characters of a printed address: digits and dots. *)
Definition ip_char (c : ascii) : bool := is_digit c || bool_decide (c = "."%char).

Lemma ip_octets ip : is_u32 ip ->
  0 <= ip / 2 ^ 24 < 256 /\ 0 <= (ip / 2 ^ 16) mod 256 < 256
  /\ 0 <= (ip / 2 ^ 8) mod 256 < 256 /\ 0 <= ip mod 256 < 256.
Proof.
  intros Hip. unfold in_width in Hip.
  split; [split; [apply Z.div_pos; lia|apply Z.div_lt_upper_bound; lia]|].
  repeat split; apply Z.mod_pos_bound; lia.
Qed.

Lemma ip_octets_value ip : is_u32 ip ->
  ipv4_new (ip / 2 ^ 24) ((ip / 2 ^ 16) mod 256) ((ip / 2 ^ 8) mod 256) (ip mod 256) = ip.
Proof.
  intros _. unfold ipv4_new, from_be32.
  change (2 ^ 24) with (256 * (256 * 256)). change (2 ^ 16) with (256 * 256). change (2 ^ 8) with 256.
  rewrite <- !Z.div_div by lia.
  pose proof (Z.div_mod ip 256). pose proof (Z.div_mod (ip / 256) 256).
  pose proof (Z.div_mod (ip / 256 / 256) 256). lia.
Qed.

Lemma ipv4_to_string_chars ip : is_u32 ip -> all_chars ip_char (ipv4_to_string ip) = true.
Proof.
  intros Hip. destruct (ip_octets ip Hip) as (Ha & Hb & Hc & Hd). unfold ipv4_to_string.
  assert (forall z, 0 <= z < 256 -> all_chars ip_char (dec z) = true) as Hz.
  { intros z Hz. eapply all_chars_impl; [|apply dec_byte_chars, Hz].
    intros c Hc'. unfold ip_char. by rewrite Hc'. }
  by rewrite !all_chars_app, !Hz by done.
Qed.

Lemma parse_ipv4_to_string ip : is_u32 ip -> parse_ipv4_addr (ipv4_to_string ip) = Some ip.
Proof.
  intros Hip. destruct (ip_octets ip Hip) as (Ha & Hb & Hc & Hd).
  unfold parse_ipv4_addr, ipv4_to_string.
  assert (forall z, 0 <= z < 256 -> all_chars (not_char ".") (dec z) = true) as Hz.
  { intros z Hz. by apply digits_not_char; [apply dec_byte_chars|]. }
  cbn [String.append]. rewrite !split_on_app by auto. rewrite split_on_nosep by auto.
  rewrite !parse_octet_dec by done. by rewrite ip_octets_value.
Qed.

Lemma parse_u8_dec z : 0 <= z < 256 -> parse_u8 (dec z) = Some z.
Proof. intros Hz. apply parse_unsigned_dec. lia. Qed.

Lemma digit_trim_safe c : is_digit c = true -> trim_safe c = true.
Proof. unfold is_digit, trim_safe. intros H. btac. apply andb_true_iff. lia. Qed.

Lemma ip_char_trim_safe c : ip_char c = true -> trim_safe c = true.
Proof.
  unfold ip_char. intros [Hc|Hc]%orb_true_iff; [by apply digit_trim_safe|]. btac. by subst.
Qed.

Lemma ip_char_not_slash c : ip_char c = true -> not_char "/" c = true.
Proof.
  unfold ip_char. intros [Hc|Hc]%orb_true_iff; [by apply digit_not_char|]. btac. by subst.
Qed.

Lemma parse_format_cidr base p :
  is_u32 base -> 0 <= p <= 32 -> parse_cidr (format_cidr (base, p)) = Ok (base, p).
Proof.
  intros Hb Hp. unfold parse_cidr, format_cidr. cbn [fst snd].
  pose proof (ipv4_to_string_chars base Hb) as Hc.
  pose proof (dec_byte_chars p ltac:(lia)) as Hd.
  change ("/" +:+ dec p) with (String "/" (dec p)).
  rewrite split_once_app by (eapply all_chars_impl, Hc; apply ip_char_not_slash).
  rewrite (trim_safe_id (ipv4_to_string base)) by (eapply all_chars_impl, Hc; apply ip_char_trim_safe).
  rewrite (trim_safe_id (dec p)) by (eapply all_chars_impl, Hd; apply digit_trim_safe).
  rewrite parse_ipv4_to_string by done. rewrite parse_u8_dec by lia.
  by rewrite (proj2 (Z.leb_le p 32)) by lia.
Qed.

(** The CIDR form written to disk and to the wire parses back to the subnet
    it was written from, for every 32-bit base and prefix length 0 to 32. *)
Theorem cidr_roundtrip (v : option Subnet) :
  match v with Some s => is_u32 s.1 /\ 0 <= s.2 <= 32 | None => True end ->
  cidr_opt_deserialize (cidr_opt_serialize v) = Ok v.
Proof.
  destruct v as [[base p]|]; [|done]. cbn [fst snd]. intros [Hb Hp].
  unfold cidr_opt_serialize, cidr_opt_deserialize. cbn [fmap option_fmap option_map].
  by rewrite parse_format_cidr.
Qed.

Lemma cidr_roundtrip_witness :
  cidr_opt_serialize (Some default_subnet) = Some "10.88.0.0/24"
  /\ cidr_opt_deserialize (cidr_opt_serialize (Some default_subnet)) = Ok (Some default_subnet).
Proof.
  split; [vm_compute; reflexivity|].
  apply (cidr_roundtrip (Some default_subnet)). split; vm_compute; intuition congruence.
Defined.
