(* ===== verification/Packet.v ===== *)
(** * IP packets on the data path (src/src/packet.rs)

    The parser that extracts addresses and ports from a raw datagram, the
    Internet checksum, the IPv4 fragmenter whose output the receiving kernel
    reassembles, and the program's own IPv6 fragment envelopes with the
    reassembler on the other end of the connection.

    Slice accesses that Rust checks at run time are written in the [outcome]
    monad, so that the absence of panics is a theorem.  Sizes are [Z]. *)

From S2P Require Import Prelude.

(** [l[i]] and [&l[a..b]]. *)
Definition byte_at (l : list Z) (i : Z) : outcome Z :=
  if (0 <=? i) && (i <? len l) then Ret (nth (Z.to_nat i) l 0) else Panic.

Definition sub_bytes (l : list Z) (a b : Z) : list Z := take (Z.to_nat (b - a)) (drop (Z.to_nat a) l).

Definition slice (l : list Z) (a b : Z) : outcome (list Z) :=
  if (0 <=? a) && (a <=? b) && (b <=? len l) then Ret (sub_bytes l a b) else Panic.

(** [hdr[i] = v] on an array. *)
Definition set_at (l : list Z) (i v : Z) : outcome (list Z) :=
  if (0 <=? i) && (i <? len l) then Ret (<[Z.to_nat i := v]> l) else Panic.

Definition be16_at (l : list Z) (i : Z) : outcome Z :=
  a <-! byte_at l i; b <-! byte_at l (i + 1); Ret (from_be16 a b).

(** ** Parsing *)
Inductive IpAddr :=
| V4 (a : Z)
| V6 (octets : list Z).

#[global] Instance IpAddr_eq_dec : EqDecision IpAddr.
Proof. solve_decision. Defined.

Record PacketInfo := mkPacketInfo {
  src_ip : IpAddr;
  dst_ip : IpAddr;
  protocol : Z;
  src_port : Z;
  dst_port : Z;
  tcp_flags : Z;
  icmp_type : Z;
  icmp_id : Z;
}.

Definition is_icmp (proto : Z) : bool := (proto =? 1) || (proto =? 58).

Definition is_icmp_echo_request (proto icmp_type : Z) : bool :=
  (proto =? 1) && (icmp_type =? 8) || (proto =? 58) && (icmp_type =? 128).

Definition is_icmp_echo_reply (proto icmp_type : Z) : bool :=
  (proto =? 1) && (icmp_type =? 0) || (proto =? 58) && (icmp_type =? 129).

Definition extract_ports (protocol : Z) (packet : list Z) (header_len : Z) : outcome (Z * Z) :=
  if ((protocol =? 6) || (protocol =? 17)) && (header_len + 4 <=? len packet) then
    s <-! be16_at packet header_len;
    d <-! be16_at packet (header_len + 2);
    Ret (s, d)
  else Ret (0, 0).

Definition extract_tcp_flags (protocol : Z) (packet : list Z) (header_len : Z) : outcome Z :=
  if (protocol =? 6) && (header_len + 14 <=? len packet) then byte_at packet (header_len + 13)
  else Ret 0.

Definition extract_icmp (protocol : Z) (packet : list Z) (header_len : Z) : outcome (Z * Z) :=
  if negb (is_icmp protocol) || (len packet <? header_len + 1) then Ret (0, 0)
  else
    icmp_type <-! byte_at packet header_len;
    id <-! (if (is_icmp_echo_request protocol icmp_type || is_icmp_echo_reply protocol icmp_type)
               && (header_len + 6 <=? len packet)
            then be16_at packet (header_len + 4) else Ret 0);
    Ret (icmp_type, id).

(** The tail both parsers share. *)
Definition packet_info (src dst : IpAddr) (protocol : Z) (packet : list Z) (header_len : Z)
  : outcome (option PacketInfo) :=
  ports <-! extract_ports protocol packet header_len;
  flags <-! extract_tcp_flags protocol packet header_len;
  icmp <-! extract_icmp protocol packet header_len;
  Ret (Some (mkPacketInfo src dst protocol ports.1 ports.2 flags icmp.1 icmp.2)).

Definition ipv4_at (packet : list Z) (i : Z) : outcome IpAddr :=
  a <-! byte_at packet i; b <-! byte_at packet (i + 1);
  c <-! byte_at packet (i + 2); d <-! byte_at packet (i + 3);
  Ret (V4 (from_be32 a b c d)).

Definition parse_ipv4 (packet : list Z) : outcome (option PacketInfo) :=
  if len packet <? 20 then Ret None
  else
    b0 <-! byte_at packet 0;
    let ihl := Z.land b0 15 in
    if ihl <? 5 then Ret None
    else
      let header_len := ihl * 4 in
      if len packet <? header_len then Ret None
      else
        protocol <-! byte_at packet 9;
        src <-! ipv4_at packet 12;
        dst <-! ipv4_at packet 16;
        packet_info src dst protocol packet header_len.

Definition parse_ipv6 (packet : list Z) : outcome (option PacketInfo) :=
  if len packet <? 40 then Ret None
  else
    protocol <-! byte_at packet 6;
    src <-! slice packet 8 24;
    dst <-! slice packet 24 40;
    packet_info (V6 src) (V6 dst) protocol packet 40.

Definition parse_packet_info (packet : list Z) : outcome (option PacketInfo) :=
  match packet with
  | [] => Ret None
  | b0 :: _ =>
      let version := Z.shiftr b0 4 in
      if version =? 4 then parse_ipv4 packet
      else if version =? 6 then parse_ipv6 packet
      else Ret None
  end.

(** ** Checksum *)

(** The sum of the big-endian 16-bit words, an odd last byte padded with zero;
    a [u32] that wraps. *)
Fixpoint sum_words (data : list Z) (sum : Z) : Z :=
  match data with
  | a :: b :: rest => sum_words rest (wrap 32 (sum + from_be16 a b))
  | [a] => wrap 32 (sum + a * 256)
  | [] => sum
  end.

(** [while sum >> 16 != 0]; two rounds are enough for a [u32]
    ([fold_carries_u16]). *)
Fixpoint fold_carries (fuel : nat) (sum : Z) : Z :=
  match fuel with
  | O => sum
  | S f => if Z.shiftr sum 16 =? 0 then sum
           else fold_carries f (Z.land sum 65535 + Z.shiftr sum 16)
  end.

Definition ip_checksum (data : list Z) : Z :=
  65535 - wrap 16 (fold_carries 3 (sum_words data 0)).

(** ** IPv4 fragmentation *)
Definition HEADER_LEN : Z := 20.
Definition MAX_FRAG_OFFSET_BYTES : Z := 8191 * 8.

(** A header with the given bytes replaced, in the order of the assignments. *)
Fixpoint set_all (hdr : list Z) (edits : list (Z * Z)) : outcome (list Z) :=
  match edits with
  | [] => Ret hdr
  | (i, v) :: rest => hdr' <-! set_at hdr i v; set_all hdr' rest
  end.

(** The header of one fragment, with its recomputed checksum. *)
Definition frag4_header (packet : list Z) (df mf frag_offset frag_payload_len : Z)
  : outcome (list Z) :=
  id_hi <-! byte_at packet 4;
  id_lo <-! byte_at packet 5;
  hdr <-! slice packet 0 HEADER_LEN;
  let total_len := wrap 16 (HEADER_LEN + frag_payload_len) in
  hdr <-! set_all hdr
    [(2, wrap 8 (Z.shiftr total_len 8)); (3, wrap 8 total_len); (4, id_hi); (5, id_lo);
     (6, Z.lor (Z.lor df (wrap 8 (Z.shiftl mf 5))) (Z.land (wrap 8 (Z.shiftr frag_offset 8)) 31));
     (7, wrap 8 (Z.land frag_offset 255)); (10, 0); (11, 0)];
  let csum := ip_checksum hdr in
  set_all hdr [(10, wrap 8 (Z.shiftr csum 8)); (11, wrap 8 csum)].

(** [while offset < payload_len]: every round takes at least one byte, so
    [payload_len] rounds are enough. *)
Fixpoint frag4_loop (fuel : nat) (packet : list Z)
  (payload_len max_payload df base_offset base_mf offset : Z) : outcome (list (list Z)) :=
  match fuel with
  | O => Ret []
  | S f =>
      if payload_len <=? offset then Ret []
      else
        let frag_payload_len := Z.min max_payload (payload_len - offset) in
        let is_last := payload_len <=? offset + frag_payload_len in
        let mf := if is_last then base_mf else 1 in
        let frag_offset := wrap 16 ((base_offset + offset) / 8) in
        hdr <-! frag4_header packet df mf frag_offset frag_payload_len;
        let start := HEADER_LEN + offset in
        payload <-! slice packet start (start + frag_payload_len);
        rest <-! frag4_loop f packet payload_len max_payload df base_offset base_mf
                   (offset + frag_payload_len);
        Ret ((hdr ++ payload)%list :: rest)
  end.

(** [None] is the [false] of the source: nothing is appended. *)
Definition fragment_ipv4 (packet : list Z) (max_size : Z) : outcome (option (list (list Z))) :=
  if len packet <=? max_size then Ret None
  else if len packet <? HEADER_LEN then Ret None
  else if max_size <? HEADER_LEN + 8 then Ret None
  else
    b0 <-! byte_at packet 0;
    if negb (Z.land b0 15 * 4 =? HEADER_LEN) then Ret None
    else
      hdr <-! slice packet 0 HEADER_LEN;
      stored_csum <-! be16_at hdr 10;
      hdr <-! set_all hdr [(10, 0); (11, 0)];
      if negb (ip_checksum hdr =? stored_csum) then Ret None
      else
        let payload_len := len packet - HEADER_LEN in
        let max_payload := Z.ldiff (max_size - HEADER_LEN) 7 in
        b6 <-! byte_at packet 6;
        b7 <-! byte_at packet 7;
        let df := Z.land b6 64 in
        let base_offset := Z.lor (Z.shiftl (Z.land b6 31) 8) b7 * 8 in
        let base_mf := Z.land (Z.shiftr b6 5) 1 in
        if MAX_FRAG_OFFSET_BYTES <? base_offset + saturating_sub payload_len 1 then Ret None
        else
          frags <-! frag4_loop (Z.to_nat payload_len) packet payload_len max_payload df
                      base_offset base_mf 0;
          Ret (Some frags).

(** ** IPv6 fragment envelopes *)
Definition FRAG6_MAGIC : Z := 246.
Definition FRAG6_HEADER_LEN : Z := 8.
Definition MAX_REASSEMBLED_IPV6_PACKET : Z := 1280.

Definition frag6_header (id offset more : Z) : list Z :=
  (FRAG6_MAGIC :: to_be32 id ++ to_be16 (wrap 16 offset) ++ [more])%list.

Fixpoint frag6_loop (fuel : nat) (packet : list Z) (id max_payload offset : Z)
  : outcome (list (list Z)) :=
  match fuel with
  | O => Ret []
  | S f =>
      if len packet <=? offset then Ret []
      else
        let frag_len := Z.min max_payload (len packet - offset) in
        let more := if offset + frag_len <? len packet then 1 else 0 in
        payload <-! slice packet offset (offset + frag_len);
        rest <-! frag6_loop f packet id max_payload (offset + frag_len);
        Ret ((frag6_header id offset more ++ payload)%list :: rest)
  end.

Definition fragment_ipv6 (packet : list Z) (id max_size : Z) : outcome (option (list (list Z))) :=
  if len packet <=? max_size then Ret None
  else if max_size <=? FRAG6_HEADER_LEN then Ret None
  else if 65535 <? len packet then Ret None
  else
    frags <-! frag6_loop (length packet) packet id (max_size - FRAG6_HEADER_LEN) 0;
    Ret (Some frags).

(** ** IPv6 reassembly *)
Inductive Ipv6FragmentOutcome :=
| Complete (packet : list Z)
| Waiting
| NotAFragment
| Rejected.

Record PartialIpv6 := mkPartial {
  chunks : gmap Z (list Z);
  total_len : option Z;
  last_seen : Z;
}.

Definition key_leb {V} (a b : Z * V) : bool := a.1 <=? b.1.

(** A [BTreeMap<u16, _>] in key order. *)
Definition btree_u16 {V} (m : gmap Z V) : list (Z * V) := sort_by key_leb (map_to_list m).

(** The [for] loop: [None] at the first gap or overlap, else bytes and end. *)
Fixpoint walk_chunks (l : list (Z * list Z)) (expected : Z) (out : list Z) : option (list Z * Z) :=
  match l with
  | [] => Some (out, expected)
  | (offset, bytes) :: rest =>
      if offset =? expected then walk_chunks rest (expected + len bytes) (out ++ bytes) else None
  end.

Definition try_complete (p : PartialIpv6) : option (list Z) :=
  total ← total_len p;
  '(out, expected) ← walk_chunks (btree_u16 (chunks p)) 0 [];
  if expected =? total then Some out else None.

Definition MAX_REASSEMBLY_ENTRIES : nat := 16.

(** In nanoseconds. *)
Definition REASSEMBLY_TIMEOUT : Z := 5 * 10 ^ 9.

Abbreviation Ipv6Reassembler := (gmap Z PartialIpv6).

Definition gc_stale (partial : Ipv6Reassembler) (now : Z) : Ipv6Reassembler :=
  filter (fun kv => saturating_sub now (last_seen kv.2) < REASSEMBLY_TIMEOUT) partial.

(** [min_by_key]: the first of the entries with the smallest [last_seen]. *)
Definition oldest (l : list (Z * PartialIpv6)) : option Z :=
  match l with
  | [] => None
  | kv :: rest =>
      Some (fold_left (fun best kv => if last_seen kv.2 <? last_seen best.2 then kv else best)
              rest kv).1
  end.

Definition make_room (partial : Ipv6Reassembler) (id : Z) : Ipv6Reassembler :=
  if bool_decide (partial !! id = None) && (MAX_REASSEMBLY_ENTRIES <=? size partial)%nat then
    match oldest (map_to_list partial) with
    | Some k => delete k partial
    | None => partial
    end
  else partial.

(** The clock is read at the sweep ([t_gc]) and when the entry is touched
    ([t_seen]). *)
Definition accept (partial : Ipv6Reassembler) (t_gc t_seen : Z) (datagram : list Z)
  : outcome (Ipv6Reassembler * Ipv6FragmentOutcome) :=
  if negb (bool_decide (head datagram = Some FRAG6_MAGIC)) then Ret (partial, NotAFragment)
  else if len datagram <? FRAG6_HEADER_LEN then Ret (partial, Rejected)
  else
    let partial := gc_stale partial t_gc in
    d1 <-! byte_at datagram 1; d2 <-! byte_at datagram 2;
    d3 <-! byte_at datagram 3; d4 <-! byte_at datagram 4;
    let id := from_be32 d1 d2 d3 d4 in
    offset <-! be16_at datagram 5;
    d7 <-! byte_at datagram 7;
    let more := negb (d7 =? 0) in
    payload <-! slice datagram FRAG6_HEADER_LEN (len datagram);
    if MAX_REASSEMBLED_IPV6_PACKET <? offset + len payload then
      Ret (delete id partial, Rejected)
    else
      let partial := make_room partial id in
      let entry := default (mkPartial ∅ None t_seen) (partial !! id) in
      let entry := mkPartial (<[offset := payload]> (chunks entry))
                     (if more then total_len entry else Some (offset + len payload)) t_seen in
      match try_complete entry with
      | Some full => Ret (delete id partial, Complete full)
      | None => Ret (<[id := entry]> partial, Waiting)
      end.

(** ** Accesses within bounds *)
Lemma byte_at_in l i : 0 <= i < len l -> byte_at l i = Ret (nth (Z.to_nat i) l 0).
Proof.
  intros Hi. unfold byte_at. by rewrite (proj2 (Z.leb_le 0 i)), (proj2 (Z.ltb_lt i _)) by lia.
Qed.

Lemma slice_in l a b : 0 <= a <= b -> b <= len l -> slice l a b = Ret (sub_bytes l a b).
Proof.
  intros Hab Hb. unfold slice.
  by rewrite (proj2 (Z.leb_le 0 a)), (proj2 (Z.leb_le a b)), (proj2 (Z.leb_le b _)) by lia.
Qed.

Lemma be16_at_in l i : 0 <= i < len l - 1 ->
  be16_at l i = Ret (from_be16 (nth (Z.to_nat i) l 0) (nth (Z.to_nat (i + 1)) l 0)).
Proof. intros Hi. unfold be16_at. by rewrite !byte_at_in by lia. Qed.

Ltac in_bounds :=
  repeat first [rewrite byte_at_in by lia | rewrite be16_at_in by lia | rewrite slice_in by lia];
  cbn [obind].

(** A computation that does not panic. *)
Definition returns {A} (m : outcome A) : Prop := exists a, m = Ret a.

Lemma returns_ret {A} (a : A) : returns (Ret a).
Proof. by exists a. Qed.

Lemma returns_bind {A B} (m : outcome A) (k : A -> outcome B) :
  returns m -> (forall a, returns (k a)) -> returns (obind m k).
Proof. intros [a ->] Hk. apply Hk. Qed.

Lemma extract_ports_returns proto packet h : 0 <= h -> returns (extract_ports proto packet h).
Proof.
  intros Hh. unfold extract_ports. destruct (_ && _) eqn:E; [|apply returns_ret].
  btac. in_bounds. apply returns_ret.
Qed.

Lemma extract_tcp_flags_returns proto packet h : 0 <= h -> returns (extract_tcp_flags proto packet h).
Proof.
  intros Hh. unfold extract_tcp_flags. destruct (_ && _) eqn:E; [|apply returns_ret].
  btac. in_bounds. apply returns_ret.
Qed.

Lemma extract_icmp_returns proto packet h : 0 <= h -> returns (extract_icmp proto packet h).
Proof.
  intros Hh. unfold extract_icmp. destruct (_ || _) eqn:E; [apply returns_ret|].
  apply orb_false_iff in E as [_ E]. btac. in_bounds. apply returns_bind; [|intros; apply returns_ret].
  destruct (_ && _) eqn:E2; [|apply returns_ret]. apply andb_true_iff in E2 as [_ E2]. btac. in_bounds.
  apply returns_ret.
Qed.

Lemma packet_info_returns src dst proto packet h :
  0 <= h -> exists info, packet_info src dst proto packet h = Ret (Some info)
    /\ src_ip info = src /\ dst_ip info = dst /\ protocol info = proto.
Proof.
  intros Hh. unfold packet_info.
  destruct (extract_ports_returns proto packet h Hh) as [? ->].
  destruct (extract_tcp_flags_returns proto packet h Hh) as [? ->].
  destruct (extract_icmp_returns proto packet h Hh) as [? ->].
  cbn [obind]. eexists. by split.
Qed.

Lemma ipv4_at_in packet i : 0 <= i -> i + 3 < len packet ->
  ipv4_at packet i = Ret (V4 (from_be32 (nth (Z.to_nat i) packet 0) (nth (Z.to_nat (i + 1)) packet 0)
                               (nth (Z.to_nat (i + 2)) packet 0) (nth (Z.to_nat (i + 3)) packet 0))).
Proof. intros. unfold ipv4_at. by in_bounds. Qed.

Lemma parse_packet_info_spec (packet : list Z) :
  exists r, parse_packet_info packet = Ret r
  /\ forall info, r = Some info ->
     let b i := nth i packet 0 in
     (Z.shiftr (b 0%nat) 4 = 4 /\ 20 <= Z.land (b 0%nat) 15 * 4 <= len packet
      /\ src_ip info = V4 (from_be32 (b 12%nat) (b 13%nat) (b 14%nat) (b 15%nat))
      /\ dst_ip info = V4 (from_be32 (b 16%nat) (b 17%nat) (b 18%nat) (b 19%nat))
      /\ protocol info = b 9%nat)
     \/ (Z.shiftr (b 0%nat) 4 = 6 /\ 40 <= len packet
         /\ src_ip info = V6 (sub_bytes packet 8 24) /\ dst_ip info = V6 (sub_bytes packet 24 40)
         /\ protocol info = b 6%nat).
Proof.
  destruct packet as [|b0 rest] eqn:Ep; [by exists None|]. rewrite <- Ep.
  assert (nth 0 packet 0 = b0) as Hb0 by by rewrite Ep.
  assert (parse_packet_info packet = if Z.shiftr b0 4 =? 4 then parse_ipv4 packet
    else if Z.shiftr b0 4 =? 6 then parse_ipv6 packet else Ret None) as -> by by rewrite Ep.
  clear Ep rest. destruct (Z.eqb_spec (Z.shiftr b0 4) 4) as [H4|_];
    [|destruct (Z.eqb_spec (Z.shiftr b0 4) 6) as [H6|_]; [|by exists None]].
  - unfold parse_ipv4. destruct (Z.ltb_spec (len packet) 20); [by exists None|]. in_bounds.
    change (Z.to_nat 0) with 0%nat. rewrite Hb0. destruct (Z.ltb_spec (Z.land b0 15) 5); [by exists None|].
    destruct (Z.ltb_spec (len packet) (Z.land b0 15 * 4)); [by exists None|].
    in_bounds. rewrite !ipv4_at_in by lia. cbn [obind].
    match goal with |- context [packet_info ?s ?d ?p packet ?h] =>
      destruct (packet_info_returns s d p packet h ltac:(lia)) as (info & -> & Hs & Hd & Hp) end.
    exists (Some info). split; [done|]. intros ? [= <-]. left.
    split; [done|]. split; [lia|]. rewrite Hs, Hd, Hp. done.
  - unfold parse_ipv6. destruct (Z.ltb_spec (len packet) 40); [by exists None|]. in_bounds.
    match goal with |- context [packet_info ?s ?d ?p packet ?h] =>
      destruct (packet_info_returns s d p packet h ltac:(lia)) as (info & -> & Hs & Hd & Hp) end.
    exists (Some info). split; [done|]. intros ? [= <-]. right.
    rewrite Hb0. split; [done|]. split; [lia|]. rewrite Hs, Hd, Hp. done.
Qed.

Lemma parse_packet_info_some packet :
  (Z.shiftr (nth 0 packet 0) 4 = 4 /\ 20 <= Z.land (nth 0 packet 0) 15 * 4 <= len packet)
  \/ (Z.shiftr (nth 0 packet 0) 4 = 6 /\ 40 <= len packet) ->
  exists info, parse_packet_info packet = Ret (Some info).
Proof.
  intros H. destruct packet as [|b0 rest] eqn:Ep; [by destruct H as [[H _]|[H _]]|]. rewrite <- Ep in *.
  assert (nth 0 packet 0 = b0) as Hb0 by by rewrite Ep.
  assert (parse_packet_info packet = if Z.shiftr b0 4 =? 4 then parse_ipv4 packet
    else if Z.shiftr b0 4 =? 6 then parse_ipv6 packet else Ret None) as -> by by rewrite Ep.
  clear Ep rest. rewrite Hb0 in H. destruct H as [(-> & Hih)|(-> & Hlen)]; cbn [Z.eqb Pos.eqb].
  - unfold parse_ipv4. rewrite (proj2 (Z.ltb_ge (len packet) 20)) by lia. in_bounds.
    change (Z.to_nat 0) with 0%nat. rewrite Hb0. rewrite (proj2 (Z.ltb_ge (Z.land b0 15) 5)) by lia.
    rewrite (proj2 (Z.ltb_ge (len packet) (Z.land b0 15 * 4))) by lia. in_bounds. rewrite !ipv4_at_in by lia. cbn [obind].
    match goal with |- context [packet_info ?s ?d ?p packet ?h] =>
      destruct (packet_info_returns s d p packet h ltac:(lia)) as (info & -> & _) end. eauto.
  - unfold parse_ipv6. rewrite (proj2 (Z.ltb_ge (len packet) 40)) by lia. in_bounds.
    match goal with |- context [packet_info ?s ?d ?p packet ?h] =>
      destruct (packet_info_returns s d p packet h ltac:(lia)) as (info & -> & _) end. eauto.
Qed.


(** ** The checksum *)
Fixpoint words (data : list Z) : Z :=
  match data with
  | a :: b :: rest => from_be16 a b + words rest
  | [a] => a * 256
  | [] => 0
  end.

Lemma sum_words_spec data s : 0 <= s < 2 ^ 32 -> sum_words data s = wrap 32 (s + words data).
Proof.
  revert data s. fix IH 1. intros [|a [|b rest]] s Hs; cbn [sum_words words].
  - rewrite Z.add_0_r. symmetry. by apply wrap_small.
  - done.
  - rewrite (IH rest) by (apply Z.mod_pos_bound; lia). unfold wrap.
    rewrite Zplus_mod_idemp_l. f_equal. lia.
Qed.

(** Folding a 32-bit sum ends within two rounds, below [2^16], on a value that is
    the same modulo 65535 and zero only for zero. *)
Lemma fold_carries_u16 x :
  0 <= x < 2 ^ 32 ->
  exists y, (forall k, fold_carries (S (S k)) x = y)
    /\ 0 <= y < 65536 /\ y mod 65535 = x mod 65535 /\ (0 < x -> 0 < y).
Proof.
  assert (forall f z, 0 <= z -> fold_carries (S f) z
    = if z / 65536 =? 0 then z else fold_carries f (z mod 65536 + z / 65536)) as Hstep.
  { intros f z Hz. cbn [fold_carries]. change 65535 with (Z.ones 16).
    rewrite Z.land_ones, Z.shiftr_div_pow2 by lia. done. }
  assert (forall z, 0 <= z -> (z mod 65536 + z / 65536) mod 65535 = z mod 65535) as Hmod.
  { intros z Hz. rewrite (Z.div_mod z 65536) at 3 by lia.
    replace (65536 * (z / 65536) + z mod 65536)
      with (z mod 65536 + z / 65536 + z / 65536 * 65535) by lia. by rewrite Z.mod_add. }
  assert (forall z, 0 <= z -> z = 65536 * (z / 65536) + z mod 65536 /\ 0 <= z mod 65536 < 65536
    /\ 0 <= z / 65536) as Hdiv.
  { intros z Hz. split; [apply Z.div_mod; lia|]. split; [apply Z.mod_pos_bound; lia|].
    apply Z.div_pos; lia. }
  intros Hx. destruct (Hdiv x ltac:(lia)) as (E & Hr & Hq).
  assert (x / 65536 < 65536) by (apply Z.div_lt_upper_bound; lia).
  set (y1 := x mod 65536 + x / 65536) in *.
  destruct (Hdiv y1 ltac:(lia)) as (E1 & Hr1 & Hq1). set (y2 := y1 mod 65536 + y1 / 65536) in *.
  exists (if x / 65536 =? 0 then x else if y1 / 65536 =? 0 then y1 else y2). split.
  - intros k. rewrite Hstep by lia. fold y1. destruct (x / 65536 =? 0); [done|].
    rewrite Hstep by lia. fold y2. destruct (Z.eqb_spec (y1 / 65536) 0); [done|].
    destruct k as [|k]; [done|]. rewrite Hstep by lia. by rewrite (Z.div_small y2) by lia.
  - pose proof (Hmod x ltac:(lia)) as M. fold y1 in M. pose proof (Hmod y1 ltac:(lia)) as M1. fold y2 in M1.
    destruct (Z.eqb_spec (x / 65536) 0); [lia|]. destruct (Z.eqb_spec (y1 / 65536) 0); lia.
Qed.

Lemma ip_checksum_spec data :
  0 <= words data < 2 ^ 32 ->
  let c := ip_checksum data in
  0 <= c < 65536 /\ (words data + c) mod 65535 = 0 /\ (0 < words data -> c < 65535).
Proof.
  intros Hw. unfold ip_checksum. rewrite sum_words_spec, Z.add_0_l, (wrap_small 32) by (done || lia).
  destruct (fold_carries_u16 (words data) Hw) as (y & -> & Hy & Hm & Hp).
  rewrite (wrap_small 16) by (unfold in_width; lia).
  split; [lia|]. split; [|lia]. rewrite Z.add_sub_assoc.
  replace (words data + 65535 - y) with (words data - y + 1 * 65535) by lia. rewrite Z.mod_add by lia.
  rewrite Zminus_mod, Hm, Z.sub_diag. done.
Qed.

(** The receiver's test: the checksum over data that carries its own checksum is 0. *)
Lemma ip_checksum_zero data :
  0 < words data < 2 ^ 32 -> words data mod 65535 = 0 -> ip_checksum data = 0.
Proof.
  intros Hw Hm. unfold ip_checksum. rewrite sum_words_spec, Z.add_0_l, (wrap_small 32) by (unfold in_width; lia).
  destruct (fold_carries_u16 (words data) ltac:(lia)) as (y & -> & Hy & Hm' & Hp).
  rewrite (wrap_small 16) by (unfold in_width; lia). rewrite Hm in Hm'.
  apply Z.mod_divide in Hm' as [q Hq]; [|lia]. specialize (Hp ltac:(lia)). lia.
Qed.

(** ** What a receiving IP stack reads from an IPv4 fragment *)
Definition byte_of (f : list Z) (i : nat) : Z := nth i f 0.
Definition total_length (f : list Z) : Z := from_be16 (byte_of f 2) (byte_of f 3).
Definition dont_fragment (f : list Z) : Z := Z.land (byte_of f 6) 64.
Definition more_fragments (f : list Z) : Z := Z.land (Z.shiftr (byte_of f 6) 5) 1.
Definition fragment_offset (f : list Z) : Z :=
  Z.lor (Z.shiftl (Z.land (byte_of f 6) 31) 8) (byte_of f 7) * 8.

(** The header bytes that fragmentation must not touch: version, service,
    identification, time to live, protocol, both addresses. *)
Definition stable_fields (f : list Z) : list Z :=
  byte_of f <$> [0; 1; 4; 5; 8; 9; 12; 13; 14; 15; 16; 17; 18; 19]%nat.

(** Acceptance of one fragment at offset [off] of the datagram of [model]: whole,
    of the length it claims, checksum intact, of the same datagram, reserved bit
    clear. *)
Definition fragment_ok (model : list Z) (off : Z) (f : list Z) : bool :=
  (20 <? len f) && (total_length f =? len f) && (ip_checksum (take 20 f) =? 0)
  && bool_decide (stable_fields f = stable_fields model)
  && (dont_fragment f =? dont_fragment model) && (Z.land (byte_of f 6) 128 =? 0)
  && (fragment_offset f =? off).

(** Reassembly (RFC 791) of contiguous fragments from offset [off]: all but the
    last announce more and carry a multiple of 8 bytes.  Gives the last one's
    flag and the joined payload. *)
Fixpoint reassemble4 (model : list Z) (off : Z) (frags : list (list Z)) : option (Z * list Z) :=
  match frags with
  | [] => None
  | f :: rest =>
      let payload := drop 20 f in
      if negb (fragment_ok model off f) then None
      else match rest with
      | [] => Some (more_fragments f, payload)
      | _ =>
          if (more_fragments f =? 1) && (len payload mod 8 =? 0) then
            '(mf, p) ← reassemble4 model (off + len payload) rest; Some (mf, payload ++ p)%list
          else None
      end
  end.

(** ** Headers *)
Lemma header_split (packet : list Z) :
  20 <= len packet -> exists h0 h1 h2 h3 h4 h5 h6 h7 h8 h9 h10 h11 h12 h13 h14 h15 h16 h17 h18 h19 pay,
    packet = ([h0; h1; h2; h3; h4; h5; h6; h7; h8; h9; h10; h11; h12; h13; h14; h15; h16; h17; h18; h19]
              ++ pay)%list.
Proof.
  unfold len. intros Hl. do 20 (destruct packet as [|? packet]; [simpl in Hl; lia|]).
  repeat eexists.
Qed.

(** The byte with the flags and the high bits of the offset. *)
Lemma flag_byte df mf h :
  df = 0 \/ df = 64 -> mf = 0 \/ mf = 1 -> 0 <= h < 32 ->
  let b := Z.lor (Z.lor df (wrap 8 (Z.shiftl mf 5))) (Z.land h 31) in
  is_u8 b /\ Z.land b 64 = df /\ Z.land (Z.shiftr b 5) 1 = mf /\ Z.land b 31 = h /\ Z.land b 128 = 0.
Proof.
  intros Hdf Hmf Hh b.
  assert (forallb (fun h => forallb (fun df => forallb (fun mf =>
    let b := Z.lor (Z.lor df (wrap 8 (Z.shiftl mf 5))) (Z.land h 31) in
    bool_decide (is_u8 b /\ Z.land b 64 = df /\ Z.land (Z.shiftr b 5) 1 = mf /\ Z.land b 31 = h
                 /\ Z.land b 128 = 0)) [0; 1]) [0; 64]) (seqZ 0 32) = true) as Hall
    by (vm_compute; reflexivity).
  rewrite forallb_forall in Hall. specialize (Hall h ltac:(apply list_elem_of_In, elem_of_seqZ; lia)).
  rewrite forallb_forall in Hall. specialize (Hall df ltac:(simpl; intuition)).
  rewrite forallb_forall in Hall. specialize (Hall mf ltac:(simpl; intuition)).
  by apply bool_decide_eq_true in Hall.
Qed.

Lemma hi_lo z : 0 <= z < 65536 ->
  is_u8 (wrap 8 (Z.shiftr z 8)) /\ is_u8 (wrap 8 z)
  /\ from_be16 (wrap 8 (Z.shiftr z 8)) (wrap 8 z) = z /\ wrap 8 (Z.shiftr z 8) = z / 256.
Proof.
  intros Hz. rewrite Z.shiftr_div_pow2 by lia. change (2 ^ 8) with 256.
  assert (0 <= z / 256 < 256) by (split; [apply Z.div_pos|apply Z.div_lt_upper_bound]; lia).
  rewrite (wrap_small 8 (z / 256)) by (unfold in_width; lia).
  split; [unfold in_width; lia|]. split; [apply wrap_in_width; lia|].
  split; [|done]. unfold from_be16, wrap. change (2 ^ 8) with 256.
  rewrite (Z.div_mod z 256) at 3 by lia. lia.
Qed.

Lemma words_bound data : bytes_ok data -> 0 <= words data <= 65535 * len data.
Proof.
  revert data. fix IH 1. intros [|a [|b rest]]; cbn [words].
  - intros _. unfold len. simpl. lia.
  - intros Hd. apply Forall_cons in Hd as [Ha _]. unfold in_width in Ha. unfold len. simpl. lia.
  - intros Hd. apply Forall_cons in Hd as [Ha Hd]. apply Forall_cons in Hd as [Hb Hd].
    specialize (IH rest Hd). unfold in_width in *. unfold from_be16, len in *. simpl length. lia.
Qed.

(** A header whose checksum field is filled in passes the receiver's test. *)
Lemma checksum_filled (h : list Z) (h0 h1 h2 h3 h4 h5 h6 h7 h8 h9 : Z) (rest : list Z) :
  h = ([h0; h1; h2; h3; h4; h5; h6; h7; h8; h9; 0; 0] ++ rest)%list ->
  bytes_ok h -> len h <= 20 -> 0 < h0 ->
  let c := ip_checksum h in
  ip_checksum ([h0; h1; h2; h3; h4; h5; h6; h7; h8; h9; wrap 8 (Z.shiftr c 8); wrap 8 c] ++ rest) = 0
  /\ is_u8 (wrap 8 (Z.shiftr c 8)) /\ is_u8 (wrap 8 c).
Proof.
  intros Hh Hok Hlen Hpos c. pose proof (words_bound h Hok) as Hw.
  destruct (ip_checksum_spec h ltac:(lia)) as (Hc & Hm & _). fold c in Hc, Hm.
  destruct (hi_lo c Hc) as (H1 & H2 & E & _). split; [|done].
  set (hi := wrap 8 (Z.shiftr c 8)) in *. set (lo := wrap 8 c) in *.
  assert (words ([h0; h1; h2; h3; h4; h5; h6; h7; h8; h9; hi; lo] ++ rest) = words h + c) as Ew.
  { rewrite Hh, <- E. cbn [app words]. unfold from_be16. lia. }
  assert (0 < words h).
  { rewrite Hh in Hok |- *. cbn [app words]. unfold from_be16. cbn [app] in Hok.
    unfold bytes_ok in Hok. rewrite !Forall_cons in Hok. unfold in_width in Hok.
    pose proof (words_bound rest ltac:(by apply Hok)). lia. }
  apply ip_checksum_zero; rewrite Ew; [lia|done].
Qed.

Lemma land_64_cases b : is_u8 b -> Z.land b 64 = 0 \/ Z.land b 64 = 64.
Proof.
  intros Hb. pose proof (check_byte (fun b => (Z.land b 64 =? 0) || (Z.land b 64 =? 64)) b
    ltac:(vm_compute; reflexivity) Hb) as H. apply orb_true_iff in H as [H|H]; btac; auto.
Qed.

Lemma wrap_land_255 z : wrap 8 (Z.land z 255) = wrap 8 z.
Proof.
  change 255 with (Z.ones 8). rewrite Z.land_ones by lia. unfold wrap. by rewrite Z.mod_mod.
Qed.

(** What [frag4_header] builds, spelled out. *)
Lemma frag4_header_eval h0 h1 h2 h3 h4 h5 h6 h7 h8 h9 h10 h11 h12 h13 h14 h15 h16 h17 h18 h19 pay
  df mf fo pl :
  let t := wrap 16 (HEADER_LEN + pl) in
  let b6 := Z.lor (Z.lor df (wrap 8 (Z.shiftl mf 5))) (Z.land (wrap 8 (Z.shiftr fo 8)) 31) in
  let c := ip_checksum [h0; h1; wrap 8 (Z.shiftr t 8); wrap 8 t; h4; h5; b6; wrap 8 fo; h8; h9; 0; 0;
                        h12; h13; h14; h15; h16; h17; h18; h19] in
  frag4_header ([h0; h1; h2; h3; h4; h5; h6; h7; h8; h9; h10; h11; h12; h13; h14; h15; h16; h17; h18;
                 h19] ++ pay) df mf fo pl
  = Ret [h0; h1; wrap 8 (Z.shiftr t 8); wrap 8 t; h4; h5; b6; wrap 8 fo; h8; h9;
         wrap 8 (Z.shiftr c 8); wrap 8 c; h12; h13; h14; h15; h16; h17; h18; h19].
Proof.
  intros t b6 c. unfold frag4_header.
  rewrite !byte_at_in, slice_in by (unfold HEADER_LEN, len; rewrite ?length_app; simpl; lia).
  cbn [obind]. rewrite wrap_land_255.
  change (sub_bytes _ 0 HEADER_LEN) with
    [h0; h1; h2; h3; h4; h5; h6; h7; h8; h9; h10; h11; h12; h13; h14; h15; h16; h17; h18; h19].
  fold t. fold b6. unfold c. reflexivity.
Qed.

(** One fragment: the header and [pl] bytes of payload. *)
Lemma frag4_header_spec packet mf fo pl payload :
  bytes_ok packet -> 20 <= len packet -> Z.land (byte_of packet 0) 15 = 5 ->
  mf = 0 \/ mf = 1 -> 0 <= fo < 8192 -> 0 < pl < 65516 -> len payload = pl ->
  exists hdr, frag4_header packet (dont_fragment packet) mf fo pl = Ret hdr /\ length hdr = 20%nat
    /\ fragment_ok packet (fo * 8) (hdr ++ payload) = true
    /\ more_fragments (hdr ++ payload) = mf.
Proof.
  intros Hok Hlen Hihl Hmf Hfo Hpl Hpay.
  destruct (header_split packet Hlen) as (h0&h1&h2&h3&h4&h5&h6&h7&h8&h9&h10&h11&h12&h13&h14&h15&h16&h17&h18&h19&pay&->).
  unfold byte_of in Hihl. cbn [nth app] in Hihl. unfold bytes_ok in Hok. apply Forall_app in Hok as [Hh _].
  rewrite !Forall_cons in Hh. destruct Hh as (B0&B1&B2&B3&B4&B5&B6&B7&B8&B9&B10&B11&B12&B13&B14&B15&B16&B17&B18&B19&_).
  rewrite frag4_header_eval. rewrite (wrap_small 16) by (unfold in_width, HEADER_LEN; lia).
  destruct (hi_lo (HEADER_LEN + pl) ltac:(unfold HEADER_LEN; lia)) as (T1 & T2 & Et & _).
  destruct (hi_lo fo ltac:(lia)) as (F1 & F2 & Ef & Efhi).
  assert (0 <= fo / 256 < 32) by (split; [apply Z.div_pos|apply Z.div_lt_upper_bound]; lia).
  destruct (flag_byte _ mf (fo / 256) (land_64_cases h6 B6) Hmf ltac:(lia)) as (G1 & G2 & G3 & G4 & G5).
  rewrite <- Efhi in G1, G2, G3, G4, G5. unfold dont_fragment, byte_of. cbn [nth app].
  set (b6 := Z.lor _ _) in *. set (t1 := wrap 8 (Z.shiftr (HEADER_LEN + pl) 8)) in *.
  set (t2 := wrap 8 (HEADER_LEN + pl)) in *. set (b7 := wrap 8 fo) in *. set (hz := [h0; h1; t1; t2; _; _; _; _; _; _; 0; 0; _; _; _; _; _; _; _; _]).
  assert (h0 <> 0) by (intros ->; done). unfold in_width in B0.
  destruct (checksum_filled hz h0 h1 t1 t2 h4 h5 b6 b7 h8 h9
    [h12; h13; h14; h15; h16; h17; h18; h19] eq_refl) as (C0 & C1 & C2); [|done|lia|].
  { unfold hz. repeat (constructor; [done || (unfold in_width; lia)|]). constructor. }
  set (c := ip_checksum hz) in *. eexists. split; [reflexivity|]. split; [reflexivity|].
  split; [|exact G3]. unfold fragment_ok, total_length, fragment_offset, dont_fragment, byte_of.
  unfold len in *. rewrite length_app. cbn [nth app length take].
  rewrite Et, G2, G4, G5. unfold HEADER_LEN.
  rewrite !andb_true_iff, !Z.eqb_eq, Z.ltb_lt. repeat split; try done; try lia.
  - by apply bool_decide_eq_true_2.
  - rewrite Efhi in Ef. unfold from_be16 in Ef. rewrite Efhi, Z.shiftl_mul_pow2 by lia.
    rewrite lor_mul_pow2 by (unfold b7; try apply wrap_in_width; lia). change (2 ^ 8) with 256. lia.
Qed.

Lemma len_sub_bytes l a b : 0 <= a <= b -> b <= len l -> len (sub_bytes l a b) = b - a.
Proof. intros. unfold sub_bytes, len in *. rewrite length_take, length_drop. lia. Qed.

Lemma drop_sub_bytes l a b :
  0 <= a <= b -> drop (Z.to_nat a) l = (sub_bytes l a b ++ drop (Z.to_nat b) l)%list.
Proof.
  intros Hab. unfold sub_bytes. rewrite <- (take_drop (Z.to_nat (b - a)) (drop (Z.to_nat a) l)) at 1.
  rewrite drop_drop. do 2 f_equal. lia.
Qed.

Section Frag4.
Context (packet : list Z) (payload_len max_payload base_offset base_mf : Z)
  (Hok : bytes_ok packet) (Hihl : Z.land (byte_of packet 0) 15 = 5)
  (Hlen : len packet = 20 + payload_len)
  (Hmax : 8 <= max_payload < 65516) (Hmax8 : max_payload mod 8 = 0)
  (Hmf : base_mf = 0 \/ base_mf = 1) (Hbase : 0 <= base_offset) (Hbase8 : base_offset mod 8 = 0)
  (Hfit : base_offset + payload_len - 1 <= MAX_FRAG_OFFSET_BYTES).

(** One round of the loop. *)
Lemma frag4_round offset :
  0 <= offset < payload_len -> offset mod 8 = 0 ->
  let fpl := Z.min max_payload (payload_len - offset) in
  let mf := if payload_len <=? offset + fpl then base_mf else 1 in
  let payload := sub_bytes packet (20 + offset) (20 + offset + fpl) in
  len payload = fpl /\ exists hdr,
    frag4_header packet (dont_fragment packet) mf (wrap 16 ((base_offset + offset) / 8)) fpl = Ret hdr
    /\ length hdr = 20%nat /\ fragment_ok packet (base_offset + offset) (hdr ++ payload) = true
    /\ more_fragments (hdr ++ payload) = mf.
Proof.
  intros Ho Ho8 fpl mf payload.
  assert (0 < fpl <= max_payload /\ fpl <= payload_len - offset) as Hfpl by (unfold fpl; lia).
  assert (len payload = fpl) as Hp.
  { unfold payload. rewrite len_sub_bytes by lia. lia. }
  split; [done|].
  assert (base_offset + offset = (base_offset + offset) / 8 * 8) as E8.
  { rewrite Z.mul_comm. apply Z.div_exact; [lia|]. rewrite Z.add_mod, Hbase8, Ho8 by lia. done. }
  assert (0 <= (base_offset + offset) / 8 < 8192) as Hfo.
  { unfold MAX_FRAG_OFFSET_BYTES in Hfit. split; [apply Z.div_pos|apply Z.div_lt_upper_bound]; lia. }
  rewrite (wrap_small 16) by (unfold in_width; lia).
  assert (mf = 0 \/ mf = 1) as Hmf' by (unfold mf; destruct (payload_len <=? offset + fpl); auto).
  pose proof (frag4_header_spec packet mf ((base_offset + offset) / 8) fpl payload
    Hok ltac:(lia) Hihl Hmf' Hfo ltac:(lia) Hp) as Hs. by rewrite <- E8 in Hs.
Qed.

Lemma frag4_loop_spec fuel offset :
  0 <= offset < payload_len -> offset mod 8 = 0 -> payload_len - offset <= Z.of_nat fuel ->
  exists f frs,
    frag4_loop fuel packet payload_len max_payload (dont_fragment packet) base_offset base_mf offset
      = Ret (f :: frs)
    /\ reassemble4 packet (base_offset + offset) (f :: frs)
       = Some (base_mf, drop (Z.to_nat (20 + offset)) packet)
    /\ Forall (fun f => len f <= 20 + max_payload) (f :: frs).
Proof.
  revert offset. induction fuel as [|fuel IH]; intros offset Ho Ho8 Hf; [lia|].
  destruct (frag4_round offset Ho Ho8) as (Hp & hdr & Hh & Hhl & Hfok & Hfmf).
  cbn [frag4_loop]. rewrite (proj2 (Z.leb_gt payload_len offset)) by lia.
  set (fpl := Z.min max_payload (payload_len - offset)) in *. unfold HEADER_LEN.
  rewrite Hh, slice_in by lia. cbn [obind].
  set (payload := sub_bytes packet (20 + offset) (20 + offset + fpl)) in *.
  assert (len (hdr ++ payload) <= 20 + max_payload) as Hfl.
  { unfold len in *. rewrite length_app, Hhl. lia. }
  assert (drop 20 (hdr ++ payload) = payload) as Hd by by rewrite drop_app_length'.
  destruct (Z.leb_spec payload_len (offset + fpl)) as [Hlast|Hmore].
  - exists (hdr ++ payload)%list, []. split.
    { destruct fuel; cbn [frag4_loop obind]; [done|]. by rewrite (proj2 (Z.leb_le _ _)) by lia. }
    split; [|by repeat constructor]. cbn [reassemble4]. rewrite Hfok, Hfmf, Hd. cbn [negb].
    do 2 f_equal. rewrite (drop_sub_bytes _ _ (20 + offset + fpl)) by lia.
    rewrite (drop_ge _ (Z.to_nat (20 + offset + fpl))) by (unfold len in Hlen; lia). by rewrite app_nil_r.
  - assert (fpl = max_payload) as Efpl by (unfold fpl in *; lia).
    destruct (IH (offset + fpl)) as (f & frs & -> & Hre & Hall); [lia| |lia|].
    { rewrite Z.add_mod, Ho8, Efpl, Hmax8 by lia. done. }
    cbn [obind]. exists (hdr ++ payload)%list, (f :: frs). split; [done|]. split; [|by constructor].
    cbn [reassemble4] in Hre |- *. rewrite Hfok, Hfmf, Hd, Hp, Efpl, Hmax8. cbn [negb Z.eqb andb].
    rewrite Efpl, Z.add_assoc in Hre. rewrite Hre. cbn [mbind option_bind].
    rewrite (drop_sub_bytes packet (20 + offset) (20 + offset + fpl)) by lia.
    rewrite Efpl, Z.add_assoc. unfold payload. by rewrite Efpl.
Qed.
End Frag4.

(** The header's own checksum, as the fragmenter tests it. *)
Definition header_intact (packet : list Z) : bool :=
  ip_checksum (<[11%nat := 0]> (<[10%nat := 0]> (take 20 packet)))
  =? from_be16 (byte_of packet 10) (byte_of packet 11).

Lemma fragment_ipv4_unfold packet max_size :
  len packet > max_size -> 20 <= len packet -> 28 <= max_size ->
  fragment_ipv4 packet max_size =
    if negb (Z.land (byte_of packet 0) 15 =? 5) then Ret None
    else if negb (header_intact packet) then Ret None
    else if MAX_FRAG_OFFSET_BYTES <? fragment_offset packet + (len packet - 20 - 1) then Ret None
    else frags <-! frag4_loop (Z.to_nat (len packet - 20)) packet (len packet - 20)
                     ((max_size - 20) / 8 * 8) (dont_fragment packet) (fragment_offset packet)
                     (more_fragments packet) 0;
         Ret (Some frags).
Proof.
  intros Hgt Hlen Hmax. unfold fragment_ipv4, HEADER_LEN.
  rewrite (proj2 (Z.leb_gt _ _)), (proj2 (Z.ltb_ge _ _)), (proj2 (Z.ltb_ge _ _)) by lia.
  replace (Z.ldiff (max_size - 20) 7) with ((max_size - 20) / 8 * 8).
  2:{ change 7 with (Z.ones 3). rewrite Z.ldiff_ones_r, Z.shiftr_div_pow2, Z.shiftl_mul_pow2 by lia. done. }
  replace (saturating_sub (len packet - 20) 1) with (len packet - 20 - 1)
    by (unfold saturating_sub; lia).
  destruct (header_split packet Hlen) as (h0&h1&h2&h3&h4&h5&h6&h7&h8&h9&h10&h11&h12&h13&h14&h15&h16&h17&h18&h19&pay&->).
  rewrite !byte_at_in, slice_in by lia. cbn [obind].
  change (sub_bytes _ 0 20) with
    [h0; h1; h2; h3; h4; h5; h6; h7; h8; h9; h10; h11; h12; h13; h14; h15; h16; h17; h18; h19].
  unfold header_intact, fragment_offset, dont_fragment, more_fragments, byte_of. cbn [nth app].
  change (Z.to_nat 0) with 0%nat. change (Z.to_nat 6) with 6%nat. change (Z.to_nat 7) with 7%nat. cbn [nth].
  replace (Z.land h0 15 * 4 =? 20) with (Z.land h0 15 =? 5)
    by (destruct (Z.eqb_spec (Z.land h0 15) 5), (Z.eqb_spec (Z.land h0 15 * 4) 20); done || (exfalso; lia)).
  destruct (Z.land h0 15 =? 5); [|done]. cbn [negb]. rewrite be16_at_in by done. cbn [obind].
  change (set_all _ _) with
    (Ret [h0; h1; h2; h3; h4; h5; h6; h7; h8; h9; 0; 0; h12; h13; h14; h15; h16; h17; h18; h19]).
  cbn [obind]. done.
Qed.

Lemma more_fragments_cases f : more_fragments f = 0 \/ more_fragments f = 1.
Proof.
  unfold more_fragments. rewrite (Z.land_ones _ 1) by lia.
  pose proof (Z.mod_pos_bound (Z.shiftr (byte_of f 6) 5) (2 ^ 1) ltac:(lia)). lia.
Qed.

Lemma byte_of_ok f i : bytes_ok f -> is_u8 (byte_of f i).
Proof.
  intros Hok. unfold byte_of. destruct (nth_in_or_default i f 0) as [Hin| ->]; [|unfold in_width; lia].
  unfold bytes_ok in Hok. rewrite Forall_forall in Hok. by apply Hok, list_elem_of_In.
Qed.

Lemma fragment_offset_nonneg f : bytes_ok f -> 0 <= fragment_offset f.
Proof.
  intros Hok. unfold fragment_offset. apply Z.mul_nonneg_nonneg; [|lia]. apply Z.lor_nonneg. split.
  - apply Z.shiftl_nonneg. apply Z.land_nonneg. lia.
  - by apply (byte_of_ok f 7).
Qed.

Lemma fragment_ipv4_spec (packet : list Z) (max_size : Z) :
  bytes_ok packet -> 0 <= max_size <= 65535 ->
  exists r, fragment_ipv4 packet max_size = Ret r /\
  match r with
  | Some frags =>
      reassemble4 packet (fragment_offset packet) frags
        = Some (more_fragments packet, drop 20 packet)
      /\ Forall (fun f => len f <= max_size) frags
  | None =>
      len packet <= max_size \/ len packet < 20 \/ max_size < 28
      \/ Z.land (byte_of packet 0) 15 <> 5 \/ header_intact packet = false
      \/ MAX_FRAG_OFFSET_BYTES < fragment_offset packet + (len packet - 20 - 1)
  end.
Proof.
  intros Hok Hmax.
  assert (len packet <= max_size \/ len packet < 20 \/ max_size < 28
    \/ (len packet > max_size /\ 20 <= len packet /\ 28 <= max_size)) as [H|[H|[H|(Hgt & Hlen & Hm)]]] by lia.
  - exists None. unfold fragment_ipv4. rewrite (proj2 (Z.leb_le _ _) H). auto.
  - exists None. unfold fragment_ipv4, HEADER_LEN. rewrite (proj2 (Z.ltb_lt _ _) H).
    destruct (len packet <=? max_size); auto.
  - exists None. unfold fragment_ipv4, HEADER_LEN. rewrite (proj2 (Z.ltb_lt _ (20 + 8))) by lia.
    destruct (len packet <=? max_size), (len packet <? 20); auto.
  - rewrite fragment_ipv4_unfold by done.
    destruct (Z.eqb_spec (Z.land (byte_of packet 0) 15) 5) as [Hihl|]; [|exists None; cbn; tauto].
    destruct (header_intact packet); [|exists None; cbn; tauto]. cbn [negb].
    destruct (Z.ltb_spec MAX_FRAG_OFFSET_BYTES (fragment_offset packet + (len packet - 20 - 1)));
      [exists None; tauto|].
    assert (0 <= (max_size - 20) / 8 * 8 <= max_size - 20 /\ 8 <= (max_size - 20) / 8 * 8) as Hp.
    { pose proof (Z.div_mod (max_size - 20) 8 ltac:(lia)).
      pose proof (Z.mod_pos_bound (max_size - 20) 8 ltac:(lia)). lia. }
    destruct (frag4_loop_spec packet (len packet - 20) ((max_size - 20) / 8 * 8) (fragment_offset packet)
      (more_fragments packet) Hok Hihl ltac:(lia) ltac:(lia) ltac:(by rewrite Z.mod_mul))
      with (fuel := Z.to_nat (len packet - 20)) (offset := 0) as (f & frs & -> & Hre & Hall); try lia.
    + apply more_fragments_cases.
    + by apply fragment_offset_nonneg.
    + unfold fragment_offset. by rewrite Z.mod_mul.
    + done.
    + exists (Some (f :: frs)). split; [done|]. rewrite Z.add_0_r in Hre. split; [exact Hre|].
      eapply Forall_impl; [exact Hall|]. intros x Hx. cbn beta in *. lia.
Qed.

(** IPv4 fragmentation never panics; when it splits a packet, every piece fits
    the size limit and a receiver that reassembles them by RFC 791 (claimed
    length, checksum, identification, flags and offsets checked on every piece)
    gets back exactly the payload at the packet's own offset and with its own
    more-fragments flag, also when the packet already was a fragment; it refuses
    a packet only when it fits, is too short, carries options or a bad checksum,
    the limit is below 28 bytes, or an offset would not fit its field. *)
Theorem fragment_ipv4_reassembles (packet : list Z) (max_size : Z) :
  bytes_ok packet -> 0 <= max_size <= 65535 ->
  exists r, fragment_ipv4 packet max_size = Ret r /\
  match r with
  | Some frags =>
      reassemble4 packet (fragment_offset packet) frags
        = Some (more_fragments packet, drop 20 packet)
      /\ Forall (fun f => len f <= max_size) frags
  | None =>
      len packet <= max_size \/ len packet < 20 \/ max_size < 28
      \/ Z.land (byte_of packet 0) 15 <> 5 \/ header_intact packet = false
      \/ MAX_FRAG_OFFSET_BYTES < fragment_offset packet + (len packet - 20 - 1)
  end.
Proof. exact (fragment_ipv4_spec packet max_size). Qed.

(** ** IPv6 envelopes *)

(** Offset and bytes of the pieces a packet is cut into from [offset] on. *)
Fixpoint pieces (fuel : nat) (packet : list Z) (max_payload offset : Z) : list (Z * list Z) :=
  match fuel with
  | O => []
  | S f =>
      if len packet <=? offset then []
      else
        let n := Z.min max_payload (len packet - offset) in
        (offset, sub_bytes packet offset (offset + n)) :: pieces f packet max_payload (offset + n)
  end.

Definition envelope (packet : list Z) (id : Z) (piece : Z * list Z) : list Z :=
  (frag6_header id piece.1 (if piece.1 + len piece.2 <? len packet then 1 else 0) ++ piece.2)%list.

(** The pieces follow each other without gap, each with at least one byte. *)
Fixpoint contiguous (start : Z) (l : list (Z * list Z)) : Prop :=
  match l with
  | [] => True
  | (o, b) :: r => o = start /\ 0 < len b /\ contiguous (start + len b) r
  end.

Definition joined (l : list (Z * list Z)) : list Z := concat (snd <$> l).

Lemma len_app {A} (l k : list A) : len (l ++ k) = len l + len k.
Proof. unfold len. rewrite length_app. lia. Qed.

Lemma frag6_loop_pieces fuel packet id max_payload offset :
  0 < max_payload -> 0 <= offset ->
  frag6_loop fuel packet id max_payload offset
  = Ret (envelope packet id <$> pieces fuel packet max_payload offset).
Proof.
  intros Hm. revert offset. induction fuel as [|f IH]; intros offset Ho; [done|].
  cbn [frag6_loop pieces]. destruct (Z.leb_spec (len packet) offset); [done|].
  rewrite slice_in by lia. cbn [obind]. rewrite IH by lia. cbn [obind fmap list_fmap].
  unfold envelope at 2. cbn [fst snd]. rewrite len_sub_bytes by lia. do 5 f_equal.
  replace (offset + (offset + Z.min max_payload (len packet - offset) - offset))
    with (offset + Z.min max_payload (len packet - offset)) by lia. done.
Qed.

Lemma pieces_spec fuel packet max_payload offset :
  0 < max_payload -> 0 <= offset <= len packet -> len packet - offset <= Z.of_nat fuel ->
  contiguous offset (pieces fuel packet max_payload offset)
  /\ joined (pieces fuel packet max_payload offset) = drop (Z.to_nat offset) packet
  /\ Forall (fun p => len p.2 <= max_payload) (pieces fuel packet max_payload offset).
Proof.
  intros Hm. revert offset. induction fuel as [|f IH]; intros offset Ho Hf.
  - cbn. split; [done|]. split; [|constructor]. rewrite drop_ge; [done|]. unfold len in *. lia.
  - cbn [pieces]. destruct (Z.leb_spec (len packet) offset).
    + cbn. split; [done|]. split; [|constructor]. rewrite drop_ge; [done|]. unfold len in *. lia.
    + set (n := Z.min max_payload (len packet - offset)).
      assert (0 < n <= max_payload /\ n <= len packet - offset) as Hn by (unfold n; lia).
      assert (len (sub_bytes packet offset (offset + n)) = n) as Hlen by (rewrite len_sub_bytes; lia).
      destruct (IH (offset + n)) as (Hc & Hj & Ha); [lia..|]. cbn [contiguous]. rewrite Hlen.
      split; [repeat split; done || lia|]. split.
      * unfold joined in *. cbn [fmap list_fmap concat snd]. rewrite Hj. symmetry. apply drop_sub_bytes. lia.
      * constructor; [cbn; lia|done].
Qed.

Lemma contiguous_after start l o b :
  contiguous start l -> (o, b) ∈ l -> start <= o /\ 0 < len b /\ o + len b <= start + len (joined l).
Proof.
  revert start. induction l as [|[o' b'] l IH]; intros start; cbn [contiguous]; [intros _ []%elem_of_nil|].
  intros (-> & Hb & Hc) [E|Hin]%elem_of_cons; unfold joined; cbn [fmap list_fmap concat snd]; rewrite len_app.
  - simplify_eq. fold (joined l). assert (0 <= len (joined l)) by (unfold len; lia). lia.
  - destruct (IH _ Hc Hin) as (? & ? & ?). unfold joined in *. lia.
Qed.

Lemma contiguous_offsets start l : contiguous start l -> NoDup (fst <$> l).
Proof.
  revert start. induction l as [|[o b] l IH]; intros start; csimpl; [constructor|].
  intros (-> & Hb & Hc). apply NoDup_cons. split; [|by eapply IH].
  intros ([o' b'] & E & Hin)%list_elem_of_fmap. simpl in E. subst o'.
  apply (contiguous_after _ _ _ _ Hc) in Hin. lia.
Qed.

Lemma contiguous_sorted start l :
  contiguous start l -> StronglySorted (fun a b => key_leb a b = true) l.
Proof.
  revert start. induction l as [|[o b] l IH]; intros start; cbn [contiguous]; [constructor|].
  intros (-> & Hb & Hc). constructor; [by eapply IH|]. apply Forall_forall. intros [o' b'] Hin.
  apply (contiguous_after _ _ _ _ Hc) in Hin. apply Z.leb_le. simpl. lia.
Qed.

Lemma walk_chunks_contiguous start l out :
  contiguous start l -> walk_chunks l start out = Some (out ++ joined l, start + len (joined l))%list.
Proof.
  revert start out. induction l as [|[o b] l IH]; intros start out; cbn [contiguous walk_chunks].
  - intros _. unfold joined. cbn. rewrite app_nil_r. do 2 f_equal. unfold len. simpl. lia.
  - intros (-> & Hb & Hc). rewrite Z.eqb_refl, IH by done. unfold joined. cbn [fmap list_fmap concat snd].
    rewrite len_app, <- app_assoc. do 2 f_equal. lia.
Qed.

(** A walk over some of the pieces that reaches the end has met all of them. *)
Lemma walk_chunks_all start full k out res :
  contiguous start full -> (forall p, p ∈ k -> p ∈ full) -> NoDup (fst <$> k) ->
  walk_chunks k start out = Some (res, start + len (joined full)) -> k = full.
Proof.
  revert start k out. induction full as [|[o b] full IH]; intros start k out; cbn [contiguous].
  - intros _ Hk _ _. destruct k as [|p k]; [done|].
    exfalso. apply (proj1 (elem_of_nil p)), Hk. left.
  - intros (-> & Hb & Hc) Hk Hnd Hw. unfold joined in Hw. cbn [fmap list_fmap concat snd] in Hw.
    rewrite len_app in Hw. fold (joined full) in Hw. assert (0 <= len (joined full)) by (unfold len; lia).
    destruct k as [|[o' b'] k]; cbn [walk_chunks] in Hw; [simplify_eq; lia|].
    destruct (Z.eqb_spec o' start) as [->|]; [|done].
    assert (b' = b) as ->.
    { destruct (proj1 (elem_of_cons _ _ _) (Hk (start, b') ltac:(left))) as [E|Hin]; [by simplify_eq|].
      apply (contiguous_after _ _ _ _ Hc) in Hin. lia. }
    csimpl in Hnd. apply NoDup_cons in Hnd as [Hs Hnd]. f_equal.
    rewrite Z.add_assoc in Hw. eapply (IH _ _ _ Hc); [|done|exact Hw].
    intros p Hp. destruct (proj1 (elem_of_cons _ _ _) (Hk p ltac:(by right))) as [->|]; [|done].
    destruct Hs. apply (list_elem_of_fmap_2 fst) in Hp. exact Hp.
Qed.

Lemma btree_u16_elem {V} (m : gmap Z V) o v : (o, v) ∈ btree_u16 m <-> m !! o = Some v.
Proof. unfold btree_u16. rewrite sort_by_elem. apply elem_of_map_to_list. Qed.

Lemma btree_u16_keys {V} (m : gmap Z V) : NoDup (fst <$> btree_u16 m).
Proof. unfold btree_u16. rewrite sort_by_perm. apply NoDup_fst_map_to_list. Qed.

Lemma key_leb_total {V} (a b : Z * V) : key_leb a b = true \/ key_leb b a = true.
Proof. unfold key_leb. rewrite !Z.leb_le. lia. Qed.

Lemma key_leb_trans {V} (a b c : Z * V) :
  key_leb a b = true -> key_leb b c = true -> key_leb a c = true.
Proof. unfold key_leb. rewrite !Z.leb_le. lia. Qed.

(** A map that holds exactly the pieces lists them in their order. *)
Lemma btree_u16_contiguous start full (m : gmap Z (list Z)) :
  contiguous start full -> (forall o b, m !! o = Some b <-> (o, b) ∈ full) -> btree_u16 m = full.
Proof.
  intros Hc Hm. eapply (StronglySorted_unique_strong (fun a b => key_leb a b = true)).
  - intros [o1 b1] [o2 b2] H1 H2 L1 L2. unfold key_leb in *. simpl in *. btac.
    rewrite btree_u16_elem, Hm in H1.
    apply (NoDup_fmap_elem_inj fst full); [by eapply contiguous_offsets|done|done|simpl; lia].
  - apply sort_by_sorted; [apply key_leb_total|apply key_leb_trans].
  - by eapply contiguous_sorted.
  - unfold btree_u16. rewrite sort_by_perm. apply NoDup_Permutation.
    + apply NoDup_map_to_list.
    + eapply NoDup_fmap_1. by eapply contiguous_offsets.
    + intros [o b]. by rewrite elem_of_map_to_list.
Qed.

Lemma contiguous_last start l :
  contiguous start l -> l <> [] -> exists o b, (o, b) ∈ l /\ o + len b = start + len (joined l).
Proof.
  revert start. induction l as [|[o b] l IH]; intros start; [done|]. cbn [contiguous].
  intros (-> & Hb & Hc) _. unfold joined. cbn [fmap list_fmap concat snd]. rewrite len_app. fold (joined l).
  destruct l as [|q l]; [exists start, b; split; [left|change (len (joined [])) with 0; lia]|].
  destruct (IH _ Hc ltac:(done)) as (o' & b' & Hin & E). exists o', b'. split; [by right|lia].
Qed.

(** A partial set of pieces is complete exactly when no piece is missing. *)
Section Pieces.
Context (full : list (Z * list Z)) (Hfull : contiguous 0 full).

Definition part_of (p : PartialIpv6) : Prop :=
  (forall o b, chunks p !! o = Some b -> (o, b) ∈ full)
  /\ (total_len p = None \/ total_len p = Some (len (joined full)))
  /\ (forall o b, (o, b) ∈ full -> o + len b = len (joined full) ->
        chunks p !! o = Some b -> total_len p = Some (len (joined full))).

Lemma try_complete_all p :
  full <> [] -> part_of p -> (forall o b, (o, b) ∈ full -> chunks p !! o = Some b) ->
  try_complete p = Some (joined full).
Proof.
  intros Hne (Hsub & _ & Hlast) Hall.
  destruct (contiguous_last 0 full Hfull Hne) as (o & b & Hin & E).
  assert (total_len p = Some (len (joined full))) as Ht by eauto.
  unfold try_complete. rewrite Ht. cbn [mbind option_bind].
  rewrite (btree_u16_contiguous 0 full) by (done || naive_solver).
  rewrite walk_chunks_contiguous by done. cbn [mbind option_bind]. by rewrite Z.eqb_refl.
Qed.

Lemma try_complete_missing p o b :
  part_of p -> (o, b) ∈ full -> chunks p !! o <> Some b -> try_complete p = None.
Proof.
  intros (Hsub & Ht & _) Hin Hmiss. unfold try_complete.
  destruct Ht as [-> | ->]; [done|]. cbn [mbind option_bind].
  destruct (walk_chunks (btree_u16 (chunks p)) 0 []) as [[out e]|] eqn:E; [|done]. cbn [mbind option_bind].
  destruct (Z.eqb_spec e (len (joined full))) as [->|]; [|done]. exfalso.
  assert (btree_u16 (chunks p) = full) as Eq.
  { eapply (walk_chunks_all 0 full _ [] out); [done| |apply btree_u16_keys|exact E].
    intros [o' b'] H%btree_u16_elem. by apply Hsub. }
  apply Hmiss. apply btree_u16_elem. by rewrite Eq.
Qed.
End Pieces.

(** ** One step of the reassembler *)
Lemma to_be16_value z : 0 <= z < 65536 -> exists a b, to_be16 z = [a; b] /\ from_be16 a b = z.
Proof.
  intros Hz. unfold to_be16. do 2 eexists. split; [reflexivity|]. unfold from_be16.
  pose proof (Z.div_mod z 256 ltac:(lia)). lia.
Qed.

(** The entry of [id] after a piece has been added. *)
Definition add_piece (entry : option PartialIpv6) (more : bool) (o : Z) (b : list Z) (t : Z) : PartialIpv6 :=
  let e := default (mkPartial ∅ None t) entry in
  mkPartial (<[o := b]> (chunks e)) (if more then total_len e else Some (o + len b)) t.

Lemma accept_envelope st tg ts id o more b :
  is_u32 id -> 0 <= o -> o + len b <= MAX_REASSEMBLED_IPV6_PACKET -> more = 0 \/ more = 1 ->
  accept st tg ts (frag6_header id o more ++ b)
  = let st1 := make_room (gc_stale st tg) id in
    let entry := add_piece (st1 !! id) (more =? 1) o b ts in
    match try_complete entry with
    | Some full => Ret (delete id st1, Complete full)
    | None => Ret (<[id := entry]> st1, Waiting)
    end.
Proof.
  intros Hid Ho Hb Hmore. unfold MAX_REASSEMBLED_IPV6_PACKET in *. assert (0 <= len b) by (unfold len; lia).
  unfold accept, frag6_header. rewrite (wrap_small 16) by (unfold in_width; lia).
  destruct (to_be32_value id Hid) as (i1 & i2 & i3 & i4 & -> & Ei).
  destruct (to_be16_value o ltac:(lia)) as (o1 & o2 & -> & Eo). cbn [app head].
  rewrite bool_decide_eq_true_2 by done. cbn [negb].
  set (d := FRAG6_MAGIC :: i1 :: i2 :: i3 :: i4 :: o1 :: o2 :: more :: b).
  assert (len d = 8 + len b) as Hd by (unfold d, len; cbn [length]; lia).
  unfold FRAG6_HEADER_LEN. rewrite (proj2 (Z.ltb_ge _ _)) by lia.
  rewrite !byte_at_in, be16_at_in, slice_in by lia. cbn [obind].
  rewrite Hd.
  replace (sub_bytes d 8 (8 + len b)) with b.
  2:{ unfold sub_bytes, d. replace (Z.to_nat (8 + len b - 8)) with (length b) by (unfold len; lia).
      change (drop (Z.to_nat 8) _) with b. symmetry. apply firstn_all. }
  unfold d. change (Z.to_nat 1) with 1%nat. change (Z.to_nat 2) with 2%nat. change (Z.to_nat 3) with 3%nat.
  change (Z.to_nat 4) with 4%nat. change (Z.to_nat 5) with 5%nat. change (Z.to_nat (5 + 1)) with 6%nat.
  change (Z.to_nat 7) with 7%nat. cbn [nth]. rewrite Ei, Eo.
  unfold MAX_REASSEMBLED_IPV6_PACKET. rewrite (proj2 (Z.ltb_ge _ _)) by lia. unfold add_piece.
  destruct Hmore as [->| ->]; reflexivity.
Qed.

(** ** A whole set of envelopes *)

(** Datagrams with the two clock readings of their processing. *)
Fixpoint feed (st : Ipv6Reassembler) (l : list (Z * Z * list Z))
  : outcome (Ipv6Reassembler * list Ipv6FragmentOutcome) :=
  match l with
  | [] => Ret (st, [])
  | (tg, ts, d) :: rest =>
      r <-! accept st tg ts d;
      r' <-! feed r.1 rest;
      Ret (r'.1, r.2 :: r'.2)
  end.

(** Each envelope is swept for less than the timeout after the one before. *)
Fixpoint timely {A} (prev : option Z) (l : list (Z * Z * A)) : Prop :=
  match l with
  | [] => True
  | (tg, ts, _) :: rest =>
      match prev with Some t => tg - t < REASSEMBLY_TIMEOUT | None => True end
      /\ timely (Some ts) rest
  end.

Lemma gc_stale_lookup st tg id :
  gc_stale st tg !! id = match st !! id with
                         | Some e => if decide (tg - last_seen e < REASSEMBLY_TIMEOUT) then Some e else None
                         | None => None
                         end.
Proof.
  unfold gc_stale. destruct (st !! id) as [e|] eqn:E.
  - case_decide as Hd.
    + apply map_lookup_filter_Some. split; [done|]. unfold saturating_sub, REASSEMBLY_TIMEOUT in *. simpl. lia.
    + apply map_lookup_filter_None. right. intros e' He. simplify_eq.
      unfold saturating_sub, REASSEMBLY_TIMEOUT in *. simpl. lia.
  - apply map_lookup_filter_None. by left.
Qed.

Lemma make_room_lookup st id : make_room st id !! id = st !! id.
Proof.
  unfold make_room. case_bool_decide as Hid; [|done]. cbn [andb]. destruct (_ <=? _)%nat; [|done].
  destruct (oldest _) as [k|]; [|done]. destruct (decide (k = id)) as [->|].
  - by rewrite lookup_delete_eq.
  - by rewrite lookup_delete_ne.
Qed.

Section Set6.
Context (packet : list Z) (id : Z) (full : list (Z * list Z)) (Hid : is_u32 id)
  (Hfull : contiguous 0 full) (Hne : full <> []) (Hjoin : joined full = packet)
  (Hlen : len packet <= MAX_REASSEMBLED_IPV6_PACKET).

(** What the reassembler holds of this set after the pieces [P] have arrived. *)
Definition holds (st : Ipv6Reassembler) (P : list (Z * list Z)) (prev : option Z) : Prop :=
  match st !! id with
  | None => P = []
  | Some e => prev = Some (last_seen e) /\ part_of full e
              /\ (forall o b, chunks e !! o = Some b <-> (o, b) ∈ P)
  end.

Lemma holds_subset st P prev p : holds st P prev -> p ∈ P -> p ∈ full.
Proof.
  unfold holds. destruct (st !! id) as [e|]; [|intros ->; by intros []%elem_of_nil].
  intros (_ & (Hsub & _) & HP) Hp. destruct p as [o b]. by apply Hsub, HP.
Qed.

Lemma add_piece_holds st P prev tg ts o b :
  holds st P prev -> (o, b) ∈ full -> timely (A := unit) prev [(tg, ts, tt)] ->
  let st1 := make_room (gc_stale st tg) id in
  let e := add_piece (st1 !! id) (negb (negb (o + len b <? len packet))) o b ts in
  last_seen e = ts /\ part_of full e /\ forall o' b', chunks e !! o' = Some b' <-> (o', b') ∈ (o, b) :: P.
Proof.
  intros HP Hin [Ht _] st1. assert (st1 !! id = st !! id) as ->.
  { unfold st1. rewrite make_room_lookup, gc_stale_lookup. unfold holds in HP.
    destruct (st !! id) as [e|]; [|done]. destruct HP as (-> & _). by rewrite decide_True. }
  pose proof (contiguous_after 0 full o b Hfull Hin) as (Ho & Hb & Hend).
  set (e0 := default (mkPartial ∅ None ts) (st !! id)).
  assert (part_of full e0 /\ forall o' b', chunks e0 !! o' = Some b' <-> (o', b') ∈ P) as [(Hsub & Htot & Hlast) Hch].
  { unfold holds in HP. unfold e0. destruct (st !! id) as [e|]; simpl; [tauto|]. subst P. split.
    - split; [intros ?? H; cbn in H; by rewrite lookup_empty in H|]. split; [by left|].
      intros ???? H. cbn in H. by rewrite lookup_empty in H.
    - intros. rewrite lookup_empty. split; [done|by intros []%elem_of_nil]. }
  assert (forall o' b', <[o := b]> (chunks e0) !! o' = Some b' <-> (o', b') ∈ (o, b) :: P) as Hch'.
  { intros o' b'. rewrite lookup_insert_Some, elem_of_cons, Hch.
    split; [intros [[-> ->]|[_ Hp]]; auto|].
    intros [E|Hp]; [simplify_eq; auto|]. destruct (decide (o = o')) as [->|]; [|auto]. left. split; [done|].
    apply (holds_subset _ _ _ _ HP) in Hp. assert ((o', b) = (o', b')) as E; [|by simplify_eq].
    apply (NoDup_fmap_elem_inj fst full); [by eapply contiguous_offsets|done..]. }
  unfold add_piece. fold e0. rewrite negb_involutive. simpl. split; [done|]. split; [|done].
  assert (forall o' b', (o', b') ∈ (o, b) :: P -> (o', b') ∈ full) as Hsub'.
  { intros o' b' [E|Hp]%elem_of_cons; [by simplify_eq|]. by apply (holds_subset _ _ _ _ HP). }
  split; [intros o' b' H%Hch'; by apply Hsub'|]. split; simpl.
  - destruct (Z.ltb_spec (o + len b) (len packet)); [done|]. right. f_equal. rewrite Hjoin in *. lia.
  - intros o' b' Hin' E Hl. destruct (Z.ltb_spec (o + len b) (len packet)); [|f_equal; rewrite Hjoin in *; lia].
    apply (Hlast o' b' Hin' E). apply Hch' in Hl. apply elem_of_cons in Hl as [Eq|Hp]; [|by apply Hch].
    injection Eq as -> ->. rewrite Hjoin in *. lia.
Qed.

Lemma accept_piece st P prev tg ts p :
  holds st P prev -> p ∈ full -> timely (A := unit) prev [(tg, ts, tt)] ->
  exists st',
    ((exists q, q ∈ full /\ q ∉ p :: P) ->
       accept st tg ts (envelope packet id p) = Ret (st', Waiting) /\ holds st' (p :: P) (Some ts))
    /\ ((forall q, q ∈ full -> q ∈ p :: P) ->
       accept st tg ts (envelope packet id p) = Ret (delete id st', Complete packet)).
Proof.
  destruct p as [o b]. intros HP Hin Ht.
  pose proof (contiguous_after 0 full o b Hfull Hin) as (Ho & Hb & Hend).
  destruct (add_piece_holds st P prev tg ts o b HP Hin Ht) as (Hseen & Hpart & Hch).
  unfold envelope. cbn [fst snd]. set (more := if o + len b <? len packet then 1 else 0).
  assert ((more =? 1) = negb (negb (o + len b <? len packet))) as Em
    by (unfold more; by destruct (o + len b <? len packet)).
  rewrite accept_envelope by (done || (rewrite Hjoin in *; lia) || (unfold more; destruct (_ <? _); auto)).
  cbv zeta. rewrite Em. set (st1 := make_room (gc_stale st tg) id) in *.
  set (e := add_piece (st1 !! id) _ o b ts) in *.
  destruct (decide (Forall (fun q => q ∈ (o, b) :: P) full)) as [Hall|Hmiss].
  - exists st1. split.
    + intros (q & Hq & Hn). rewrite Forall_forall in Hall. by destruct (Hn (Hall q Hq)).
    + intros _. rewrite Forall_forall in Hall. rewrite (try_complete_all full Hfull e Hne Hpart).
      * by rewrite Hjoin.
      * intros o' b' Hq. by apply Hch, Hall.
  - exists (<[id := e]> st1). split.
    + intros ([o' b'] & Hq & Hn).
      rewrite (try_complete_missing full Hfull e o' b' Hpart Hq) by (intros E%Hch; done).
      split; [done|]. unfold holds. rewrite lookup_insert_eq. by rewrite Hseen.
    + intros Hall. destruct Hmiss. by apply Forall_forall.
Qed.

Definition send (a : Z * Z * (Z * list Z)) : Z * Z * list Z := (a.1.1, a.1.2, envelope packet id a.2).

Lemma feed_set st P prev pre fin :
  holds st P prev -> timely prev (pre ++ [fin]) ->
  (forall a, a ∈ pre ++ [fin] -> a.2 ∈ full) ->
  (exists q, q ∈ full /\ ~ q ∈ P /\ ~ q ∈ (snd <$> pre)) ->
  (forall q, q ∈ full -> q ∈ P \/ q ∈ (snd <$> (pre ++ [fin]))) ->
  exists st', feed st (send <$> (pre ++ [fin]))
              = Ret (st', replicate (length pre) Waiting ++ [Complete packet])
              /\ st' !! id = None.
Proof.
  revert st P prev. induction pre as [|[[tg ts] p] pre IH]; intros st P prev HP Ht Hin (q & Hq & HqP & Hqpre) Hall.
  - destruct fin as [[tg ts] p]. cbn [app] in *.
    destruct (accept_piece st P prev tg ts p HP (Hin _ ltac:(left)) Ht) as (st' & _ & Hc).
    exists (delete id st'). split; [|apply lookup_delete_eq].
    rewrite fmap_cons. unfold send at 1. cbn [feed fst snd]. rewrite Hc; [done|].
    intros q' Hq'. destruct (Hall q' Hq') as [?|Hs]; [by right|].
    apply list_elem_of_singleton in Hs. rewrite Hs. left.
  - cbn [app] in *. destruct Ht as [Ht Htl].
    destruct (accept_piece st P prev tg ts p HP (Hin _ ltac:(left)) (conj Ht I)) as (st' & Hw & _).
    destruct Hw as [Hacc HP'].
    { exists q. split; [done|]. intros [->|?]%elem_of_cons; [|done]. apply Hqpre. left. }
    destruct (IH st' (p :: P) (Some ts) HP' Htl) as (st'' & Hf & Hn).
    + intros a Ha. apply Hin. by right.
    + exists q. split; [done|]. split.
      * intros [->|?]%elem_of_cons; [|done]. apply Hqpre. left.
      * intros ?. apply Hqpre. by right.
    + intros q' Hq'. destruct (Hall q' Hq') as [?|Hs]; [left; by right|].
      csimpl in Hs. apply elem_of_cons in Hs as [->|?]; [left; left|by right].
    + exists st''. split; [|done]. rewrite fmap_cons. unfold send at 1. cbn [feed fst snd].
      rewrite Hacc. cbn [obind fst snd]. rewrite Hf. done.
Qed.
End Set6.

Lemma timely_fmap {A B} (g : A -> B) prev (l : list (Z * Z * A)) :
  timely prev l -> timely prev ((fun a => (a.1, g a.2)) <$> l).
Proof.
  revert prev. induction l as [|[[tg ts] a] l IH]; intros prev; csimpl; [done|].
  intros [? ?]. split; [done|]. by apply IH.
Qed.

Lemma fragment_ipv6_inv packet id max_size frags :
  fragment_ipv6 packet id max_size = Ret (Some frags) ->
  let full := pieces (length packet) packet (max_size - FRAG6_HEADER_LEN) 0 in
  frags = (envelope packet id <$> full) /\ contiguous 0 full /\ full <> [] /\ joined full = packet
  /\ Forall (fun f => len f <= max_size) frags.
Proof.
  unfold fragment_ipv6, FRAG6_HEADER_LEN. destruct (Z.leb_spec (len packet) max_size) as [|Hgt]; [done|].
  destruct (Z.leb_spec max_size 8) as [|H8]; [done|]. destruct (Z.ltb_spec 65535 (len packet)); [done|].
  rewrite frag6_loop_pieces by lia. cbn [obind]. intros [= <-].
  destruct (pieces_spec (length packet) packet (max_size - 8) 0) as (Hc & Hj & Ha);
    [lia|unfold len in *; lia|unfold len; lia|].
  split; [done|]. split; [done|]. rewrite drop_0 in Hj. split; [|split; [done|]].
  - intros E. rewrite E in Hj. cbn in Hj. subst packet. unfold len in Hgt. simpl in Hgt. lia.
  - apply Forall_fmap. eapply Forall_impl; [exact Ha|]. intros [o b] Hb. unfold envelope. cbn [compose fst snd] in *.
    unfold frag6_header. rewrite !len_app. unfold len in *. cbn [length app to_be32 to_be16]. lia.
Qed.

Lemma fragment_ipv6_set_spec (packet : list Z) (id max_size : Z) (frags : list (list Z))
  (st : Ipv6Reassembler) (pre : list (Z * Z * nat)) (fin : Z * Z * nat) :
  is_u32 id -> len packet <= MAX_REASSEMBLED_IPV6_PACKET ->
  fragment_ipv6 packet id max_size = Ret (Some frags) ->
  st !! id = None -> timely None (pre ++ [fin]) ->
  (forall a, a ∈ pre ++ [fin] -> (a.2 < length frags)%nat) ->
  (exists j, (j < length frags)%nat /\ j ∉ (snd <$> pre)) ->
  (forall j, (j < length frags)%nat -> j ∈ (snd <$> (pre ++ [fin]))) ->
  Forall (fun f => len f <= max_size) frags /\
  exists st',
    feed st ((fun a => (a.1.1, a.1.2, nth a.2 frags [])) <$> (pre ++ [fin]))
    = Ret (st', replicate (length pre) Waiting ++ [Complete packet])
    /\ st' !! id = None.
Proof.
  intros Hid Hlen Hf Hst Ht Hlt (j & Hj & Hmiss) Hall.
  destruct (fragment_ipv6_inv _ _ _ _ Hf) as (-> & Hc & Hne & Hjoin & Hsize). split; [done|].
  set (full := pieces (length packet) packet (max_size - FRAG6_HEADER_LEN) 0) in *.
  rewrite length_fmap in *.
  set (tr := fun a : Z * Z * nat => (a.1, (fun i => nth i full (0, [])) a.2)).
  assert (NoDup full) as Hnd by (eapply NoDup_fmap_1; by eapply contiguous_offsets).
  assert (forall i, (i < length full)%nat -> full !! i = Some (nth i full (0, []))) as Hnth.
  { intros i Hi. destruct (nth_lookup_or_length full i (0, [])); [done|lia]. }
  assert (forall l : list (Z * Z * nat), snd <$> (tr <$> l) = (fun i => nth i full (0, [])) <$> (snd <$> l)) as Hsnd.
  { intros l. by rewrite <- !list_fmap_compose. }
  pose proof (feed_set packet id full Hid Hc Hne Hjoin Hlen st [] None (tr <$> pre) (tr fin)) as Hfs.
  replace ((tr <$> pre) ++ [tr fin])%list with (tr <$> (pre ++ [fin])) in Hfs by (by rewrite fmap_app).
  destruct Hfs as (st' & Hfeed & Hnone).
  - unfold holds. by rewrite Hst.
  - by apply timely_fmap.
  - intros a (a0 & -> & Ha0)%list_elem_of_fmap. apply nth_elem_of. by apply Hlt.
  - exists (nth j full (0, [])). split; [by apply nth_elem_of|]. split; [apply not_elem_of_nil|].
    rewrite Hsnd. intros (i & Ei & Hi)%list_elem_of_fmap. destruct Hmiss.
    assert (i < length full)%nat as Hil.
    { apply list_elem_of_fmap in Hi as (a & -> & Ha). apply Hlt. apply elem_of_app. by left. }
    replace j with i; [done|]. eapply (NoDup_lookup full); [done|by apply Hnth|].
    rewrite (Hnth j Hj). by f_equal.
  - intros q Hq. right. apply list_elem_of_lookup in Hq as [i Hi].
    pose proof (lookup_lt_Some _ _ _ Hi) as Hil. rewrite Hsnd. apply list_elem_of_fmap. exists i.
    split; [|by apply Hall]. symmetry. by apply nth_lookup_Some.
  - exists st'. split; [|done]. rewrite length_fmap in Hfeed. rewrite <- Hfeed. f_equal.
    rewrite <- list_fmap_compose. apply list_fmap_ext. intros k a Ha. apply list_elem_of_lookup_2 in Ha.
    unfold send, tr. cbn [compose fst snd]. f_equal. apply nth_lookup_Some.
    rewrite list_lookup_fmap, (Hnth a.2) by by apply Hlt. done.
Qed.

(** An IPv6 packet of at most 1280 bytes that was cut into envelopes is put
    together again exactly, whatever order the envelopes arrive in and however
    many of them arrive twice, in a reassembler busy with whatever other sets: all
    but the arrival that completes the set are answered [Waiting], that one yields
    the packet, and nothing of the set stays behind. *)
Theorem ipv6_fragments_reassemble (packet : list Z) (id max_size : Z) (frags : list (list Z))
  (st : Ipv6Reassembler) (pre : list (Z * Z * nat)) (fin : Z * Z * nat) :
  is_u32 id -> len packet <= MAX_REASSEMBLED_IPV6_PACKET ->
  fragment_ipv6 packet id max_size = Ret (Some frags) ->
  st !! id = None -> timely None (pre ++ [fin]) ->
  (forall a, a ∈ pre ++ [fin] -> (a.2 < length frags)%nat) ->
  (exists j, (j < length frags)%nat /\ j ∉ (snd <$> pre)) ->
  (forall j, (j < length frags)%nat -> j ∈ (snd <$> (pre ++ [fin]))) ->
  Forall (fun f => len f <= max_size) frags /\
  exists st',
    feed st ((fun a => (a.1.1, a.1.2, nth a.2 frags [])) <$> (pre ++ [fin]))
    = Ret (st', replicate (length pre) Waiting ++ [Complete packet])
    /\ st' !! id = None.
Proof. exact (fragment_ipv6_set_spec packet id max_size frags st pre fin). Qed.

(** ** Bounds on what a peer can make the reassembler hold *)
Definition partial_ok (p : PartialIpv6) : Prop :=
  map_Forall (fun o b => 0 <= o /\ o + len b <= MAX_REASSEMBLED_IPV6_PACKET) (chunks p)
  /\ forall n, total_len p = Some n -> n <= MAX_REASSEMBLED_IPV6_PACKET.

Definition reassembler_ok (st : Ipv6Reassembler) : Prop :=
  (size st <= MAX_REASSEMBLY_ENTRIES)%nat /\ map_Forall (fun _ p => partial_ok p) st.

Lemma walk_chunks_len l e out out' e' :
  walk_chunks l e out = Some (out', e') -> len out' = len out + (e' - e).
Proof.
  revert e out. induction l as [|[o b] l IH]; intros e out; cbn [walk_chunks]; [intros [= <- <-]; lia|].
  destruct (o =? e); [|done]. intros H%IH. rewrite len_app in H. lia.
Qed.

Lemma try_complete_len p full :
  partial_ok p -> try_complete p = Some full -> len full <= MAX_REASSEMBLED_IPV6_PACKET.
Proof.
  intros [_ Ht]. unfold try_complete. destruct (total_len p) as [n|]; [|done]. cbn [mbind option_bind].
  destruct (walk_chunks _ _ _) as [[out e]|] eqn:E; [|done]. cbn [mbind option_bind].
  destruct (Z.eqb_spec e n) as [->|]; [|done]. intros [= <-]. apply walk_chunks_len in E.
  unfold len at 2 in E. simpl in E. specialize (Ht n eq_refl). lia.
Qed.

Lemma oldest_elem (st : Ipv6Reassembler) :
  st <> ∅ -> exists k p, oldest (map_to_list st) = Some k /\ st !! k = Some p.
Proof.
  intros Hne. destruct (map_to_list st) as [|kv l] eqn:E; [by apply map_to_list_empty_iff in E|].
  cbn [oldest]. set (f := fun best kv => if last_seen kv.2 <? last_seen best.2 then kv else best).
  assert (forall l kv, fold_left f l kv ∈ kv :: l) as Hf.
  { intros l'. induction l' as [|x l' IH]; intros y; cbn [fold_left]; [left|].
    assert (f y x = x \/ f y x = y) as Hyx by (unfold f; destruct (_ <? _); auto).
    destruct (proj1 (elem_of_cons _ _ _) (IH (f y x))) as [E'|Hin]; [|by right; right].
    rewrite E'. destruct Hyx as [-> | ->]; [right; left|left]. }
  specialize (Hf l kv). rewrite <- E in Hf. destruct (fold_left f l kv) as [k p]. exists k, p.
  split; [done|]. by apply elem_of_map_to_list.
Qed.

Lemma make_room_ok st id :
  reassembler_ok st ->
  reassembler_ok (make_room st id)
  /\ ((size (make_room st id) < MAX_REASSEMBLY_ENTRIES)%nat \/ is_Some (make_room st id !! id)).
Proof.
  intros [Hs Hp]. unfold make_room. case_bool_decide as Hid.
  2:{ split; [done|]. right. by apply not_eq_None_Some. }
  cbn [andb]. destruct (Nat.leb_spec MAX_REASSEMBLY_ENTRIES (size st)) as [Hle|Hlt]; [|split; [done|by left]].
  destruct (oldest_elem st) as (k & p & -> & Hk).
  { intros ->. rewrite map_size_empty in Hle. unfold MAX_REASSEMBLY_ENTRIES in Hle. lia. }
  assert (size (delete k st) = pred (size st)) as Es by (by rewrite map_size_delete, Hk).
  split; [split|left]; unfold MAX_REASSEMBLY_ENTRIES in *.
  - lia.
  - by apply map_Forall_delete.
  - lia.
Qed.

Lemma gc_stale_ok st t : reassembler_ok st -> reassembler_ok (gc_stale st t).
Proof.
  intros [Hs Hp]. split.
  - unfold gc_stale. etransitivity; [apply map_size_filter|done].
  - intros k p [Hk _]%map_lookup_filter_Some. by apply (Hp k).
Qed.

Lemma accept_ok st tg ts d :
  bytes_ok d -> reassembler_ok st ->
  exists st' r, accept st tg ts d = Ret (st', r) /\ reassembler_ok st'
    /\ forall p, r = Complete p -> len p <= MAX_REASSEMBLED_IPV6_PACKET.
Proof.
  intros Hd Hst. unfold accept. destruct (negb _); [by eexists _, _|].
  destruct (Z.ltb_spec (len d) FRAG6_HEADER_LEN) as [|H8]; [by eexists _, _|].
  unfold FRAG6_HEADER_LEN in *. in_bounds. pose proof (gc_stale_ok st tg Hst) as Hgc.
  set (st0 := gc_stale st tg) in *. set (id := from_be32 _ _ _ _).
  set (o := from_be16 _ _). assert (0 <= o) as Ho.
  { pose proof (byte_of_ok d 5 Hd). pose proof (byte_of_ok d 6 Hd). unfold byte_of, in_width in *.
    unfold o, from_be16. change (Z.to_nat 5) with 5%nat. change (Z.to_nat (5 + 1)) with 6%nat. lia. }
  destruct (Z.ltb_spec MAX_REASSEMBLED_IPV6_PACKET (o + len (sub_bytes d 8 (len d)))) as [|Hle].
  { eexists _, _. split; [done|]. split; [|done]. destruct Hgc as [Hs Hp]. split.
    - etransitivity; [|exact Hs]. apply map_subseteq_size, delete_subseteq.
    - by apply map_Forall_delete. }
  destruct (make_room_ok st0 id Hgc) as [[Hs Hp] Hroom]. set (st1 := make_room st0 id) in *.
  set (e := mkPartial _ _ ts). assert (partial_ok e) as He.
  { assert (partial_ok (default (mkPartial ∅ None ts) (st1 !! id))) as [He0 Ht0].
    { destruct (st1 !! id) as [e0|] eqn:E; simpl; [by apply (Hp id)|]. split; [apply map_Forall_empty|done]. }
    split; cbn; [by apply map_Forall_insert_2|]. intros n. destruct (negb _); [apply Ht0|].
    intros [= <-]. done. }
  destruct (try_complete e) as [full|] eqn:Ec; eexists _, _; (split; [done|]).
  - split; [|intros p [= <-]; by eapply try_complete_len]. split; [|by apply map_Forall_delete].
    etransitivity; [|exact Hs]. apply map_subseteq_size, delete_subseteq.
  - split; [|done]. split; [|by apply map_Forall_insert_2]. rewrite map_size_insert.
    destruct Hroom as [Hlt|[x Hx]].
    + destruct (st1 !! id); cbn; lia.
    + by rewrite Hx.
Qed.

(** C39: whatever datagrams a peer sends, the reassembler never panics, never holds
    more than 16 unfinished sets, never stores a byte beyond position 1280 of a
    packet, and never delivers a packet of more than 1280 bytes. *)
Theorem reassembler_bounded (l : list (Z * Z * list Z)) :
  Forall (fun a => bytes_ok a.2) l ->
  exists st outs, feed ∅ l = Ret (st, outs) /\ reassembler_ok st
    /\ Forall (fun r => match r with Complete p => len p <= MAX_REASSEMBLED_IPV6_PACKET | _ => True end) outs.
Proof.
  assert (reassembler_ok ∅) as H0 by (split; [vm_compute; lia|apply map_Forall_empty]).
  revert H0. generalize (∅ : Ipv6Reassembler) as st. induction l as [|[[tg ts] d] l IH]; intros st Hst Hl.
  - by exists st, [].
  - apply Forall_cons in Hl as [Hd Hl]. destruct (accept_ok st tg ts d Hd Hst) as (st' & r & E & Hst' & Hr).
    destruct (IH st' Hst' Hl) as (st'' & outs & Ef & Hst'' & Houts).
    exists st'', (r :: outs). cbn [feed]. rewrite E. cbn [obind fst snd]. rewrite Ef. cbn [obind fst snd].
    split; [done|]. split; [done|]. constructor; [|done]. destruct r; auto.
Qed.

Definition sample_packet : list Z := replicate 40 7.

Lemma fragment_ipv4_reassembles_witness :
  let hdr := [69; 0; 0; 60; 0; 1; 0; 0; 64; 17; 0; 0; 10; 88; 0; 2; 10; 88; 0; 3] in
  let c := ip_checksum hdr in
  let packet := (take 10 hdr ++ [c / 256; c mod 256] ++ drop 12 hdr ++ sample_packet)%list in
  exists frags, fragment_ipv4 packet 44 = Ret (Some frags) /\ length frags = 2%nat
    /\ reassemble4 packet 0 frags = Some (0, sample_packet).
Proof.
  intros hdr c packet.
  destruct (fragment_ipv4_reassembles packet 44) as (r & Hr & Hs); [by_decide|lia|].
  assert (match r with Some f => length f = 2%nat | None => False end) as Hlen.
  { vm_compute in Hr. injection Hr as <-. reflexivity. }
  destruct r as [frags|]; [|destruct Hlen]. exists frags.
  split; [exact Hr|]. split; [exact Hlen|exact (proj1 Hs)].
Defined.

Lemma ipv6_fragments_reassemble_witness :
  exists frags, fragment_ipv6 sample_packet 5 25 = Ret (Some frags) /\ length frags = 3%nat /\
  exists st', feed ∅ ((fun a => (a.1.1, a.1.2, nth a.2 frags [])) <$> [(0, 1, 2%nat); (2, 3, 0%nat); (4, 5, 2%nat); (6, 7, 1%nat)])
  = Ret (st', [Waiting; Waiting; Waiting; Complete sample_packet]).
Proof.
  eexists. split; [vm_compute; reflexivity|]. split; [reflexivity|].
  match goal with |- context [nth _ ?fr []] => set (frags := fr) end.
  destruct (ipv6_fragments_reassemble sample_packet 5 25 frags ∅ [(0, 1, 2%nat); (2, 3, 0%nat); (4, 5, 2%nat)]
    (6, 7, 1%nat)) as [_ (st' & Hf & _)].
  - by_decide.
  - vm_compute. discriminate.
  - vm_compute. reflexivity.
  - reflexivity.
  - cbn. unfold REASSEMBLY_TIMEOUT. repeat split; lia.
  - apply Forall_forall. by_decide.
  - exists 1%nat. split; [by_decide|]. by_decide.
  - cbn [length frags]. intros j Hj. assert (j = 0 \/ j = 1 \/ j = 2)%nat as [->|[->| ->]] by lia; by_decide.
  - exists st'. exact Hf.
Defined.

Lemma reassembler_bounded_witness :
  exists st outs, feed ∅ [(0, 0, [246; 0; 0; 0; 1; 0; 0; 1; 9])] = Ret (st, outs)
    /\ outs = [Waiting] /\ reassembler_ok st.
Proof.
  destruct (reassembler_bounded [(0, 0, [246; 0; 0; 0; 1; 0; 0; 1; 9])]) as (st & outs & E & Hst & _);
    [by_decide|].
  exists st, outs. split; [exact E|]. split; [|exact Hst]. vm_compute in E. injection E as _ <-. reflexivity.
Defined.
