(* ===== verification/Stats.v ===== *)
(** * Traffic counters and the drop-rate monitor (src/src/stats.rs)

    The counters of the forwarding path, and the monitor that warns when packets
    of one kind are dropped too often.  Counters are [u64]s that wrap; the clock
    is an argument. *)

From S2P Require Import Prelude.

Inductive DropReason :=
| SendFailure
| NoPeer
| Malformed
| Backpressure
| Spoof
| FragmentationFailed.

#[global] Instance DropReason_eq_dec : EqDecision DropReason.
Proof. solve_decision. Defined.

Definition DROP_MONITOR_WINDOW_SECS : Z := 60.
Definition DROP_MONITOR_THRESHOLD : Z := 0.
Definition DROP_MONITOR_COOLDOWN_SECS : Z := 300.

Definition reason_index (r : DropReason) : nat :=
  match r with
  | SendFailure => 0
  | NoPeer => 1
  | Malformed => 2
  | Backpressure => 3
  | Spoof => 4
  | FragmentationFailed => 5
  end.

Definition reason_name (idx : nat) : string :=
  match idx with
  | 0%nat => "SendFailure"
  | 1%nat => "NoPeer"
  | 2%nat => "Malformed"
  | 3%nat => "Backpressure"
  | 4%nat => "Spoof"
  | 5%nat => "FragmentationFailed"
  | _ => "Unknown"
  end.

Definition DROP_REASON_COUNT : nat := 6.

(** ** The monitor *)
Record DropMonitor := mkDropMonitor {
  buckets : list Z;
  last_warned : list Z;
  dm_window_secs : Z;
  dm_threshold : Z;
  dm_cooldown_secs : Z;
}.

Definition monitor_new (window_secs threshold cooldown_secs : Z) : DropMonitor :=
  mkDropMonitor (replicate DROP_REASON_COUNT 0) (replicate DROP_REASON_COUNT 0)
    window_secs threshold cooldown_secs.

Definition monitor_record_drop (m : DropMonitor) (reason : DropReason) : DropMonitor :=
  mkDropMonitor (alter (fun c => wrap 64 (c + 1)) (reason_index reason) (buckets m)) (last_warned m)
    (dm_window_secs m) (dm_threshold m) (dm_cooldown_secs m).

(** One round of the [for] loop over the reasons: the new monitor and the warning
    (reason index and count) it logs, if any. *)
Definition check_reason (now : Z) (m : DropMonitor) (i : nat) : DropMonitor * option (nat * Z) :=
  let count := nth i (buckets m) 0 in
  let m1 := mkDropMonitor (<[i := 0]> (buckets m)) (last_warned m) (dm_window_secs m)
              (dm_threshold m) (dm_cooldown_secs m) in
  if count <? dm_threshold m then (m1, None)
  else if saturating_sub now (nth i (last_warned m) 0) <? dm_cooldown_secs m then (m1, None)
  else (mkDropMonitor (buckets m1) (<[i := now]> (last_warned m1)) (dm_window_secs m)
          (dm_threshold m) (dm_cooldown_secs m), Some (i, count)).

Fixpoint check_reasons (now : Z) (m : DropMonitor) (idxs : list nat) : DropMonitor * list (nat * Z) :=
  match idxs with
  | [] => (m, [])
  | i :: rest =>
      let '(m1, w) := check_reason now m i in
      let '(m2, ws) := check_reasons now m1 rest in
      (m2, match w with Some x => x :: ws | None => ws end)
  end.

Definition check_and_warn (m : DropMonitor) (now : Z) : DropMonitor * list (nat * Z) :=
  if dm_threshold m =? 0 then (m, []) else check_reasons now m (seq 0 DROP_REASON_COUNT).

(** [init_drop_monitor] with the overrides of the configuration; the flag says
    whether the background task is started. *)
Definition init_drop_monitor (window threshold cooldown : option Z) : DropMonitor * bool :=
  let m := monitor_new (default DROP_MONITOR_WINDOW_SECS window)
             (default DROP_MONITOR_THRESHOLD threshold)
             (default DROP_MONITOR_COOLDOWN_SECS cooldown) in
  (m, 0 <? dm_threshold m).

(** ** The counters; [monitor] is the global installed at start-up. *)
Record ForwardMetrics := mkForwardMetrics {
  packets_rx : Z;
  packets_tx : Z;
  bytes_rx : Z;
  bytes_tx : Z;
  drops : list Z;
  fragmented_ipv4 : Z;
  fragmented_ipv6 : Z;
  monitor : option DropMonitor;
}.

Definition metrics_new (mon : option DropMonitor) : ForwardMetrics :=
  mkForwardMetrics 0 0 0 0 (replicate DROP_REASON_COUNT 0) 0 0 mon.

Definition record_rx (s : ForwardMetrics) (bytes : Z) : ForwardMetrics :=
  mkForwardMetrics (wrap 64 (packets_rx s + 1)) (packets_tx s) (wrap 64 (bytes_rx s + bytes))
    (bytes_tx s) (drops s) (fragmented_ipv4 s) (fragmented_ipv6 s) (monitor s).

Definition record_tx (s : ForwardMetrics) (bytes : Z) : ForwardMetrics :=
  mkForwardMetrics (packets_rx s) (wrap 64 (packets_tx s + 1)) (bytes_rx s)
    (wrap 64 (bytes_tx s + bytes)) (drops s) (fragmented_ipv4 s) (fragmented_ipv6 s) (monitor s).

Definition record_drop (s : ForwardMetrics) (reason : DropReason) : ForwardMetrics :=
  mkForwardMetrics (packets_rx s) (packets_tx s) (bytes_rx s) (bytes_tx s)
    (alter (fun c => wrap 64 (c + 1)) (reason_index reason) (drops s))
    (fragmented_ipv4 s) (fragmented_ipv6 s)
    ((fun m => monitor_record_drop m reason) <$> monitor s).

Definition record_fragmented_ipv4 (s : ForwardMetrics) : ForwardMetrics :=
  mkForwardMetrics (packets_rx s) (packets_tx s) (bytes_rx s) (bytes_tx s) (drops s)
    (wrap 64 (fragmented_ipv4 s + 1)) (fragmented_ipv6 s) (monitor s).

Definition record_fragmented_ipv6 (s : ForwardMetrics) : ForwardMetrics :=
  mkForwardMetrics (packets_rx s) (packets_tx s) (bytes_rx s) (bytes_tx s) (drops s)
    (fragmented_ipv4 s) (wrap 64 (fragmented_ipv6 s + 1)) (monitor s).

Definition drop_count (s : ForwardMetrics) (reason : DropReason) : Z :=
  nth (reason_index reason) (drops s) 0.

(** ** Properties *)
Lemma drop_count_record s r r' :
  length (drops s) = DROP_REASON_COUNT ->
  drop_count (record_drop s r) r' = if decide (r = r') then wrap 64 (drop_count s r' + 1) else drop_count s r'.
Proof.
  intros Hl. unfold drop_count, record_drop. cbn [drops]. rewrite !nth_lookup.
  destruct (drops s) as [|d0 [|d1 [|d2 [|d3 [|d4 [|d5 [|]]]]]]]; try done.
  by destruct r, r'.
Qed.

(** One round of the check: the bucket is emptied, other reasons are untouched,
    and the outcome is as the threshold and the cooldown say. *)
Lemma check_reason_spec now m i m' w :
  check_reason now m i = (m', w) ->
  buckets m' = <[i := 0]> (buckets m) /\ dm_threshold m' = dm_threshold m
  /\ dm_cooldown_secs m' = dm_cooldown_secs m
  /\ (w = None /\ last_warned m' = last_warned m
      \/ w = Some (i, nth i (buckets m) 0) /\ last_warned m' = <[i := now]> (last_warned m)
         /\ dm_threshold m <= nth i (buckets m) 0
         /\ dm_cooldown_secs m <= saturating_sub now (nth i (last_warned m) 0)).
Proof.
  unfold check_reason. destruct (Z.ltb_spec (nth i (buckets m) 0) (dm_threshold m)).
  { intros [= <- <-]. do 3 (split; [done|]). by left. }
  destruct (Z.ltb_spec (saturating_sub now (nth i (last_warned m) 0)) (dm_cooldown_secs m));
    intros [= <- <-]; (do 3 (split; [done|])); [by left|by right].
Qed.

Lemma check_reasons_spec now idxs m m' ws i c :
  NoDup idxs -> check_reasons now m idxs = (m', ws) -> (i, c) ∈ ws ->
  i ∈ idxs /\ c = nth i (buckets m) 0 /\ dm_threshold m <= c
  /\ dm_cooldown_secs m <= saturating_sub now (nth i (last_warned m) 0).
Proof.
  revert m m' ws. induction idxs as [|j idxs IH]; intros m m' ws Hnd; cbn [check_reasons].
  { intros [= <- <-]. by intros []%elem_of_nil. }
  apply NoDup_cons in Hnd as [Hj Hnd]. destruct (check_reason now m j) as [m1 w] eqn:E1.
  destruct (check_reasons now m1 idxs) as [m2 ws2] eqn:E2. intros [= <- <-] Hin.
  destruct (check_reason_spec _ _ _ _ _ E1) as (Hb & Ht & Hc & Hw).
  assert ((i, c) ∈ ws2 \/ w = Some (i, c)) as [Hin2|Hw2].
  { destruct Hw as [[-> _]|[-> _]]; [by left|]. apply elem_of_cons in Hin as [[= -> ->]|?]; auto. }
  - destruct (IH _ _ _ Hnd E2 Hin2) as (Hi & -> & Hth & Hcd). rewrite Ht in Hth. rewrite Hc in Hcd.
    assert (i <> j) as Hne by (intros ->; done). split; [by right|].
    rewrite Hb, nth_lookup, list_lookup_insert_ne, <- nth_lookup in Hth |- * by done.
    split; [done|]. split; [done|]. destruct Hw as [[_ <-]|(_ & Hl & _)]; [done|].
    rewrite Hl, nth_lookup, list_lookup_insert_ne, <- nth_lookup in Hcd by done. done.
  - destruct Hw as [[-> _]|(-> & _ & Hth & Hcd)]; [done|]. injection Hw2 as -> <-.
    split; [left|done].
Qed.

(** The monitor warns about a reason only when the drops counted for it in the
    window just ended reach the threshold and the cooldown since its last warning
    has run out; with threshold 0 it never warns. *)
Theorem check_and_warn_sound (m m' : DropMonitor) (now : Z) (ws : list (nat * Z)) (i : nat) (c : Z) :
  check_and_warn m now = (m', ws) -> (i, c) ∈ ws ->
  (i < DROP_REASON_COUNT)%nat /\ c = nth i (buckets m) 0 /\ dm_threshold m <> 0 /\ dm_threshold m <= c
  /\ dm_cooldown_secs m <= saturating_sub now (nth i (last_warned m) 0).
Proof.
  unfold check_and_warn. destruct (Z.eqb_spec (dm_threshold m) 0).
  { intros [= <- <-]. by intros []%elem_of_nil. }
  intros E Hin. destruct (check_reasons_spec _ _ _ _ _ _ _ (NoDup_seq 0 _) E Hin) as (Hi & ? & ? & ?).
  apply elem_of_seq in Hi. repeat split; [lia|done..].
Qed.

Lemma check_and_warn_sound_witness :
  let m := monitor_record_drop (monitor_record_drop (monitor_new 60 2 300) Spoof) Spoof in
  (check_and_warn m 1000).2 = [(4%nat, 2)] /\ dm_threshold m <= 2.
Proof.
  intros m. split; [reflexivity|].
  apply (check_and_warn_sound m (check_and_warn m 1000).1 1000 [(4%nat, 2)] 4 2); [reflexivity|left].
Defined.
