(* ===== verification/Peers.v ===== *)
(** * The routing table (src/src/peers.rs)

    Virtual address to peer, for both address families, with one connection per
    shared network.  A connection is a handle of the QUIC library: an arbitrary
    type with the id the library gives each connection. *)

From S2P Require Import Prelude Externs Addressing.

Section Peers.
Context {Conn : Type} (stable_id : Conn -> Z).

Record PeerEntry := mkPeerEntry {
  pe_endpoint_id : EndpointId;
  pe_conns : gmap string Conn;
}.

Record PeerRoute := mkPeerRoute {
  pr_conn : Conn;
  pr_endpoint_id : EndpointId;
  pr_network : string;
}.

Record PeerTable := mkPeerTable {
  v4 : gmap Z PeerEntry;
  v6 : gmap (list Z) PeerEntry;
}.

Definition table_new : PeerTable := mkPeerTable ∅ ∅.

(** The connection of the lexically smallest network. *)
Definition route (e : PeerEntry) : option PeerRoute :=
  match btree_iter (pe_conns e) with
  | [] => None
  | (network, conn) :: _ => Some (mkPeerRoute conn (pe_endpoint_id e) network)
  end.

(** [entry(k).or_insert_with(..)], then the identity and the connection are set. *)
Definition upsert (e : option PeerEntry) (conn : Conn) (endpoint_id : EndpointId) (net : string)
  : PeerEntry :=
  mkPeerEntry endpoint_id (<[net := conn]> (match e with Some e => pe_conns e | None => ∅ end)).

Definition add (t : PeerTable) (ip : Ipv4Addr) (ipv6 : Ipv6Addr) (conn : Conn)
  (endpoint_id : EndpointId) (network : string) : PeerTable :=
  mkPeerTable (<[ip := upsert (v4 t !! ip) conn endpoint_id network]> (v4 t))
              (<[ipv6 := upsert (v6 t !! ipv6) conn endpoint_id network]> (v6 t)).

Definition lookup_v4 (t : PeerTable) (ip : Ipv4Addr) : option PeerRoute := v4 t !! ip ≫= route.
Definition lookup_v6 (t : PeerTable) (ip : Ipv6Addr) : option PeerRoute := v6 t !! ip ≫= route.

Definition remove (t : PeerTable) (ip : Ipv4Addr) (ipv6 : Ipv6Addr) : PeerTable :=
  mkPeerTable (delete ip (v4 t)) (delete ipv6 (v6 t)).

Definition drop_network (network : string) (e : PeerEntry) : PeerEntry :=
  mkPeerEntry (pe_endpoint_id e) (delete network (pe_conns e)).

(** [get_mut] and [conns.remove], then [remove_if] no connection is left. *)
Definition remove_conn {K} `{Countable K} (m : gmap K PeerEntry) (k : K) (network : string)
  : gmap K PeerEntry :=
  let m1 := alter (drop_network network) k m in
  match m1 !! k with
  | Some e => if bool_decide (pe_conns e = ∅) then delete k m1 else m1
  | None => m1
  end.

Definition remove_peer_from_network (t : PeerTable) (ip : Ipv4Addr) (ipv6 : Ipv6Addr)
  (network : string) : PeerTable :=
  mkPeerTable (remove_conn (v4 t) ip network) (remove_conn (v6 t) ipv6 network).

Definition remove_peer_from_network_if (t : PeerTable) (ip : Ipv4Addr) (ipv6 : Ipv6Addr)
  (network : string) (id : Z) : PeerTable * bool :=
  let matches :=
    match v4 t !! ip ≫= (fun e => pe_conns e !! network) with
    | Some c => stable_id c =? id
    | None => false
    end in
  if negb matches then (t, false) else (remove_peer_from_network t ip ipv6 network, true).

Definition all_connections (t : PeerTable) : list (Ipv4Addr * Conn) :=
  omap (fun kv => (fun r => (kv.1, pr_conn r)) <$> route kv.2) (map_to_list (v4 t)).

(** [retain] with the removal of the network's connection inside. *)
Definition retain_network {K} `{Countable K} (network : string) (m : gmap K PeerEntry)
  : gmap K PeerEntry :=
  omap (fun e => let e' := drop_network network e in
                 if bool_decide (pe_conns e' = ∅) then None else Some e') m.

Definition remove_by_network (t : PeerTable) (network : string) : PeerTable * list Ipv4Addr :=
  (mkPeerTable (retain_network network (v4 t)) (retain_network network (v6 t)),
   (List.filter (fun kv => bool_decide (pe_conns (drop_network network kv.2) = ∅))
      (map_to_list (v4 t))).*1).

Definition peers_for_network (t : PeerTable) (network : string) : list (EndpointId * Ipv4Addr) :=
  (fun kv => (pe_endpoint_id kv.2, kv.1)) <$>
    List.filter (fun kv => bool_decide (is_Some (pe_conns kv.2 !! network))) (map_to_list (v4 t)).

Definition peers_for_network_with_conn (t : PeerTable) (network : string)
  : list (EndpointId * Ipv4Addr * Conn) :=
  omap (fun kv => (fun c => (pe_endpoint_id kv.2, kv.1, c)) <$> pe_conns kv.2 !! network)
    (map_to_list (v4 t)).

Definition all_peer_ids (t : PeerTable) : list (Ipv4Addr * EndpointId) :=
  (fun kv => (kv.1, pe_endpoint_id kv.2)) <$> map_to_list (v4 t).

Definition all_entries (t : PeerTable) : list (EndpointId * Ipv4Addr * Conn) :=
  omap (fun kv => (fun r => (pe_endpoint_id kv.2, kv.1, pr_conn r)) <$> route kv.2) (map_to_list (v4 t)).

(** ** The links a table holds

    The abstract view: which connection serves an address in a network. *)
Definition link4 (t : PeerTable) (ip : Ipv4Addr) (network : string) : option Conn :=
  v4 t !! ip ≫= (fun e => pe_conns e !! network).
Definition link6 (t : PeerTable) (ip : Ipv6Addr) (network : string) : option Conn :=
  v6 t !! ip ≫= (fun e => pe_conns e !! network).

(** No entry without a connection. *)
Definition nonempty {K} `{Countable K} (m : gmap K PeerEntry) : Prop :=
  map_Forall (fun _ e => pe_conns e <> ∅) m.
Definition table_ok (t : PeerTable) : Prop := nonempty (v4 t) /\ nonempty (v6 t).

Lemma route_spec e r :
  route e = Some r <->
  pe_conns e !! pr_network r = Some (pr_conn r) /\ pr_endpoint_id r = pe_endpoint_id e
  /\ forall net c, pe_conns e !! net = Some c -> string_leb (pr_network r) net = true.
Proof.
  unfold route. pose proof (btree_iter_elem (pe_conns e)) as Hel.
  assert (StronglySorted (fun a b : string * Conn => string_leb a.1 b.1 = true) (btree_iter (pe_conns e))) as Hs.
  { apply sort_by_sorted; [intros; apply string_leb_total|intros ???; apply string_leb_trans]. }
  destruct (btree_iter (pe_conns e)) as [|[n c] l].
  - split; [done|]. intros (Hr & _). apply Hel in Hr. by apply elem_of_nil in Hr.
  - apply StronglySorted_inv in Hs as [_ Hall]. rewrite Forall_forall in Hall. split.
    + intros [= <-]. cbn. split; [apply Hel; left|]. split; [done|].
      intros net c' Hc. apply Hel in Hc. apply elem_of_cons in Hc as [[= -> ->]|Hc].
      * by destruct (string_leb_total n n).
      * by apply (Hall (net, c')).
    + intros (Hr & Hid & Hmin). destruct r as [rc rid rn]. cbn in *. subst rid.
      assert (rn = n) as ->.
      { apply string_leb_antisym.
        - apply (Hmin n c). apply Hel. left.
        - apply Hel in Hr. apply elem_of_cons in Hr as [[= -> ->]|Hr].
          + by destruct (string_leb_total n n).
          + by apply (Hall (rn, rc)). }
      assert (pe_conns e !! n = Some c) as Hn by (apply Hel; left). by simplify_eq.
Qed.

Lemma route_is_Some e : is_Some (route e) <-> pe_conns e <> ∅.
Proof.
  unfold route. pose proof (btree_iter_perm (pe_conns e)) as Hp.
  destruct (btree_iter (pe_conns e)) as [|[n c] l].
  - symmetry in Hp. apply Permutation_nil_r, map_to_list_empty_iff in Hp. rewrite Hp.
    split; [by intros [? ?]|done].
  - split; [|by eauto]. intros _ E. rewrite E, map_to_list_empty in Hp. by apply Permutation_nil_r in Hp.
Qed.

Lemma remove_conn_link {K} `{Countable K} (m : gmap K PeerEntry) k network k' n' :
  (remove_conn m k network !! k' ≫= fun e => pe_conns e !! n')
  = if decide (k' = k /\ n' = network) then None else m !! k' ≫= fun e => pe_conns e !! n'.
Proof.
  assert ((alter (drop_network network) k m !! k' ≫= fun e => pe_conns e !! n')
    = if decide (k' = k /\ n' = network) then None else m !! k' ≫= fun e => pe_conns e !! n') as E1.
  { destruct (decide (k' = k)) as [->|Hk].
    - rewrite lookup_alter_eq. destruct (m !! k) as [e|]; cbn; [|by case_decide].
      case_decide as Hd; [destruct Hd as [_ ->]; by apply lookup_delete_eq|].
      apply lookup_delete_ne. intros ->. by apply Hd.
    - rewrite lookup_alter_ne by done. rewrite decide_False by tauto. done. }
  unfold remove_conn. set (m1 := alter (drop_network network) k m) in *.
  destruct (m1 !! k) as [e|] eqn:Ek; [|done]. case_bool_decide as He; [|done].
  destruct (decide (k' = k)) as [->|Hk]; [|by rewrite lookup_delete_ne].
  rewrite lookup_delete_eq. cbn. rewrite <- E1, Ek. cbn. by rewrite He, lookup_empty.
Qed.

Lemma remove_conn_nonempty {K} `{Countable K} (m : gmap K PeerEntry) k network :
  nonempty m -> nonempty (remove_conn m k network).
Proof.
  intros Hm. unfold remove_conn. set (m1 := alter (drop_network network) k m).
  assert (forall k' e, k' <> k -> m1 !! k' = Some e -> pe_conns e <> ∅) as Hne.
  { intros k' e Hk He. unfold m1 in He. rewrite lookup_alter_ne in He by done. by apply (Hm k'). }
  destruct (m1 !! k) as [e|] eqn:Ek.
  - case_bool_decide as He; intros k' e' Hk'.
    + apply lookup_delete_Some in Hk' as [? ?]. by apply (Hne k').
    + destruct (decide (k' = k)) as [->|]; [by simplify_eq|by apply (Hne k')].
  - intros k' e' Hk'. apply (Hne k'); [|done]. intros ->. by rewrite Ek in Hk'.
Qed.

Lemma upsert_link {K} `{Countable K} (m : gmap K PeerEntry) k conn id net k' n' :
  (<[k := upsert (m !! k) conn id net]> m !! k' ≫= fun e => pe_conns e !! n')
  = if decide (k' = k /\ n' = net) then Some conn else m !! k' ≫= fun e => pe_conns e !! n'.
Proof.
  destruct (decide (k' = k)) as [->|Hk].
  - rewrite lookup_insert_eq. cbn. case_decide as Hd; [destruct Hd as [_ ->]; apply lookup_insert_eq|].
    rewrite lookup_insert_ne by (intros ->; by apply Hd). by destruct (m !! k); cbn; rewrite ?lookup_empty.
  - rewrite lookup_insert_ne by done. by rewrite decide_False by tauto.
Qed.

Lemma upsert_nonempty {K} `{Countable K} (m : gmap K PeerEntry) k conn id net :
  nonempty m -> nonempty (<[k := upsert (m !! k) conn id net]> m).
Proof. intros Hm. apply map_Forall_insert_2; [|done]. apply insert_non_empty. Qed.

Lemma retain_network_link {K} `{Countable K} (m : gmap K PeerEntry) network k' n' :
  (retain_network network m !! k' ≫= fun e => pe_conns e !! n')
  = if decide (n' = network) then None else m !! k' ≫= fun e => pe_conns e !! n'.
Proof.
  unfold retain_network. rewrite lookup_omap. destruct (m !! k') as [e|]; cbn; [|by case_decide].
  assert (delete network (pe_conns e) !! n' = if decide (n' = network) then None else pe_conns e !! n') as E.
  { case_decide as Hd; [subst; apply lookup_delete_eq|by rewrite lookup_delete_ne]. }
  rewrite <- E. case_bool_decide as He; cbn; [|done]. by rewrite He, lookup_empty.
Qed.

Lemma retain_network_nonempty {K} `{Countable K} (m : gmap K PeerEntry) network :
  nonempty (retain_network network m).
Proof.
  intros k e He. unfold retain_network in He. rewrite lookup_omap in He.
  destruct (m !! k) as [e0|]; cbn in He; [|done]. case_bool_decide; by simplify_eq.
Qed.

(** C36: the table implements a set of links (address, network, connection), in both
    address families alike: registering sets one link and keeps all others,
    dropping a peer from a network removes that link only, leaving a network
    removes exactly the links of that network. *)
Theorem peer_table_links (t : PeerTable) ip ip6 conn id net ip' ip6' net' :
  let at4 := decide (ip' = ip /\ net' = net) in
  let at6 := decide (ip6' = ip6 /\ net' = net) in
  link4 (add t ip ip6 conn id net) ip' net' = (if at4 then Some conn else link4 t ip' net')
  /\ link6 (add t ip ip6 conn id net) ip6' net' = (if at6 then Some conn else link6 t ip6' net')
  /\ link4 (remove_peer_from_network t ip ip6 net) ip' net' = (if at4 then None else link4 t ip' net')
  /\ link6 (remove_peer_from_network t ip ip6 net) ip6' net' = (if at6 then None else link6 t ip6' net')
  /\ link4 (remove_by_network t net).1 ip' net' = (if decide (net' = net) then None else link4 t ip' net')
  /\ link6 (remove_by_network t net).1 ip6' net' = (if decide (net' = net) then None else link6 t ip6' net').
Proof.
  unfold link4, link6. cbn.
  rewrite !upsert_link, !remove_conn_link, !retain_network_link. done.
Qed.

(** The operations that change the table. *)
Inductive table_step : PeerTable -> PeerTable -> Prop :=
| step_add t ip ip6 conn id net : table_step t (add t ip ip6 conn id net)
| step_remove t ip ip6 : table_step t (remove t ip ip6)
| step_remove_peer t ip ip6 net : table_step t (remove_peer_from_network t ip ip6 net)
| step_remove_if t ip ip6 net sid : table_step t (remove_peer_from_network_if t ip ip6 net sid).1
| step_remove_network t net : table_step t (remove_by_network t net).1.

Lemma table_step_ok t t' : table_step t t' -> table_ok t -> table_ok t'.
Proof.
  intros Hs [H4 H6]. destruct Hs; try (split; cbn).
  - by apply upsert_nonempty.
  - by apply upsert_nonempty.
  - by apply map_Forall_delete.
  - by apply map_Forall_delete.
  - by apply remove_conn_nonempty.
  - by apply remove_conn_nonempty.
  - unfold remove_peer_from_network_if. destruct (negb _); [done|]. by apply remove_conn_nonempty.
  - unfold remove_peer_from_network_if. destruct (negb _); [done|]. by apply remove_conn_nonempty.
  - apply retain_network_nonempty.
  - apply retain_network_nonempty.
Qed.

Lemma lookup_route {K} `{Countable K} (m : gmap K PeerEntry) k :
  nonempty m ->
  match m !! k ≫= route with
  | Some r => (m !! k ≫= fun e => pe_conns e !! pr_network r) = Some (pr_conn r)
              /\ forall net c, (m !! k ≫= fun e => pe_conns e !! net) = Some c ->
                   string_leb (pr_network r) net = true
  | None => forall net, (m !! k ≫= fun e => pe_conns e !! net) = None
  end.
Proof.
  intros Hm. destruct (m !! k) as [e|] eqn:E; cbn; [|done].
  destruct (route e) as [r|] eqn:Er.
  - apply route_spec in Er as (? & _ & ?). done.
  - exfalso. apply (Hm k e E). destruct (decide (pe_conns e = ∅)) as [|Hne]; [done|].
    apply route_is_Some in Hne as [? ?]. congruence.
Qed.

(** After any history of registrations and removals, an address is routed
    exactly when some network links to it, and then over the link of the
    lexically smallest network, the same for every lookup. *)
Theorem lookup_iff_linked (t : PeerTable) (ip : Ipv4Addr) (ip6 : Ipv6Addr) :
  rtc table_step table_new t ->
  match lookup_v4 t ip with
  | Some r => link4 t ip (pr_network r) = Some (pr_conn r)
              /\ forall net c, link4 t ip net = Some c -> string_leb (pr_network r) net = true
  | None => forall net, link4 t ip net = None
  end
  /\ match lookup_v6 t ip6 with
     | Some r => link6 t ip6 (pr_network r) = Some (pr_conn r)
                 /\ forall net c, link6 t ip6 net = Some c -> string_leb (pr_network r) net = true
     | None => forall net, link6 t ip6 net = None
     end.
Proof.
  intros Hr. assert (table_ok t) as [H4 H6].
  { assert (table_ok table_new) as H0 by (split; apply map_Forall_empty).
    revert H0. induction Hr; eauto using table_step_ok. }
  split; by apply lookup_route.
Qed.

(** A peer that re-dials is not cut off by the late disconnect of its old
    connection: when the stored connection is another one, the removal reports
    false and changes nothing; when it is the one that died, its link goes. *)
Theorem stale_disconnect_ignored (t : PeerTable) ip ip6 (fresh : Conn) id net (died : Z) :
  let t' := add t ip ip6 fresh id net in
  remove_peer_from_network_if t' ip ip6 net died
  = if stable_id fresh =? died then (remove_peer_from_network t' ip ip6 net, true) else (t', false).
Proof.
  intros t'. unfold remove_peer_from_network_if.
  pose proof (upsert_link (v4 t) ip fresh id net ip net) as E. rewrite decide_True in E by done.
  change (v4 t') with (<[ip := upsert (v4 t !! ip) fresh id net]> (v4 t)). rewrite E.
  by destruct (stable_id fresh =? died).
Qed.

(** The table knows one identity per address: when two networks give the same
    IPv4 address to different peers, a lookup pairs the first network's
    connection with the identity registered last. *)
Theorem shared_address_misattributed (ip : Ipv4Addr) (a6 b6 : Ipv6Addr) (ca cb : Conn)
  (ida idb : EndpointId) :
  let t := add (add table_new ip a6 ca ida "alpha") ip b6 cb idb "beta" in
  lookup_v4 t ip = Some (mkPeerRoute ca idb "alpha").
Proof.
  intros t. unfold lookup_v4, t. cbn. rewrite lookup_insert_eq. cbn. apply route_spec. cbn.
  rewrite lookup_insert_eq. cbn. split; [done|]. split; [done|].
  intros net c [[<- _]|[_ [[<- _]|[_ H]]%lookup_insert_Some]]%lookup_insert_Some; [done..|].
  by rewrite lookup_empty in H.
Qed.
End Peers.

Arguments PeerEntry : clear implicits.
Arguments PeerRoute : clear implicits.
Arguments PeerTable : clear implicits.

Lemma lookup_iff_linked_witness :
  let t := add (Conn := Z) (add table_new 7 [1] 100 (mkId 1) "beta") 7 [2] 200 (mkId 1) "alpha" in
  lookup_v4 t 7 = Some (mkPeerRoute 200 (mkId 1) "alpha") /\ link4 t 7 "alpha" = Some 200.
Proof.
  intros t. split; [reflexivity|].
  assert (rtc (table_step (fun c => c)) table_new t) as Hr
    by (eapply rtc_l; [apply step_add|]; eapply rtc_l; [apply step_add|]; apply rtc_refl).
  destruct (lookup_iff_linked (fun c => c) t 7 [1] Hr) as [H _]. vm_compute in H.
  vm_compute. exact (proj1 H).
Defined.
