(* ===== verification/Forward.v ===== *)
(** * The forwarding loops (src/src/forward.rs)

    What one packet read from the TUN device makes the node send, what one
    datagram from a peer makes it write to the TUN device, and the decisions
    beside the data path: close reasons, path-flap logging, self-candidates.

    The QUIC library is a world [W] with the three calls the loop makes on a
    connection handle; reading the free buffer space may itself change the world,
    since other tasks share the connection. *)

From S2P Require Import Prelude Externs Addressing Packet Stats Peers.

Definition MAX_PEER_DATAGRAM : Z := 1500.
Definition PATH_FLAP_THRESHOLD : Z := 3.
Definition PATH_FLAP_WINDOW_SECS : Z := 60.

(** ** Inbound *)
Inductive InboundDecision := Accept | DropMalformed | DropSpoof.

Definition evaluate_inbound (datagram : list Z) (peer_ip : Ipv4Addr) (peer_ipv6 : Ipv6Addr)
  : outcome InboundDecision :=
  if MAX_PEER_DATAGRAM <? len datagram then Ret DropMalformed
  else
    info <-! parse_packet_info datagram;
    match info with
    | None => Ret DropMalformed
    | Some info =>
        let src_ok :=
          match src_ip info with
          | V4 v4 => v4 =? peer_ip
          | V6 v6 => bool_decide (v6 = peer_ipv6)
          end in
        if negb src_ok then Ret DropSpoof else Ret Accept
    end.

(** ** Diagnostics *)
Definition path_flap_decision (now window_start count threshold window : Z) : bool * Z * Z :=
  if window <=? saturating_sub now window_start then (true, now, 1)
  else
    let new_count := wrap 32 (count + 1) in
    (new_count <=? threshold, window_start, new_count).

Inductive TransportAddr :=
| Ip4 (ip : Ipv4Addr) (port : Z)
| Ip6 (ip : Ipv6Addr) (port : Z)
| Relay (url : string)
| Custom (transport_id : Z) (addr : list Z).

Definition is_self_candidate (addr : TransportAddr) (subnet : Subnet) : bool :=
  match addr with
  | Ip4 ip _ => ip_in_subnet ip subnet
  | _ => false
  end.

(** ** Closing *)
Definition LEAVE_CODE : Z := 125534.
Definition ABUSE_CODE : Z := 700510.
Definition KICK_CODE : Z := 85229.

Inductive CloseReason := Left | Kicked | Other.

Definition prunes_member (r : CloseReason) : bool :=
  match r with Left => true | _ => false end.

Inductive ConnectionError :=
| ApplicationClosed (error_code : Z)
| OtherError.

Definition close_reason (e : ConnectionError) : CloseReason :=
  match e with
  | ApplicationClosed code =>
      if code =? LEAVE_CODE then Left else if code =? KICK_CODE then Kicked else Other
  | OtherError => Other
  end.

Record DisconnectEvent := mkDisconnectEvent {
  de_endpoint_id : EndpointId;
  de_ip : Ipv4Addr;
  de_ipv6 : Ipv6Addr;
  de_network : string;
  de_reason : CloseReason;
  de_conn_stable_id : option Z;
  de_uptime : option Z;
}.

Section Transmit.
Context {W Conn : Type} (max_datagram_size : W -> Conn -> option Z)
  (buffer_space : W -> Conn -> W * Z) (send_datagram : W -> Conn -> list Z -> W * bool).

(** [sent] records the datagrams the library took, in order. *)
Record TxState := mkTx {
  tx_world : W;
  tx_stats : ForwardMetrics;
  tx_next_frag6_id : Z;
  tx_sent : list (list Z);
}.

Definition set_world (s : TxState) (w : W) : TxState :=
  mkTx w (tx_stats s) (tx_next_frag6_id s) (tx_sent s).
Definition map_stats (s : TxState) (f : ForwardMetrics -> ForwardMetrics) : TxState :=
  mkTx (tx_world s) (f (tx_stats s)) (tx_next_frag6_id s) (tx_sent s).

Definition tx_drop (s : TxState) (r : DropReason) : TxState := map_stats s (fun st => record_drop st r).

(** [send_datagram] with the accounting both paths do. *)
Definition send_counted (s : TxState) (conn : Conn) (d : list Z) : TxState :=
  let '(w, ok) := send_datagram (tx_world s) conn d in
  if ok then mkTx w (record_tx (tx_stats s) (len d)) (tx_next_frag6_id s) (tx_sent s ++ [d])
  else tx_drop (set_world s w) SendFailure.

Definition fragment_set_wire_len (fragments : list (list Z)) : Z :=
  foldr (fun f acc => len f + acc) 0 fragments.

(** The [for] loop over the fragments: a full buffer ends it, a failed send does
    not. *)
Fixpoint send_fragments (s : TxState) (conn : Conn) (fragments : list (list Z)) : TxState :=
  match fragments with
  | [] => s
  | frag :: rest =>
      let '(w, space) := buffer_space (tx_world s) conn in
      let s := set_world s w in
      if space <? len frag then tx_drop s Backpressure
      else send_fragments (send_counted s conn frag) conn rest
  end.

Definition send_fragment_set (s : TxState) (conn : Conn) (fragments : list (list Z)) : TxState :=
  let total := fragment_set_wire_len fragments in
  let '(w, space) := buffer_space (tx_world s) conn in
  let s := set_world s w in
  if space <? total then tx_drop s Backpressure else send_fragments s conn fragments.

(** The branch for a packet that exceeds the connection's datagram size. *)
Definition send_oversized (s : TxState) (conn : Conn) (pkt : list Z) (max_dgram : Z)
  : outcome TxState :=
  match (fun b => Z.shiftr b 4) <$> head pkt with
  | Some 4 =>
      r <-! fragment_ipv4 pkt max_dgram;
      Ret (match r with
           | Some fragments => send_fragment_set (map_stats s record_fragmented_ipv4) conn fragments
           | None => tx_drop s FragmentationFailed
           end)
  | Some 6 =>
      let id := tx_next_frag6_id s in
      let s := mkTx (tx_world s) (tx_stats s) (wrap 32 (id + 1)) (tx_sent s) in
      r <-! fragment_ipv6 pkt id max_dgram;
      Ret (match r with
           | Some fragments => send_fragment_set (map_stats s record_fragmented_ipv6) conn fragments
           | None => tx_drop s FragmentationFailed
           end)
  | _ => Ret (tx_drop s SendFailure)
  end.

(** One packet of the TUN read loop; [n] is its length. *)
Definition run_mesh_packet (s : TxState) (peers : PeerTable Conn) (pkt : list Z) : outcome TxState :=
  let n := len pkt in
  if n =? 0 then Ret s
  else
    info <-! parse_packet_info pkt;
    match info with
    | None => Ret s
    | Some info =>
        let lookup := match dst_ip info with
                      | V4 v4 => lookup_v4 peers v4
                      | V6 v6 => lookup_v6 peers v6
                      end in
        match lookup with
        | None => Ret (tx_drop s NoPeer)
        | Some route =>
            match max_datagram_size (tx_world s) (pr_conn route) with
            | None => Ret (tx_drop s SendFailure)
            | Some max_dgram =>
                if n <=? max_dgram then
                  let '(w, space) := buffer_space (tx_world s) (pr_conn route) in
                  let s := set_world s w in
                  if space <? n then Ret (tx_drop s Backpressure)
                  else Ret (send_counted s (pr_conn route) pkt)
                else send_oversized s (pr_conn route) pkt max_dgram
            end
        end
    end.

End Transmit.
Arguments TxState : clear implicits.

(** ** The reader of one peer *)
Record RxState := mkRx {
  rx_reassembler : Ipv6Reassembler;
  rx_stats : ForwardMetrics;
  rx_tun : list (list Z);
}.

(** One datagram; [rx_tun] collects what is handed to the TUN writer. *)
Definition peer_reader_datagram (peer_ip : Ipv4Addr) (peer_ipv6 : Ipv6Addr) (s : RxState)
  (t_gc t_seen : Z) (datagram : list Z) : outcome RxState :=
  r <-! accept (rx_reassembler s) t_gc t_seen datagram;
  let '(reasm, out) := r in
  let s := mkRx reasm (rx_stats s) (rx_tun s) in
  let drop reason := mkRx reasm (record_drop (rx_stats s) reason) (rx_tun s) in
  let process packet :=
    d <-! evaluate_inbound packet peer_ip peer_ipv6;
    Ret (match d with
         | Accept => mkRx reasm (record_rx (rx_stats s) (len packet)) (rx_tun s ++ [packet])
         | DropMalformed => drop Malformed
         | DropSpoof => drop Spoof
         end) in
  match out with
  | NotAFragment => process datagram
  | Complete full => process full
  | Waiting => Ret s
  | Rejected => Ret (drop Malformed)
  end.

(** The writer drops packets while the data plane is in standby. *)
Definition tun_writer (active : bool) (device : list (list Z)) (packet : list Z) : list (list Z) :=
  if active then (device ++ [packet])%list else device.

Fixpoint peer_reader (peer_ip : Ipv4Addr) (peer_ipv6 : Ipv6Addr) (s : RxState)
  (l : list (Z * Z * list Z)) : outcome RxState :=
  match l with
  | [] => Ret s
  | (tg, ts, d) :: rest =>
      s' <-! peer_reader_datagram peer_ip peer_ipv6 s tg ts d;
      peer_reader peer_ip peer_ipv6 s' rest
  end.

(** The end of the reader: the event the error of [read_datagram] becomes. *)
Definition peer_reader_lost (peer_id : EndpointId) (peer_ip : Ipv4Addr) (peer_ipv6 : Ipv6Addr)
  (network : string) (stable_id established now : Z) (e : ConnectionError) : DisconnectEvent :=
  mkDisconnectEvent peer_id peer_ip peer_ipv6 network (close_reason e) (Some stable_id)
    (Some (saturating_sub now established)).

(** ** Path events *)
Inductive PathEvent :=
| Opened (remote_addr : TransportAddr)
| Closed (remote_addr : TransportAddr)
| Selected (remote_addr : TransportAddr)
| Lagged (missed : Z)
| UnknownEvent.

Inductive Level := TRACE | DEBUG | INFO | WARN.

#[export] Instance Level_eq_dec : EqDecision Level.
Proof. solve_decision. Defined.

Record FlapState := mkFlap {
  flap_window_start : Z;
  flap_count : Z;
}.

(** One event: the level it is logged at and the state after it. *)
Definition log_path_event (subnet : Subnet) (threshold window now : Z) (s : FlapState)
  (event : PathEvent) : FlapState * Level :=
  match event with
  | Opened a | Closed a => (s, if is_self_candidate a subnet then TRACE else DEBUG)
  | Selected a =>
      if is_self_candidate a subnet then (s, TRACE)
      else
        let '(log_at_info, start, count) :=
          path_flap_decision now (flap_window_start s) (flap_count s) threshold window in
        (mkFlap start count, if log_at_info then INFO else DEBUG)
  | Lagged _ => (s, WARN)
  | UnknownEvent => (s, DEBUG)
  end.

Fixpoint log_path_loop (subnet : Subnet) (threshold window : Z) (s : FlapState)
  (events : list (Z * PathEvent)) : list Level :=
  match events with
  | [] => []
  | (now, e) :: rest =>
      let '(s', l) := log_path_event subnet threshold window now s e in
      l :: log_path_loop subnet threshold window s' rest
  end.

Definition log_path_events (subnet : Subnet) (threshold window : option Z) (start : Z)
  (events : list (Z * PathEvent)) : list Level :=
  log_path_loop subnet (default PATH_FLAP_THRESHOLD threshold)
    (default PATH_FLAP_WINDOW_SECS window * 10 ^ 9) (mkFlap start 0) events.

(** ** What the reader lets through *)

(** The packet holds a whole header and its source is the peer's address. *)
Definition sourced_from (peer_ip : Ipv4Addr) (peer_ipv6 : Ipv6Addr) (p : list Z) : Prop :=
  len p <= MAX_PEER_DATAGRAM
  /\ ((Z.shiftr (byte_of p 0) 4 = 4 /\ 20 <= Z.land (byte_of p 0) 15 * 4 <= len p
       /\ from_be32 (byte_of p 12) (byte_of p 13) (byte_of p 14) (byte_of p 15) = peer_ip)
      \/ (Z.shiftr (byte_of p 0) 4 = 6 /\ 40 <= len p /\ sub_bytes p 8 24 = peer_ipv6)).

Lemma evaluate_inbound_spec p peer_ip peer_ipv6 :
  exists d, evaluate_inbound p peer_ip peer_ipv6 = Ret d
    /\ (d = Accept <-> sourced_from peer_ip peer_ipv6 p).
Proof.
  unfold evaluate_inbound, sourced_from.
  destruct (Z.ltb_spec MAX_PEER_DATAGRAM (len p)) as [|Hle].
  { exists DropMalformed. split; [done|]. split; [done|]. intros [? _]. lia. }
  destruct (parse_packet_info_spec p) as (r & E & Hr).
  rewrite E. cbn [obind]. destruct r as [info|].
  - specialize (Hr info eq_refl). cbv zeta in Hr. unfold byte_of.
    destruct Hr as [(H4 & Hih & -> & _)|(H6 & H40 & -> & _)].
    + match goal with |- context [?a =? peer_ip] => destruct (Z.eqb_spec a peer_ip) end; cbn [negb].
      * exists Accept. split; [done|]. split; [|done]. auto.
      * exists DropSpoof. split; [done|]. split; [done|]. intros [_ [(_ & _ & ?)|(? & _)]]; [done|lia].
    + case_bool_decide; cbn [negb].
      * exists Accept. split; [done|]. split; [|done]. auto.
      * exists DropSpoof. split; [done|]. split; [done|]. intros [_ [(? & _)|(_ & _ & ?)]]; [lia|done].
  - exists DropMalformed. split; [done|]. split; [done|]. intros [_ Hs]. exfalso.
    destruct (parse_packet_info_some p) as [info Hi]; [|congruence].
    unfold byte_of in *. destruct Hs as [(? & ? & _)|(? & ? & _)]; auto.
Qed.

Lemma evaluate_inbound_accept p peer_ip peer_ipv6 :
  sourced_from peer_ip peer_ipv6 p -> evaluate_inbound p peer_ip peer_ipv6 = Ret Accept.
Proof. destruct (evaluate_inbound_spec p peer_ip peer_ipv6) as (d & -> & Hd). intros ->%Hd. done. Qed.

Definition reader_ok (peer_ip : Ipv4Addr) (peer_ipv6 : Ipv6Addr) (s : RxState) : Prop :=
  reassembler_ok (rx_reassembler s) /\ Forall (sourced_from peer_ip peer_ipv6) (rx_tun s).

Lemma peer_reader_datagram_ok peer_ip peer_ipv6 s tg ts d :
  bytes_ok d -> reader_ok peer_ip peer_ipv6 s ->
  exists s', peer_reader_datagram peer_ip peer_ipv6 s tg ts d = Ret s' /\ reader_ok peer_ip peer_ipv6 s'.
Proof.
  intros Hd [Hr Ht]. unfold peer_reader_datagram.
  destruct (accept_ok (rx_reassembler s) tg ts d Hd Hr) as (st & out & -> & Hst & _). cbn [obind].
  assert (forall p, exists s',
    (dd <-! evaluate_inbound p peer_ip peer_ipv6;
     Ret (match dd with
          | Accept => mkRx st (record_rx (rx_stats s) (len p)) (rx_tun s ++ [p])
          | DropMalformed => mkRx st (record_drop (rx_stats s) Malformed) (rx_tun s)
          | DropSpoof => mkRx st (record_drop (rx_stats s) Spoof) (rx_tun s)
          end)) = Ret s' /\ reader_ok peer_ip peer_ipv6 s') as Hp.
  { intros p. destruct (evaluate_inbound_spec p peer_ip peer_ipv6) as (dd & -> & Hdd). cbn [obind].
    eexists. split; [done|]. destruct dd; split; cbn; auto.
    apply Forall_app. split; [done|]. constructor; [|done]. by apply Hdd. }
  destruct out; cbn [rx_stats rx_tun]; try apply Hp; eexists; (split; [done|]); split; done.
Qed.

(** C14: whatever datagrams a peer sends, in whatever order and at whatever times,
    its reader never panics, its reassembler stays within its bounds, and every
    packet handed to the TUN device is at most 1500 bytes, has a complete IPv4 or
    IPv6 header and carries the peer's own mesh address as its source, also when
    it was put together from fragments. *)
Theorem peer_reader_no_spoofing (peer_ip : Ipv4Addr) (peer_ipv6 : Ipv6Addr) (stats : ForwardMetrics)
  (l : list (Z * Z * list Z)) :
  Forall (fun a => bytes_ok a.2) l ->
  exists s, peer_reader peer_ip peer_ipv6 (mkRx ∅ stats []) l = Ret s
    /\ reassembler_ok (rx_reassembler s) /\ Forall (sourced_from peer_ip peer_ipv6) (rx_tun s).
Proof.
  assert (reader_ok peer_ip peer_ipv6 (mkRx ∅ stats [])) as H0.
  { split; [|constructor]. split; [vm_compute; lia|apply map_Forall_empty]. }
  revert H0. generalize (mkRx ∅ stats []) as s. induction l as [|[[tg ts] d] l IH]; intros s Hs Hl.
  - exists s. split; [done|exact Hs].
  - apply Forall_cons in Hl as [Hd Hl]. cbn [peer_reader].
    destruct (peer_reader_datagram_ok peer_ip peer_ipv6 s tg ts d Hd Hs) as (s' & -> & Hs').
    cbn [obind]. by apply IH.
Qed.

(** ** From one TUN device to the other *)

Lemma reassemble4_pieces model off frags mf p :
  reassemble4 model off frags = Some (mf, p) ->
  Forall (fun f => 20 < len f /\ stable_fields f = stable_fields model) frags
  /\ fragment_set_wire_len frags <= 21 * len p.
Proof.
  revert off mf p. induction frags as [|f rest IH]; intros off mf p; [done|].
  cbn [reassemble4]. destruct (fragment_ok model off f) eqn:Hf; cbn [negb]; [|done].
  unfold fragment_ok in Hf. rewrite !andb_true_iff, Z.ltb_lt, bool_decide_eq_true in Hf.
  destruct Hf as [[[[[[Hl _] _] Hs] _] _] _].
  assert (len (drop 20 f) = len f - 20) as Hd by (unfold len in *; rewrite length_drop; lia).
  destruct rest as [|g rest].
  - intros [= _ <-]. split; [by repeat constructor|]. cbn. lia.
  - destruct (_ && _); [|done]. destruct (reassemble4 model _ (g :: rest)) as [[mf' p']|] eqn:E; [|done].
    cbn. intros [= _ <-]. destruct (IH _ _ _ E) as [Ha Hw]. split; [by constructor|].
    rewrite len_app. cbn [fragment_set_wire_len foldr] in *. lia.
Qed.

Section Delivery.
Context {W Conn : Type} (max_datagram_size : W -> Conn -> option Z)
  (buffer_space : W -> Conn -> W * Z) (send_datagram : W -> Conn -> list Z -> W * bool).
Context (conn : Conn) (max_dgram : Z).
Hypothesis Hroom : forall w, 32768 <= (buffer_space w conn).2.
Hypothesis Hsend : forall w d, len d <= max_dgram -> (send_datagram w conn d).2 = true.

(** Nothing was dropped between the two states and [ds] was sent. *)
Definition sent_all (s s' : TxState W) (ds : list (list Z)) : Prop :=
  tx_sent s' = (tx_sent s ++ ds)%list
  /\ forall r, drop_count (tx_stats s') r = drop_count (tx_stats s) r.

Lemma send_counted_all s d :
  len d <= max_dgram -> sent_all s (send_counted send_datagram s conn d) [d].
Proof.
  intros Hd. unfold send_counted. pose proof (Hsend (tx_world s) d Hd) as H.
  destruct (send_datagram (tx_world s) conn d) as [w ok]. cbn in H. subst ok. split; [done|]. intros r. done.
Qed.

Lemma send_fragments_all s frags :
  Forall (fun f => len f <= max_dgram) frags -> Forall (fun f => len f <= 32768) frags ->
  sent_all s (send_fragments buffer_space send_datagram s conn frags) frags.
Proof.
  revert s. induction frags as [|f frags IH]; intros s H1 H2; cbn [send_fragments].
  - split; [by rewrite app_nil_r|done].
  - apply Forall_cons in H1 as [Hf H1]. apply Forall_cons in H2 as [Hf2 H2].
    pose proof (Hroom (tx_world s)) as Hr. destruct (buffer_space (tx_world s) conn) as [w sp]. cbn in Hr.
    rewrite (proj2 (Z.ltb_ge _ _)) by lia.
    destruct (send_counted_all (set_world s w) f Hf) as [Hs Hdr].
    destruct (IH (send_counted send_datagram (set_world s w) conn f) H1 H2) as [Hs' Hdr'].
    split; [rewrite Hs', Hs; cbn; by rewrite <- app_assoc|]. intros r. by rewrite Hdr', Hdr.
Qed.

Lemma wire_len_bound frags : Forall (fun f => len f <= fragment_set_wire_len frags) frags.
Proof.
  assert (forall l : list (list Z), 0 <= fragment_set_wire_len l) as Hpos.
  { unfold fragment_set_wire_len. induction l as [|g l IHl]; cbn [foldr]; unfold len in *; lia. }
  unfold fragment_set_wire_len in *. induction frags as [|f frags IH]; [constructor|]. cbn [foldr].
  constructor; [specialize (Hpos frags); lia|].
  eapply Forall_impl; [exact IH|]. intros g Hg. cbn beta in *. unfold len in *. lia.
Qed.

Lemma send_fragment_set_all s frags :
  Forall (fun f => len f <= max_dgram) frags -> fragment_set_wire_len frags <= 32768 ->
  sent_all s (send_fragment_set buffer_space send_datagram s conn frags) frags.
Proof.
  intros H1 H2. unfold send_fragment_set. pose proof (Hroom (tx_world s)) as Hr.
  destruct (buffer_space (tx_world s) conn) as [w sp]. cbn in Hr. rewrite (proj2 (Z.ltb_ge _ _)) by lia.
  destruct (send_fragments_all (set_world s w) frags H1) as [Hs Hd]; [|split; [exact Hs|exact Hd]].
  eapply Forall_impl; [apply wire_len_bound|]. cbn beta. lia.
Qed.

(** The address a packet's header names as its destination. *)
Definition routed (peers : PeerTable Conn) (pkt : list Z) : option (PeerRoute Conn) :=
  if Z.shiftr (byte_of pkt 0) 4 =? 4 then
    lookup_v4 peers (from_be32 (byte_of pkt 16) (byte_of pkt 17) (byte_of pkt 18) (byte_of pkt 19))
  else lookup_v6 peers (sub_bytes pkt 24 40).

Lemma run_mesh_packet_routed s peers pkt ip ip6 rt :
  sourced_from ip ip6 pkt -> routed peers pkt = Some rt -> pr_conn rt = conn ->
  max_datagram_size (tx_world s) conn = Some max_dgram ->
  if len pkt <=? max_dgram then
    exists s', run_mesh_packet max_datagram_size buffer_space send_datagram s peers pkt = Ret s'
               /\ sent_all s s' [pkt]
  else run_mesh_packet max_datagram_size buffer_space send_datagram s peers pkt
       = send_oversized buffer_space send_datagram s conn pkt max_dgram.
Proof.
  intros [Hlen Hsrc] Hrt Hc Hm. unfold run_mesh_packet, MAX_PEER_DATAGRAM in *.
  destruct (Z.eqb_spec (len pkt) 0) as [|_]; [exfalso; lia|].
  destruct (parse_packet_info_spec pkt) as (r & Ep & Hr).
  destruct (parse_packet_info_some pkt) as [info Ei].
  { unfold byte_of in Hsrc. destruct Hsrc as [(? & ? & _)|(? & ? & _)]; auto. }
  rewrite Ep in Ei. injection Ei as ->. rewrite Ep. cbn [obind]. specialize (Hr info eq_refl).
  cbv zeta in Hr.
  assert (match dst_ip info with V4 v => lookup_v4 peers v | V6 v => lookup_v6 peers v end = Some rt) as ->.
  { rewrite <- Hrt. unfold routed, byte_of. by destruct Hr as [(-> & _ & _ & -> & _)|(-> & _ & _ & -> & _)]. }
  rewrite Hc, Hm. destruct (Z.leb_spec (len pkt) max_dgram) as [Hle|_]; [|done].
  pose proof (Hroom (tx_world s)) as Hb. destruct (buffer_space (tx_world s) conn) as [w sp].
  cbn in Hb. rewrite (proj2 (Z.ltb_ge _ _)) by lia. eexists. split; [done|].
  destruct (send_counted_all (set_world s w) pkt Hle) as [H1 H2]. by split.
Qed.

End Delivery.

(** The receiving side: a packet that is not an envelope, and a set of envelopes. *)
Lemma peer_reader_plain ip ip6 s (l : list (Z * Z * list Z)) :
  Forall (fun a => sourced_from ip ip6 a.2) l ->
  exists s', peer_reader ip ip6 s l = Ret s' /\ rx_tun s' = (rx_tun s ++ (snd <$> l))%list.
Proof.
  revert s. induction l as [|[[tg ts] p] l IH]; intros s Hl.
  - exists s. by rewrite app_nil_r.
  - apply Forall_cons in Hl as [Hp Hl]. cbn [peer_reader]. unfold peer_reader_datagram, accept.
    rewrite bool_decide_eq_false_2; cbn [negb obind snd] in *.
    2:{ intros E. destruct Hp as [_ Hp]. destruct p as [|b p]; [done|]. injection E as ->.
        by destruct Hp as [[Hp _]|[Hp _]]. }
    rewrite evaluate_inbound_accept by done. cbn [obind].
    destruct (IH (mkRx (rx_reassembler s) (record_rx (rx_stats s) (len p)) (rx_tun s ++ [p])) Hl) as (s' & E & Ht).
    exists s'. split; [exact E|]. rewrite Ht. cbn. by rewrite <- app_assoc.
Qed.

Lemma peer_reader_set ip ip6 s l st n pkt :
  sourced_from ip ip6 pkt ->
  feed (rx_reassembler s) l = Ret (st, replicate n Waiting ++ [Complete pkt]) ->
  exists s', peer_reader ip ip6 s l = Ret s' /\ rx_tun s' = (rx_tun s ++ [pkt])%list.
Proof.
  intros Hp. revert s n. induction l as [|[[tg ts] d] l IH]; intros s n; cbn [feed peer_reader].
  { by destruct n. }
  unfold peer_reader_datagram. destruct (accept (rx_reassembler s) tg ts d) as [[st1 out]|]; [|done].
  cbn [obind fst snd]. destruct (feed st1 l) as [[st2 outs]|] eqn:Ef; [|done]. cbn [obind fst snd].
  destruct n as [|n]; cbn [replicate app]; intros [= -> -> ->].
  - rewrite evaluate_inbound_accept by done. cbn [obind].
    destruct l as [|[[tg' ts'] d'] l]; [by eexists|]. cbn [feed] in Ef.
    destruct (accept st1 tg' ts' d'); [|done]. cbn [obind] in Ef. by destruct (feed _ l).
  - cbn [obind]. by apply (IH (mkRx st1 (rx_stats s) (rx_tun s)) n).
Qed.

Lemma envelopes_wire_len packet id start l :
  contiguous start l -> fragment_set_wire_len (envelope packet id <$> l) <= 9 * len (joined l).
Proof.
  revert start. induction l as [|[o b] l IH]; intros start; [done|].
  intros (_ & Hb & Hc). specialize (IH _ Hc).
  assert (len (envelope packet id (o, b)) = 8 + len b) as He by (unfold envelope; rewrite len_app; done).
  unfold joined in *. rewrite !fmap_cons. cbn [concat snd]. rewrite len_app.
  unfold fragment_set_wire_len in *. cbn [foldr]. lia.
Qed.

Lemma fragment_ipv6_some packet id max_size :
  max_size < len packet -> 8 < max_size -> len packet <= 65535 ->
  exists frags, fragment_ipv6 packet id max_size = Ret (Some frags).
Proof.
  intros H1 H2 H3. unfold fragment_ipv6, FRAG6_HEADER_LEN.
  rewrite (proj2 (Z.leb_gt _ _)), (proj2 (Z.leb_gt _ _)), (proj2 (Z.ltb_ge _ _)) by lia.
  rewrite frag6_loop_pieces by lia. cbn [obind]. eauto.
Qed.

(** Arrival of a whole set in any order. *)
Lemma feed_permuted packet id max_size frags st (l : list (Z * Z * list Z)) :
  is_u32 id -> len packet <= MAX_REASSEMBLED_IPV6_PACKET ->
  fragment_ipv6 packet id max_size = Ret (Some frags) ->
  st !! id = None -> timely None l -> (snd <$> l) ≡ₚ frags ->
  exists st' n, feed st l = Ret (st', replicate n Waiting ++ [Complete packet]).
Proof.
  intros Hid Hlen Hf Hst Ht Hp.
  destruct (fragment_ipv6_inv _ _ _ _ Hf) as (-> & Hc & Hne & Hj & _).
  set (full := pieces _ _ _ _) in *.
  destruct (Permutation_map_inv _ _ Hp) as (ps & El & Hps).
  assert (NoDup ps) as Hnd.
  { rewrite <- Hps. eapply NoDup_fmap_1. by eapply contiguous_offsets. }
  assert (exists q, q = zip (fst <$> l) ps /\ send packet id <$> q = l /\ (snd <$> q) = ps) as (q & _ & Hq & Hqs).
  { exists (zip (fst <$> l) ps). split; [done|]. clear -El. revert ps El.
    induction l as [|[[tg ts] d] l IH]; intros [|p ps]; [done..|]. cbn. intros [= -> El].
    destruct (IH ps El) as [IH1 IH2]. unfold send at 1. cbn [fst snd]. split; by f_equal. }
  destruct q as [|fin pre _] using rev_ind.
  { cbn in Hqs. subst ps. by apply Permutation_nil_r in Hps. }
  rewrite fmap_app in Hqs. cbn in Hqs.
  destruct (feed_set packet id full Hid Hc Hne Hj Hlen st [] None pre fin) as (st' & E & _).
  - unfold holds. by rewrite Hst.
  - rewrite <- Hq in Ht. clear -Ht. revert Ht. generalize (@None Z). generalize (pre ++ [fin])%list as k.
    induction k as [|[[tg ts] p] k IH]; intros prev; [done|]. cbn. intros [? ?]. split; [done|]. by apply IH.
  - intros a Ha. rewrite Hps, <- Hqs. apply (list_elem_of_fmap_2 snd) in Ha. by rewrite fmap_app in Ha.
  - exists fin.2. rewrite Hps, <- Hqs. split; [set_solver|]. split; [apply not_elem_of_nil|].
    rewrite <- Hqs in Hnd. apply NoDup_app in Hnd as (_ & Hd & _). intros Hin. apply (Hd _ Hin). left.
  - intros x. rewrite Hps, <- Hqs, fmap_app. by right.
  - exists st', (length pre). by rewrite <- Hq.
Qed.

(** A fragment has its packet's source. *)
Lemma stable_fields_sourced ip ip6 pkt f :
  sourced_from ip ip6 pkt -> Z.shiftr (byte_of pkt 0) 4 = 4 -> stable_fields f = stable_fields pkt ->
  Z.land (byte_of pkt 0) 15 = 5 -> 20 < len f <= len pkt -> sourced_from ip ip6 f.
Proof.
  intros [Hl Hs] Hv Hst Hihl Hf. unfold stable_fields in Hst. cbn in Hst.
  injection Hst as E0 _ _ _ _ _ E12 E13 E14 E15 _ _ _ _. split; [lia|]. left.
  rewrite E0, E12, E13, E14, E15, Hihl. destruct Hs as [(_ & _ & Hs)|(? & _)]; [|lia]. split; [done|]. split; [lia|done].
Qed.

Section EndToEnd.
Context {W Conn : Type} (max_datagram_size : W -> Conn -> option Z)
  (buffer_space : W -> Conn -> W * Z) (send_datagram : W -> Conn -> list Z -> W * bool).

(** C19: an IPv6 packet of at most 1280 bytes whose destination is routed to a
    connection with 32 KiB of free buffer and working sends is sent whole, as one
    datagram or as a set of envelopes, with no drop counted; the peer's reader,
    which knows the sender by the packet's source address, then hands exactly
    this packet to its TUN device once, in whatever order the datagrams arrive. *)
Theorem ipv6_packet_delivered (s : TxState W) (peers : PeerTable Conn) (pkt : list Z) (rt : PeerRoute Conn)
  (max_dgram : Z) (ip : Ipv4Addr) (ip6 : Ipv6Addr) :
  sourced_from ip ip6 pkt -> Z.shiftr (byte_of pkt 0) 4 = 6 -> len pkt <= MAX_REASSEMBLED_IPV6_PACKET ->
  is_u32 (tx_next_frag6_id s) -> routed peers pkt = Some rt ->
  max_datagram_size (tx_world s) (pr_conn rt) = Some max_dgram -> 8 < max_dgram ->
  (forall w, 32768 <= (buffer_space w (pr_conn rt)).2) ->
  (forall w d, len d <= max_dgram -> (send_datagram w (pr_conn rt) d).2 = true) ->
  exists s' ds, run_mesh_packet max_datagram_size buffer_space send_datagram s peers pkt = Ret s'
    /\ sent_all s s' ds /\ Forall (fun d => len d <= max_dgram) ds
    /\ forall (rx : RxState) (l : list (Z * Z * list Z)),
         rx_reassembler rx !! tx_next_frag6_id s = None -> timely None l -> (snd <$> l) ≡ₚ ds ->
         exists rx', peer_reader ip ip6 rx l = Ret rx' /\ rx_tun rx' = (rx_tun rx ++ [pkt])%list.
Proof.
  intros Hsrc Hv Hlen Hid Hrt Hm H8 Hroom Hsend.
  pose proof (run_mesh_packet_routed max_datagram_size buffer_space send_datagram (pr_conn rt) max_dgram
    Hroom Hsend s peers pkt ip ip6 rt Hsrc Hrt eq_refl Hm) as Hrun.
  destruct (Z.leb_spec (len pkt) max_dgram) as [Hle|Hgt].
  - destruct Hrun as (s' & E & Hs). exists s', [pkt]. split; [done|]. split; [done|].
    split; [by apply Forall_singleton|]. intros rx l _ _ Hl. apply Permutation_singleton_r in Hl.
    destruct (peer_reader_plain ip ip6 rx l) as (rx' & E' & Ht); [|exists rx'; by rewrite <- Hl].
    assert (Forall (sourced_from ip ip6) (snd <$> l)) as Hall by (rewrite Hl; by apply Forall_singleton).
    exact (proj1 (Forall_fmap _ _ _) Hall).
  - unfold MAX_REASSEMBLED_IPV6_PACKET in Hlen.
    destruct (fragment_ipv6_some pkt (tx_next_frag6_id s) max_dgram) as [frags Ef]; [lia..|].
    destruct (fragment_ipv6_inv _ _ _ _ Ef) as (Hfr & Hc & _ & Hj & Hsz).
    assert (fragment_set_wire_len frags <= 32768) as Hw.
    { rewrite Hfr. etransitivity; [by eapply envelopes_wire_len|]. rewrite Hj. lia. }
    rewrite Hrun. unfold send_oversized.
    assert ((fun b => Z.shiftr b 4) <$> head pkt = Some 6) as ->.
    { destruct pkt as [|b pkt]; [done|]. cbn. by f_equal. }
    rewrite Ef. cbn [obind]. eexists _, frags. split; [done|].
    split; [|split; [done|]].
    + destruct (send_fragment_set_all buffer_space send_datagram (pr_conn rt) max_dgram Hroom Hsend
        (map_stats (mkTx (tx_world s) (tx_stats s) (wrap 32 (tx_next_frag6_id s + 1)) (tx_sent s))
           record_fragmented_ipv6) frags Hsz Hw) as [H1 H2]. by split.
    + intros rx l Hn Ht Hp.
      destruct (feed_permuted pkt (tx_next_frag6_id s) max_dgram frags (rx_reassembler rx) l) as (st & n & Hfeed); try done.
      by eapply peer_reader_set.
Qed.

(** An IPv4 packet routed to such a connection is sent whole too, with no drop
    counted, unless it is too large and cannot be fragmented (options, a bad
    checksum, an offset out of its field, a limit below 28 bytes); the peer's
    reader hands every datagram of it to its TUN device, in the order of arrival,
    and these are the packet itself or fragments that reassemble by RFC 791 to its
    payload, offset and more-fragments flag. *)
Theorem ipv4_packet_delivered (s : TxState W) (peers : PeerTable Conn) (pkt : list Z) (rt : PeerRoute Conn)
  (max_dgram : Z) (ip : Ipv4Addr) (ip6 : Ipv6Addr) :
  bytes_ok pkt -> sourced_from ip ip6 pkt -> Z.shiftr (byte_of pkt 0) 4 = 4 -> routed peers pkt = Some rt ->
  max_datagram_size (tx_world s) (pr_conn rt) = Some max_dgram -> 28 <= max_dgram <= 65535 ->
  Z.land (byte_of pkt 0) 15 = 5 -> header_intact pkt = true ->
  fragment_offset pkt + (len pkt - 20 - 1) <= MAX_FRAG_OFFSET_BYTES ->
  (forall w, 32768 <= (buffer_space w (pr_conn rt)).2) ->
  (forall w d, len d <= max_dgram -> (send_datagram w (pr_conn rt) d).2 = true) ->
  exists s' ds, run_mesh_packet max_datagram_size buffer_space send_datagram s peers pkt = Ret s'
    /\ sent_all s s' ds
    /\ (ds = [pkt] \/ reassemble4 pkt (fragment_offset pkt) ds = Some (more_fragments pkt, drop 20 pkt))
    /\ forall (rx : RxState) (l : list (Z * Z * list Z)), (snd <$> l) ≡ₚ ds ->
         exists rx', peer_reader ip ip6 rx l = Ret rx' /\ rx_tun rx' = (rx_tun rx ++ (snd <$> l))%list.
Proof.
  intros Hok Hsrc Hv Hrt Hm Hmax Hihl Hint Hoff Hroom Hsend.
  assert (forall ds rx (l : list (Z * Z * list Z)), Forall (sourced_from ip ip6) ds -> (snd <$> l) ≡ₚ ds ->
    exists rx', peer_reader ip ip6 rx l = Ret rx' /\ rx_tun rx' = (rx_tun rx ++ (snd <$> l))%list) as Hread.
  { intros ds rx l Hds Hl. apply peer_reader_plain. rewrite <- Hl in Hds. exact (proj1 (Forall_fmap _ _ _) Hds). }
  pose proof (run_mesh_packet_routed max_datagram_size buffer_space send_datagram (pr_conn rt) max_dgram
    Hroom Hsend s peers pkt ip ip6 rt Hsrc Hrt eq_refl Hm) as Hrun.
  destruct (Z.leb_spec (len pkt) max_dgram) as [Hle|Hgt].
  { destruct Hrun as (s' & E & Hs). exists s', [pkt]. split; [done|]. split; [done|]. split; [by left|].
    intros rx l. apply Hread. by apply Forall_singleton. }
  destruct (fragment_ipv4_spec pkt max_dgram Hok ltac:(lia)) as ([frags|] & Ef & Hfr).
  2:{ rewrite Hint in Hfr. destruct Hsrc as [_ [(_ & ? & _)|(? & _)]]; exfalso; intuition (done || lia). }
  destruct Hfr as [Hre Hsz]. destruct (reassemble4_pieces _ _ _ _ _ Hre) as [Hpc Hw].
  rewrite Hrun. unfold send_oversized.
  assert ((fun b => Z.shiftr b 4) <$> head pkt = Some 4) as ->.
  { destruct pkt as [|b pkt]; [done|]. cbn. by f_equal. }
  rewrite Ef. cbn [obind]. eexists _, frags. split; [done|]. split; [|split; [by right|]].
  - unfold len in Hw at 1. rewrite length_drop in Hw. destruct Hsrc as [Hl _].
    unfold MAX_PEER_DATAGRAM, len in *.
    destruct (send_fragment_set_all buffer_space send_datagram (pr_conn rt) max_dgram Hroom Hsend
      (map_stats s record_fragmented_ipv4) frags Hsz ltac:(unfold len; lia)) as [H1 H2]. by split.
  - intros rx l. apply Hread. apply Forall_forall. intros f Hf.
    rewrite Forall_forall in Hpc. destruct (Hpc f Hf) as [H20 Hst].
    rewrite Forall_forall in Hsz. specialize (Hsz f Hf). cbn beta in Hsz.
    apply (stable_fields_sourced ip ip6 pkt f); [done|done|done|lia..].
Qed.
End EndToEnd.

(** ** Quieting of flapping paths *)
Lemma log_path_loop_quiet subnet threshold window s events :
  0 <= flap_count s -> flap_count s + len events < 2 ^ 32 ->
  Forall (fun e => e.1 - flap_window_start s < window) events -> 0 < window ->
  len (filter (fun l => l = INFO) (log_path_loop subnet threshold window s events))
  <= Z.max 0 (threshold - flap_count s).
Proof.
  revert s. induction events as [|[now e] events IH]; intros s Hc Hn Hw Hp; [apply Z.le_max_l|].
  apply Forall_cons in Hw as [H1 Hw]. cbn [fst] in H1. cbn [log_path_loop].
  assert (len ((now, e) :: events) = 1 + len events) as El by (unfold len; cbn [length]; lia).
  assert (forall l, l <> INFO -> len (filter (fun l => l = INFO) (l :: log_path_loop subnet threshold window s events))
    <= Z.max 0 (threshold - flap_count s)) as Hsame.
  { intros l Hl. rewrite filter_cons_False by done. apply IH; auto; lia. }
  destruct e; cbn [log_path_event]; try (apply Hsame; by repeat case_match).
  destruct (is_self_candidate remote_addr subnet); [by apply Hsame|].
  unfold path_flap_decision. rewrite (proj2 (Z.leb_gt _ _)) by (unfold saturating_sub; lia).
  rewrite wrap_small by (unfold in_width, len in *; lia).
  pose proof (IH (mkFlap (flap_window_start s) (flap_count s + 1)) ltac:(cbn; lia) ltac:(cbn; lia) Hw Hp) as IH'.
  cbn [flap_count] in IH'. destruct (Z.leb_spec (flap_count s + 1) threshold).
  - rewrite filter_cons_True by done. unfold len in *. cbn [length]. lia.
  - rewrite filter_cons_False by done. lia.
Qed.

(** ** Concrete runs *)
Definition sample_v6 : list Z :=
  ([96; 0; 0; 0; 0; 4; 17; 64] ++ replicate 16 1 ++ replicate 16 2 ++ [7; 8; 9; 10])%list.
Definition sample_table : PeerTable Z := add table_new 9 (replicate 16 2) 100 (mkId 1) "home".
Definition sample_tx : TxState unit := mkTx tt (metrics_new None) 5 [].

Lemma peer_reader_no_spoofing_witness :
  exists s, peer_reader 7 (replicate 16 1) (mkRx ∅ (metrics_new None) [])
    [(0, 0, sample_v6); (1, 1, <[8%nat := 3]> sample_v6); (2, 2, [246; 1])] = Ret s
  /\ rx_tun s = [sample_v6] /\ Forall (sourced_from 7 (replicate 16 1)) (rx_tun s).
Proof.
  destruct (peer_reader_no_spoofing 7 (replicate 16 1) (metrics_new None)
    [(0, 0, sample_v6); (1, 1, <[8%nat := 3]> sample_v6); (2, 2, [246; 1])]) as (s & E & _ & Hs); [by_decide|].
  exists s. split; [exact E|]. split; [|exact Hs]. vm_compute in E. injection E as <-. reflexivity.
Defined.

Lemma ipv6_packet_delivered_witness :
  exists s' ds, run_mesh_packet (fun _ _ => Some 24) (fun w _ => (w, 65536)) (fun w _ _ => (w, true))
                  sample_tx sample_table sample_v6 = Ret s'
  /\ tx_sent s' = ds /\ length ds = 3%nat
  /\ exists rx', peer_reader 7 (replicate 16 1) (mkRx ∅ (metrics_new None) [])
       [(0, 1, nth 2 ds []); (2, 3, nth 0 ds []); (4, 5, nth 1 ds [])] = Ret rx' /\ rx_tun rx' = [sample_v6].
Proof.
  destruct (ipv6_packet_delivered (fun _ _ => Some 24) (fun w _ => (w, 65536)) (fun w _ _ => (w, true))
    sample_tx sample_table sample_v6 (mkPeerRoute 100 (mkId 1) "home") 24 7 (replicate 16 1))
    as (s' & ds & E & [Hs _] & _ & Hrx).
  - split; [vm_compute; discriminate|]. right. vm_compute. repeat split; discriminate.
  - reflexivity.
  - vm_compute. discriminate.
  - by_decide.
  - vm_compute. reflexivity.
  - reflexivity.
  - lia.
  - cbn. lia.
  - reflexivity.
  - exists s', ds. split; [exact E|]. split; [exact Hs|].
    cbn [tx_sent sample_tx app] in Hs.
    vm_compute in E. injection E as <-. cbn [tx_sent] in Hs. subst ds. split; [reflexivity|].
    apply Hrx; [reflexivity|cbn; unfold REASSEMBLY_TIMEOUT; repeat split; lia|].
    cbn. apply Permutation_cons_append.
Defined.

Lemma ipv4_packet_delivered_witness :
  let hdr := [69; 0; 0; 60; 0; 1; 0; 0; 64; 17; 0; 0; 0; 0; 0; 7; 0; 0; 0; 9] in
  let c := ip_checksum hdr in
  let pkt := (take 10 hdr ++ [c / 256; c mod 256] ++ drop 12 hdr ++ sample_packet)%list in
  exists s' ds, run_mesh_packet (fun _ _ => Some 44) (fun w _ => (w, 65536)) (fun w _ _ => (w, true))
                  sample_tx sample_table pkt = Ret s'
  /\ tx_sent s' = ds /\ length ds = 2%nat
  /\ exists rx', peer_reader 7 [] (mkRx ∅ (metrics_new None) [])
       [(0, 0, nth 0 ds []); (0, 0, nth 1 ds [])] = Ret rx' /\ rx_tun rx' = ds.
Proof.
  intros hdr c pkt.
  destruct (ipv4_packet_delivered (fun _ _ => Some 44) (fun w _ => (w, 65536)) (fun w _ _ => (w, true))
    sample_tx sample_table pkt (mkPeerRoute 100 (mkId 1) "home") 44 7 [])
    as (s' & ds & E & [Hs _] & _ & Hrx).
  - by_decide.
  - split; [vm_compute; discriminate|]. left. vm_compute. repeat split; discriminate.
  - reflexivity.
  - vm_compute. reflexivity.
  - reflexivity.
  - lia.
  - reflexivity.
  - vm_compute. reflexivity.
  - vm_compute. discriminate.
  - cbn. lia.
  - reflexivity.
  - exists s', ds. split; [exact E|]. split; [exact Hs|].
    cbn [tx_sent sample_tx app] in Hs.
    vm_compute in E. injection E as <-. cbn [tx_sent] in Hs. subst ds. split; [reflexivity|].
    apply Hrx. reflexivity.
Defined.
