(* ===== verification/Ratelimit.v ===== *)
(** * Limiting of control messages (src/src/ratelimit.rs)

    The gate of one connection, the gate all connections share, and their
    combination.  The token bucket itself (crate [ratelimit]) is an interface: the
    gates only see whether it hands out a token. *)

From S2P Require Import Prelude.

(** [build_limiter refill max initial now], [None] for refused parameters;
    [try_wait l now] takes a token if there is one. *)
Class Ratelimiter := {
  Limiter : Type;
  build_limiter : Z -> Z -> Z -> Z -> option Limiter;
  try_wait : Limiter -> Z -> Limiter * bool;
}.

Definition CAPACITY : Z := 5.
Definition REFILL_PER_SEC : Z := 1.
Definition STRIKE_LIMIT : Z := 20.
Definition GLOBAL_CAPACITY : Z := 10.
Definition GLOBAL_REFILL_PER_SEC : Z := 3.
Definition GLOBAL_STRIKE_LIMIT : Z := 50.

Inductive Verdict := Allow | Drop | Close.

#[export] Instance Verdict_eq_dec : EqDecision Verdict.
Proof. solve_decision. Defined.

Section Gates.
Context `{Ratelimiter}.

(** Both structs have the same fields; the shared one's counter is atomic. *)
Record ControlGate := mkGate {
  limiter : Limiter;
  strikes : Z;
  strike_limit : Z;
}.
Record GlobalRateLimiter := mkGlobal {
  g_limiter : Limiter;
  g_strikes : Z;
  g_strike_limit : Z;
}.

Definition with_params (capacity refill_per_sec limit now : Z) : outcome ControlGate :=
  match build_limiter refill_per_sec capacity capacity now with
  | Some l => Ret (mkGate l 0 limit)
  | None => Panic
  end.

(** The configured values, unset where the configuration has none. *)
Definition gate_new (capacity refill limit : option Z) (now : Z) : outcome ControlGate :=
  with_params (default CAPACITY capacity) (default REFILL_PER_SEC refill) (default STRIKE_LIMIT limit) now.

Definition global_with_params (capacity refill_per_sec limit now : Z) : outcome GlobalRateLimiter :=
  match build_limiter refill_per_sec capacity capacity now with
  | Some l => Ret (mkGlobal l 0 limit)
  | None => Panic
  end.

Definition from_config (capacity refill limit : option Z) (now : Z) : outcome GlobalRateLimiter :=
  global_with_params (default GLOBAL_CAPACITY capacity) (default GLOBAL_REFILL_PER_SEC refill)
    (default GLOBAL_STRIKE_LIMIT limit) now.

Definition check (g : ControlGate) (now : Z) : ControlGate * Verdict :=
  let '(l, ok) := try_wait (limiter g) now in
  if ok then (mkGate l (saturating_sub (strikes g) 1) (strike_limit g), Allow)
  else
    let s := saturating_add 32 (strikes g) 1 in
    (mkGate l s (strike_limit g), if strike_limit g <=? s then Close else Drop).

(** [fetch_add] wraps; the comparison saturates. *)
Definition global_check (g : GlobalRateLimiter) (now : Z) : GlobalRateLimiter * Verdict :=
  let '(l, ok) := try_wait (g_limiter g) now in
  if ok then (mkGlobal l (saturating_sub (g_strikes g) 1) (g_strike_limit g), Allow)
  else
    (mkGlobal l (wrap 32 (g_strikes g + 1)) (g_strike_limit g),
     if g_strike_limit g <=? saturating_add 32 (g_strikes g) 1 then Close else Drop).

Definition check_with_global (g : ControlGate) (glob : GlobalRateLimiter) (now : Z)
  : ControlGate * GlobalRateLimiter * Verdict :=
  let '(g', v) := check g now in
  match v with
  | Allow => let '(glob', v') := global_check glob now in (g', glob', v')
  | other => (g', glob, other)
  end.

(** ** Runs of one gate *)
Fixpoint tokens (l : Limiter) (ts : list Z) : list bool :=
  match ts with
  | [] => []
  | t :: rest => let '(l', ok) := try_wait l t in ok :: tokens l' rest
  end.

Fixpoint gate_run (g : ControlGate) (ts : list Z) : ControlGate * list Verdict :=
  match ts with
  | [] => (g, [])
  | t :: rest =>
      let '(g', v) := check g t in
      let '(g'', vs) := gate_run g' rest in (g'', v :: vs)
  end.

(** Refusals minus admissions. *)
Definition net (oks : list bool) : Z := foldr (fun (ok : bool) acc => (if ok then -1 else 1) + acc) 0 oks.

(** The largest [net] of a run of messages that ends with the last one. *)
Definition worst (oks : list bool) : Z :=
  fold_left (fun s (ok : bool) => if ok then saturating_sub s 1 else s + 1) oks 0.

Lemma net_app a b : net (a ++ b) = net a + net b.
Proof. unfold net. induction a as [|[] a IH]; cbn [app foldr]; lia. Qed.

Lemma worst_snoc oks (ok : bool) :
  worst (oks ++ [ok]) = if ok then saturating_sub (worst oks) 1 else worst oks + 1.
Proof. unfold worst. by rewrite fold_left_app. Qed.

Lemma worst_bounds oks : 0 <= worst oks <= Z.of_nat (length oks).
Proof.
  induction oks as [|ok oks IH] using rev_ind; [cbn; lia|].
  rewrite worst_snoc, length_app. cbn [length]. unfold saturating_sub. destruct ok; lia.
Qed.

Lemma worst_suffix oks n : worst oks >= n <-> n <= 0 \/ exists a b, oks = (a ++ b)%list /\ net b >= n.
Proof.
  revert n. induction oks as [|ok oks IH] using rev_ind; intros n.
  - change (worst []) with 0. split; [lia|]. intros [?|(a & b & E & Hb)]; [lia|].
    symmetry in E. apply app_eq_nil in E as [-> ->]. cbn in Hb. lia.
  - assert (worst (oks ++ [ok]) >= n <-> n <= 0 \/ worst oks >= n + (if ok then 1 else -1)) as ->.
    { rewrite worst_snoc. pose proof (worst_bounds oks). unfold saturating_sub. destruct ok; lia. }
    rewrite IH. split.
    + intros [?|[Hn|(a & b & -> & Hb)]]; [by left| |].
      * destruct (decide (n <= 0)); [by left|]. right. exists oks, [ok]. split; [done|]. destruct ok; cbn; lia.
      * right. exists a, (b ++ [ok])%list. split; [by rewrite app_assoc|]. rewrite net_app. destruct ok; cbn; lia.
    + intros [?|(a & b & E & Hb)]; [by left|]. destruct b as [|x b _] using rev_ind.
      { left. cbn in Hb. lia. }
      rewrite app_assoc in E. apply app_inj_tail in E as [-> ->]. rewrite net_app in Hb.
      destruct (decide (n <= 0)); [by left|]. right. right. exists a, b. split; [done|].
      destruct x; cbn in Hb; lia.
Qed.

(** The counter against a run that started with strikes of its own. *)
Lemma gate_run_snoc g ts t :
  gate_run g (ts ++ [t]) =
    let '(g', vs) := gate_run g ts in let '(g'', v) := check g' t in (g'', (vs ++ [v])%list).
Proof.
  revert g. induction ts as [|u ts IH]; intros g; cbn [gate_run app]; [by destruct (check g t)|].
  destruct (check g u) as [g' v]. rewrite IH. destruct (gate_run g' ts) as [g2 vs].
  by destruct (check g2 t).
Qed.

Fixpoint limiter_after (l : Limiter) (ts : list Z) : Limiter :=
  match ts with
  | [] => l
  | t :: rest => limiter_after (try_wait l t).1 rest
  end.

Lemma tokens_snoc l ts t : tokens l (ts ++ [t]) = (tokens l ts ++ [(try_wait (limiter_after l ts) t).2])%list.
Proof.
  revert l. induction ts as [|u ts IH]; intros l; cbn [tokens app limiter_after].
  - by destruct (try_wait l t).
  - destruct (try_wait l u) as [l' ok]. cbn [fst]. by rewrite IH.
Qed.

Lemma limiter_after_snoc l ts t : limiter_after l (ts ++ [t]) = (try_wait (limiter_after l ts) t).1.
Proof. revert l. induction ts as [|u ts IH]; intros l; cbn [limiter_after app]; [done|]. apply IH. Qed.

Lemma tokens_length l ts : length (tokens l ts) = length ts.
Proof.
  revert l. induction ts as [|t ts IH]; intros l; cbn [tokens]; [done|].
  destruct (try_wait l t). cbn [length]. by rewrite IH.
Qed.

Lemma gate_run_state l limit ts :
  Z.of_nat (length ts) < 2 ^ 32 ->
  (gate_run (mkGate l 0 limit) ts).1 = mkGate (limiter_after l ts) (worst (tokens l ts)) limit.
Proof.
  induction ts as [|t ts IH] using rev_ind; intros Hn; [done|]. rewrite length_app in Hn. cbn [length] in Hn.
  rewrite gate_run_snoc, limiter_after_snoc, tokens_snoc, worst_snoc.
  specialize (IH ltac:(lia)). destruct (gate_run (mkGate l 0 limit) ts) as [g' vs]. cbn [fst] in IH. subst g'.
  unfold check. cbn [limiter strikes strike_limit].
  destruct (try_wait (limiter_after l ts) t) as [l' ok]. cbn [fst snd]. destruct ok; [done|]. cbn [fst].
  f_equal. pose proof (worst_bounds (tokens l ts)) as Hw. rewrite tokens_length in Hw.
  unfold saturating_add. lia.
Qed.

(** A fresh gate's answer to a connection's latest message.  With a token it is
    let through.  Without one it is dropped, and the connection is closed exactly
    when some run of consecutive messages ending with this one had at least
    [strike_limit] more refusals than admissions: a peer that stays within its
    budget afterwards is not closed for an earlier burst. *)
Theorem control_gate_verdict (l : Limiter) (limit : Z) (ts : list Z) (t : Z) :
  0 < limit -> Z.of_nat (length ts) < 2 ^ 32 - 1 ->
  last (gate_run (mkGate l 0 limit) (ts ++ [t])).2 =
    Some (if (try_wait (limiter_after l ts) t).2 then Allow
          else if bool_decide (limit <= worst (tokens l (ts ++ [t]))) then Close else Drop)
  /\ (limit <= worst (tokens l (ts ++ [t])) <->
      exists earlier recent, tokens l (ts ++ [t]) = (earlier ++ recent)%list /\ limit <= net recent).
Proof.
  intros Hl Hn. split.
  - pose proof (gate_run_state l limit ts ltac:(lia)) as Hs. rewrite gate_run_snoc.
    destruct (gate_run (mkGate l 0 limit) ts) as [g' vs]. cbn [fst] in Hs. subst g'.
    rewrite tokens_snoc, worst_snoc. unfold check. cbn [limiter strikes strike_limit].
    destruct (try_wait (limiter_after l ts) t) as [l' ok]. cbn [fst snd].
    pose proof (worst_bounds (tokens l ts)) as Hw. rewrite tokens_length in Hw.
    destruct ok; cbn [fst snd]; rewrite last_snoc; [done|]. f_equal.
    unfold saturating_add. rewrite Z.min_r by lia.
    destruct (Z.leb_spec limit (worst (tokens l ts) + 1)); case_bool_decide; done || lia.
  - pose proof (worst_suffix (tokens l (ts ++ [t])) limit) as Hs. split.
    + intros Hw. destruct (proj1 Hs ltac:(lia)) as [?|(a & b & E & Hb)]; [lia|]. exists a, b. split; [done|lia].
    + intros (a & b & E & Hb). enough (worst (tokens l (ts ++ [t])) >= limit) by lia.
      apply Hs. right. exists a, b. split; [done|lia].
Qed.

(** A message is processed only with a token of both buckets, and one refused
    by its own connection's gate takes nothing from the shared one. *)
Lemma check_with_global_spec g glob now g' glob' v :
  check_with_global g glob now = (g', glob', v) ->
  g' = (check g now).1
  /\ (v = Allow -> (try_wait (limiter g) now).2 = true /\ (try_wait (g_limiter glob) now).2 = true)
  /\ ((try_wait (limiter g) now).2 = false -> glob' = glob /\ v <> Allow).
Proof.
  unfold check_with_global, check, global_check. destruct (try_wait (limiter g) now) as [l ok].
  destruct (try_wait (g_limiter glob) now) as [gl gok]. cbn [fst snd]. destruct ok.
  - destruct gok; intros [= <- <- <-]; (split; [done|]); (split; [|done]); [done|]. by case_match.
  - destruct (strike_limit g <=? _); intros [= <- <- <-]; done.
Qed.

End Gates.

(** A bucket of [refill] tokens per second, never more than [max]. *)
Module DemoRatelimit.
#[export] Instance bucket : Ratelimiter := {
  Limiter := Z * Z * Z * Z;
  build_limiter refill max initial now := if max <? refill then None else Some (refill, max, initial, now);
  try_wait l now :=
    let '(refill, max, have, last) := l in
    let have := Z.min max (have + refill * (now - last)) in
    if 0 <? have then ((refill, max, have - 1, now), true) else ((refill, max, have, now), false);
}.
End DemoRatelimit.

Import DemoRatelimit.

Lemma control_gate_verdict_witness :
  let l : Limiter := (1, 5, 5, 0) in
  last (gate_run (mkGate l 0 3) (replicate 7 0 ++ [0])%list).2 = Some Close
  /\ exists earlier recent, tokens l (replicate 7 0 ++ [0]) = (earlier ++ recent)%list /\ 3 <= net recent.
Proof.
  intros l. destruct (control_gate_verdict l 3 (replicate 7 0) 0) as [H1 H2]; [lia|by_decide|].
  split; [rewrite H1; vm_compute; reflexivity|]. apply H2. vm_compute. discriminate.
Defined.
