(* ===== verification/Names.v ===== *)
(** * Hostnames and network names (src/src/hostname.rs, src/src/network_name.rs)

    What a machine's or a user's name becomes in the roster, how a clash with a
    taken name is resolved, and the generated three-word network names. *)

From S2P Require Import Prelude.

(** ** Characters *)
Definition in_range (lo hi : Z) (c : ascii) : bool := (lo <=? byte_of_ascii c) && (byte_of_ascii c <=? hi).
Definition is_ascii_lowercase : ascii -> bool := in_range 97 122.
Definition is_ascii_uppercase : ascii -> bool := in_range 65 90.
Definition is_ascii_digit : ascii -> bool := in_range 48 57.
Definition is_ascii_alphanumeric (c : ascii) : bool :=
  is_ascii_lowercase c || is_ascii_uppercase c || is_ascii_digit c.
Definition to_ascii_lowercase (c : ascii) : ascii :=
  if is_ascii_uppercase c then Ascii.ascii_of_N (Z.to_N (byte_of_ascii c + 32)) else c.

(** [chars().map(..)] over UTF-8 text: a character is its first byte; the bytes
    from 128 to 191 continue one. *)
Definition is_continuation : ascii -> bool := in_range 128 191.

Fixpoint clean (s : string) : string :=
  match s with
  | EmptyString => EmptyString
  | String c s' =>
      if is_continuation c then clean s'
      else String (if is_ascii_alphanumeric c then to_ascii_lowercase c else "-"%char) (clean s')
  end.

Fixpoint trim_start_matches (c : ascii) (s : string) : string :=
  match s with
  | String d s' => if bool_decide (c = d) then trim_start_matches c s' else s
  | EmptyString => EmptyString
  end.
Definition trim_end_matches (c : ascii) (s : string) : string :=
  string_rev (trim_start_matches c (string_rev s)).
Definition trim_matches (c : ascii) (s : string) : string := trim_end_matches c (trim_start_matches c s).

(** [chars().take(n)] of ASCII text. *)
Fixpoint string_take (n : nat) (s : string) : string :=
  match n, s with
  | S n', String c s' => String c (string_take n' s')
  | _, _ => EmptyString
  end.

Definition is_empty (s : string) : bool := match s with EmptyString => true | _ => false end.

Definition sanitize_hostname (raw : string) : option string :=
  let first_label := default raw (head (split_on "." raw)) in
  let cleaned := clean first_label in
  let truncated := string_take 63 (trim_matches "-" cleaned) in
  let truncated := trim_end_matches "-" truncated in
  if is_empty truncated then None else Some truncated.

Definition ends_with_char (s : string) (c : ascii) : bool :=
  match string_rev s with String d _ => bool_decide (c = d) | EmptyString => false end.
Definition starts_with_char (s : string) (c : ascii) : bool :=
  match s with String d _ => bool_decide (c = d) | EmptyString => false end.

Definition is_hostname_char (c : ascii) : bool :=
  is_ascii_lowercase c || is_ascii_digit c || bool_decide (c = "-"%char).

Definition is_valid_hostname (name : string) : bool :=
  if is_empty name || (63 <? Z.of_nat (String.length name)) then false
  else if starts_with_char name "-" || ends_with_char name "-" then false
  else all_chars is_hostname_char name.

Definition contains (taken : list string) (s : string) : bool := bool_decide (s ∈ taken).

(** The body of [for i in 1u32..]. *)
Definition collision_step (desired : string) (taken : list string) (i : Z) : string + Z :=
  let candidate := desired +:+ "-" +:+ dec i in
  if contains taken candidate then inr (wrap 32 (i + 1)) else inl candidate.

(** [None]: the loop has run through every [u32] without a free name. *)
Definition resolve_collision (desired : string) (taken : list string) : option string :=
  if negb (contains taken desired) then Some desired
  else match loop_pow2 32 (collision_step desired taken) 1 with
       | inl s => Some s
       | inr _ => None
       end.

Definition admission_hostname (desired : string) (taken : list string) (authoritative : bool)
  : option (Result string string) :=
  if authoritative then
    if contains taken desired then Some (Err desired) else Some (Ok desired)
  else Ok <$> resolve_collision desired taken.

Lemma resolve_collision_free desired taken name :
  resolve_collision desired taken = Some name -> name ∉ taken.
Proof.
  unfold resolve_collision, contains. case_bool_decide as Hd; cbn [negb]; [|by intros [= <-]].
  destruct (loop_pow2 _ _ _) as [r|] eqn:E; [|done]. intros [= <-].
  apply loop_pow2_inl in E as [i Hi]. unfold collision_step, contains in Hi. case_bool_decide; by simplify_eq.
Qed.

Lemma admission_hostname_free desired taken authoritative name :
  admission_hostname desired taken authoritative = Some (Ok name) -> name ∉ taken.
Proof.
  unfold admission_hostname. destruct authoritative.
  - unfold contains. case_bool_decide; intros [=]. by subst.
  - intros (n & Hr & [= ->])%fmap_Some. by eapply resolve_collision_free.
Qed.

(** ** Generated names *)
Definition ADJECTIVES : list string :=
  ["able"; "aged"; "airy"; "amber"; "arctic"; "ashen"; "azure"; "bare"; "basic"; "bent"; "birch";
   "black"; "bland"; "bleak"; "blind"; "bliss"; "bloom"; "blown"; "blunt"; "bold"; "bone";
   "bound"; "brave"; "brief"; "bright"; "brisk"; "broad"; "bronze"; "brown"; "burnt"; "calm";
   "cedar"; "chill"; "civic"; "civil"; "clean"; "clear"; "close"; "cloud"; "cold"; "cool";
   "coral"; "core"; "crisp"; "cross"; "cubic"; "curly"; "damp"; "dark"; "dawn"; "deep"; "dense";
   "dim"; "dire"; "dizzy"; "double"; "draft"; "drawn"; "dried"; "dull"; "dusk"; "dusty"; "eager";
   "early"; "east"; "eight"; "elfin"; "elite"; "empty"; "equal"; "even"; "every"; "extra";
   "faded"; "faint"; "fair"; "false"; "fancy"; "far"; "fast"; "fern"; "few"; "final"; "fine";
   "firm"; "first"; "fixed"; "flat"; "fleet"; "flint"; "foggy"; "fond"; "forge"; "forth";
   "found"; "fresh"; "front"; "frost"; "full"; "fuzzy"; "gauze"; "giant"; "given"; "glad";
   "glass"; "gleam"; "glow"; "gold"; "good"; "grand"; "grass"; "grave"; "gray"; "great"; "green";
   "grim"; "grown"; "half"; "happy"; "hard"; "harsh"; "hazel"; "heavy"; "heron"; "high"; "honey";
   "hot"; "huge"; "human"; "humid"; "hushy"; "icy"; "ideal"; "idle"; "inner"; "ionic"; "ivory";
   "jade"; "jolly"; "keen"; "kept"; "kind"; "known"; "lace"; "large"; "last"; "late"; "lead";
   "lean"; "left"; "level"; "light"; "lilac"; "lime"; "linen"; "lithe"; "live"; "local"; "lone";
   "long"; "lost"; "loud"; "low"; "lucid"; "lunar"; "lush"; "lyric"; "mad"; "magic"; "major";
   "maple"; "meek"; "mild"; "mint"; "misty"; "mixed"; "modal"; "moist"; "moody"; "moral";
   "mossy"; "muted"; "naive"; "named"; "natal"; "naval"; "near"; "neat"; "new"; "next"; "nice";
   "noble"; "north"; "noted"; "novel"; "nylon"; "oaken"; "ocean"; "odd"; "olive"; "only"; "opal";
   "open"; "opted"; "orbit"; "other"; "outer"; "oxide"; "pagan"; "paid"; "pale"; "palm"; "paper";
   "past"; "pearl"; "penal"; "petty"; "pine"; "pious"; "pixel"; "plain"; "plaid"; "plumb";
   "plush"; "polar"; "prime"; "prior"; "proud"; "proxy"; "pure"; "quick"; "quiet"; "quill";
   "rapid"; "rare"; "raven"; "ready"; "real"; "red"; "reef"; "regal"; "rich"; "rigid"; "risen";
   "river"; "rocky"; "roman"; "roomy"; "rose"; "rough"; "round"; "royal"; "ruby"; "rural";
   "rusty"; "safe"; "sage"; "sandy"; "satin"; "sharp"; "sheer"; "short"; "shown"; "shy"; "silk";
   "slim"; "slow"; "small"; "smart"; "smoky"; "snowy"; "soft"; "solar"; "solid"; "sonic";
   "south"; "spare"; "spent"; "spice"; "stark"; "steam"; "steel"; "steep"; "still"; "stone";
   "storm"; "stout"; "sugar"; "sunny"; "super"; "sure"; "sweet"; "swift"; "tall"; "tame";
   "tawny"; "teal"; "thick"; "thin"; "third"; "thorn"; "tidal"; "tight"; "timid"; "tiny";
   "topaz"; "total"; "tough"; "trim"; "true"; "tulip"; "twin"; "ultra"; "umbra"; "upper";
   "urban"; "used"; "usual"; "utter"; "valid"; "vapor"; "vast"; "veldt"; "vivid"; "vocal";
   "void"; "warm"; "wary"; "weary"; "west"; "wheat"; "white"; "whole"; "wide"; "wild"; "wiry";
   "wise"; "witty"; "woody"; "world"; "worth"; "woven"; "wrong"; "young"; "zero"; "zippy"].

Definition NOUNS_A : list string :=
  ["acorn"; "alder"; "algae"; "alloy"; "alpha"; "amber"; "anchor"; "anvil"; "apex"; "arbor";
   "arrow"; "aspen"; "atlas"; "basin"; "basil"; "beach"; "beam"; "birch"; "blade"; "bloom";
   "bluff"; "board"; "bolt"; "bone"; "bower"; "brace"; "brass"; "brick"; "brook"; "brush";
   "cairn"; "cape"; "cargo"; "cedar"; "chain"; "chalk"; "chess"; "cider"; "cinch"; "claim";
   "clash"; "cliff"; "cloud"; "clove"; "coast"; "comet"; "conch"; "coral"; "crane"; "crate";
   "creek"; "crest"; "crown"; "crush"; "cubic"; "curve"; "delta"; "depot"; "dew"; "dial"; "dock";
   "draft"; "drake"; "drift"; "drum"; "dune"; "eagle"; "earth"; "ember"; "epoch"; "facet";
   "fault"; "fawn"; "ferry"; "fetch"; "fiber"; "field"; "firth"; "flame"; "flare"; "flint";
   "flora"; "forge"; "frame"; "frost"; "gable"; "gale"; "gauge"; "gears"; "ghost"; "glade";
   "glaze"; "gleam"; "globe"; "gorge"; "grain"; "grant"; "grape"; "graph"; "grasp"; "grass";
   "gravel"; "grove"; "guild"; "gulch"; "haven"; "heart"; "hedge"; "helix"; "heron"; "hinge";
   "holly"; "honey"; "horns"; "hound"; "inlet"; "ivory"; "jewel"; "kayak"; "knoll"; "lager";
   "lance"; "larch"; "laser"; "latch"; "ledge"; "lever"; "light"; "lilac"; "linen"; "llama";
   "locus"; "lodge"; "lotus"; "lunar"; "maple"; "marsh"; "mason"; "matte"; "mazer"; "metal";
   "mirth"; "mocha"; "molar"; "moose"; "morph"; "motor"; "mound"; "mulch"; "nexus"; "notch";
   "novel"; "oasis"; "ocean"; "olive"; "onion"; "onset"; "opera"; "orbit"; "otter"; "oxide";
   "panda"; "panel"; "paper"; "patch"; "pearl"; "pedal"; "perch"; "petal"; "phase"; "pilot";
   "pitch"; "pixel"; "plank"; "plaza"; "plume"; "point"; "polar"; "poppy"; "pouch"; "press";
   "prism"; "probe"; "proxy"; "pulse"; "quail"; "qualm"; "query"; "quilt"; "quota"; "radar";
   "ranch"; "range"; "raven"; "reach"; "realm"; "reeds"; "relay"; "ridge"; "rivet"; "roost";
   "rover"; "sable"; "scale"; "scone"; "scope"; "sedan"; "shade"; "shaft"; "shard"; "shelf";
   "shell"; "shore"; "shrub"; "sigma"; "siren"; "slate"; "slope"; "snare"; "solar"; "sonic";
   "spark"; "spear"; "spire"; "spoke"; "spore"; "spray"; "staff"; "stage"; "stake"; "steel";
   "stern"; "stone"; "storm"; "stove"; "sugar"; "surge"; "swamp"; "sword"; "talon"; "thorn";
   "tiger"; "tile"; "timer"; "torch"; "totem"; "tower"; "trace"; "trail"; "trove"; "trunk";
   "tulip"; "tuner"; "valve"; "vapor"; "vault"; "venom"; "verge"; "verse"; "vigor"; "viola";
   "visor"; "voice"; "wedge"; "wheel"; "whirl"; "wick"; "willow"; "witch"; "world"; "yacht";
   "yield"; "young"; "zebra"; "zero"].

Definition NOUNS_B : list string :=
  ["arch"; "badge"; "bark"; "basin"; "bay"; "bead"; "bell"; "berry"; "bird"; "blaze"; "block";
   "blossom"; "boat"; "bolt"; "book"; "bow"; "box"; "bridge"; "bud"; "cairn"; "camp"; "cap";
   "cave"; "cell"; "charm"; "chip"; "circle"; "clay"; "cloth"; "clover"; "coal"; "coin"; "cone";
   "cord"; "core"; "court"; "cow"; "crab"; "crow"; "cup"; "curl"; "dale"; "dam"; "dart"; "deer";
   "den"; "dew"; "disc"; "door"; "dove"; "drum"; "dust"; "dye"; "edge"; "elm"; "eye"; "fall";
   "fan"; "fern"; "fig"; "fin"; "fish"; "flag"; "flax"; "flock"; "flow"; "foam"; "fold"; "foot";
   "ford"; "fork"; "fort"; "fox"; "frog"; "fur"; "gap"; "gate"; "gem"; "glow"; "goat"; "gull";
   "gust"; "hare"; "harp"; "hash"; "hawk"; "hay"; "heap"; "helm"; "herb"; "hill"; "hive"; "hook";
   "horn"; "hut"; "isle"; "ivy"; "jam"; "jar"; "jaw"; "jay"; "jest"; "jig"; "keel"; "kelp";
   "key"; "kite"; "knob"; "knot"; "lace"; "lake"; "lamp"; "lane"; "lark"; "leaf"; "lime"; "lion";
   "lock"; "log"; "loom"; "lore"; "lynx"; "mane"; "map"; "mark"; "mast"; "maze"; "mesa"; "mill";
   "mine"; "mint"; "mist"; "mole"; "moon"; "moss"; "moth"; "muse"; "nest"; "node"; "nook";
   "note"; "oak"; "oar"; "ore"; "oryx"; "owl"; "pace"; "pact"; "palm"; "park"; "path"; "peak";
   "pier"; "pine"; "pipe"; "plum"; "pod"; "pole"; "pond"; "port"; "post"; "quay"; "rain"; "ram";
   "ray"; "reed"; "reef"; "ring"; "rise"; "road"; "robe"; "rock"; "rod"; "root"; "rope"; "rune";
   "rush"; "sage"; "sail"; "salt"; "sand"; "seal"; "seed"; "silk"; "snow"; "soil"; "soul";
   "span"; "spur"; "star"; "stem"; "step"; "sun"; "swan"; "tarn"; "teak"; "tide"; "tile"; "toad";
   "tome"; "tree"; "vale"; "vane"; "veil"; "vine"; "void"; "wand"; "ward"; "wave"; "web"; "well";
   "weld"; "wren"; "wing"; "wolf"; "wood"; "wool"; "yard"; "yew"; "zone"; "ache"; "acre"; "aged";
   "ail"; "aim"; "ale"; "aloe"; "alp"; "alto"; "amen"; "amp"; "ant"; "ape"; "apt"; "arc"; "arm";
   "art"; "ash"; "ask"; "asp"; "awe"; "axe"; "aye"; "azure"; "bait"; "bale"; "balm"; "ban";
   "band"; "bane"; "bang"; "bard"; "barn"; "baste"; "bath"; "beam"].

(** The three arguments are the random draws; [None] stands for an index out of
    range, which [random_range] does not give. *)
Definition generate_name (r1 r2 r3 : nat) : option string :=
  adj ← ADJECTIVES !! r1; n1 ← NOUNS_A !! r2; n2 ← NOUNS_B !! r3;
  Some (adj +:+ "-" +:+ n1 +:+ "-" +:+ n2).

Definition is_valid_name (name : string) : bool :=
  let parts := split_on "-" name in
  if negb (length parts =? 3)%nat then false
  else forallb (fun p => negb (is_empty p) && all_chars is_ascii_lowercase p) parts.

Fixpoint before_nul (buf : list Z) : list Z :=
  match buf with
  | [] => []
  | b :: rest => if b =? 0 then [] else b :: before_nul rest
  end.

(** [os]: the buffer [gethostname] filled, [None] when it failed. *)
Definition machine_hostname (os : option (list Z)) : option string :=
  buf ← os;
  let raw := before_nul buf in
  if utf8_valid raw then sanitize_hostname (utf8 raw) else None.

(** [r]: the random draw below the number of nouns. *)
Definition generate_hostname (os : option (list Z)) (r : nat) : option string :=
  match machine_hostname os with
  | Some h => Some h
  | None => NOUNS_B !! r
  end.

(** ** Cleaning *)
Lemma clean_chars s : all_chars is_hostname_char (clean s) = true.
Proof.
  induction s as [|c s IH]; cbn [clean]; [done|]. destruct (is_continuation c); [done|].
  cbn [all_chars]. rewrite IH, andb_true_r. by destruct c as [[] [] [] [] [] [] [] []].
Qed.

Lemma clean_id s : all_chars is_hostname_char s = true -> clean s = s.
Proof.
  induction s as [|c s IH]; cbn [clean all_chars]; [done|]. intros [Hc Hs]%andb_true_iff. rewrite (IH Hs).
  destruct c as [[] [] [] [] [] [] [] []]; vm_compute in Hc; try discriminate Hc; reflexivity.
Qed.

Lemma hostname_char_no_dot s : all_chars is_hostname_char s = true -> all_chars (not_char ".") s = true.
Proof.
  apply all_chars_impl. intros c Hc.
  destruct c as [[] [] [] [] [] [] [] []]; vm_compute in Hc; try discriminate Hc; reflexivity.
Qed.

(** ** Trimming and truncation *)
Lemma trim_start_matches_suffix c s : exists t, s = t +:+ trim_start_matches c s.
Proof.
  induction s as [|d s [t IH]]; cbn [trim_start_matches]; [by exists EmptyString|].
  case_bool_decide; [|by exists EmptyString]. exists (String d t). cbn. by rewrite <- IH.
Qed.

Lemma trim_start_matches_start c s : starts_with_char (trim_start_matches c s) c = false.
Proof.
  induction s as [|d s IH]; cbn [trim_start_matches]; [done|]. case_bool_decide as E; [done|].
  cbn. by apply bool_decide_eq_false_2.
Qed.

Lemma trim_start_matches_id c s : starts_with_char s c = false -> trim_start_matches c s = s.
Proof. destruct s as [|d s]; [done|]. cbn. by intros ->. Qed.

Lemma trim_end_matches_prefix c s : exists t, s = trim_end_matches c s +:+ t.
Proof.
  destruct (trim_start_matches_suffix c (string_rev s)) as [t E]. exists (string_rev t).
  unfold trim_end_matches. rewrite <- string_rev_app_distr, <- E. by rewrite string_rev_involutive.
Qed.

Lemma trim_end_matches_end c s : ends_with_char (trim_end_matches c s) c = false.
Proof.
  unfold ends_with_char, trim_end_matches. rewrite string_rev_involutive.
  apply trim_start_matches_start.
Qed.

Lemma trim_end_matches_id c s : ends_with_char s c = false -> trim_end_matches c s = s.
Proof.
  intros H. unfold trim_end_matches. rewrite trim_start_matches_id by exact H. apply string_rev_involutive.
Qed.

Lemma string_take_prefix n s : exists t, s = string_take n s +:+ t.
Proof.
  revert s. induction n as [|n IH]; intros s; [by exists s|].
  destruct s as [|c s]; [by exists EmptyString|]. destruct (IH s) as [t E]. exists t. cbn. by rewrite <- E.
Qed.

Lemma string_take_length n s : (String.length (string_take n s) <= n)%nat.
Proof. revert s. induction n as [|n IH]; intros [|c s]; cbn; [lia..|]. specialize (IH s). lia. Qed.

Lemma string_take_id n s : (String.length s <= n)%nat -> string_take n s = s.
Proof.
  revert s. induction n as [|n IH]; intros [|c s]; cbn; [done|lia|done|]. intros H. by rewrite IH by lia.
Qed.

Lemma all_chars_prefix p a b : all_chars p (a +:+ b) = true -> all_chars p a = true.
Proof. rewrite all_chars_app. by intros [? _]%andb_true_iff. Qed.

Lemma starts_with_char_prefix a b c : starts_with_char (a +:+ b) c = false -> starts_with_char a c = false.
Proof. by destruct a. Qed.

Lemma is_valid_hostname_iff h :
  is_valid_hostname h = true <->
  h <> EmptyString /\ (String.length h <= 63)%nat /\ starts_with_char h "-" = false
  /\ ends_with_char h "-" = false /\ all_chars is_hostname_char h = true.
Proof.
  unfold is_valid_hostname. destruct (Z.ltb_spec 63 (Z.of_nat (String.length h))).
  { rewrite orb_true_r. split; [done|]. intros (_ & ? & _). lia. }
  rewrite orb_false_r. destruct (is_empty h) eqn:E0.
  { split; [done|]. intros [Hne _]. by destruct h. }
  assert (h <> EmptyString) by by destruct h.
  destruct (starts_with_char h "-"), (ends_with_char h "-"); cbn [orb]; intuition (done || lia).
Qed.

Lemma sanitize_valid raw h : sanitize_hostname raw = Some h -> is_valid_hostname h = true.
Proof.
  unfold sanitize_hostname, trim_matches.
  set (lbl := default raw _). set (a := trim_start_matches "-" (clean lbl)).
  set (b := trim_end_matches "-" a). set (c := string_take 63 b).
  destruct (is_empty (trim_end_matches "-" c)) eqn:E0; [done|]. intros [= <-].
  destruct (trim_start_matches_suffix "-" (clean lbl)) as [t0 E1]. fold a in E1.
  destruct (trim_end_matches_prefix "-" a) as [t1 E2]. fold b in E2.
  destruct (string_take_prefix 63 b) as [t2 E3]. fold c in E3.
  destruct (trim_end_matches_prefix "-" c) as [t3 E4].
  pose proof (clean_chars lbl) as Hc. rewrite E1, all_chars_app in Hc. apply andb_true_iff in Hc as [_ Hc].
  pose proof (trim_start_matches_start "-" (clean lbl)) as Hs. fold a in Hs.
  rewrite E2 in Hc, Hs. rewrite E3 in Hc, Hs. rewrite E4 in Hc, Hs.
  apply is_valid_hostname_iff. split; [by intros E; rewrite E in E0|]. split.
  - pose proof (string_take_length 63 b) as Hl. fold c in Hl. rewrite E4, sapp_length in Hl. lia.
  - split; [by do 3 eapply starts_with_char_prefix|]. split; [apply trim_end_matches_end|].
    by do 3 eapply all_chars_prefix.
Qed.

(** The sanitizer only produces valid hostnames (1 to 63 lower-case letters,
    digits and hyphens, no hyphen at either end), whatever text it is given, and
    the valid hostnames are exactly the names it leaves unchanged. *)
Theorem sanitize_hostname_sound (raw : string) :
  (forall h, sanitize_hostname raw = Some h -> is_valid_hostname h = true)
  /\ (is_valid_hostname raw = true <-> sanitize_hostname raw = Some raw).
Proof.
  split; [apply sanitize_valid|]. split; [|apply sanitize_valid]. intros (Hne & Hl & Hs & He & Hc)%is_valid_hostname_iff.
  unfold sanitize_hostname, trim_matches. rewrite split_on_nosep by by apply hostname_char_no_dot.
  cbn [head default]. rewrite clean_id by done.
  rewrite trim_start_matches_id, (trim_end_matches_id _ raw), string_take_id, trim_end_matches_id by done.
  by destruct raw.
Qed.

(** ** Clashes *)
Definition numbered (desired : string) (i : Z) : string := desired +:+ "-" +:+ dec i.

Lemma sapp_inj_l (a b c : string) : a +:+ b = a +:+ c -> b = c.
Proof. induction a as [|x a IH]; cbn; [done|]. intros [= E]. auto. Qed.

Lemma numbered_inj desired i j : 0 <= i -> 0 <= j -> numbered desired i = numbered desired j -> i = j.
Proof. unfold numbered. intros Hi Hj E. do 2 apply sapp_inj_l in E. by apply dec_inj. Qed.

Lemma numbered_desired desired i : numbered desired i <> desired.
Proof.
  intros E. apply (f_equal String.length) in E. unfold numbered in E. rewrite !sapp_length in E. cbn in E. lia.
Qed.

(** [n] numbered names and the name itself among [taken] need [n + 1] places. *)
Lemma numbered_taken desired taken n :
  desired ∈ taken -> (forall j, 1 <= j < 1 + Z.of_nat n -> numbered desired j ∈ taken) ->
  (n < length taken)%nat.
Proof.
  intros Hd Hn. set (l := desired :: (numbered desired <$> seqZ 1 (Z.of_nat n))).
  assert (NoDup l) as Hnd.
  { apply NoDup_cons. split.
    - intros (j & E & _)%list_elem_of_fmap. by apply (numbered_desired desired j).
    - apply NoDup_fmap_2_strong; [|apply NoDup_seqZ]. intros i j Hi Hj.
      apply elem_of_seqZ in Hi, Hj. apply numbered_inj; lia. }
  assert (l ⊆+ taken) as Hsub.
  { apply NoDup_submseteq; [done|]. intros x [->|(j & -> & Hj)%list_elem_of_fmap]%elem_of_cons; [done|].
    apply Hn. apply elem_of_seqZ in Hj. lia. }
  apply submseteq_length in Hsub. unfold l in Hsub. cbn [length] in Hsub.
  rewrite length_fmap, length_seqZ in Hsub. lia.
Qed.

Lemma collision_loop desired taken :
  desired ∈ taken -> Z.of_nat (length taken) < 2 ^ 32 ->
  exists i, loop_pow2 32 (collision_step desired taken) 1 = inl (numbered desired i)
    /\ 1 <= i <= Z.of_nat (length taken) /\ (numbered desired i ∉ taken)
    /\ forall j, 1 <= j < i -> numbered desired j ∈ taken.
Proof.
  intros Hd Hlen. rewrite loop_pow2_steps.
  set (g := fun i => if contains taken (numbered desired i) then None else Some (numbered desired i)).
  assert (forall j, g j = None -> numbered desired j ∈ taken) as Hg.
  { intros j. unfold g, contains. by case_bool_decide. }
  assert (exists m, (2 ^ 32 = (length taken) + m)%nat) as [m ->].
  { exists (2 ^ 32 - length taken)%nat. assert (Z.of_nat (2 ^ 32) = 2 ^ 32) by (by rewrite Nat2Z.inj_pow). lia. }
  rewrite loop_steps_add.
  pose proof (loop_steps_first (length taken) (collision_step desired taken) g 1) as Hf.
  destruct (loop_steps (length taken) (collision_step desired taken) 1) as [s|].
  - destruct Hf as (i & Hi & Hs & Hbefore).
    { intros j Hj. unfold g, collision_step. fold (numbered desired j).
      destruct (contains taken (numbered desired j)); [|done].
      eexists. split; [done|]. intros Hj'. apply wrap_small. unfold in_width. lia. }
    unfold g, contains in Hs. case_bool_decide as Hin; [done|]. injection Hs as <-.
    exists i. split; [done|]. split; [lia|]. split; [done|]. intros j Hj. by apply Hg, Hbefore.
  - exfalso. enough (length taken < length taken)%nat by lia. apply (numbered_taken desired taken); [done|].
    intros j Hj. apply Hg, Hf; [|lia]. intros k Hk. unfold g, collision_step. fold (numbered desired k).
    destruct (contains taken (numbered desired k)); [|done].
    eexists. split; [done|]. intros Hk'. apply wrap_small. unfold in_width. lia.
Qed.

Lemma admission_hostname_returns desired taken authoritative :
  Z.of_nat (length taken) < 2 ^ 32 -> is_Some (admission_hostname desired taken authoritative).
Proof.
  intros Hlen. unfold admission_hostname, resolve_collision, contains.
  destruct authoritative; case_bool_decide as Hd; cbn [negb]; eauto.
  destruct (collision_loop desired taken Hd Hlen) as (i & -> & _). eauto.
Qed.

(** With fewer than 2^32 names taken, admission ends for every joiner and
    never hands out a name another member holds: a free name is kept, a name bound
    by an invite is refused when it is taken, and any other taken name gets the
    smallest number that makes it free, at most the number of names taken. *)
Theorem admission_hostname_spec (desired : string) (taken : list string) (authoritative : bool) :
  Z.of_nat (length taken) < 2 ^ 32 ->
  exists r, admission_hostname desired taken authoritative = Some r /\
  match r with
  | Ok name =>
      (name ∉ taken)
      /\ (desired ∉ taken -> name = desired)
      /\ (desired ∈ taken -> authoritative = false /\ exists i,
            1 <= i <= Z.of_nat (length taken) /\ name = numbered desired i
            /\ forall j, 1 <= j < i -> numbered desired j ∈ taken)
  | Err name => authoritative = true /\ name = desired /\ desired ∈ taken
  end.
Proof.
  intros Hlen. unfold admission_hostname, resolve_collision, contains. case_bool_decide as Hd.
  - destruct authoritative; [by exists (Err desired)|]. cbn [negb].
    destruct (collision_loop desired taken Hd Hlen) as (i & -> & Hi & Hn & Hb).
    exists (Ok (numbered desired i)). split; [done|]. split; [done|]. split; [done|]. intros _.
    split; [done|]. by exists i.
  - exists (Ok desired). destruct authoritative; (split; [done|]); done.
Qed.

Lemma admission_hostname_spec_witness :
  admission_hostname "nas" ["nas"; "pi"; "nas-1"] false = Some (Ok "nas-2") /\ ~ "nas-2" ∈ ["nas"; "pi"; "nas-1"].
Proof.
  destruct (admission_hostname_spec "nas" ["nas"; "pi"; "nas-1"] false) as (r & E & H); [by_decide|].
  assert (r = Ok "nas-2") as ->.
  { assert (admission_hostname "nas" ["nas"; "pi"; "nas-1"] false = Some (Ok "nas-2")) as E' by (vm_compute; reflexivity).
    rewrite E in E'. by injection E'. }
  split; [exact E|exact (proj1 H)].
Defined.

(** Numbering a taken name can leave the set of valid hostnames: a clash on a
    name of 63 characters is resolved with one of 65. *)
Theorem numbered_name_too_long :
  let desired := utf8 (replicate 63 97) in
  is_valid_hostname desired = true
  /\ exists name, resolve_collision desired [desired] = Some name /\ is_valid_hostname name = false.
Proof. split; [vm_compute; reflexivity|]. eexists. split; vm_compute; reflexivity. Qed.

(** ** Generated names *)
Definition word_ok (w : string) : bool := negb (is_empty w) && all_chars is_ascii_lowercase w.

Lemma words_ok : forallb word_ok (ADJECTIVES ++ NOUNS_A ++ NOUNS_B) = true.
Proof. vm_compute. reflexivity. Qed.

Lemma lowercase_no_hyphen w : all_chars is_ascii_lowercase w = true -> all_chars (not_char "-") w = true.
Proof.
  apply all_chars_impl. intros c Hc.
  destruct c as [[] [] [] [] [] [] [] []]; vm_compute in Hc; try discriminate Hc; reflexivity.
Qed.

Lemma three_words_valid a b c :
  word_ok a = true -> word_ok b = true -> word_ok c = true ->
  is_valid_name (a +:+ "-" +:+ b +:+ "-" +:+ c) = true.
Proof.
  intros Ha Hb Hc. unfold is_valid_name.
  assert (forall w, word_ok w = true -> all_chars (not_char "-") w = true) as Hw.
  { intros w [_ H]%andb_true_iff. by apply lowercase_no_hyphen. }
  change ("-" +:+ b +:+ "-" +:+ c) with (String "-" (b +:+ String "-" c)).
  rewrite split_on_app, split_on_app, split_on_nosep by auto.
  cbn [length forallb Nat.eqb negb]. fold (word_ok a) (word_ok b) (word_ok c). by rewrite Ha, Hb, Hc.
Qed.

(** Every generated network name is a valid one, and every generated hostname
    is a valid hostname, whatever the machine calls itself. *)
Theorem generated_names_valid (r1 r2 r3 : nat) (os : option (list Z)) :
  (forall name, generate_name r1 r2 r3 = Some name -> is_valid_name name = true)
  /\ (forall h, generate_hostname os r3 = Some h -> is_valid_hostname h = true)
  /\ ((r1 < length ADJECTIVES)%nat -> (r2 < length NOUNS_A)%nat -> (r3 < length NOUNS_B)%nat ->
      is_Some (generate_name r1 r2 r3) /\ is_Some (generate_hostname os r3)).
Proof.
  pose proof words_ok as Hw. rewrite forallb_forall in Hw.
  assert (forall (l : list string) i w, l !! i = Some w -> In w l) as Hin.
  { intros l i w H. by apply list_elem_of_In, (list_elem_of_lookup_2 _ i). }
  split; [|split].
  - intros name. unfold generate_name. destruct (ADJECTIVES !! r1) as [a|] eqn:Ea; [|done].
    destruct (NOUNS_A !! r2) as [b|] eqn:Eb; [|done]. destruct (NOUNS_B !! r3) as [c|] eqn:Ec; [|done].
    cbn. intros [= <-]. apply three_words_valid; apply Hw; rewrite !in_app_iff; eauto.
  - intros h. unfold generate_hostname, machine_hostname. destruct (os ≫= _) as [h'|] eqn:E.
    + intros [= <-]. destruct os as [buf|]; [|done]. cbn in E. destruct (utf8_valid _); [|done].
      by apply (sanitize_valid (utf8 (before_nul buf))).
    + intros Hh. assert (forallb is_valid_hostname NOUNS_B = true) as Hn by (vm_compute; reflexivity).
      rewrite forallb_forall in Hn. eauto.
  - intros H1 H2 H3. apply lookup_lt_is_Some in H1 as [a Ha], H2 as [b Hb], H3 as [c Hc].
    unfold generate_name, generate_hostname. rewrite Ha, Hb, Hc. cbn. split; [by eexists|].
    destruct (machine_hostname os); by eexists.
Qed.
