(* ===== verification/Codecs.v ===== *)
(** * Text and binary codecs of other crates

    The interfaces of the [bs58] and [rmp-serde] crates as the program uses
    them: an encoder, a decoder and the laws their documentation gives.  The
    theorems of the components are proved against the classes; [DemoCodecs]
    holds a concrete instance of each, so that the laws are seen to be
    satisfiable. *)

From S2P Require Import Prelude Externs.

(** ** Base 58 *)
Definition base58_alphabet : string := "123456789ABCDEFGHJKLMNPQRSTUVWXYZabcdefghijkmnopqrstuvwxyz".

Fixpoint string_mem (c : ascii) (s : string) : bool :=
  match s with
  | EmptyString => false
  | String d s' => bool_decide (c = d) || string_mem c s'
  end.

Definition base58_char (c : ascii) : bool := string_mem c base58_alphabet.

Class Bs58 := {
  (** [bs58::encode(bytes).into_string()]. *)
  bs58_encode : list Z -> string;
  (** [bs58::decode(text).into_vec()]. *)
  bs58_decode : string -> option (list Z);
}.

Class Bs58Laws `{Bs58} : Prop := {
  bs58_roundtrip : forall l, bytes_ok l -> bs58_decode (bs58_encode l) = Some l;
  bs58_decode_empty : bs58_decode EmptyString = Some [];
  bs58_decode_bytes : forall s l, bs58_decode s = Some l -> bytes_ok l;
  bs58_encode_alphabet : forall l, bytes_ok l -> all_chars base58_char (bs58_encode l) = true;
  (** No text is longer than the number it writes needs: [t] characters need
      more than [t - 1] digits of base 58. *)
  bs58_encode_length : forall l, bytes_ok l -> l <> [] ->
    58 ^ (Z.of_nat (String.length (bs58_encode l)) - 1) <= 256 ^ Z.of_nat (length l);
}.

(** ** Positional notation *)
Section Digits.
Context (b : Z) (Hbase : 2 <= b).

Definition undigits (l : list Z) : Z := fold_left (fun acc d => acc * b + d) l 0.

Fixpoint digits (fuel : nat) (v : Z) (acc : list Z) : list Z :=
  match fuel with
  | O => acc
  | S f => if v <=? 0 then acc else digits f (v / b) (v mod b :: acc)
  end.

Definition digit_ok (d : Z) : Prop := 0 <= d < b.

(** No leading zero. *)
Definition normal (l : list Z) : Prop := match l with [] => True | d :: _ => d <> 0 end.

Lemma undigits_app l d : undigits (l ++ [d]) = undigits l * b + d.
Proof. unfold undigits. by rewrite fold_left_app. Qed.

Lemma undigits_nonneg l : Forall digit_ok l -> 0 <= undigits l.
Proof.
  induction l as [|d l IH] using rev_ind; [done|]. intros [Hl Hd]%Forall_app.
  rewrite Forall_singleton in Hd. rewrite undigits_app. specialize (IH Hl).
  unfold digit_ok in Hd. nia.
Qed.

Lemma normal_app l d : normal (l ++ [d]) -> l <> [] -> normal l.
Proof. by destruct l. Qed.

Lemma undigits_pos l : Forall digit_ok l -> normal l -> l <> [] -> 0 < undigits l.
Proof.
  induction l as [|d l IH] using rev_ind; [done|]. intros [Hl Hd]%Forall_app Hn _.
  rewrite Forall_singleton in Hd. rewrite undigits_app. unfold digit_ok in Hd.
  destruct l as [|e l'].
  - unfold undigits. simpl in *. lia.
  - specialize (IH Hl (normal_app _ _ Hn ltac:(done)) ltac:(done)). nia.
Qed.

Lemma digits_undigits l fuel acc :
  Forall digit_ok l -> normal l -> (length l <= fuel)%nat ->
  digits fuel (undigits l) acc = l ++ acc.
Proof.
  revert fuel acc. induction l as [|d l IH] using rev_ind; intros fuel acc Hok Hn Hf.
  - by destruct fuel.
  - pose proof (undigits_pos _ Hok Hn ltac:(by destruct l)) as Hpos.
    apply Forall_app in Hok as [Hl Hd]. rewrite Forall_singleton in Hd. unfold digit_ok in Hd.
    rewrite length_app in Hf. simpl in Hf. destruct fuel as [|fuel]; [lia|]. simpl.
    rewrite (proj2 (Z.leb_gt _ 0)) by done. rewrite undigits_app.
    rewrite Z.div_add_l, (Z.div_small d), Z.add_0_r by lia.
    rewrite (Z.add_comm _ d), Z.mod_add, Z.mod_small by lia.
    rewrite <- app_assoc. destruct l as [|e l']; [by destruct fuel|].
    apply IH; [done| |lia]. by apply normal_app in Hn.
Qed.

Lemma digits_acc fuel v acc : digits fuel v acc = digits fuel v [] ++ acc.
Proof.
  revert v acc. induction fuel as [|f IH]; intros v acc; simpl; [done|].
  destruct (v <=? 0); [done|]. rewrite IH, (IH _ [v mod b]), <- app_assoc. done.
Qed.

Lemma digits_spec fuel v :
  0 <= v < b ^ Z.of_nat fuel ->
  let ds := digits fuel v [] in
  undigits ds = v /\ Forall digit_ok ds /\ normal ds
  /\ (v = 0 /\ ds = []
      \/ ds <> [] /\ b ^ (Z.of_nat (length ds) - 1) <= v).
Proof.
  assert (undigits [] = 0 /\ Forall digit_ok [] /\ normal [] /\
    (0 = 0 /\ @nil Z = [] \/ @nil Z <> [] /\ b ^ (Z.of_nat 0 - 1) <= 0)) as H0.
  { split; [done|]. split; [constructor|]. split; [done|by left]. }
  revert v. induction fuel as [|f IH]; intros v Hv; cbn [digits].
  { by assert (v = 0) as -> by (simpl in Hv; lia). }
  rewrite Nat2Z.inj_succ, Z.pow_succ_r in Hv by lia.
  destruct (Z.leb_spec v 0); [by assert (v = 0) as -> by lia|]. clear H0.
  rewrite digits_acc. destruct (IH (v / b)) as (Hun & Hok & Hn & Hlen).
  { split; [apply Z.div_pos; lia|]. apply Z.div_lt_upper_bound; lia. }
  pose proof (Z.mod_pos_bound v b ltac:(lia)) as Hm. pose proof (Z.div_mod v b ltac:(lia)) as E.
  split; [rewrite undigits_app, Hun; lia|].
  split; [apply Forall_app; split; [done|]; by constructor|].
  destruct Hlen as [[H0 ->]|[Hne Hlen]].
  - rewrite H0 in E. simpl. split; [lia|]. right. split; [done|lia].
  - split; [by destruct (digits f (v / b) [])|]. right. split; [by destruct (digits f (v / b) [])|].
    rewrite length_app. simpl. destruct (digits f (v / b) []) as [|d ds]; [done|].
    simpl in *. replace (Z.of_nat (S (length ds + 1)) - 1) with (Z.succ (Z.of_nat (S (length ds)) - 1)) by lia.
    rewrite Z.pow_succ_r by lia. nia.
Qed.
End Digits.

(** ** Sample instance *)
Module DemoCodecs.

(** Leading zero bytes are written as leading [1] characters, the rest as a
    number in base 58. *)
Fixpoint split_zeros (l : list Z) : nat * list Z :=
  match l with
  | d :: l' => if d =? 0 then let '(n, r) := split_zeros l' in (S n, r) else (O, l)
  | [] => (O, [])
  end.

Lemma split_zeros_spec l n r :
  split_zeros l = (n, r) -> l = replicate n 0 ++ r /\ normal r.
Proof.
  revert n r. induction l as [|d l IH]; intros n r; simpl; [by intros [= <- <-]|].
  destruct (Z.eqb_spec d 0) as [->|Hd].
  - destruct (split_zeros l) as [n' r'] eqn:E. intros [= <- <-].
    destruct (IH n' r' eq_refl) as [-> Hr]. done.
  - by intros [= <- <-].
Qed.

Lemma split_zeros_app n r : normal r -> split_zeros (replicate n 0 ++ r) = (n, r).
Proof.
  intros Hr. induction n as [|n IH]; simpl; [|by rewrite IH].
  destruct r as [|d r]; [done|]. simpl in *. by rewrite (proj2 (Z.eqb_neq d 0)).
Qed.

(** The radix change, on digit lists. *)
Definition convert (b1 b2 : Z) (fuel : nat) (l : list Z) : list Z :=
  let '(n, r) := split_zeros l in replicate n 0 ++ digits b2 fuel (undigits b1 r) [].

Definition char58 (d : Z) : ascii := default "1"%char (String.get (Z.to_nat d) base58_alphabet).

Fixpoint index_of (c : ascii) (s : string) : option Z :=
  match s with
  | EmptyString => None
  | String d s' => if bool_decide (c = d) then Some 0 else Z.succ <$> index_of c s'
  end.

Fixpoint text58 (l : list Z) : string :=
  match l with [] => EmptyString | d :: l' => String (char58 d) (text58 l') end.

Fixpoint untext58 (s : string) : option (list Z) :=
  match s with
  | EmptyString => Some []
  | String c s' => d ← index_of c base58_alphabet; l ← untext58 s'; Some (d :: l)
  end.

Lemma undigits_bound b l :
  2 <= b -> Forall (digit_ok b) l -> undigits b l < b ^ Z.of_nat (length l).
Proof.
  intros Hb. induction l as [|d l IH] using rev_ind; [done|]. intros [Hl Hd]%Forall_app.
  rewrite Forall_singleton in Hd. unfold digit_ok in Hd. rewrite undigits_app, length_app. simpl.
  rewrite Nat2Z.inj_add, Z.pow_add_r by lia. specialize (IH Hl).
  change (Z.of_nat 1) with 1. rewrite Z.pow_1_r. nia.
Qed.

Lemma convert_back b1 b2 f1 f2 l :
  2 <= b1 -> 2 <= b2 -> Forall (digit_ok b1) l ->
  b1 ^ Z.of_nat (length l) <= b2 ^ Z.of_nat f2 -> (length l <= f1)%nat ->
  convert b2 b1 f1 (convert b1 b2 f2 l) = l.
Proof.
  intros Hb1 Hb2 Hl Hf2 Hf1. unfold convert at 2.
  destruct (split_zeros l) as [n r] eqn:E. apply split_zeros_spec in E as [-> Hr].
  apply Forall_app in Hl as [_ Hrok]. rewrite length_app, length_replicate in *.
  assert (0 <= undigits b1 r < b2 ^ Z.of_nat f2) as Hv.
  { split; [by apply undigits_nonneg|]. pose proof (undigits_bound b1 r Hb1 Hrok).
    assert (b1 ^ Z.of_nat (length r) <= b1 ^ Z.of_nat (n + length r)) by (apply Z.pow_le_mono_r; lia).
    lia. }
  destruct (digits_spec b2 Hb2 f2 _ Hv) as (Hun & _ & Hn & _).
  unfold convert. rewrite split_zeros_app by done. f_equal. rewrite Hun.
  rewrite digits_undigits by (done || lia). apply app_nil_r.
Qed.

Lemma convert_digits b1 b2 fuel l :
  2 <= b1 -> 2 <= b2 -> Forall (digit_ok b1) l -> b1 ^ Z.of_nat (length l) <= b2 ^ Z.of_nat fuel ->
  Forall (digit_ok b2) (convert b1 b2 fuel l)
  /\ (l <> [] -> b2 <= b1 ->
      b2 ^ (Z.of_nat (length (convert b1 b2 fuel l)) - 1) <= b1 ^ Z.of_nat (length l))
  /\ (b2 <= b1 -> (length l <= length (convert b1 b2 fuel l))%nat).
Proof.
  intros Hb1 Hb2 Hl Hf. unfold convert.
  destruct (split_zeros l) as [n r] eqn:E. apply split_zeros_spec in E as [-> Hr].
  apply Forall_app in Hl as [_ Hrok]. rewrite !length_app, length_replicate in *.
  pose proof (undigits_bound b1 r Hb1 Hrok) as Hlt. pose proof (undigits_nonneg b1 Hb1 r Hrok) as Hge.
  assert (b1 ^ Z.of_nat (length r) <= b1 ^ Z.of_nat (n + length r)) by (apply Z.pow_le_mono_r; lia).
  destruct (digits_spec b2 Hb2 fuel (undigits b1 r)) as (Hun & Hok & Hn & Hlen); [lia|].
  set (ds := digits b2 fuel (undigits b1 r) []) in *.
  split; [apply Forall_app; split; [|done]; apply Forall_replicate; unfold digit_ok; lia|]. split.
  - intros Hne Hle. rewrite Nat2Z.inj_add. destruct Hlen as [[_ Hd]|[Hd Hlen]].
    + rewrite Hd. simpl length. transitivity (b1 ^ Z.of_nat n); [|apply Z.pow_le_mono_r; lia].
      transitivity (b2 ^ Z.of_nat n); [apply Z.pow_le_mono_r; lia|apply Z.pow_le_mono_l; lia].
    + rewrite <- Z.add_sub_assoc, Z.pow_add_r by (destruct ds; simpl; done || lia).
      rewrite Nat2Z.inj_add, Z.pow_add_r by lia.
      apply Z.mul_le_mono_nonneg; [lia|apply Z.pow_le_mono_l; lia|lia|lia].
  - intros Hle. apply Nat.add_le_mono_l. destruct r as [|d r']; [simpl; lia|].
    destruct (digits_spec b1 Hb1 (length (d :: r')) (undigits b1 (d :: r'))) as (_ & _ & _ & Hlow); [lia|].
    rewrite digits_undigits, app_nil_r in Hlow by (done || lia).
    destruct Hlow as [[_ ?]|[_ Hlow]]; [done|].
    pose proof (undigits_bound b2 ds Hb2 Hok) as Hup. rewrite Hun in Hup.
    destruct (decide (length (d :: r') <= length ds)%nat) as [|Hgt]; [done|exfalso].
    assert (b2 ^ Z.of_nat (length ds) <= b1 ^ (Z.of_nat (length (d :: r')) - 1)); [|lia].
    transitivity (b1 ^ Z.of_nat (length ds)); [apply Z.pow_le_mono_l; lia|].
    apply Z.pow_le_mono_r; lia.
Qed.

Lemma text58_length l : String.length (text58 l) = length l.
Proof. induction l; simpl; congruence. Qed.

Lemma get_mem n s c : String.get n s = Some c -> string_mem c s = true.
Proof.
  revert n. induction s as [|d s IH]; intros [|n]; simpl; [done..| |].
  - intros [= ->]. by rewrite bool_decide_eq_true_2.
  - intros Hg. rewrite (IH n Hg). apply orb_true_r.
Qed.

Lemma text58_alphabet l : all_chars base58_char (text58 l) = true.
Proof.
  induction l as [|d l IH]; simpl; [done|]. rewrite IH, andb_true_r. unfold char58, base58_char.
  destruct (String.get (Z.to_nat d) base58_alphabet) as [c|] eqn:E; [by apply get_mem in E|done].
Qed.

Lemma index_char58 d : digit_ok 58 d -> index_of (char58 d) base58_alphabet = Some d.
Proof.
  intros Hd. apply (bool_decide_eq_true_1 (index_of (char58 d) base58_alphabet = Some d)).
  revert d Hd. assert (forallb (fun d => bool_decide (index_of (char58 d) base58_alphabet = Some d))
    (seqZ 0 58) = true) as Hall by (vm_compute; reflexivity).
  rewrite forallb_forall in Hall. intros d Hd. apply Hall, list_elem_of_In, elem_of_seqZ.
  unfold digit_ok in Hd. lia.
Qed.

Lemma untext58_text58 l : Forall (digit_ok 58) l -> untext58 (text58 l) = Some l.
Proof.
  induction 1 as [|d l Hd _ IH]; cbn [untext58 text58]; [done|].
  rewrite index_char58 by done. cbn [mbind option_bind]. by rewrite IH.
Qed.

Lemma index_of_bound c s d : index_of c s = Some d -> 0 <= d < Z.of_nat (String.length s).
Proof.
  revert d. induction s as [|e s IH]; intros d; simpl; [done|]. case_bool_decide.
  - intros [= <-]. lia.
  - intros (d' & Hd' & ->)%fmap_Some. apply IH in Hd'. lia.
Qed.

Lemma untext58_ok s l : untext58 s = Some l -> Forall (digit_ok 58) l.
Proof.
  revert l. induction s as [|c s IH]; intros l; cbn [untext58]; [intros [= <-]; constructor|].
  intros (d & Hd & (l' & Hl' & [= <-])%bind_Some)%bind_Some. constructor; [|by apply IH].
  by apply index_of_bound in Hd.
Qed.

#[export] Instance base58 : Bs58 := {
  bs58_encode l := text58 (convert 256 58 (2 * length l) l);
  bs58_decode s := l ← untext58 s; Some (convert 58 256 (length l) l);
}.

Lemma pow_256_58 n : 256 ^ Z.of_nat n <= 58 ^ Z.of_nat (2 * n).
Proof.
  rewrite Nat2Z.inj_mul, Z.pow_mul_r by lia. apply Z.pow_le_mono_l. lia.
Qed.

Lemma pow_58_256 n : 58 ^ Z.of_nat n <= 256 ^ Z.of_nat n.
Proof. apply Z.pow_le_mono_l. lia. Qed.

#[export] Instance base58_laws : Bs58Laws.
Proof.
  split; cbn [bs58_encode bs58_decode base58].
  - intros l Hl. destruct (convert_digits 256 58 (2 * length l) l) as (Hok & _ & Hlen);
      [lia|lia|done|apply pow_256_58|].
    rewrite untext58_text58 by done. cbn [mbind option_bind]. f_equal.
    apply convert_back; [lia|lia|done|apply pow_256_58|]. apply Hlen. lia.
  - done.
  - intros s l (ds & Hds & [= <-])%bind_Some. apply untext58_ok in Hds.
    apply convert_digits; [lia|lia|done|apply pow_58_256].
  - intros l _. apply text58_alphabet.
  - intros l Hl Hne. rewrite text58_length.
    apply convert_digits; [lia|lia|done|apply pow_256_58|done|lia].
Qed.

End DemoCodecs.
