(* ===== verification/Invite.v ===== *)
(** * Invite codes and invite records (src/src/invite.rs, src/tetron-proto/src/invite.rs)

    The text form of an invite (base 58 of network key, secret and a checksum),
    its decoder, the reader that takes one code from a stream, and the two kinds
    of record a secret's hash is filed under in the signed group blob. *)

From S2P Require Import Prelude Externs Codecs.

(** ** Constants *)
Definition SECRET_LEN : nat := 16.
Definition CHECKSUM_LEN : nat := 4.
Definition PAYLOAD_LEN : nat := 32 + SECRET_LEN.
Definition ENCODED_LEN : nat := PAYLOAD_LEN + CHECKSUM_LEN.

(** [(ENCODED_LEN * 1366).div_ceil(1000)]. *)
Definition INVITE_CODE_MAX_CHARS : nat := Z.to_nat ((Z.of_nat ENCODED_LEN * 1366 + 999) / 1000).

(** ** Records *)
Record ReusableKey := mkReusableKey {
  rk_id : string;
  rk_created : Z;
  rk_expires : Z;
  rk_revoked : bool;
}.

Record InviteEntry := mkInviteEntry {
  ie_id : string;
  ie_created : Z;
  ie_expires : Z;
  ie_revoked : bool;
}.

#[global] Instance ReusableKey_eq_dec : EqDecision ReusableKey.
Proof. solve_decision. Defined.
#[global] Instance InviteEntry_eq_dec : EqDecision InviteEntry.
Proof. solve_decision. Defined.

Section Records.
Context `{Blake3}.

(** [blake3::hash(secret).to_hex().to_string()], the key of both tables. *)
Definition secret_hash (secret : list Z) : string := to_hex (blake3_hash secret).

Definition reusable_from_secret (secret : list Z) (created ttl_secs : Z) : string * ReusableKey :=
  let hash := secret_hash secret in
  let id := String.substring 0 8 hash in
  (hash, mkReusableKey id created (saturating_add 64 created ttl_secs) false).

Definition invite_from_secret (secret : list Z) (created ttl_secs : Z) : string * InviteEntry :=
  let hash := secret_hash secret in
  let id := String.substring 0 8 hash in
  (hash, mkInviteEntry id created
           (if ttl_secs =? 0 then 0 else saturating_add 64 created ttl_secs) false).

End Records.

(** ** The code *)
Inductive InviteError :=
| InvalidCode
| ChecksumMismatch
| BadLength (got : nat)
| InvalidNetworkKey.

Section Code.
Context `{IrohKeys, Blake3, Bs58}.

Definition encode_invite_code (network_pubkey : EndpointId) (secret : list Z) : string :=
  let bytes := (id_as_bytes network_pubkey ++ secret)%list in
  bs58_encode (bytes ++ take CHECKSUM_LEN (blake3_hash bytes)).

Definition is_bare_room_id (s : string) : bool :=
  match bs58_decode s with
  | Some v => (length v =? 32)%nat
  | None => false
  end.

Definition invite_payload (bytes : list Z) : Result (list Z) InviteError :=
  if (length bytes =? ENCODED_LEN)%nat then
    let payload := take PAYLOAD_LEN bytes in
    let csum := drop PAYLOAD_LEN bytes in
    if bool_decide (csum = take CHECKSUM_LEN (blake3_hash payload)) then Ok payload
    else Err ChecksumMismatch
  else if (length bytes =? PAYLOAD_LEN)%nat then Ok bytes
  else Err (BadLength (length bytes)).

Definition decode_invite_code (code : string) : Result (EndpointId * list Z) InviteError :=
  match bs58_decode code with
  | None => Err InvalidCode
  | Some bytes =>
      payload <-? invite_payload bytes;
      let net := take 32 payload in
      let secret := drop 32 payload in
      match id_from_bytes net with
      | None => Err InvalidNetworkKey
      | Some network_pubkey => Ok (network_pubkey, secret)
      end
  end.

End Code.

(** ** Reading a code from a stream *)

(** What a reader delivers: bytes, then the end of the stream or an error. *)
Record Reader := mkReader { r_bytes : list Z; r_fails : bool }.

(** [reader.take(n).read_to_end(&mut buf)]: an error past the limit is not seen. *)
Definition read_take (n : nat) (r : Reader) : option (list Z) :=
  if (n <=? length (r_bytes r))%nat then Some (take n (r_bytes r))
  else if r_fails r then None else Some (r_bytes r).

Inductive ReadError :=
| ReadFailed
| TooLarge
| NotText
| NoInvite
| MoreThanOne
| LineTooLong.

Definition is_newline (c : ascii) : bool :=
  (byte_of_ascii c =? 10) || (byte_of_ascii c =? 13).

Definition nonblank_lines (text : string) : list string :=
  List.filter (fun l => negb (String.eqb l EmptyString)) (map trim (split_by is_newline text)).

Definition read_invite (reader : Reader) : Result string ReadError :=
  let cap := (INVITE_CODE_MAX_CHARS + 64)%nat in
  match read_take (cap + 1) reader with
  | None => Err ReadFailed
  | Some buf =>
      if (cap <? length buf)%nat then Err TooLarge
      else if negb (utf8_valid buf) then Err NotText
      else match nonblank_lines (utf8 buf) with
      | [] => Err NoInvite
      | code :: rest =>
          match rest with
          | _ :: _ => Err MoreThanOne
          | [] => if (String.length code <=? INVITE_CODE_MAX_CHARS)%nat then Ok code
                  else Err LineTooLong
          end
      end
  end.

(** ** Lemmas *)
Lemma nonblank_lines_blank b s :
  all_chars ascii_blank b = true -> nonblank_lines (b +:+ s) = nonblank_lines s.
Proof.
  induction b as [|c b IH]; simpl; [done|]. intros [Hc Hb]%andb_true_iff.
  rewrite <- (IH Hb). generalize (b +:+ s) as t. intros t. unfold nonblank_lines. simpl.
  destruct (is_newline c); [done|]. destruct (split_by is_newline t) as [|h r] eqn:E.
  - destruct t; simpl in E; [done|]. by repeat case_match.
  - simpl. change (String c h) with (String c EmptyString +:+ h).
    rewrite trim_blanks_l; [done|]. simpl. by rewrite Hc.
Qed.

Lemma nonblank_lines_code code w post :
  code <> EmptyString -> all_chars trim_safe code = true ->
  all_chars (fun c => ascii_blank c && negb (is_newline c)) w = true ->
  all_chars ascii_blank post = true -> nonblank_lines (code +:+ w +:+ post) = [code].
Proof.
  intros Hne Hcode Hw. revert w Hw.
  assert (forall w, all_chars (fun c => ascii_blank c && negb (is_newline c)) w = true ->
    all_chars (fun c => negb (is_newline c)) (code +:+ w) = true /\ trim (code +:+ w) = code) as Hline.
  { intros w Hw. split.
    - rewrite all_chars_app. apply andb_true_iff. split; (eapply all_chars_impl; [|eassumption]).
      + intros c. unfold trim_safe, is_newline. intros H. btac. rewrite negb_true_iff, orb_false_iff.
        split; apply Z.eqb_neq; lia.
      + by intros c [_ Hn]%andb_true_iff.
    - apply trim_pad; [done|]. eapply all_chars_impl; [|exact Hw]. by intros c [Hc _]%andb_true_iff. }
  assert (forall r, List.filter (fun l => negb (String.eqb l EmptyString)) (code :: r)
    = code :: List.filter (fun l => negb (String.eqb l EmptyString)) r) as Hkeep.
  { intros r. simpl. by destruct (String.eqb_spec code EmptyString). }
  induction post as [|c post IH]; intros w Hw Hpost.
  - rewrite sapp_nil_r. destruct (Hline w Hw) as [Hnl Ht]. unfold nonblank_lines.
    rewrite split_by_nosep by done. cbn [map]. by rewrite Ht, Hkeep.
  - simpl in Hpost. apply andb_true_iff in Hpost as [Hc Hpost].
    destruct (is_newline c) eqn:Hn.
    + rewrite sapp_assoc. destruct (Hline w Hw) as [Hnl Ht]. unfold nonblank_lines.
      rewrite split_by_app by done. cbn [map]. rewrite Ht, Hkeep. f_equal.
      fold (nonblank_lines post). rewrite <- (sapp_nil_r post). by rewrite nonblank_lines_blank.
    + specialize (IH (w +:+ String c EmptyString)). rewrite <- sapp_assoc in IH. apply IH; [|done].
      rewrite all_chars_app, Hw. simpl. by rewrite Hc, Hn.
Qed.

Lemma base58_char_trim_safe c : base58_char c = true -> trim_safe c = true.
Proof.
  destruct c as [[] [] [] [] [] [] [] []]; intros Hc; vm_compute in Hc; try discriminate Hc; reflexivity.
Qed.

Section Proofs.
Context `{IrohKeys, !IrohKeysLaws, Blake3, !Blake3Laws, Bs58, !Bs58Laws}.

Lemma id_as_bytes_ok id : bytes_ok (id_as_bytes id).
Proof. apply be_bytes_ok. Qed.

Definition code_bytes (net : EndpointId) (secret : list Z) : list Z :=
  let bytes := (id_as_bytes net ++ secret)%list in bytes ++ take CHECKSUM_LEN (blake3_hash bytes).

Lemma code_bytes_ok net secret : bytes_ok secret -> bytes_ok (code_bytes net secret).
Proof.
  intros Hs. unfold code_bytes, bytes_ok. rewrite !Forall_app. split; [split|].
  - apply id_as_bytes_ok.
  - done.
  - apply Forall_take, blake3_bytes.
Qed.

Lemma payload_length net secret :
  length secret = SECRET_LEN -> length (id_as_bytes net ++ secret) = PAYLOAD_LEN.
Proof. intros Hs. by rewrite length_app, id_as_bytes_length, Hs. Qed.

Lemma code_bytes_length net secret :
  length secret = SECRET_LEN -> length (code_bytes net secret) = ENCODED_LEN.
Proof.
  intros Hs. unfold code_bytes.
  by rewrite length_app, payload_length, length_take, blake3_length by done.
Qed.

Lemma invite_payload_code net secret :
  length secret = SECRET_LEN ->
  invite_payload (code_bytes net secret) = Ok (id_as_bytes net ++ secret)%list.
Proof.
  intros Hs. unfold invite_payload. rewrite code_bytes_length, Nat.eqb_refl by done.
  unfold code_bytes.
  rewrite take_app_length', drop_app_length' by (symmetry; by apply payload_length).
  by rewrite bool_decide_eq_true_2 by done.
Qed.

Lemma decode_encode_code net secret :
  length secret = SECRET_LEN -> bytes_ok secret ->
  decode_invite_code (encode_invite_code net secret) = Ok (net, secret).
Proof.
  intros Hs Hok. unfold decode_invite_code, encode_invite_code. fold (code_bytes net secret).
  rewrite bs58_roundtrip by by apply code_bytes_ok. rewrite invite_payload_code by done.
  cbn [rbind]. rewrite take_app_length', drop_app_length' by (symmetry; apply id_as_bytes_length).
  by rewrite id_from_as_bytes.
Qed.

(** No code is longer than the constant the readers are sized with. *)
Lemma encode_length net secret :
  length secret = SECRET_LEN -> bytes_ok secret ->
  (0 < String.length (encode_invite_code net secret) <= INVITE_CODE_MAX_CHARS)%nat.
Proof.
  intros Hs Hok. unfold encode_invite_code. fold (code_bytes net secret).
  pose proof (code_bytes_ok net secret Hok) as Hb.
  pose proof (code_bytes_length net secret Hs) as Hlen.
  assert (code_bytes net secret <> []) as Hne by (intros E; rewrite E in Hlen; done).
  split.
  - destruct (bs58_encode (code_bytes net secret)) eqn:E; [|simpl; lia].
    pose proof (bs58_roundtrip _ Hb) as Hr. rewrite E, bs58_decode_empty in Hr. congruence.
  - pose proof (bs58_encode_length _ Hb Hne) as Hl. rewrite Hlen in Hl.
    destruct (decide (String.length (bs58_encode (code_bytes net secret)) <= INVITE_CODE_MAX_CHARS)%nat)
      as [|Hgt]; [done|exfalso].
    assert (58 ^ 72 <= 256 ^ Z.of_nat ENCODED_LEN) as Hc; [|by vm_compute in Hc].
    etransitivity; [|exact Hl]. apply Z.pow_le_mono_r; [lia|].
    change INVITE_CODE_MAX_CHARS with 72%nat in Hgt. lia.
Qed.

Lemma encode_chars net secret :
  bytes_ok secret -> all_chars base58_char (encode_invite_code net secret) = true.
Proof. intros Hok. apply bs58_encode_alphabet. by apply (code_bytes_ok net). Qed.

(** The code printed for a network and a 16-byte secret, with any blank lines
    and blanks around it that keep the input within the reader's limit, is read
    back as one invite, is not mistaken for a bare room id, and decodes to the
    same network and secret. *)
Theorem invite_code_read_back (net : EndpointId) (secret : list Z) (pre post : string) :
  length secret = SECRET_LEN -> bytes_ok secret ->
  all_chars ascii_blank pre = true -> all_chars ascii_blank post = true ->
  let code := encode_invite_code net secret in
  (String.length (pre +:+ code +:+ post) <= INVITE_CODE_MAX_CHARS + 64)%nat ->
  read_invite (mkReader (as_bytes (pre +:+ code +:+ post)) false) = Ok code
  /\ is_bare_room_id code = false
  /\ decode_invite_code code = Ok (net, secret).
Proof.
  intros Hs Hok Hpre Hpost code Hlen. split; [|split].
  - unfold read_invite, read_take. cbn [r_bytes r_fails]. rewrite as_bytes_length.
    rewrite (proj2 (Nat.leb_gt _ _)) by lia. rewrite as_bytes_length.
    rewrite (proj2 (Nat.ltb_ge _ _)) by lia. rewrite utf8_valid_ascii, utf8_as_bytes.
    2:{ rewrite !all_chars_app. rewrite !andb_true_iff. split; [|split];
          (eapply all_chars_impl; [|first [exact Hpre|exact (encode_chars net secret Hok)|exact Hpost]]).
        - intros c. unfold ascii_blank. intros [Hc|Hc]%orb_true_iff; btac; apply Z.ltb_lt; lia.
        - intros c Hc%base58_char_trim_safe. unfold trim_safe in Hc. btac. apply Z.ltb_lt. lia.
        - intros c. unfold ascii_blank. intros [Hc|Hc]%orb_true_iff; btac; apply Z.ltb_lt; lia. }
    pose proof (encode_length net secret Hs Hok) as [Hpos Hmax]. fold code in Hpos, Hmax.
    rewrite nonblank_lines_blank by done. pose proof (nonblank_lines_code code EmptyString post) as Hc.
    simpl negb. cbn match. simpl in Hc. rewrite Hc.
    + by rewrite (proj2 (Nat.leb_le _ _) Hmax).
    + intros E. rewrite E in Hpos. simpl in Hpos. lia.
    + eapply all_chars_impl; [|exact (encode_chars net secret Hok)]. exact base58_char_trim_safe.
    + done.
    + done.
  - unfold is_bare_room_id, code, encode_invite_code. fold (code_bytes net secret).
    rewrite bs58_roundtrip by by apply code_bytes_ok. by rewrite code_bytes_length.
  - by apply decode_encode_code.
Qed.

(** Whatever text is decoded, a result comes from exactly two byte forms: the
    48-byte payload, or the payload followed by the first four bytes of its hash;
    the network key is the one whose bytes stand first, and the secret has 16
    bytes. A 52-byte code with any other checksum is refused. *)
Theorem decode_invite_code_sound (code : string) (net : EndpointId) (secret : list Z) :
  decode_invite_code code = Ok (net, secret) ->
  length secret = SECRET_LEN
  /\ (bs58_decode code = Some (id_as_bytes net ++ secret)
      \/ bs58_decode code = Some ((id_as_bytes net ++ secret)
           ++ take CHECKSUM_LEN (blake3_hash (id_as_bytes net ++ secret)))).
Proof.
  unfold decode_invite_code. destruct (bs58_decode code) as [bytes|]; [|done].
  intros (payload & Hp & Hk)%rbind_ok.
  destruct (id_from_bytes (take 32 payload)) as [n|] eqn:E; [|done]. simplify_eq.
  apply id_from_bytes_sound in E. rewrite <- E, take_drop.
  assert (length payload = PAYLOAD_LEN /\ (bytes = payload
    \/ bytes = payload ++ take CHECKSUM_LEN (blake3_hash payload))) as [Hlen Hb].
  { unfold invite_payload in Hp. destruct (Nat.eqb_spec (length bytes) ENCODED_LEN) as [He|].
    - case_bool_decide as Hc; [|done]. simplify_eq. rewrite length_take, He. split; [done|].
      right. rewrite <- Hc. by rewrite take_drop.
    - destruct (Nat.eqb_spec (length bytes) PAYLOAD_LEN); [|done]. simplify_eq. auto. }
  rewrite length_drop, Hlen. split; [done|]. destruct Hb as [->| ->]; auto.
Qed.

End Proofs.

Import Demo DemoCodecs.

Definition sample_secret : list Z := seqZ 1 16.

Lemma invite_code_read_back_witness :
  let code := encode_invite_code (mkId 5) sample_secret in
  read_invite (mkReader (as_bytes (String " " (code +:+ utf8 [13; 10; 10]))) false) = Ok code.
Proof.
  intros code.
  apply (invite_code_read_back (mkId 5) sample_secret " " (utf8 [13; 10; 10]));
    [reflexivity|by_decide|reflexivity|reflexivity|vm_compute; lia].
Defined.

Lemma decode_invite_code_sound_witness :
  let code := encode_invite_code (mkId 5) sample_secret in
  decode_invite_code code = Ok (mkId 5, sample_secret)
  /\ length sample_secret = SECRET_LEN.
Proof.
  intros code.
  assert (decode_invite_code code = Ok (mkId 5, sample_secret)) as E
    by (apply decode_encode_code; [reflexivity|by_decide]).
  split; [exact E|]. exact (proj1 (decode_invite_code_sound code (mkId 5) sample_secret E)).
Defined.
