(* ===== verification/Dht.v ===== *)
(** * The network record (src/src/dht.rs)

    What a coordinator publishes for a network: the hash and generation of the
    group blob, the mesh protocol version and the seed peers, as text strings of a
    packet signed by the network key.  The packet format is that of the pkarr
    library: building one may fail, and reading one gives the strings it was built
    of. *)

From S2P Require Import Prelude Externs.

(** Reading a key and a hash from text. *)
Class RecordText := {
  id_parse : string -> option EndpointId;
  hash_parse : string -> option Hash;
}.

Class RecordTextLaws `{IrohKeys, RecordText} : Prop := {
  id_parse_print : forall id, id_parse (id_to_string id) = Some id;
  hash_parse_hex : forall h, length h = 32%nat -> bytes_ok h -> hash_parse (to_hex h) = Some h;
}.

Class Pkarr := {
  SignedPacket : Type;
  (** [SignedPacket::from_txt_strings(key, name, values, ttl)]. *)
  from_txt_strings : list Z -> string -> list string -> Z -> option SignedPacket;
  (** [SignedPacket::txt_records(name)]. *)
  txt_records : SignedPacket -> string -> list string;
}.

Class PkarrLaws `{Pkarr} : Prop := {
  txt_records_of : forall key name values ttl p,
    from_txt_strings key name values ttl = Some p -> txt_records p name = values;
}.

(** src/src/transport.rs *)
Definition MESH_PROTOCOL_VERSION : Z := 1.
Definition RECORD_NAME : string := "_tetron".
Definition RECORD_VERSION : string := "v1".
Definition RECORD_TTL : Z := 300.

Section Dht.
Context `{IrohKeys, RecordText, Pkarr}.

(** The strings of a record, and the packet made of them. *)
Definition record_values (blob_hash : Hash) (generation : Z) (seed_peers : list EndpointId) : list string :=
  ([RECORD_VERSION; "h," +:+ to_hex blob_hash; "g," +:+ dec generation; "m," +:+ dec MESH_PROTOCOL_VERSION]
   ++ ((fun peer => "p," +:+ id_to_string peer) <$> seed_peers))%list.

(** [transport::network_alpn]: the protocol name under which a network is dialled,
    the version and 16 characters of its key. *)
Definition network_alpn (network_pubkey : EndpointId) : list Z :=
  let full := id_to_string network_pubkey in
  as_bytes ("tetron/net/" +:+ dec MESH_PROTOCOL_VERSION +:+ "/"
            +:+ String.substring 0 (Nat.min (String.length full) 16) full).

Definition encode_network_record (key : list Z) (blob_hash : Hash) (generation : Z) (seed_peers : list EndpointId)
  : option SignedPacket :=
  from_txt_strings key RECORD_NAME (record_values blob_hash generation seed_peers) RECORD_TTL.

(** [find_map]. *)
Fixpoint find_map {A B} (f : A -> option B) (l : list A) : option B :=
  match l with
  | [] => None
  | x :: l' => match f x with Some y => Some y | None => find_map f l' end
  end.

Definition mesh_version_from_record (packet : SignedPacket) : option Z :=
  find_map (fun r => match strip_prefix "m," r with Some v => parse_u32 v | None => None end)
    (txt_records packet RECORD_NAME).

Inductive RecordError := NoRecords | UnsupportedVersion (v : string) | InvalidHash | InvalidGeneration | InvalidPeer
  | MissingHash.

(** One string of the record, onto the fields read so far. *)
Definition decode_step (acc : option Hash * Z * list EndpointId) (record : string)
  : Result (option Hash * Z * list EndpointId) RecordError :=
  let '(blob_hash, generation, peers) := acc in
  match strip_prefix "h," record with
  | Some hash_str =>
      match hash_parse hash_str with
      | Some h => Ok (Some h, generation, peers)
      | None => Err InvalidHash
      end
  | None =>
      match strip_prefix "g," record with
      | Some gen_str =>
          match parse_u64 gen_str with
          | Some g => Ok (blob_hash, g, peers)
          | None => Err InvalidGeneration
          end
      | None =>
          match strip_prefix "p," record with
          | Some id_str =>
              match id_parse id_str with
              | Some id => Ok (blob_hash, generation, (peers ++ [id])%list)
              | None => Err InvalidPeer
              end
          | None => Ok (blob_hash, generation, peers)
          end
      end
  end.

Fixpoint decode_records (acc : option Hash * Z * list EndpointId) (records : list string)
  : Result (option Hash * Z * list EndpointId) RecordError :=
  match records with
  | [] => Ok acc
  | r :: rest => acc' <-? decode_step acc r; decode_records acc' rest
  end.

Definition decode_network_record (packet : SignedPacket) : Result (Hash * Z * list EndpointId) RecordError :=
  match txt_records packet RECORD_NAME with
  | [] => Err NoRecords
  | version :: rest =>
      if negb (bool_decide (version = RECORD_VERSION)) then Err (UnsupportedVersion version)
      else
        acc <-? decode_records (None, 0, []) rest;
        let '(blob_hash, generation, peers) := acc in
        match blob_hash with
        | Some h => Ok (h, generation, peers)
        | None => Err MissingHash
        end
  end.
End Dht.

(** ** Reading back *)
Section DhtProofs.
Context `{RecordTextLaws, PkarrLaws}.

Lemma decode_records_app acc l k :
  decode_records acc (l ++ k)%list = (acc' <-? decode_records acc l; decode_records acc' k).
Proof.
  revert acc. induction l as [|r l IH]; intros acc; cbn [app decode_records]; [done|].
  by destruct (decode_step acc r); cbn.
Qed.

Lemma decode_records_peers h g peers peers0 :
  decode_records (h, g, peers0) ((fun peer => "p," +:+ id_to_string peer) <$> peers)
  = Ok (h, g, (peers0 ++ peers)%list).
Proof.
  revert peers0. induction peers as [|p peers IH]; intros peers0; [by rewrite app_nil_r|].
  cbn [fmap list_fmap decode_records]. unfold decode_step.
  change (strip_prefix "h," ("p," +:+ id_to_string p)) with (@None string).
  change (strip_prefix "g," ("p," +:+ id_to_string p)) with (@None string).
  rewrite strip_prefix_app, id_parse_print. cbn [rbind]. rewrite IH. by rewrite <- app_assoc.
Qed.

Lemma decode_step_hash acc h : length h = 32%nat -> bytes_ok h ->
  decode_step acc ("h," +:+ to_hex h) = Ok (Some h, acc.1.2, acc.2).
Proof. intros Hl Hb. destruct acc as [[? ?] ?]. unfold decode_step. by rewrite strip_prefix_app, hash_parse_hex. Qed.

Lemma decode_step_generation acc g : 0 <= g < 2 ^ 64 ->
  decode_step acc ("g," +:+ dec g) = Ok (acc.1.1, g, acc.2).
Proof.
  intros Hg. destruct acc as [[? ?] ?]. unfold decode_step.
  change (strip_prefix "h," ("g," +:+ dec g)) with (@None string). rewrite strip_prefix_app.
  unfold parse_u64. by rewrite parse_unsigned_dec by (unfold u64_max; lia).
Qed.

Lemma decode_step_version acc v : decode_step acc ("m," +:+ v) = Ok acc.
Proof. by destruct acc as [[? ?] ?]. Qed.

Lemma decode_record_values h g peers :
  length h = 32%nat -> bytes_ok h -> 0 <= g < 2 ^ 64 ->
  decode_records (None, 0, []) (drop 1 (record_values h g peers)) = Ok (Some h, g, peers).
Proof.
  intros Hl Hb Hg. unfold record_values. rewrite skipn_app. cbn [length Nat.sub drop]. rewrite decode_records_app.
  cbn [decode_records]. rewrite decode_step_hash by done. cbn [rbind fst snd].
  rewrite decode_step_generation by done. cbn [rbind fst snd]. rewrite decode_step_version. cbn [rbind].
  apply decode_records_peers.
Qed.

(** A record that could be built reads back exactly: the hash, the generation,
    the seed peers in order, and the publisher's mesh version, whatever 64-bit
    generation and 32-byte hash it was built of. *)
Theorem network_record_reads_back (key : list Z) (h : Hash) (g : Z) (peers : list EndpointId) (p : SignedPacket) :
  length h = 32%nat -> bytes_ok h -> 0 <= g < 2 ^ 64 ->
  encode_network_record key h g peers = Some p ->
  decode_network_record p = Ok (h, g, peers) /\ mesh_version_from_record p = Some MESH_PROTOCOL_VERSION.
Proof.
  intros Hl Hb Hg Hp. apply txt_records_of in Hp. unfold decode_network_record, mesh_version_from_record. rewrite Hp.
  pose proof (decode_record_values h g peers Hl Hb Hg) as Hd. unfold record_values in *. cbn [app drop] in *.
  rewrite bool_decide_eq_true_2 by done. cbn [negb]. rewrite Hd. cbn [rbind]. split; [done|].
  reflexivity.
Qed.

(** Strings of a kind this version does not know are skipped wherever they stand
    after the version, and a record without a generation reads as generation 0. *)
Definition unknown_field (r : string) : Prop :=
  strip_prefix "h," r = None /\ strip_prefix "g," r = None /\ strip_prefix "p," r = None.

Lemma decode_records_unknown acc l : Forall unknown_field l -> decode_records acc l = Ok acc.
Proof.
  induction 1 as [|r l (Hh & Hg & Hp) Hl IH]; [done|]. cbn [decode_records].
  destruct acc as [[h g] peers]. unfold decode_step. rewrite Hh, Hg, Hp. cbn [rbind]. exact IH.
Qed.

Lemma decode_without_generation packet h peers extra :
  txt_records packet RECORD_NAME
  = (RECORD_VERSION :: extra ++ ("h," +:+ to_hex h) :: ((fun p => "p," +:+ id_to_string p) <$> peers))%list ->
  length h = 32%nat -> bytes_ok h -> Forall unknown_field extra ->
  decode_network_record packet = Ok (h, 0, peers).
Proof.
  intros Hr Hl Hb Hx. unfold decode_network_record. rewrite Hr, bool_decide_eq_true_2 by done. cbn [negb].
  rewrite decode_records_app, decode_records_unknown by done. cbn [rbind decode_records]. unfold decode_step at 1.
  rewrite strip_prefix_app, hash_parse_hex by done. cbn [rbind]. by rewrite decode_records_peers.
Qed.
End DhtProofs.

(** ** Concrete instances *)
Module DemoDht.
Import Demo.

Definition hex_value (c : ascii) : option Z :=
  let b := byte_of_ascii c in
  if is_digit c then Some (b - 48) else if (97 <=? b) && (b <=? 102) then Some (b - 87) else None.

Fixpoint of_hex (s : string) : option (list Z) :=
  match s with
  | EmptyString => Some []
  | String a (String b s') =>
      x ← hex_value a; y ← hex_value b; l ← of_hex s'; Some (x * 16 + y :: l)
  | String _ EmptyString => None
  end.

Lemma hex_value_digit a : 0 <= a < 16 -> hex_value (hex_digit a) = Some a.
Proof.
  intros Ha. assert (forallb (fun a => bool_decide (hex_value (hex_digit a) = Some a)) (seqZ 0 16) = true) as Hall
    by (vm_compute; reflexivity).
  rewrite forallb_forall in Hall. eapply bool_decide_eq_true_1, Hall, list_elem_of_In, elem_of_seqZ. lia.
Qed.

Lemma of_hex_to_hex l : bytes_ok l -> of_hex (to_hex l) = Some l.
Proof.
  induction 1 as [|b l Hb Hl IH]; [done|]. cbn [to_hex of_hex]. unfold in_width in Hb.
  rewrite !hex_value_digit by ((split; [apply Z.div_pos; lia|apply Z.div_lt_upper_bound; lia]) || (apply Z.mod_pos_bound; lia)).
  cbn [mbind option_bind]. rewrite IH. cbn [mbind option_bind]. f_equal. f_equal.
  pose proof (Z.div_mod b 16). lia.
Qed.

#[export] Instance text : RecordText := {
  id_parse s := of_hex s ≫= id_from_bytes;
  hash_parse s := of_hex s ≫= fun l => if decide (length l = 32%nat) then Some l else None;
}.

#[export] Instance text_laws : RecordTextLaws.
Proof.
  split.
  - intros id. cbn [id_parse text id_to_string keys]. rewrite of_hex_to_hex by apply be_bytes_ok. apply id_from_as_bytes.
  - intros h Hl Hb. cbn [hash_parse text]. rewrite of_hex_to_hex by done. cbn. by rewrite decide_True.
Qed.

(** A packet is its name and strings, if they fit into 1000 bytes. *)
#[export] Instance packets : Pkarr := {
  SignedPacket := string * list string;
  from_txt_strings _ name values _ :=
    if decide (sum_list (String.length <$> values) <= 1000)%nat then Some (name, values) else None;
  txt_records p name := if decide (name = p.1) then p.2 else [];
}.

#[export] Instance packets_laws : PkarrLaws.
Proof.
  split. intros key name values ttl p. cbn. case_decide; [|done]. intros [= <-]. cbn. by rewrite decide_True.
Qed.
End DemoDht.

Import Demo DemoDht.

Lemma network_record_reads_back_witness :
  exists p, encode_network_record [] (be_bytes 32 77) 5 [mkId 3; mkId 4] = Some p
    /\ decode_network_record p = Ok (be_bytes 32 77, 5, [mkId 3; mkId 4]).
Proof.
  eexists. split; [reflexivity|].
  refine (proj1 (network_record_reads_back [] (be_bytes 32 77) 5 [mkId 3; mkId 4] _ _ _ _ _)).
  - reflexivity.
  - apply be_bytes_ok.
  - split; [discriminate|reflexivity].
  - reflexivity.
Defined.
