(* ===== verification/Members.v ===== *)
(** * Member and approved rosters (src/src/membership.rs, roster part of addressing.rs)

    The two hash maps of a network's roster, the rule that two identities never
    share an address, the assignment of a free address by collision index, the
    checks applied to a roster received from outside, and the deterministic
    resolution of duplicate addresses.

    A [HashMap] is a [gmap].  Rust iterates it in an unspecified order; the model
    uses the order of [map_to_list], and the theorems on functions that iterate
    show that the order does not matter. *)

From S2P Require Import Prelude Externs Addressing.

(** ** Data *)
Record Member := mkMember {
  m_identity : EndpointId;
  m_ip : Ipv4Addr;
  m_is_coordinator : bool;
  m_hostname : option string;
  m_collision_index : Z;
  m_last_seen : option Z;
  m_veilid_node_id : option string;
}.

Record ApprovedEntry := mkApproved {
  a_identity : EndpointId;
  a_ip : Ipv4Addr;
  a_hostname : option string;
  a_collision_index : Z;
}.

Record IpCollision := mkIpCollision {
  c_ip : Ipv4Addr;
  c_existing_identity : EndpointId;
  c_new_identity : EndpointId;
}.

#[global] Instance Member_eq_dec : EqDecision Member.
Proof. solve_decision. Defined.
#[global] Instance ApprovedEntry_eq_dec : EqDecision ApprovedEntry.
Proof. solve_decision. Defined.

Abbreviation MemberList := (gmap EndpointId Member).
Abbreviation ApprovedList := (gmap EndpointId ApprovedEntry).

Definition member_set_addr (m : Member) (ip : Ipv4Addr) (idx : Z) : Member :=
  mkMember (m_identity m) ip (m_is_coordinator m) (m_hostname m) idx (m_last_seen m)
    (m_veilid_node_id m).

Definition member_set_coordinator (m : Member) : Member :=
  mkMember (m_identity m) (m_ip m) true (m_hostname m) (m_collision_index m) (m_last_seen m)
    (m_veilid_node_id m).

(** ** [MemberList] *)
Module MemberListM.

Definition all (members : MemberList) : list Member := (map_to_list members).*2.

Definition get (members : MemberList) (id : EndpointId) : option Member := members !! id.

Definition get_by_ip (members : MemberList) (ip : Ipv4Addr) : option Member :=
  List.find (fun m => m_ip m =? ip) (all members).

Definition is_member (members : MemberList) (id : EndpointId) : bool :=
  bool_decide (is_Some (members !! id)).

(** A rejected [add] leaves the list as it was. *)
Definition add (members : MemberList) (member : Member) : Result MemberList IpCollision :=
  match get_by_ip members (m_ip member) with
  | Some existing =>
      if bool_decide (m_identity existing = m_identity member)
      then Ok (<[m_identity member := member]> members)
      else Err (mkIpCollision (m_ip member) (m_identity existing) (m_identity member))
  | None => Ok (<[m_identity member := member]> members)
  end.

(** [let _ = list.add(m)]: the error is discarded. *)
Definition add_ignore (members : MemberList) (member : Member) : MemberList :=
  match add members member with Ok l => l | Err _ => members end.

Definition remove (members : MemberList) (id : EndpointId) : MemberList := delete id members.

Definition from_members (ms : list Member) : MemberList := fold_left add_ignore ms ∅.

End MemberListM.

Definition mark_coordinator (members : MemberList) (id : EndpointId) : MemberList :=
  alter member_set_coordinator id members.

(** ** [ApprovedList] *)
Module ApprovedListM.

Definition all (entries : ApprovedList) : list ApprovedEntry := (map_to_list entries).*2.

Definition get_by_ip (entries : ApprovedList) (ip : Ipv4Addr) : option ApprovedEntry :=
  List.find (fun e => a_ip e =? ip) (all entries).

Definition is_approved (entries : ApprovedList) (id : EndpointId) : bool :=
  bool_decide (is_Some (entries !! id)).

Definition approve (entries : ApprovedList) (entry : ApprovedEntry) (members : MemberList)
  : Result ApprovedList IpCollision :=
  let collision id := Err (mkIpCollision (a_ip entry) id (a_identity entry)) in
  let within :=
    match get_by_ip entries (a_ip entry) with
    | Some existing =>
        if bool_decide (a_identity existing = a_identity entry)
        then Ok (<[a_identity entry := entry]> entries)
        else collision (a_identity existing)
    | None => Ok (<[a_identity entry := entry]> entries)
    end in
  match MemberListM.get_by_ip members (a_ip entry) with
  | Some existing =>
      if bool_decide (m_identity existing = a_identity entry) then within
      else collision (m_identity existing)
  | None => within
  end.

Definition remove (entries : ApprovedList) (id : EndpointId) : ApprovedList := delete id entries.

Definition from_entries (es : list ApprovedEntry) : ApprovedList :=
  fold_left (fun l e => <[a_identity e := e]> l) es ∅.

End ApprovedListM.

(** ** Address assignment and checks *)
Section Assign.
Context `{IrohKeys}.

(** One round of the [assign_ip] loop: [inl] returns, [inr] goes on with the
    next index (a [u32], which wraps). *)
Definition assign_ip_step (members : MemberList) (identity : EndpointId) (subnet : Subnet)
  (index : Z) : (Ipv4Addr * Z) + Z :=
  let ip := derive_ip_with_index identity index subnet in
  match MemberListM.get_by_ip members ip with
  | Some existing =>
      if bool_decide (m_identity existing = identity) then inl (ip, index)
      else inr (wrap 32 (index + 1))
  | None => inl (ip, index)
  end.

(** The loop visits at most the [2^32] values of its counter; when none of them
    stops it, the counter is back at 0 with nothing changed, and the code never
    returns: [None]. *)
Definition assign_ip (members : MemberList) (identity : EndpointId) (subnet : Subnet)
  : option (Ipv4Addr * Z) :=
  match loop_pow2 32 (assign_ip_step members identity subnet) 0 with
  | inl r => Some r
  | inr _ => None
  end.

Inductive RosterError :=
| IpMismatch (ip expected : Ipv4Addr)
| OutsideSubnet (ip : Ipv4Addr)
| ReservedNetwork (ip : Ipv4Addr)
| ReservedGateway (ip : Ipv4Addr)
| DuplicateIp (ip : Ipv4Addr)
| SubnetMismatch (ip : Ipv4Addr).

#[global] Instance RosterError_eq_dec : EqDecision RosterError.
Proof. solve_decision. Defined.

Definition ensure (b : bool) (e : RosterError) : Result unit RosterError :=
  if b then Ok tt else Err e.

Definition ensure_in_cgnat_range (ip : Ipv4Addr) (subnet : Subnet) : Result unit RosterError :=
  let '(base_addr, prefix) := subnet in
  let host_mask := subnet_host_mask prefix in
  let base := Z.land base_addr (u32_not host_mask) in
  _ <-? ensure (ip_in_subnet ip subnet) (OutsideSubnet ip);
  _ <-? ensure (negb (ip =? base)) (ReservedNetwork ip);
  _ <-? ensure (negb (ip =? wrap 32 (base + 1))) (ReservedGateway ip);
  Ok tt.

Definition validate_member (member : Member) (subnet : Subnet) : Result unit RosterError :=
  let expected := derive_ip_with_index (m_identity member) (m_collision_index member) subnet in
  _ <-? ensure (m_ip member =? expected) (IpMismatch (m_ip member) expected);
  ensure_in_cgnat_range (m_ip member) subnet.

Definition validate_approved (entry : ApprovedEntry) (subnet : Subnet) : Result unit RosterError :=
  let expected := derive_ip_with_index (a_identity entry) (a_collision_index entry) subnet in
  _ <-? ensure (a_ip entry =? expected) (IpMismatch (a_ip entry) expected);
  ensure_in_cgnat_range (a_ip entry) subnet.

Definition resolve_hello_ip (member : option Member) (approved : option ApprovedEntry)
  : option Ipv4Addr :=
  match m_ip <$> member with
  | Some ip => Some ip
  | None => a_ip <$> approved
  end.

Definition validate_subnet_matches_roster (subnet : Subnet) (roster : list Member)
  (self_identity : EndpointId) : Result unit RosterError :=
  match List.find (fun m => bool_decide (m_identity m = self_identity)) roster with
  | None => Ok tt
  | Some member =>
      if ip_in_subnet (m_ip member) subnet then Ok tt else Err (SubnetMismatch (m_ip member))
  end.

(** The [HashSet] of addresses seen so far grows as the roster is walked. *)
Fixpoint no_duplicate_ips_from (seen : gset Ipv4Addr) (members : list Member)
  : Result unit RosterError :=
  match members with
  | [] => Ok tt
  | m :: rest =>
      if bool_decide (m_ip m ∈ seen) then Err (DuplicateIp (m_ip m))
      else no_duplicate_ips_from ({[m_ip m]} ∪ seen) rest
  end.

Definition validate_no_duplicate_ips (members : list Member) : Result unit RosterError :=
  no_duplicate_ips_from ∅ members.

(** ** Duplicate resolution *)
Definition identity_leb (a b : Member) : bool := id_key (m_identity a) <=? id_key (m_identity b).

(** Seats the members one after the other; [None] when an [assign_ip] does not
    return. *)
Fixpoint reseat (members : list Member) (subnet : Subnet) (seated : MemberList)
  : option MemberList :=
  match members with
  | [] => Some seated
  | m :: rest =>
      match assign_ip seated (m_identity m) subnet with
      | None => None
      | Some (ip, idx) =>
          reseat rest subnet (MemberListM.add_ignore seated (member_set_addr m ip idx))
      end
  end.

Definition resolve_ip_tiebreak (members : list Member) (subnet : Subnet) : option (list Member) :=
  MemberListM.all <$> reseat (sort_by identity_leb members) subnet ∅.

End Assign.

(** ** The roster invariant

    Every member is filed under its own identity, and no two identities share
    an address. *)
Definition roster_wf (members : MemberList) : Prop :=
  (forall id m, members !! id = Some m -> m_identity m = id)
  /\ (forall id1 id2 m1 m2, members !! id1 = Some m1 -> members !! id2 = Some m2 ->
        m_ip m1 = m_ip m2 -> id1 = id2).

Lemma elem_of_all (members : MemberList) m :
  m ∈ MemberListM.all members <-> exists id, members !! id = Some m.
Proof.
  unfold MemberListM.all. rewrite list_elem_of_fmap. split.
  - intros ([id m'] & -> & Hin). apply elem_of_map_to_list in Hin. eauto.
  - intros [id Hid]. exists (id, m). split; [done|]. by apply elem_of_map_to_list.
Qed.

Lemma find_ip_Some ms ip m :
  List.find (fun m => m_ip m =? ip) ms = Some m -> m ∈ ms /\ m_ip m = ip.
Proof.
  intros [Hin Hip]%List.find_some. apply Z.eqb_eq in Hip. by rewrite list_elem_of_In.
Qed.

Lemma find_ip_None ms ip :
  List.find (fun m => m_ip m =? ip) ms = None -> forall m, m ∈ ms -> m_ip m <> ip.
Proof. intros Hf m Hm%list_elem_of_In. apply (List.find_none _ _ Hf) in Hm. by btac. Qed.

Lemma get_by_ip_Some (members : MemberList) ip m :
  MemberListM.get_by_ip members ip = Some m ->
  (exists id, members !! id = Some m) /\ m_ip m = ip.
Proof. intros [Hin Hip]%find_ip_Some. by rewrite <- elem_of_all. Qed.

Lemma get_by_ip_None (members : MemberList) ip :
  MemberListM.get_by_ip members ip = None <->
  forall id m, members !! id = Some m -> m_ip m <> ip.
Proof.
  split.
  - intros Hf id m Hm. apply (find_ip_None _ _ Hf). apply elem_of_all. eauto.
  - intros Hn. destruct (MemberListM.get_by_ip members ip) as [m|] eqn:E; [|done].
    apply get_by_ip_Some in E as [[id Hid] Hip]. by destruct (Hn id m Hid).
Qed.

Lemma get_by_ip_wf (members : MemberList) ip m :
  roster_wf members ->
  MemberListM.get_by_ip members ip = Some m <->
  members !! m_identity m = Some m /\ m_ip m = ip.
Proof.
  intros [Hkey Huniq]. split.
  - intros [[id Hid] Hip]%get_by_ip_Some. by rewrite (Hkey _ _ Hid).
  - intros [Hm Hip]. destruct (MemberListM.get_by_ip members ip) as [m'|] eqn:E.
    + apply get_by_ip_Some in E as [[id Hid] Hip'].
      rewrite (Huniq id (m_identity m) m' m) in Hid by congruence. congruence.
    + by destruct (proj1 (get_by_ip_None members ip) E _ _ Hm).
Qed.

(** The address lookup does not depend on the order in which the hash map
    yields its values. *)
Lemma get_by_ip_any_order (members : MemberList) ip ms :
  roster_wf members -> ms ≡ₚ MemberListM.all members ->
  List.find (fun m => m_ip m =? ip) ms = MemberListM.get_by_ip members ip.
Proof.
  intros Hwf Hp. destruct (List.find _ ms) as [m|] eqn:E.
  - apply find_ip_Some in E as [Hin Hip]. rewrite Hp, elem_of_all in Hin.
    destruct Hin as [id Hid]. symmetry. apply get_by_ip_wf; [done|].
    by rewrite (proj1 Hwf _ _ Hid).
  - symmetry. apply get_by_ip_None. intros id m Hm. apply (find_ip_None _ _ E).
    rewrite Hp. apply elem_of_all. eauto.
Qed.

(** An address is free for [id] when no other identity holds it. *)
Definition ip_free_for (members : MemberList) (id : EndpointId) (ip : Ipv4Addr) : Prop :=
  forall id' m, members !! id' = Some m -> m_ip m = ip -> id' = id.

Lemma roster_wf_empty : roster_wf ∅.
Proof. split; intros *; rewrite lookup_empty; done. Qed.

Lemma roster_wf_insert (members : MemberList) m :
  roster_wf members -> ip_free_for members (m_identity m) (m_ip m) ->
  roster_wf (<[m_identity m := m]> members).
Proof.
  intros [Hkey Huniq] Hfree. split.
  - intros id m'. rewrite lookup_insert. case_decide; [naive_solver|]. apply Hkey.
  - intros id1 id2 m1 m2. rewrite !lookup_insert. repeat case_decide; intros; simplify_eq; [done| | |].
    + symmetry. eapply Hfree; [done|]. congruence.
    + eapply Hfree; [done|]. congruence.
    + by eapply Huniq.
Qed.

Lemma add_ok_iff (members : MemberList) m :
  roster_wf members ->
  MemberListM.add members m = Ok (<[m_identity m := m]> members)
  <-> ip_free_for members (m_identity m) (m_ip m).
Proof.
  intros Hwf. unfold MemberListM.add.
  destruct (MemberListM.get_by_ip members (m_ip m)) as [e|] eqn:E.
  - apply get_by_ip_wf in E as [He Hip]; [|done]. case_bool_decide as Hid.
    + split; [|done]. intros _ id' m' Hm' Hip'. rewrite <- Hid.
      eapply (proj2 Hwf); [exact Hm'|exact He|congruence].
    + split; [done|]. intros Hfree. by destruct Hid; apply Hfree with e.
  - split; [|done]. intros _ id' m' Hm' Hip'. by destruct (proj1 (get_by_ip_None _ _) E _ _ Hm').
Qed.

Lemma add_cases (members : MemberList) m :
  roster_wf members ->
  (ip_free_for members (m_identity m) (m_ip m)
   /\ MemberListM.add members m = Ok (<[m_identity m := m]> members))
  \/ (exists e, members !! m_identity e = Some e /\ m_ip e = m_ip m
       /\ m_identity e <> m_identity m
       /\ MemberListM.add members m
          = Err (mkIpCollision (m_ip m) (m_identity e) (m_identity m))).
Proof.
  intros Hwf. destruct (MemberListM.add members m) as [l|c] eqn:E.
  - left. assert (l = <[m_identity m := m]> members) as ->.
    { unfold MemberListM.add in E. repeat case_match; by simplify_eq. }
    split; [|done]. by apply add_ok_iff.
  - right. unfold MemberListM.add in E. destruct (MemberListM.get_by_ip _ _) as [e|] eqn:Eg; [|done].
    apply get_by_ip_wf in Eg as [? ?]; [|done]. case_bool_decide; [done|]. simplify_eq. eauto.
Qed.

Lemma roster_wf_add_ignore (members : MemberList) m :
  roster_wf members -> roster_wf (MemberListM.add_ignore members m).
Proof.
  intros Hwf. unfold MemberListM.add_ignore.
  destruct (add_cases members m Hwf) as [[Hfree ->]|(e & _ & _ & _ & ->)];
    [by apply roster_wf_insert|done].
Qed.

Lemma add_ignore_free (members : MemberList) m :
  ip_free_for members (m_identity m) (m_ip m) -> roster_wf members ->
  MemberListM.add_ignore members m = <[m_identity m := m]> members.
Proof.
  intros Hfree Hwf. unfold MemberListM.add_ignore.
  destruct (add_cases members m Hwf) as [[_ ->]|(e & He & Hip & Hne & _)]; [done|].
  exfalso. by apply Hne, (Hfree _ e).
Qed.

Lemma add_ignore_taken (members : MemberList) m id m' :
  roster_wf members -> members !! id = Some m' -> m_ip m' = m_ip m -> id <> m_identity m ->
  MemberListM.add_ignore members m = members.
Proof.
  intros Hwf Hm' Hip Hne. unfold MemberListM.add_ignore.
  destruct (add_cases members m Hwf) as [[Hf _]|(e & _ & _ & _ & ->)]; [|done].
  exfalso. by apply Hne, (Hf id m').
Qed.

Lemma roster_wf_delete (members : MemberList) id :
  roster_wf members -> roster_wf (delete id members).
Proof.
  intros [Hkey Huniq]. split.
  - intros i m [_ Hm]%lookup_delete_Some. by apply Hkey.
  - intros i j m1 m2 [_ H1]%lookup_delete_Some [_ H2]%lookup_delete_Some. by apply Huniq.
Qed.

Lemma roster_wf_alter (members : MemberList) (f : Member -> Member) id :
  (forall m, m_identity (f m) = m_identity m /\ m_ip (f m) = m_ip m) ->
  roster_wf members -> roster_wf (alter f id members).
Proof.
  intros Hf [Hkey Huniq]. split.
  - intros i m. rewrite lookup_alter_Some. intros [(-> & y & Hy & ->)|[_ Hm]]; [|by apply Hkey].
    rewrite (proj1 (Hf y)). by apply Hkey.
  - assert (forall i m, alter f id members !! i = Some m ->
      exists m', members !! i = Some m' /\ m_ip m' = m_ip m) as Hip.
    { intros i m. rewrite lookup_alter_Some. intros [(-> & y & Hy & ->)|[_ Hm]]; [|by eauto].
      exists y. split; [done|]. by rewrite (proj2 (Hf y)). }
    intros i j m1 m2 (m1' & H1 & E1)%Hip (m2' & H2 & E2)%Hip E. eapply Huniq; [done..|congruence].
Qed.

Lemma roster_wf_mark (members : MemberList) id :
  roster_wf members -> roster_wf (mark_coordinator members id).
Proof. by apply roster_wf_alter. Qed.

Lemma roster_wf_from_members ms : roster_wf (MemberListM.from_members ms).
Proof.
  unfold MemberListM.from_members. assert (roster_wf ∅) as Hwf by apply roster_wf_empty.
  revert Hwf. generalize (∅ : MemberList). induction ms as [|m ms IH]; intros l Hl; simpl; [done|].
  by apply IH, roster_wf_add_ignore.
Qed.

#[export] Hint Resolve roster_wf_empty roster_wf_insert roster_wf_add_ignore roster_wf_delete
  roster_wf_mark roster_wf_from_members : tetron.

(** ** Sequences of roster operations *)
Inductive roster_step : MemberList -> MemberList -> Prop :=
| step_add members m members' :
    MemberListM.add members m = Ok members' -> roster_step members members'
| step_add_ignore members m : roster_step members (MemberListM.add_ignore members m)
| step_remove members id : roster_step members (MemberListM.remove members id)
| step_mark members id : roster_step members (mark_coordinator members id)
| step_replace members ms : roster_step members (MemberListM.from_members ms).

Lemma roster_step_wf members members' :
  roster_step members members' -> roster_wf members -> roster_wf members'.
Proof.
  intros Hstep Hwf. destruct Hstep as [l m l' Hadd| | | |]; eauto with tetron.
  destruct (add_cases l m Hwf) as [[Hfree E]|(e & _ & _ & _ & E)]; rewrite E in Hadd; simplify_eq.
  by apply roster_wf_insert.
Qed.

(** C15: whatever sequence of roster operations a node performs (adding a member,
    adding with the error discarded, removing, promoting to coordinator,
    replacing the roster by a received one), no two identities hold the same
    IPv4 address, every member is filed under its own identity, and the lookup
    by address returns the one holder in whatever order the hash map iterates. *)
Theorem roster_reachable_unique_ips (members : MemberList) :
  rtc roster_step ∅ members ->
  (forall id1 id2 m1 m2, MemberListM.get members id1 = Some m1 ->
     MemberListM.get members id2 = Some m2 -> m_ip m1 = m_ip m2 -> id1 = id2)
  /\ (forall id m, MemberListM.get members id = Some m -> m_identity m = id)
  /\ (forall ip ms, ms ≡ₚ MemberListM.all members ->
        List.find (fun m => m_ip m =? ip) ms = MemberListM.get_by_ip members ip)
  /\ (forall ip m, MemberListM.get_by_ip members ip = Some m
        <-> MemberListM.get members (m_identity m) = Some m /\ m_ip m = ip).
Proof.
  intros Hr. assert (roster_wf members) as Hwf.
  { cut (forall l, rtc roster_step l members -> roster_wf l -> roster_wf members);
      [eauto using roster_wf_empty|].
    intros l. induction 1; eauto using roster_step_wf. }
  split; [apply Hwf|]. split; [apply Hwf|]. split.
  - intros ip ms. by apply get_by_ip_any_order.
  - intros ip m. by apply get_by_ip_wf.
Qed.

Definition member_at (id : EndpointId) (ip idx : Z) : Member :=
  mkMember id ip false None idx None None.

Lemma roster_reachable_unique_ips_witness :
  let l := MemberListM.from_members [member_at (mkId 1) 7 0; member_at (mkId 2) 8 0;
                                     member_at (mkId 3) 7 1] in
  MemberListM.get l (mkId 3) = None
  /\ forall ip m, MemberListM.get_by_ip l ip = Some m
        <-> MemberListM.get l (m_identity m) = Some m /\ m_ip m = ip.
Proof.
  intros l. split; [reflexivity|]. apply (roster_reachable_unique_ips l).
  apply rtc_once. apply step_replace.
Defined.

(** [MemberList::add] on every branch: it succeeds exactly when no other
    identity holds the address; it then files the member under its identity and
    leaves the others as they were; otherwise it reports the holder of the
    address and changes nothing. *)
Theorem member_add_spec (members : MemberList) (m : Member) :
  roster_wf members ->
  match MemberListM.add members m with
  | Ok members' =>
      ip_free_for members (m_identity m) (m_ip m)
      /\ MemberListM.get members' (m_identity m) = Some m
      /\ (forall id, id <> m_identity m -> MemberListM.get members' id = MemberListM.get members id)
  | Err c =>
      c_ip c = m_ip m /\ c_new_identity c = m_identity m
      /\ c_existing_identity c <> m_identity m
      /\ exists e, MemberListM.get members (c_existing_identity c) = Some e /\ m_ip e = m_ip m
  end.
Proof.
  intros Hwf. destruct (add_cases members m Hwf) as [[Hfree ->]|(e & He & Hip & Hne & ->)].
  - split; [done|]. unfold MemberListM.get. split; [by simplify_map_eq|].
    intros id Hid. by rewrite lookup_insert_ne.
  - simpl. unfold MemberListM.get. repeat split; eauto.
Qed.

Lemma member_add_spec_witness :
  let l := MemberListM.from_members [member_at (mkId 1) 7 0] in
  MemberListM.add l (member_at (mkId 2) 7 0) = Err (mkIpCollision 7 (mkId 1) (mkId 2))
  /\ match MemberListM.add l (member_at (mkId 2) 7 0) with
     | Ok _ => False
     | Err c => c_existing_identity c <> mkId 2
     end.
Proof.
  intros l. split; [reflexivity|].
  pose proof (member_add_spec l (member_at (mkId 2) 7 0) (roster_wf_from_members _)) as Hs.
  destruct (MemberListM.add l (member_at (mkId 2) 7 0)) eqn:E; [discriminate E|].
  exact (proj1 (proj2 (proj2 Hs))).
Defined.

(** ** Address assignment *)
Section AssignProofs.
Context `{IrohKeys}.

Lemma assign_ip_step_cases (members : MemberList) id subnet j :
  roster_wf members ->
  let ip := derive_ip_with_index id j subnet in
  (ip_free_for members id ip /\ assign_ip_step members id subnet j = inl (ip, j))
  \/ (~ ip_free_for members id ip /\ assign_ip_step members id subnet j = inr (wrap 32 (j + 1))).
Proof.
  intros Hwf ip. unfold assign_ip_step. fold ip.
  destruct (MemberListM.get_by_ip members ip) as [e|] eqn:E.
  - pose proof E as [He Hip]%get_by_ip_wf; [|done]. case_bool_decide as Hid.
    + left. split; [|done]. intros i m Hm Hmip. rewrite <- Hid.
      eapply (proj2 Hwf); [exact Hm|exact He|congruence].
    + right. split; [|done]. intros Hfree. by apply Hid, (Hfree _ e).
  - left. split; [|done]. intros i m Hm Hmip. by destruct (proj1 (get_by_ip_None _ _) E _ _ Hm).
Qed.

(** The lowest collision index whose address is free, over the whole range of
    the [u32] counter. *)
Lemma assign_ip_spec (members : MemberList) id subnet :
  roster_wf members ->
  match assign_ip members id subnet with
  | Some (ip, idx) =>
      is_u32 idx /\ ip = derive_ip_with_index id idx subnet /\ ip_free_for members id ip
      /\ forall j, 0 <= j < idx -> ~ ip_free_for members id (derive_ip_with_index id j subnet)
  | None => forall j, is_u32 j -> ~ ip_free_for members id (derive_ip_with_index id j subnet)
  end.
Proof.
  intros Hwf. unfold assign_ip. rewrite loop_pow2_steps.
  set (g j := match assign_ip_step members id subnet j with inl r => Some r | inr _ => None end).
  pose proof (loop_steps_first (2 ^ 32) (assign_ip_step members id subnet) g 0) as Hl.
  assert (Z.of_nat (2 ^ 32) = 2 ^ 32) as E32 by (rewrite Nat2Z.inj_pow; reflexivity).
  rewrite E32 in Hl. specialize (Hl ltac:(
    intros j Hj; unfold g;
    destruct (assign_ip_step_cases members id subnet j Hwf) as [[_ ->]|[_ ->]]; [done|];
    eexists; split; [done|]; intros ?; apply wrap_small; unfold in_width; lia)).
  assert (forall j, g j = None -> ~ ip_free_for members id (derive_ip_with_index id j subnet)) as HN.
  { intros j. unfold g. by destruct (assign_ip_step_cases members id subnet j Hwf) as [[_ ->]|[? ->]]. }
  destruct (loop_steps (2 ^ 32) _ 0) as [[ip idx]|j].
  - destruct Hl as (j & Hj & Hgj & Hlt). revert Hgj. unfold g.
    destruct (assign_ip_step_cases members id subnet j Hwf) as [[Hf ->]|[_ ->]]; [|done].
    intros [= <- <-]. repeat split; [apply Hj..|done|]. intros j' Hj'. by apply HN, Hlt.
  - intros j' Hj'. by apply HN, Hl.
Qed.

(** [assign_ip] picks the lowest collision index (a [u32]) whose derived
    address no other identity holds, so that adding the member with that address
    succeeds; it fails to return only when all the [2^32] indices lead to
    addresses held by others. *)
Theorem assign_ip_lowest_free (members : MemberList) (id : EndpointId) (subnet : Subnet) :
  roster_wf members ->
  match assign_ip members id subnet with
  | Some (ip, idx) =>
      is_u32 idx /\ ip = derive_ip_with_index id idx subnet
      /\ (forall m, m_identity m = id -> m_ip m = ip -> is_ok (MemberListM.add members m) = true)
      /\ (forall j m, 0 <= j < idx -> m_identity m = id ->
            m_ip m = derive_ip_with_index id j subnet -> is_ok (MemberListM.add members m) = false)
  | None =>
      forall j m, is_u32 j -> m_identity m = id ->
        m_ip m = derive_ip_with_index id j subnet -> is_ok (MemberListM.add members m) = false
  end.
Proof.
  intros Hwf. pose proof (assign_ip_spec members id subnet Hwf) as Hs.
  assert (forall m, ~ ip_free_for members (m_identity m) (m_ip m) ->
                    is_ok (MemberListM.add members m) = false) as Hno.
  { intros m Hm. by destruct (add_cases members m Hwf) as [[? _]|(e & _ & _ & _ & ->)]. }
  destruct (assign_ip members id subnet) as [[ip idx]|].
  - destruct Hs as (Hi & Hip & Hfree & Hlow). split; [done|]. split; [done|]. split.
    + intros m <- <-. by rewrite (proj2 (add_ok_iff members m Hwf)).
    + intros j m Hj <- Hm. apply Hno. rewrite Hm. by apply Hlow.
  - intros j m Hj <- Hm. apply Hno. rewrite Hm. by apply Hs.
Qed.

(** When every host address of the subnet is held by other identities,
    [assign_ip] never returns: its loop has no exit for a full subnet. *)
Theorem assign_ip_full_subnet_never_returns (members : MemberList) (id : EndpointId) base p :
  roster_wf members -> 1 <= p <= 30 -> is_u32 base ->
  (forall h, 2 <= h < 2 ^ (32 - p) -> exists id' m, members !! id' = Some m /\ id' <> id
     /\ m_ip m = base / 2 ^ (32 - p) * 2 ^ (32 - p) + h) ->
  assign_ip members id (base, p) = None.
Proof.
  intros Hwf Hp Hb Hfull. pose proof (assign_ip_spec members id (base, p) Hwf) as Hs.
  destruct (assign_ip members id (base, p)) as [[ip idx]|]; [|done].
  destruct Hs as (_ & -> & Hfree & _).
  destruct (derive_ip_split id idx base p Hp Hb) as (h & Hh & E). rewrite E in Hfree.
  destruct (Hfull h Hh) as (id' & m & Hm & Hne & Hip). by destruct Hne; apply (Hfree id' m).
Qed.

Lemma ensure_in_cgnat_range_ok ip base p :
  ensure_in_cgnat_range ip (base, p) = Ok tt
  <-> ip_in_subnet ip (base, p) = true
      /\ ip <> Z.land base (u32_not (subnet_host_mask p))
      /\ ip <> wrap 32 (Z.land base (u32_not (subnet_host_mask p)) + 1).
Proof.
  unfold ensure_in_cgnat_range, ensure, rbind.
  destruct (ip_in_subnet ip (base, p)); [|intuition discriminate].
  destruct (Z.eqb_spec ip (Z.land base (u32_not (subnet_host_mask p)))); simpl; [intuition discriminate|].
  destruct (Z.eqb_spec ip (wrap 32 (Z.land base (u32_not (subnet_host_mask p)) + 1))); simpl;
    intuition discriminate.
Qed.

Lemma narrow_prefix_no_host ip base p :
  is_u32 ip -> is_u32 base -> p = 31 \/ p = 32 \/ p = 0 ->
  ensure_in_cgnat_range ip (base, p) <> Ok tt.
Proof.
  intros Hip Hb Hp. rewrite ensure_in_cgnat_range_ok. unfold ip_in_subnet.
  assert (exists k, (k = 0 \/ k = 1) /\ subnet_host_mask p = Z.ones k) as (k & Hk & ->).
  { destruct Hp as [->|[->| ->]]; [exists 1|exists 0..]; by auto. }
  rewrite Z.eqb_eq, !land_not_ones by (done || lia). unfold in_width in *.
  destruct Hk as [->| ->]; [change (2 ^ 0) with 1|change (2 ^ 1) with 2]; intros (E & H0 & H1).
  - rewrite !Z.div_1_r, !Z.mul_1_r in *. congruence.
  - rewrite wrap_small in H1; [|unfold in_width]; Z.to_euclidean_division_equations; lia.
Qed.

Lemma derive_ip_in_range id idx base p :
  1 <= p <= 30 -> is_u32 base ->
  ensure_in_cgnat_range (derive_ip_with_index id idx (base, p)) (base, p) = Ok tt.
Proof.
  intros Hp Hb. apply ensure_in_cgnat_range_ok.
  pose proof (derive_ip_u32 id idx base p Hp Hb) as Hu.
  destruct (derive_ip_split id idx base p Hp Hb) as (h & Hh & E).
  rewrite ip_in_subnet_div by (done || lia). rewrite mask_net by (done || lia).
  rewrite E in *. unfold in_width in *.
  assert (0 <= base / 2 ^ (32 - p) * 2 ^ (32 - p)).
  { apply Z.mul_nonneg_nonneg; [apply Z.div_pos|]; lia. }
  rewrite (wrap_small 32 (_ + 1)) by (unfold in_width; lia).
  split; [|lia]. rewrite Z.add_comm, Z.div_add by lia. rewrite (Z.div_small h) by lia. lia.
Qed.

Lemma validate_member_ok m subnet :
  validate_member m subnet = Ok tt
  <-> m_ip m = derive_ip_with_index (m_identity m) (m_collision_index m) subnet
      /\ ensure_in_cgnat_range (m_ip m) subnet = Ok tt.
Proof.
  unfold validate_member, ensure, rbind.
  destruct (Z.eqb_spec (m_ip m) (derive_ip_with_index (m_identity m) (m_collision_index m) subnet));
    intuition discriminate.
Qed.

Lemma validate_approved_ok a subnet :
  validate_approved a subnet = Ok tt
  <-> a_ip a = derive_ip_with_index (a_identity a) (a_collision_index a) subnet
      /\ ensure_in_cgnat_range (a_ip a) subnet = Ok tt.
Proof.
  unfold validate_approved, ensure, rbind.
  destruct (Z.eqb_spec (a_ip a) (derive_ip_with_index (a_identity a) (a_collision_index a) subnet));
    intuition discriminate.
Qed.

(** Prefixes 31, 32 and 0 are accepted by [parse_cidr], but no identity ever
    gets an address there that passes the roster check: every member of such a
    network is rejected. *)
Theorem narrow_prefix_rejects_every_member (base p : Z) (m : Member) :
  is_u32 base -> p = 31 \/ p = 32 \/ p = 0 -> is_u32 (m_ip m) ->
  is_ok (parse_cidr (format_cidr (base, p))) = true
  /\ is_ok (validate_member m (base, p)) = false.
Proof.
  intros Hb Hp Hm. split.
  - rewrite parse_format_cidr; [done|done|]. destruct Hp as [->|[->| ->]]; simpl; lia.
  - destruct (validate_member m (base, p)) as [[]|] eqn:E; [|done].
    apply validate_member_ok in E as [_ E]. by apply narrow_prefix_no_host in E.
Qed.

End AssignProofs.

Lemma assign_ip_lowest_free_witness :
  let l := MemberListM.from_members [member_at (mkId 9) (derive_ip (H := Demo.keys) (mkId 1) default_subnet) 0] in
  assign_ip (H := Demo.keys) l (mkId 1) default_subnet
    = Some (derive_ip_with_index (H := Demo.keys) (mkId 1) 1 default_subnet, 1)
  /\ match assign_ip (H := Demo.keys) l (mkId 1) default_subnet with
     | Some (ip, _) => is_ok (MemberListM.add l (member_at (mkId 1) ip 1)) = true
     | None => False
     end.
Proof.
  intros l.
  pose proof (assign_ip_lowest_free (H := Demo.keys) l (mkId 1) default_subnet
    (roster_wf_from_members _)) as Hs.
  assert (assign_ip (H := Demo.keys) l (mkId 1) default_subnet
    = Some (derive_ip_with_index (H := Demo.keys) (mkId 1) 1 default_subnet, 1)) as E
    by (vm_compute; reflexivity).
  rewrite E in Hs |- *. split; [reflexivity|]. apply Hs; reflexivity.
Defined.

Lemma assign_ip_full_subnet_never_returns_witness :
  let subnet := (ipv4_new 10 88 0 0, 30) in
  let l := MemberListM.from_members [member_at (mkId 1) (ipv4_new 10 88 0 2) 0;
                                     member_at (mkId 2) (ipv4_new 10 88 0 3) 0] in
  assign_ip (H := Demo.keys) l (mkId 3) subnet = None.
Proof.
  intros subnet l. apply (assign_ip_full_subnet_never_returns (H := Demo.keys)).
  - apply roster_wf_from_members.
  - lia.
  - by_decide.
  - intros h Hh. change (2 ^ (32 - 30)) with 4 in *.
    assert (h = 2 \/ h = 3) as [->| ->] by lia.
    + exists (mkId 1), (member_at (mkId 1) (ipv4_new 10 88 0 2) 0). split; [reflexivity|].
      split; [|reflexivity]. by_decide.
    + exists (mkId 2), (member_at (mkId 2) (ipv4_new 10 88 0 3) 0). split; [reflexivity|].
      split; [|reflexivity]. by_decide.
Defined.

Lemma narrow_prefix_rejects_every_member_witness :
  is_ok (validate_member (H := Demo.keys)
    (member_at (mkId 1) (derive_ip (H := Demo.keys) (mkId 1) (ipv4_new 10 88 0 0, 31)) 0)
    (ipv4_new 10 88 0 0, 31)) = false.
Proof.
  apply (narrow_prefix_rejects_every_member (H := Demo.keys));
    [by_decide|auto|by_decide].
Defined.

(** ** Duplicate resolution *)

(** What the resolution keeps of a member: everything but the address and its
    index. *)
Definition forget_addr (m : Member) : Member := member_set_addr m 0 0.

Lemma all_identities (members : MemberList) :
  roster_wf members -> NoDup (m_identity <$> MemberListM.all members).
Proof.
  intros [Hkey _]. unfold MemberListM.all.
  assert (m_identity <$> (map_to_list members).*2 = (map_to_list members).*1) as ->.
  { rewrite <- list_fmap_compose. apply list_fmap_ext. intros i [id m] Hl.
    apply list_elem_of_lookup_2, elem_of_map_to_list in Hl. by apply Hkey. }
  apply NoDup_fst_map_to_list.
Qed.

Lemma all_ips (members : MemberList) :
  roster_wf members -> NoDup (m_ip <$> MemberListM.all members).
Proof.
  intros Hwf. pose proof (all_identities members Hwf) as Hid. apply NoDup_fmap_1 in Hid.
  apply NoDup_alt. intros i j ip Hi Hj. rewrite list_lookup_fmap in Hi, Hj.
  apply fmap_Some in Hi as (m1 & H1 & ->), Hj as (m2 & H2 & E).
  pose proof (proj1 (elem_of_all members m1) (list_elem_of_lookup_2 _ _ _ H1)) as [i1 Hm1].
  pose proof (proj1 (elem_of_all members m2) (list_elem_of_lookup_2 _ _ _ H2)) as [i2 Hm2].
  rewrite (proj2 Hwf i1 i2 m1 m2 Hm1 Hm2 E), Hm2 in Hm1. simplify_eq. by eapply NoDup_lookup.
Qed.

Lemma no_duplicate_ips_from_ok seen ms :
  NoDup (m_ip <$> ms) -> (forall m, m ∈ ms -> m_ip m ∉ seen) ->
  no_duplicate_ips_from seen ms = Ok tt.
Proof.
  revert seen. induction ms as [|m ms IH]; intros seen; csimpl; [done|].
  rewrite NoDup_cons. intros [Hm Hms] Hseen. rewrite bool_decide_eq_false_2 by (apply Hseen; left).
  apply IH; [done|]. intros m' Hm'. apply not_elem_of_union. split; [|apply Hseen; by right].
  rewrite elem_of_singleton. intros E. apply Hm. rewrite <- E. by apply list_elem_of_fmap_2.
Qed.

Section Tiebreak.
Context `{IrohKeys}.

Lemma reseat_forget ms subnet seated :
  reseat (forget_addr <$> ms) subnet seated = reseat ms subnet seated.
Proof.
  revert seated. induction ms as [|m ms IH]; intros seated; csimpl; [done|].
  destruct (assign_ip seated (m_identity m) subnet) as [[ip idx]|]; [|done]. apply IH.
Qed.

Lemma reseat_spec ms subnet seated out :
  roster_wf seated -> NoDup (m_identity <$> ms) ->
  reseat ms subnet seated = Some out ->
  roster_wf out
  /\ (forall id, id ∉ m_identity <$> ms -> out !! id = seated !! id)
  /\ (forall m, m ∈ ms -> exists idx, is_u32 idx /\ out !! m_identity m
        = Some (member_set_addr m (derive_ip_with_index (m_identity m) idx subnet) idx)).
Proof.
  revert seated. induction ms as [|m ms IH]; intros seated Hwf; csimpl.
  - intros _ [= <-]. split; [done|]. split; [done|]. by intros m []%elem_of_nil.
  - rewrite NoDup_cons. intros [Hm Hnd].
    pose proof (assign_ip_spec seated (m_identity m) subnet Hwf) as Hs.
    destruct (assign_ip seated (m_identity m) subnet) as [[ip idx]|]; [|done].
    destruct Hs as (Hidx & -> & Hfree & _).
    set (m' := member_set_addr m (derive_ip_with_index (m_identity m) idx subnet) idx).
    assert (MemberListM.add_ignore seated m' = <[m_identity m := m']> seated) as ->.
    { unfold MemberListM.add_ignore. by rewrite (proj2 (add_ok_iff seated m' Hwf)). }
    intros Hre. apply IH in Hre as (Hwf' & Hout & Hin);
      [|by apply (roster_wf_insert seated m')|done].
    split; [done|]. split.
    + intros id [Hne Hid]%not_elem_of_cons. rewrite Hout by done. by rewrite lookup_insert_ne.
    + intros m0 [->|Hm0]%elem_of_cons; [|by apply Hin]. exists idx. split; [done|].
      rewrite Hout by done. by rewrite lookup_insert_eq.
Qed.

Lemma identity_leb_total x y : identity_leb x y = true \/ identity_leb y x = true.
Proof. unfold identity_leb. rewrite !Z.leb_le. lia. Qed.

Lemma identity_leb_trans x y z :
  identity_leb x y = true -> identity_leb y z = true -> identity_leb x z = true.
Proof. unfold identity_leb. rewrite !Z.leb_le. lia. Qed.

Lemma identity_leb_antisym ms x y :
  NoDup (m_identity <$> ms) -> x ∈ ms -> y ∈ ms ->
  identity_leb x y = true -> identity_leb y x = true -> x = y.
Proof.
  intros Hnd Hx Hy. unfold identity_leb. rewrite !Z.leb_le. intros.
  apply (NoDup_fmap_elem_inj m_identity ms); [done..|]. apply (inj id_key). lia.
Qed.

Lemma forget_identities (ms : list Member) : m_identity <$> (forget_addr <$> ms) = m_identity <$> ms.
Proof. by rewrite <- list_fmap_compose. Qed.

(** Only the set of members matters, not their order nor the addresses they
    arrive with. *)
Lemma resolve_ip_tiebreak_ext ms ms' subnet :
  NoDup (m_identity <$> ms) -> forget_addr <$> ms ≡ₚ forget_addr <$> ms' ->
  resolve_ip_tiebreak ms subnet = resolve_ip_tiebreak ms' subnet.
Proof.
  intros Hnd Hp. unfold resolve_ip_tiebreak.
  rewrite <- (reseat_forget (sort_by _ ms)), <- (reseat_forget (sort_by _ ms')).
  rewrite <- !(sort_by_fmap identity_leb identity_leb forget_addr) by done.
  rewrite (sort_by_unique identity_leb identity_leb_total identity_leb_trans
    (forget_addr <$> ms) (forget_addr <$> ms')); [done| |done].
  intros x y. apply identity_leb_antisym. by rewrite forget_identities.
Qed.

Lemma resolve_ip_tiebreak_result ms subnet out :
  NoDup (m_identity <$> ms) ->
  reseat (sort_by identity_leb ms) subnet ∅ = Some out ->
  roster_wf out /\ forget_addr <$> MemberListM.all out ≡ₚ forget_addr <$> ms
  /\ (forall m, m ∈ MemberListM.all out -> is_u32 (m_collision_index m)
        /\ m_ip m = derive_ip_with_index (m_identity m) (m_collision_index m) subnet).
Proof.
  intros Hnd Hre. apply reseat_spec in Hre as (Hwf & Hout & Hin);
    [|by eauto with tetron|by rewrite sort_by_perm].
  setoid_rewrite sort_by_elem in Hin. setoid_rewrite sort_by_perm in Hout.
  assert (forall m, m ∈ MemberListM.all out -> exists m0 idx, m0 ∈ ms /\ is_u32 idx
    /\ m = member_set_addr m0 (derive_ip_with_index (m_identity m0) idx subnet) idx) as Hall.
  { intros m [id Hid]%elem_of_all. destruct (decide (id ∈ m_identity <$> ms)) as [Hi|Hi].
    - apply list_elem_of_fmap in Hi as (m0 & -> & Hm0). destruct (Hin m0 Hm0) as (idx & Hidx & E).
      exists m0, idx. split; [done|]. split; [done|]. congruence.
    - rewrite Hout, lookup_empty in Hid by done. done. }
  split; [done|]. split.
  - apply NoDup_Permutation.
    + eapply NoDup_fmap_1. rewrite forget_identities. by apply all_identities.
    + eapply NoDup_fmap_1. by rewrite forget_identities.
    + intros f. rewrite !list_elem_of_fmap. split.
      * intros (m & -> & Hm). destruct (Hall m Hm) as (m0 & idx & Hm0 & _ & ->). by exists m0.
      * intros (m & -> & Hm). destruct (Hin m Hm) as (idx & _ & E).
        eexists. split; [|apply elem_of_all; eauto]. done.
  - intros m Hm. by destruct (Hall m Hm) as (m0 & idx & _ & ? & ->).
Qed.

(** When [resolve_ip_tiebreak] returns, the result holds the same members as
    the input with nothing but addresses and indices changed, passes the
    duplicate check, and, on a subnet with prefix 1 to 30, every member of it
    passes [validate_member]. *)
Theorem resolve_ip_tiebreak_sound (ms r : list Member) (base p : Z) :
  NoDup (m_identity <$> ms) -> 1 <= p <= 30 -> is_u32 base ->
  resolve_ip_tiebreak ms (base, p) = Some r ->
  forget_addr <$> r ≡ₚ forget_addr <$> ms
  /\ validate_no_duplicate_ips r = Ok tt
  /\ Forall (fun m => validate_member m (base, p) = Ok tt) r.
Proof.
  intros Hnd Hp Hb Hr. apply fmap_Some in Hr as (out & Hre & ->).
  destruct (resolve_ip_tiebreak_result ms (base, p) out Hnd Hre) as (Hwf & Hperm & Hall).
  split; [done|]. split.
  - apply no_duplicate_ips_from_ok; [by apply all_ips|]. intros m _. apply not_elem_of_empty.
  - apply Forall_forall. intros m Hm. destruct (Hall m Hm) as [_ Hip].
    apply validate_member_ok. split; [done|]. rewrite Hip. by apply derive_ip_in_range.
Qed.

(** C35: two nodes that hold the same members, in whatever order and with whatever
    addresses, resolve to the same roster; in particular resolving a resolved
    roster changes nothing. *)
Theorem resolve_ip_tiebreak_converges (ms ms' : list Member) (subnet : Subnet) :
  NoDup (m_identity <$> ms) -> forget_addr <$> ms ≡ₚ forget_addr <$> ms' ->
  match resolve_ip_tiebreak ms subnet, resolve_ip_tiebreak ms' subnet with
  | Some r, Some r' => r ≡ₚ r' /\ option_relation (≡ₚ) (fun _ => False) (fun _ => False)
                                    (resolve_ip_tiebreak r subnet) (Some r)
  | None, None => True
  | _, _ => False
  end.
Proof.
  intros Hnd Hp. rewrite <- (resolve_ip_tiebreak_ext ms ms' subnet Hnd Hp).
  destruct (resolve_ip_tiebreak ms subnet) as [r|] eqn:E; [|done]. split; [done|].
  pose proof E as Hr. apply fmap_Some in Hr as (out & Hre & ->).
  destruct (resolve_ip_tiebreak_result ms subnet out Hnd Hre) as (Hwf & Hperm & _).
  rewrite (resolve_ip_tiebreak_ext (MemberListM.all out) ms) by (done || by apply all_identities).
  rewrite E. simpl. done.
Qed.

End Tiebreak.

(** Two identities whose addresses collide at index 0 in the default subnet
    under the sample keys: the lower one joined second and sits at index 1. *)
Definition swapped_roster : list Member :=
  [member_at (mkId 72) (derive_ip_with_index (H := Demo.keys) (mkId 72) 0 default_subnet) 0;
   member_at (mkId 13) (derive_ip_with_index (H := Demo.keys) (mkId 13) 1 default_subnet) 1].

(** A roster without duplicate addresses, all of whose members validate, is
    not left alone by [resolve_ip_tiebreak]: re-seating starts from index 0 for
    everybody, so the member with the lower identity takes over the address that
    the other one was holding. *)
Theorem resolve_ip_tiebreak_moves_valid_roster :
  validate_no_duplicate_ips swapped_roster = Ok tt
  /\ Forall (fun m => validate_member (H := Demo.keys) m default_subnet = Ok tt) swapped_roster
  /\ exists r m13 m72,
       resolve_ip_tiebreak (H := Demo.keys) swapped_roster default_subnet = Some r
       /\ m13 ∈ r /\ m_identity m13 = mkId 13
       /\ swapped_roster !! 0%nat = Some m72 /\ m_identity m72 = mkId 72
       /\ m_ip m13 = m_ip m72.
Proof.
  split; [vm_compute; reflexivity|]. split; [repeat constructor; vm_compute; reflexivity|].
  set (m13 := member_at (mkId 13) (derive_ip (H := Demo.keys) (mkId 13) default_subnet) 0).
  set (m72 := member_at (mkId 72) (derive_ip (H := Demo.keys) (mkId 72) default_subnet) 0).
  assert (exists r, resolve_ip_tiebreak (H := Demo.keys) swapped_roster default_subnet = Some r
                    /\ m13 ∈ r) as (r & Hr & Hin).
  { eexists. split; [vm_compute; reflexivity|]. by_decide. }
  exists r, m13, m72. do 5 (split; [done || reflexivity|]). vm_compute. reflexivity.
Qed.

Lemma resolve_ip_tiebreak_sound_witness :
  exists r, resolve_ip_tiebreak (H := Demo.keys) swapped_roster default_subnet = Some r
    /\ validate_no_duplicate_ips r = Ok tt
    /\ Forall (fun m => validate_member (H := Demo.keys) m default_subnet = Ok tt) r.
Proof.
  destruct (resolve_ip_tiebreak (H := Demo.keys) swapped_roster default_subnet) as [r|] eqn:E;
    [|vm_compute in E; discriminate E].
  exists r. split; [reflexivity|].
  apply (resolve_ip_tiebreak_sound (H := Demo.keys) swapped_roster r (ipv4_new 10 88 0 0) 24);
    [by_decide|lia|by_decide|exact E].
Defined.

Lemma resolve_ip_tiebreak_converges_witness :
  match resolve_ip_tiebreak (H := Demo.keys) swapped_roster default_subnet,
        resolve_ip_tiebreak (H := Demo.keys) (reverse swapped_roster) default_subnet with
  | Some r, Some r' => r ≡ₚ r'
  | _, _ => False
  end.
Proof.
  pose proof (resolve_ip_tiebreak_converges (H := Demo.keys) swapped_roster (reverse swapped_roster)
    default_subnet ltac:(by_decide) ltac:(by rewrite reverse_Permutation)) as Hc.
  destruct (resolve_ip_tiebreak (H := Demo.keys) swapped_roster default_subnet) eqn:E;
    [|vm_compute in E; discriminate E].
  destruct (resolve_ip_tiebreak (H := Demo.keys) (reverse swapped_roster) default_subnet);
    [exact (proj1 Hc)|exact Hc].
Defined.
