(* ===== verification/Control.v ===== *)
(** * Control messages and their frames (src/src/control.rs)

    The messages peers exchange over streams, and the frame of a message: four
    bytes of length, then the message in msgpack.  A stream is the bytes the sender
    wrote before finishing it.  The msgpack encoding is that of the rmp-serde
    library. *)

From S2P Require Import Prelude Externs Addressing Members.

Inductive ControlMsg :=
| JoinRequest (invite_secret : option (list Z)) (hostname : option string) (veilid_node_id : option string)
| JoinPending
| JoinApproved (your_ip : Ipv4Addr) (members : list Member)
| JoinDenied (reason : string)
| MemberSync
| MeshHello (identity : EndpointId) (ip : Ipv4Addr) (hostname : option string) (veilid_node_id : option string)
| MemberApproved (identity : EndpointId) (ip : Ipv4Addr) (hostname : option string) (veilid_node_id : option string)
| Welcome (members : list Member) (approved : list ApprovedEntry)
| BlobUpdated
| AdminGrant (network_pubkey : EndpointId) (secret_key : list Z)
| FileOffer (from : EndpointId) (filename : string) (size : Z) (mime_type : string) (blob_hash : Hash)
| InviteShare (id : string) (secret_hash : list Z) (expires : Z)
| InviteUsed (secret_hash : list Z)
| Ping (nonce : Z)
| Pong (nonce : Z).

(** [rmp_serde::to_vec_named] and [from_slice] at a message type. *)
Class FrameCodec (T : Type) := {
  to_vec_named : T -> list Z;
  from_slice : list Z -> option T;
}.

Class FrameCodecLaws (T : Type) `{FrameCodec T} : Prop := {
  to_vec_bytes : forall m, bytes_ok (to_vec_named m);
  from_to_vec : forall m, from_slice (to_vec_named m) = Some m;
}.

Definition FRAME_MAX : Z := 65536.

Section Frames.
Context `{FrameCodec T}.

(** The bytes [send_framed] writes; [encode_msg] is the same at [ControlMsg]. *)
Definition frame (msg : T) : list Z :=
  let body := to_vec_named msg in (to_be32 (wrap 32 (len body)) ++ body)%list.

Inductive FrameError := ReadLength | FrameTooLarge | ReadBody | DecodeFrame.

(** [read_exact]: the next bytes of the stream and the rest of it. *)
Definition read_exact (n : Z) (stream : list Z) : option (list Z * list Z) :=
  if n <=? len stream then Some (take (Z.to_nat n) stream, drop (Z.to_nat n) stream) else None.

Definition recv_framed (stream : list Z) : Result T FrameError :=
  match read_exact 4 stream with
  | None => Err ReadLength
  | Some (len_buf, rest) =>
      let len := from_be32 (nth 0 len_buf 0) (nth 1 len_buf 0) (nth 2 len_buf 0) (nth 3 len_buf 0) in
      if negb (len <=? FRAME_MAX) then Err FrameTooLarge
      else match read_exact len rest with
           | None => Err ReadBody
           | Some (body, _) =>
               match from_slice body with Some m => Ok m | None => Err DecodeFrame end
           end
  end.

End Frames.

Definition encode_msg `{FrameCodec ControlMsg} (msg : ControlMsg) : list Z := frame msg.
Definition recv_msg `{FrameCodec ControlMsg} (stream : list Z) : Result ControlMsg FrameError := recv_framed stream.

(** ** What arrives *)
Section FrameProofs.
Context `{FrameCodecLaws T}.

Lemma read_exact_app l k : read_exact (len l) (l ++ k)%list = Some (l, k).
Proof.
  unfold read_exact, len. rewrite length_app, (proj2 (Z.leb_le _ _)) by lia. rewrite Nat2Z.id.
  by rewrite take_app_length, drop_app_length.
Qed.

(** What a receiver makes of a frame, followed by anything. *)
Lemma recv_frame (m : T) (rest : list Z) :
  len (to_vec_named m) < 2 ^ 32 ->
  recv_framed (frame m ++ rest)%list
  = if len (to_vec_named m) <=? FRAME_MAX then Ok m else Err FrameTooLarge.
Proof.
  intros Hl. unfold recv_framed, frame. rewrite <- app_assoc.
  assert (0 <= len (to_vec_named m)) by (unfold len; lia).
  rewrite wrap_small by (unfold in_width; lia). set (l := len (to_vec_named m)) in *.
  destruct (to_be32_value l) as (a & b & c & d & -> & Ev); [unfold in_width; lia|].
  change 4 with (len [a; b; c; d]). rewrite read_exact_app. cbn [nth]. rewrite Ev.
  destruct (l <=? FRAME_MAX); cbn [negb]; [|done]. unfold l. rewrite read_exact_app. by rewrite from_to_vec.
Qed.

Lemma read_exact_short n (stream : list Z) : len stream < n -> read_exact n stream = None.
Proof. intros Hn. unfold read_exact. by rewrite (proj2 (Z.leb_gt _ _)). Qed.

(** A frame cut short. *)
Lemma recv_cut (m : T) (n : nat) :
  len (to_vec_named m) < 2 ^ 32 -> (n < length (frame m))%nat -> is_ok (recv_framed (T := T) (take n (frame m))) = false.
Proof.
  intros Hl Hn. unfold recv_framed, frame in *. assert (0 <= len (to_vec_named m)) by (unfold len; lia).
  rewrite wrap_small in * by (unfold in_width; lia). set (l := len (to_vec_named m)) in *.
  destruct (to_be32_value l) as (a & b & c & d & E & Ev); [unfold in_width; lia|]. rewrite E in *.
  destruct (decide (n < 4)%nat) as [Hs|Hs].
  { rewrite read_exact_short; [done|]. unfold len. rewrite length_take. lia. }
  replace n with (length [a; b; c; d] + (n - 4))%nat by (cbn; lia). rewrite take_app_add.
  change 4 with (len [a; b; c; d]). rewrite read_exact_app. cbn [nth]. rewrite Ev.
  destruct (l <=? FRAME_MAX); cbn [negb]; [|done]. rewrite read_exact_short; [done|].
  rewrite length_app in Hn. cbn in Hn. unfold l, len. rewrite length_take. lia.
Qed.

(** A message whose encoding has at most 65536 bytes is received as it was
    sent, also when the peer appends to it; a larger one, which the sender frames
    and sends all the same, is refused by every receiver; and a stream cut short
    anywhere is an error. *)
Theorem control_frame_delivered (m : T) (rest : list Z) (n : nat) :
  len (to_vec_named m) < 2 ^ 32 -> (n < length (frame m))%nat ->
  recv_framed (frame m ++ rest)%list
  = (if len (to_vec_named m) <=? FRAME_MAX then Ok m else Err FrameTooLarge)
  /\ is_ok (recv_framed (T := T) (take n (frame m))) = false.
Proof.
  intros Hl Hn. split; [by apply recv_frame|]. by apply recv_cut.
Qed.

End FrameProofs.

(** Text as a message type. *)
Module DemoFrames.
#[export] Instance text_codec : FrameCodec string := {
  to_vec_named := as_bytes;
  from_slice l := Some (utf8 l);
}.
#[export] Instance text_codec_laws : FrameCodecLaws string.
Proof. split; [apply as_bytes_ok|]. intros s. cbn. by rewrite utf8_as_bytes. Qed.
End DemoFrames.
Import DemoFrames.

Lemma control_frame_delivered_witness :
  recv_framed (T := string) (frame (T := string) "hello" ++ [1; 2])%list = Ok "hello"
  /\ is_ok (recv_framed (T := string) (take 7 (frame (T := string) "hello"))) = false.
Proof. exact (control_frame_delivered "hello" [1; 2] 7 eq_refl ltac:(by_decide)). Defined.
