(* ===== verification/Blob.v ===== *)
(** * The signed group blob (src/src/membership.rs)

    The one authoritative record of a network: its canonical encoding and hash,
    its decoding with the checks at the trust boundary, the tombstone a destroyed
    network leaves behind, the tables of reusable keys and single-use invites,
    and the count of proposals that decides on destroying a network.

    A [BTreeMap] is a [gmap] read in the order of its keys ([btree_iter]). *)

From S2P Require Import Prelude Externs Addressing Codecs Invite Members.

(** ** The blob *)
Record GroupBlob := mkGroupBlob {
  gb_generation : Z;
  gb_members : list Member;
  gb_approved : list ApprovedEntry;
  gb_name : option string;
  gb_subnet : option Subnet;
  gb_reusable_keys : gmap string ReusableKey;
  gb_invites : gmap string InviteEntry;
  gb_nuke_proposals : gmap string Z;
  gb_nuke_consensus_threshold : Z;
}.

(** The fields as the serializer sees them: the subnet goes through [cidr_opt]. *)
Record GroupBlobWire := mkGroupBlobWire {
  gw_generation : Z;
  gw_members : list Member;
  gw_approved : list ApprovedEntry;
  gw_name : option string;
  gw_subnet : option string;
  gw_reusable_keys : gmap string ReusableKey;
  gw_invites : gmap string InviteEntry;
  gw_nuke_proposals : gmap string Z;
  gw_nuke_consensus_threshold : Z;
}.

Definition to_wire (b : GroupBlob) : GroupBlobWire :=
  mkGroupBlobWire (gb_generation b) (gb_members b) (gb_approved b) (gb_name b)
    (cidr_opt_serialize (gb_subnet b)) (gb_reusable_keys b) (gb_invites b) (gb_nuke_proposals b)
    (gb_nuke_consensus_threshold b).

Definition from_wire (w : GroupBlobWire) : option GroupBlob :=
  match cidr_opt_deserialize (gw_subnet w) with
  | Err _ => None
  | Ok subnet =>
      Some (mkGroupBlob (gw_generation w) (gw_members w) (gw_approved w) (gw_name w) subnet
              (gw_reusable_keys w) (gw_invites w) (gw_nuke_proposals w)
              (gw_nuke_consensus_threshold w))
  end.

(** Values of the Rust types: integers within their width, text in UTF-8. *)
Definition text_ok (s : string) : Prop := utf8_valid (as_bytes s) = true.
Definition opt_ok {A} (P : A -> Prop) (o : option A) : Prop :=
  match o with Some a => P a | None => True end.

Definition member_ok (m : Member) : Prop :=
  is_u32 (m_ip m) /\ is_u32 (m_collision_index m) /\ opt_ok text_ok (m_hostname m)
  /\ opt_ok is_u64 (m_last_seen m) /\ opt_ok text_ok (m_veilid_node_id m).

Definition approved_ok (a : ApprovedEntry) : Prop :=
  is_u32 (a_ip a) /\ is_u32 (a_collision_index a) /\ opt_ok text_ok (a_hostname a).

Definition reusable_ok (k : ReusableKey) : Prop :=
  text_ok (rk_id k) /\ is_u64 (rk_created k) /\ is_u64 (rk_expires k).

Definition invite_ok (k : InviteEntry) : Prop :=
  text_ok (ie_id k) /\ is_u64 (ie_created k) /\ is_u64 (ie_expires k).

Definition table_ok {V} (P : V -> Prop) (m : gmap string V) : Prop :=
  map_Forall (fun k v => text_ok k /\ P v) m.

Definition wire_ok (w : GroupBlobWire) : Prop :=
  is_u64 (gw_generation w) /\ Forall member_ok (gw_members w) /\ Forall approved_ok (gw_approved w)
  /\ opt_ok text_ok (gw_name w) /\ opt_ok text_ok (gw_subnet w)
  /\ table_ok reusable_ok (gw_reusable_keys w) /\ table_ok invite_ok (gw_invites w)
  /\ table_ok is_u64 (gw_nuke_proposals w) /\ is_u32 (gw_nuke_consensus_threshold w).

(** [rmp_serde::to_vec_named] and [rmp_serde::from_slice] at this type. *)
Class GroupBlobCodec := {
  rmp_to_vec_named : GroupBlobWire -> list Z;
  rmp_from_slice : list Z -> option GroupBlobWire;
}.

Class GroupBlobCodecLaws `{GroupBlobCodec} : Prop := {
  (** What is written reads back. *)
  rmp_roundtrip : forall w, wire_ok w -> rmp_from_slice (rmp_to_vec_named w) = Some w;
  (** What reads is a value of the type. *)
  rmp_from_slice_ok : forall l w, rmp_from_slice l = Some w -> wire_ok w;
}.

(** ** Encoding *)
Section Encode.
Context `{IrohKeys, Blake3, GroupBlobCodec}.

Definition member_str_leb (a b : Member) : bool :=
  string_leb (id_to_string (m_identity a)) (id_to_string (m_identity b)).

Definition approved_str_leb (a b : ApprovedEntry) : bool :=
  string_leb (id_to_string (a_identity a)) (id_to_string (a_identity b)).

(** The blob for rosters iterated in the orders [ms] and [aps]. *)
Definition canonical_blob (generation : Z) (ms : list Member) (aps : list ApprovedEntry)
  (name : option string) (reusable_keys : gmap string ReusableKey) (subnet : option Subnet)
  (invites : gmap string InviteEntry) (nuke_proposals : gmap string Z)
  (nuke_consensus_threshold : Z) : GroupBlob :=
  mkGroupBlob generation (sort_by member_str_leb ms) (sort_by approved_str_leb aps) name subnet
    reusable_keys invites nuke_proposals nuke_consensus_threshold.

Definition canonical_group_bytes (generation : Z) (members : MemberList) (approved : ApprovedList)
  (name : option string) (reusable_keys : gmap string ReusableKey) (subnet : option Subnet)
  (invites : gmap string InviteEntry) (nuke_proposals : gmap string Z)
  (nuke_consensus_threshold : Z) : list Z :=
  rmp_to_vec_named (to_wire (canonical_blob generation (MemberListM.all members)
    (ApprovedListM.all approved) name reusable_keys subnet invites nuke_proposals
    nuke_consensus_threshold)).

Definition group_blob_hash (generation : Z) (members : MemberList) (approved : ApprovedList)
  (name : option string) (reusable_keys : gmap string ReusableKey) (subnet : option Subnet)
  (invites : gmap string InviteEntry) (nuke_proposals : gmap string Z)
  (nuke_consensus_threshold : Z) : Hash :=
  blake3_hash (canonical_group_bytes generation members approved name reusable_keys subnet invites
    nuke_proposals nuke_consensus_threshold).

Definition default_nuke_consensus_threshold : Z := 2.

(** ** Decoding *)
Inductive BlobError :=
| InvalidGroupBlob
| InvalidEntry (e : RosterError)
| HashMismatch.

Definition from_slice (bytes : list Z) : option GroupBlob :=
  match rmp_from_slice bytes with Some w => from_wire w | None => None end.

(** The [for] loops of [decode_group_blob]: the first failure ends them. *)
Fixpoint validate_each {A} (f : A -> Result unit RosterError) (l : list A) : Result unit BlobError :=
  match l with
  | [] => Ok tt
  | x :: l' => match f x with Ok _ => validate_each f l' | Err e => Err (InvalidEntry e) end
  end.

Definition decode_group_blob (bytes : list Z) : Result GroupBlob BlobError :=
  match from_slice bytes with
  | None => Err InvalidGroupBlob
  | Some blob =>
      let subnet := resolve_subnet (gb_subnet blob) in
      _ <-? validate_each (fun m => validate_member m subnet) (gb_members blob);
      _ <-? validate_each (fun a => validate_approved a subnet) (gb_approved blob);
      Ok blob
  end.

Definition verify_group_blob (bytes : list Z) (expected_hash : Hash) : Result GroupBlob BlobError :=
  if bool_decide (blake3_hash bytes = expected_hash) then decode_group_blob bytes
  else Err HashMismatch.

Definition tombstone_bytes (generation : Z) : list Z :=
  canonical_group_bytes generation ∅ ∅ None ∅ None ∅ ∅ default_nuke_consensus_threshold.

Definition try_decode_tombstone (signed : Hash) (generation : Z) : option GroupBlob :=
  let bytes := tombstone_bytes generation in
  if bool_decide (blake3_hash bytes = signed) then from_slice bytes else None.

Definition trusted_reconverge_hash (current : option Hash) (signed : Hash) : option Hash :=
  if bool_decide (current = Some signed) then None else Some signed.

(** ** Reusable keys and invites *)
Inductive RevokeError := NoMatch | Ambiguous.

(** The hashes of the entries whose id is, or starts with, [id]. *)
Definition matching {V} (get_id : V -> string) (table : gmap string V) (id : string) : list string :=
  (List.filter (fun kv => String.eqb (get_id kv.2) id || starts_with (get_id kv.2) id)
     (btree_iter table)).*1.

Definition revoke_reusable (keys : gmap string ReusableKey) (id : string)
  : Result (gmap string ReusableKey) RevokeError :=
  match matching rk_id keys id with
  | [] => Err NoMatch
  | [hash] =>
      Ok (alter (fun k => mkReusableKey (rk_id k) (rk_created k) (rk_expires k) true) hash keys)
  | _ => Err Ambiguous
  end.

Definition validate_reusable_key (keys : gmap string ReusableKey) (secret : list Z) (now : Z)
  : option ReusableKey :=
  key ← keys !! secret_hash secret;
  if rk_revoked key || (rk_expires key <=? now) then None else Some key.

Definition revoke_invite (invites : gmap string InviteEntry) (id : string)
  : Result (gmap string InviteEntry) RevokeError :=
  match matching ie_id invites id with
  | [] => Err NoMatch
  | [hash] =>
      Ok (alter (fun k => mkInviteEntry (ie_id k) (ie_created k) (ie_expires k) true) hash invites)
  | _ => Err Ambiguous
  end.

Definition validate_invite (invites : gmap string InviteEntry) (secret : list Z) (now : Z)
  : option InviteEntry :=
  entry ← invites !! secret_hash secret;
  if ie_revoked entry || (0 <? ie_expires entry) && (ie_expires entry <=? now)
  then None else Some entry.

(** The table after the call, and what the call returns. *)
Definition consume_invite (invites : gmap string InviteEntry) (secret : list Z) (now : Z)
  : gmap string InviteEntry * option InviteEntry :=
  match validate_invite invites secret now with
  | None => (invites, None)
  | Some _ => (delete (secret_hash secret) invites, invites !! secret_hash secret)
  end.

Definition restore_invite (invites : gmap string InviteEntry) (secret : list Z)
  (entry : InviteEntry) (now : Z) : gmap string InviteEntry * bool :=
  if (0 <? ie_expires entry) && (ie_expires entry <=? now) then (invites, false)
  else
    let key := secret_hash secret in
    if bool_decide (is_Some (invites !! key)) then (invites, false)
    else (<[key := entry]> invites, true).

Definition blob_validate_reusable (b : GroupBlob) (secret : list Z) (now : Z) : option ReusableKey :=
  validate_reusable_key (gb_reusable_keys b) secret now.

Definition blob_validate_invite (b : GroupBlob) (secret : list Z) (now : Z) : option InviteEntry :=
  validate_invite (gb_invites b) secret now.

End Encode.

(** ** Nuke proposals *)
Definition NUKE_PROPOSAL_TTL_SECS : Z := 24 * 60 * 60.

Definition coordinator_count (members : list Member) : nat :=
  length (List.filter m_is_coordinator members).

Definition active_nuke_proposers (proposals : gmap string Z) (now ttl_secs : Z) : list string :=
  (List.filter (fun kv => saturating_sub now kv.2 <? ttl_secs) (btree_iter proposals)).*1.

Definition nuke_consensus_reached (proposals : gmap string Z) (now threshold ttl_secs : Z) : bool :=
  threshold <=? Z.of_nat (length (active_nuke_proposers proposals now ttl_secs)).

Definition resolve_nuke_proposer (proposals : gmap string Z) (now ttl_secs : Z) (short : string)
  : Result string RevokeError :=
  match List.filter (fun id => starts_with id short) (active_nuke_proposers proposals now ttl_secs) with
  | [] => Err NoMatch
  | [id] => Ok id
  | _ => Err Ambiguous
  end.

(** ** Rosters rebuilt from a list *)
Lemma from_members_acc ms (l : MemberList) :
  roster_wf l -> NoDup (m_identity <$> ms) -> NoDup (m_ip <$> ms) ->
  (forall m, m ∈ ms -> l !! m_identity m = None /\ ip_free_for l (m_identity m) (m_ip m)) ->
  forall id, fold_left MemberListM.add_ignore ms l !! id
    = match List.find (fun m => bool_decide (m_identity m = id)) ms with
      | Some m => Some m
      | None => l !! id
      end.
Proof.
  revert l. induction ms as [|m ms IH]; intros l Hwf; csimpl; [done|].
  rewrite !NoDup_cons. intros [Hid Hids] [Hip Hips] Hfree id.
  assert (MemberListM.add_ignore l m = <[m_identity m := m]> l) as ->.
  { unfold MemberListM.add_ignore. rewrite (proj2 (add_ok_iff l m Hwf)); [done|].
    apply Hfree. left. }
  rewrite IH; [| |done|done|].
  - case_bool_decide as Hc.
    + destruct (List.find _ ms) as [m'|] eqn:E.
      * apply List.find_some in E as [Hin Hm']. apply bool_decide_eq_true in Hm'.
        destruct Hid. rewrite Hc, <- Hm'. apply list_elem_of_fmap_2. by apply list_elem_of_In.
      * by rewrite <- Hc, lookup_insert_eq.
    + by rewrite lookup_insert_ne.
  - apply roster_wf_insert; [done|]. apply Hfree. left.
  - intros m' Hm'. destruct (Hfree m' ltac:(by right)) as [Hnone Hf]. split.
    + rewrite lookup_insert_ne; [done|]. intros E. apply Hid. rewrite E. by apply list_elem_of_fmap_2.
    + intros i mm. rewrite lookup_insert. case_decide as Hi; [|by apply Hf].
      intros [= <-] E. destruct Hip. rewrite E. by apply list_elem_of_fmap_2.
Qed.

(** A roster comes back from the list of its members in any order. *)
Lemma from_members_all (members : MemberList) ms :
  roster_wf members -> ms ≡ₚ MemberListM.all members -> MemberListM.from_members ms = members.
Proof.
  intros Hwf Hp. apply map_eq. intros id. unfold MemberListM.from_members.
  rewrite from_members_acc; [|by eauto with tetron|rewrite Hp; by apply all_identities
    |rewrite Hp; by apply all_ips|].
  - destruct (List.find _ ms) as [m|] eqn:E.
    + apply List.find_some in E as [Hin Hid]. apply bool_decide_eq_true in Hid.
      apply list_elem_of_In in Hin. rewrite Hp, elem_of_all in Hin. destruct Hin as [i Hi].
      pose proof (proj1 Hwf i m Hi). congruence.
    + rewrite lookup_empty. destruct (members !! id) as [m|] eqn:Em; [|done]. exfalso.
      pose proof (proj1 Hwf id m Em). assert (m ∈ ms) as Hin by (rewrite Hp; apply elem_of_all; eauto).
      apply list_elem_of_In in Hin. apply (List.find_none _ _ E) in Hin. by btac.
  - intros m _. split; [apply lookup_empty|]. intros i m'. by rewrite lookup_empty.
Qed.

(** Nobody is in a rebuilt roster who was not in the list. *)
Lemma from_members_elem ms id m :
  MemberListM.from_members ms !! id = Some m -> m ∈ ms /\ m_identity m = id.
Proof.
  unfold MemberListM.from_members.
  enough (forall l : MemberList, fold_left MemberListM.add_ignore ms l !! id = Some m ->
    l !! id = Some m \/ (m ∈ ms /\ m_identity m = id)) as Hgen.
  { intros E. destruct (Hgen _ E) as [E0|?]; [|done]. by rewrite lookup_empty in E0. }
  induction ms as [|x ms IH]; intros l E; cbn [fold_left] in E; [by left|].
  destruct (IH _ E) as [E'|[Hin Hid]]; [|right; split; [by right|done]].
  assert (MemberListM.add_ignore l x = l \/ MemberListM.add_ignore l x = <[m_identity x := x]> l) as [Ea|Ea]
    by (unfold MemberListM.add_ignore, MemberListM.add; repeat case_match; simplify_eq; auto);
    rewrite Ea in E'; [by left|].
  apply lookup_insert_Some in E' as [[<- <-]|[_ ?]]; [right; split; [left|done]|by left].
Qed.

(** Approved entries are filed under their own identity. *)
Definition approved_wf (entries : ApprovedList) : Prop :=
  forall id a, entries !! id = Some a -> a_identity a = id.

Lemma approved_all_pairs (entries : ApprovedList) :
  approved_wf entries ->
  (fun a => (a_identity a, a)) <$> ApprovedListM.all entries = map_to_list entries.
Proof.
  intros Hwf. unfold ApprovedListM.all. rewrite <- list_fmap_compose.
  rewrite <- (list_fmap_id (map_to_list entries)) at 2. apply list_fmap_ext.
  intros i [id a] Hl. apply list_elem_of_lookup_2, elem_of_map_to_list in Hl. simpl.
  by rewrite (Hwf _ _ Hl).
Qed.

Lemma approved_identities (entries : ApprovedList) :
  approved_wf entries -> NoDup (a_identity <$> ApprovedListM.all entries).
Proof.
  intros Hwf. assert (a_identity <$> ApprovedListM.all entries = (map_to_list entries).*1) as ->.
  { rewrite <- approved_all_pairs by done. by rewrite <- list_fmap_compose. }
  apply NoDup_fst_map_to_list.
Qed.

Lemma from_entries_all (entries : ApprovedList) es :
  approved_wf entries -> es ≡ₚ ApprovedListM.all entries -> ApprovedListM.from_entries es = entries.
Proof.
  intros Hwf Hp. unfold ApprovedListM.from_entries.
  assert (forall es (l : ApprovedList), fold_left (fun l e => <[a_identity e := e]> l) es l
    = list_to_map (reverse ((fun a => (a_identity a, a)) <$> es)) ∪ l) as Hfold.
  { intros es'. induction es' as [|e es' IH]; intros l; csimpl; [by rewrite (left_id_L ∅ _)|].
    rewrite IH, reverse_cons, list_to_map_app. simpl. rewrite insert_empty, insert_union_singleton_l.
    by rewrite (assoc_L (∪)). }
  rewrite Hfold, (right_id_L ∅ _). rewrite <- (list_to_map_to_list entries).
  apply list_to_map_proper.
  - rewrite fmap_reverse, <- list_fmap_compose. rewrite reverse_Permutation.
    change ((fst ∘ (fun a => (a_identity a, a))) <$> es) with (a_identity <$> es).
    rewrite Hp. by apply approved_identities.
  - rewrite reverse_Permutation, Hp. by rewrite approved_all_pairs.
Qed.

#[global] Instance text_ok_dec s : Decision (text_ok s).
Proof. unfold text_ok. apply _. Defined.
#[global] Instance opt_ok_dec {A} (P : A -> Prop) `{forall a, Decision (P a)} o : Decision (opt_ok P o).
Proof. destruct o; simpl; apply _. Defined.
#[global] Instance member_ok_dec m : Decision (member_ok m).
Proof. unfold member_ok. apply _. Defined.
#[global] Instance approved_ok_dec a : Decision (approved_ok a).
Proof. unfold approved_ok. apply _. Defined.
#[global] Instance reusable_ok_dec k : Decision (reusable_ok k).
Proof. unfold reusable_ok. apply _. Defined.
#[global] Instance invite_ok_dec k : Decision (invite_ok k).
Proof. unfold invite_ok. apply _. Defined.
#[global] Instance table_ok_dec {V} (P : V -> Prop) `{forall v, Decision (P v)} m : Decision (table_ok P m).
Proof. unfold table_ok. apply _. Defined.
#[global] Instance wire_ok_dec w : Decision (wire_ok w).
Proof. unfold wire_ok. apply _. Defined.

Section Blob.
Context `{IrohKeys, !IrohKeysLaws, Blake3, GroupBlobCodec, !GroupBlobCodecLaws}.

Lemma validate_each_ok {A} (f : A -> Result unit RosterError) l :
  validate_each f l = Ok tt <-> Forall (fun x => f x = Ok tt) l.
Proof.
  induction l as [|x l IH]; simpl; [by split|]. rewrite Forall_cons, <- IH.
  destruct (f x) as [[]|]; [intuition|]. split; [done|]. by intros [? _].
Qed.

Lemma from_slice_to_vec b :
  opt_ok (fun s => is_u32 s.1 /\ 0 <= s.2 <= 32) (gb_subnet b) -> wire_ok (to_wire b) ->
  from_slice (rmp_to_vec_named (to_wire b)) = Some b.
Proof.
  intros Hs Hw. unfold from_slice. rewrite rmp_roundtrip by done. unfold from_wire, to_wire; simpl.
  destruct b as [gen ms aps name sub keys invs props thr]; simpl in *.
  destruct sub as [[base p]|]; simpl in *; [|done].
  unfold cidr_opt_deserialize. rewrite parse_format_cidr by tauto. done.
Qed.

Lemma decode_group_blob_ok bytes b :
  decode_group_blob bytes = Ok b <->
  from_slice bytes = Some b
  /\ Forall (fun m => validate_member m (resolve_subnet (gb_subnet b)) = Ok tt) (gb_members b)
  /\ Forall (fun a => validate_approved a (resolve_subnet (gb_subnet b)) = Ok tt) (gb_approved b).
Proof.
  unfold decode_group_blob. destruct (from_slice bytes) as [b'|]; [|split; [done|by intros [? _]]].
  split.
  - intros ([] & Hms & ([] & Has & [= <-])%rbind_ok)%rbind_ok.
    apply validate_each_ok in Hms, Has. done.
  - intros ([= <-] & Hms & Has). apply validate_each_ok in Hms, Has. by rewrite Hms, Has.
Qed.

(** The canonical form does not depend on the order in which the two hash maps
    are iterated. *)
Lemma canonical_blob_any_order gen (members : MemberList) (approved : ApprovedList) name keys
  subnet invites proposals threshold ms aps :
  roster_wf members -> approved_wf approved ->
  ms ≡ₚ MemberListM.all members -> aps ≡ₚ ApprovedListM.all approved ->
  canonical_blob gen ms aps name keys subnet invites proposals threshold
  = canonical_blob gen (MemberListM.all members) (ApprovedListM.all approved) name keys subnet
      invites proposals threshold.
Proof.
  intros Hm Ha Hms Haps. unfold canonical_blob, member_str_leb, approved_str_leb. f_equal.
  - apply (sort_by_string_key (fun m => id_to_string (m_identity m))); [|done].
    rewrite Hms. change (fun m => id_to_string (m_identity m)) with (id_to_string ∘ m_identity).
    rewrite list_fmap_compose. apply (NoDup_fmap_2 _). by apply all_identities.
  - apply (sort_by_string_key (fun a => id_to_string (a_identity a))); [|done].
    rewrite Haps. change (fun a => id_to_string (a_identity a)) with (id_to_string ∘ a_identity).
    rewrite list_fmap_compose. apply (NoDup_fmap_2 _). by apply approved_identities.
Qed.

Lemma member_validates_all (P : Member -> Prop) (members : MemberList) l :
  map_Forall (fun _ m => P m) members -> l ≡ₚ MemberListM.all members -> Forall P l.
Proof.
  intros Hall Hp. apply Forall_forall. intros m Hm. rewrite Hp, elem_of_all in Hm.
  destruct Hm as [id Hid]. by apply (Hall id).
Qed.

Lemma approved_validates_all (P : ApprovedEntry -> Prop) (approved : ApprovedList) l :
  map_Forall (fun _ a => P a) approved -> l ≡ₚ ApprovedListM.all approved -> Forall P l.
Proof.
  intros Hall Hp. apply Forall_forall. intros a Ha. rewrite Hp in Ha. unfold ApprovedListM.all in Ha.
  apply list_elem_of_fmap in Ha as ([id a'] & -> & Hin). apply elem_of_map_to_list in Hin.
  by apply (Hall id).
Qed.

Section Published.
Context (gen : Z) (members : MemberList) (approved : ApprovedList) (name : option string)
  (keys : gmap string ReusableKey) (subnet : option Subnet) (invites : gmap string InviteEntry)
  (proposals : gmap string Z) (threshold : Z).

(** The bytes published for a network depend on its contents only: whatever
    order the member and approved hash maps are iterated in, every holder of the
    same state computes the same bytes and hence the same signed hash. *)
Theorem canonical_bytes_any_order (ms : list Member) (aps : list ApprovedEntry) :
  roster_wf members -> approved_wf approved ->
  ms ≡ₚ MemberListM.all members -> aps ≡ₚ ApprovedListM.all approved ->
  rmp_to_vec_named (to_wire (canonical_blob gen ms aps name keys subnet invites proposals threshold))
  = canonical_group_bytes gen members approved name keys subnet invites proposals threshold.
Proof. intros. unfold canonical_group_bytes. by rewrite (canonical_blob_any_order gen members approved). Qed.

(** C4: what a coordinator publishes, any node that fetches the bytes and checks
    them against the signed hash gets back exactly: the same generation, member
    and approved rosters, name, subnet, key and invite tables, proposals and
    threshold, provided every entry passes the roster check. *)
Theorem published_blob_reads_back :
  roster_wf members -> approved_wf approved ->
  opt_ok (fun s => is_u32 s.1 /\ 0 <= s.2 <= 32) subnet ->
  map_Forall (fun _ m => validate_member m (resolve_subnet subnet) = Ok tt) members ->
  map_Forall (fun _ a => validate_approved a (resolve_subnet subnet) = Ok tt) approved ->
  wire_ok (to_wire (canonical_blob gen (MemberListM.all members) (ApprovedListM.all approved) name
                      keys subnet invites proposals threshold)) ->
  exists b,
    verify_group_blob
      (canonical_group_bytes gen members approved name keys subnet invites proposals threshold)
      (group_blob_hash gen members approved name keys subnet invites proposals threshold) = Ok b
    /\ MemberListM.from_members (gb_members b) = members
    /\ ApprovedListM.from_entries (gb_approved b) = approved
    /\ (gb_generation b, gb_name b, gb_subnet b) = (gen, name, subnet)
    /\ (gb_reusable_keys b, gb_invites b) = (keys, invites)
    /\ (gb_nuke_proposals b, gb_nuke_consensus_threshold b) = (proposals, threshold).
Proof.
  intros Hm Ha Hs Hmv Hav Hw. eexists. split.
  - unfold verify_group_blob, group_blob_hash. rewrite bool_decide_eq_true_2 by done.
    apply decode_group_blob_ok. unfold canonical_group_bytes. split; [by apply from_slice_to_vec|].
    simpl. split.
    + eapply member_validates_all; [exact Hmv|apply sort_by_perm].
    + eapply approved_validates_all; [exact Hav|apply sort_by_perm].
  - simpl. split; [apply from_members_all; [done|apply sort_by_perm]|].
    split; [apply from_entries_all; [done|apply sort_by_perm]|done].
Qed.
End Published.

(** C20: a blob that passes [verify_group_blob] is the one the signed hash commits
    to, and every member and approved entry of it carries the address its
    identity and index derive in the blob's own subnet, inside the subnet and
    off the network and gateway addresses: no publisher can bind an identity to
    an address of its choosing. *)
Theorem verify_group_blob_sound (bytes : list Z) (expected : Hash) (b : GroupBlob) :
  verify_group_blob bytes expected = Ok b ->
  let subnet := resolve_subnet (gb_subnet b) in
  let base := Z.land subnet.1 (u32_not (subnet_host_mask subnet.2)) in
  blake3_hash bytes = expected
  /\ (forall m, m ∈ gb_members b ->
        m_ip m = derive_ip_with_index (m_identity m) (m_collision_index m) subnet
        /\ ip_in_subnet (m_ip m) subnet = true /\ m_ip m <> base /\ m_ip m <> wrap 32 (base + 1))
  /\ (forall a, a ∈ gb_approved b ->
        a_ip a = derive_ip_with_index (a_identity a) (a_collision_index a) subnet
        /\ ip_in_subnet (a_ip a) subnet = true /\ a_ip a <> base /\ a_ip a <> wrap 32 (base + 1)).
Proof.
  intros Hv subnet base. unfold verify_group_blob in Hv. case_bool_decide as Hh; [|done].
  apply decode_group_blob_ok in Hv as (_ & Hms & Has). fold subnet in Hms, Has.
  split; [done|]. destruct subnet as [sb sp].
  rewrite Forall_forall in Hms. rewrite Forall_forall in Has. split.
  - intros m Hin%Hms. apply validate_member_ok in Hin as [? Hr].
    by apply ensure_in_cgnat_range_ok in Hr.
  - intros a Hin%Has. apply validate_approved_ok in Hin as [? Hr].
    by apply ensure_in_cgnat_range_ok in Hr.
Qed.

(** The blob a destroyed network ends in. *)
Definition tombstone (generation : Z) : GroupBlob :=
  mkGroupBlob generation [] [] None None ∅ ∅ ∅ default_nuke_consensus_threshold.

(** A node that resolves a signed hash and generation recognises a tombstone
    without fetching anything: the reconstruction succeeds exactly when the hash
    is the tombstone's, and then yields a blob of that generation with no members
    and nothing else in it. *)
Theorem tombstone_recognised (signed : Hash) (generation : Z) :
  is_u64 generation ->
  try_decode_tombstone signed generation
  = if bool_decide (blake3_hash (tombstone_bytes generation) = signed)
    then Some (tombstone generation) else None.
Proof.
  intros Hg. unfold try_decode_tombstone. case_bool_decide; [|done].
  change (tombstone_bytes generation) with (rmp_to_vec_named (to_wire (tombstone generation))).
  apply from_slice_to_vec; [done|]. unfold wire_ok, table_ok; simpl.
  repeat split; try (by apply map_Forall_empty) || constructor || done || lia.
  all: unfold in_width in Hg; lia.
Qed.

End Blob.

(** ** Invite tables *)
Lemma matching_elem {V} (get_id : V -> string) table id h :
  h ∈ matching get_id table id
  <-> exists e, table !! h = Some e /\ (get_id e = id \/ starts_with (get_id e) id = true).
Proof.
  unfold matching. rewrite list_elem_of_fmap. split.
  - intros ([k e] & -> & Hin). apply list_elem_of_In, List.filter_In in Hin as [Hin Hm].
    apply list_elem_of_In in Hin. rewrite btree_iter_perm in Hin. apply elem_of_map_to_list in Hin.
    exists e. split; [done|]. simpl in Hm. apply orb_true_iff in Hm as [Hm%String.eqb_eq|Hm]; auto.
  - intros (e & He & Hm). exists (h, e). split; [done|]. apply list_elem_of_In, List.filter_In.
    split; [apply list_elem_of_In; rewrite btree_iter_perm; by apply elem_of_map_to_list|].
    apply orb_true_iff. simpl. rewrite String.eqb_eq. tauto.
Qed.

Lemma filter_fst_NoDup {V} (f : string * V -> bool) (m : gmap string V) :
  NoDup (List.filter f (btree_iter m)).*1.
Proof.
  assert (NoDup (btree_iter m).*1) as Hnd by (rewrite btree_iter_perm; apply NoDup_fst_map_to_list).
  induction (btree_iter m) as [|kv l IH]; csimpl in *; [done|].
  apply NoDup_cons in Hnd as [Hk Hnd]. destruct (f kv); csimpl; [|by apply IH].
  apply NoDup_cons. split; [|by apply IH]. intros Hin. apply Hk.
  apply list_elem_of_fmap in Hin as (kv' & E & Hin). apply list_elem_of_In, List.filter_In in Hin as [Hin _].
  rewrite E. apply list_elem_of_fmap_2. by apply list_elem_of_In.
Qed.

Lemma matching_NoDup {V} (get_id : V -> string) table id : NoDup (matching get_id table id).
Proof. apply filter_fst_NoDup. Qed.

(** Requests presenting secrets at given times, handled one after the other
    under the table's lock. *)
Section Invites.
Context `{Blake3}.

Fixpoint run_consumes (invites : gmap string InviteEntry) (reqs : list (list Z * Z))
  : list (option InviteEntry) :=
  match reqs with
  | [] => []
  | (secret, now) :: rest =>
      let '(invites', r) := consume_invite invites secret now in r :: run_consumes invites' rest
  end.

Lemma validate_invite_Some invites secret now e :
  validate_invite invites secret now = Some e
  <-> invites !! secret_hash secret = Some e /\ ie_revoked e = false
      /\ (ie_expires e = 0 \/ ie_expires e < 0 \/ now < ie_expires e).
Proof.
  unfold validate_invite. destruct (invites !! secret_hash secret) as [e'|] eqn:E; simpl;
    [|split; [done|by intros [? _]]].
  destruct (ie_revoked e') eqn:Hr; simpl; [split; [done|intros ([= ->] & ? & _); congruence]|].
  destruct (Z.ltb_spec 0 (ie_expires e')), (Z.leb_spec (ie_expires e') now); simpl;
    split; intros Hx; try (injection Hx as <-); try done; try (destruct Hx as ([= ->] & _ & Hx)); try done;
    try lia; (split; [done|split; [done|lia]]).
Qed.

Lemma consume_invite_cases invites secret now :
  (validate_invite invites secret now = None /\ consume_invite invites secret now = (invites, None))
  \/ (exists e, validate_invite invites secret now = Some e
        /\ invites !! secret_hash secret = Some e
        /\ consume_invite invites secret now = (delete (secret_hash secret) invites, Some e)).
Proof.
  unfold consume_invite. destruct (validate_invite invites secret now) as [e|] eqn:E; [right|by left].
  exists e. pose proof E as (-> & _)%validate_invite_Some. done.
Qed.

Lemma run_consumes_absent invites reqs h i secret now :
  invites !! h = None -> reqs !! i = Some (secret, now) -> secret_hash secret = h ->
  run_consumes invites reqs !! i = Some None.
Proof.
  revert invites i. induction reqs as [|[s t] reqs IH]; intros invites i Hh Hi Hs; [done|]. simpl.
  destruct (consume_invite_cases invites s t) as [[Hv ->]|(e & Hv & He & ->)].
  - destruct i as [|i]; [done|]. by apply IH.
  - destruct i as [|i]; simpl in *; [simplify_eq; congruence|].
    apply IH; [|done|done]. rewrite lookup_delete_None. auto.
Qed.

(** Every success is for an entry of the initial table that was valid at the
    time, and the first success for an entry is the only one. *)
Lemma run_consumes_success invites reqs i secret now e :
  reqs !! i = Some (secret, now) -> run_consumes invites reqs !! i = Some (Some e) ->
  validate_invite invites secret now = Some e.
Proof.
  revert invites i. induction reqs as [|[s t] reqs IH]; intros invites i Hi; [done|]. simpl.
  destruct (consume_invite_cases invites s t) as [[Hv ->]|(e' & Hv & He & ->)];
    (destruct i as [|i]; simpl in *; [by intros; simplify_eq|]).
  - by apply IH.
  - intros Hr. specialize (IH _ _ Hi Hr). apply validate_invite_Some in IH as [Hl ?].
    apply validate_invite_Some. split; [|done]. by apply lookup_delete_Some in Hl as [_ ?].
Qed.

Lemma run_consumes_once invites reqs i j si sj ti tj e :
  (i < j)%nat -> reqs !! i = Some (si, ti) -> reqs !! j = Some (sj, tj) ->
  secret_hash si = secret_hash sj -> run_consumes invites reqs !! i = Some (Some e) ->
  run_consumes invites reqs !! j = Some None.
Proof.
  revert invites i j. induction reqs as [|[s t] reqs IH]; intros invites i j Hij Hi Hj Hs; [done|].
  simpl. destruct j as [|j]; [lia|]. destruct i as [|i]; simpl in *.
  - simplify_eq. destruct (consume_invite_cases invites si ti) as [[_ ->]|(e' & _ & _ & ->)]; [done|].
    intros _. apply (run_consumes_absent _ _ (secret_hash sj) _ sj tj); [|done|done].
    rewrite <- Hs. apply lookup_delete_eq.
  - destruct (consume_invite invites s t) as [invites' r]. simpl. apply IH; [lia|done..].
Qed.


Lemma restore_consumed (invites invites' : gmap string InviteEntry) secret now later e :
  consume_invite invites secret now = (invites', Some e) ->
  restore_invite invites' secret e later
  = (if (0 <? ie_expires e) && (ie_expires e <=? later) then (invites', false) else (invites, true)).
Proof.
  destruct (consume_invite_cases invites secret now) as [[_ ->]|(e' & _ & He & ->)]; [done|].
  intros [= <- <-]. unfold restore_invite.
  destruct (_ && _); [done|]. rewrite bool_decide_eq_false_2.
  - by rewrite insert_delete_eq, insert_id.
  - rewrite lookup_delete_eq. by intros [? ?].
Qed.

(** An invite that was burned for a join that then failed is put back exactly:
    the table is what it was before, unless the invite has expired meanwhile. *)
Theorem consume_then_restore (invites invites' : gmap string InviteEntry) (secret : list Z)
  (now later : Z) (e : InviteEntry) :
  consume_invite invites secret now = (invites', Some e) ->
  invites' !! secret_hash secret = None
  /\ restore_invite invites' secret e later
     = (if (0 <? ie_expires e) && (ie_expires e <=? later) then (invites', false) else (invites, true)).
Proof.
  intros Hc. split; [|by eapply restore_consumed].
  destruct (consume_invite_cases invites secret now) as [[_ E]|(e' & _ & _ & E)]; rewrite E in Hc; [done|].
  injection Hc as <- _. apply lookup_delete_eq.
Qed.

(** [revoke_invite] on every branch: it succeeds exactly when one entry's id
    is or starts with the given text; then that entry alone changes and no secret
    of it is ever admitted again; with no such entry, or more than one, it fails
    and says which. *)
Theorem revoke_invite_spec (invites : gmap string InviteEntry) (id : string) :
  let hit h e := invites !! h = Some e /\ (ie_id e = id \/ starts_with (ie_id e) id = true) in
  match revoke_invite invites id with
  | Ok invites' => exists h e, hit h e /\ (forall h' e', hit h' e' -> h' = h)
      /\ (forall h', h' <> h -> invites' !! h' = invites !! h')
      /\ (forall secret now, secret_hash secret = h ->
            validate_invite invites' secret now = None /\ (consume_invite invites' secret now).2 = None)
  | Err NoMatch => forall h e, ~ hit h e
  | Err Ambiguous => exists h1 e1 h2 e2, h1 <> h2 /\ hit h1 e1 /\ hit h2 e2
  end.
Proof.
  intros hit. unfold revoke_invite. pose proof (matching_elem ie_id invites id) as Hm.
  pose proof (matching_NoDup ie_id invites id) as Hnd.
  destruct (matching ie_id invites id) as [|h [|h2 r]].
  - intros h e Hhit. apply (elem_of_nil (A:=string) h), Hm. by exists e.
  - destruct (proj1 (Hm h) ltac:(left)) as (e & Hhit). exists h, e. split; [done|]. split.
    { intros h' e' Hh'. apply list_elem_of_singleton, Hm. by exists e'. }
    split; [intros h' Hne; by rewrite lookup_alter_ne|]. intros secret now Hs.
    assert (validate_invite (alter (fun k => mkInviteEntry (ie_id k) (ie_created k) (ie_expires k) true)
      h invites) secret now = None) as E.
    { unfold validate_invite. rewrite Hs, lookup_alter_eq, (proj1 Hhit). done. }
    split; [done|]. unfold consume_invite. by rewrite E.
  - destruct (proj1 (Hm h) ltac:(left)) as (e & He).
    destruct (proj1 (Hm h2) ltac:(right; left)) as (e2 & He2).
    exists h, e, h2, e2. split; [|done]. intros ->. apply NoDup_cons in Hnd as [Hnd _]. apply Hnd. left.
Qed.

End Invites.

(** ** Nuke consensus *)
Lemma active_elem proposals now ttl id :
  id ∈ active_nuke_proposers proposals now ttl
  <-> exists t, proposals !! id = Some t /\ saturating_sub now t < ttl.
Proof.
  unfold active_nuke_proposers. rewrite list_elem_of_fmap. split.
  - intros ([k t] & -> & Hin). apply list_elem_of_In, List.filter_In in Hin as [Hin Ht].
    apply list_elem_of_In in Hin. rewrite btree_iter_perm in Hin. apply elem_of_map_to_list in Hin.
    simpl in Ht. btac. eauto.
  - intros (t & Hid & Ht). exists (id, t). split; [done|]. apply list_elem_of_In, List.filter_In.
    split; [apply list_elem_of_In; rewrite btree_iter_perm; by apply elem_of_map_to_list|].
    by apply Z.ltb_lt.
Qed.

(** A network is destroyed only by consensus: the decision holds exactly when
    at least the threshold number of distinct identities have a proposal on
    record that is younger than the time to live. Repeating a proposal does not
    count twice, and an expired one does not count. *)
Theorem nuke_consensus_iff (proposals : gmap string Z) (now threshold ttl : Z) :
  0 <= threshold -> 0 < ttl ->
  nuke_consensus_reached proposals now threshold ttl = true
  <-> exists ids : list string, NoDup ids /\ Z.of_nat (length ids) = threshold
        /\ forall id, id ∈ ids -> exists t, proposals !! id = Some t /\ now - t < ttl.
Proof.
  intros Ht Httl. unfold nuke_consensus_reached. rewrite Z.leb_le.
  assert (forall id, id ∈ active_nuke_proposers proposals now ttl
    <-> exists t, proposals !! id = Some t /\ now - t < ttl) as Hact.
  { intros id. rewrite active_elem. unfold saturating_sub.
    split; intros (t & ? & ?); exists t; (split; [done|lia]). }
  split.
  - intros Hlen. exists (take (Z.to_nat threshold) (active_nuke_proposers proposals now ttl)).
    split; [eapply sublist_NoDup; [|apply sublist_take]; apply filter_fst_NoDup|]. rewrite length_take. split; [lia|].
    intros id (i & Hi & _)%elem_of_take. by apply Hact, (list_elem_of_lookup_2 _ i).
  - intros (ids & Hnd & Hlen & Hids). rewrite <- Hlen. apply Nat2Z.inj_le.
    apply submseteq_length, NoDup_submseteq; [done|]. intros id Hid. by apply Hact, Hids.
Qed.

(** ** A sample codec *)
Module DemoBlob.

(** A record is numbered by the list of the numbers of its fields. *)
#[local] Instance Member_countable : Countable Member.
Proof.
  refine (inj_countable (A := list positive) (fun m => [encode (m_identity m); encode (m_ip m); encode (m_is_coordinator m);
      encode (m_hostname m); encode (m_collision_index m); encode (m_last_seen m); encode (m_veilid_node_id m)])
    (fun l => match l with
     | [a; b; c; d; e; f; g] =>
         a ← decode a; b ← decode b; c ← decode c; d ← decode d; e ← decode e; f ← decode f; g ← decode g;
         Some (mkMember a b c d e f g)
     | _ => None
     end) _). intros []. cbn. by rewrite !decode_encode.
Defined.
#[local] Instance ApprovedEntry_countable : Countable ApprovedEntry.
Proof.
  refine (inj_countable' (fun a => (a_identity a, a_ip a, a_hostname a, a_collision_index a))
    (fun '(a, b, c, d) => mkApproved a b c d) _). by intros [].
Defined.
#[local] Instance ReusableKey_countable : Countable ReusableKey.
Proof.
  refine (inj_countable' (fun k => (rk_id k, rk_created k, rk_expires k, rk_revoked k))
    (fun '(a, b, c, d) => mkReusableKey a b c d) _). by intros [].
Defined.
#[local] Instance InviteEntry_countable : Countable InviteEntry.
Proof.
  refine (inj_countable' (fun k => (ie_id k, ie_created k, ie_expires k, ie_revoked k))
    (fun '(a, b, c, d) => mkInviteEntry a b c d) _). by intros [].
Defined.
#[local] Instance GroupBlobWire_eq_dec : EqDecision GroupBlobWire.
Proof. solve_decision. Defined.
#[local] Instance GroupBlobWire_countable : Countable GroupBlobWire.
Proof.
  refine (inj_countable (A := list positive) (fun w => [encode (gw_generation w); encode (gw_members w); encode (gw_approved w);
      encode (gw_name w); encode (gw_subnet w); encode (gw_reusable_keys w); encode (gw_invites w);
      encode (gw_nuke_proposals w); encode (gw_nuke_consensus_threshold w)])
    (fun l => match l with
     | [a; b; c; d; e; f; g; h; i] =>
         a ← decode a; b ← decode b; c ← decode c; d ← decode d; e ← decode e; f ← decode f; g ← decode g;
         h ← decode h; i ← decode i; Some (mkGroupBlobWire a b c d e f g h i)
     | _ => None
     end) _). intros []. cbn. by rewrite !decode_encode.
Defined.

(** A value is numbered by its countability, and the number written with one byte
    per binary digit. *)
Fixpoint bits (p : positive) : list Z :=
  match p with xH => [] | xO p => 0 :: bits p | xI p => 1 :: bits p end.
Fixpoint unbits (l : list Z) : positive :=
  match l with [] => xH | b :: l => if b =? 1 then xI (unbits l) else xO (unbits l) end.

Lemma unbits_bits p : unbits (bits p) = p.
Proof. induction p as [p IH|p IH|]; cbn; by rewrite ?IH. Qed.

#[export] Instance codec : GroupBlobCodec := {
  rmp_to_vec_named w := bits (encode w);
  rmp_from_slice l := w ← decode (unbits l);
                      if decide (wire_ok w) then Some w else None;
}.

#[export] Instance codec_laws : GroupBlobCodecLaws.
Proof.
  split; cbn [rmp_to_vec_named rmp_from_slice codec].
  - intros w Hw. rewrite unbits_bits, decode_encode. cbn [mbind option_bind]. by rewrite decide_True.
  - intros l w (w' & _ & Hd)%bind_Some. case_decide; by simplify_eq.
Qed.

End DemoBlob.

Import Demo DemoBlob.

Definition sample_members : MemberList :=
  MemberListM.from_members
    [mkMember (mkId 3) (derive_ip (mkId 3) default_subnet) true (Some "alpha") 0 (Some 1700000000) None;
     mkMember (mkId 4) (derive_ip (mkId 4) default_subnet) false None 0 None None].

Lemma canonical_bytes_any_order_witness :
  rmp_to_vec_named (to_wire (canonical_blob 7 (reverse (MemberListM.all sample_members)) [] None ∅
    None ∅ ∅ 2)) = canonical_group_bytes 7 sample_members ∅ None ∅ None ∅ ∅ 2.
Proof.
  apply (canonical_bytes_any_order 7 sample_members ∅ None ∅ None ∅ ∅ 2).
  - apply roster_wf_from_members.
  - intros id a E. discriminate E.
  - apply reverse_Permutation.
  - reflexivity.
Defined.

Lemma published_blob_reads_back_witness :
  exists b, verify_group_blob
    (canonical_group_bytes 7 sample_members ∅ (Some "home") ∅ None ∅ ∅ 2)
    (group_blob_hash 7 sample_members ∅ (Some "home") ∅ None ∅ ∅ 2) = Ok b
  /\ MemberListM.from_members (gb_members b) = sample_members.
Proof.
  destruct (published_blob_reads_back 7 sample_members ∅ (Some "home") ∅ None ∅ ∅ 2)
    as (b & Hb & Hm & _).
  - apply roster_wf_from_members.
  - intros id a E. discriminate E.
  - exact I.
  - by_decide.
  - intros id a E. discriminate E.
  - by_decide.
  - exists b. split; [exact Hb|exact Hm].
Defined.

Definition sample_blob : GroupBlob :=
  canonical_blob 7 [member_at (mkId 3) (derive_ip (mkId 3) default_subnet) 0] [] None ∅ None ∅ ∅ 2.

Lemma verify_group_blob_sound_witness :
  let bytes := rmp_to_vec_named (to_wire sample_blob) in
  verify_group_blob bytes (blake3_hash bytes) = Ok sample_blob
  /\ forall m, m ∈ gb_members sample_blob -> ip_in_subnet (m_ip m) default_subnet = true.
Proof.
  intros bytes.
  assert (verify_group_blob bytes (blake3_hash bytes) = Ok sample_blob) as E.
  { unfold verify_group_blob. rewrite bool_decide_eq_true_2 by reflexivity.
    apply decode_group_blob_ok. split; [apply from_slice_to_vec; [exact I|by_decide]|].
    split; [repeat constructor; vm_compute; reflexivity|constructor]. }
  split; [exact E|]. intros m Hm.
  exact (proj1 (proj2 (proj1 (proj2 (verify_group_blob_sound bytes _ sample_blob E)) m Hm))).
Defined.

Lemma tombstone_recognised_witness :
  try_decode_tombstone (blake3_hash (tombstone_bytes 9)) 9 = Some (tombstone 9).
Proof.
  rewrite (tombstone_recognised (blake3_hash (tombstone_bytes 9)) 9); [|by_decide].
  by rewrite bool_decide_eq_true_2.
Defined.

Definition sample_invite : string * InviteEntry := invite_from_secret sample_secret 1000 600.
Definition sample_invites : gmap string InviteEntry := {[ sample_invite.1 := sample_invite.2 ]}.


Lemma consume_then_restore_witness :
  let burned := consume_invite sample_invites sample_secret 1100 in
  burned.1 = ∅
  /\ restore_invite burned.1 sample_secret sample_invite.2 1200
     = (if (0 <? ie_expires sample_invite.2) && (ie_expires sample_invite.2 <=? 1200)
        then (burned.1, false) else (sample_invites, true)).
Proof.
  intros burned. split; [vm_compute; reflexivity|].
  apply (consume_then_restore sample_invites burned.1 sample_secret 1100 1200 sample_invite.2).
  vm_compute. reflexivity.
Defined.

Lemma nuke_consensus_iff_witness :
  nuke_consensus_reached {[ "aa" := 100; "bb" := 200 ]} 300 2 150 = false
  /\ ~ exists ids : list string, NoDup ids /\ Z.of_nat (length ids) = 2
        /\ forall id, id ∈ ids -> exists t, ({[ "aa" := 100; "bb" := 200 ]} : gmap string Z) !! id = Some t
             /\ 300 - t < 150.
Proof.
  split; [reflexivity|].
  rewrite <- (nuke_consensus_iff {[ "aa" := 100; "bb" := 200 ]} 300 2 150) by lia. vm_compute. discriminate.
Defined.
