(* ===== verification/Select.v ===== *)
(** * Decisions of the mesh (src/src/daemon/mesh/select.rs, src/src/path_selector.rs)

    Which coordinator to dial, which path to report or prefer, how long to wait
    before a reconnect, and what a disconnect or a grant leads to.  Durations are
    nanoseconds; the anti-stampede jitter, which is floating point, is left out. *)

From S2P Require Import Prelude Externs Addressing Members Forward.

(** ** Dialling *)
Definition is_coord (members : list Member) (id : EndpointId) : bool :=
  existsb (fun m => bool_decide (m_identity m = id) && m_is_coordinator m) members.

Definition push_coordinator (me : EndpointId) (order : list EndpointId) (m : Member) : list EndpointId :=
  if m_is_coordinator m && negb (bool_decide (m_identity m = me))
     && negb (bool_decide (m_identity m ∈ order))
  then (order ++ [m_identity m])%list else order.

Definition coordinator_dial_order (minter : EndpointId) (members : list Member) (me : EndpointId)
  : list EndpointId :=
  let order := if negb (bool_decide (minter = me)) && is_coord members minter then [minter] else [] in
  fold_left (push_coordinator me) members order.

Inductive RestoreAttempt (T : Type) := AJoined (t : T) | APending | AFailed.
Inductive RestoreWalk (T : Type) := WJoined (t : T) | WPending | WExhausted.
Arguments AJoined {T} t.
Arguments APending {T}.
Arguments AFailed {T}.
Arguments WJoined {T} t.
Arguments WPending {T}.
Arguments WExhausted {T}.

(** [attempt] gives the result of an attempt and the time it took. *)
Fixpoint walk_from {T} (budget : Z) (attempt : EndpointId -> RestoreAttempt T * Z) (first : bool)
  (elapsed : Z) (order : list EndpointId) : RestoreWalk T :=
  match order with
  | [] => WExhausted
  | c :: rest =>
      if negb first && (budget <=? elapsed) then WExhausted
      else let '(r, dt) := attempt c in
      match r with
      | AJoined t => WJoined t
      | APending => WPending
      | AFailed => walk_from budget attempt false (elapsed + dt) rest
      end
  end.

Definition walk_restore_coordinators {T} (order : list EndpointId) (budget : Z)
  (attempt : EndpointId -> RestoreAttempt T * Z) : RestoreWalk T :=
  walk_from budget attempt true 0 order.

(** The result with the time the walk took; an attempt ends at [per_item]. *)
Fixpoint bounded_from {I T} (per_item budget : Z) (f : I -> option T * Z) (first : bool) (elapsed : Z)
  (items : list I) : option T * Z :=
  match items with
  | [] => (None, elapsed)
  | item :: rest =>
      if negb first && (budget <=? elapsed) then (None, elapsed)
      else let '(r, dt) := f item in
      match r with
      | Some found =>
          if dt <=? per_item then (Some found, elapsed + dt)
          else bounded_from per_item budget f false (elapsed + per_item) rest
      | None => bounded_from per_item budget f false (elapsed + Z.min dt per_item) rest
      end
  end.

Definition first_some_bounded {I T} (items : list I) (per_item budget : Z) (f : I -> option T * Z)
  : option T * Z :=
  bounded_from per_item budget f true 0 items.

(** ** Publishing a grant *)
Inductive GrantPublish := Publish | AlreadyPublished | Reconverge.

Definition grant_publish_action (local_generation : Z) (local_hash : Hash) (dht : option (Z * Hash))
  : GrantPublish :=
  match dht with
  | None => Publish
  | Some (dht_generation, dht_hash) =>
      match local_generation ?= dht_generation with
      | Gt => Publish
      | Eq => if bool_decide (dht_hash = local_hash) then AlreadyPublished else Reconverge
      | Lt => Reconverge
      end
  end.

Inductive DialOutcome := Welcomed | Denied | Unreachable.

Fixpoint first_welcome (i : nat) (outcomes : list DialOutcome) : option nat :=
  match outcomes with
  | [] => None
  | Welcomed :: _ => Some i
  | _ :: rest => first_welcome (S i) rest
  end.

Definition pick_first_welcome (outcomes : list DialOutcome) : nat * bool :=
  match first_welcome 0 outcomes with
  | Some i => (i, true)
  | None => ((length outcomes - 1)%nat, false)
  end.

(** ** Paths *)
Inductive ConnType := Direct | RelayConn | Tor | Veilid | Unknown.

#[export] Instance ConnType_eq_dec : EqDecision ConnType.
Proof. solve_decision. Defined.

Inductive ViaDetail := NoDirectCandidate | DirectUnvalidated | DirectBled.

#[export] Instance ViaDetail_eq_dec : EqDecision ViaDetail.
Proof. solve_decision. Defined.

(** The bytes of [\0\0veilid], big-endian. *)
Definition VEILID_TRANSPORT_ID : Z := be_value [0; 0; 118; 101; 105; 108; 105; 100].

(** [veilid]: whether the feature is compiled in. *)
Definition classify_candidate_addr `{IrohKeys, Blake3} (veilid : bool) (addr : TransportAddr) (managed_subnets : list Subnet)
  (managed_network_keys : list EndpointId) : ConnType * bool :=
  match addr with
  | Relay _ => (RelayConn, true)
  | Custom id _ => (if veilid && (id =? VEILID_TRANSPORT_ID) then Veilid else Tor, true)
  | Ip4 v4 _ => (Direct, negb (existsb (fun subnet => ip_in_subnet v4 subnet) managed_subnets))
  | Ip6 v6 _ => (Direct, negb (existsb (fun key => ipv6_in_network v6 key) managed_network_keys))
  end.

(** A path: its class, whether it is selected, trustworthy, and has received. *)
Record PathClass := mkPathClass {
  pc_type : ConnType;
  pc_selected : bool;
  pc_in_subnet : bool;
  pc_activity : bool;
}.

(** [Iterator::position]. *)
Fixpoint position {A} (p : A -> bool) (l : list A) : option nat :=
  match l with
  | [] => None
  | x :: l' => if p x then Some O else S <$> position p l'
  end.

Fixpoint first_position {A B} (p : B -> A -> bool) (wants : list B) (l : list A) : option nat :=
  match wants with
  | [] => None
  | w :: ws => match position (p w) l with Some i => Some i | None => first_position p ws l end
  end.

Definition class_order : list ConnType := [Direct; RelayConn; Tor; Veilid].

Definition choose_path_index (classes : list PathClass) : option nat :=
  let trustworthy_count := length (List.filter pc_in_subnet classes) in
  match position (fun c => pc_selected c && pc_in_subnet c
                           && (pc_activity c || (trustworthy_count =? 1)%nat)) classes with
  | Some i => Some i
  | None =>
      match first_position (fun want c => bool_decide (pc_type c = want) && pc_in_subnet c && pc_activity c)
              class_order classes with
      | Some i => Some i
      | None =>
          match first_position (fun want c => bool_decide (pc_type c = want) && pc_in_subnet c)
                  class_order classes with
          | Some i => Some i
          | None => position pc_in_subnet classes
          end
      end
  end.

Definition classify_via_detail (classes : list PathClass) (winner : ConnType) : option ViaDetail :=
  if bool_decide (winner = Direct) then None
  else if existsb (fun c => bool_decide (pc_type c = Direct) && pc_in_subnet c) classes
  then Some DirectUnvalidated
  else if existsb (fun c => bool_decide (pc_type c = Direct) && negb (pc_in_subnet c)) classes
  then Some DirectBled
  else Some NoDirectCandidate.

(** *** The path selector *)
Definition is_custom_transport (veilid : bool) (addr : TransportAddr) (want_veilid : bool) : bool :=
  match addr with
  | Custom id _ => if veilid then Bool.eqb (id =? VEILID_TRANSPORT_ID) want_veilid else negb want_veilid
  | _ => false
  end.

Definition matches_preference (veilid : bool) (addr : TransportAddr) (preference : string) : bool :=
  if String.eqb preference "direct" then match addr with Ip4 _ _ | Ip6 _ _ => true | _ => false end
  else if String.eqb preference "relay" then match addr with Relay _ => true | _ => false end
  else if String.eqb preference "veilid" then is_custom_transport veilid addr true
  else if String.eqb preference "tor" then is_custom_transport veilid addr false
  else false.

(** A path with its address and, when known, the bytes received on it;
    [fallback] is the library's own selector. *)
Definition select_path (veilid : bool) (preference : option string)
  (fallback : list (TransportAddr * option Z) -> option (TransportAddr * option Z))
  (paths : list (TransportAddr * option Z)) : option (TransportAddr * option Z) :=
  match preference with
  | Some preference =>
      match List.find (fun psd => matches_preference veilid psd.1 preference
                                  && match psd.2 with Some rx => 0 <? rx | None => false end) paths with
      | Some psd => Some psd
      | None => fallback paths
      end
  | None => fallback paths
  end.

(** ** Subnets and welcomes *)
Definition find_subnet_collision (candidate : Subnet) (existing : list Subnet) : option Subnet :=
  List.find (fun e => subnets_overlap e candidate) existing.

Inductive SoloNukeOutcome := NothingToCancelOrSecond | WouldStrandMembers | Proceed.

Definition solo_coordinator_nuke_outcome (cancel second_present has_other_members force : bool)
  : SoloNukeOutcome :=
  if cancel || second_present then NothingToCancelOrSecond
  else if has_other_members && negb force then WouldStrandMembers
  else Proceed.

Definition welcome_ip_collision (members : list Member) (my_ip : Ipv4Addr) (my_identity : EndpointId)
  : option EndpointId :=
  m_identity <$> List.find (fun m => (m_ip m =? my_ip) && negb (bool_decide (m_identity m = my_identity))) members.

Definition resolve_welcome_self_ip (members : list Member) (my_ip : Ipv4Addr) (my_identity : EndpointId)
  : Result Ipv4Addr EndpointId :=
  match List.find (fun m => bool_decide (m_identity m = my_identity)) members with
  | Some mine => Ok (m_ip mine)
  | None =>
      match welcome_ip_collision members my_ip my_identity with
      | Some existing => Err existing
      | None => Ok my_ip
      end
  end.

(** ** Reconnecting *)
Definition DURATION_MAX : Z := (2 ^ 64 - 1) * 10 ^ 9 + 999999999.

(** [Duration::mul] panics past the largest duration. *)
Definition next_backoff (current max : Z) : outcome Z :=
  if DURATION_MAX <? current * 2 then Panic else Ret (Z.min (current * 2) max).

Definition backoff_cap (failed_attempts cold_threshold frozen_threshold warm_max cold_max frozen_max : Z) : Z :=
  if frozen_threshold <=? failed_attempts then frozen_max
  else if cold_threshold <=? failed_attempts then cold_max
  else warm_max.

Inductive ReconnectDecision := Reconnect | IgnoreStaleDisconnect | PeerLeftDeliberately | PeerRemovedFromRoster.

Definition reconnect_decision (removed prunes_member was_pruned_locally : bool) : ReconnectDecision :=
  if negb removed then IgnoreStaleDisconnect
  else if prunes_member then PeerLeftDeliberately
  else if was_pruned_locally then PeerRemovedFromRoster
  else Reconnect.

Inductive DialRetryDecision := KeepDialing | AbandonPeerGone.

Definition dial_retry_decision (in_roster was_pruned_locally : bool) : DialRetryDecision :=
  if negb in_roster || was_pruned_locally then AbandonPeerGone else KeepDialing.

Definition reconnect_route_ip (roster : option Member) (stored : Ipv4Addr) : Ipv4Addr :=
  default stored (resolve_hello_ip roster None).

Definition checked_mul (d k : Z) : option Z := if DURATION_MAX <? d * k then None else Some (d * k).

Definition reconnect_storm_decision (uptime : option Z) (prior_streak min_uptime initial
  cold_threshold frozen_threshold warm_max cold_max frozen_max : Z) : bool * Z * Z :=
  match uptime with
  | None => (false, prior_streak, initial)
  | Some lived =>
      if min_uptime <=? lived then (false, 0, initial)
      else
        let new_streak := saturating_add 32 prior_streak 1 in
        let cap := backoff_cap new_streak cold_threshold frozen_threshold warm_max cold_max frozen_max in
        let climbed := default cap (checked_mul initial (2 ^ Z.min new_streak 20)) in
        (true, new_streak, Z.min climbed cap)
  end.

(** ** Positions *)
Lemma position_Some {A} (p : A -> bool) l i :
  position p l = Some i -> exists x, l !! i = Some x /\ p x = true.
Proof.
  revert i. induction l as [|x l IH]; intros i; cbn [position]; [done|].
  destruct (p x) eqn:E; [intros [= <-]; by exists x|].
  destruct (position p l) as [j|]; [|done]. intros [= <-]. by apply IH.
Qed.

Lemma position_None {A} (p : A -> bool) l : position p l = None <-> Forall (fun x => p x = false) l.
Proof.
  induction l as [|x l IH]; cbn [position]; [by split; [constructor|]|].
  destruct (p x) eqn:E.
  - split; [done|]. intros H. apply Forall_cons in H as [H _]. congruence.
  - destruct (position p l).
    + split; [done|]. intros H. apply Forall_cons in H as [_ H]. by apply IH in H.
    + split; [|done]. intros _. constructor; [done|]. by apply IH.
Qed.

Lemma first_position_Some {A B} (p : B -> A -> bool) wants l i :
  first_position p wants l = Some i -> exists w x, w ∈ wants /\ l !! i = Some x /\ p w x = true.
Proof.
  induction wants as [|w ws IH]; cbn [first_position]; [done|].
  destruct (position (p w) l) as [j|] eqn:E.
  - intros [= <-]. destruct (position_Some _ _ _ E) as (x & Hx & Hp). exists w, x. split; [left|done].
  - intros H. destruct (IH H) as (w' & x & Hw & Hx). exists w', x. split; [by right|done].
Qed.

Lemma first_position_None {A B} (p : B -> A -> bool) wants l w x :
  first_position p wants l = None -> w ∈ wants -> x ∈ l -> p w x = false.
Proof.
  induction wants as [|v ws IH]; cbn [first_position]; [by intros _ []%not_elem_of_nil|].
  destruct (position (p v) l) eqn:E; [done|]. intros H [->|Hw]%elem_of_cons Hx; [|by apply IH].
  apply position_None in E. rewrite Forall_forall in E. by apply E.
Qed.

(** The path reported for a peer is never one recognised as a captured overlay
    address, and there is a report whenever some path is not; a path that has
    received nothing is reported only if it is the one selected path worth
    trusting or no trustworthy path of a known class has received anything. *)
Theorem choose_path_index_sound (classes : list PathClass) :
  match choose_path_index classes with
  | Some i => exists c, classes !! i = Some c /\ pc_in_subnet c = true
      /\ (pc_activity c = true
          \/ (pc_selected c = true /\ length (List.filter pc_in_subnet classes) = 1%nat)
          \/ forall d, d ∈ classes -> pc_type d <> Unknown -> pc_in_subnet d = true -> pc_activity d = false)
  | None => Forall (fun c => pc_in_subnet c = false) classes
  end.
Proof.
  unfold choose_path_index. destruct (position _ classes) as [i|] eqn:E1.
  { destruct (position_Some _ _ _ E1) as (c & Hc & Hp). exists c. split; [done|].
    rewrite !andb_true_iff, orb_true_iff, Nat.eqb_eq in Hp. destruct Hp as [[Hs Hi] Ha].
    split; [done|]. destruct Ha; auto. }
  destruct (first_position _ class_order classes) as [i|] eqn:E2.
  { destruct (first_position_Some _ _ _ _ E2) as (w & c & _ & Hc & Hp). exists c. split; [done|].
    rewrite !andb_true_iff in Hp. destruct Hp as [[_ Hi] Ha]. auto. }
  assert (forall d, d ∈ classes -> pc_type d <> Unknown -> pc_in_subnet d = true -> pc_activity d = false) as Hno.
  { intros d Hd Ht Hi. pose proof (first_position_None _ _ _ (pc_type d) d E2) as H.
    cbn beta in H. rewrite bool_decide_eq_true_2, Hi in H by done. apply H; [|done].
    unfold class_order. destruct (pc_type d); by_decide || done. }
  match goal with |- context [first_position ?p class_order classes] =>
    destruct (first_position p class_order classes) as [i|] eqn:E3 end.
  { destruct (first_position_Some _ _ _ _ E3) as (w & c & _ & Hc & Hp). exists c. split; [done|].
    rewrite andb_true_iff in Hp. destruct Hp as [_ Hi]. auto. }
  destruct (position pc_in_subnet classes) as [i|] eqn:E4.
  - destruct (position_Some _ _ _ E4) as (c & Hc & Hi). exists c. auto.
  - by apply position_None in E4.
Qed.

(** The explanation given when a peer's path is not direct can be wrong: with a
    selected, active relay path and a direct path that has received traffic, the
    relay wins and the direct path is called unvalidated. *)
Theorem via_detail_misreports_active_direct :
  let classes := [mkPathClass RelayConn true true true; mkPathClass Direct false true true] in
  choose_path_index classes = Some 0%nat
  /\ classify_via_detail classes RelayConn = Some DirectUnvalidated
  /\ existsb (fun c => bool_decide (pc_type c = Direct) && pc_in_subnet c && pc_activity c) classes = true.
Proof. by vm_compute. Qed.

(** A preferred path is used only when it is of the preferred kind and has
    received something; otherwise the library decides. *)
Lemma select_path_spec veilid preference fallback paths :
  select_path veilid preference fallback paths = fallback paths
  \/ exists p psd rx, preference = Some p /\ select_path veilid preference fallback paths = Some psd
       /\ psd ∈ paths /\ matches_preference veilid psd.1 p = true /\ psd.2 = Some rx /\ 0 < rx.
Proof.
  destruct preference as [p|]; [|by left]. cbn [select_path].
  destruct (List.find _ paths) as [psd|] eqn:E; [|by left]. right.
  apply List.find_some in E as [Hin Hp]. apply andb_true_iff in Hp as [Hm Hrx].
  destruct psd as [a [rx|]]; [|done]. exists p, (a, Some rx), rx. cbn in *.
  apply Z.ltb_lt in Hrx. rewrite list_elem_of_In. by repeat split.
Qed.

(** ** Dial order *)
Lemma push_coordinator_spec me order m :
  NoDup order -> (me ∉ order) ->
  NoDup (push_coordinator me order m) /\ (me ∉ push_coordinator me order m)
  /\ forall id, id ∈ push_coordinator me order m <->
       id ∈ order \/ (id = m_identity m /\ m_is_coordinator m = true /\ id <> me).
Proof.
  intros Hnd Hme. unfold push_coordinator.
  destruct (m_is_coordinator m) eqn:Ec; cbn [andb]; [|split; [done|split; [done|]]; intros id; intuition congruence].
  case_bool_decide as Em; cbn [negb andb].
  { split; [done|]. split; [done|]. intros id. split; [by left|]. intros [?|(-> & _ & ?)]; done. }
  case_bool_decide as Eo; cbn [negb].
  { split; [done|]. split; [done|]. intros id. split; [by left|]. intros [?|(-> & _)]; done. }
  split; [|split].
  - apply NoDup_app. split; [done|]. split; [|apply NoDup_singleton].
    intros x Hx ->%list_elem_of_singleton. done.
  - rewrite elem_of_app, list_elem_of_singleton. intros [?|?]; congruence.
  - intros id. rewrite elem_of_app, list_elem_of_singleton. intuition congruence.
Qed.

Lemma push_coordinators_spec me members order :
  NoDup order -> (me ∉ order) ->
  let r := fold_left (push_coordinator me) members order in
  NoDup r /\ (me ∉ r) /\ (exists suffix, r = (order ++ suffix)%list)
  /\ forall id, id ∈ r <->
       id ∈ order \/ (id <> me /\ exists m, m ∈ members /\ m_identity m = id /\ m_is_coordinator m = true).
Proof.
  revert order. induction members as [|m members IH]; intros order Hnd Hme; cbn [fold_left].
  - split; [done|]. split; [done|]. split; [by exists []; rewrite app_nil_r|]. intros id. split; [by left|].
    intros [?|(_ & m & Hm & _)]; [done|]. by apply not_elem_of_nil in Hm.
  - destruct (push_coordinator_spec me order m Hnd Hme) as (Hnd' & Hme' & Hel).
    destruct (IH _ Hnd' Hme') as (H1 & H2 & [suf H3] & H4). split; [done|]. split; [done|]. split.
    + assert (exists s0, push_coordinator me order m = (order ++ s0)%list) as [s0 E].
      { unfold push_coordinator. destruct (_ && _); [by eexists|]. exists []. by rewrite app_nil_r. }
      exists (s0 ++ suf)%list. by rewrite H3, E, app_assoc.
    + intros id. rewrite H4, Hel. split.
      * intros [[?|(-> & Hc & Hne)]|(Hne & m' & Hm & ?)]; [by left|right; split; [done|]; exists m; split; [left|done]|].
        right. split; [done|]. exists m'. split; [by right|done].
      * intros [?|(Hne & m' & [->|Hm]%elem_of_cons & He & Hc)]; [by (left; left)|left; right; by subst|].
        right. split; [done|]. by exists m'.
Qed.

(** The dial order is every coordinator of the roster but the node itself, each
    once, with the minter of the invite first when it is one of them. *)
Theorem coordinator_dial_order_spec (minter : EndpointId) (members : list Member) (me : EndpointId) :
  let order := coordinator_dial_order minter members me in
  let coordinator id := exists m, m ∈ members /\ m_identity m = id /\ m_is_coordinator m = true in
  NoDup order /\ (forall id, id ∈ order <-> id <> me /\ coordinator id)
  /\ (minter <> me -> coordinator minter -> head order = Some minter).
Proof.
  intros order coordinator. unfold order, coordinator_dial_order.
  assert (is_coord members minter = true <-> coordinator minter) as Hc.
  { unfold is_coord. rewrite existsb_exists. split.
    - intros (m & Hm & [He Hco]%andb_true_iff). apply bool_decide_eq_true in He. exists m. by rewrite list_elem_of_In.
    - intros (m & Hm & He & Hco). exists m. split; [by apply list_elem_of_In|]. by rewrite bool_decide_eq_true_2, Hco. }
  set (start := if negb (bool_decide (minter = me)) && is_coord members minter then [minter] else []).
  assert (NoDup start /\ (me ∉ start) /\ (forall id, id ∈ start -> id = minter /\ minter <> me /\ coordinator minter)
    /\ (minter <> me -> coordinator minter -> start = [minter])) as (Hnd & Hme & Hst & Hhd).
  { unfold start. case_bool_decide as Em; cbn [negb andb].
    { split; [constructor|]. split; [apply not_elem_of_nil|]. split; [|done]. by intros id ?%not_elem_of_nil. }
    destruct (is_coord members minter).
    - split; [apply NoDup_singleton|]. split; [by intros ->%list_elem_of_singleton|].
      split; [|done]. intros id ->%list_elem_of_singleton. split; [done|]. split; [done|]. by apply Hc.
    - split; [constructor|]. split; [apply not_elem_of_nil|]. split; [by intros id ?%not_elem_of_nil|].
      intros _ H%Hc. done. }
  destruct (push_coordinators_spec me members start Hnd Hme) as (H1 & H2 & [suf H3] & H4).
  split; [done|]. split.
  - intros id. rewrite H4. split; [|by right]. intros [Hin|?]; [|done].
    destruct (Hst id Hin) as (-> & ? & ?). done.
  - intros Hne Hco. by rewrite H3, Hhd.
Qed.

(** ** Bounded walks *)

Section Walk.
Context {I T : Type} (per_item budget : Z) (f : I -> option T * Z).
Hypothesis (Hper : 0 <= per_item) (Hbudget : 0 <= budget) (Htime : forall i, 0 <= (f i).2).

Lemma bounded_from_time items first elapsed :
  (first = true -> elapsed <= budget) -> elapsed <= budget + per_item ->
  (bounded_from per_item budget f first elapsed items).2 <= budget + per_item.
Proof.
  revert first elapsed. induction items as [|i items IH]; intros first elapsed H1 H2; cbn [bounded_from]; [done|].
  destruct (negb first && (budget <=? elapsed)) eqn:E; [done|].
  assert (elapsed <= budget) as He.
  { destruct first; [by apply H1|]. cbn in E. apply Z.leb_gt in E. lia. }
  destruct (f i) as [[x|] dt]; [destruct (Z.leb_spec dt per_item); cbn [snd]; [lia|]|]; apply IH; done || lia.
Qed.

Lemma bounded_from_found items first elapsed x :
  (bounded_from per_item budget f first elapsed items).1 = Some x ->
  exists i, i ∈ items /\ (f i).1 = Some x /\ (f i).2 <= per_item.
Proof.
  revert first elapsed. induction items as [|i items IH]; intros first elapsed; cbn [bounded_from]; [done|].
  destruct (_ && _); [done|]. destruct (f i) as [r dt] eqn:E.
  assert (forall e, (bounded_from per_item budget f false e items).1 = Some x ->
    exists j, j ∈ i :: items /\ (f j).1 = Some x /\ (f j).2 <= per_item) as Hrest.
  { intros e Hx. destruct (IH _ _ Hx) as (j & Hj & ?). exists j. split; [by right|done]. }
  destruct r as [y|]; [|apply Hrest]. destruct (Z.leb_spec dt per_item); [|apply Hrest].
  intros [= <-]. exists i. rewrite E. split; [left|done].
Qed.

Lemma bounded_from_reaches stalled i rest x first elapsed :
  Forall (fun j => (f j).1 = None \/ per_item < (f j).2) stalled ->
  (f i).1 = Some x -> (f i).2 <= per_item -> elapsed + Z.of_nat (length stalled) * per_item < budget ->
  (bounded_from per_item budget f first elapsed (stalled ++ i :: rest)).1 = Some x.
Proof.
  revert first elapsed. induction stalled as [|j stalled IH]; intros first elapsed Hst Hx Hi Hb;
    cbn [bounded_from app length] in *.
  - rewrite (proj2 (Z.leb_gt budget elapsed)), andb_false_r by lia. destruct (f i) as [r dt]. cbn in Hx, Hi.
    subst r. by rewrite (proj2 (Z.leb_le _ _)).
  - apply Forall_cons in Hst as [Hj Hst].
    rewrite (proj2 (Z.leb_gt budget elapsed)), andb_false_r by lia. pose proof (Htime j).
    destruct (f j) as [r dt]. cbn [fst snd] in *.
    destruct r as [y|]; [destruct (Z.leb_spec dt per_item); [destruct Hj; [done|lia]|]|]; apply IH; done || lia.
Qed.
End Walk.

(** The bounded walk ends within its budget plus one attempt's limit, returns
    only what some item gave within that limit, and is not held up by items
    that stall: the first item that answers in time is reached whenever the
    ones before it take less than the budget. *)
Theorem first_some_bounded_spec {I T} (items : list I) (per_item budget : Z) (f : I -> option T * Z) :
  0 <= per_item -> 0 <= budget -> (forall i, 0 <= (f i).2) ->
  (first_some_bounded items per_item budget f).2 <= budget + per_item
  /\ (forall x, (first_some_bounded items per_item budget f).1 = Some x ->
        exists i, i ∈ items /\ (f i).1 = Some x /\ (f i).2 <= per_item)
  /\ (forall stalled i rest x, items = (stalled ++ i :: rest)%list ->
        Forall (fun j => (f j).1 = None \/ per_item < (f j).2) stalled ->
        (f i).1 = Some x -> (f i).2 <= per_item -> Z.of_nat (length stalled) * per_item < budget ->
        (first_some_bounded items per_item budget f).1 = Some x).
Proof.
  intros Hp Hb Hf. split; [|split].
  - apply bounded_from_time; lia.
  - intros x. apply bounded_from_found.
  - intros stalled i rest x -> Hst Hx Hi Hl. eapply bounded_from_reaches; done || lia.
Qed.

Lemma first_some_bounded_spec_witness :
  first_some_bounded [0; 1; 2] 15 45 (fun i => if i =? 2 then (Some 7, 3) else (None, 100)) = (Some 7, 33)
  /\ (first_some_bounded [0; 1; 2] 15 45 (fun i => if i =? 2 then (Some 7, 3) else (None, 100))).2 <= 60.
Proof.
  split; [reflexivity|].
  destruct (first_some_bounded_spec [0; 1; 2] 15 45 (fun i => if i =? 2 then (Some 7, 3) else (None, 100))) as [H _].
  - lia.
  - lia.
  - intros i. destruct (i =? 2); cbn; lia.
  - exact H.
Defined.

(** ** Backoff *)

(** A reconnect never starts with a wait beyond the cap in effect; a healthy
    connection resets it, and each further short-lived one waits at least as long
    as the one before while the caps grow with the tiers. *)
Theorem reconnect_storm_bounded (prior_streak min_uptime lived initial cold_threshold frozen_threshold
  warm_max cold_max frozen_max : Z) :
  0 <= prior_streak < u32_max -> 0 <= initial <= warm_max -> warm_max <= cold_max -> cold_max <= frozen_max ->
  cold_threshold <= frozen_threshold ->
  let decide streak lived := reconnect_storm_decision (Some lived) streak min_uptime initial cold_threshold
                               frozen_threshold warm_max cold_max frozen_max in
  let '(flap, streak, wait) := decide prior_streak lived in
  (flap = false -> streak = 0 /\ wait = initial)
  /\ (flap = true -> lived < min_uptime /\ streak = prior_streak + 1
      /\ wait <= backoff_cap streak cold_threshold frozen_threshold warm_max cold_max frozen_max
      /\ initial <= wait
      /\ (streak < u32_max -> wait <= (decide streak lived).2)).
Proof.
  intros Hs Hi Hw Hc Ht decide. unfold decide, reconnect_storm_decision.
  destruct (Z.leb_spec min_uptime lived); [done|]. split; [done|]. intros _.
  assert (forall k, 0 <= k < u32_max -> saturating_add 32 k 1 = k + 1) as Hsat.
  { unfold saturating_add, u32_max. lia. }
  rewrite (Hsat prior_streak Hs). set (k := prior_streak + 1).
  set (cap := fun k => backoff_cap k cold_threshold frozen_threshold warm_max cold_max frozen_max).
  assert (forall k, warm_max <= cap k) as Hcap.
  { intros j. unfold cap, backoff_cap. repeat case_match; lia. }
  assert (cap k <= cap (k + 1)) as Hmono.
  { unfold cap, backoff_cap. repeat case_match; rewrite ?Z.leb_le, ?Z.leb_gt in *; lia. }
  assert (1 <= 2 ^ Z.min k 20 <= 2 ^ Z.min (k + 1) 20) as Hpow.
  { split; [|apply Z.pow_le_mono_r; lia]. change 1 with (2 ^ 0). apply Z.pow_le_mono_r; lia. }
  fold (cap k). split; [done|]. split; [done|]. split; [lia|]. unfold checked_mul.
  assert (initial <= initial * 2 ^ Z.min k 20 <= initial * 2 ^ Z.min (k + 1) 20) as Hclimb by nia.
  revert Hclimb. generalize (initial * 2 ^ Z.min k 20) as a. intros a Hclimb.
  pose proof (Hcap k). pose proof (Hcap (k + 1)). split.
  - destruct (DURATION_MAX <? a); cbn [default from_option id]; lia.
  - intros Hk. rewrite Hsat by (unfold k in *; lia). cbn [snd]. fold (cap (k + 1)).
    destruct (Z.ltb_spec DURATION_MAX a), (Z.ltb_spec DURATION_MAX (initial * 2 ^ Z.min (k + 1) 20));
      cbn [default from_option id]; lia.
Qed.

Lemma reconnect_storm_bounded_witness :
  let '(flap, streak, wait) := reconnect_storm_decision (Some 1) 2 10 1 5 10 30 300 3600 in
  flap = true /\ streak = 3 /\ wait = 8 /\ wait <= backoff_cap streak 5 10 30 300 3600.
Proof.
  pose proof (reconnect_storm_bounded 2 10 1 1 5 10 30 300 3600 ltac:(by_decide) ltac:(lia) ltac:(lia)
    ltac:(lia) ltac:(lia)) as H.
  cbv zeta in H. vm_compute in H. destruct H as [_ H]. destruct (H eq_refl) as (_ & _ & Hw & _).
  vm_compute. repeat split; exact Hw.
Defined.
