(* ===== verification/Network.v ===== *)
(** * The state of one network and how it follows the signed record
      (src/src/daemon/mod.rs, src/src/daemon/mesh/reconverge.rs, src/src/daemon/mesh/publish.rs)

    The state every task of a network shares, how a node adopts the record the
    network key signed (on a hint, or by polling), and how it publishes its own.

    The record store holds the last record written; peers answer a fetch with
    bytes and the time it took. *)

From S2P Require Import Prelude Externs Addressing Codecs Invite Members Peers Forward Blob Select.

Inductive GroupMode := Open | Restricted.

Record GroupSnapshot := mkSnapshot {
  snap_hash : Hash;
  snap_bytes : list Z;
}.

Record NetworkState := mkState {
  generation : Z;
  members : MemberList;
  approved : ApprovedList;
  snapshot : option GroupSnapshot;
  network_secret_key : option (list Z);
  network_public_key : EndpointId;
  network_name : option string;
  mode : GroupMode;
  reusable_keys : gmap string ReusableKey;
  invites : gmap string InviteEntry;
  nuke_proposals : gmap string Z;
  nuke_consensus_threshold : Z;
  subnet : Subnet;
}.

Definition set_generation (s : NetworkState) (g : Z) : NetworkState :=
  mkState g (members s) (approved s) (snapshot s) (network_secret_key s) (network_public_key s)
    (network_name s) (mode s) (reusable_keys s) (invites s) (nuke_proposals s)
    (nuke_consensus_threshold s) (subnet s).
Definition set_snapshot (s : NetworkState) (sn : option GroupSnapshot) : NetworkState :=
  mkState (generation s) (members s) (approved s) sn (network_secret_key s) (network_public_key s)
    (network_name s) (mode s) (reusable_keys s) (invites s) (nuke_proposals s)
    (nuke_consensus_threshold s) (subnet s).
Definition set_roster (s : NetworkState) (ms : MemberList) (aps : ApprovedList) : NetworkState :=
  mkState (generation s) ms aps (snapshot s) (network_secret_key s) (network_public_key s)
    (network_name s) (mode s) (reusable_keys s) (invites s) (nuke_proposals s)
    (nuke_consensus_threshold s) (subnet s).
Definition set_invites (s : NetworkState) (iv : gmap string InviteEntry) : NetworkState :=
  mkState (generation s) (members s) (approved s) (snapshot s) (network_secret_key s)
    (network_public_key s) (network_name s) (mode s) (reusable_keys s) iv (nuke_proposals s)
    (nuke_consensus_threshold s) (subnet s).
Definition set_nuke_proposals (s : NetworkState) (np : gmap string Z) : NetworkState :=
  mkState (generation s) (members s) (approved s) (snapshot s) (network_secret_key s)
    (network_public_key s) (network_name s) (mode s) (reusable_keys s) (invites s) np
    (nuke_consensus_threshold s) (subnet s).

(** The saved copy of the roster. *)
Record MemberEntry := mkMemberEntry {
  me_identity : EndpointId;
  me_ip : Ipv4Addr;
  me_is_coordinator : bool;
  me_hostname : option string;
}.
Record ApprovedConfigEntry := mkApprovedConfigEntry {
  ace_identity : EndpointId;
  ace_ip : Ipv4Addr;
  ace_hostname : option string;
}.

#[export] Instance MemberEntry_eq_dec : EqDecision MemberEntry.
Proof. solve_decision. Defined.
#[export] Instance ApprovedConfigEntry_eq_dec : EqDecision ApprovedConfigEntry.
Proof. solve_decision. Defined.

Section Network.
Context `{IrohKeys, Blake3, GroupBlobCodec}.

Definition roster (s : NetworkState) : list Member := MemberListM.all (members s).
Definition approved_snapshot (s : NetworkState) : list ApprovedEntry := ApprovedListM.all (approved s).

Definition taken_hostnames (s : NetworkState) (except : EndpointId) : list string :=
  omap m_hostname (List.filter (fun m => negb (bool_decide (m_identity m = except))) (MemberListM.all (members s))).

Definition blob_subnet (s : NetworkState) : option Subnet := Some (subnet s).

Definition state_bytes (s : NetworkState) : list Z :=
  canonical_group_bytes (generation s) (members s) (approved s) (network_name s) (reusable_keys s)
    (blob_subnet s) (invites s) (nuke_proposals s) (nuke_consensus_threshold s).

(** The blob those bytes stand for. *)
Definition state_blob (s : NetworkState) : GroupBlob :=
  canonical_blob (generation s) (MemberListM.all (members s)) (ApprovedListM.all (approved s)) (network_name s)
    (reusable_keys s) (blob_subnet s) (invites s) (nuke_proposals s) (nuke_consensus_threshold s).

Definition refresh_snapshot (s : NetworkState) : NetworkState :=
  let bytes := state_bytes s in set_snapshot s (Some (mkSnapshot (blake3_hash bytes) bytes)).

Definition bump_generation_and_refresh (s : NetworkState) : NetworkState :=
  refresh_snapshot (set_generation s (wrap 64 (generation s + 1))).

(** ** The signed record *)
Record NetworkRecord := mkRecord {
  rec_hash : Hash;
  rec_generation : Z;
  rec_seeds : list EndpointId;
}.

Definition poller_should_fetch (remote_generation : Z) (remote_hash : Hash) (current_generation : Z)
  (current_hash : option Hash) : bool :=
  negb ((remote_generation <? current_generation)
        || (remote_generation =? current_generation) && bool_decide (Some remote_hash = current_hash)).

Definition BLOB_FETCH_PEER_TIMEOUT : Z := 15 * 10 ^ 9.
Definition BLOB_FETCH_BUDGET : Z := 45 * 10 ^ 9.

(** [Vec::dedup]. *)
Fixpoint dedup (l : list EndpointId) : list EndpointId :=
  match l with
  | x :: ((y :: _) as rest) => if bool_decide (x = y) then dedup rest else x :: dedup rest
  | _ => l
  end.

Definition id_str_leb (a b : EndpointId) : bool := string_leb (id_to_string a) (id_to_string b).

(** Connected peers and seeds, sorted by their printed form, each once. *)
Definition fetch_order (connected seeds : list EndpointId) : list EndpointId :=
  dedup (sort_by id_str_leb (connected ++ seeds)%list).

(** [serve pid hash]: the bytes the peer's store gives for the hash, with the time. *)
Definition fetch_verified_blob (connected : list EndpointId) (signed : Hash) (seeds : list EndpointId)
  (serve : EndpointId -> Hash -> option (list Z) * Z) : option GroupBlob :=
  (first_some_bounded (fetch_order connected seeds) BLOB_FETCH_PEER_TIMEOUT BLOB_FETCH_BUDGET
    (fun pid => let '(bytes, dt) := serve pid signed in
                (match bytes with
                 | Some b => match verify_group_blob b signed with Ok g => Some g | Err _ => None end
                 | None => None
                 end, dt))).1.

Definition member_removed (ms : list Member) (aps : list ApprovedEntry) (my_id : EndpointId) : bool :=
  negb (existsb (fun m => bool_decide (m_identity m = my_id)) ms)
  && negb (existsb (fun a => bool_decide (a_identity a = my_id)) aps).

(** The blob behind a record: a tombstone is known without asking anyone. *)
Definition obtain_blob (rec : NetworkRecord) (connected : list EndpointId)
  (serve : EndpointId -> Hash -> option (list Z) * Z) : option GroupBlob :=
  match try_decode_tombstone (rec_hash rec) (rec_generation rec) with
  | Some tombstone => Some tombstone
  | None => fetch_verified_blob connected (rec_hash rec) (rec_seeds rec) serve
  end.

(** What a pass over the signed record comes to. *)
Inductive Pass :=
| Kept                              (* nothing to apply, or nothing obtained *)
| Removed                           (* the roster no longer lists this node *)
| Adopted (s : NetworkState) (roster : list Member) (aps : list ApprovedEntry)
| Stuck.                            (* the tiebreak does not return *)

Definition adopt (s : NetworkState) (data : GroupBlob) (ms : list Member) : NetworkState :=
  refresh_snapshot
    (set_nuke_proposals
       (set_roster (set_generation s (gb_generation data)) (MemberListM.from_members ms)
          (ApprovedListM.from_entries (gb_approved data)))
       (gb_nuke_proposals data)).

(** A pass reads the record, waits for the blob, and then acts on the state as it is
    by that time.  The part after the wait, for a hint and for a poll: only the
    first looks at the generation again. *)
Definition reconverge_finish (s : NetworkState) (my_identity : EndpointId) (data : GroupBlob) : Pass :=
  if member_removed (gb_members data) (gb_approved data) my_identity then Removed
  else if gb_generation data <? generation s then Kept
  else match resolve_ip_tiebreak (gb_members data) (resolve_subnet (gb_subnet data)) with
       | None => Stuck
       | Some tiebroken => Adopted (adopt s data tiebroken) tiebroken (gb_approved data)
       end.

Definition poll_finish (s : NetworkState) (my_id : EndpointId) (data : GroupBlob) : Pass :=
  if member_removed (gb_members data) (gb_approved data) my_id then Removed
  else Adopted (adopt s data (gb_members data)) (gb_members data) (gb_approved data).

Definition reconverge (s : NetworkState) (my_identity : EndpointId) (rec : option NetworkRecord)
  (connected : list EndpointId) (serve : EndpointId -> Hash -> option (list Z) * Z) : Pass :=
  match rec with
  | None => Kept
  | Some rec =>
      match trusted_reconverge_hash (snap_hash <$> snapshot s) (rec_hash rec) with
      | None => Kept
      | Some _ =>
          match obtain_blob rec connected serve with
          | None => Kept
          | Some data => reconverge_finish s my_identity data
          end
      end
  end.

Definition poll (s : NetworkState) (my_id : EndpointId) (rec : option NetworkRecord)
  (connected : list EndpointId) (serve : EndpointId -> Hash -> option (list Z) * Z) : Pass :=
  match rec with
  | None => Kept
  | Some rec =>
      if negb (poller_should_fetch (rec_generation rec) (rec_hash rec) (generation s) (snap_hash <$> snapshot s))
      then Kept
      else match obtain_blob rec connected serve with
           | None => Kept
           | Some data => poll_finish s my_id data
           end
  end.

(** ** Publishing *)
Definition dht_read_before_write (dht : option NetworkRecord) (local_generation : Z) (local_hash : Hash) : bool :=
  match dht with
  | Some r =>
      match local_generation ?= rec_generation r with
      | Gt => true
      | Lt => false
      | Eq => if bool_decide (rec_hash r = local_hash) then false else false
      end
  | None => true
  end.

(** The hash and generation a publisher takes from the state. *)
Definition published_hash (s : NetworkState) : Hash :=
  match snapshot s with
  | Some sn => snap_hash sn
  | None => group_blob_hash (generation s) (members s) (approved s) (network_name s) (reusable_keys s)
              (blob_subnet s) (invites s) (nuke_proposals s) (nuke_consensus_threshold s)
  end.

Definition record_of (s : NetworkState) (connected : list EndpointId) (me : EndpointId) : NetworkRecord :=
  mkRecord (published_hash s) (generation s) (fetch_order connected [me]).

(** One round of each publisher: the record it writes, if it writes one. *)
Definition network_publisher_round (s : NetworkState) (dht : option NetworkRecord)
  (connected : list EndpointId) (me : EndpointId) : option NetworkRecord :=
  if dht_read_before_write dht (generation s) (published_hash s) then Some (record_of s connected me)
  else None.

Definition lazy_publisher_round (s : NetworkState) (last_published : option Hash)
  (dht : option NetworkRecord) (connected : list EndpointId) (me : EndpointId) : option NetworkRecord :=
  if negb (bool_decide (last_published = Some (published_hash s)))
     && dht_read_before_write dht (generation s) (published_hash s)
  then Some (record_of s connected me) else None.

(** After an [accept]: written without looking at the record first. *)
Definition store_and_publish_group (s : NetworkState) (connected : list EndpointId) (me : EndpointId)
  : option NetworkRecord :=
  match snapshot s, network_secret_key s with
  | Some sn, Some _ => Some (mkRecord (snap_hash sn) (generation s) (fetch_order connected [me]))
  | _, _ => None
  end.

(** ** Side effects of a pass *)

Definition to_member_entries (ms : list Member) : list MemberEntry :=
  (fun m => mkMemberEntry (m_identity m) (m_ip m) (m_is_coordinator m) (m_hostname m)) <$> ms.
Definition to_approved_entries (aps : list ApprovedEntry) : list ApprovedConfigEntry :=
  (fun a => mkApprovedConfigEntry (a_identity a) (a_ip a) (a_hostname a)) <$> aps.

(** The roster fields of the saved network, and whether they changed. *)
Definition merge_verified_roster (net : list MemberEntry * list ApprovedConfigEntry)
  (ms : list Member) (aps : list ApprovedEntry)
  : (list MemberEntry * list ApprovedConfigEntry) * bool :=
  if bool_decide (ms = []) then (net, false)
  else
    let new_members := to_member_entries ms in
    let new_approved := to_approved_entries aps in
    if bool_decide (net.1 = new_members) && bool_decide (net.2 = new_approved) then (net, false)
    else ((new_members, new_approved), true).

(** The hostname the saved network keeps for this node. *)
Definition reconcile_local_hostname (ms : list Member) (my_identity : EndpointId) (my_hostname : option string)
  : option string :=
  match List.find (fun m => bool_decide (m_identity m = my_identity)) ms with
  | Some m => match m_hostname m with
              | Some mine => Some mine
              | None => my_hostname
              end
  | None => my_hostname
  end.

(** The fallback roster read back from the saved one. *)
Definition persisted_roster (net : option (list MemberEntry)) : list Member :=
  match net with
  | Some es => (fun e => mkMember (me_identity e) (me_ip e) (me_is_coordinator e) (me_hostname e)
                           0 None None) <$> es
  | None => []
  end.

Section Tables.
Context {Conn : Type}.

Record Links := mkLinks {
  table : PeerTable Conn;
  pruned_peers : gset (string * EndpointId);
  closed : list Conn;
}.

Definition prune_one (s : NetworkState) (network_name : string) (my_identity : EndpointId) (l : Links)
  (p : EndpointId * Ipv4Addr * Conn) : Links :=
  let '(peer_id, ip, conn) := p in
  let still_member := existsb (fun m => bool_decide (m_identity m = peer_id)) (MemberListM.all (members s)) in
  if still_member || bool_decide (peer_id = my_identity) then l
  else mkLinks (remove_peer_from_network (table l) ip (derive_ipv6 peer_id (network_public_key s)) network_name)
         ({[(network_name, peer_id)]} ∪ pruned_peers l) (closed l ++ [conn]).

Definition prune_departed_peers (s : NetworkState) (network_name : string) (my_identity : EndpointId)
  (l : Links) : Links :=
  fold_left (prune_one s network_name my_identity) (peers_for_network_with_conn (table l) network_name) l.

(** What a poll does to the routes before it looks at its own membership: the
    members the new roster does not list lose theirs. *)
Definition poll_drop_routes (s : NetworkState) (new_members : list Member) (t : PeerTable Conn)
  : PeerTable Conn :=
  fold_left
    (fun t old_id =>
       if existsb (fun n => bool_decide (m_identity n = old_id)) new_members then t
       else match MemberListM.get (members s) old_id with
            | Some member => remove t (m_ip member) (derive_ipv6 old_id (network_public_key s))
            | None => t
            end)
    (m_identity <$> MemberListM.all (members s)) t.

(** What the daemon keeps for one network beside its state: the links, the saved
    copy of the roster with the hostname, whether the network was reported as
    left, and whether a cached status is held. *)
Record SavedNetwork := mkSaved {
  sv_members : list MemberEntry;
  sv_approved : list ApprovedConfigEntry;
  sv_my_hostname : option string;
}.

Record Node := mkNode {
  node_state : NetworkState;
  node_links : Links;
  node_saved : option SavedNetwork;
  node_left : bool;
  node_status_cached : bool;
}.

(** [update_network] on a network that is not saved does nothing. *)
Definition persist_verified_roster (saved : option SavedNetwork) (ms : list Member) (aps : list ApprovedEntry)
  : option SavedNetwork :=
  match saved with
  | Some n => let '((ms', aps'), _) := merge_verified_roster (sv_members n, sv_approved n) ms aps in
              Some (mkSaved ms' aps' (sv_my_hostname n))
  | None => None
  end.

Definition save_local_hostname (saved : option SavedNetwork) (ms : list Member) (my_identity : EndpointId)
  : option SavedNetwork :=
  (fun n => mkSaved (sv_members n) (sv_approved n)
              (reconcile_local_hostname ms my_identity (sv_my_hostname n))) <$> saved.

Definition connected_peers (n : Node) (network_name : string) : list EndpointId :=
  (peers_for_network (table (node_links n)) network_name).*1.

(** The whole handler of a hint; [None] when the tiebreak does not return. *)
Definition reconverge_and_apply (n : Node) (network_name : string) (my_identity : EndpointId)
  (rec : option NetworkRecord) (serve : EndpointId -> Hash -> option (list Z) * Z) : option Node :=
  match reconverge (node_state n) my_identity rec (connected_peers n network_name) serve with
  | Kept => Some n
  | Removed => Some (mkNode (node_state n) (node_links n) (node_saved n) true (node_status_cached n))
  | Stuck => None
  | Adopted s' tiebroken aps =>
      let saved := save_local_hostname (persist_verified_roster (node_saved n) tiebroken aps) (roster s') my_identity in
      Some (mkNode s' (prune_departed_peers s' network_name my_identity (node_links n)) saved (node_left n) false)
  end.

(** One tick of the poller, with the blob it adopted if any: the routes go first,
    also when the roster turns out not to list this node. *)
Definition group_poller_tick (n : Node) (network_name : string) (my_id : EndpointId)
  (rec : option NetworkRecord) (serve : EndpointId -> Hash -> option (list Z) * Z) : Node :=
  let s := node_state n in
  match rec with
  | None => n
  | Some r =>
      if negb (poller_should_fetch (rec_generation r) (rec_hash r) (generation s) (snap_hash <$> snapshot s)) then n
      else match obtain_blob r (connected_peers n network_name) serve with
           | None => n
           | Some data =>
               let l := node_links n in
               let l' := mkLinks (poll_drop_routes s (gb_members data) (table l)) (pruned_peers l) (closed l) in
               if member_removed (gb_members data) (gb_approved data) my_id
               then mkNode s l' (node_saved n) true (node_status_cached n)
               else mkNode (adopt s data (gb_members data)) l'
                      (persist_verified_roster (node_saved n) (gb_members data) (gb_approved data))
                      (node_left n) (node_status_cached n)
           end
  end.

(** A local change: the snapshot is rebuilt and its bytes go to the blob store. *)
Definition update_snapshot_and_publish (s : NetworkState) (blob_store : list (list Z))
  : NetworkState * list (list Z) :=
  let s' := bump_generation_and_refresh s in
  (s', match snapshot s' with Some sn => snap_bytes sn :: blob_store | None => blob_store end).

End Tables.

End Network.

(** ** Links of departed peers *)
Section Links.
Context `{IrohKeys, Blake3} {Conn : Type}.

(** A peer the roster does not list, other than the node itself. *)
Definition departed (s : NetworkState) (me : EndpointId) (p : EndpointId * Ipv4Addr * Conn) : bool :=
  negb (existsb (fun m => bool_decide (m_identity m = p.1.1)) (MemberListM.all (members s)))
  && negb (bool_decide (p.1.1 = me)).

Lemma existsb_false_listed (ms : list Member) id :
  existsb (fun m => bool_decide (m_identity m = id)) ms = false <-> ~ (exists m, m ∈ ms /\ m_identity m = id).
Proof.
  rewrite <- not_true_iff_false, existsb_exists. split; intros Hn (m & Hm & E); apply Hn; exists m.
  - split; [by apply list_elem_of_In|]. by apply bool_decide_eq_true.
  - split; [by apply list_elem_of_In|]. by apply bool_decide_eq_true in E.
Qed.

Lemma peers_with_conn_elem (t : PeerTable Conn) net p :
  p ∈ peers_for_network_with_conn t net <->
  exists ip e, v4 t !! ip = Some e /\ pe_conns e !! net = Some p.2 /\ p = (pe_endpoint_id e, ip, p.2).
Proof.
  unfold peers_for_network_with_conn. rewrite list_elem_of_omap. split.
  - intros ([ip e] & Hin & Hf). apply elem_of_map_to_list in Hin. cbn in Hf.
    destruct (pe_conns e !! net) as [c|] eqn:E; [|done]. injection Hf as <-. by exists ip, e.
  - intros (ip & e & He & Hc & ->). exists (ip, e). split; [by apply elem_of_map_to_list|]. cbn in *. by rewrite Hc.
Qed.

Lemma departed_elem s net me (t : PeerTable Conn) p :
  p ∈ List.filter (departed s me) (peers_for_network_with_conn t net) <->
  exists ip e, v4 t !! ip = Some e /\ pe_conns e !! net = Some p.2 /\ p = (pe_endpoint_id e, ip, p.2)
    /\ ~ (exists m, m ∈ MemberListM.all (members s) /\ m_identity m = pe_endpoint_id e) /\ pe_endpoint_id e <> me.
Proof.
  rewrite !list_elem_of_In, filter_In, <- list_elem_of_In, peers_with_conn_elem.
  unfold departed. rewrite andb_true_iff, !negb_true_iff, bool_decide_eq_false, existsb_false_listed.
  split.
  - intros [(ip & e & He & Hc & ->) [Hl Hm]]. cbn in *. by exists ip, e.
  - intros (ip & e & He & Hc & -> & Hl & Hm). cbn in *. split; [by exists ip, e|done].
Qed.

Lemma prune_fold s net me (ps : list (EndpointId * Ipv4Addr * Conn)) (l : Links) :
  let l' := fold_left (prune_one s net me) ps l in
  closed l' = (closed l ++ (snd <$> List.filter (departed s me) ps))%list
  /\ (forall x, x ∈ pruned_peers l' <->
        x ∈ pruned_peers l \/ exists p, p ∈ List.filter (departed s me) ps /\ x = (net, p.1.1)).
Proof.
  revert l. induction ps as [|[[pid ip] c] ps IH]; intros l.
  - cbn. rewrite app_nil_r. split; [done|]. intros x. split; [by left|]. intros [?|(p & Hp & _)]; [done|].
    by apply not_elem_of_nil in Hp.
  - cbn [fold_left List.filter]. specialize (IH (prune_one s net me l (pid, ip, c))).
    destruct IH as [IH1 IH2]. cbv zeta. rewrite IH1. setoid_rewrite IH2.
    assert (departed s me (pid, ip, c) = negb (existsb (fun m => bool_decide (m_identity m = pid))
      (MemberListM.all (members s)) || bool_decide (pid = me))) as -> by (unfold departed; cbn; by rewrite negb_orb).
    unfold prune_one. destruct (_ || _); cbn [negb]; [done|].
    cbn [closed pruned_peers]. split; [by rewrite fmap_cons, <- app_assoc|]. intros x.
    rewrite elem_of_union, elem_of_singleton. split.
    + intros [[->|?]|(p & Hp & ->)]; [right; exists (pid, ip, c); split; [left|done]|by left|].
      right. exists p. split; [by right|done].
    + intros [?|(p & [->|Hp]%elem_of_cons & ->)]; [by left; right|by left; left|]. right. by exists p.
Qed.

(** Taking the routes of selected peers out of a table, one after the other. *)
Lemma fold_remove_link4 (sel : EndpointId * Ipv4Addr * Conn -> bool) (ip6 : EndpointId -> Ipv6Addr) net
  (ps : list (EndpointId * Ipv4Addr * Conn)) (t : PeerTable Conn) ip net' c :
  link4 (fold_left (fun t p => if sel p then remove_peer_from_network t p.1.2 (ip6 p.1.1) net else t) ps t) ip net' = Some c <->
  link4 t ip net' = Some c /\ ~ (net' = net /\ exists p, p ∈ List.filter sel ps /\ p.1.2 = ip).
Proof.
  revert t. induction ps as [|[[pid ip0] c0] ps IH]; intros t.
  - cbn. split; [|tauto]. intros Hc. split; [done|]. by intros (_ & p & Hp%not_elem_of_nil & _).
  - cbn [fold_left List.filter]. rewrite IH. destruct (sel (pid, ip0, c0)); [|done].
    unfold link4 at 1, remove_peer_from_network. cbn [v4 fst snd]. rewrite remove_conn_link.
    setoid_rewrite elem_of_cons. case_decide as Hd; [destruct Hd as [-> ->]|].
    + split; [by intros []|]. intros [_ Hn]. destruct Hn. split; [done|]. exists (pid, ip0, c0). by split; [left|].
    + split; (intros [Hc Hn]; split; [done|]); intros (-> & p & Hp & Ep); apply Hn; split; [done| |done|].
      * destruct Hp as [->|Hp]; [by destruct Hd|by exists p].
      * exists p. by split; [right|].
Qed.

Lemma prune_fold_link4 s net me (ps : list (EndpointId * Ipv4Addr * Conn)) (l : Links) ip net' c :
  link4 (table (fold_left (prune_one s net me) ps l)) ip net' = Some c <->
  link4 (table l) ip net' = Some c
  /\ ~ (net' = net /\ exists p, p ∈ List.filter (departed s me) ps /\ p.1.2 = ip).
Proof.
  rewrite <- (fold_remove_link4 _ (fun id => derive_ipv6 id (network_public_key s))).
  enough (table (fold_left (prune_one s net me) ps l) = fold_left (fun t p => if departed s me p then
    remove_peer_from_network t p.1.2 (derive_ipv6 p.1.1 (network_public_key s)) net else t) ps (table l)) as -> by done.
  revert l. induction ps as [|[[pid ip0] c0] ps IH]; intros l; [done|]. cbn [fold_left]. rewrite IH. f_equal.
  unfold prune_one, departed. cbn [fst snd]. rewrite <- negb_orb. by destruct (_ || _).
Qed.

(** Applying a roster severs exactly the connections of this network whose peer
    the roster no longer lists: each is closed, remembered as pruned, so that
    its closing does not trigger a new dial, and taken out of the routes; nobody
    else's connection or route is touched. *)
Theorem prune_departed_peers_spec (s : NetworkState) (net : string) (me : EndpointId) (t : PeerTable Conn)
  (pruned : gset (string * EndpointId)) (c : Conn) (id : EndpointId) (ip : Ipv4Addr) (net' : string) :
  let l' := prune_departed_peers s net me (mkLinks t pruned []) in
  let gone id := ~ (exists m, m ∈ MemberListM.all (members s) /\ m_identity m = id) /\ id <> me in
  (c ∈ closed l' <->
     exists ip e, v4 t !! ip = Some e /\ pe_conns e !! net = Some c /\ gone (pe_endpoint_id e))
  /\ ((net, id) ∈ pruned_peers l' <->
     (net, id) ∈ pruned \/ exists ip e, v4 t !! ip = Some e /\ is_Some (pe_conns e !! net)
       /\ pe_endpoint_id e = id /\ gone id)
  /\ (link4 (table l') ip net' = Some c <->
     exists e, v4 t !! ip = Some e /\ pe_conns e !! net' = Some c
       /\ ~ (net' = net /\ gone (pe_endpoint_id e))).
Proof.
  intros l' gone. unfold l', prune_departed_peers. cbn [table].
  pose proof (prune_fold_link4 s net me (peers_for_network_with_conn t net) (mkLinks t pruned []) ip net' c) as H3.
  destruct (prune_fold s net me (peers_for_network_with_conn t net) (mkLinks t pruned [])) as [H1 H2].
  cbv zeta in H1, H2. rewrite H1, H2, H3. cbn [closed pruned_peers table app].
  pose proof (departed_elem s net me t) as Hp. split_and!.
  - rewrite list_elem_of_fmap. split.
    + intros (p & -> & (i & e & ? & ? & _ & ?)%Hp). by exists i, e.
    + intros (i & e & He & Hc & Hg). exists (pe_endpoint_id e, i, c). split; [done|].
      apply Hp. by exists i, e.
  - split; (intros [?|Hx]; [by left|right]).
    + destruct Hx as (p & (i & e & ? & Hc & -> & ?)%Hp & [= ->]). exists i, e. cbn in *. by rewrite Hc.
    + destruct Hx as (i & e & He & [c' Hc] & <- & Hg). exists (pe_endpoint_id e, i, c').
      split; [|done]. apply Hp. by exists i, e.
  - unfold link4. split.
    + intros [Hc Hn]. destruct (v4 t !! ip) as [e|] eqn:He; [|done]. cbn in Hc. exists e. split; [done|].
      split; [done|]. intros [-> Hg]. apply Hn. split; [done|]. exists (pe_endpoint_id e, ip, c).
      split; [|done]. apply Hp. by exists ip, e.
    + intros (e & He & Hc & Hn). rewrite He. split; [done|]. intros (-> & p & (i & e' & He' & _ & -> & Hg)%Hp & <-).
      apply Hn. split; [done|]. cbn in He. by simplify_eq.
Qed.
End Links.

(** ** The poller's way of dropping a peer *)
Section PollDrop.
Context `{IrohKeys, Blake3, GroupBlobCodec} {Conn : Type}.

Lemma poll_drop_routes_v4 (s : NetworkState) ms (t : PeerTable Conn) ip e :
  v4 (poll_drop_routes s ms t) !! ip = Some e ->
  v4 t !! ip = Some e
  /\ forall m, m ∈ MemberListM.all (members s) -> members s !! m_identity m = Some m ->
       Forall (fun n => m_identity n <> m_identity m) ms -> m_ip m <> ip.
Proof.
  unfold poll_drop_routes. generalize (MemberListM.all (members s)) as l. intros l. revert t.
  induction l as [|x l IH]; intros t E; cbn [fmap list_fmap fold_left] in E.
  - split; [done|]. by intros m ?%not_elem_of_nil.
  - destruct (IH _ E) as [Ht Hm]. destruct (existsb _ ms) eqn:Ex.
    + split; [done|]. intros m [->|Hin]%elem_of_cons Hlk Hall; [|by apply Hm]. exfalso.
      apply existsb_exists in Ex as (n & Hn & En). apply bool_decide_eq_true in En.
      rewrite Forall_forall in Hall. by apply (Hall n); [apply list_elem_of_In|].
    + unfold MemberListM.get in Ht. destruct (members s !! m_identity x) as [mx|] eqn:Emx.
      * cbn in Ht. apply lookup_delete_Some in Ht as [Hne Ht]. split; [done|].
        intros m [->|Hin]%elem_of_cons Hlk Hall; [|by apply Hm]. congruence.
      * split; [done|]. intros m [->|Hin]%elem_of_cons Hlk Hall; [congruence|by apply Hm].
Qed.

Lemma prune_closed_linked s net me (l : Links) (c : Conn) :
  c ∈ closed (prune_departed_peers s net me l) ->
  c ∈ closed l \/ exists ip e, v4 (table l) !! ip = Some e /\ pe_conns e !! net = Some c.
Proof.
  unfold prune_departed_peers. destruct (prune_fold s net me (peers_for_network_with_conn (table l) net) l) as [Hcl _].
  cbv zeta in Hcl. rewrite Hcl, elem_of_app. intros [?|Hc]; [by left|right].
  apply list_elem_of_fmap in Hc as (p & -> & Hp). apply departed_elem in Hp as (ip & e & He & Hc & _). by exists ip, e.
Qed.

(** A peer that is kicked keeps its connection on a node that learns of it by
    polling.  The tick takes the peer's routes out of the table without closing
    the connection, and since the table no longer names it, no later roster the
    node applies closes it either: its reader goes on delivering packets. *)
Theorem poll_leaves_kicked_link_open (n : Node) (net : string) (me : EndpointId) (r : NetworkRecord)
  (serve : EndpointId -> Hash -> option (list Z) * Z) (data : GroupBlob) (m : Member) (c : Conn) :
  let s := node_state n in
  poller_should_fetch (rec_generation r) (rec_hash r) (generation s) (snap_hash <$> snapshot s) = true ->
  obtain_blob r (connected_peers n net) serve = Some data ->
  members s !! m_identity m = Some m -> Forall (fun m' => m_identity m' <> m_identity m) (gb_members data) ->
  (forall ip e k, v4 (table (node_links n)) !! ip = Some e -> pe_conns e !! k = Some c -> ip = m_ip m) ->
  c ∉ closed (node_links n) ->
  forall rec' serve' n', reconverge_and_apply (group_poller_tick n net me (Some r) serve) net me rec' serve' = Some n' ->
  c ∉ closed (node_links n').
Proof.
  intros s Hf Ho Hm Hms Honly Hnc rec' serve' n'. unfold group_poller_tick. fold s. rewrite Hf, Ho. cbn [negb].
  set (l' := mkLinks (poll_drop_routes s (gb_members data) (table (node_links n))) (pruned_peers (node_links n))
    (closed (node_links n))).
  set (n1 := if member_removed _ _ _ then _ else _).
  assert (node_links n1 = l') as El by (unfold n1; by destruct (member_removed _ _ _)).
  unfold reconverge_and_apply. destruct (reconverge _ _ _ _ _); intros [= <-]; cbn [node_links]; rewrite ?El; [done..|].
  intros [?|(ip & e & He & Hc)]%prune_closed_linked; [done|]. cbn [table l'] in He.
  destruct (poll_drop_routes_v4 _ _ _ _ _ He) as [Ht Hne].
  apply (Hne m); [apply elem_of_all; eauto|done|done|]. symmetry. by eapply Honly.
Qed.
End PollDrop.

(** A node leaves the network over a record that is older than what it holds, if the
    record is read on a hint: whether the roster still lists the node is asked before
    the generations are compared.  The same record, polled, changes nothing. *)
Theorem stale_record_evicts_member `{IrohKeys, Blake3, GroupBlobCodec} (s : NetworkState) (me : EndpointId)
  (r : NetworkRecord) (connected : list EndpointId) (serve : EndpointId -> Hash -> option (list Z) * Z) (data : GroupBlob) :
  rec_generation r < generation s -> snap_hash <$> snapshot s <> Some (rec_hash r) ->
  obtain_blob r connected serve = Some data ->
  member_removed (gb_members data) (gb_approved data) me = true ->
  reconverge s me (Some r) connected serve = Removed /\ poll s me (Some r) connected serve = Kept.
Proof.
  intros Hg Hh Ho Hm. unfold reconverge, poll, trusted_reconverge_hash. rewrite Ho. split.
  - rewrite bool_decide_eq_false_2 by congruence. unfold reconverge_finish. by rewrite Hm.
  - unfold poller_should_fetch. by rewrite (proj2 (Z.ltb_lt _ _) Hg).
Qed.

(** ** Concrete runs *)
Import Demo DemoBlob.

Definition sample_raw (g : Z) (ms : MemberList) : NetworkState :=
  mkState g ms ∅ None None (mkId 9) None Restricted ∅ ∅ ∅ 2 default_subnet.
Definition sample_state (g : Z) (ms : MemberList) : NetworkState := refresh_snapshot (sample_raw g ms).

Definition address_in (p : Pass) (id : EndpointId) : option Ipv4Addr :=
  match p with Adopted s _ _ => m_ip <$> members s !! id | _ => None end.

(** The two ways of adopting a record disagree.  On the same verified record, a
    valid roster without duplicate addresses, a node that polls seats a member at
    the address the record gives it, and a node that reconverges on a hint seats
    the same member at another one. *)
Theorem poll_and_reconverge_disagree :
  let s0 := sample_state 2 (MemberListM.from_members swapped_roster) in
  let r := mkRecord (blake3_hash (state_bytes s0)) 2 [mkId 72] in
  let serve := fun (_ : EndpointId) (_ : Hash) => (Some (state_bytes s0), 1) in
  let s := sample_state 1 ∅ in
  let polled := address_in (poll s (mkId 13) (Some r) [] serve) (mkId 13) in
  let hinted := address_in (reconverge s (mkId 13) (Some r) [] serve) (mkId 13) in
  is_Some polled /\ is_Some hinted /\ polled <> hinted.
Proof.
  cbv zeta. split; [eexists; vm_compute; reflexivity|]. split; [eexists; vm_compute; reflexivity|].
  vm_compute. discriminate.
Qed.

(** Two consecutive states of a coordinator and the bytes that occur with them. *)
Definition sample_roster : MemberList :=
  MemberListM.from_members [member_at (mkId 3) (derive_ip (mkId 3) default_subnet) 0;
                            member_at (mkId 4) (derive_ip (mkId 4) default_subnet) 0].
Definition sample_old : NetworkState := sample_state 1 sample_roster.
Definition sample_new : NetworkState := bump_generation_and_refresh sample_old.
Definition sample_serve : EndpointId -> Hash -> option (list Z) * Z := fun _ _ => (Some (state_bytes sample_new), 1).
Definition sample_record : NetworkRecord := mkRecord (blake3_hash (state_bytes sample_new)) 2 [mkId 3].

Lemma is_Some_bool {A} (o : option A) : bool_decide (is_Some o) = true -> exists a, o = Some a.
Proof. intros H%bool_decide_eq_true. exact H. Qed.

(** Another coordinator at the same generation, which has also admitted 5. *)
Definition sample_rival : NetworkState :=
  sample_state 2 (MemberListM.from_members
    [member_at (mkId 3) (derive_ip (mkId 3) default_subnet) 0; member_at (mkId 5) (derive_ip (mkId 5) default_subnet) 0]).

Lemma add_new_only {Conn} (ip ip' : Ipv4Addr) ip6 (c : Conn) id net e :
  v4 (add table_new ip ip6 c id net) !! ip' = Some e -> ip' = ip.
Proof. cbn. intros [[<- _]|[_ H]]%lookup_insert_Some; [done|]. by rewrite lookup_empty in H. Qed.

(** A node that still lists 5, with a connection to it, and polls a roster without. *)
Definition sample_node : Node (Conn := Z) :=
  mkNode sample_rival (mkLinks (add table_new (derive_ip (mkId 5) default_subnet) (derive_ipv6 (mkId 5) (mkId 9))
                         200 (mkId 5) "home") ∅ []) None false false.

Lemma poll_leaves_kicked_link_open_witness :
  closed (prune_departed_peers sample_new "home" (mkId 3) (node_links sample_node)) = [200]
  /\ forall n', reconverge_and_apply (group_poller_tick sample_node "home" (mkId 3) (Some sample_record) sample_serve)
       "home" (mkId 3) None sample_serve = Some n' -> 200 ∉ closed (node_links n').
Proof.
  split; [vm_compute; reflexivity|].
  destruct (is_Some_bool (obtain_blob sample_record (connected_peers sample_node "home") sample_serve)) as [data E];
    [vm_compute; reflexivity|].
  apply (poll_leaves_kicked_link_open sample_node "home" (mkId 3) sample_record sample_serve data
    (member_at (mkId 5) (derive_ip (mkId 5) default_subnet) 0) 200).
  - vm_compute; reflexivity.
  - exact E.
  - vm_compute; reflexivity.
  - assert (match obtain_blob sample_record (connected_peers sample_node "home") sample_serve with
            | Some d => Forall (fun m => m_identity m <> mkId 5) (gb_members d) | None => False end) as Hf
      by (vm_compute; repeat constructor; discriminate).
    rewrite E in Hf. exact Hf.
  - intros ip e k He _. exact (add_new_only _ _ _ _ _ _ _ He).
  - apply not_elem_of_nil.
Defined.

(** 5 was admitted at generation 2; the record is still the one of generation 1. *)
Lemma stale_record_evicts_member_witness :
  let r := mkRecord (blake3_hash (state_bytes sample_old)) 1 [mkId 3] in
  let serve := fun (_ : EndpointId) (_ : Hash) => (Some (state_bytes sample_old), 1) in
  reconverge sample_rival (mkId 5) (Some r) [] serve = Removed /\ poll sample_rival (mkId 5) (Some r) [] serve = Kept.
Proof.
  intros r serve.
  destruct (some_such_that (fun d => member_removed (gb_members d) (gb_approved d) (mkId 5)) (obtain_blob r [] serve))
    as (data & Ho & Hm); [vm_compute; reflexivity|].
  apply (stale_record_evicts_member sample_rival (mkId 5) r [] serve data).
  - vm_compute; reflexivity.
  - by_decide.
  - exact Ho.
  - exact Hm.
Defined.
