(* ===== verification/Ipc.v ===== *)
(** * The local control socket

    What a local program can ask of the daemon (src/tetron-proto/src/ipc.rs), who may
    ask it (src/src/daemon/mod.rs, [check_authorized]), how many may ask at once and how
    failures to accept are paced (src/src/daemon/mesh/bootstrap.rs), and how long a
    status answer may be reused (src/src/daemon/mesh/diagnostics.rs). *)

From S2P Require Import Prelude Externs Addressing Network.

(** ** Messages *)
Inductive TransportMode := TransportDefault | TransportTor | TransportVeilid.

Inductive NetworkRole := RoleCoordinator | RoleMember | RoleDirect.

Definition role_is_coordinator (r : NetworkRole) : bool :=
  match r with RoleCoordinator => true | _ => false end.

Record InviteInfo := mkInviteInfo {
  ii_id : string;
  ii_created_at : Z;
  ii_expires_at : Z;
  ii_revoked : bool;
}.

Record AdminInfo := mkAdminInfo {
  ai_short_id : string;
  ai_self_node : bool;
}.

(** [Report] is the body of a status answer. *)
Inductive IpcMessage (Report : Type) :=
| Create (mode : GroupMode) (network_name hostname : option string) (transport : option TransportMode)
    (subnet : option string) (nuke_consensus : option Z) (force : bool)
| Join (network_key : string) (alias hostname : option string) (transport : option TransportMode)
    (invite : option (list Z)) (force : bool)
| Leave (network : string) (force : bool)
| Nuke (network_key : string) (force cancel : bool) (second : option string)
| Kick (network_key endpoint_id : string)
| Status
| Shutdown
| Resume (hostname network : option string)
| Standby (network : option string)
| Sync (network : option string)
| SetOperator (uid : Z)
| SetLogLevel (level : string)
| SetPathPreference (preference : option string)
| AdminAdd (network peer : string)
| AdminList (network : string)
| IpcOk (message : string)
| IpcError (message : string)
| Created (network : string) (network_key : EndpointId) (my_ip : Ipv4Addr) (my_ipv6 : option Ipv6Addr)
    (warning initial_invite_key : option string) (subnet : string)
| Joined (network : string) (my_ip : Ipv4Addr) (my_ipv6 : option Ipv6Addr) (warning : option string)
| StatusResponse (report : Report)
| AdminListResponse (admins : list AdminInfo)
| InviteCreate (network : string) (expires : option string)
| InviteCreated (invite_key invite_id : string) (expires_at : option Z)
| InviteList (network : string)
| InviteListResponse (invites : list InviteInfo)
| InviteRevoke (network invite_id : string).
Arguments Create {Report}. Arguments Join {Report}. Arguments Leave {Report}. Arguments Nuke {Report}.
Arguments Kick {Report}. Arguments Status {Report}. Arguments Shutdown {Report}. Arguments Resume {Report}.
Arguments Standby {Report}. Arguments Sync {Report}. Arguments SetOperator {Report}. Arguments SetLogLevel {Report}.
Arguments SetPathPreference {Report}. Arguments AdminAdd {Report}. Arguments AdminList {Report}.
Arguments IpcOk {Report}. Arguments IpcError {Report}. Arguments Created {Report}. Arguments Joined {Report}.
Arguments StatusResponse {Report}. Arguments AdminListResponse {Report}. Arguments InviteCreate {Report}.
Arguments InviteCreated {Report}. Arguments InviteList {Report}. Arguments InviteListResponse {Report}.
Arguments InviteRevoke {Report}.

(** ** Who may ask *)
Section Authority.
Context {Report : Type}.
Implicit Types req : IpcMessage Report.

(** [operator] is the operator of the saved settings, if they can be read. *)
Definition check_authorized req (peer_cred : option (Z * Z)) (operator : option Z) : option (IpcMessage Report) :=
  match req with
  | Status | Sync _ | AdminList _ | InviteList _ => None
  | _ =>
      let uid := fst <$> peer_cred in
      if bool_decide (uid = Some 0) then None
      else
        match req with
        | SetOperator _ =>
            Some (IpcError "permission denied: granting operator access requires root (re-run with sudo)")
        | _ =>
            if bool_decide (is_Some uid) && bool_decide (uid = operator) then None
            else Some (IpcError ("permission denied: this user is not authorized to control tetron."
                                 +:+ utf8 [10] +:+ "Grant access with: sudo tetron set-operator <user>"))
        end
  end.

Definition invalidates_status_snapshot req : bool :=
  match req with
  | Status | AdminList _ | InviteList _ => false
  | _ => true
  end.

(** What the daemon does for a request, before it is dispatched. *)
Definition handle_request_gate {Cache} req (peer_cred : option (Z * Z)) (operator : option Z) (cache : option Cache)
  : Result (option Cache) (IpcMessage Report) :=
  match check_authorized req peer_cred operator with
  | Some denied => Err denied
  | None => Ok (if invalidates_status_snapshot req then None else cache)
  end.
End Authority.

(** Root, or the operator. *)
Definition is_privileged_uid (uid operator : option Z) : bool :=
  bool_decide (uid = Some 0) || bool_decide (is_Some uid) && bool_decide (uid = operator).

(** ** How many may ask at once *)

(** The free permits of the two semaphores. *)
Record IpcSlots := mkSlots { general : Z; reserve : Z }.

Inductive Permit := GeneralPermit | ReservePermit.

Definition try_admit (s : IpcSlots) (privileged : bool) : IpcSlots * option Permit :=
  if 0 <? general s then (mkSlots (general s - 1) (reserve s), Some GeneralPermit)
  else if privileged then
    if 0 <? reserve s then (mkSlots (general s) (reserve s - 1), Some ReservePermit) else (s, None)
  else (s, None).

(** A permit goes back to its own semaphore when the handler ends. *)
Definition release (s : IpcSlots) (p : Permit) : IpcSlots :=
  match p with
  | GeneralPermit => mkSlots (general s + 1) (reserve s)
  | ReservePermit => mkSlots (general s) (reserve s + 1)
  end.

(** ** Failures to accept *)
Definition accept_backoff (consecutive_errors : Z) : Z :=
  if consecutive_errors =? 0 then 0
  else Z.min (50 * 10 ^ 6 * wrap 32 (Z.shiftl 1 (Z.min (consecutive_errors - 1) 10))) (10 ^ 9).

(** ** A reply that quotes the request *)
Definition MAX_DECODE_ERROR_LEN : nat := 512.

(** [str::is_char_boundary], on the bytes of a string. *)
Definition is_char_boundary (s : list Z) (i : nat) : bool :=
  (i =? 0)%nat || (i =? length s)%nat
  || match s !! i with Some b => negb (continuation b) | None => false end.

Definition truncate_decode_error (s : list Z) : list Z :=
  if (length s <=? MAX_DECODE_ERROR_LEN)%nat then s
  else
    let cut := default 0%nat (List.find (is_char_boundary s) (reverse (seq 0 (S MAX_DECODE_ERROR_LEN)))) in
    (take cut s ++ as_bytes "... (truncated)")%list.

(** ** The status cache *)
Definition STATUS_CACHE_INTERVAL_SECS : Z := 12.

(** [configured] is [status-cache.interval] of the saved settings. *)
Definition status_cache_interval (configured : option Z) : Z :=
  10 ^ 9 * match configured with Some s => if 0 <? s then s else STATUS_CACHE_INTERVAL_SECS
                               | None => STATUS_CACHE_INTERVAL_SECS end.

Definition status_snapshot_is_stale (age : option Z) (interval : Z) : bool :=
  match age with
  | None => true
  | Some a => interval <=? a
  end.

Section StatusCache.
Context {Networks : Type}.

Record StatusSnapshot := mkStatusSnapshot { snap_networks : Networks; built_at : Z }.

(** [networks] is what a rebuild at this moment would give. *)
Definition network_statuses_cached (cache : option StatusSnapshot) (interval now : Z) (networks : Networks)
  : option StatusSnapshot * Networks :=
  match cache with
  | Some s =>
      if status_snapshot_is_stale (Some (now - built_at s)) interval
      then (Some (mkStatusSnapshot networks now), networks)
      else (cache, snap_networks s)
  | None => (Some (mkStatusSnapshot networks now), networks)
  end.
End StatusCache.

(** ** Authority *)

(** The requests that change nothing. *)
Definition read_only {Report} (req : IpcMessage Report) : bool :=
  match req with Status | Sync _ | AdminList _ | InviteList _ => true | _ => false end.
Definition sets_operator {Report} (req : IpcMessage Report) : bool :=
  match req with SetOperator _ => true | _ => false end.

Lemma check_authorized_cases {Report} (req : IpcMessage Report) cred operator :
  check_authorized req cred operator =
  if read_only req || bool_decide (fst <$> cred = Some 0) then None
  else if sets_operator req then
    Some (IpcError "permission denied: granting operator access requires root (re-run with sudo)")
  else if bool_decide (is_Some (fst <$> cred)) && bool_decide (fst <$> cred = operator) then None
  else Some (IpcError ("permission denied: this user is not authorized to control tetron."
                       +:+ utf8 [10] +:+ "Grant access with: sudo tetron set-operator <user>")).
Proof. by destruct req. Qed.

(** Whether a request gets past the gate.  One that changes something does exactly
    when the caller is root, or is the operator and does not appoint an operator; a
    caller the kernel does not vouch for never gets anything but reads.  The callers
    for whom handler slots are reserved are the ones who may change something. *)
Theorem authority_exact {Report Cache} (req : IpcMessage Report) (cred : option (Z * Z)) (operator : option Z)
  (cache : option Cache) :
  let uid := fst <$> cred in
  (is_ok (handle_request_gate req cred operator cache) = true
   <-> read_only req = true \/ uid = Some 0 \/ (sets_operator req = false /\ is_Some uid /\ uid = operator))
  /\ (read_only req = false -> is_ok (handle_request_gate req cred operator cache) = true ->
        is_privileged_uid uid operator = true).
Proof.
  intros uid. unfold handle_request_gate, is_privileged_uid. rewrite check_authorized_cases. fold uid.
  destruct (read_only req); cbn [orb is_ok]; [split; [tauto|done]|].
  destruct (decide (uid = Some 0)) as [E|E].
  { rewrite (bool_decide_eq_true_2 (uid = Some 0)) by done. cbn [orb is_ok]. tauto. }
  rewrite (bool_decide_eq_false_2 (uid = Some 0)) by done. cbn [orb].
  destruct (sets_operator req); [cbn [is_ok]; intuition congruence|].
  destruct (decide (is_Some uid)) as [Hs|Hs], (decide (uid = operator)) as [Ho|Ho];
    rewrite ?(bool_decide_eq_true_2 _ Hs), ?(bool_decide_eq_false_2 _ Hs), ?(bool_decide_eq_true_2 _ Ho),
      ?(bool_decide_eq_false_2 _ Ho); cbn [andb is_ok]; intuition congruence.
Qed.

(** ** Slots *)

(** The handlers that are running: the permit each holds, and whether its caller is
    privileged. *)
Abbreviation Handlers := (list (Permit * bool)).

Inductive slot_step : IpcSlots * Handlers -> IpcSlots * Handlers -> Prop :=
| slot_admit s held privileged s' p :
    try_admit s privileged = (s', Some p) -> slot_step (s, held) (s', (p, privileged) :: held)
| slot_refuse s held privileged s' : try_admit s privileged = (s', None) -> slot_step (s, held) (s', held)
| slot_release s h1 p privileged h2 : slot_step (s, h1 ++ (p, privileged) :: h2)%list (release s p, h1 ++ h2)%list.

Definition holds (p : Permit) (h : Permit * bool) : bool :=
  match h.1, p with GeneralPermit, GeneralPermit | ReservePermit, ReservePermit => true | _, _ => false end.
Definition count {A} (f : A -> bool) (l : list A) : Z := Z.of_nat (length (List.filter f l)).

Lemma count_app {A} (f : A -> bool) l1 l2 : count f (l1 ++ l2) = count f l1 + count f l2.
Proof. unfold count. rewrite List.filter_app, length_app. lia. Qed.

Lemma count_cons {A} (f : A -> bool) x l : count f (x :: l) = (if f x then 1 else 0) + count f l.
Proof. unfold count. cbn. destruct (f x); cbn [length]; lia. Qed.

Lemma count_nonneg {A} (f : A -> bool) l : 0 <= count f l.
Proof. unfold count. lia. Qed.

Definition slots_ok (g r : Z) (w : IpcSlots * Handlers) : Prop :=
  0 <= general w.1 /\ 0 <= reserve w.1
  /\ general w.1 + count (holds GeneralPermit) w.2 = g /\ reserve w.1 + count (holds ReservePermit) w.2 = r
  /\ Forall (fun h => h.1 = ReservePermit -> h.2 = true) w.2.

Lemma slot_step_ok g r w w' : slot_step w w' -> slots_ok g r w -> slots_ok g r w'.
Proof.
  unfold slots_ok. intros [s held privileged s' p E|s held privileged s' E|s h1 p privileged h2]; cbn [fst snd].
  - unfold try_admit in E. intros (? & ? & ? & ? & Hf). rewrite !count_cons.
    repeat case_match; simplify_eq; cbn [general reserve holds fst]; btac; split_and!; try lia; constructor; done.
  - unfold try_admit in E. repeat case_match; by simplify_eq.
  - rewrite !count_app, !count_cons, !Forall_app, Forall_cons.
    destruct p; cbn [release general reserve holds fst]; intros (? & ? & ? & ? & ? & ? & ?); split_and!; try lia; done.
Qed.

Lemma reserve_le_privileged held :
  Forall (fun h => h.1 = ReservePermit -> h.2 = true) held ->
  count (holds ReservePermit) held <= count snd held
  /\ count (fun h => negb h.2) held <= count (holds GeneralPermit) held
  /\ Z.of_nat (length held) = count (holds GeneralPermit) held + count (holds ReservePermit) held.
Proof.
  induction 1 as [|[p b] held Hp _ IH]; [done|]. rewrite !count_cons. cbn [length holds fst snd] in *.
  destruct p, b; cbn; try lia. by specialize (Hp eq_refl).
Qed.

(** The socket never serves more clients than there are slots, and clients that may
    not change anything, however many come and however long they stay, never hold more
    than the general slots: while fewer privileged handlers than reserved slots are
    running, a privileged caller is let in. *)
Theorem privileged_callers_get_in (g r : Z) (w : IpcSlots * Handlers) :
  0 <= g -> 0 <= r -> rtc slot_step (mkSlots g r, []) w ->
  Z.of_nat (length w.2) <= g + r /\ count (fun h => negb h.2) w.2 <= g
  /\ (count snd w.2 < r -> exists s' p, try_admit w.1 true = (s', Some p)).
Proof.
  intros Hg Hr Hw.
  assert (slots_ok g r w) as (H1 & H2 & H3 & H4 & Hf).
  { eapply (rtc_ind_r (slots_ok g r)); [|intros w1 w2 _ Hs Hok; by eapply slot_step_ok|exact Hw].
    unfold slots_ok, count. cbn. split_and!; try lia. constructor. }
  destruct (reserve_le_privileged w.2 Hf) as (Hp & Hu & Hl). split; [lia|]. split; [lia|].
  intros Hlt. unfold try_admit. destruct (Z.ltb_spec 0 (general w.1)); [eauto|].
  destruct (Z.ltb_spec 0 (reserve w.1)); [eauto|]. lia.
Qed.

Lemma privileged_callers_get_in_witness :
  let w := (mkSlots 0 1, [(GeneralPermit, false)]) in
  Z.of_nat (length w.2) <= 2 /\ exists s' p, try_admit w.1 true = (s', Some p).
Proof.
  intros w. destruct (privileged_callers_get_in 1 1 w) as (Hl & _ & Hp); [lia|lia| |].
  - eapply rtc_l; [|apply rtc_refl]. exact (slot_admit (mkSlots 1 1) [] false (mkSlots 0 1) GeneralPermit eq_refl).
  - split; [exact Hl|]. apply Hp. reflexivity.
Defined.

(** ** Truncated replies *)

(** A valid string begins with a character: up to four bytes, all but the first of them
    continuations. *)
Lemma utf8_first_char l : utf8_valid l = true -> l <> [] ->
  exists c rest, l = (c ++ rest)%list /\ (1 <= length c <= 4)%nat
  /\ (forall b, l !! 0%nat = Some b -> continuation b = false)
  /\ (forall i b, c !! S i = Some b -> continuation b = true)
  /\ utf8_valid rest = true /\ forall r, utf8_valid (c ++ r) = utf8_valid r.
Proof.
  destruct l as [|a l1]; [done|]. intros Hv _. cbn [utf8_valid] in Hv.
  destruct (a <? 128) eqn:Ea.
  { exists [a], l1. split_and!; try done; [cbn; lia..| |].
    - intros b [= <-]. unfold continuation, between. lia.
    - intros r. cbn. by rewrite Ea. }
  destruct l1 as [|b l2]; [done|]. destruct (between 194 223 a) eqn:E2.
  { apply andb_true_iff in Hv as [Hb Hv]. exists [a; b], l2. split_and!; try done; [cbn; lia..| | |].
    - intros x [= <-]. unfold continuation, between in *. lia.
    - intros [|i] x; cbn; [by intros [= <-]|done].
    - intros r. cbn. by rewrite Ea, E2, Hb. }
  destruct l2 as [|c l3]; [done|]. destruct (between 224 239 a) eqn:E3.
  { rewrite !andb_true_iff in Hv. destruct Hv as [[Hb Hc] Hv]. exists [a; b; c], l3.
    split_and!; try done; [cbn; lia..| | |].
    - intros x [= <-]. unfold continuation, between in *. lia.
    - intros [|[|i]] x; cbn; intros [= <-]; [|done]. unfold utf8_lead3, continuation, between in *. lia.
    - intros r. cbn. by rewrite Ea, E2, E3, Hb, Hc. }
  destruct l3 as [|d l4]; [done|]. rewrite !andb_true_iff in Hv. destruct Hv as [[[Hb Hc] Hd] Hv].
  exists [a; b; c; d], l4. split_and!; try done; [cbn; lia..| | |].
  - intros x [= <-]. unfold utf8_lead4, continuation, between in *. lia.
  - intros [|[|[|i]]] x; cbn; intros [= <-]; [|done|done]. unfold utf8_lead4, continuation, between in *. lia.
  - intros r. cbn. by rewrite Ea, E2, E3, Hb, Hc, Hd.
Qed.

Lemma char_boundary_iff l i : is_char_boundary l i = true <->
  i = 0%nat \/ i = length l \/ exists b, l !! i = Some b /\ continuation b = false.
Proof.
  unfold is_char_boundary. rewrite !orb_true_iff, !Nat.eqb_eq.
  assert (match l !! i with Some b => negb (continuation b) | None => false end = true
    <-> exists b, l !! i = Some b /\ continuation b = false) as ->; [|tauto].
  destruct (l !! i) as [b|]; [rewrite negb_true_iff|]; split; [eauto|by intros (? & [= <-] & ?)|done|by intros (? & ? & ?)].
Qed.

(** A character at a time. *)
Lemma utf8_ind (P : list Z -> Prop) :
  P [] ->
  (forall c rest, (1 <= length c <= 4)%nat ->
     (forall i b, c !! S i = Some b -> continuation b = true) -> (forall r, utf8_valid (c ++ r) = utf8_valid r) ->
     utf8_valid rest = true -> P rest -> P (c ++ rest)%list) ->
  forall l, utf8_valid l = true -> P l.
Proof.
  intros H0 Hc l. remember (length l) as n eqn:En. assert (length l <= n)%nat as Hn by lia. clear En. revert l Hn.
  induction n as [|n IH]; intros l Hn Hv; [by destruct l; [|cbn in Hn; lia]|].
  destruct l as [|a l1] eqn:El; [done|]. rewrite <- El in *.
  destruct (utf8_first_char l Hv) as (c & rest & -> & Hlen & Hb & Hi & Hr & Ha); [by rewrite El|].
  apply Hc; try done. apply IH; [|done]. rewrite length_app in Hn. lia.
Qed.

Lemma utf8_take_boundary l : utf8_valid l = true ->
  forall i, is_char_boundary l i = true -> utf8_valid (take i l) = true.
Proof.
  revert l. apply (utf8_ind (fun l => forall i, is_char_boundary l i = true -> utf8_valid (take i l) = true)).
  - intros i _. by rewrite take_nil.
  - intros c rest Hlen Hi Hr Hv IH i Hb. destruct (decide (i < length c)%nat) as [Hlt|Hge].
    + apply char_boundary_iff in Hb as [->|[->|(b & Hb & Hn)]]; [done|rewrite length_app in Hlt; lia|].
      rewrite lookup_app_l in Hb by done. destruct i as [|i]; [done|]. by rewrite (Hi i b Hb) in Hn.
    + rewrite take_app_ge by lia. rewrite Hr. apply IH. apply char_boundary_iff.
      apply char_boundary_iff in Hb as [->|[->|(b & Hb & Hn)]]; [lia| |].
      * right. left. rewrite length_app. lia.
      * right. right. exists b. rewrite lookup_app_r in Hb by lia. done.
Qed.

Lemma utf8_boundary_near l : utf8_valid l = true -> forall n, (n <= length l)%nat ->
  exists i, (n - 3 <= i <= n)%nat /\ is_char_boundary l i = true.
Proof.
  revert l. apply (utf8_ind (fun l => forall n, (n <= length l)%nat ->
    exists i, (n - 3 <= i <= n)%nat /\ is_char_boundary l i = true)).
  - intros n Hn. cbn in Hn. exists 0%nat. split; [lia|done].
  - intros c rest Hlen Hi Hr Hv IH n Hn. destruct (decide (n < length c)%nat) as [Hlt|Hge].
    { exists 0%nat. split; [lia|done]. }
    rewrite length_app in Hn. destruct (IH (n - length c)%nat) as (i & Hi' & Hbi); [lia|].
    exists (i + length c)%nat. split; [lia|]. apply char_boundary_iff. rewrite length_app.
    rewrite lookup_app_r by lia. replace (i + length c - length c)%nat with i by lia.
    apply char_boundary_iff in Hbi as [->|[->|Hbi]]; [|right; left; lia|by right; right].
    destruct rest as [|x rest']; [right; left; cbn; lia|]. right. right. exists x. split; [done|].
    destruct (utf8_first_char (x :: rest') Hv) as (? & ? & _ & _ & H0 & _); [done|]. by apply H0.
Qed.

Lemma utf8_valid_app l r : utf8_valid l = true -> utf8_valid (l ++ r) = utf8_valid r.
Proof.
  revert l. apply (utf8_ind (fun l => utf8_valid (l ++ r) = utf8_valid r)); [done|].
  intros c rest _ _ Hr _ IH. by rewrite <- app_assoc, Hr.
Qed.

(** The last index at which a test holds. *)
Lemma find_last (f : nat -> bool) n :
  match List.find f (reverse (seq 0 (S n))) with
  | Some i => (i <= n)%nat /\ f i = true /\ forall j, (i < j <= n)%nat -> f j = false
  | None => forall j, (j <= n)%nat -> f j = false
  end.
Proof.
  induction n as [|n IH].
  { cbn. destruct (f 0%nat) eqn:E; [split_and!; [lia|done|lia]|]. intros j Hj. by replace j with 0%nat by lia. }
  rewrite seq_S, reverse_snoc. cbn [List.find]. rewrite Nat.add_0_l. destruct (f (S n)) eqn:E.
  { split_and!; [lia|done|lia]. }
  destruct (List.find f (reverse (seq 0 (S n)))) as [i|].
  - destruct IH as (? & ? & Hj). split_and!; [lia|done|]. intros j Hj'.
    destruct (decide (j = S n)) as [->|]; [done|]. apply Hj. lia.
  - intros j Hj. destruct (decide (j = S n)) as [->|]; [done|]. apply IH. lia.
Qed.

(** A reply that quotes an undecodable request is bounded whatever the request was, is
    still text, and drops no more than it has to: a message of up to 512 bytes is kept
    whole, and of a longer one at least the first 509 bytes are. *)
Theorem decode_error_bounded (s : list Z) :
  utf8_valid s = true ->
  let r := truncate_decode_error s in
  (length r <= 527)%nat /\ utf8_valid r = true
  /\ ((length s <= 512)%nat -> r = s)
  /\ ((512 < length s)%nat -> exists n, (509 <= n <= 512)%nat /\ r = take n s ++ as_bytes "... (truncated)")%list.
Proof.
  intros Hv. cbv zeta. unfold truncate_decode_error. destruct (Nat.leb_spec (length s) MAX_DECODE_ERROR_LEN) as [Hl|Hl];
    unfold MAX_DECODE_ERROR_LEN in *.
  { split_and!; [lia|done|done|lia]. }
  pose proof (find_last (is_char_boundary s) 512) as Hf.
  destruct (utf8_boundary_near s Hv 512) as (i & Hi & Hb); [lia|].
  destruct (List.find _ _) as [n|]; [|rewrite Hf in Hb by lia; done]. destruct Hf as (Hn & Hbn & Hlast).
  cbn [default from_option id]. assert (i <= n)%nat by (destruct (decide (i <= n)%nat); [done|]; rewrite Hlast in Hb by lia; done).
  split_and!; [|rewrite utf8_valid_app; [done|by apply utf8_take_boundary]|lia|].
  - rewrite length_app, length_take. change (length (as_bytes "... (truncated)")) with 15%nat. lia.
  - intros _. exists n. split; [lia|done].
Qed.

Lemma decode_error_bounded_witness :
  let s := (replicate 511 97 ++ [195; 169; 97])%list in
  truncate_decode_error s = (replicate 511 97 ++ as_bytes "... (truncated)")%list
  /\ utf8_valid (truncate_decode_error s) = true.
Proof.
  intros s. split; [vm_compute; reflexivity|].
  apply (decode_error_bounded s). vm_compute; reflexivity.
Defined.

(** ** Stale status *)

(** Dropping the cached status when a request arrives does not keep the next status
    from being stale: one that is read while the request is still running fills the
    cache again with the state of before, and it is served after the request is done,
    for up to the whole interval. *)
Theorem status_stale_after_action {Report Networks} (req : IpcMessage Report) (gid : Z) (operator : option Z)
  (cache : option (StatusSnapshot (Networks := Networks))) (interval during after : Z) (before now : Networks) :
  invalidates_status_snapshot req = true -> after - during < interval ->
  exists cache', handle_request_gate req (Some (0, gid)) operator cache = Ok cache'
  /\ let filled := (network_statuses_cached cache' interval during before).1 in
     (network_statuses_cached filled interval after now).2 = before.
Proof.
  intros Hi Hlt. exists None. split.
  - unfold handle_request_gate. rewrite check_authorized_cases. cbn [fmap option_fmap option_map fst].
    rewrite bool_decide_eq_true_2, orb_true_r, Hi by done. done.
  - cbn. unfold network_statuses_cached, status_snapshot_is_stale. cbn [built_at].
    by rewrite (proj2 (Z.leb_gt _ _) Hlt).
Qed.

Lemma status_stale_after_action_witness :
  let interval := status_cache_interval None in
  exists cache', handle_request_gate (Report := unit) (Leave "home" false) (Some (0, 0)) None None = Ok cache'
  /\ let filled := (network_statuses_cached cache' interval 0 ["home"]).1 in
     (network_statuses_cached filled interval (5 * 10 ^ 9) []).2 = ["home"].
Proof. apply (status_stale_after_action (Leave "home" false) 0 None None); vm_compute; reflexivity. Defined.
