(* ===== verification/Settings.v ===== *)
(** * Settings (src/src/config/schema.rs, src/src/config/overrides.rs)

    The daemon's settings, and the commands that set and show one of them by name.
    Parsing a URL is the [url] crate's: a parameter. *)

From S2P Require Import Prelude Externs Addressing Names Members Network Select Ipc.

(** ** The saved networks *)
Record NetworkConfig := mkNetworkConfig {
  nc_name : string;
  nc_group_mode : GroupMode;
  nc_my_ip : option Ipv4Addr;
  nc_my_hostname : option string;
  nc_members : list MemberEntry;
  nc_approved : list ApprovedConfigEntry;
  nc_network_secret_key : option (list Z);
  nc_network_public_key : option EndpointId;
  nc_transport : option TransportMode;
  nc_admins : list EndpointId;
  nc_direct : bool;
  nc_subnet : option Subnet;
  nc_nuke_consensus_threshold : Z;
}.

(** ** The settings *)
Record ServerOverride := mkServerOverride { so_servers : list string; so_replace : bool }.

Definition is_unset (o : ServerOverride) : bool := bool_decide (so_servers o = []).

Record RateLimitConfig := mkRateLimitConfig { rl_capacity : option Z; rl_refill_per_sec : option Z; rl_strike_limit : option Z; rl_global_capacity : option Z; rl_global_refill_per_sec : option Z; rl_global_strike_limit : option Z }.
Record DropMonitorConfig := mkDropMonitorConfig { dm_window_secs : option Z; dm_threshold : option Z; dm_cooldown_secs : option Z }.
Record PathFlapConfig := mkPathFlapConfig { pf_threshold : option Z; pf_window_secs : option Z }.
Record ReconnectLogConfig := mkReconnectLogConfig { rlog_threshold : option Z; rlog_window_secs : option Z }.
Record ReconnectColdConfig := mkReconnectColdConfig { rc_threshold : option Z; rc_backoff_secs : option Z }.
Record ReconnectFrozenConfig := mkReconnectFrozenConfig { rf_threshold : option Z; rf_backoff_secs : option Z }.
Record ReconnectHolddownConfig := mkReconnectHolddownConfig { rh_min_uptime_secs : option Z; rh_jitter_pct : option Z }.
Record IpcConfig := mkIpcConfig { ic_request_timeout_secs : option Z; ic_response_timeout_secs : option Z; ic_max_clients : option Z; ic_reserved_clients : option Z }.
Record HelloConfig := mkHelloConfig { hc_timeout_secs : option Z }.
Record JoinConfig := mkJoinConfig { jc_request_timeout_secs : option Z }.
Record StatusCacheConfig := mkStatusCacheConfig { sc_interval_secs : option Z }.

Record AppConfig := mkAppConfig {
  cfg_operator_uid : option Z;
  cfg_default_hostname : option string;
  cfg_subnet : option Subnet;
  cfg_relay : ServerOverride;
  cfg_discovery_dns : ServerOverride;
  cfg_ratelimit : RateLimitConfig;
  cfg_drop_monitor : DropMonitorConfig;
  cfg_path_flap : PathFlapConfig;
  cfg_reconnect_log : ReconnectLogConfig;
  cfg_reconnect_cold : ReconnectColdConfig;
  cfg_reconnect_frozen : ReconnectFrozenConfig;
  cfg_reconnect_holddown : ReconnectHolddownConfig;
  cfg_ipc : IpcConfig;
  cfg_hello : HelloConfig;
  cfg_join : JoinConfig;
  cfg_status_cache : StatusCacheConfig;
  cfg_nuke_proposal_ttl : option Z;
  cfg_listen_port : option Z;
  cfg_poller_interval : option Z;
  cfg_log_retention : option Z;
  cfg_invite_default_expiry : option Z;
  cfg_selfcapture_mitigation : option bool;
  cfg_log_level : option string;
  cfg_path_preference : option string;
  cfg_networks : list NetworkConfig;
}.

(** What each field is when nothing was set. *)
Definition AppConfig_default : AppConfig :=
  mkAppConfig None None None (mkServerOverride [] false) (mkServerOverride [] false)
    (mkRateLimitConfig None None None None None None) (mkDropMonitorConfig None None None)
    (mkPathFlapConfig None None) (mkReconnectLogConfig None None) (mkReconnectColdConfig None None)
    (mkReconnectFrozenConfig None None) (mkReconnectHolddownConfig None None)
    (mkIpcConfig None None None None) (mkHelloConfig None) (mkJoinConfig None) (mkStatusCacheConfig None)
    None None None None None None None None [].

(** Assignments to one field. *)
Definition with_subnet (c : AppConfig) (v : option Subnet) : AppConfig :=
  mkAppConfig (cfg_operator_uid c) (cfg_default_hostname c) v (cfg_relay c) (cfg_discovery_dns c) (cfg_ratelimit c)
    (cfg_drop_monitor c) (cfg_path_flap c) (cfg_reconnect_log c) (cfg_reconnect_cold c) (cfg_reconnect_frozen c)
    (cfg_reconnect_holddown c) (cfg_ipc c) (cfg_hello c) (cfg_join c) (cfg_status_cache c)
    (cfg_nuke_proposal_ttl c) (cfg_listen_port c) (cfg_poller_interval c) (cfg_log_retention c)
    (cfg_invite_default_expiry c) (cfg_selfcapture_mitigation c) (cfg_log_level c) (cfg_path_preference c)
    (cfg_networks c).
Definition with_relay (c : AppConfig) (v : ServerOverride) : AppConfig :=
  mkAppConfig (cfg_operator_uid c) (cfg_default_hostname c) (cfg_subnet c) v (cfg_discovery_dns c) (cfg_ratelimit c)
    (cfg_drop_monitor c) (cfg_path_flap c) (cfg_reconnect_log c) (cfg_reconnect_cold c) (cfg_reconnect_frozen c)
    (cfg_reconnect_holddown c) (cfg_ipc c) (cfg_hello c) (cfg_join c) (cfg_status_cache c)
    (cfg_nuke_proposal_ttl c) (cfg_listen_port c) (cfg_poller_interval c) (cfg_log_retention c)
    (cfg_invite_default_expiry c) (cfg_selfcapture_mitigation c) (cfg_log_level c) (cfg_path_preference c)
    (cfg_networks c).
Definition with_discovery_dns (c : AppConfig) (v : ServerOverride) : AppConfig :=
  mkAppConfig (cfg_operator_uid c) (cfg_default_hostname c) (cfg_subnet c) (cfg_relay c) v (cfg_ratelimit c)
    (cfg_drop_monitor c) (cfg_path_flap c) (cfg_reconnect_log c) (cfg_reconnect_cold c) (cfg_reconnect_frozen c)
    (cfg_reconnect_holddown c) (cfg_ipc c) (cfg_hello c) (cfg_join c) (cfg_status_cache c)
    (cfg_nuke_proposal_ttl c) (cfg_listen_port c) (cfg_poller_interval c) (cfg_log_retention c)
    (cfg_invite_default_expiry c) (cfg_selfcapture_mitigation c) (cfg_log_level c) (cfg_path_preference c)
    (cfg_networks c).
Definition with_ratelimit (c : AppConfig) (v : RateLimitConfig) : AppConfig :=
  mkAppConfig (cfg_operator_uid c) (cfg_default_hostname c) (cfg_subnet c) (cfg_relay c) (cfg_discovery_dns c) v
    (cfg_drop_monitor c) (cfg_path_flap c) (cfg_reconnect_log c) (cfg_reconnect_cold c) (cfg_reconnect_frozen c)
    (cfg_reconnect_holddown c) (cfg_ipc c) (cfg_hello c) (cfg_join c) (cfg_status_cache c)
    (cfg_nuke_proposal_ttl c) (cfg_listen_port c) (cfg_poller_interval c) (cfg_log_retention c)
    (cfg_invite_default_expiry c) (cfg_selfcapture_mitigation c) (cfg_log_level c) (cfg_path_preference c)
    (cfg_networks c).
Definition with_drop_monitor (c : AppConfig) (v : DropMonitorConfig) : AppConfig :=
  mkAppConfig (cfg_operator_uid c) (cfg_default_hostname c) (cfg_subnet c) (cfg_relay c) (cfg_discovery_dns c)
    (cfg_ratelimit c) v (cfg_path_flap c) (cfg_reconnect_log c) (cfg_reconnect_cold c) (cfg_reconnect_frozen c)
    (cfg_reconnect_holddown c) (cfg_ipc c) (cfg_hello c) (cfg_join c) (cfg_status_cache c)
    (cfg_nuke_proposal_ttl c) (cfg_listen_port c) (cfg_poller_interval c) (cfg_log_retention c)
    (cfg_invite_default_expiry c) (cfg_selfcapture_mitigation c) (cfg_log_level c) (cfg_path_preference c)
    (cfg_networks c).
Definition with_path_flap (c : AppConfig) (v : PathFlapConfig) : AppConfig :=
  mkAppConfig (cfg_operator_uid c) (cfg_default_hostname c) (cfg_subnet c) (cfg_relay c) (cfg_discovery_dns c)
    (cfg_ratelimit c) (cfg_drop_monitor c) v (cfg_reconnect_log c) (cfg_reconnect_cold c)
    (cfg_reconnect_frozen c) (cfg_reconnect_holddown c) (cfg_ipc c) (cfg_hello c) (cfg_join c)
    (cfg_status_cache c) (cfg_nuke_proposal_ttl c) (cfg_listen_port c) (cfg_poller_interval c)
    (cfg_log_retention c) (cfg_invite_default_expiry c) (cfg_selfcapture_mitigation c) (cfg_log_level c)
    (cfg_path_preference c) (cfg_networks c).
Definition with_reconnect_log (c : AppConfig) (v : ReconnectLogConfig) : AppConfig :=
  mkAppConfig (cfg_operator_uid c) (cfg_default_hostname c) (cfg_subnet c) (cfg_relay c) (cfg_discovery_dns c)
    (cfg_ratelimit c) (cfg_drop_monitor c) (cfg_path_flap c) v (cfg_reconnect_cold c) (cfg_reconnect_frozen c)
    (cfg_reconnect_holddown c) (cfg_ipc c) (cfg_hello c) (cfg_join c) (cfg_status_cache c)
    (cfg_nuke_proposal_ttl c) (cfg_listen_port c) (cfg_poller_interval c) (cfg_log_retention c)
    (cfg_invite_default_expiry c) (cfg_selfcapture_mitigation c) (cfg_log_level c) (cfg_path_preference c)
    (cfg_networks c).
Definition with_reconnect_cold (c : AppConfig) (v : ReconnectColdConfig) : AppConfig :=
  mkAppConfig (cfg_operator_uid c) (cfg_default_hostname c) (cfg_subnet c) (cfg_relay c) (cfg_discovery_dns c)
    (cfg_ratelimit c) (cfg_drop_monitor c) (cfg_path_flap c) (cfg_reconnect_log c) v (cfg_reconnect_frozen c)
    (cfg_reconnect_holddown c) (cfg_ipc c) (cfg_hello c) (cfg_join c) (cfg_status_cache c)
    (cfg_nuke_proposal_ttl c) (cfg_listen_port c) (cfg_poller_interval c) (cfg_log_retention c)
    (cfg_invite_default_expiry c) (cfg_selfcapture_mitigation c) (cfg_log_level c) (cfg_path_preference c)
    (cfg_networks c).
Definition with_reconnect_frozen (c : AppConfig) (v : ReconnectFrozenConfig) : AppConfig :=
  mkAppConfig (cfg_operator_uid c) (cfg_default_hostname c) (cfg_subnet c) (cfg_relay c) (cfg_discovery_dns c)
    (cfg_ratelimit c) (cfg_drop_monitor c) (cfg_path_flap c) (cfg_reconnect_log c) (cfg_reconnect_cold c) v
    (cfg_reconnect_holddown c) (cfg_ipc c) (cfg_hello c) (cfg_join c) (cfg_status_cache c)
    (cfg_nuke_proposal_ttl c) (cfg_listen_port c) (cfg_poller_interval c) (cfg_log_retention c)
    (cfg_invite_default_expiry c) (cfg_selfcapture_mitigation c) (cfg_log_level c) (cfg_path_preference c)
    (cfg_networks c).
Definition with_reconnect_holddown (c : AppConfig) (v : ReconnectHolddownConfig) : AppConfig :=
  mkAppConfig (cfg_operator_uid c) (cfg_default_hostname c) (cfg_subnet c) (cfg_relay c) (cfg_discovery_dns c)
    (cfg_ratelimit c) (cfg_drop_monitor c) (cfg_path_flap c) (cfg_reconnect_log c) (cfg_reconnect_cold c)
    (cfg_reconnect_frozen c) v (cfg_ipc c) (cfg_hello c) (cfg_join c) (cfg_status_cache c)
    (cfg_nuke_proposal_ttl c) (cfg_listen_port c) (cfg_poller_interval c) (cfg_log_retention c)
    (cfg_invite_default_expiry c) (cfg_selfcapture_mitigation c) (cfg_log_level c) (cfg_path_preference c)
    (cfg_networks c).
Definition with_ipc (c : AppConfig) (v : IpcConfig) : AppConfig :=
  mkAppConfig (cfg_operator_uid c) (cfg_default_hostname c) (cfg_subnet c) (cfg_relay c) (cfg_discovery_dns c)
    (cfg_ratelimit c) (cfg_drop_monitor c) (cfg_path_flap c) (cfg_reconnect_log c) (cfg_reconnect_cold c)
    (cfg_reconnect_frozen c) (cfg_reconnect_holddown c) v (cfg_hello c) (cfg_join c) (cfg_status_cache c)
    (cfg_nuke_proposal_ttl c) (cfg_listen_port c) (cfg_poller_interval c) (cfg_log_retention c)
    (cfg_invite_default_expiry c) (cfg_selfcapture_mitigation c) (cfg_log_level c) (cfg_path_preference c)
    (cfg_networks c).
Definition with_hello (c : AppConfig) (v : HelloConfig) : AppConfig :=
  mkAppConfig (cfg_operator_uid c) (cfg_default_hostname c) (cfg_subnet c) (cfg_relay c) (cfg_discovery_dns c)
    (cfg_ratelimit c) (cfg_drop_monitor c) (cfg_path_flap c) (cfg_reconnect_log c) (cfg_reconnect_cold c)
    (cfg_reconnect_frozen c) (cfg_reconnect_holddown c) (cfg_ipc c) v (cfg_join c) (cfg_status_cache c)
    (cfg_nuke_proposal_ttl c) (cfg_listen_port c) (cfg_poller_interval c) (cfg_log_retention c)
    (cfg_invite_default_expiry c) (cfg_selfcapture_mitigation c) (cfg_log_level c) (cfg_path_preference c)
    (cfg_networks c).
Definition with_join (c : AppConfig) (v : JoinConfig) : AppConfig :=
  mkAppConfig (cfg_operator_uid c) (cfg_default_hostname c) (cfg_subnet c) (cfg_relay c) (cfg_discovery_dns c)
    (cfg_ratelimit c) (cfg_drop_monitor c) (cfg_path_flap c) (cfg_reconnect_log c) (cfg_reconnect_cold c)
    (cfg_reconnect_frozen c) (cfg_reconnect_holddown c) (cfg_ipc c) (cfg_hello c) v (cfg_status_cache c)
    (cfg_nuke_proposal_ttl c) (cfg_listen_port c) (cfg_poller_interval c) (cfg_log_retention c)
    (cfg_invite_default_expiry c) (cfg_selfcapture_mitigation c) (cfg_log_level c) (cfg_path_preference c)
    (cfg_networks c).
Definition with_status_cache (c : AppConfig) (v : StatusCacheConfig) : AppConfig :=
  mkAppConfig (cfg_operator_uid c) (cfg_default_hostname c) (cfg_subnet c) (cfg_relay c) (cfg_discovery_dns c)
    (cfg_ratelimit c) (cfg_drop_monitor c) (cfg_path_flap c) (cfg_reconnect_log c) (cfg_reconnect_cold c)
    (cfg_reconnect_frozen c) (cfg_reconnect_holddown c) (cfg_ipc c) (cfg_hello c) (cfg_join c) v
    (cfg_nuke_proposal_ttl c) (cfg_listen_port c) (cfg_poller_interval c) (cfg_log_retention c)
    (cfg_invite_default_expiry c) (cfg_selfcapture_mitigation c) (cfg_log_level c) (cfg_path_preference c)
    (cfg_networks c).
Definition with_nuke_proposal_ttl (c : AppConfig) (v : option Z) : AppConfig :=
  mkAppConfig (cfg_operator_uid c) (cfg_default_hostname c) (cfg_subnet c) (cfg_relay c) (cfg_discovery_dns c)
    (cfg_ratelimit c) (cfg_drop_monitor c) (cfg_path_flap c) (cfg_reconnect_log c) (cfg_reconnect_cold c)
    (cfg_reconnect_frozen c) (cfg_reconnect_holddown c) (cfg_ipc c) (cfg_hello c) (cfg_join c)
    (cfg_status_cache c) v (cfg_listen_port c) (cfg_poller_interval c) (cfg_log_retention c)
    (cfg_invite_default_expiry c) (cfg_selfcapture_mitigation c) (cfg_log_level c) (cfg_path_preference c)
    (cfg_networks c).
Definition with_listen_port (c : AppConfig) (v : option Z) : AppConfig :=
  mkAppConfig (cfg_operator_uid c) (cfg_default_hostname c) (cfg_subnet c) (cfg_relay c) (cfg_discovery_dns c)
    (cfg_ratelimit c) (cfg_drop_monitor c) (cfg_path_flap c) (cfg_reconnect_log c) (cfg_reconnect_cold c)
    (cfg_reconnect_frozen c) (cfg_reconnect_holddown c) (cfg_ipc c) (cfg_hello c) (cfg_join c)
    (cfg_status_cache c) (cfg_nuke_proposal_ttl c) v (cfg_poller_interval c) (cfg_log_retention c)
    (cfg_invite_default_expiry c) (cfg_selfcapture_mitigation c) (cfg_log_level c) (cfg_path_preference c)
    (cfg_networks c).
Definition with_poller_interval (c : AppConfig) (v : option Z) : AppConfig :=
  mkAppConfig (cfg_operator_uid c) (cfg_default_hostname c) (cfg_subnet c) (cfg_relay c) (cfg_discovery_dns c)
    (cfg_ratelimit c) (cfg_drop_monitor c) (cfg_path_flap c) (cfg_reconnect_log c) (cfg_reconnect_cold c)
    (cfg_reconnect_frozen c) (cfg_reconnect_holddown c) (cfg_ipc c) (cfg_hello c) (cfg_join c)
    (cfg_status_cache c) (cfg_nuke_proposal_ttl c) (cfg_listen_port c) v (cfg_log_retention c)
    (cfg_invite_default_expiry c) (cfg_selfcapture_mitigation c) (cfg_log_level c) (cfg_path_preference c)
    (cfg_networks c).
Definition with_log_retention (c : AppConfig) (v : option Z) : AppConfig :=
  mkAppConfig (cfg_operator_uid c) (cfg_default_hostname c) (cfg_subnet c) (cfg_relay c) (cfg_discovery_dns c)
    (cfg_ratelimit c) (cfg_drop_monitor c) (cfg_path_flap c) (cfg_reconnect_log c) (cfg_reconnect_cold c)
    (cfg_reconnect_frozen c) (cfg_reconnect_holddown c) (cfg_ipc c) (cfg_hello c) (cfg_join c)
    (cfg_status_cache c) (cfg_nuke_proposal_ttl c) (cfg_listen_port c) (cfg_poller_interval c) v
    (cfg_invite_default_expiry c) (cfg_selfcapture_mitigation c) (cfg_log_level c) (cfg_path_preference c)
    (cfg_networks c).
Definition with_invite_default_expiry (c : AppConfig) (v : option Z) : AppConfig :=
  mkAppConfig (cfg_operator_uid c) (cfg_default_hostname c) (cfg_subnet c) (cfg_relay c) (cfg_discovery_dns c)
    (cfg_ratelimit c) (cfg_drop_monitor c) (cfg_path_flap c) (cfg_reconnect_log c) (cfg_reconnect_cold c)
    (cfg_reconnect_frozen c) (cfg_reconnect_holddown c) (cfg_ipc c) (cfg_hello c) (cfg_join c)
    (cfg_status_cache c) (cfg_nuke_proposal_ttl c) (cfg_listen_port c) (cfg_poller_interval c)
    (cfg_log_retention c) v (cfg_selfcapture_mitigation c) (cfg_log_level c) (cfg_path_preference c)
    (cfg_networks c).
Definition with_selfcapture_mitigation (c : AppConfig) (v : option bool) : AppConfig :=
  mkAppConfig (cfg_operator_uid c) (cfg_default_hostname c) (cfg_subnet c) (cfg_relay c) (cfg_discovery_dns c)
    (cfg_ratelimit c) (cfg_drop_monitor c) (cfg_path_flap c) (cfg_reconnect_log c) (cfg_reconnect_cold c)
    (cfg_reconnect_frozen c) (cfg_reconnect_holddown c) (cfg_ipc c) (cfg_hello c) (cfg_join c)
    (cfg_status_cache c) (cfg_nuke_proposal_ttl c) (cfg_listen_port c) (cfg_poller_interval c)
    (cfg_log_retention c) (cfg_invite_default_expiry c) v (cfg_log_level c) (cfg_path_preference c)
    (cfg_networks c).
Definition with_log_level (c : AppConfig) (v : option string) : AppConfig :=
  mkAppConfig (cfg_operator_uid c) (cfg_default_hostname c) (cfg_subnet c) (cfg_relay c) (cfg_discovery_dns c)
    (cfg_ratelimit c) (cfg_drop_monitor c) (cfg_path_flap c) (cfg_reconnect_log c) (cfg_reconnect_cold c)
    (cfg_reconnect_frozen c) (cfg_reconnect_holddown c) (cfg_ipc c) (cfg_hello c) (cfg_join c)
    (cfg_status_cache c) (cfg_nuke_proposal_ttl c) (cfg_listen_port c) (cfg_poller_interval c)
    (cfg_log_retention c) (cfg_invite_default_expiry c) (cfg_selfcapture_mitigation c) v (cfg_path_preference c)
    (cfg_networks c).
Definition with_path_preference (c : AppConfig) (v : option string) : AppConfig :=
  mkAppConfig (cfg_operator_uid c) (cfg_default_hostname c) (cfg_subnet c) (cfg_relay c) (cfg_discovery_dns c)
    (cfg_ratelimit c) (cfg_drop_monitor c) (cfg_path_flap c) (cfg_reconnect_log c) (cfg_reconnect_cold c)
    (cfg_reconnect_frozen c) (cfg_reconnect_holddown c) (cfg_ipc c) (cfg_hello c) (cfg_join c)
    (cfg_status_cache c) (cfg_nuke_proposal_ttl c) (cfg_listen_port c) (cfg_poller_interval c)
    (cfg_log_retention c) (cfg_invite_default_expiry c) (cfg_selfcapture_mitigation c) (cfg_log_level c) v
    (cfg_networks c).
Definition with_networks (c : AppConfig) (v : list NetworkConfig) : AppConfig :=
  mkAppConfig (cfg_operator_uid c) (cfg_default_hostname c) (cfg_subnet c) (cfg_relay c) (cfg_discovery_dns c)
    (cfg_ratelimit c) (cfg_drop_monitor c) (cfg_path_flap c) (cfg_reconnect_log c) (cfg_reconnect_cold c)
    (cfg_reconnect_frozen c) (cfg_reconnect_holddown c) (cfg_ipc c) (cfg_hello c) (cfg_join c)
    (cfg_status_cache c) (cfg_nuke_proposal_ttl c) (cfg_listen_port c) (cfg_poller_interval c)
    (cfg_log_retention c) (cfg_invite_default_expiry c) (cfg_selfcapture_mitigation c) (cfg_log_level c)
    (cfg_path_preference c) v.

(** ** Values *)
Inductive ConfigError :=
| InvalidUrl (s : string)
| NotHttp (s : string)
| TakesSingle (key : string)
| InvalidNumber (raw : string)
| InvalidSwitch (raw : string)
| InvalidLogLevel (raw : string)
| InvalidPathPreference (raw : string)
| InvalidDuration (why : string)
| InvalidCidr
| UnknownKey (key : string)
| ExpectFailed.  (* a panic: the caller has checked the prefix *)

Definition CResult (A : Type) := Result A ConfigError.

Definition parse_entries (value : string) : list string :=
  List.filter (fun s => negb (bool_decide (s = ""))) (trim <$> split_on "," value).

Definition parse_ratelimit_value (width : Z) (raw : string) : CResult Z :=
  match parse_unsigned (2 ^ width - 1) raw with Some n => Ok n | None => Err (InvalidNumber raw) end.

Fixpoint ascii_lowercase (s : string) : string :=
  match s with
  | EmptyString => EmptyString
  | String c s' => String (to_ascii_lowercase c) (ascii_lowercase s')
  end.

Definition is_ascii_alphabetic (c : ascii) : bool := is_ascii_lowercase c || is_ascii_uppercase c.

Definition parse_bool_value (raw : string) : CResult bool :=
  let l := ascii_lowercase raw in
  if bool_decide (l ∈ ["on"; "true"; "1"]) then Ok true
  else if bool_decide (l ∈ ["off"; "false"; "0"]) then Ok false
  else Err (InvalidSwitch raw).

Definition parse_log_level_value (raw : string) : CResult string :=
  let l := ascii_lowercase raw in
  if bool_decide (l ∈ ["trace"; "debug"; "info"; "warn"; "error"]) then Ok l else Err (InvalidLogLevel raw).

Definition parse_path_preference_value (raw : string) : CResult string :=
  let l := ascii_lowercase raw in
  if bool_decide (l ∈ ["direct"; "relay"; "tor"; "veilid"]) then Ok l else Err (InvalidPathPreference raw).

(** The text before the last character and that character, if it is an ASCII letter. *)
Definition split_suffix (s : string) : string * string :=
  match string_rev s with
  | String c r => if is_ascii_alphabetic c then (string_rev r, String c EmptyString) else (s, "s")
  | EmptyString => (s, "s")
  end.

Definition parse_duration (s : string) : Result Z string :=
  let s := trim s in
  if bool_decide (s = "") then Err "empty duration"
  else
    let '(num_str, suffix) := split_suffix s in
    match parse_u64 num_str with
    | None => Err ("invalid number '" +:+ num_str +:+ "'")
    | Some value =>
        multiplier <-? (if bool_decide (suffix = "s") then Ok 1
                        else if bool_decide (suffix = "m") then Ok 60
                        else if bool_decide (suffix = "h") then Ok 3600
                        else if bool_decide (suffix = "d") then Ok 86400
                        else if bool_decide (suffix = "w") then Ok 604800
                        else Err ("unknown suffix '" +:+ suffix +:+ "', use s/m/h/d/w"));
        if value * multiplier <=? u64_max then Ok (value * multiplier) else Err "duration overflows u64"
    end.

Definition duration_value (raw : string) : CResult Z :=
  match parse_duration raw with Ok n => Ok n | Err why => Err (InvalidDuration why) end.

(** The only entry. *)
Definition single (key : string) (entries : list string) : CResult string :=
  match entries with [e] => Ok e | _ => Err (TakesSingle key) end.

(** [Some] of the value of the only entry, or [None] on a reset. *)
Definition reset_or {A} (reset : bool) (key : string) (entries : list string) (parse : string -> CResult A)
  : CResult (option A) :=
  if reset then Ok None else raw <-? single key entries; v <-? parse raw; Ok (Some v).

Definition number_or_none (width : Z) (reset : bool) (raw : string) : CResult (option Z) :=
  if reset then Ok None else v <-? parse_ratelimit_value width raw; Ok (Some v).

(** ** One group of settings each *)

Definition set_ratelimit_key (rl : RateLimitConfig) (key : string) (entries : list string) (reset : bool) : CResult RateLimitConfig :=
  match strip_prefix "ratelimit." key with
  | None => Err ExpectFailed
  | Some sub =>
      raw <-? (if reset then Ok "" else single key entries);
      if bool_decide (sub = "capacity") then
        v <-? number_or_none 64 reset raw; Ok (mkRateLimitConfig v (rl_refill_per_sec rl) (rl_strike_limit rl) (rl_global_capacity rl) (rl_global_refill_per_sec rl) (rl_global_strike_limit rl))
      else if bool_decide (sub = "refill-per-sec") then
        v <-? number_or_none 64 reset raw; Ok (mkRateLimitConfig (rl_capacity rl) v (rl_strike_limit rl) (rl_global_capacity rl) (rl_global_refill_per_sec rl) (rl_global_strike_limit rl))
      else if bool_decide (sub = "strike-limit") then
        v <-? number_or_none 32 reset raw; Ok (mkRateLimitConfig (rl_capacity rl) (rl_refill_per_sec rl) v (rl_global_capacity rl) (rl_global_refill_per_sec rl) (rl_global_strike_limit rl))
      else if bool_decide (sub = "global-capacity") then
        v <-? number_or_none 64 reset raw; Ok (mkRateLimitConfig (rl_capacity rl) (rl_refill_per_sec rl) (rl_strike_limit rl) v (rl_global_refill_per_sec rl) (rl_global_strike_limit rl))
      else if bool_decide (sub = "global-refill-per-sec") then
        v <-? number_or_none 64 reset raw; Ok (mkRateLimitConfig (rl_capacity rl) (rl_refill_per_sec rl) (rl_strike_limit rl) (rl_global_capacity rl) v (rl_global_strike_limit rl))
      else if bool_decide (sub = "global-strike-limit") then
        v <-? number_or_none 32 reset raw; Ok (mkRateLimitConfig (rl_capacity rl) (rl_refill_per_sec rl) (rl_strike_limit rl) (rl_global_capacity rl) (rl_global_refill_per_sec rl) v)
      else Err (UnknownKey key)
  end.

Definition set_drop_monitor_key (dm : DropMonitorConfig) (key : string) (entries : list string) (reset : bool) : CResult DropMonitorConfig :=
  match strip_prefix "drop-monitor." key with
  | None => Err ExpectFailed
  | Some sub =>
      raw <-? (if reset then Ok "" else single key entries);
      if bool_decide (sub = "window") then
        v <-? number_or_none 64 reset raw; Ok (mkDropMonitorConfig v (dm_threshold dm) (dm_cooldown_secs dm))
      else if bool_decide (sub = "threshold") then
        v <-? number_or_none 64 reset raw; Ok (mkDropMonitorConfig (dm_window_secs dm) v (dm_cooldown_secs dm))
      else if bool_decide (sub = "cooldown") then
        v <-? number_or_none 64 reset raw; Ok (mkDropMonitorConfig (dm_window_secs dm) (dm_threshold dm) v)
      else Err (UnknownKey key)
  end.

Definition set_path_flap_key (pf : PathFlapConfig) (key : string) (entries : list string) (reset : bool) : CResult PathFlapConfig :=
  match strip_prefix "path-flap." key with
  | None => Err ExpectFailed
  | Some sub =>
      raw <-? (if reset then Ok "" else single key entries);
      if bool_decide (sub = "threshold") then
        v <-? number_or_none 32 reset raw; Ok (mkPathFlapConfig v (pf_window_secs pf))
      else if bool_decide (sub = "window") then
        v <-? number_or_none 64 reset raw; Ok (mkPathFlapConfig (pf_threshold pf) v)
      else Err (UnknownKey key)
  end.

Definition set_reconnect_log_key (rlog : ReconnectLogConfig) (key : string) (entries : list string) (reset : bool) : CResult ReconnectLogConfig :=
  match strip_prefix "reconnect-log." key with
  | None => Err ExpectFailed
  | Some sub =>
      raw <-? (if reset then Ok "" else single key entries);
      if bool_decide (sub = "threshold") then
        v <-? number_or_none 32 reset raw; Ok (mkReconnectLogConfig v (rlog_window_secs rlog))
      else if bool_decide (sub = "window") then
        v <-? number_or_none 64 reset raw; Ok (mkReconnectLogConfig (rlog_threshold rlog) v)
      else Err (UnknownKey key)
  end.

Definition set_reconnect_cold_key (rc : ReconnectColdConfig) (key : string) (entries : list string) (reset : bool) : CResult ReconnectColdConfig :=
  match strip_prefix "reconnect-cold." key with
  | None => Err ExpectFailed
  | Some sub =>
      raw <-? (if reset then Ok "" else single key entries);
      if bool_decide (sub = "threshold") then
        v <-? number_or_none 32 reset raw; Ok (mkReconnectColdConfig v (rc_backoff_secs rc))
      else if bool_decide (sub = "backoff") then
        v <-? number_or_none 64 reset raw; Ok (mkReconnectColdConfig (rc_threshold rc) v)
      else Err (UnknownKey key)
  end.

Definition set_reconnect_frozen_key (rf : ReconnectFrozenConfig) (key : string) (entries : list string) (reset : bool) : CResult ReconnectFrozenConfig :=
  match strip_prefix "reconnect-frozen." key with
  | None => Err ExpectFailed
  | Some sub =>
      raw <-? (if reset then Ok "" else single key entries);
      if bool_decide (sub = "threshold") then
        v <-? number_or_none 32 reset raw; Ok (mkReconnectFrozenConfig v (rf_backoff_secs rf))
      else if bool_decide (sub = "backoff") then
        v <-? number_or_none 64 reset raw; Ok (mkReconnectFrozenConfig (rf_threshold rf) v)
      else Err (UnknownKey key)
  end.

Definition set_reconnect_holddown_key (rh : ReconnectHolddownConfig) (key : string) (entries : list string) (reset : bool) : CResult ReconnectHolddownConfig :=
  match strip_prefix "reconnect-holddown." key with
  | None => Err ExpectFailed
  | Some sub =>
      raw <-? (if reset then Ok "" else single key entries);
      if bool_decide (sub = "min-uptime") then
        v <-? number_or_none 64 reset raw; Ok (mkReconnectHolddownConfig v (rh_jitter_pct rh))
      else if bool_decide (sub = "jitter-pct") then
        v <-? number_or_none 32 reset raw; Ok (mkReconnectHolddownConfig (rh_min_uptime_secs rh) v)
      else Err (UnknownKey key)
  end.

Definition set_ipc_key (ic : IpcConfig) (key : string) (entries : list string) (reset : bool) : CResult IpcConfig :=
  match strip_prefix "ipc." key with
  | None => Err ExpectFailed
  | Some sub =>
      raw <-? (if reset then Ok "" else single key entries);
      if bool_decide (sub = "request-timeout") then
        v <-? number_or_none 64 reset raw; Ok (mkIpcConfig v (ic_response_timeout_secs ic) (ic_max_clients ic) (ic_reserved_clients ic))
      else if bool_decide (sub = "response-timeout") then
        v <-? number_or_none 64 reset raw; Ok (mkIpcConfig (ic_request_timeout_secs ic) v (ic_max_clients ic) (ic_reserved_clients ic))
      else if bool_decide (sub = "max-clients") then
        v <-? number_or_none 64 reset raw; Ok (mkIpcConfig (ic_request_timeout_secs ic) (ic_response_timeout_secs ic) v (ic_reserved_clients ic))
      else if bool_decide (sub = "reserved-clients") then
        v <-? number_or_none 64 reset raw; Ok (mkIpcConfig (ic_request_timeout_secs ic) (ic_response_timeout_secs ic) (ic_max_clients ic) v)
      else Err (UnknownKey key)
  end.

Definition set_hello_key (hc : HelloConfig) (key : string) (entries : list string) (reset : bool) : CResult HelloConfig :=
  match strip_prefix "hello." key with
  | None => Err ExpectFailed
  | Some sub =>
      raw <-? (if reset then Ok "" else single key entries);
      if bool_decide (sub = "timeout") then
        v <-? number_or_none 64 reset raw; Ok (mkHelloConfig v)
      else Err (UnknownKey key)
  end.

Definition set_join_key (jc : JoinConfig) (key : string) (entries : list string) (reset : bool) : CResult JoinConfig :=
  match strip_prefix "join." key with
  | None => Err ExpectFailed
  | Some sub =>
      raw <-? (if reset then Ok "" else single key entries);
      if bool_decide (sub = "request-timeout") then
        v <-? number_or_none 64 reset raw; Ok (mkJoinConfig v)
      else Err (UnknownKey key)
  end.

Definition set_status_cache_key (sc : StatusCacheConfig) (key : string) (entries : list string) (reset : bool) : CResult StatusCacheConfig :=
  match strip_prefix "status-cache." key with
  | None => Err ExpectFailed
  | Some sub =>
      raw <-? (if reset then Ok "" else single key entries);
      if bool_decide (sub = "interval") then
        v <-? number_or_none 64 reset raw; Ok (mkStatusCacheConfig v)
      else Err (UnknownKey key)
  end.

(** ** Defaults of the settings that bound a wait or a number of clients *)
Definition positive_or (v : option Z) (d : Z) : Z :=
  match v with Some n => if 0 <? n then n else d | None => d end.

Definition join_request_timeout (jc : JoinConfig) : Z := 10 ^ 9 * positive_or (jc_request_timeout_secs jc) 15.
Definition max_clients_or_default (ic : IpcConfig) : Z := positive_or (ic_max_clients ic) 256.
Definition reserved_clients_or_default (ic : IpcConfig) : Z := positive_or (ic_reserved_clients ic) 16.
Definition ipc_request_timeout (ic : IpcConfig) : Z := 10 ^ 9 * positive_or (ic_request_timeout_secs ic) 10.
Definition ipc_response_timeout (ic : IpcConfig) : Z := 10 ^ 9 * positive_or (ic_response_timeout_secs ic) 10.
Definition hello_timeout (hc : HelloConfig) : Z := 10 ^ 9 * positive_or (hc_timeout_secs hc) 30.

(** ** The list of saved networks *)
Fixpoint replace_network (l : list NetworkConfig) (network : NetworkConfig) : option (list NetworkConfig) :=
  match l with
  | [] => None
  | n :: rest =>
      if bool_decide (nc_name n = nc_name network) then Some (network :: rest)
      else cons n <$> replace_network rest network
  end.

Definition upsert_network (config : AppConfig) (network : NetworkConfig) : AppConfig :=
  with_networks config
    (match replace_network (cfg_networks config) network with
     | Some l => l
     | None => cfg_networks config ++ [network]
     end)%list.

Definition remove_network (config : AppConfig) (name : string) : AppConfig * bool :=
  let kept := List.filter (fun n => negb (bool_decide (nc_name n = name))) (cfg_networks config) in
  (with_networks config kept, (length kept <? length (cfg_networks config))%nat).

(** ** Setting one by name *)
Definition RELAY_PRESET_RAYFISH : string := "http://relay.iroh.rayfish.xyz:3340".
Definition DISCOVERY_PRESET_RAYFISH : string := "http://dns.iroh.rayfish.xyz:8080".

(** [Url::parse]: the scheme of a text that is a URL. *)
Class UrlScheme := url_scheme : string -> option string.

Section Settings.
Context `{UrlScheme}.

Definition validate_http_url (s : string) : CResult unit :=
  match url_scheme s with
  | None => Err (InvalidUrl s)
  | Some scheme => if bool_decide (scheme ∈ ["http"; "https"]) then Ok tt else Err (NotHttp s)
  end.

Definition resolve_url_entry (entry preset : string) : CResult string :=
  if bool_decide (entry = "rayfish") then Ok preset else _ <-? validate_http_url entry; Ok entry.

Fixpoint collect_urls (entries : list string) (preset : string) : CResult (list string) :=
  match entries with
  | [] => Ok []
  | e :: rest => u <-? resolve_url_entry e preset; us <-? collect_urls rest preset; Ok (u :: us)
  end.

Definition relay_urls (o : ServerOverride) : CResult (list string) := collect_urls (so_servers o) RELAY_PRESET_RAYFISH.
Definition discovery_urls (o : ServerOverride) : CResult (list string) :=
  collect_urls (so_servers o) DISCOVERY_PRESET_RAYFISH.

Definition config_set (cfg : AppConfig) (key value : string) (replace : bool) : CResult AppConfig :=
  let entries := parse_entries value in
  let reset := bool_decide (entries = []) || bool_decide (entries = ["n0"]) in
  let named k := bool_decide (key = k) in
  if named "relay" then
    if reset then Ok (with_relay cfg (mkServerOverride [] false))
    else if bool_decide (entries = ["off"]) then Ok (with_relay cfg (mkServerOverride ["off"] true))
    else _ <-? collect_urls entries RELAY_PRESET_RAYFISH; Ok (with_relay cfg (mkServerOverride entries replace))
  else if named "discovery-dns" then
    if reset then Ok (with_discovery_dns cfg (mkServerOverride [] false))
    else _ <-? collect_urls entries DISCOVERY_PRESET_RAYFISH;
         Ok (with_discovery_dns cfg (mkServerOverride entries replace))
  else if named "subnet" then
    v <-? reset_or reset key entries
            (fun raw => match parse_cidr raw with Ok s => Ok s | Err _ => Err InvalidCidr end);
    Ok (with_subnet cfg v)
  else if starts_with key "ratelimit." then
    v <-? set_ratelimit_key (cfg_ratelimit cfg) key entries reset; Ok (with_ratelimit cfg v)
  else if starts_with key "drop-monitor." then
    v <-? set_drop_monitor_key (cfg_drop_monitor cfg) key entries reset; Ok (with_drop_monitor cfg v)
  else if starts_with key "path-flap." then
    v <-? set_path_flap_key (cfg_path_flap cfg) key entries reset; Ok (with_path_flap cfg v)
  else if starts_with key "reconnect-log." then
    v <-? set_reconnect_log_key (cfg_reconnect_log cfg) key entries reset; Ok (with_reconnect_log cfg v)
  else if starts_with key "reconnect-cold." then
    v <-? set_reconnect_cold_key (cfg_reconnect_cold cfg) key entries reset; Ok (with_reconnect_cold cfg v)
  else if starts_with key "reconnect-frozen." then
    v <-? set_reconnect_frozen_key (cfg_reconnect_frozen cfg) key entries reset; Ok (with_reconnect_frozen cfg v)
  else if starts_with key "reconnect-holddown." then
    v <-? set_reconnect_holddown_key (cfg_reconnect_holddown cfg) key entries reset; Ok (with_reconnect_holddown cfg v)
  else if starts_with key "ipc." then
    v <-? set_ipc_key (cfg_ipc cfg) key entries reset; Ok (with_ipc cfg v)
  else if starts_with key "hello." then
    v <-? set_hello_key (cfg_hello cfg) key entries reset; Ok (with_hello cfg v)
  else if starts_with key "join." then
    v <-? set_join_key (cfg_join cfg) key entries reset; Ok (with_join cfg v)
  else if starts_with key "status-cache." then
    v <-? set_status_cache_key (cfg_status_cache cfg) key entries reset; Ok (with_status_cache cfg v)
  else if named "nuke-proposal-ttl" then v <-? reset_or reset key entries duration_value; Ok (with_nuke_proposal_ttl cfg v)
  else if named "listen-port" then v <-? reset_or reset key entries (parse_ratelimit_value 16); Ok (with_listen_port cfg v)
  else if named "poller-interval" then v <-? reset_or reset key entries (parse_ratelimit_value 64); Ok (with_poller_interval cfg v)
  else if named "log-retention" then v <-? reset_or reset key entries (parse_ratelimit_value 32); Ok (with_log_retention cfg v)
  else if named "invite-default-expiry" then v <-? reset_or reset key entries duration_value; Ok (with_invite_default_expiry cfg v)
  else if named "selfcapture-mitigation" then v <-? reset_or reset key entries parse_bool_value; Ok (with_selfcapture_mitigation cfg v)
  else if named "log-level" then v <-? reset_or reset key entries parse_log_level_value; Ok (with_log_level cfg v)
  else if named "path-preference" then v <-? reset_or reset key entries parse_path_preference_value; Ok (with_path_preference cfg v)
  else Err (UnknownKey key).

(** ** Showing one by name *)
Definition default_text : string := "<default>".

Definition render_opt (v : option Z) : string := match v with Some n => dec n | None => default_text end.

Definition render_override (o : ServerOverride) : string :=
  if is_unset o then default_text
  else if bool_decide (so_servers o = ["off"]) then "off"
  else String.concat "," (so_servers o) +:+ " (" +:+ (if so_replace o then "replace" else "augment") +:+ ")".

Definition ratelimit_row (rl : RateLimitConfig) (k sub : string) : CResult string :=
  if bool_decide (sub = "capacity") then Ok (render_opt (rl_capacity rl))
  else if bool_decide (sub = "refill-per-sec") then Ok (render_opt (rl_refill_per_sec rl))
  else if bool_decide (sub = "strike-limit") then Ok (render_opt (rl_strike_limit rl))
  else if bool_decide (sub = "global-capacity") then Ok (render_opt (rl_global_capacity rl))
  else if bool_decide (sub = "global-refill-per-sec") then Ok (render_opt (rl_global_refill_per_sec rl))
  else if bool_decide (sub = "global-strike-limit") then Ok (render_opt (rl_global_strike_limit rl))
  else Err (UnknownKey k).

Definition drop_monitor_row (dm : DropMonitorConfig) (k sub : string) : CResult string :=
  if bool_decide (sub = "window") then Ok (render_opt (dm_window_secs dm))
  else if bool_decide (sub = "threshold") then Ok (render_opt (dm_threshold dm))
  else if bool_decide (sub = "cooldown") then Ok (render_opt (dm_cooldown_secs dm))
  else Err (UnknownKey k).

Definition path_flap_row (pf : PathFlapConfig) (k sub : string) : CResult string :=
  if bool_decide (sub = "threshold") then Ok (render_opt (pf_threshold pf))
  else if bool_decide (sub = "window") then Ok (render_opt (pf_window_secs pf))
  else Err (UnknownKey k).

Definition reconnect_log_row (rlog : ReconnectLogConfig) (k sub : string) : CResult string :=
  if bool_decide (sub = "threshold") then Ok (render_opt (rlog_threshold rlog))
  else if bool_decide (sub = "window") then Ok (render_opt (rlog_window_secs rlog))
  else Err (UnknownKey k).

Definition reconnect_cold_row (rc : ReconnectColdConfig) (k sub : string) : CResult string :=
  if bool_decide (sub = "threshold") then Ok (render_opt (rc_threshold rc))
  else if bool_decide (sub = "backoff") then Ok (render_opt (rc_backoff_secs rc))
  else Err (UnknownKey k).

Definition reconnect_frozen_row (rf : ReconnectFrozenConfig) (k sub : string) : CResult string :=
  if bool_decide (sub = "threshold") then Ok (render_opt (rf_threshold rf))
  else if bool_decide (sub = "backoff") then Ok (render_opt (rf_backoff_secs rf))
  else Err (UnknownKey k).

Definition ipc_row (ic : IpcConfig) (k sub : string) : CResult string :=
  if bool_decide (sub = "request-timeout") then Ok (render_opt (ic_request_timeout_secs ic))
  else if bool_decide (sub = "response-timeout") then Ok (render_opt (ic_response_timeout_secs ic))
  else if bool_decide (sub = "max-clients") then Ok (render_opt (ic_max_clients ic))
  else if bool_decide (sub = "reserved-clients") then Ok (render_opt (ic_reserved_clients ic))
  else Err (UnknownKey k).

Definition hello_row (hc : HelloConfig) (k sub : string) : CResult string :=
  if bool_decide (sub = "timeout") then Ok (render_opt (hc_timeout_secs hc))
  else Err (UnknownKey k).

Definition join_row (jc : JoinConfig) (k sub : string) : CResult string :=
  if bool_decide (sub = "request-timeout") then Ok (render_opt (jc_request_timeout_secs jc))
  else Err (UnknownKey k).

Definition status_cache_row (sc : StatusCacheConfig) (k sub : string) : CResult string :=
  if bool_decide (sub = "interval") then Ok (render_opt (sc_interval_secs sc))
  else Err (UnknownKey k).

Definition config_row (cfg : AppConfig) (k : string) : CResult (string * string) :=
  let named k' := bool_decide (k = k') in
  v <-?
    (if named "subnet" then Ok (match cfg_subnet cfg with Some (b, p) => ipv4_to_string b +:+ "/" +:+ dec p | None => default_text end)
     else match strip_prefix "ratelimit." k with Some sub => ratelimit_row (cfg_ratelimit cfg) k sub | None =>
     match strip_prefix "drop-monitor." k with Some sub => drop_monitor_row (cfg_drop_monitor cfg) k sub | None =>
     match strip_prefix "path-flap." k with Some sub => path_flap_row (cfg_path_flap cfg) k sub | None =>
     match strip_prefix "reconnect-log." k with Some sub => reconnect_log_row (cfg_reconnect_log cfg) k sub | None =>
     match strip_prefix "reconnect-cold." k with Some sub => reconnect_cold_row (cfg_reconnect_cold cfg) k sub | None =>
     match strip_prefix "reconnect-frozen." k with Some sub => reconnect_frozen_row (cfg_reconnect_frozen cfg) k sub | None =>
     match strip_prefix "ipc." k with Some sub => ipc_row (cfg_ipc cfg) k sub | None =>
     match strip_prefix "hello." k with Some sub => hello_row (cfg_hello cfg) k sub | None =>
     match strip_prefix "join." k with Some sub => join_row (cfg_join cfg) k sub | None =>
     match strip_prefix "status-cache." k with Some sub => status_cache_row (cfg_status_cache cfg) k sub | None =>
     if named "nuke-proposal-ttl" then Ok (render_opt (cfg_nuke_proposal_ttl cfg))
     else if named "listen-port" then Ok (render_opt (cfg_listen_port cfg))
     else if named "poller-interval" then Ok (render_opt (cfg_poller_interval cfg))
     else if named "log-retention" then Ok (render_opt (cfg_log_retention cfg))
     else if named "invite-default-expiry" then Ok (render_opt (cfg_invite_default_expiry cfg))
     else if named "selfcapture-mitigation" then
       Ok (match cfg_selfcapture_mitigation cfg with Some true => "on" | Some false => "off" | None => "<default: on>" end)
     else if named "log-level" then Ok (default "<default: info>" (cfg_log_level cfg))
     else if named "path-preference" then Ok (default "<default: auto>" (cfg_path_preference cfg))
     else if named "relay" then Ok (render_override (cfg_relay cfg))
     else if named "discovery-dns" then Ok (render_override (cfg_discovery_dns cfg))
     else Err (UnknownKey k) end end end end end end end end end end);
  Ok (k, v).

Definition all_rows : list string :=
  ["relay"; "discovery-dns"; "subnet"; "ratelimit.capacity"; "ratelimit.refill-per-sec"; "ratelimit.strike-limit";
   "ratelimit.global-capacity"; "ratelimit.global-refill-per-sec"; "ratelimit.global-strike-limit";
   "drop-monitor.window"; "drop-monitor.threshold"; "drop-monitor.cooldown"; "path-flap.threshold";
   "path-flap.window"; "reconnect-log.threshold"; "reconnect-log.window"; "reconnect-cold.threshold";
   "reconnect-cold.backoff"; "reconnect-frozen.threshold"; "reconnect-frozen.backoff"; "join.request-timeout";
   "hello.timeout"; "ipc.request-timeout"; "ipc.response-timeout"; "ipc.max-clients"; "ipc.reserved-clients";
   "nuke-proposal-ttl"; "listen-port"; "poller-interval"; "log-retention"; "invite-default-expiry";
   "selfcapture-mitigation"; "log-level"; "path-preference"].

Fixpoint collect_rows (cfg : AppConfig) (ks : list string) : CResult (list (string * string)) :=
  match ks with
  | [] => Ok []
  | k :: rest => r <-? config_row cfg k; rs <-? collect_rows cfg rest; Ok (r :: rs)
  end.

Definition config_get (cfg : AppConfig) (key : option string) : CResult (list (string * string)) :=
  match key with
  | Some k => collect_rows cfg [k]
  | None => collect_rows cfg all_rows
  end.
End Settings.

(** ** Settings do not interfere *)
Lemma strip_prefix_Some p s r : strip_prefix p s = Some r <-> s = p +:+ r.
Proof.
  split; [|intros ->; apply strip_prefix_app]. revert s. induction p as [|c p IH]; intros s; cbn [strip_prefix].
  - by intros [= ->].
  - destruct s as [|d s]; [done|]. case_bool_decide as E; [|done]. subst d. intros Hs%IH. by rewrite Hs.
Qed.

Lemma starts_with_strip p s : starts_with s p = true <-> is_Some (strip_prefix p s).
Proof.
  unfold starts_with. revert s. induction p as [|c p IH]; intros s; cbn [strip_prefix String.prefix].
  - destruct s; split; [by eexists|done|by eexists|done].
  - destruct s as [|d s]; [split; [done|by intros [? ?]]|].
    cbn [String.prefix]. destruct (Ascii.ascii_dec c d) as [->|Hne]; [rewrite bool_decide_eq_true_2 by done; apply IH|].
    rewrite bool_decide_eq_false_2 by done. split; [done|by intros [? ?]].
Qed.

(** A setter of a group of settings changes what is shown of one key of the group. *)
Definition sets_one {G} (prefix : string) (set : G -> string -> list string -> bool -> CResult G)
  (row : G -> string -> string -> CResult string) : Prop :=
  forall g key entries reset g', set g key entries reset = Ok g' ->
  forall k' sub', prefix +:+ sub' <> key -> row g' k' sub' = row g k' sub'.

Ltac group_frame set row :=
  intros g key entries reset g'; unfold set, row;
  destruct (strip_prefix _ key) as [sub|] eqn:Es; [|done]; apply strip_prefix_Some in Es as ->;
  destruct (if reset then Ok EmptyString else single _ entries) as [raw|] eqn:Eraw; cbn [rbind]; [|done];
  repeat match goal with
  | |- (if bool_decide (sub = ?k) then _ else _) = Ok _ -> _ =>
      destruct (decide (sub = k)) as [->|?];
      [rewrite (bool_decide_eq_true_2 (k = k)) by done;
       destruct (number_or_none _ _ _); cbn [rbind]; [|done]; intros [= <-]; intros k' sub' Hne;
       rewrite (bool_decide_eq_false_2 (sub' = k)) by (intros ->; by apply Hne); done
      |rewrite (bool_decide_eq_false_2 (sub = k)) by done]
  end; done.

Lemma ratelimit_sets_one : sets_one "ratelimit." set_ratelimit_key ratelimit_row.
Proof. group_frame set_ratelimit_key ratelimit_row. Qed.
Lemma drop_monitor_sets_one : sets_one "drop-monitor." set_drop_monitor_key drop_monitor_row.
Proof. group_frame set_drop_monitor_key drop_monitor_row. Qed.
Lemma path_flap_sets_one : sets_one "path-flap." set_path_flap_key path_flap_row.
Proof. group_frame set_path_flap_key path_flap_row. Qed.
Lemma reconnect_log_sets_one : sets_one "reconnect-log." set_reconnect_log_key reconnect_log_row.
Proof. group_frame set_reconnect_log_key reconnect_log_row. Qed.
Lemma reconnect_cold_sets_one : sets_one "reconnect-cold." set_reconnect_cold_key reconnect_cold_row.
Proof. group_frame set_reconnect_cold_key reconnect_cold_row. Qed.
Lemma reconnect_frozen_sets_one : sets_one "reconnect-frozen." set_reconnect_frozen_key reconnect_frozen_row.
Proof. group_frame set_reconnect_frozen_key reconnect_frozen_row. Qed.
Lemma ipc_sets_one : sets_one "ipc." set_ipc_key ipc_row.
Proof. group_frame set_ipc_key ipc_row. Qed.
Lemma hello_sets_one : sets_one "hello." set_hello_key hello_row.
Proof. group_frame set_hello_key hello_row. Qed.
Lemma join_sets_one : sets_one "join." set_join_key join_row.
Proof. group_frame set_join_key join_row. Qed.
Lemma status_cache_sets_one : sets_one "status-cache." set_status_cache_key status_cache_row.
Proof. group_frame set_status_cache_key status_cache_row. Qed.

(** The row of another key, after an assignment to a field. *)
Ltac row_frame key :=
  unfold config_row; cbn; rewrite (bool_decide_eq_false_2 (_ = key)) by done; reflexivity.

Ltac group_row_frame prefix Hset lemma :=
  unfold config_row; cbn -[strip_prefix];
  match goal with
  | |- context [strip_prefix prefix ?k] =>
      destruct (strip_prefix prefix k) as [sub'|] eqn:Esub; [|reflexivity];
      apply strip_prefix_Some in Esub; rewrite (lemma _ _ _ _ _ Hset k sub') by congruence; reflexivity
  end.

Ltac take_branch :=
  match goal with
  | |- (if ?c then _ else _) = Ok _ -> _ => destruct c eqn:?
  end.

Lemma config_row_frame `{UrlScheme} cfg k v replace cfg' k' :
  config_set cfg k v replace = Ok cfg' -> k' <> k -> config_row cfg' k' = config_row cfg k'.
Proof.
  unfold config_set. generalize (parse_entries v) as entries. intros entries. cbv zeta.
  generalize (bool_decide (entries = []) || bool_decide (entries = ["n0"])) as reset. intros reset Hs Hne. revert Hs.
  take_branch; [btac; subst k; repeat take_branch|].
  1-3: try (intros (? & _ & Hs)%rbind_ok; revert Hs); intros [= <-]; row_frame "relay".
  take_branch; [btac; subst k; repeat take_branch|].
  1-2: try (intros (? & _ & Hs)%rbind_ok; revert Hs); intros [= <-]; row_frame "discovery-dns".
  take_branch; [btac; subst k; intros (? & _ & Hs)%rbind_ok; injection Hs as <-; row_frame "subnet"|].
  take_branch; [intros (? & Hset & Hs)%rbind_ok; injection Hs as <-; group_row_frame "ratelimit." Hset ratelimit_sets_one|].
  take_branch; [intros (? & Hset & Hs)%rbind_ok; injection Hs as <-; group_row_frame "drop-monitor." Hset drop_monitor_sets_one|].
  take_branch; [intros (? & Hset & Hs)%rbind_ok; injection Hs as <-; group_row_frame "path-flap." Hset path_flap_sets_one|].
  take_branch; [intros (? & Hset & Hs)%rbind_ok; injection Hs as <-; group_row_frame "reconnect-log." Hset reconnect_log_sets_one|].
  take_branch; [intros (? & Hset & Hs)%rbind_ok; injection Hs as <-; group_row_frame "reconnect-cold." Hset reconnect_cold_sets_one|].
  take_branch; [intros (? & Hset & Hs)%rbind_ok; injection Hs as <-; group_row_frame "reconnect-frozen." Hset reconnect_frozen_sets_one|].
  take_branch; [intros (? & _ & Hs)%rbind_ok; injection Hs as <-; reflexivity|].
  take_branch; [intros (? & Hset & Hs)%rbind_ok; injection Hs as <-; group_row_frame "ipc." Hset ipc_sets_one|].
  take_branch; [intros (? & Hset & Hs)%rbind_ok; injection Hs as <-; group_row_frame "hello." Hset hello_sets_one|].
  take_branch; [intros (? & Hset & Hs)%rbind_ok; injection Hs as <-; group_row_frame "join." Hset join_sets_one|].
  take_branch; [intros (? & Hset & Hs)%rbind_ok; injection Hs as <-; group_row_frame "status-cache." Hset status_cache_sets_one|].
  do 8 (take_branch; [btac; subst k; intros (? & _ & Hs)%rbind_ok; injection Hs as <-;
    unfold config_row; cbn; rewrite (bool_decide_eq_false_2 _ Hne); reflexivity|]).
  discriminate.
Qed.

(** Setting one key changes what is shown of that key only. *)
Theorem settings_independent `{UrlScheme} (cfg cfg' : AppConfig) (k v : string) (replace : bool) (k' : string) :
  config_set cfg k v replace = Ok cfg' -> k' <> k -> config_get cfg' (Some k') = config_get cfg (Some k').
Proof. intros Hs Hne. cbn [config_get collect_rows]. by rewrite (config_row_frame _ _ _ _ _ _ Hs Hne). Qed.

(** ** Numbers are shown as they were set *)
Definition numeric_keys : list (string * Z) :=
  [("ratelimit.capacity", 64); ("ratelimit.refill-per-sec", 64); ("ratelimit.strike-limit", 32);
   ("ratelimit.global-capacity", 64); ("ratelimit.global-refill-per-sec", 64); ("ratelimit.global-strike-limit", 32);
   ("drop-monitor.window", 64); ("drop-monitor.threshold", 64); ("drop-monitor.cooldown", 64);
   ("path-flap.threshold", 32); ("path-flap.window", 64); ("reconnect-log.threshold", 32); ("reconnect-log.window", 64);
   ("reconnect-cold.threshold", 32); ("reconnect-cold.backoff", 64); ("reconnect-frozen.threshold", 32);
   ("reconnect-frozen.backoff", 64); ("join.request-timeout", 64); ("hello.timeout", 64); ("ipc.request-timeout", 64);
   ("ipc.response-timeout", 64); ("ipc.max-clients", 64); ("ipc.reserved-clients", 64); ("status-cache.interval", 64);
   ("listen-port", 16); ("poller-interval", 64); ("log-retention", 32)].

Lemma parse_entries_dec n : 0 <= n -> parse_entries (dec n) = [dec n].
Proof.
  intros Hn. destruct (dec_digits n Hn) as (Hd & _ & Hne). unfold parse_entries.
  rewrite split_on_nosep.
  - cbn [fmap list_fmap]. rewrite trim_safe_id by (eapply all_chars_impl; [apply digit_trim_safe|done]).
    cbn [List.filter]. by rewrite bool_decide_eq_false_2.
  - eapply all_chars_impl; [|exact Hd]. intros c Hc. unfold not_char. apply negb_true_iff, bool_decide_eq_false_2.
    intros <-. by vm_compute in Hc.
Qed.

Lemma dec_not_n0 n : 0 <= n -> bool_decide ([dec n] = ["n0"]) = false.
Proof.
  intros Hn. apply bool_decide_eq_false_2. intros [= Hd]. destruct (dec_digits n Hn) as (Hc & _ & _).
  by rewrite Hd in Hc.
Qed.

Lemma number_or_none_dec w n : 0 <= n < 2 ^ w -> number_or_none w false (dec n) = Ok (Some n).
Proof. intros Hn. unfold number_or_none, parse_ratelimit_value. by rewrite parse_unsigned_dec by lia. Qed.

Lemma reset_or_dec w k n :
  0 <= n < 2 ^ w -> reset_or false k [dec n] (parse_ratelimit_value w) = Ok (Some n).
Proof. intros Hn. unfold reset_or, parse_ratelimit_value, single. cbn [rbind]. by rewrite parse_unsigned_dec by lia. Qed.

(** Evaluates the comparisons of a literal key. *)
Ltac eval_tests :=
  cbv zeta beta;
  repeat (match goal with
          | |- context [bool_decide (String ?c ?s = ?b)] =>
              let v := eval vm_compute in (bool_decide (String c s = b)) in change (bool_decide (String c s = b)) with v
          | |- context [starts_with (String ?c ?s) ?b] =>
              let v := eval vm_compute in (starts_with (String c s) b) in change (starts_with (String c s) b) with v
          | |- context [strip_prefix ?b (String ?c ?s)] =>
              let v := eval vm_compute in (strip_prefix b (String c s)) in change (strip_prefix b (String c s)) with v
          end; cbv beta iota);
  cbv delta [set_ratelimit_key set_drop_monitor_key set_path_flap_key set_reconnect_log_key set_reconnect_cold_key
             set_reconnect_frozen_key set_ipc_key set_hello_key set_join_key set_status_cache_key];
  cbv beta iota.

(** A number within its key's width is stored under the key and shown
    back digit for digit. *)
Theorem settings_read_back `{UrlScheme} (cfg : AppConfig) (k : string) (w n : Z) (replace : bool) :
  (k, w) ∈ numeric_keys -> 0 <= n < 2 ^ w ->
  exists cfg', config_set cfg k (dec n) replace = Ok cfg' /\ config_get cfg' (Some k) = Ok [(k, dec n)].
Proof.
  intros Hk Hn.
  assert (parse_entries (dec n) = [dec n]) as He by (apply parse_entries_dec; lia).
  assert (bool_decide ([dec n] = ["n0"]) = false) as H0 by (apply dec_not_n0; lia).
  pose proof (number_or_none_dec w n Hn) as Hnum. pose proof (fun k => reset_or_dec w k n Hn) as Hres.
  unfold config_set. rewrite He, H0. change (bool_decide ([dec n] = [])) with false. cbn [orb].
  unfold numeric_keys in Hk. repeat (apply elem_of_cons in Hk as [Hk|Hk]; [injection Hk as -> ->|]); [..|by apply elem_of_nil in Hk].
  all: eval_tests; eval_tests; cbn [single rbind]; eval_tests; cbn [rbind]; rewrite ?Hnum, ?Hres; cbn [rbind]; eexists; split; [reflexivity|].
  all: cbn [config_get collect_rows]; unfold config_row; eval_tests; reflexivity.
Qed.

(** A [reconnect-holddown] setting is stored, but never shown: asking for it is an
    error. *)
Theorem holddown_is_write_only `{UrlScheme} (cfg : AppConfig) (n : Z) (replace : bool) :
  0 <= n < 2 ^ 64 ->
  exists cfg', config_set cfg "reconnect-holddown.min-uptime" (dec n) replace = Ok cfg'
    /\ rh_min_uptime_secs (cfg_reconnect_holddown cfg') = Some n
    /\ config_get cfg' (Some "reconnect-holddown.min-uptime") = Err (UnknownKey "reconnect-holddown.min-uptime").
Proof.
  intros Hn. unfold config_set. rewrite parse_entries_dec, dec_not_n0 by lia.
  change (bool_decide ([dec n] = [])) with false. cbn [orb].
  eval_tests. unfold set_reconnect_holddown_key. eval_tests. cbn [single rbind]. eval_tests.
  rewrite number_or_none_dec by done. cbn [rbind]. eexists. split_and!; reflexivity.
Qed.

(** ** Concrete runs *)

(** Every text of the form [<scheme>://...] is taken for a URL. *)
Module DemoUrl.
Definition scheme (s : string) : option string :=
  if starts_with s "http://" then Some "http" else if starts_with s "https://" then Some "https" else None.
#[export] Instance demo_url_scheme : UrlScheme := scheme.
End DemoUrl.
Import DemoUrl.

Lemma settings_independent_witness :
  exists cfg', config_set AppConfig_default "relay" "rayfish,https://relay.example:443" true = Ok cfg'
    /\ config_get cfg' (Some "ipc.max-clients") = config_get AppConfig_default (Some "ipc.max-clients").
Proof.
  eexists. split; [vm_compute; reflexivity|].
  apply (settings_independent AppConfig_default _ "relay" "rayfish,https://relay.example:443" true).
  - vm_compute. reflexivity.
  - discriminate.
Defined.

Lemma settings_read_back_witness :
  exists cfg', config_set AppConfig_default "poller-interval" "90" false = Ok cfg'
    /\ config_get cfg' (Some "poller-interval") = Ok [("poller-interval", "90")].
Proof.
  apply (settings_read_back AppConfig_default "poller-interval" 64 90 false); [|lia].
  unfold numeric_keys. do 25 apply list_elem_of_further. apply list_elem_of_here.
Defined.
