(* ===== verification/Storage.v ===== *)
(** * The files the settings live in (src/src/config/storage.rs)

    One file holds the settings and one file each saved network.  A file is its text
    and the time it was last written; the text is TOML, which the [toml] library
    reads and writes.  Permissions, and a disk that fails, are not modelled: every
    read and write of a file that is there succeeds.

    [load] keeps the last configuration it read and gives it again as long as the
    files look the same.  Other processes write the same files, between any two steps
    of it. *)

From S2P Require Import Prelude Externs Addressing Members Network Ipc Settings.

(** ** Texts *)
Class Toml (A : Type) := {
  to_string_pretty : A -> option string;
  toml_from_str : string -> option A;
}.
Class TomlLaws (A : Type) `{Toml A} : Prop :=
  toml_round_trip : forall a s, to_string_pretty a = Some s -> toml_from_str s = Some a.

(** Everything but the networks. *)
Record StoredSettings := mkStoredSettings {
  st_operator_uid : option Z;
  st_default_hostname : option string;
  st_subnet : option Subnet;
  st_relay : ServerOverride;
  st_discovery_dns : ServerOverride;
  st_ratelimit : RateLimitConfig;
  st_drop_monitor : DropMonitorConfig;
  st_path_flap : PathFlapConfig;
  st_reconnect_log : ReconnectLogConfig;
  st_reconnect_cold : ReconnectColdConfig;
  st_reconnect_frozen : ReconnectFrozenConfig;
  st_reconnect_holddown : ReconnectHolddownConfig;
  st_ipc : IpcConfig;
  st_hello : HelloConfig;
  st_join : JoinConfig;
  st_status_cache : StatusCacheConfig;
  st_nuke_proposal_ttl : option Z;
  st_listen_port : option Z;
  st_poller_interval : option Z;
  st_log_retention : option Z;
  st_invite_default_expiry : option Z;
  st_selfcapture_mitigation : option bool;
  st_log_level : option string;
  st_path_preference : option string;
}.

Definition settings_of (c : AppConfig) : StoredSettings :=
  mkStoredSettings
    (cfg_operator_uid c) (cfg_default_hostname c) (cfg_subnet c) (cfg_relay c) (cfg_discovery_dns c)
    (cfg_ratelimit c) (cfg_drop_monitor c) (cfg_path_flap c) (cfg_reconnect_log c) (cfg_reconnect_cold c)
    (cfg_reconnect_frozen c) (cfg_reconnect_holddown c) (cfg_ipc c) (cfg_hello c) (cfg_join c)
    (cfg_status_cache c) (cfg_nuke_proposal_ttl c) (cfg_listen_port c) (cfg_poller_interval c)
    (cfg_log_retention c) (cfg_invite_default_expiry c) (cfg_selfcapture_mitigation c) (cfg_log_level c)
    (cfg_path_preference c).

Definition assemble (s : StoredSettings) (networks : list NetworkConfig) : AppConfig :=
  mkAppConfig
    (st_operator_uid s) (st_default_hostname s) (st_subnet s) (st_relay s) (st_discovery_dns s)
    (st_ratelimit s) (st_drop_monitor s) (st_path_flap s) (st_reconnect_log s) (st_reconnect_cold s)
    (st_reconnect_frozen s) (st_reconnect_holddown s) (st_ipc s) (st_hello s) (st_join s)
    (st_status_cache s) (st_nuke_proposal_ttl s) (st_listen_port s) (st_poller_interval s)
    (st_log_retention s) (st_invite_default_expiry s) (st_selfcapture_mitigation s) (st_log_level s)
    (st_path_preference s) networks.

(** ** The tree *)
Record File := mkFile { f_mtime : Z; f_text : string }.

(** The [networks] directory is the time an entry of it was last added or removed,
    and its files by name. *)
Record Tree := mkTree {
  t_legacy : option File;
  t_settings : option File;
  t_networks : option (Z * gmap string File);
}.

Inductive StorageError := InvalidNetworkName | ParseSettings | ParseLegacy | ParseNetwork | Serialize.

Definition net_name_char (c : ascii) : bool :=
  let b := byte_of_ascii c in
  (97 <=? b) && (b <=? 122) || (48 <=? b) && (b <=? 57) || (b =? 45).

Definition validate_net_name (name : string) : Result unit StorageError :=
  if bool_decide (name = "") || (64 <? Z.of_nat (String.length name)) || negb (all_chars net_name_char name)
  then Err InvalidNetworkName else Ok tt.

Definition network_file (name : string) : string := name +:+ ".toml".

(** [Path::extension] is [toml]. *)
Definition has_toml_extension (file : string) : bool :=
  let n := String.length file in
  (5 <? n)%nat && bool_decide (String.substring (n - 5) 5 file = ".toml").

(** [write_atomic] puts the file there as a whole.  The stamps of a file and of the
    directory it goes to are the disk's. *)
Record Stamps := mkStamps { file_stamp : Z; dir_stamp : Z }.

Definition network_files (t : Tree) : gmap string File :=
  match t_networks t with Some (_, fs) => fs | None => ∅ end.

Definition put_network (t : Tree) (st : Stamps) (file text : string) : Tree :=
  mkTree (t_legacy t) (t_settings t)
    (Some (dir_stamp st, <[file := mkFile (file_stamp st) text]> (network_files t))).

Section Storage.
Context `{Toml NetworkConfig, Toml StoredSettings, Toml AppConfig}.

(** ** Single networks *)
Definition save_network_in (t : Tree) (st : Stamps) (net : NetworkConfig) : Result Tree StorageError :=
  _ <-? validate_net_name (nc_name net);
  match to_string_pretty net with
  | Some text => Ok (put_network t st (network_file (nc_name net)) text)
  | None => Err Serialize
  end.

Definition load_network_in (t : Tree) (name : string) : Result (option NetworkConfig) StorageError :=
  _ <-? validate_net_name name;
  match network_files t !! network_file name with
  | None => Ok None
  | Some f => match toml_from_str (f_text f) with Some net => Ok (Some net) | None => Err ParseNetwork end
  end.

Definition delete_network_in (t : Tree) (st : Stamps) (name : string) : Result (Tree * bool) StorageError :=
  _ <-? validate_net_name name;
  match t_networks t with
  | Some (_, fs) =>
      if bool_decide (is_Some (fs !! network_file name))
      then Ok (mkTree (t_legacy t) (t_settings t) (Some (dir_stamp st, delete (network_file name) fs)), true)
      else Ok (t, false)
  | None => Ok (t, false)
  end.

(** Under the lock: nothing else in the process updates a network meanwhile. *)
Definition update_network_in (t : Tree) (st : Stamps) (name : string) (f : NetworkConfig -> NetworkConfig * bool)
  : Result (Tree * bool) StorageError :=
  found <-? load_network_in t name;
  match found with
  | None => Ok (t, false)
  | Some net =>
      let '(net', changed) := f net in
      if changed then t' <-? save_network_in t st net'; Ok (t', true) else Ok (t, false)
  end.

(** ** The settings *)
Definition save_settings_in (t : Tree) (st : Stamps) (config : AppConfig) : Result Tree StorageError :=
  match to_string_pretty (settings_of config) with
  | Some text => Ok (mkTree (t_legacy t) (Some (mkFile (file_stamp st) text)) (t_networks t))
  | None => Err Serialize
  end.

(** The old single file is split.  A failure on the way leaves what was written. *)
Fixpoint save_networks (t : Tree) (st : Stamps) (nets : list NetworkConfig) : Tree * Result unit StorageError :=
  match nets with
  | [] => (t, Ok tt)
  | net :: rest =>
      match save_network_in t st net with
      | Ok t' => save_networks t' st rest
      | Err e => (t, Err e)
      end
  end.

Definition migrate_legacy (t : Tree) (st : Stamps) : Tree * Result unit StorageError :=
  match t_legacy t with
  | None => (t, Ok tt)
  | Some f =>
      match toml_from_str (f_text f) with
      | None => (t, Err ParseLegacy)
      | Some old =>
          match save_settings_in t st old with
          | Err e => (t, Err e)
          | Ok t1 =>
              match save_networks t1 st (cfg_networks old) with
              | (t2, Err e) => (t2, Err e)
              | (t2, Ok _) => (mkTree None (t_settings t2) (t_networks t2), Ok tt)
              end
          end
      end
  end.

(** ** Loading *)

(** The [.toml] files in the order of their names. *)
Definition toml_files (t : Tree) : list (string * File) :=
  btree_iter (filter (fun kv => has_toml_extension kv.1 = true) (network_files t)).

(** An unreadable network is skipped. *)
Definition load_in (t : Tree) : Result AppConfig StorageError :=
  settings <-? match t_settings t with
               | Some f => match toml_from_str (f_text f) with Some s => Ok s | None => Err ParseSettings end
               | None => Ok (settings_of AppConfig_default)
               end;
  Ok (assemble settings (omap (fun kf => toml_from_str (f_text kf.2)) (toml_files t))).

(** ** The cache *)
Record Fingerprint := mkFingerprint {
  fp_settings : option (Z * Z);
  fp_networks_dir : option Z;
  fp_network_files : list (string * Z * Z);
  fp_trusted : bool;
}.

Definition RACY_WINDOW : Z := 2 * 10 ^ 9.

Definition stat_file (f : option File) : option (Z * Z) :=
  (fun f => (f_mtime f, Z.of_nat (String.length (f_text f)))) <$> f.
Definition dir_mtime (t : Tree) : option Z := fst <$> t_networks t.

Definition fingerprint_full (t : Tree) (now : Z) : Fingerprint :=
  let files := (fun kf => (kf.1, f_mtime kf.2, Z.of_nat (String.length (f_text kf.2)))) <$> toml_files t in
  let settings := stat_file (t_settings t) in
  let stamps := (option_list (fst <$> settings) ++ option_list (dir_mtime t) ++ ((fun f => f.1.2) <$> files))%list in
  mkFingerprint settings (dir_mtime t) files (forallb (fun m => m + RACY_WINDOW <=? now) stamps).

Definition fingerprint_still_valid (t : Tree) (fp : Fingerprint) : bool :=
  fp_trusted fp
  && bool_decide (stat_file (t_settings t) = fp_settings fp)
  && bool_decide (dir_mtime t = fp_networks_dir fp)
  && forallb (fun f => bool_decide (stat_file (network_files t !! f.1.1) = Some (f.1.2, f.2))) (fp_network_files fp).

Record CacheEntry := mkCacheEntry { ce_dir : string; ce_fingerprint : Fingerprint; ce_config : AppConfig }.

Definition cache_lookup (cache : option CacheEntry) (dir : string) (t : Tree) : option AppConfig :=
  match cache with
  | Some e => if bool_decide (ce_dir e = dir) && fingerprint_still_valid t (ce_fingerprint e)
              then Some (ce_config e) else None
  | None => None
  end.

(** [later] is what others write between the fingerprint and the reading. *)
Definition load_cached_in (cache : option CacheEntry) (dir : string) (migrate : bool) (t : Tree) (st : Stamps) (now : Z)
  (later : Tree -> Tree) : Tree * option CacheEntry * Result AppConfig StorageError :=
  match cache_lookup cache dir t with
  | Some config => (t, cache, Ok config)
  | None =>
      let '(t1, migrated) := if migrate then migrate_legacy t st else (t, Ok tt) in
      match migrated with
      | Err e => (t1, cache, Err e)
      | Ok _ =>
          let fingerprint := fingerprint_full t1 now in
          let t2 := later t1 in
          match load_in t2 with
          | Err e => (t2, cache, Err e)
          | Ok config => (t2, Some (mkCacheEntry dir fingerprint config), Ok config)
          end
      end
  end.
End Storage.

(** ** What the settings resolve to *)
Definition node_subnet (loaded : Result AppConfig StorageError) : Subnet :=
  match loaded with Ok c => default default_subnet (cfg_subnet c) | Err _ => default_subnet end.
Definition selfcapture_mitigation_enabled (loaded : Result AppConfig StorageError) : bool :=
  match loaded with Ok c => default true (cfg_selfcapture_mitigation c) | Err _ => true end.
Definition log_level (loaded : Result AppConfig StorageError) : string :=
  match loaded with Ok c => default "info" (cfg_log_level c) | Err _ => "info" end.
Definition path_preference (loaded : Result AppConfig StorageError) : option string :=
  match loaded with Ok c => cfg_path_preference c | Err _ => None end.

(** ** What a change leaves alone

    After a time from which every stamp is past [b], a file is as it was or has a
    stamp past [b]. *)
Definition file_since (b : Z) (old new : option File) : Prop :=
  new = old \/ exists f, new = Some f /\ b < f_mtime f.

Definition dir_since (b : Z) (old new : option (Z * gmap string File)) : Prop :=
  (old = None /\ new = None)
  \/ (exists m fs fs', old = Some (m, fs) /\ new = Some (m, fs')
      /\ forall k, file_since b (fs !! k) (fs' !! k) /\ (is_Some (fs !! k) <-> is_Some (fs' !! k)))
  \/ (exists m fs', new = Some (m, fs') /\ b < m).

Definition since (b : Z) (old new : Tree) : Prop :=
  file_since b (t_settings old) (t_settings new) /\ dir_since b (t_networks old) (t_networks new).

Lemma file_since_trans b f g h : file_since b f g -> file_since b g h -> file_since b f h.
Proof. unfold file_since. intros [->|?] [->|?]; eauto. Qed.

#[global] Instance since_preorder b : PreOrder (since b).
Proof.
  split.
  - intros [l s d]. split; [by left|]. destruct d as [[m fs]|]; [right; left|by left].
    exists m, fs, fs. repeat split; [by left|done..].
  - intros [l1 s1 d1] [l2 s2 d2] [l3 s3 d3] [Hs Hd] [Hs' Hd']. split; [by eapply file_since_trans|]. cbn in *.
    destruct Hd' as [[-> ->]|[(m & fs & fs' & -> & -> & Hk)|Hn]]; [done| |by right; right].
    destruct Hd as [[_ ?]|[(m0 & fs0 & fs1 & -> & [= -> ->] & Hk0)|(m0 & fs0 & [= -> ->] & Hb)]]; [done| |].
    + right. left. exists m0, fs0, fs'. do 2 (split; [done|]). intros k.
      split; [eapply file_since_trans; [apply Hk0|apply Hk]|]. rewrite (proj2 (Hk0 k)). apply Hk.
    + right. right. eauto.
Qed.

(** A file whose stamp is not past [b] is the one that was there. *)
Lemma file_since_old b g h : file_since b g h -> (forall x, h = Some x -> f_mtime x <= b) -> g = h.
Proof. intros [->|(x & -> & Hx)]; [done|]. intros Hold. specialize (Hold x eq_refl). lia. Qed.

Lemma stat_file_mtime f mt n : stat_file f = Some (mt, n) -> exists x, f = Some x /\ f_mtime x = mt.
Proof. destruct f as [x|]; [|done]. intros [= <- _]. by exists x. Qed.

Lemma toml_files_elem t k f :
  (k, f) ∈ toml_files t <-> network_files t !! k = Some f /\ has_toml_extension k = true.
Proof. unfold toml_files. by rewrite btree_iter_elem, map_lookup_filter_Some. Qed.

Section Cache.
Context `{Toml NetworkConfig, Toml StoredSettings, Toml AppConfig}.

(** What a trusted fingerprint says of the stamps it was made of. *)
Lemma fingerprint_trusted t now :
  fp_trusted (fingerprint_full t now) = true ->
  (forall f, t_settings t = Some f -> f_mtime f <= now - RACY_WINDOW)
  /\ (forall m, dir_mtime t = Some m -> m <= now - RACY_WINDOW)
  /\ (forall k f, network_files t !! k = Some f -> has_toml_extension k = true -> f_mtime f <= now - RACY_WINDOW).
Proof.
  unfold fingerprint_full. cbn [fp_trusted]. rewrite forallb_forall. intros Hall.
  assert (forall m, In m (option_list (fst <$> stat_file (t_settings t)) ++ option_list (dir_mtime t)
            ++ ((fun f => f.1.2) <$> ((fun kf => (kf.1, f_mtime kf.2, Z.of_nat (String.length (f_text kf.2)))) <$> toml_files t)))%list ->
            m <= now - RACY_WINDOW) as Hle by (intros m Hm; specialize (Hall m Hm); btac; lia).
  clear Hall. split_and!.
  - intros f Hf. apply Hle. rewrite Hf. by left.
  - intros m Hm. apply Hle. rewrite Hm. apply in_or_app. right. by left.
  - intros k f Hf Hk. apply Hle. rewrite !in_app_iff. right. right. apply list_elem_of_In, list_elem_of_fmap.
    exists (k, f_mtime f, Z.of_nat (String.length (f_text f))). split; [done|]. apply list_elem_of_fmap. exists (k, f).
    split; [done|]. by apply toml_files_elem.
Qed.

(** A tree that a trusted fingerprint still fits, and any one on the way to it, load
    the same. *)
Lemma still_valid_loads t0 t1 t2 now :
  since (now - RACY_WINDOW) t0 t1 -> since (now - RACY_WINDOW) t1 t2 ->
  fingerprint_still_valid t2 (fingerprint_full t0 now) = true -> load_in t1 = load_in t2.
Proof.
  intros [Hs1 Hd1] [Hs2 Hd2]. unfold fingerprint_still_valid.
  destruct (fp_trusted _) eqn:Et; [|done]. apply fingerprint_trusted in Et as (Ts & Td & Tf).
  cbn [fingerprint_full fp_settings fp_networks_dir fp_network_files andb]. intros Hv.
  apply andb_true_iff in Hv as [[Es Ed]%andb_true_iff Hfs]. apply bool_decide_eq_true in Es, Ed.
  assert (t_settings t1 = t_settings t2) as Hset.
  { apply (file_since_old _ _ _ Hs2). intros x Ex. rewrite Ex in Es.
    destruct (t_settings t0) as [f|]; [|done]. injection Es as -> _. by apply Ts. }
  assert (toml_files t1 = toml_files t2) as Hfiles; [|unfold load_in; by rewrite Hset, Hfiles].
  unfold toml_files. f_equal. apply map_eq. intros k.
  destruct (has_toml_extension k) eqn:Ek.
  2: { rewrite !map_lookup_filter_None_2; [done|..]; right; cbn; congruence. }
  enough (network_files t1 !! k = network_files t2 !! k) as Hk.
  { destruct (network_files t2 !! k) as [f|] eqn:E2.
    - rewrite (map_lookup_filter_Some_2 _ _ k f), (map_lookup_filter_Some_2 _ _ k f) by done. done.
    - rewrite !map_lookup_filter_None_2; [done|..]; by left. }
  unfold network_files, dir_mtime in *.
  destruct (t_networks t2) as [[m2 fs2]|], (t_networks t0) as [[m0 fs0]|] eqn:En0; [|done..|].
  - injection Ed as ->. assert (m0 <= now - RACY_WINDOW) as Hm0 by (by apply Td). clear Td.
    destruct Hd2 as [[_ ?]|[(m & fs1 & fs2' & E1 & [= <- <-] & Hk2)|(m & ? & [= <- _] & ?)]]; [done| |lia].
    rewrite E1 in Hd1 |- *.
    destruct Hd1 as [[? _]|[(m & fs0' & fs1' & [= <- <-] & [= <-] & Hk1)|(m & ? & [= <- _] & ?)]]; [done| |lia].
    destruct (Hk1 k) as [_ Hi1], (Hk2 k) as [Hc Hi2]. apply (file_since_old _ _ _ Hc). intros x Ex.
    destruct (fs0 !! k) as [f0|] eqn:E0.
    + rewrite forallb_forall in Hfs.
      specialize (Hfs (k, f_mtime f0, Z.of_nat (String.length (f_text f0)))). cbn in Hfs.
      assert (stat_file (fs2 !! k) = Some (f_mtime f0, Z.of_nat (String.length (f_text f0)))) as Hst.
      { eapply bool_decide_eq_true, Hfs, list_elem_of_In, list_elem_of_fmap. exists (k, f0). split; [done|].
        apply toml_files_elem. unfold network_files. by rewrite En0. }
      rewrite Ex in Hst. injection Hst as -> _. by eapply Tf.
    + rewrite Ex in Hi2. destruct Hi2 as [_ Hi2]. rewrite <- Hi1 in Hi2. destruct (is_Some_None (Hi2 (ex_intro _ x eq_refl))).
  - destruct Hd2 as [[-> _]|[(? & ? & ? & _ & ? & _)|(? & ? & ? & _)]]; done.
Qed.

(** ** The process among the others

    Any process may write the files at any time; a stamp lags behind the clock by
    less than [RACY_WINDOW].  A load that misses takes the fingerprint, reads the files and
    puts the result into the cache, in steps of which any number of loads can be
    under way. *)
Inductive changed (now : Z) : Tree -> Tree -> Prop :=
| ChangedSettings t m text :
    now - RACY_WINDOW < m -> changed now t (mkTree (t_legacy t) (Some (mkFile m text)) (t_networks t))
| ChangedSave t st file text :
    now - RACY_WINDOW < file_stamp st -> now - RACY_WINDOW < dir_stamp st ->
    changed now t (put_network t st file text)
| ChangedEdit t d fs file old m text :
    t_networks t = Some (d, fs) -> fs !! file = Some old -> now - RACY_WINDOW < m ->
    changed now t (mkTree (t_legacy t) (t_settings t) (Some (d, <[file := mkFile m text]> fs)))
| ChangedDelete t d fs file m :
    t_networks t = Some (d, fs) -> now - RACY_WINDOW < m ->
    changed now t (mkTree (t_legacy t) (t_settings t) (Some (m, delete file fs)))
| ChangedLegacy t f : changed now t (mkTree f (t_settings t) (t_networks t)).

Record Loads := mkLoads {
  ld_trees : string -> Tree;
  ld_now : Z;
  ld_cache : option CacheEntry;
  ld_reading : list (string * Fingerprint);
  ld_ready : list CacheEntry;
}.

Definition set_tree (trees : string -> Tree) (dir : string) (t : Tree) : string -> Tree :=
  fun d => if bool_decide (d = dir) then t else trees d.

Inductive load_step : Loads -> Loads -> Prop :=
| Passes trees now now' c rs es :
    now <= now' -> load_step (mkLoads trees now c rs es) (mkLoads trees now' c rs es)
| Changes trees now c rs es dir t :
    changed now (trees dir) t -> load_step (mkLoads trees now c rs es) (mkLoads (set_tree trees dir t) now c rs es)
| Misses trees now c rs es dir :
    cache_lookup c dir (trees dir) = None ->
    load_step (mkLoads trees now c rs es) (mkLoads trees now c ((dir, fingerprint_full (trees dir) now) :: rs) es)
| Reads trees now c rs1 rs2 es dir fp cfg :
    load_in (trees dir) = Ok cfg ->
    load_step (mkLoads trees now c (rs1 ++ (dir, fp) :: rs2)%list es)
              (mkLoads trees now c (rs1 ++ rs2)%list (mkCacheEntry dir fp cfg :: es))
| Stores trees now c rs es1 es2 e :
    load_step (mkLoads trees now c rs (es1 ++ e :: es2)%list) (mkLoads trees now (Some e) rs (es1 ++ es2)%list).

(** A fingerprint taken of a tree the present one follows. *)
Definition follows (w : Loads) (dir : string) (fp : Fingerprint) (t : Tree) : Prop :=
  exists t0 taken, taken <= ld_now w /\ fp = fingerprint_full t0 taken
    /\ since (taken - RACY_WINDOW) t0 t /\ since (taken - RACY_WINDOW) t (ld_trees w dir).

Definition loads_ok (w : Loads) : Prop :=
  (forall dir fp, (dir, fp) ∈ ld_reading w -> exists t, follows w dir fp t)
  /\ (forall e, e ∈ ld_ready w \/ ld_cache w = Some e ->
        exists t, follows w (ce_dir e) (ce_fingerprint e) t /\ load_in t = Ok (ce_config e)).

Lemma changed_since now b t t' : b <= now - RACY_WINDOW -> changed now t t' -> since b t t'.
Proof.
  intros Hb Hc. assert (since b t t) as [Rs Rd] by reflexivity.
  destruct Hc as [t m text Hm|t st file text Hf Hd|t d fs file old m text Hn Ho Hm|t d fs file m Hn Hm|t f].
  - split; [right; eexists; split; [done|cbn; lia]|done].
  - split; [by left|]. right. right. do 2 eexists. split; [done|lia].
  - split; [by left|]. right. left. exists d, fs. eexists. split; [done|]. split; [done|]. intros k.
    destruct (decide (k = file)) as [->|Hne].
    + rewrite lookup_insert_eq, Ho. split; [right; eexists; split; [done|cbn; lia]|]. by split; eauto.
    + rewrite lookup_insert_ne by done. split; [by left|done].
  - split; [by left|]. right. right. do 2 eexists. split; [done|lia].
  - by split.
Qed.

Lemma follows_step w w' dir fp t : load_step w w' -> follows w dir fp t -> follows w' dir fp t.
Proof.
  intros Hs (t0 & taken & Hle & -> & Ht0 & Ht1). exists t0, taken.
  destruct Hs as [trees now now' ??? Hn|trees now c rs es d t' Hc| | | ]; cbn in *; split_and!; try done; [lia|].
  unfold set_tree. case_bool_decide as Hd; [subst d|done]. etransitivity; [exact Ht1|]. eapply changed_since; [|exact Hc]. lia.
Qed.

Lemma loads_ok_step w w' : load_step w w' -> loads_ok w -> loads_ok w'.
Proof.
  intros Hs [Hr He]. split.
  - intros dir fp Hin. assert ((dir, fp) ∈ ld_reading w \/ follows w' dir fp (ld_trees w' dir)) as [Hin'|Hf].
    { destruct Hs; cbn in *; try (left; done).
      - apply elem_of_cons in Hin as [[= -> ->]|Hin]; [right|by left].
        do 2 eexists. split_and!; reflexivity.
      - left. rewrite elem_of_app in Hin |- *. rewrite elem_of_cons. tauto. }
    + destruct (Hr _ _ Hin') as [t Ht]. exists t. by eapply follows_step.
    + by eexists.
  - intros e Hin. assert ((e ∈ ld_ready w \/ ld_cache w = Some e)
      \/ ((ce_dir e, ce_fingerprint e) ∈ ld_reading w /\ load_in (ld_trees w (ce_dir e)) = Ok (ce_config e))) as Hor.
    { destruct Hs; cbn in *; try (by left).
      - rewrite elem_of_cons in Hin. destruct Hin as [[->|Hin]|Hin]; [right|by left; left|by left; right].
        cbn. split; [|done]. rewrite elem_of_app, elem_of_cons. tauto.
      - left. left. rewrite elem_of_app in Hin |- *. rewrite elem_of_cons. destruct Hin as [?|[= ->]]; tauto. }
    destruct Hor as [Hold|[Hin' Hl]].
    + destruct (He _ Hold) as (t & Ht & Hl). exists t. split; [by eapply follows_step|done].
    + destruct (Hr _ _ Hin') as (t & t0 & taken & Hle & Hfp & Ht0 & Ht1). exists (ld_trees w (ce_dir e)).
      split; [|done]. eapply follows_step; [exact Hs|]. exists t0, taken. split_and!; [done..|by etransitivity|reflexivity].
Qed.

(** C31: the cached configuration is the one on the disk: whatever is written to the
    files and by whom, between any steps of the loads under way, a load that is
    served from the cache gives what reading all the files again would give. *)
Theorem config_cache_coherent (trees : string -> Tree) (now : Z) (w : Loads) (dir : string) (cfg : AppConfig) :
  rtc load_step (mkLoads trees now None [] []) w ->
  cache_lookup (ld_cache w) dir (ld_trees w dir) = Some cfg ->
  load_in (ld_trees w dir) = Ok cfg.
Proof.
  intros Hrun Hhit. assert (loads_ok w) as [_ He].
  { clear Hhit. remember (mkLoads trees now None [] []) as w0 eqn:E0.
    assert (loads_ok w0) as Hok0.
    { subst w0. split; [intros ?? Hin; by apply elem_of_nil in Hin|]. intros e [Hin|Hin]; [by apply elem_of_nil in Hin|done]. }
    clear E0. induction Hrun; eauto using loads_ok_step. }
  unfold cache_lookup in Hhit. destruct (ld_cache w) as [e|] eqn:Ec; [|done].
  destruct (bool_decide (ce_dir e = dir)) eqn:Ed; [|done]. apply bool_decide_eq_true in Ed as <-. cbn [andb] in Hhit.
  destruct (fingerprint_still_valid _ _) eqn:Ev; [|done]. injection Hhit as <-.
  destruct (He e (or_intror eq_refl)) as (t & (t0 & taken & _ & Hfp & Ht0 & Ht1) & <-).
  rewrite Hfp in Ev. symmetry. by eapply still_valid_loads.
Qed.
End Cache.

(** ** Networks in their files *)
Lemma network_file_inj a b : network_file a = network_file b -> a = b.
Proof.
  unfold network_file. intros E. assert (String.length a = String.length b) as Hl.
  { apply (f_equal String.length) in E. rewrite !sapp_length in E. lia. }
  revert b E Hl. induction a as [|c a IH]; intros [|d b] E Hl; try done. cbn in E, Hl. injection E as -> E.
  f_equal. apply IH; [done|lia].
Qed.

(** What the rest of the daemon relies on: a store of networks by name, in which
    saving or deleting one leaves the others alone. *)
Class NetworkStore (S : Type) := {
  load_network : S -> string -> Result (option NetworkConfig) StorageError;
  save_network : S -> NetworkConfig -> Result S StorageError;
  delete_network : S -> string -> Result (S * bool) StorageError;
}.

Class NetworkStoreLaws (S : Type) `{NetworkStore S} : Prop := {
  load_saved : forall d d' net, save_network d net = Ok d' -> load_network d' (nc_name net) = Ok (Some net);
  load_saved_other : forall d d' net name, save_network d net = Ok d' -> name <> nc_name net ->
    load_network d' name = load_network d name;
  load_deleted : forall d d' name b, delete_network d name = Ok (d', b) -> load_network d' name = Ok None;
  load_deleted_other : forall d d' name b other, delete_network d name = Ok (d', b) -> other <> name ->
    load_network d' other = load_network d other;
}.

(** [update_network] on any store. *)
Definition update_network {S} `{NetworkStore S} (d : S) (name : string) (f : NetworkConfig -> NetworkConfig * bool)
  : Result (S * bool) StorageError :=
  found <-? load_network d name;
  match found with
  | None => Ok (d, false)
  | Some net =>
      let '(net', changed) := f net in
      if changed then d' <-? save_network d net'; Ok (d', true) else Ok (d, false)
  end.

(** [let _ = update_network(..)]: the error is discarded. *)
Definition update_ignore {S} `{NetworkStore S} (d : S) (name : string) (f : NetworkConfig -> NetworkConfig * bool) : S :=
  match update_network d name f with Ok (d', _) => d' | Err _ => d end.

(** The networks by name, and nothing that can fail. *)
Module DemoStore.
#[export] Instance map_store : NetworkStore (gmap string NetworkConfig) := {|
  load_network m name := Ok (m !! name);
  save_network m net := Ok (<[nc_name net := net]> m);
  delete_network m name := Ok (delete name m, bool_decide (is_Some (m !! name)));
|}.
#[export] Instance map_store_laws : NetworkStoreLaws (gmap string NetworkConfig).
Proof.
  split; cbn.
  - intros m m' net [= <-]. by rewrite lookup_insert_eq.
  - intros m m' net name [= <-] Hne. by rewrite lookup_insert_ne.
  - intros m m' name b [= <- _]. by rewrite lookup_delete_eq.
  - intros m m' name b other [= <- _] Hne. by rewrite lookup_delete_ne.
Qed.
End DemoStore.

Section TreeStore.
Context `{TomlLaws NetworkConfig}.

Definition tree_store (st : Stamps) : NetworkStore Tree := {|
  load_network t name := load_network_in t name;
  save_network t net := save_network_in t st net;
  delete_network t name := delete_network_in t st name;
|}.

Lemma validate_net_name_unit name u : validate_net_name name = Ok u -> validate_net_name name = Ok tt.
Proof. by destruct u. Qed.

Lemma network_files_put t st file text :
  network_files (put_network t st file text) = <[file := mkFile (file_stamp st) text]> (network_files t).
Proof. done. Qed.

Lemma save_network_in_inv t t' st net :
  save_network_in t st net = Ok t' ->
  validate_net_name (nc_name net) = Ok tt
  /\ exists text, toml_from_str text = Some net /\ t' = put_network t st (network_file (nc_name net)) text.
Proof.
  unfold save_network_in. intros (u & Hv%validate_net_name_unit & Hs)%rbind_ok. split; [done|].
  destruct (to_string_pretty net) as [text|] eqn:Et; [|done]. injection Hs as <-. exists text.
  split; [by apply (toml_round_trip (A := NetworkConfig))|done].
Qed.

#[export] Instance tree_store_laws (st : Stamps) : @NetworkStoreLaws Tree (tree_store st).
Proof.
  split; cbn.
  - intros t t' net (Hv & text & Ht & ->)%save_network_in_inv. unfold load_network_in. rewrite Hv. cbn [rbind].
    rewrite network_files_put, lookup_insert_eq. cbn [f_text]. by rewrite Ht.
  - intros t t' net name (Hv & text & Ht & ->)%save_network_in_inv Hne. unfold load_network_in.
    by rewrite network_files_put, lookup_insert_ne by (by intros ?%network_file_inj).
  - intros t t' name b (u & Hv%validate_net_name_unit & Hd)%rbind_ok. unfold load_network_in. rewrite Hv. cbn [rbind].
    unfold network_files at 1. destruct (t_networks t) as [[d fs]|] eqn:En; [|injection Hd as <- _; by rewrite En].
    case_bool_decide as Hi; injection Hd as <- _; cbn; [by rewrite lookup_delete_eq|].
    rewrite En. by apply eq_None_not_Some in Hi as ->.
  - intros t t' name b other (u & Hv%validate_net_name_unit & Hd)%rbind_ok Hne. unfold load_network_in. f_equal.
    unfold network_files. destruct (t_networks t) as [[d fs]|] eqn:En; [|injection Hd as <- _; by rewrite En].
    case_bool_decide as Hi; injection Hd as <- _; cbn; [|by rewrite En].
    by rewrite lookup_delete_ne by (by intros ?%network_file_inj).
Qed.

(** The program's own writes are changes of the kind others make. *)
Lemma save_network_changes now t t' st net :
  save_network_in t st net = Ok t' -> now - RACY_WINDOW < file_stamp st -> now - RACY_WINDOW < dir_stamp st ->
  changed now t t'.
Proof. intros (_ & text & _ & ->)%save_network_in_inv ??. by constructor. Qed.
End TreeStore.

(** ** Concrete runs *)
#[export] Instance GroupMode_eq_dec : EqDecision GroupMode.
Proof. solve_decision. Defined.
#[export] Instance TransportMode_eq_dec : EqDecision TransportMode.
Proof. solve_decision. Defined.
#[export] Instance NetworkConfig_eq_dec : EqDecision NetworkConfig.
Proof. solve_decision. Defined.

(** The text of a network is its name, of the settings the user id of the operator. *)
Module DemoToml.
Definition demo_net (name : string) : NetworkConfig :=
  mkNetworkConfig name Restricted None None [] [] None None None [] false None 2.
Definition demo_settings (uid : option Z) : StoredSettings :=
  settings_of (mkAppConfig uid None None (mkServerOverride [] false) (mkServerOverride [] false)
    (mkRateLimitConfig None None None None None None) (mkDropMonitorConfig None None None)
    (mkPathFlapConfig None None) (mkReconnectLogConfig None None) (mkReconnectColdConfig None None)
    (mkReconnectFrozenConfig None None) (mkReconnectHolddownConfig None None)
    (mkIpcConfig None None None None) (mkHelloConfig None) (mkJoinConfig None) (mkStatusCacheConfig None)
    None None None None None None None None []).

#[export] Instance toml_network : Toml NetworkConfig := {|
  to_string_pretty net := if bool_decide (net = demo_net (nc_name net)) then Some (nc_name net) else None;
  toml_from_str s := Some (demo_net s);
|}.
#[export] Instance toml_network_laws : TomlLaws NetworkConfig.
Proof. intros net s. cbn. case_bool_decide as E; [|done]. intros [= <-]. by rewrite <- E. Qed.
#[export] Instance toml_settings : Toml StoredSettings := {|
  to_string_pretty s := dec <$> st_operator_uid s;
  toml_from_str s := demo_settings <$> (Some <$> parse_u32 s);
|}.
#[export] Instance toml_config : Toml AppConfig := {|
  to_string_pretty _ := None;
  toml_from_str _ := None;
|}.
End DemoToml.
Import DemoToml.

Definition sample_tree : Tree :=
  mkTree None (Some (mkFile 0 "1000")) (Some (5, {[ "home.toml" := mkFile 5 "home" ]})).

Lemma config_cache_coherent_witness :
  exists w cfg, cache_lookup (ld_cache w) "/etc/tetron" (ld_trees w "/etc/tetron") = Some cfg
    /\ load_in (ld_trees w "/etc/tetron") = Ok cfg /\ cfg_operator_uid cfg = Some 1000
    /\ nc_name <$> cfg_networks cfg = ["home"].
Proof.
  pose (trees := fun _ : string => sample_tree). pose (now := 10 ^ 10).
  pose (cfg := assemble (demo_settings (Some 1000)) [demo_net "home"]).
  pose (fp := fingerprint_full sample_tree now).
  pose (w := mkLoads trees now (Some (mkCacheEntry "/etc/tetron" fp cfg)) [] []).
  assert (load_in sample_tree = Ok cfg) as Hl by (vm_compute; reflexivity).
  assert (cache_lookup (ld_cache w) "/etc/tetron" (ld_trees w "/etc/tetron") = Some cfg) as Hhit by (vm_compute; reflexivity).
  exists w, cfg. split; [exact Hhit|]. split; [|split; reflexivity].
  refine (config_cache_coherent trees now w "/etc/tetron" cfg _ Hhit).
  eapply rtc_l; [exact (Misses trees now None [] [] "/etc/tetron" eq_refl)|].
  eapply rtc_l; [exact (Reads trees now None [] [] [] "/etc/tetron" fp cfg Hl)|].
  eapply rtc_l; [exact (Stores trees now None [] [] [] (mkCacheEntry "/etc/tetron" fp cfg))|].
  apply rtc_refl.
Defined.
