(* ===== verification/Convergence.v ===== *)
(** * Nodes around one signed record

    Several nodes change their state, publish, poll and reconverge on hints
    (src/src/daemon/mesh/reconverge.rs and publish.rs), with the steps cut where the
    code waits: between the guard of a publication and the write, and between
    the look at the record and the use of the blob. *)

From S2P Require Import Prelude Externs Addressing Invite Members Blob Peers Select Network.

(** ** Several nodes around one record *)
Section Convergence.
Context `{IrohKeys, !IrohKeysLaws, Blake3, GroupBlobCodec, !GroupBlobCodecLaws}.

(** The byte strings that ever occur, on which the hash has no collision. *)
Context (known : list Z -> Prop).
Hypothesis hash_injective : forall a b, known a -> known b -> blake3_hash a = blake3_hash b -> a = b.

(** A value of the Rust types whose bytes, and those of a tombstone of its
    generation, are among the known ones. *)
Definition typed (s : NetworkState) : Prop :=
  wire_ok (to_wire (state_blob s)) /\ is_u32 (subnet s).1 /\ 0 <= (subnet s).2 <= 32
  /\ known (state_bytes s) /\ known (tombstone_bytes (generation s)).

(** The snapshot is that of a state of this generation: fields changed without a
    refresh since then are not in it. *)
Definition state_ok (s : NetworkState) : Prop :=
  exists s0, typed s0 /\ generation s0 = generation s
    /\ snapshot s = Some (mkSnapshot (blake3_hash (state_bytes s0)) (state_bytes s0)).

(** Every record is that of some state at the time it was taken. *)
Definition record_ok (r : NetworkRecord) : Prop :=
  exists s, typed s /\ rec_hash r = blake3_hash (state_bytes s) /\ rec_generation r = generation s.

Definition Serve : Type := EndpointId -> Hash -> option (list Z) * Z.
Definition serves_known (serve : Serve) : Prop :=
  forall pid h b dt, serve pid h = (Some b, dt) -> known b.

(** The states of the nodes, the records their publishers are about to write
    (the guard has passed), the polls under way (the generation the poller saw and
    the record it is fetching), the hints under way, and the record store.  A
    network has one poller and any number of hints at a time. *)
Record World := mkWorld {
  nodes : gmap EndpointId NetworkState;
  pending : gmap EndpointId NetworkRecord;
  polling : gmap EndpointId (Z * NetworkRecord);
  converging : list (EndpointId * NetworkRecord);
  dht : option NetworkRecord;
}.

(** Adopting ends a pass; a pass that fetches nothing or changes nothing leaves the
    world as it was. *)
Inductive step : World -> World -> Prop :=
| step_mutate w i s s' :
    nodes w !! i = Some s -> generation s' = generation s -> generation s + 1 < 2 ^ 64 ->
    typed (bump_generation_and_refresh s') ->
    step w (mkWorld (<[i := bump_generation_and_refresh s']> (nodes w)) (pending w) (polling w) (converging w) (dht w))
| step_touch w i s s' :
    nodes w !! i = Some s -> generation s' = generation s -> snapshot s' = snapshot s ->
    step w (mkWorld (<[i := s']> (nodes w)) (pending w) (polling w) (converging w) (dht w))
| step_guard w i s connected r :
    nodes w !! i = Some s -> network_publisher_round s (dht w) connected i = Some r ->
    step w (mkWorld (nodes w) (<[i := r]> (pending w)) (polling w) (converging w) (dht w))
| step_write w i r :
    pending w !! i = Some r ->
    step w (mkWorld (nodes w) (delete i (pending w)) (polling w) (converging w) (Some r))
| step_poll w i s r :
    nodes w !! i = Some s -> dht w = Some r -> polling w !! i = None ->
    poller_should_fetch (rec_generation r) (rec_hash r) (generation s) (snap_hash <$> snapshot s) = true ->
    step w (mkWorld (nodes w) (pending w) (<[i := (generation s, r)]> (polling w)) (converging w) (dht w))
| step_poll_adopt w i s g r connected serve data s' ms aps :
    nodes w !! i = Some s -> polling w !! i = Some (g, r) -> serves_known serve ->
    obtain_blob r connected serve = Some data -> poll_finish s i data = Adopted s' ms aps -> typed s' ->
    step w (mkWorld (<[i := s']> (nodes w)) (pending w) (delete i (polling w)) (converging w) (dht w))
| step_poll_end w i :
    step w (mkWorld (nodes w) (pending w) (delete i (polling w)) (converging w) (dht w))
| step_hint w i s r :
    nodes w !! i = Some s -> dht w = Some r ->
    trusted_reconverge_hash (snap_hash <$> snapshot s) (rec_hash r) = Some (rec_hash r) ->
    step w (mkWorld (nodes w) (pending w) (polling w) ((i, r) :: converging w) (dht w))
| step_hint_adopt w i s l1 r l2 connected serve data s' ms aps :
    nodes w !! i = Some s -> converging w = (l1 ++ (i, r) :: l2)%list -> serves_known serve ->
    obtain_blob r connected serve = Some data -> reconverge_finish s i data = Adopted s' ms aps -> typed s' ->
    step w (mkWorld (<[i := s']> (nodes w)) (pending w) (polling w) (l1 ++ l2)%list (dht w))
| step_hint_end w l1 f l2 :
    converging w = (l1 ++ f :: l2)%list ->
    step w (mkWorld (nodes w) (pending w) (polling w) (l1 ++ l2)%list (dht w)).

(** Every state has the snapshot of a state of its generation, every record in the
    store or in flight stands for a state some node had, and a poll only fetches
    what was not behind the generation it saw. *)
Definition world_ok (w : World) : Prop :=
  map_Forall (fun _ s => state_ok s) (nodes w)
  /\ map_Forall (fun _ r => record_ok r) (pending w)
  /\ map_Forall (fun _ p => record_ok p.2 /\ p.1 <= rec_generation p.2) (polling w)
  /\ Forall (fun f => record_ok f.2) (converging w)
  /\ (forall r, dht w = Some r -> record_ok r).

Lemma fetch_verified_Some connected signed seeds (serve : Serve) b :
  serves_known serve -> fetch_verified_blob connected signed seeds serve = Some b ->
  exists bytes, known bytes /\ verify_group_blob bytes signed = Ok b.
Proof.
  intros Hs Hf. unfold fetch_verified_blob, first_some_bounded in Hf.
  apply bounded_from_found in Hf as (pid & _ & Hf & _).
  destruct (serve pid signed) as [[bytes|] dt] eqn:E; [|done]. cbn in Hf.
  destruct (verify_group_blob bytes signed) as [g|] eqn:Ev; [|done]. injection Hf as <-.
  exists bytes. split; [by eapply Hs|done].
Qed.

Lemma state_bytes_blob s : typed s -> from_slice (state_bytes s) = Some (state_blob s).
Proof. intros (Hw & Hs1 & Hs2 & _). by apply from_slice_to_vec. Qed.

(** Whatever peers answer, the blob behind a record is the state it was taken of. *)
Lemma obtain_blob_record r connected (serve : Serve) b :
  record_ok r -> serves_known serve -> obtain_blob r connected serve = Some b ->
  exists s, typed s /\ rec_hash r = blake3_hash (state_bytes s) /\ b = state_blob s
            /\ gb_generation b = rec_generation r.
Proof.
  intros (s & Hs & Hh & Hg) Hserve Ho. exists s. split; [done|]. split; [done|].
  pose proof Hs as (_ & _ & _ & Hk & Htomb).
  enough (from_slice (state_bytes s) = Some b) as Hb.
  { rewrite state_bytes_blob in Hb by done. injection Hb as <-. done. }
  unfold obtain_blob in Ho. destruct (try_decode_tombstone _ _) as [t|] eqn:Et.
  - injection Ho as ->. unfold try_decode_tombstone in Et. case_bool_decide as E; [|done].
    rewrite Hh, Hg in E. apply hash_injective in E; [|done..]. by rewrite <- E, <- Hg.
  - destruct (fetch_verified_Some _ _ _ _ _ Hserve Ho) as (bytes & Hkb & Hv).
    unfold verify_group_blob in Hv. case_bool_decide as E; [|done].
    rewrite Hh in E. apply hash_injective in E; [|done..]. subst bytes.
    by apply decode_group_blob_ok in Hv as [? _].
Qed.

Lemma refresh_ok s : typed (refresh_snapshot s) -> state_ok (refresh_snapshot s).
Proof. intros Ht. exists (refresh_snapshot s). split; [done|]. by split. Qed.

Lemma record_of_ok s connected me : state_ok s -> record_ok (record_of s connected me).
Proof.
  intros (s0 & Ht & Hg & Hs). exists s0. split; [done|]. unfold record_of, published_hash. rewrite Hs. cbn. by split.
Qed.

Lemma poller_should_fetch_le rg rh g h : poller_should_fetch rg rh g h = true -> g <= rg.
Proof.
  unfold poller_should_fetch. rewrite negb_true_iff, orb_false_iff. intros [Hlt _]. by apply Z.ltb_ge in Hlt.
Qed.

Lemma poll_finish_adopted s i data s' ms aps :
  poll_finish s i data = Adopted s' ms aps -> s' = adopt s data (gb_members data).
Proof. unfold poll_finish. destruct (member_removed _ _ _); congruence. Qed.

Lemma reconverge_finish_adopted s i data s' ms aps :
  reconverge_finish s i data = Adopted s' ms aps ->
  generation s <= gb_generation data /\ exists rs, s' = adopt s data rs.
Proof.
  unfold reconverge_finish. destruct (member_removed _ _ _); [done|].
  destruct (Z.ltb_spec (gb_generation data) (generation s)); [done|].
  destruct (resolve_ip_tiebreak _ _) as [rs|]; [|done]. intros [= <- _ _]. split; [done|by eexists].
Qed.

Lemma Forall_drop_mid {A} (P : A -> Prop) l l1 x l2 :
  l = (l1 ++ x :: l2)%list -> Forall P l -> Forall P (l1 ++ l2)%list.
Proof. intros -> [? [_ ?]%Forall_cons]%Forall_app. by apply Forall_app. Qed.

Lemma adopt_ok s data rs : typed (adopt s data rs) -> state_ok (adopt s data rs).
Proof. apply refresh_ok. Qed.

Lemma step_ok w w' : step w w' -> world_ok w -> world_ok w'.
Proof.
  intros Hstep (Hn & Hp & Hq & Hc & Hd). unfold world_ok. destruct Hstep; cbn; split_and!; auto.
  - apply map_Forall_insert_2; [by apply refresh_ok|done].
  - apply map_Forall_insert_2; [|done].
    destruct (Hn i s ltac:(done)) as (s0 & Ht & Hg & Hs). exists s0. split; [done|]. split; congruence.
  - apply map_Forall_insert_2; [|done]. unfold network_publisher_round in *.
    destruct (dht_read_before_write _ _ _); [|done]. simplify_eq. apply record_of_ok. by apply (Hn i).
  - by apply map_Forall_delete.
  - intros r' [= <-]. by apply (Hp i).
  - apply map_Forall_insert_2; [|done]. split; [by apply Hd|]. by eapply poller_should_fetch_le.
  - apply map_Forall_insert_2; [|done]. erewrite (poll_finish_adopted s i data s') in * by done. by apply adopt_ok.
  - by apply map_Forall_delete.
  - by apply map_Forall_delete.
  - apply map_Forall_insert_2; [|done].
    destruct (reconverge_finish_adopted s i data s' ms aps) as (_ & rs & ->); [done|]. by apply adopt_ok.
  - by eapply Forall_drop_mid.
  - by eapply Forall_drop_mid.
Qed.

Lemma steps_ok w w' : rtc step w w' -> world_ok w -> world_ok w'.
Proof. induction 1; eauto using step_ok. Qed.

Lemma insert_node_cases (ns : gmap EndpointId NetworkState) i j (s1 s s' : NetworkState) (P : Prop) :
  ns !! j = Some s -> <[i := s1]> ns !! j = Some s' ->
  (i = j -> generation s <= generation s1 \/ P) -> generation s <= generation s' \/ P.
Proof.
  intros Hs Hs' Hi. apply lookup_insert_Some in Hs' as [[-> <-]|[_ Hs']]; [by apply Hi|].
  left. simplify_eq. done.
Qed.


(** *** Settling *)

(** The fields a blob carries that adopting it does not copy. *)
Definition same_tables (s s0 : NetworkState) : Prop :=
  network_name s = network_name s0 /\ reusable_keys s = reusable_keys s0 /\ invites s = invites s0
  /\ nuke_consensus_threshold s = nuke_consensus_threshold s0 /\ subnet s = subnet s0.

Lemma adopt_state_blob s s0 :
  roster_wf (members s0) -> approved_wf (approved s0) -> same_tables s s0 ->
  let s' := adopt s (state_blob s0) (gb_members (state_blob s0)) in
  generation s' = generation s0 /\ members s' = members s0 /\ approved s' = approved s0
  /\ nuke_proposals s' = nuke_proposals s0 /\ state_bytes s' = state_bytes s0
  /\ snapshot s' = Some (mkSnapshot (blake3_hash (state_bytes s0)) (state_bytes s0)).
Proof.
  intros Hm Ha (En & Ek & Ei & Et & Es) s'.
  assert (members s' = members s0) as Em by (apply from_members_all; [done|apply sort_by_perm]).
  assert (approved s' = approved s0) as Eap by (apply from_entries_all; [done|apply sort_by_perm]).
  assert (state_bytes s' = state_bytes s0) as Eb.
  { unfold state_bytes, blob_subnet. rewrite Em, Eap. cbn. by rewrite En, Ek, Ei, Et, Es. }
  do 4 (split; [done|]). split; [done|]. change (snapshot s') with
    (Some (mkSnapshot (blake3_hash (state_bytes s')) (state_bytes s'))). by rewrite Eb.
Qed.


(** *** Where it does not *)

Lemma guard_increases s d connected me r r0 :
  network_publisher_round s d connected me = Some r -> d = Some r0 -> rec_generation r0 < rec_generation r.
Proof.
  unfold network_publisher_round, dht_read_before_write. intros Hr ->.
  destruct (Z.compare_spec (generation s) (rec_generation r0)); [by destruct (bool_decide _)|done|].
  injection Hr as <-. done.
Qed.

(** Reading the record before writing it does not order writes.  Whenever two
    coordinators are both ahead of the record, there is a run in which the newer
    state is published first and then replaced by the older one. *)
Theorem publish_race_downgrades (w : World) (a b : EndpointId) (sa sb : NetworkState) (r0 : NetworkRecord) :
  nodes w !! a = Some sa -> nodes w !! b = Some sb -> a <> b -> dht w = Some r0 ->
  rec_generation r0 < generation sa -> generation sa < generation sb ->
  exists w1 w2 r1 r2, rtc step w w1 /\ rtc step w1 w2
    /\ dht w1 = Some r1 /\ rec_generation r1 = generation sb
    /\ dht w2 = Some r2 /\ rec_generation r2 = generation sa.
Proof.
  intros Ha Hb Hne Hd H1' H2'.
  assert (forall i s, generation s > rec_generation r0 ->
    network_publisher_round s (dht w) [] i = Some (record_of s [] i)) as Hguard.
  { intros i s Hs. unfold network_publisher_round, dht_read_before_write. rewrite Hd.
    by rewrite (proj2 (Z.compare_gt_iff _ _)) by lia. }
  set (ra := record_of sa [] a). set (rb := record_of sb [] b).
  set (w' := mkWorld (nodes w) (<[b := rb]> (<[a := ra]> (pending w))) (polling w) (converging w) (dht w)).
  exists (mkWorld (nodes w) (delete b (pending w')) (polling w) (converging w) (Some rb)).
  exists (mkWorld (nodes w) (delete a (delete b (pending w'))) (polling w) (converging w) (Some ra)), rb, ra.
  split; [|split; [|done]].
  - eapply rtc_l; [eapply (step_guard w a sa []); [done|by apply Hguard; lia]|].
    eapply rtc_l; [eapply (step_guard _ b sb []); [done|by apply Hguard; lia]|].
    eapply rtc_l; [apply (step_write w' b rb), lookup_insert_eq|]. apply rtc_refl.
  - eapply rtc_l; [apply (step_write (mkWorld (nodes w) (delete b (pending w')) (polling w) (converging w) (Some rb)) a ra)|apply rtc_refl].
    cbn. rewrite lookup_delete_ne by done. rewrite lookup_insert_ne by done. apply lookup_insert_eq.
Qed.

(** A poll overwrites what the node did meanwhile.  A poll that begins on a tie
    looks at the node's generation only then: whatever the node changes on its own
    while the blob is being fetched, there is a run in which the poll's end puts
    it back to the record's roster and generation. *)
Theorem poll_overwrites_local_change (w : World) (i : EndpointId) (s s1 : NetworkState) (r : NetworkRecord)
  (connected : list EndpointId) (serve : Serve) (data : GroupBlob) :
  let changed := bump_generation_and_refresh s1 in
  let back := adopt changed data (gb_members data) in
  world_ok w -> nodes w !! i = Some s -> dht w = Some r -> polling w !! i = None ->
  rec_generation r = generation s -> snap_hash <$> snapshot s <> Some (rec_hash r) ->
  generation s1 = generation s -> generation s + 1 < 2 ^ 64 -> typed changed -> typed back ->
  serves_known serve -> obtain_blob r connected serve = Some data ->
  member_removed (gb_members data) (gb_approved data) i = false ->
  exists w1 w2, rtc step w w1 /\ nodes w1 !! i = Some changed /\ rtc step w1 w2 /\ nodes w2 !! i = Some back
    /\ members back = MemberListM.from_members (gb_members data) /\ generation back < generation changed.
Proof.
  intros changed back (Hn & _ & _ & _ & Hd) Hi Hr Hq Hg Hh Hg1 Hlt Htc Htb Hserve Ho Hm.
  set (w1 := mkWorld (<[i := changed]> (nodes w)) (pending w) (<[i := (generation s, r)]> (polling w))
    (converging w) (dht w)).
  exists w1, (mkWorld (<[i := back]> (nodes w1)) (pending w1) (delete i (polling w1)) (converging w1) (dht w1)).
  split_and!; [|apply lookup_insert_eq| |apply lookup_insert_eq|done|].
  - eapply rtc_l; [apply (step_poll w i s r); try done|].
    + unfold poller_should_fetch. rewrite Hg, Z.ltb_irrefl, Z.eqb_refl, bool_decide_eq_false_2; [done|congruence].
    + eapply rtc_l; [|apply rtc_refl]. exact (step_mutate (mkWorld (nodes w) (pending w) (<[i := (generation s, r)]> (polling w))
        (converging w) (dht w)) i s s1 Hi Hg1 Hlt Htc).
  - eapply rtc_l; [|apply rtc_refl].
    apply (step_poll_adopt w1 i changed (generation s) r connected serve data back (gb_members data) (gb_approved data));
      try done; [apply lookup_insert_eq..|]. unfold poll_finish. by rewrite Hm.
  - destruct (obtain_blob_record r connected serve data) as (_ & _ & _ & _ & E); [by apply Hd|done..|].
    destruct (Hn i s Hi) as (s0 & ((Hgen & _) & _) & Hg0 & _). cbn in Hgen. unfold in_width in Hgen.
    unfold back, changed. cbn. rewrite E, Hg1, wrap_small by (unfold in_width; lia). lia.
Qed.

(** A tie loses a change.  A coordinator whose generation equals the record's but
    whose content differs does not publish, and its next poll replaces its roster
    by the record's: a member only it had admitted is gone. *)
Theorem tie_loses_local_change (s : NetworkState) (me id : EndpointId) (r : NetworkRecord)
  (connected : list EndpointId) (serve : Serve) (data : GroupBlob) :
  rec_generation r = generation s -> snap_hash <$> snapshot s <> Some (rec_hash r) ->
  obtain_blob r connected serve = Some data ->
  member_removed (gb_members data) (gb_approved data) me = false ->
  is_Some (members s !! id) -> Forall (fun m => m_identity m <> id) (gb_members data) ->
  network_publisher_round s (Some r) connected me = None
  /\ exists s' ms aps, poll s me (Some r) connected serve = Adopted s' ms aps /\ members s' !! id = None.
Proof.
  intros Hg Hh Ho Hr Hid Hms. split.
  - unfold network_publisher_round, dht_read_before_write. rewrite Hg, Z.compare_refl. by case_bool_decide.
  - unfold poll, poller_should_fetch. rewrite Hg, Z.ltb_irrefl, Z.eqb_refl, bool_decide_eq_false_2 by congruence.
    cbn [negb orb andb]. unfold poll_finish. rewrite Ho, Hr. eexists _, _, _. split; [done|]. cbn.
    destruct (MemberListM.from_members (gb_members data) !! id) as [m|] eqn:E; [|done]. exfalso.
    destruct (from_members_elem _ _ _ E) as [Hin <-]. rewrite Forall_forall in Hms. by apply (Hms m).
Qed.
End Convergence.


(** ** Concrete runs *)
Import Demo DemoBlob.

(** The rival state, changed once more. *)
Definition sample_busy : NetworkState := bump_generation_and_refresh sample_rival.
Definition sample_known (b : list Z) : Prop :=
  b ∈ [state_bytes sample_old; state_bytes sample_new; tombstone_bytes 2;
       state_bytes sample_rival; state_bytes sample_busy; tombstone_bytes 3].

Lemma sample_known_injective a b :
  sample_known a -> sample_known b -> blake3_hash a = blake3_hash b -> a = b.
Proof.
  intros Ha Hb E. eapply (NoDup_fmap_elem_inj blake3_hash); [|exact Ha|exact Hb|exact E]. by_decide.
Qed.

Lemma sample_new_typed : typed sample_known sample_new.
Proof. by_decide. Qed.
Lemma sample_rival_typed : typed sample_known sample_rival.
Proof. by_decide. Qed.
Lemma sample_busy_typed : typed sample_known sample_busy.
Proof. by_decide. Qed.

Lemma sample_rival_ok : state_ok sample_known sample_rival.
Proof.
  exact (refresh_ok sample_known (sample_raw 2 (MemberListM.from_members
    [member_at (mkId 3) (derive_ip (mkId 3) default_subnet) 0;
     member_at (mkId 5) (derive_ip (mkId 5) default_subnet) 0])) sample_rival_typed).
Qed.

Lemma record_for (known : list Z -> Prop) s seeds :
  typed known s -> record_ok known (mkRecord (blake3_hash (state_bytes s)) (generation s) seeds).
Proof. intros Ht. by exists s. Qed.

Lemma sample_record_ok : record_ok sample_known sample_record.
Proof. exact (record_for sample_known sample_new [mkId 3] sample_new_typed). Qed.

Lemma one_node_ok (known : list Z -> Prop) i s r :
  state_ok known s -> record_ok known r -> world_ok known (mkWorld {[ i := s ]} ∅ ∅ [] (Some r)).
Proof.
  intros Hs Hr. split_and!; cbn; [|apply map_Forall_empty|apply map_Forall_empty|done|by intros r' [= <-]].
  intros j t Hj. apply lookup_singleton_Some in Hj as [_ <-]. done.
Qed.

(** A coordinator in a tie with the record. *)
Definition sample_world : World := mkWorld {[ mkId 3 := sample_rival ]} ∅ ∅ [] (Some sample_record).
Lemma sample_world_ok : world_ok sample_known sample_world.
Proof. exact (one_node_ok sample_known (mkId 3) sample_rival sample_record sample_rival_ok sample_record_ok). Qed.


Lemma serves_known_const (known : list Z -> Prop) bytes :
  known bytes -> serves_known known (fun _ _ => (Some bytes, 1)).
Proof. intros Hk pid h b dt [= <- _]. done. Qed.

Lemma sample_serves_known : serves_known sample_known sample_serve.
Proof. apply serves_known_const. right. left. Qed.

Lemma same_tables_bump s s0 : same_tables s s0 -> same_tables s (bump_generation_and_refresh s0).
Proof. done. Qed.

Lemma sample_same_tables g ms g' ms' : same_tables (sample_state g ms) (sample_state g' ms').
Proof. repeat split. Qed.

Definition is_adopted (p : Pass) : bool := match p with Adopted _ _ _ => true | _ => false end.

Lemma is_adopted_inv (p : Pass) : is_adopted p = true -> exists s ms aps, p = Adopted s ms aps.
Proof. destruct p; naive_solver. Qed.


Lemma publish_race_downgrades_witness :
  exists w1 w2 r1 r2,
    dht w1 = Some r1 /\ rec_generation r1 = 2 /\ rtc (step sample_known) w1 w2
    /\ dht w2 = Some r2 /\ rec_generation r2 = 1.
Proof.
  destruct (publish_race_downgrades sample_known
    (mkWorld {[ mkId 3 := sample_old; mkId 4 := sample_new ]} ∅ ∅ [] (Some (mkRecord [] 0 [])))
    (mkId 3) (mkId 4) sample_old sample_new (mkRecord [] 0 []))
    as (w1 & w2 & r1 & r2 & _ & Hr & E1 & G1 & E2 & G2).
  - reflexivity.
  - reflexivity.
  - by_decide.
  - reflexivity.
  - by_decide.
  - by_decide.
  - exists w1, w2, r1, r2. split; [exact E1|]. split; [exact G1|]. split; [exact Hr|]. split; [exact E2|exact G2].
Defined.

Lemma is_Some_bool_fun {A} (o : option A) (f : A -> bool) :
  match o with Some a => f a | None => true end = true -> forall a, o = Some a -> f a = true.
Proof. intros Ho a ->. exact Ho. Qed.

Lemma sample_listed :
  match obtain_blob sample_record [] sample_serve with
  | Some d => member_removed (gb_members d) (gb_approved d) (mkId 3) = false | None => False end.
Proof. vm_compute. reflexivity. Qed.

Lemma sample_busy_back data :
  obtain_blob sample_record [] sample_serve = Some data -> typed sample_known (adopt sample_busy data (gb_members data)).
Proof.
  intros E. apply (bool_decide_eq_true _). revert E. generalize dependent data.
  apply (is_Some_bool_fun (obtain_blob sample_record [] sample_serve)
    (fun data => bool_decide (typed sample_known (adopt sample_busy data (gb_members data))))).
  vm_compute. reflexivity.
Qed.

Lemma tie_loses_local_change_witness :
  is_Some (members sample_rival !! mkId 5)
  /\ exists s' ms aps, poll sample_rival (mkId 3) (Some sample_record) [] sample_serve = Adopted s' ms aps
       /\ members s' !! mkId 5 = None.
Proof.
  split; [by_decide|].
  destruct (is_Some_bool (obtain_blob sample_record [] sample_serve)) as [data E]; [vm_compute; reflexivity|].
  destruct (tie_loses_local_change sample_rival (mkId 3) (mkId 5) sample_record [] sample_serve data) as [_ H].
  - reflexivity.
  - by_decide.
  - exact E.
  - pose proof sample_listed as Hl. rewrite E in Hl. exact Hl.
  - by_decide.
  - assert (match obtain_blob sample_record [] sample_serve with
            | Some d => Forall (fun m => m_identity m <> mkId 5) (gb_members d) | None => False end) as Hf
      by (vm_compute; repeat constructor; discriminate).
    rewrite E in Hf. exact Hf.
  - exact H.
Defined.


Lemma poll_overwrites_local_change_witness :
  generation sample_busy = 3
  /\ exists w1 w2, rtc (step sample_known) sample_world w1 /\ nodes w1 !! mkId 3 = Some sample_busy
       /\ rtc (step sample_known) w1 w2
       /\ exists back, nodes w2 !! mkId 3 = Some back /\ generation back < generation sample_busy.
Proof.
  split; [vm_compute; reflexivity|].
  destruct (is_Some_bool (obtain_blob sample_record [] sample_serve)) as [data E]; [vm_compute; reflexivity|].
  destruct (poll_overwrites_local_change sample_known sample_known_injective sample_world (mkId 3) sample_rival
    sample_rival sample_record [] sample_serve data) as (w1 & w2 & H1 & H2 & H3 & H4 & _ & H5).
  - exact sample_world_ok.
  - reflexivity.
  - reflexivity.
  - reflexivity.
  - reflexivity.
  - by_decide.
  - reflexivity.
  - by_decide.
  - exact sample_busy_typed.
  - exact (sample_busy_back data E).
  - apply sample_serves_known.
  - exact E.
  - pose proof sample_listed as Hl. rewrite E in Hl. exact Hl.
  - exists w1, w2. split; [exact H1|]. split; [exact H2|]. split; [exact H3|]. eexists. split; [exact H4|exact H5].
Defined.
