(* ===== verification/Admission.v ===== *)
(** * Accepting connections (src/src/daemon/mesh/accept.rs)

    How a coordinator lets a joiner in: the credential is redeemed, an address and a
    name are chosen from the roster, the member is seated, the network is told, and
    the connection is registered.  And how a plain member takes a connection from a
    peer its roster knows.

    A handler runs to the end without another one in between, except where the
    text says so: [validate_admission] and [admit_commit] are the two halves of an admission,
    each under one lock, with nothing held from one to the other. *)

From S2P Require Import Prelude Externs Addressing Names Codecs Invite Members Control Blob Peers Select Network.

Section Admission.
Context `{IrohKeys, Blake3, GroupBlobCodec} {Conn : Type}.

(** What the handlers of one network share: the network's state, its links, the
    bytes put into the blob store, the messages sent, and how often the publisher
    was woken. *)
Record Acceptor := mkAcceptor {
  ac_state : NetworkState;
  ac_links : Links (Conn := Conn);
  ac_store : list (list Z);
  ac_sent : list (Conn * ControlMsg);
  ac_pulses : Z;
}.

Definition with_state (a : Acceptor) (s : NetworkState) : Acceptor :=
  mkAcceptor s (ac_links a) (ac_store a) (ac_sent a) (ac_pulses a).
Definition with_table (a : Acceptor) (t : PeerTable Conn) : Acceptor :=
  mkAcceptor (ac_state a) (mkLinks t (pruned_peers (ac_links a)) (closed (ac_links a)))
    (ac_store a) (ac_sent a) (ac_pulses a).
Definition send (a : Acceptor) (conn : Conn) (msg : ControlMsg) : Acceptor :=
  mkAcceptor (ac_state a) (ac_links a) (ac_store a) (ac_sent a ++ [(conn, msg)])%list (ac_pulses a).

(** [notify_one], on a node that has a publisher task. *)
Context (network_name : string) (network_key : EndpointId) (has_publisher : bool).
Definition pulse (a : Acceptor) : Acceptor :=
  mkAcceptor (ac_state a) (ac_links a) (ac_store a) (ac_sent a)
    (if has_publisher then ac_pulses a + 1 else ac_pulses a).

(** [add_slice] of the current snapshot. *)
Definition store_snapshot (a : Acceptor) : Acceptor :=
  match snapshot (ac_state a) with
  | Some sn => mkAcceptor (ac_state a) (ac_links a) (snap_bytes sn :: ac_store a) (ac_sent a) (ac_pulses a)
  | None => a
  end.

Definition broadcast_control_msg (a : Acceptor) (msg : ControlMsg) : Acceptor :=
  fold_left (fun a ic => send a ic.2 msg) (all_connections (table (ac_links a))) a.

Definition broadcast_member_sync (a : Acceptor) (exclude_ip : option Ipv4Addr) : Acceptor :=
  fold_left (fun a ic => if bool_decide (Some ic.1 = exclude_ip) then a else send a ic.2 MemberSync)
    (all_connections (table (ac_links a))) a.

Definition add_route (a : Acceptor) (ip : Ipv4Addr) (conn : Conn) (id : EndpointId) : Acceptor :=
  with_table a (add (table (ac_links a)) ip (derive_ipv6 id network_key) conn id network_name).

(** ** Refusals *)
Inductive Denial :=
| HostnameInUse (name : string)
| Ipv4Taken (ip : Ipv4Addr)
| Ipv6Taken (ip : Ipv6Addr)
| InviteRejected
| InviteRequired.

Definition denial_text (d : Denial) : string :=
  match d with
  | HostnameInUse name => "hostname '" +:+ name +:+ "' is already in use on this network"
  | Ipv4Taken ip => "IP collision: " +:+ ipv4_to_string ip +:+ " already assigned"
  | Ipv6Taken ip => "IPv6 collision: " +:+ ipv6_to_string ip +:+ " already assigned"
  | InviteRejected => "invite rejected"
  | InviteRequired => "a valid invite key is required to join"
  end.

Definition deny (a : Acceptor) (conn : Conn) (d : Denial) : Acceptor :=
  send a conn (JoinDenied (denial_text d)).

(** ** The coordinator's side *)

Definition ipv4_held_by_other (s : NetworkState) (remote_id : EndpointId) (ip : Ipv4Addr) : bool :=
  match MemberListM.get_by_ip (members s) ip with
  | Some existing => negb (bool_decide (m_identity existing = remote_id))
  | None =>
      match ApprovedListM.get_by_ip (approved s) ip with
      | Some existing => negb (bool_decide (a_identity existing = remote_id))
      | None => false
      end
  end.

Definition ipv6_held_by_other (s : NetworkState) (remote_id : EndpointId) : bool :=
  let candidate := derive_ipv6 remote_id network_key in
  existsb (fun m => negb (bool_decide (m_identity m = remote_id))
                    && bool_decide (derive_ipv6 (m_identity m) network_key = candidate))
    (MemberListM.all (members s))
  || existsb (fun e => negb (bool_decide (a_identity e = remote_id))
                       && bool_decide (derive_ipv6 (a_identity e) network_key = candidate))
       (ApprovedListM.all (approved s)).

(** [None]: the search for an address or a name does not return. *)
Definition validate_admission (s : NetworkState) (remote_id : EndpointId) (hostname : option string)
  (authoritative : bool) : option (Result (Ipv4Addr * Z * option string) Denial) :=
  '(peer_ip, collision_index) ← assign_ip (members s) remote_id (subnet s);
  final ← match hostname with
          | Some desired =>
              r ← admission_hostname desired (taken_hostnames s remote_id) authoritative;
              Some (match r with Ok name => Ok (Some name) | Err conflict => Err (HostnameInUse conflict) end)
          | None => Some (Ok None)
          end;
  Some (final_hostname <-? final;
        if ipv4_held_by_other s remote_id peer_ip then Err (Ipv4Taken peer_ip)
        else if ipv6_held_by_other s remote_id then Err (Ipv6Taken (derive_ipv6 remote_id network_key))
        else Ok (peer_ip, collision_index, final_hostname)).

Definition admitted_member (remote_id : EndpointId) (plan : Ipv4Addr * Z * option string)
  (veilid_node_id : option string) (now : Z) : Member :=
  let '(peer_ip, collision_index, final_hostname) := plan in
  mkMember remote_id peer_ip false final_hostname collision_index (Some now) veilid_node_id.

(** Everything after the plan.  The error of [members.add] is discarded. *)
Definition admit_commit (a : Acceptor) (conn : Conn) (remote_id : EndpointId)
  (plan : Ipv4Addr * Z * option string) (veilid_node_id : option string) (now : Z) : Acceptor :=
  let '(peer_ip, _, final_hostname) := plan in
  let s := ac_state a in
  let s1 := bump_generation_and_refresh
              (set_roster s (MemberListM.add_ignore (members s) (admitted_member remote_id plan veilid_node_id now))
                 (approved s)) in
  let a := store_snapshot (with_state a s1) in
  let a := broadcast_control_msg a (MemberApproved remote_id peer_ip final_hostname veilid_node_id) in
  let a := send a conn (Welcome (roster s1) (approved_snapshot s1)) in
  let a := broadcast_member_sync (pulse a) (Some peer_ip) in
  add_route a peer_ip conn remote_id.

(** The peer is told it is in ([true]) or why not. *)
Definition admit_peer (a : Acceptor) (conn : Conn) (remote_id : EndpointId) (hostname veilid_node_id : option string)
  (authoritative : bool) (now : Z) : option (Acceptor * bool) :=
  match validate_admission (ac_state a) remote_id hostname authoritative with
  | None => None
  | Some (Err reason) => Some (deny a conn reason, false)
  | Some (Ok plan) => Some (admit_commit a conn remote_id plan veilid_node_id now, true)
  end.

Definition set_invites_bumped (a : Acceptor) (iv : gmap string InviteEntry) : Acceptor :=
  with_state a (bump_generation_and_refresh (set_invites (ac_state a) iv)).

(** [later] is the time at which a refused invite is put back. *)
Definition redeem_invite_and_admit (a : Acceptor) (conn : Conn) (remote_id : EndpointId)
  (hostname veilid_node_id : option string) (secret : list Z) (now later : Z) : option Acceptor :=
  match consume_invite (invites (ac_state a)) secret now with
  | (iv, Some entry) =>
      match admit_peer (pulse (set_invites_bumped a iv)) conn remote_id hostname veilid_node_id false now with
      | None => None
      | Some (a, true) => Some a
      | Some (a, false) =>
          match restore_invite (invites (ac_state a)) secret entry later with
          | (iv, true) => Some (pulse (set_invites_bumped a iv))
          | (_, false) => Some a
          end
      end
  | (_, None) =>
      match validate_reusable_key (reusable_keys (ac_state a)) secret now with
      | Some _ => fst <$> admit_peer a conn remote_id hostname veilid_node_id false now
      | None => Some (deny a conn InviteRejected)
      end
  end.

Definition handle_known_member_reconnect (a : Acceptor) (conn : Conn) (remote_id : EndpointId) (peer_ip : Ipv4Addr)
  : Acceptor :=
  send (add_route a peer_ip conn remote_id) conn MemberSync.

(** [msg] is the first message of the peer, if one arrives in time. *)
Definition coordinator_handle_connection (a : Acceptor) (conn : Conn) (remote_id : EndpointId)
  (msg : option ControlMsg) (now later : Z) : option Acceptor :=
  match m_ip <$> MemberListM.get (members (ac_state a)) remote_id with
  | Some peer_ip => Some (handle_known_member_reconnect a conn remote_id peer_ip)
  | None =>
      match msg with
      | Some (JoinRequest (Some secret) hostname veilid_node_id) =>
          redeem_invite_and_admit a conn remote_id hostname veilid_node_id secret now later
      | Some (JoinRequest None _ _) | Some (MeshHello _ _ _ _) => Some (deny a conn InviteRequired)
      | _ => Some a
      end
  end.

(** ** A member's side *)

Definition admit_approved_member (a : Acceptor) (conn : Conn) (peer_identity : EndpointId)
  (final_hostname veilid_node_id : option string) (now : Z) : Acceptor :=
  let s := ac_state a in
  let approved_entry := approved s !! peer_identity in
  let s0 := set_roster s (members s) (ApprovedListM.remove (approved s) peer_identity) in
  match resolve_hello_ip (MemberListM.get (members s) peer_identity) approved_entry with
  | None => with_state a s0
  | Some member_ip =>
      let s1 :=
        match MemberListM.is_member (members s0) peer_identity, approved_entry with
        | false, Some e =>
            bump_generation_and_refresh
              (set_roster s0 (MemberListM.add_ignore (members s0)
                 (mkMember peer_identity (a_ip e) false final_hostname (a_collision_index e) (Some now) veilid_node_id))
                 (approved s0))
        | _, _ => s0
        end in
      let a := store_snapshot (with_state a s1) in
      let a := send a conn (Welcome (roster s1) (approved_snapshot s1)) in
      broadcast_member_sync (add_route a member_ip conn peer_identity) (Some member_ip)
  end.

Definition update_member_names (hostname veilid_node_id : option string) (m : Member) : Member :=
  mkMember (m_identity m) (m_ip m) (m_is_coordinator m)
    (match hostname with Some _ => hostname | None => m_hostname m end) (m_collision_index m) (m_last_seen m)
    (match veilid_node_id with Some _ => veilid_node_id | None => m_veilid_node_id m end).

(** [None]: the search for a name does not return. *)
Definition member_handle_connection (a : Acceptor) (conn : Conn) (transport_id : EndpointId)
  (msg : option ControlMsg) (now : Z) : option Acceptor :=
  match msg with
  | Some (MeshHello peer_identity _ hostname veilid_node_id) =>
      if negb (bool_decide (peer_identity = transport_id)) then Some a
      else
        let s := ac_state a in
        match resolve_hello_ip (MemberListM.get (members s) peer_identity) (approved s !! peer_identity) with
        | None => Some a
        | Some roster_ip =>
            final_hostname ← match hostname with
                             | Some desired => Some <$> resolve_collision desired (taken_hostnames s peer_identity)
                             | None => Some None
                             end;
            if ApprovedListM.is_approved (approved s) peer_identity
            then Some (admit_approved_member a conn peer_identity final_hostname veilid_node_id now)
            else if MemberListM.is_member (members s) peer_identity then
              let ms := if bool_decide (is_Some final_hostname) || bool_decide (is_Some veilid_node_id)
                        then alter (update_member_names final_hostname veilid_node_id) peer_identity (members s)
                        else members s in
              Some (add_route (with_state a (set_roster s ms (approved s))) roster_ip conn peer_identity)
            else Some a
        end
  | _ => Some a
  end.
End Admission.
Arguments Acceptor : clear implicits.

(** ** What the steps keep *)
Section AdmissionProofs.
Context `{IrohKeys, Blake3, GroupBlobCodec} {Conn : Type}.
Context (network_name : string) (network_key : EndpointId) (has_publisher : bool).
Implicit Types (a : Acceptor Conn) (conn : Conn) (id : EndpointId).

(** Sending changes nothing but what was sent, which only grows. *)
Definition only_sent (a a' : Acceptor Conn) : Prop :=
  ac_state a' = ac_state a /\ ac_links a' = ac_links a /\ ac_store a' = ac_store a
  /\ ac_pulses a' = ac_pulses a /\ exists l, ac_sent a' = (ac_sent a ++ l)%list.

Lemma only_sent_refl a : only_sent a a.
Proof. split_and!; try done. exists []. by rewrite app_nil_r. Qed.

Lemma only_sent_send a conn msg : only_sent a (send a conn msg).
Proof. split_and!; try done. by eexists. Qed.

Lemma only_sent_trans a b c : only_sent a b -> only_sent b c -> only_sent a c.
Proof.
  intros (E1 & E2 & E3 & E4 & l & El) (F1 & F2 & F3 & F4 & k & Ek).
  split_and!; try congruence. exists (l ++ k)%list. rewrite Ek, El. by rewrite app_assoc.
Qed.

Lemma only_sent_fold {A} (f : Acceptor Conn -> A -> Acceptor Conn) l a :
  (forall a x, only_sent a (f a x)) -> only_sent a (fold_left f l a).
Proof.
  intros Hf. revert a. induction l as [|x l IH]; intros a; cbn; [apply only_sent_refl|].
  eapply only_sent_trans; [apply Hf|apply IH].
Qed.

Lemma broadcast_control_msg_sent a msg : only_sent a (broadcast_control_msg a msg).
Proof. apply only_sent_fold. intros. apply only_sent_send. Qed.

Lemma broadcast_member_sync_sent a ex : only_sent a (broadcast_member_sync a ex).
Proof. apply only_sent_fold. intros b x. destruct (bool_decide _); [apply only_sent_refl|apply only_sent_send]. Qed.

(** The effect of the second half of an admission. *)
Lemma admit_commit_spec a conn id plan veilid now :
  let s := ac_state a in
  let m := admitted_member id plan veilid now in
  let s1 := bump_generation_and_refresh (set_roster s (MemberListM.add_ignore (members s) m) (approved s)) in
  let a' := admit_commit network_name network_key has_publisher a conn id plan veilid now in
  ac_state a' = s1 /\ ac_store a' = state_bytes s1 :: ac_store a
  /\ (conn, Welcome (roster s1) (approved_snapshot s1)) ∈ ac_sent a'
  /\ (exists l, ac_sent a' = (ac_sent a ++ l)%list)
  /\ ac_links a' = mkLinks (add (table (ac_links a)) plan.1.1 (derive_ipv6 id network_key) conn id network_name)
                     (pruned_peers (ac_links a)) (closed (ac_links a))
  /\ ac_pulses a' = (if has_publisher then ac_pulses a + 1 else ac_pulses a).
Proof.
  destruct plan as [[ip idx] host]. intros s m s1 a'. unfold a', admit_commit. fold s m s1. cbn [fst].
  set (a1 := store_snapshot (with_state a s1)).
  set (a2 := broadcast_control_msg a1 _). set (a3 := send a2 conn _). set (a4 := pulse has_publisher a3).
  set (a5 := broadcast_member_sync a4 _).
  destruct (broadcast_control_msg_sent a1 (MemberApproved id ip host veilid)) as (E1 & E2 & E3 & E4 & l1 & E5).
  fold a2 in E1, E2, E3, E4, E5.
  destruct (broadcast_member_sync_sent a4 (Some ip)) as (F1 & F2 & F3 & F4 & l2 & F5). fold a5 in F1, F2, F3, F4, F5.
  unfold add_route, with_table. cbn [ac_state ac_store ac_sent ac_links ac_pulses].
  rewrite F1, F2, F3, F4, F5. cbn [a4 pulse a3 send ac_state ac_store ac_sent ac_links ac_pulses].
  rewrite E1, E2, E3, E4, E5. split_and!; try done.
  - rewrite !elem_of_app. left. right. by left.
  - exists (l1 ++ [(conn, Welcome (roster s1) (approved_snapshot s1))] ++ l2)%list. cbn. by rewrite <- !app_assoc.
Qed.

(** What a plan promises of the roster it was made for. *)
Lemma validate_admission_ok s id hostname authoritative ip idx host :
  roster_wf (members s) ->
  validate_admission network_key s id hostname authoritative = Some (Ok (ip, idx, host)) ->
  assign_ip (members s) id (subnet s) = Some (ip, idx)
  /\ ip_free_for (members s) id ip
  /\ (forall e, e ∈ ApprovedListM.all (approved s) -> derive_ipv6 (a_identity e) network_key = derive_ipv6 id network_key ->
        a_identity e = id)
  /\ (forall m, m ∈ MemberListM.all (members s) -> derive_ipv6 (m_identity m) network_key = derive_ipv6 id network_key ->
        m_identity m = id)
  /\ (forall h, host = Some h -> h ∉ taken_hostnames s id)
  /\ (host = None <-> hostname = None).
Proof.
  intros Hwf. unfold validate_admission.
  pose proof (assign_ip_spec (members s) id (subnet s) Hwf) as Hip.
  destruct (assign_ip (members s) id (subnet s)) as [[ip' idx']|]; [|done]. cbn [mbind option_bind].
  destruct Hip as (_ & _ & Hfree & _).
  intros Hv. apply bind_Some in Hv as (final & Hf & Hv). injection Hv as Hv.
  apply rbind_ok in Hv as (host' & -> & Hv).
  destruct (ipv4_held_by_other s id ip'); [done|].
  destruct (ipv6_held_by_other network_key s id) eqn:E6; [done|]. injection Hv as -> -> ->.
  unfold ipv6_held_by_other in E6. apply orb_false_iff in E6 as [E6 E6'].
  split; [done|]. split; [done|]. split_and!.
  - intros e He Hd. destruct (decide (a_identity e = id)) as [|Hne]; [done|]. exfalso.
    apply not_true_iff_false in E6'. apply E6'. apply existsb_exists. exists e. split; [by apply list_elem_of_In|].
    by rewrite bool_decide_eq_false_2, bool_decide_eq_true_2.
  - intros m Hm Hd. destruct (decide (m_identity m = id)) as [|Hne]; [done|]. exfalso.
    apply not_true_iff_false in E6. apply E6. apply existsb_exists. exists m. split; [by apply list_elem_of_In|].
    by rewrite bool_decide_eq_false_2, bool_decide_eq_true_2.
  - intros h ->. destruct hostname as [desired|]; [|by injection Hf].
    apply bind_Some in Hf as (r & Hr & Hf). destruct r as [name|]; [|done]. injection Hf as ->.
    by eapply admission_hostname_free.
  - destruct hostname as [desired|]; [|injection Hf as <-; done].
    apply bind_Some in Hf as (r & Hr & Hf). destruct r as [name|]; [|done]. by injection Hf as <-.
Qed.

(** A member has been seated on the roster [ms]: no one else has its addresses or its
    name, it was sent the new roster, its connection serves its addresses, and the
    bytes that describe the new state are in the blob store. *)
Definition seated (ms : MemberList) (sub : Subnet) (a' : Acceptor Conn) (conn : Conn) (m : Member) : Prop :=
  let s' := ac_state a' in
  members s' = <[m_identity m := m]> ms /\ roster_wf (members s')
  /\ m_ip m = derive_ip_with_index (m_identity m) (m_collision_index m) sub
  /\ (forall m', m' ∈ MemberListM.all ms -> m_identity m' <> m_identity m ->
        m_ip m' <> m_ip m
        /\ derive_ipv6 (m_identity m') network_key <> derive_ipv6 (m_identity m) network_key
        /\ (is_Some (m_hostname m) -> m_hostname m' <> m_hostname m))
  /\ (conn, Welcome (roster s') (approved_snapshot s')) ∈ ac_sent a'
  /\ link4 (table (ac_links a')) (m_ip m) network_name = Some conn
  /\ link6 (table (ac_links a')) (derive_ipv6 (m_identity m) network_key) network_name = Some conn
  /\ snapshot s' = Some (mkSnapshot (blake3_hash (state_bytes s')) (state_bytes s'))
  /\ state_bytes s' ∈ ac_store a'.

Lemma add_links (t : PeerTable Conn) ip ip6 conn id :
  link4 (add t ip ip6 conn id network_name) ip network_name = Some conn
  /\ link6 (add t ip ip6 conn id network_name) ip6 network_name = Some conn.
Proof. split; (etrans; [apply (upsert_link (fun _ => 0))|by rewrite decide_True]). Qed.

Lemma taken_hostnames_elem s id m h :
  m ∈ MemberListM.all (members s) -> m_identity m <> id -> m_hostname m = Some h -> h ∈ taken_hostnames s id.
Proof.
  intros Hm Hne Hh. unfold taken_hostnames. apply list_elem_of_omap. exists m. split; [|done].
  apply list_elem_of_In, filter_In. split; [by apply list_elem_of_In|]. by rewrite bool_decide_eq_false_2.
Qed.

Lemma admit_peer_outcome a conn id hostname veilid authoritative now a' admitted :
  let s := ac_state a in
  roster_wf (members s) ->
  admit_peer network_name network_key has_publisher a conn id hostname veilid authoritative now = Some (a', admitted) ->
  if admitted then exists m, seated (members s) (subnet s) a' conn m
                     /\ m_identity m = id /\ m_is_coordinator m = false
                     /\ m_veilid_node_id m = veilid /\ (m_hostname m = None <-> hostname = None)
                     /\ invites (ac_state a') = invites s
  else exists d, a' = deny a conn d.
Proof.
  intros s Hwf. unfold admit_peer.
  destruct (validate_admission _ _ _ _ _) as [[[[ip idx] host]|d]|] eqn:Ev; [|intros [= <- <-]; by exists d|done].
  intros E'%(inj Some). apply pair_eq in E' as [<- <-].
  apply validate_admission_ok in Ev as (Ea & Hfree & _ & H6 & Hn & Hnone); [|done].
  pose proof (assign_ip_spec (members s) id (subnet s) Hwf) as Hs. unfold s in Hs. rewrite Ea in Hs.
  destruct Hs as (_ & Eip & _ & _). set (m := admitted_member id (ip, idx, host) veilid now).
  pose proof (add_ignore_free (members s) m Hfree Hwf) as Eadd.
  destruct (admit_commit_spec a conn id (ip, idx, host) veilid now) as (E1 & E2 & E3 & _ & E5 & _).
  cbv zeta in E1, E2, E3, E5. fold s m in E1, E2, E3. rewrite Eadd in E1, E2, E3. cbn [fst] in E5.
  set (a' := admit_commit _ _ _ _ _ _ _ _ _) in *.
  destruct (add_links (table (ac_links a)) ip (derive_ipv6 id network_key) conn id) as [L4 L6].
  exists m. unfold seated. cbv zeta. rewrite E1, E2, E5. cbn [table]. split_and!; try done.
  - by apply (roster_wf_insert (members s) m).
  - intros m' Hm' Hne. split_and!.
    + intros Hip. apply Hne. apply elem_of_all in Hm' as [k Hk]. rewrite (proj1 Hwf _ _ Hk). by apply (Hfree k m').
    + intros H6'. by apply Hne, H6.
    + intros [h Hh] Heq. rewrite Hh in Heq. by apply (Hn h), (taken_hostnames_elem _ _ m').
  - left.
Qed.

(** What a joiner must hold: an invite that is neither revoked nor expired, or a
    reusable key of that kind. *)
Definition valid_credential (s : NetworkState) (secret : list Z) (now : Z) : Prop :=
  is_Some (validate_invite (invites s) secret now) \/ is_Some (validate_reusable_key (reusable_keys s) secret now).

Definition refused (a a' : Acceptor Conn) (conn : Conn) (secret : list Z) (now later : Z) : Prop :=
  members (ac_state a') = members (ac_state a) /\ ac_links a' = ac_links a /\ ac_store a' = ac_store a
  /\ (exists d, ac_sent a' = ac_sent a ++ [(conn, JoinDenied (denial_text d))])%list
  /\ (invites (ac_state a') = invites (ac_state a)
      \/ exists e, validate_invite (invites (ac_state a)) secret now = Some e /\ 0 < ie_expires e <= later
           /\ invites (ac_state a') = delete (secret_hash secret) (invites (ac_state a))).

Lemma redeem_outcome a conn id hostname veilid secret now later a' :
  roster_wf (members (ac_state a)) ->
  redeem_invite_and_admit network_name network_key has_publisher a conn id hostname veilid secret now later = Some a' ->
  (exists m, valid_credential (ac_state a) secret now
     /\ seated (members (ac_state a)) (subnet (ac_state a)) a' conn m /\ m_identity m = id /\ m_is_coordinator m = false
     /\ invites (ac_state a') = (consume_invite (invites (ac_state a)) secret now).1)
  \/ refused a a' conn secret now later.
Proof.
  intros Hwf. unfold redeem_invite_and_admit, valid_credential.
  destruct (consume_invite_cases (invites (ac_state a)) secret now) as [[Hv Hc]|(e & Hv & He & Hc)];
    pose proof Hc as Hc'; rewrite Hc.
  - destruct (validate_reusable_key _ _ _) as [rk|] eqn:Er.
    + intros ([a1 adm] & Ha & ->)%fmap_Some. apply admit_peer_outcome in Ha; [|done]. destruct adm.
      * left. destruct Ha as (m & Hs & ? & ? & _ & _ & ?). exists m. eauto 6.
      * right. destruct Ha as [d ->]. split_and!; try done; [by exists d|by left].
    + intros [= <-]. right. split_and!; try done; [by eexists|by left].
  - set (a0 := pulse has_publisher (set_invites_bumped a _)).
    destruct (admit_peer _ _ _ a0 _ _ _ _ _ _) as [[a1 adm]|] eqn:Ha; [|done].
    apply admit_peer_outcome in Ha; [|done]. destruct adm.
    + intros [= <-]. left. destruct Ha as (m & Hs & ? & ? & _ & _ & ?). exists m. eauto 6.
    + destruct Ha as [d ->]. intros Hr. right. revert Hr. cbn [ac_state deny send].
      change (invites (ac_state a0)) with (delete (secret_hash secret) (invites (ac_state a))).
      rewrite (restore_consumed _ _ _ _ later _ Hc').
      destruct (_ && _) eqn:Ex; intros [= <-]; split_and!; try done; [by exists d| |by exists d|by left].
      right. exists e. split; [done|]. split; [lia|done].
Qed.

Lemma validate_admission_returns s id hostname authoritative :
  roster_wf (members s) -> Z.of_nat (size (members s)) < 2 ^ 32 ->
  (exists j, is_u32 j /\ ip_free_for (members s) id (derive_ip_with_index id j (subnet s))) ->
  is_Some (validate_admission network_key s id hostname authoritative).
Proof.
  intros Hwf Hsize (j & Hj & Hfree). unfold validate_admission.
  pose proof (assign_ip_spec (members s) id (subnet s) Hwf) as Hs.
  destruct (assign_ip _ _ _) as [[ip idx]|]; [|by destruct (Hs j)]. cbn.
  destruct hostname as [desired|]; [|eauto].
  destruct (admission_hostname_returns desired (taken_hostnames s id) authoritative) as [r ->]; [|eauto].
  eapply Z.le_lt_trans; [|exact Hsize]. apply inj_le. unfold taken_hostnames.
  etrans; [apply length_omap_le|]. etrans; [apply filter_length_le|].
  unfold MemberListM.all. by rewrite length_fmap, length_map_to_list.
Qed.


(** Nothing but a refusal to the stranger itself. *)
Definition no_effect (a a' : Acceptor Conn) (conn : Conn) : Prop :=
  ac_state a' = ac_state a /\ ac_links a' = ac_links a /\ ac_store a' = ac_store a /\ ac_pulses a' = ac_pulses a
  /\ (ac_sent a' = ac_sent a \/ exists d, ac_sent a' = ac_sent a ++ [(conn, JoinDenied (denial_text d))])%list.

Lemma deny_no_effect a conn d : exists a', Some (deny a conn d) = Some a' /\ no_effect a a' conn.
Proof. eexists. split; [done|]. split_and!; try done. right. by exists d. Qed.

(** C21: A stranger that presents no credential which is good now gets nothing: whatever
    its first message is, the coordinator's state, links and blob store stay as they
    are, the publisher is not woken, and at most one refusal is sent, to it. *)
Theorem no_credential_no_effect a conn id msg now later :
  members (ac_state a) !! id = None ->
  (forall secret hostname veilid, msg = Some (JoinRequest (Some secret) hostname veilid) ->
     ~ valid_credential (ac_state a) secret now) ->
  exists a', coordinator_handle_connection network_name network_key has_publisher a conn id msg now later = Some a'
  /\ no_effect a a' conn.
Proof.
  intros Hnew Hcred. unfold coordinator_handle_connection, MemberListM.get. rewrite Hnew. cbn [fmap option_fmap option_map].
  destruct msg as [[]|]; try apply deny_no_effect; try (eexists; split; [done|]; by split_and!; try left).
  destruct invite_secret as [secret|]; [|apply deny_no_effect].
  specialize (Hcred _ _ _ eq_refl). unfold valid_credential in Hcred. unfold redeem_invite_and_admit.
  destruct (consume_invite_cases (invites (ac_state a)) secret now) as [[Hv ->]|(e & Hv & He & ->)].
  - destruct (validate_reusable_key _ _ _) as [rk|]; [destruct Hcred; right; eauto|apply deny_no_effect].
  - destruct Hcred. left. eauto.
Qed.

(** Two joiners whose admissions overlap.  Both plans are made on the same roster, so
    both can name the same address; then the second is told it is welcome and its
    connection takes the address over, but it is not on the roster. *)
Theorem racing_admissions a conn1 conn2 id1 id2 host1 host2 ip idx1 idx2 fin1 fin2 veilid1 veilid2 now1 now2 :
  let s := ac_state a in
  roster_wf (members s) -> id1 <> id2 -> members s !! id2 = None ->
  validate_admission network_key s id1 host1 false = Some (Ok (ip, idx1, fin1)) ->
  validate_admission network_key s id2 host2 false = Some (Ok (ip, idx2, fin2)) ->
  let commit := admit_commit network_name network_key has_publisher in
  let a' := commit (commit a conn1 id1 (ip, idx1, fin1) veilid1 now1) conn2 id2 (ip, idx2, fin2) veilid2 now2 in
  let s' := ac_state a' in
  (m_ip <$> members s' !! id1) = Some ip /\ members s' !! id2 = None
  /\ (conn2, Welcome (roster s') (approved_snapshot s')) ∈ ac_sent a'
  /\ link4 (table (ac_links a')) ip network_name = Some conn2.
Proof.
  intros s Hwf Hne Hnew Hv1 Hv2 commit. unfold commit.
  set (a1 := admit_commit _ _ _ a _ _ _ _ _).
  apply validate_admission_ok in Hv1 as (_ & Hfree & _); [|done].
  destruct (admit_commit_spec a conn1 id1 (ip, idx1, fin1) veilid1 now1) as (E1 & _). fold a1 s in E1. cbv zeta in E1.
  set (m1 := admitted_member id1 (ip, idx1, fin1) veilid1 now1) in *.
  set (m2 := admitted_member id2 (ip, idx2, fin2) veilid2 now2).
  assert (members (ac_state a1) = <[id1 := m1]> (members s)) as Em.
  { rewrite E1. exact (add_ignore_free (members s) m1 Hfree Hwf). }
  assert (roster_wf (members (ac_state a1))) as Hwf1 by (rewrite Em; by apply (roster_wf_insert (members s) m1)).
  destruct (admit_commit_spec a1 conn2 id2 (ip, idx2, fin2) veilid2 now2) as (F1 & _ & F3 & _ & F5 & _).
  set (a2 := admit_commit _ _ _ a1 _ _ _ _ _) in *. cbv zeta in F1, F3, F5. fold m2 in F1, F3. rewrite <- F1 in F3.
  assert (members (ac_state a2) = <[id1 := m1]> (members s)) as ->.
  { rewrite F1, <- Em. apply (add_ignore_taken (members (ac_state a1)) m2 id1 m1 Hwf1); [|done..].
    rewrite Em. apply lookup_insert_eq. }
  rewrite lookup_insert_eq, lookup_insert_ne by done. rewrite F5. split_and!; try done. cbn [table fst].
  apply (add_links (table (ac_links a1)) ip (derive_ipv6 id2 network_key) conn2 id2).
Qed.

(** ** The member's side *)
Lemma add_links_other (t : PeerTable Conn) ip ip6 conn id ip' net' :
  ip' <> ip \/ net' <> network_name ->
  link4 (add t ip ip6 conn id network_name) ip' net' = link4 t ip' net'.
Proof. intros Hne. etrans; [apply (upsert_link (fun _ => 0))|]. by rewrite decide_False by tauto. Qed.

(** The route of [conn] and nothing else has been added. *)
Definition routed (a a' : Acceptor Conn) (conn : Conn) (ip : Ipv4Addr) : Prop :=
  link4 (table (ac_links a')) ip network_name = Some conn
  /\ forall ip' net', ip' <> ip \/ net' <> network_name ->
       link4 (table (ac_links a')) ip' net' = link4 (table (ac_links a)) ip' net'.

Lemma add_route_routed a b ip conn id : ac_links b = ac_links a -> routed a (add_route network_name network_key b ip conn id) conn ip.
Proof. intros Hl. split; [apply add_links|]. intros ip' net' Hne. cbn. rewrite Hl. by apply add_links_other. Qed.

Lemma admit_approved_member_outcome a conn id host veilid now ip :
  roster_wf (members (ac_state a)) ->
  resolve_hello_ip (members (ac_state a) !! id) (approved (ac_state a) !! id) = Some ip ->
  let a' := admit_approved_member network_name network_key a conn id host veilid now in
  roster_wf (members (ac_state a')) /\ routed a a' conn ip
  /\ dom (members (ac_state a')) ⊆ {[id]} ∪ dom (members (ac_state a)).
Proof.
  intros Hwf Hip. unfold admit_approved_member, MemberListM.get. rewrite Hip. cbv zeta.
  set (s0 := set_roster (ac_state a) _ _). match goal with |- context [with_state a ?x] => set (s1 := x) end.
  set (b := send (store_snapshot (with_state a s1)) conn _).
  destruct (broadcast_member_sync_sent (add_route network_name network_key b ip conn id) (Some ip))
    as (-> & Er & _). unfold routed. rewrite Er. cbn [ac_state add_route with_table].
  assert (ac_state b = s1 /\ ac_links b = ac_links a) as [-> Hl].
  { unfold b, store_snapshot. destruct (snapshot _); done. }
  assert (roster_wf (members s1) /\ dom (members s1) ⊆ {[id]} ∪ dom (members (ac_state a))) as [Hwf1 Hdom].
  { unfold s1. destruct (MemberListM.is_member _ _), (approved _ !! id) as [e|]; try (split; [exact Hwf|set_solver]).
    split; [by apply roster_wf_add_ignore|]. cbn. unfold MemberListM.add_ignore.
    destruct (add_cases (members (ac_state a)) (mkMember id (a_ip e) false host (a_collision_index e) (Some now) veilid) Hwf)
      as [[_ ->]|(? & _ & _ & _ & ->)]; [rewrite dom_insert_L|]; set_solver. }
  split; [done|]. split; [by apply add_route_routed|done].
Qed.

(** C38: A member serves a connection only under the address its own roster, or its list
    of approved peers, has for the identity that the transport proved.  What the peer
    claims, be it another identity or another address, opens nothing: the route goes to
    the recorded address, no other route changes, and the roster stays without
    duplicate addresses and gains no one but the peer itself. *)
Theorem member_hello_bound_to_roster a conn transport_id id ip hostname veilid now a' :
  let s := ac_state a in
  let hello ip := member_handle_connection network_name network_key a conn transport_id
                    (Some (MeshHello id ip hostname veilid)) now in
  roster_wf (members s) -> hello ip = Some a' ->
  (forall ip', hello ip' = hello ip)
  /\ roster_wf (members (ac_state a'))
  /\ (a' = a
      \/ id = transport_id /\ dom (members (ac_state a')) ⊆ {[id]} ∪ dom (members s)
         /\ exists rip, resolve_hello_ip (members s !! id) (approved s !! id) = Some rip /\ routed a a' conn rip).
Proof.
  intros s hello Hwf. unfold hello, member_handle_connection, MemberListM.get. fold s.
  destruct (negb _) eqn:Et; [intros [= <-]; eauto|].
  apply negb_false_iff, bool_decide_eq_true_1 in Et as <-.
  destruct (resolve_hello_ip _ _) as [rip|] eqn:Er; [|intros [= <-]; eauto].
  intros (host & _ & Ha)%bind_Some. split; [done|]. revert Ha.
  destruct (ApprovedListM.is_approved _ _).
  { intros [= <-]. destruct (admit_approved_member_outcome a conn id host veilid now rip) as (? & ? & ?); eauto 8. }
  destruct (MemberListM.is_member _ _); [|intros [= <-]; eauto].
  intros Ha%(inj Some). subst a'. cbn [ac_state add_route with_table with_state].
  match goal with |- context [set_roster s ?x _] => set (ms := x) end.
  assert (roster_wf ms /\ dom ms = dom (members s)) as [Hwf' Hdom].
  { unfold ms. destruct (_ || _); [|done]. split; [by apply roster_wf_alter|apply dom_alter_L]. }
  split; [done|]. right. split; [done|]. cbn [members set_roster]. split; [rewrite Hdom; clear; set_solver|].
  exists rip. split; [done|]. by apply add_route_routed.
Qed.
End AdmissionProofs.

(** ** Concrete runs *)
Import Demo DemoBlob.

(** A coordinator with members 3 and 4 and one open invite, and the same with an
    approved peer 7 that holds the address 5 would get. *)
Definition sample_invited : NetworkState := refresh_snapshot (set_invites (sample_raw 1 sample_roster) sample_invites).
Definition sample_acceptor (s : NetworkState) : Acceptor Z :=
  mkAcceptor s (mkLinks table_new ∅ []) [state_bytes s] [] 0.
Definition sample_blocked : NetworkState :=
  refresh_snapshot (set_roster sample_invited (members sample_invited)
    {[mkId 7 := mkApproved (mkId 7) (derive_ip (mkId 5) default_subnet) None 0]}).
Definition sample_join (s : NetworkState) (id : EndpointId) (msg : option ControlMsg) : option (Acceptor Z) :=
  coordinator_handle_connection "home" (mkId 9) true (sample_acceptor s) 500 id msg 1100 1200.
Definition sample_request : option ControlMsg := Some (JoinRequest (Some sample_secret) (Some "nas") None).

Lemma sample_roster_wf : roster_wf sample_roster.
Proof. apply roster_wf_from_members. Qed.

Lemma sample_free (id : EndpointId) j :
  bool_decide (map_Forall (fun id' m => m_ip m = derive_ip_with_index id j default_subnet -> id' = id) sample_roster) = true ->
  ip_free_for sample_roster id (derive_ip_with_index id j default_subnet).
Proof. intros H%bool_decide_eq_true_1 id' m. exact (H id' m). Qed.

Definition is_seated (id : EndpointId) (r : option (Acceptor Z)) : bool :=
  match r with Some a' => bool_decide (is_Some (members (ac_state a') !! id)) | None => false end.

Lemma is_seated_inv id r : is_seated id r = true -> exists a', r = Some a' /\ is_Some (members (ac_state a') !! id).
Proof. destruct r as [a'|]; [|done]. cbn. intros H%bool_decide_eq_true_1. eauto. Qed.


Lemma no_credential_no_effect_witness :
  exists a', sample_join sample_invited (mkId 5) (Some (JoinRequest (Some [1; 2; 3]) (Some "nas") None)) = Some a'
  /\ no_effect (sample_acceptor sample_invited) a' 500.
Proof.
  apply (no_credential_no_effect "home" (mkId 9) true (sample_acceptor sample_invited) 500 (mkId 5)).
  - vm_compute; reflexivity.
  - intros secret hostname veilid [= <- _ _].
    assert (bool_decide (is_Some (validate_invite sample_invites [1; 2; 3] 1100)) = false) as E by (vm_compute; reflexivity).
    apply bool_decide_eq_false_1 in E. intros [Hv|Hv]; [by apply E|]. revert Hv. by intros [? [=]].
Defined.

(** 13 and 72 hash to the same address. *)
Lemma racing_admissions_witness :
  let ip := derive_ip (mkId 13) default_subnet in
  let commit := admit_commit "home" (mkId 9) true in
  let a' := commit (commit (sample_acceptor sample_invited) 500 (mkId 13) (ip, 0, None) None 1100)
              600 (mkId 72) (ip, 0, None) None 1101 in
  members (ac_state a') !! mkId 72 = None /\ link4 (table (ac_links a')) ip "home" = Some 600.
Proof.
  destruct (racing_admissions "home" (mkId 9) true (sample_acceptor sample_invited) 500 600 (mkId 13) (mkId 72) None None
    (derive_ip (mkId 13) default_subnet) 0 0 None None None None 1100 1101) as (_ & Hn & _ & Hl).
  - exact sample_roster_wf.
  - by_decide.
  - vm_compute; reflexivity.
  - vm_compute; reflexivity.
  - vm_compute; reflexivity.
  - exact (conj Hn Hl).
Defined.

Definition sample_hello (ip : Ipv4Addr) : option (Acceptor Z) :=
  member_handle_connection "home" (mkId 9) (sample_acceptor sample_invited) 500 (mkId 4)
    (Some (MeshHello (mkId 4) ip (Some "pi") None)) 1100.

Lemma member_hello_bound_to_roster_witness :
  exists a', sample_hello 1 = Some a' /\ sample_hello 2 = Some a' /\ roster_wf (members (ac_state a')).
Proof.
  destruct (is_Some_bool (sample_hello 1)) as [a' Ha]; [vm_compute; reflexivity|].
  destruct (member_hello_bound_to_roster "home" (mkId 9) (sample_acceptor sample_invited) 500 (mkId 4) (mkId 4) 1
    (Some "pi") None 1100 a') as (Hip & Hwf & _).
  - exact sample_roster_wf.
  - exact Ha.
  - exists a'. split; [exact Ha|]. split; [|exact Hwf]. rewrite <- Ha. exact (Hip 2).
Defined.

(** A join that is refused after its invite was taken and given back leaves the
    coordinator announcing a blob no one can fetch: the generation has moved, the
    publisher is woken and writes a record for the new snapshot, and the bytes of that
    snapshot were never put into the blob store. *)
Theorem refused_join_announces_missing_blob :
  exists a' r,
    sample_join sample_blocked (mkId 5) sample_request = Some a'
    /\ members (ac_state a') = members sample_blocked /\ invites (ac_state a') = invites sample_blocked
    /\ network_publisher_round (ac_state a') (Some (record_of sample_blocked [] (mkId 3))) [] (mkId 3) = Some r
    /\ 0 < ac_pulses a' /\ Forall (fun bytes => blake3_hash bytes <> rec_hash r) (ac_store a').
Proof.
  destruct (some_such_that (fun a' => bool_decide (members (ac_state a') = members sample_blocked)
    && bool_decide (invites (ac_state a') = invites sample_blocked) && (0 <? ac_pulses a')
    && some_such (fun r => bool_decide (Forall (fun bytes => blake3_hash bytes <> rec_hash r) (ac_store a')))
         (network_publisher_round (ac_state a') (Some (record_of sample_blocked [] (mkId 3))) [] (mkId 3)))
    (sample_join sample_blocked (mkId 5) sample_request)) as (a' & Ha & Hb); [vm_compute; reflexivity|].
  rewrite !andb_true_iff in Hb. destruct Hb as [[[Hm Hi] Hp] Hr].
  apply some_such_that in Hr as (r & Hr & Hf). exists a', r.
  exact (conj Ha (conj (bool_decide_eq_true_1 _ Hm) (conj (bool_decide_eq_true_1 _ Hi)
    (conj Hr (conj (proj1 (Z.ltb_lt _ _) Hp) (bool_decide_eq_true_1 _ Hf)))))).
Qed.
