(* ===== verification/Coordinator.v ===== *)
(** * The coordinator's background work (src/src/daemon/mesh/coordinator.rs)

    What a coordinator does when a connection ends (it stamps or removes the member and
    perhaps dials it again), one attempt of the task that dials again, the control
    messages it takes from a member it is connected to, and the removal of members. *)

From S2P Require Import Prelude Externs Addressing Peers Forward Ratelimit Members Control Blob Select Network Settings Admission.

Definition from_secs (s : Z) : Z := s * 10 ^ 9.
Definition BACKOFF_INITIAL : Z := from_secs 1.
Definition BACKOFF_MAX : Z := from_secs 30.
Definition BACKOFF_COLD_THRESHOLD : Z := 10.
Definition BACKOFF_COLD_MAX_SECS : Z := 600.
Definition BACKOFF_FROZEN_THRESHOLD : Z := 154.
Definition BACKOFF_FROZEN_MAX_SECS : Z := 86400.

Section Coordinator.
Context `{IrohKeys, Blake3, GroupBlobCodec} {Conn : Type} (stable_id : Conn -> Z).
Context (network_name : string) (network_key : EndpointId) (has_publisher : bool).
Implicit Types a : Acceptor Conn.

(** [update_snapshot_and_publish], on everything a handler shares. *)
Definition republish a : Acceptor Conn :=
  pulse has_publisher (store_snapshot (with_state a (bump_generation_and_refresh (ac_state a)))).

Definition with_members a (ms : MemberList) : Acceptor Conn :=
  with_state a (set_roster (ac_state a) ms (approved (ac_state a))).

Definition stamp_last_seen (now : Z) (m : Member) : Member :=
  mkMember (m_identity m) (m_ip m) (m_is_coordinator m) (m_hostname m) (m_collision_index m) (Some now)
    (m_veilid_node_id m).

(** ** A connection ended *)

(** The routes without the dead connection, unless another one has taken its place. *)
Definition drop_dead (t : PeerTable Conn) (ev : DisconnectEvent) : PeerTable Conn * bool :=
  match de_conn_stable_id ev with
  | Some id => remove_peer_from_network_if stable_id t (de_ip ev) (de_ipv6 ev) (de_network ev) id
  | None => (remove_peer_from_network t (de_ip ev) (de_ipv6 ev) (de_network ev), true)
  end.

Definition unmark_pruned a (id : EndpointId) : Acceptor Conn :=
  mkAcceptor (ac_state a)
    (mkLinks (table (ac_links a)) (pruned_peers (ac_links a) ∖ {[(network_name, id)]}) (closed (ac_links a)))
    (ac_store a) (ac_sent a) (ac_pulses a).

(** One event of the cleanup task of a coordinator, and whether it dials the member
    again.  A member that is no coordinator only drops the route. *)
Definition peer_cleanup a (ev : DisconnectEvent) (now : Z) : Acceptor Conn * bool :=
  let '(t, removed) := drop_dead (table (ac_links a)) ev in
  if negb removed then (a, false)
  else
    let a := with_table a t in
    let member_id := de_endpoint_id ev in
    let ms := members (ac_state a) in
    let '(a, changed) :=
      if prunes_member (de_reason ev) then (with_members a (MemberListM.remove ms member_id), true)
      else match MemberListM.get ms member_id with
           | Some _ => (with_members a (alter (stamp_last_seen now) member_id ms), true)
           | None => (a, false)
           end in
    let a := if changed then broadcast_member_sync (republish a) None else a in
    let was_pruned_locally := bool_decide ((network_name, member_id) ∈ pruned_peers (ac_links a)) in
    (unmark_pruned a member_id,
     match reconnect_decision removed (prunes_member (de_reason ev)) was_pruned_locally with
     | Reconnect => true
     | _ => false
     end).

Definition peer_cleanup_member a (ev : DisconnectEvent) : Acceptor Conn :=
  with_table a (drop_dead (table (ac_links a)) ev).1.

(** ** Dialling again *)
Record RetryLimits := mkRetryLimits {
  cold_threshold : Z;
  frozen_threshold : Z;
  warm_max : Z;
  cold_max : Z;
  frozen_max : Z;
}.

(** What the settings make of them, times in nanoseconds. *)
Definition retry_limits (cfg : AppConfig) : RetryLimits :=
  mkRetryLimits (default BACKOFF_COLD_THRESHOLD (rc_threshold (cfg_reconnect_cold cfg)))
    (default BACKOFF_FROZEN_THRESHOLD (rf_threshold (cfg_reconnect_frozen cfg)))
    BACKOFF_MAX
    (from_secs (default BACKOFF_COLD_MAX_SECS (rc_backoff_secs (cfg_reconnect_cold cfg))))
    (from_secs (default BACKOFF_FROZEN_MAX_SECS (rf_backoff_secs (cfg_reconnect_frozen cfg)))).

(** How a task that dials again starts: the streak of short-lived connections to the
    peer, kept from one task to the next, gives the first delay and counts as failed
    attempts. *)
Definition dial_retry_start (health : gmap (string * EndpointId) Z) (limits : RetryLimits) (peer_id : EndpointId)
  (event_uptime : option Z) (min_uptime backoff_initial : Z) : gmap (string * EndpointId) Z * Z * Z :=
  let key := (network_name, peer_id) in
  let '(_, new_streak, start_backoff) :=
    reconnect_storm_decision event_uptime (default 0 (health !! key)) min_uptime backoff_initial
      (cold_threshold limits) (frozen_threshold limits) (warm_max limits) (cold_max limits) (frozen_max limits) in
  (if new_streak =? 0 then delete key health else <[key := new_streak]> health, start_backoff, new_streak).

Inductive Attempt :=
| StopPeerGone                            (* not on the roster any more, or pruned here *)
| StopConnected                           (* the peer dialled in meanwhile *)
| StopDialled                             (* connected, greeted and registered *)
| TryAgain (backoff failed_attempts : Z).

(** One attempt, after the sleep.  [in_flight]: another task is dialling the peer.
    [dial]: the connection, if the peer was reached and took the greeting. *)
Definition dial_retry_attempt a (limits : RetryLimits) (peer_id : EndpointId) (stored_ip : Ipv4Addr)
  (backoff failed_attempts : Z) (in_flight : bool) (dial : option Conn) : outcome (Acceptor Conn * Attempt) :=
  backoff' <-! next_backoff backoff
                 (backoff_cap failed_attempts (cold_threshold limits) (frozen_threshold limits) (warm_max limits)
                    (cold_max limits) (frozen_max limits));
  let m := MemberListM.get (members (ac_state a)) peer_id in
  let peer_ip := reconnect_route_ip m stored_ip in
  let was_pruned := bool_decide ((network_name, peer_id) ∈ pruned_peers (ac_links a)) in
  let a := unmark_pruned a peer_id in
  match dial_retry_decision (bool_decide (is_Some m)) was_pruned with
  | AbandonPeerGone => Ret (a, StopPeerGone)
  | KeepDialing =>
      if existsb (fun p => bool_decide (p.1.1 = peer_id)) (peers_for_network_with_conn (table (ac_links a)) network_name)
      then Ret (a, StopConnected)
      else if in_flight then Ret (a, TryAgain backoff' failed_attempts)
      else match dial with
           | None => Ret (a, TryAgain backoff' (wrap 32 (failed_attempts + 1)))
           | Some conn => Ret (add_route network_name network_key a peer_ip conn peer_id, StopDialled)
           end
  end.

(** The task up to its end, or as long as [dials] says what happens to its attempts;
    with the delays it slept. *)
Fixpoint dial_retry_run a (limits : RetryLimits) (peer_id : EndpointId) (stored_ip : Ipv4Addr)
  (backoff failed_attempts : Z) (dials : list (bool * option Conn)) : outcome (Acceptor Conn * Attempt * list Z) :=
  match dials with
  | [] => Ret (a, TryAgain backoff failed_attempts, [])
  | (in_flight, dial) :: rest =>
      r <-! dial_retry_attempt a limits peer_id stored_ip backoff failed_attempts in_flight dial;
      match r with
      | (a, TryAgain backoff' failed') =>
          r <-! dial_retry_run a limits peer_id stored_ip backoff' failed' rest;
          Ret (r.1, backoff :: r.2)
      | (a, stop) => Ret (a, stop, [backoff])
      end
  end.

(** ** Control messages of a connected member *)
Definition apply_reconnect_veilid_node_id a (peer_id : EndpointId) (new_node_id : string) : Acceptor Conn :=
  let ms := members (ac_state a) in
  match MemberListM.get ms peer_id with
  | Some m =>
      if bool_decide (m_veilid_node_id m = Some new_node_id) then a
      else republish (with_members a (alter (fun m => mkMember (m_identity m) (m_ip m) (m_is_coordinator m) (m_hostname m)
                                                     (m_collision_index m) (m_last_seen m) (Some new_node_id)) peer_id ms))
  | None => a
  end.

(** One message and the verdict of the gates on it, and whether the reader goes on. *)
Definition control_reader_step a (conn : Conn) (remote_id : EndpointId) (msg : ControlMsg) (v : Verdict)
  : Acceptor Conn * bool :=
  match v with
  | Close =>
      (mkAcceptor (ac_state a) (mkLinks (table (ac_links a)) (pruned_peers (ac_links a)) (closed (ac_links a) ++ [conn]))
         (ac_store a) (ac_sent a) (ac_pulses a), false)
  | Drop => (a, true)
  | Allow =>
      (match msg with
       | Ping nonce => send a conn (Pong nonce)
       | MeshHello _ _ _ (Some node_id) => apply_reconnect_veilid_node_id a remote_id node_id
       | _ => a
       end, true)
  end.

(** ** Removing members *)
Definition remove_member_roster_only a (member_id : EndpointId) : Acceptor Conn :=
  let s := ac_state a in
  with_state a (set_roster s (MemberListM.remove (members s) member_id) (ApprovedListM.remove (approved s) member_id)).

Definition sever_one (victims : list EndpointId) a (p : EndpointId * Ipv4Addr * Conn) : Acceptor Conn :=
  let '(pid, ip, conn) := p in
  if bool_decide (pid ∈ victims) then
    let l := ac_links a in
    mkAcceptor (ac_state a)
      (mkLinks (remove_peer_from_network (table l) ip (derive_ipv6 pid network_key) network_name) (pruned_peers l)
         (closed l ++ [conn])) (ac_store a) (ac_sent a) (ac_pulses a)
  else a.

Definition finalize_removal a (victims : list EndpointId) : Acceptor Conn :=
  let a := broadcast_member_sync (republish a) None in
  fold_left (sever_one victims) (peers_for_network_with_conn (table (ac_links a)) network_name) a.

End Coordinator.

(** ** Removal *)
Section CoordinatorProofs.
Context `{IrohKeys, Blake3, GroupBlobCodec} {Conn : Type} (stable_id : Conn -> Z).
Context (network_name : string) (network_key : EndpointId) (has_publisher : bool).
Implicit Types a : Acceptor Conn.

Lemma republish_spec a :
  let s' := bump_generation_and_refresh (ac_state a) in
  let a' := republish has_publisher a in
  ac_state a' = s' /\ ac_links a' = ac_links a /\ ac_store a' = state_bytes s' :: ac_store a /\ ac_sent a' = ac_sent a.
Proof. done. Qed.

(** Everyone in the list is sent the hint. *)
Lemma broadcast_member_sync_elem a ip (c : Conn) :
  (ip, c) ∈ all_connections (table (ac_links a)) -> (c, MemberSync) ∈ ac_sent (broadcast_member_sync a None).
Proof.
  unfold broadcast_member_sync. generalize (all_connections (table (ac_links a))) as l. intros l.
  assert (forall (l : list (Ipv4Addr * Conn)) b x, x ∈ ac_sent b -> x ∈ ac_sent (fold_left (fun a (ic : Ipv4Addr * Conn) =>
    if bool_decide (Some ic.1 = None) then a else send a ic.2 MemberSync) l b)) as Hkeep.
  { clear. intros l. induction l as [|ic l IH]; intros b x Hx; cbn [fold_left]; [done|]. apply IH.
    rewrite bool_decide_eq_false_2 by done. cbn. rewrite elem_of_app. by left. }
  revert a. induction l as [|ic l IH]; intros a; [by intros ?%not_elem_of_nil|].
  cbn [fold_left]. rewrite elem_of_cons. intros [<-|Hin]; [|by apply IH].
  apply Hkeep. rewrite bool_decide_eq_false_2 by done. cbn. rewrite elem_of_app. right. by left.
Qed.

Lemma sever_fold victims (ps : list (EndpointId * Ipv4Addr * Conn)) a :
  let sel (p : EndpointId * Ipv4Addr * Conn) := bool_decide (p.1.1 ∈ victims) in
  let a' := fold_left (sever_one network_name network_key victims) ps a in
  ac_state a' = ac_state a /\ ac_store a' = ac_store a /\ ac_sent a' = ac_sent a /\ ac_pulses a' = ac_pulses a
  /\ pruned_peers (ac_links a') = pruned_peers (ac_links a)
  /\ closed (ac_links a') = (closed (ac_links a) ++ (snd <$> List.filter sel ps))%list
  /\ table (ac_links a') = fold_left (fun t p => if sel p then
       remove_peer_from_network t p.1.2 (derive_ipv6 p.1.1 network_key) network_name else t) ps (table (ac_links a)).
Proof.
  intros sel. revert a. induction ps as [|[[pid ip] c] ps IH]; intros a.
  - cbn. rewrite app_nil_r. done.
  - cbn [fold_left List.filter]. destruct (IH (sever_one network_name network_key victims a (pid, ip, c)))
      as (-> & -> & -> & -> & -> & -> & ->).
    unfold sel, sever_one. cbn [fst snd]. destruct (bool_decide (pid ∈ victims)); [|done].
    cbn. rewrite <- app_assoc. done.
Qed.

(** The connections of one peer in this network. *)
Lemma victim_elem (t : PeerTable Conn) v p :
  p ∈ List.filter (fun p => bool_decide (p.1.1 ∈ [v])) (peers_for_network_with_conn t network_name) <->
  exists ip e, v4 t !! ip = Some e /\ pe_conns e !! network_name = Some p.2 /\ p = (v, ip, p.2) /\ pe_endpoint_id e = v.
Proof.
  rewrite list_elem_of_In, filter_In, <- list_elem_of_In, peers_with_conn_elem, bool_decide_eq_true, list_elem_of_singleton.
  split.
  - intros [(ip & e & He & Hc & Hp) Hv]. rewrite Hp in Hv. cbn in Hv. exists ip, e. rewrite Hp. cbn. by subst v.
  - intros (ip & e & He & Hc & Hp & Hv). split; [exists ip, e; by rewrite Hv|]. by rewrite Hp.
Qed.

(** Removing one member: it is off both lists, the new state is ready to be published,
    everyone is told, and exactly its connections are closed and unrouted. *)
Lemma removal_spec a v :
  let t := table (ac_links a) in
  let a' := finalize_removal network_name network_key has_publisher (remove_member_roster_only a v) [v] in
  let s' := ac_state a' in
  members s' = delete v (members (ac_state a)) /\ approved s' = delete v (approved (ac_state a))
  /\ invites s' = invites (ac_state a)
  /\ snapshot s' = Some (mkSnapshot (blake3_hash (state_bytes s')) (state_bytes s'))
  /\ ac_store a' = state_bytes s' :: ac_store a
  /\ (forall ip c, (ip, c) ∈ all_connections t -> (c, MemberSync) ∈ ac_sent a')
  /\ (forall c, c ∈ closed (ac_links a') <-> c ∈ closed (ac_links a) \/ exists ip e,
        v4 t !! ip = Some e /\ pe_conns e !! network_name = Some c /\ pe_endpoint_id e = v)
  /\ (forall ip net c, link4 (table (ac_links a')) ip net = Some c <-> exists e,
        v4 t !! ip = Some e /\ pe_conns e !! net = Some c /\ ~ (net = network_name /\ pe_endpoint_id e = v)).
Proof.
  intros t a'. unfold a', finalize_removal. set (b0 := remove_member_roster_only a v).
  set (b1 := broadcast_member_sync (republish has_publisher b0) None).
  destruct (broadcast_member_sync_sent (republish has_publisher b0) None) as (E1 & E2 & E3 & E4 & _). fold b1 in E1, E2, E3, E4.
  destruct (sever_fold [v] (peers_for_network_with_conn (table (ac_links b1)) network_name) b1)
    as (F1 & F2 & F3 & _ & _ & F6 & F7).
  set (a2 := fold_left _ _ b1) in *. assert (table (ac_links b1) = t) as Et by (by rewrite E2).
  cbv zeta. rewrite F1, F2, F3, F6, F7, E1, E3, Et. split_and!; try done.
  - intros ip c Hc. by apply (broadcast_member_sync_elem _ ip).
  - intros c. rewrite elem_of_app, E2, list_elem_of_fmap. apply or_iff_compat_l. split.
    + intros (p & -> & (ip & e & He & Hc & _ & Hv)%victim_elem). by exists ip, e.
    + intros (ip & e & He & Hc & Hv). exists (v, ip, c). split; [done|]. apply victim_elem. by exists ip, e.
  - intros ip net c. rewrite (fold_remove_link4 _ (fun id => derive_ipv6 id network_key)). unfold link4. split.
    + intros [Hl Hn]. destruct (v4 t !! ip) as [e|] eqn:He; [|done]. cbn in Hl. exists e. split_and!; [done..|].
      intros [-> Hv]. apply Hn. split; [done|]. exists (v, ip, c). split; [|done]. apply victim_elem. by exists ip, e.
    + intros (e & He & Hc & Hn). rewrite He. split; [done|].
      intros (-> & p & (ip' & e' & He' & _ & Hp & Hv)%victim_elem & Eip). apply Hn. split; [done|].
      rewrite Hp in Eip. cbn in Eip. subst ip'. by simplify_eq.
Qed.

(** ** Disconnects *)

Lemma peer_cleanup_redial a ev now t :
  drop_dead stable_id (table (ac_links a)) ev = (t, true) ->
  (peer_cleanup stable_id network_name has_publisher a ev now).2
  = negb (prunes_member (de_reason ev)) && negb (bool_decide ((network_name, de_endpoint_id ev) ∈ pruned_peers (ac_links a))).
Proof.
  intros E. unfold peer_cleanup. rewrite E. cbn [negb].
  destruct (prunes_member (de_reason ev)); [done|]. cbn [negb andb].
  destruct (MemberListM.get _ _); cbn [snd]; [|cbn; by destruct (bool_decide _)].
  destruct (broadcast_member_sync_sent (republish has_publisher (with_members (with_table a t)
    (alter (stamp_last_seen now) (de_endpoint_id ev) (members (ac_state (with_table a t)))))) None) as (_ & -> & _).
  cbn. by destruct (bool_decide _).
Qed.

(** What the end of a connection does on a coordinator.  If another connection of the
    peer has taken its place, nothing.  Otherwise its route is gone, and the roster
    loses the member only if the member said it was leaving: any other end, also one
    with the code for a kick, only stamps when it was last seen.  The member is dialled
    again unless it left or this node had severed it itself. *)
Theorem disconnect_effect a ev now :
  let id := de_endpoint_id ev in
  let left := prunes_member (de_reason ev) in
  let pruned := pruned_peers (ac_links a) in
  let '(t, removed) := drop_dead stable_id (table (ac_links a)) ev in
  let '(a', redial) := peer_cleanup stable_id network_name has_publisher a ev now in
  if removed then
    members (ac_state a') = (if left then delete id else alter (stamp_last_seen now) id) (members (ac_state a))
    /\ approved (ac_state a') = approved (ac_state a) /\ table (ac_links a') = t
    /\ closed (ac_links a') = closed (ac_links a) /\ pruned_peers (ac_links a') = pruned ∖ {[(network_name, id)]}
    /\ (redial = true <-> left = false /\ (network_name, id) ∉ pruned)
    /\ (roster_wf (members (ac_state a)) -> roster_wf (members (ac_state a')))
  else a' = a /\ redial = false.
Proof.
  intros id left pruned. pose proof (peer_cleanup_redial a ev now) as Hr. revert Hr.
  unfold peer_cleanup. destruct (drop_dead _ _ _) as [t [|]]; cbn [negb]; [|done].
  intros Hr. specialize (Hr t eq_refl). revert Hr.
  fold id left. set (b := with_table a t). unfold MemberListM.get.
  assert (exists ms c, (if left then (with_members b (MemberListM.remove (members (ac_state b)) id), true)
    else match members (ac_state b) !! id with
         | Some _ => (with_members b (alter (stamp_last_seen now) id (members (ac_state b))), true)
         | None => (b, false) end) = (c, ms)
    /\ members (ac_state c) = (if left then delete id else alter (stamp_last_seen now) id) (members (ac_state a))
    /\ approved (ac_state c) = approved (ac_state a) /\ ac_links c = ac_links b) as (changed & c & -> & Hm & Ha & Hl).
  { destruct left; [by do 2 eexists|]. destruct (members (ac_state b) !! id) eqn:E; [by do 2 eexists|].
    do 2 eexists. split; [done|]. split; [|done]. symmetry. by apply alter_id; rewrite E. }
  set (d := if changed then _ else c).
  assert (members (ac_state d) = members (ac_state c) /\ approved (ac_state d) = approved (ac_state c)
    /\ ac_links d = ac_links c) as (Em & Ea & El).
  { unfold d. destruct changed; [|done].
    by destruct (broadcast_member_sync_sent (republish has_publisher c) None) as (-> & -> & _). }
  intros Hr. cbn [snd] in Hr. cbn [ac_state ac_links unmark_pruned table closed pruned_peers]. rewrite Em, Ea, El, Hl, Hm, Ha. split_and!; try done.
  - rewrite El, Hl in Hr. rewrite Hr. fold pruned. rewrite andb_true_iff, !negb_true_iff, bool_decide_eq_false. done.
  - intros Hwf. destruct left; [by apply roster_wf_delete|by apply roster_wf_alter].
Qed.

(** The mark that keeps a severed peer from being dialled again outlives its purpose.
    The end of the severed connection does not use it up, since that connection is no
    longer in the routes; and when the peer has been let in again and its new
    connection breaks, that one is not dialled again. *)
Theorem prune_mark_outlives_severed_link a id ip ip6 (c : Conn) reason died uptime1 uptime2 m now1 now2 :
  link4 (table (ac_links a)) ip network_name = None -> (network_name, id) ∈ pruned_peers (ac_links a) ->
  members (ac_state a) !! id = Some m -> prunes_member reason = false ->
  let ended sid uptime := mkDisconnectEvent id ip ip6 network_name reason (Some sid) uptime in
  let severed := peer_cleanup stable_id network_name has_publisher a (ended died uptime1) now1 in
  let back := with_table severed.1 (add (table (ac_links severed.1)) ip ip6 c id network_name) in
  severed = (a, false)
  /\ link4 (table (ac_links back)) ip network_name = Some c
  /\ (peer_cleanup stable_id network_name has_publisher back (ended (stable_id c) uptime2) now2).2 = false.
Proof.
  intros Hl Hp Hm Hr ended severed back.
  assert (severed = (a, false)) as Es.
  { unfold severed, peer_cleanup, drop_dead, remove_peer_from_network_if. cbn. unfold link4 in Hl. by rewrite Hl. }
  assert (back = with_table a (add (table (ac_links a)) ip ip6 c id network_name)) as Eb by (unfold back; by rewrite Es).
  split; [done|]. clearbody back severed. subst back.
  set (back := with_table a _).
  assert (link4 (table (ac_links back)) ip network_name = Some c) as Hb by apply add_links. split; [done|].
  rewrite (peer_cleanup_redial _ _ _ (remove_peer_from_network (table (ac_links back)) ip ip6 network_name)).
  - cbn. rewrite bool_decide_eq_true_2 by done. by rewrite andb_false_r.
  - unfold drop_dead, remove_peer_from_network_if. cbn [de_conn_stable_id de_ip de_ipv6 de_network ended].
    unfold link4 in Hb. by rewrite Hb, Z.eqb_refl.
Qed.

(** ** Dialling again *)
Definition caps_ok (limits : RetryLimits) (top : Z) : Prop :=
  0 <= warm_max limits <= top /\ 0 <= cold_max limits <= top /\ 0 <= frozen_max limits <= top /\ top * 2 <= DURATION_MAX.

Lemma next_backoff_bounded backoff failed limits top :
  caps_ok limits top -> 0 <= backoff <= top ->
  exists b, next_backoff backoff (backoff_cap failed (cold_threshold limits) (frozen_threshold limits) (warm_max limits)
              (cold_max limits) (frozen_max limits)) = Ret b /\ 0 <= b <= top.
Proof.
  intros (Hw & Hc & Hf & Ht) Hb. unfold next_backoff. rewrite (proj2 (Z.ltb_ge _ _)) by lia.
  eexists. split; [done|]. unfold backoff_cap. repeat case_match; lia.
Qed.

(** The peer may be dialled: it is on the roster, this node has not severed it, and no
    connection of it is registered. *)
Definition dialable a (peer_id : EndpointId) (m : Member) : Prop :=
  members (ac_state a) !! peer_id = Some m /\ ((network_name, peer_id) ∉ pruned_peers (ac_links a))
  /\ Forall (fun p => p.1.1 <> peer_id) (peers_for_network_with_conn (table (ac_links a)) network_name).

Lemma unmark_absent a id : (network_name, id) ∉ pruned_peers (ac_links a) -> unmark_pruned network_name a id = a.
Proof.
  intros Hn. unfold unmark_pruned. destruct a as [s [t p c] st se pu]. cbn in *. do 2 f_equal.
  apply difference_disjoint_L. by apply disjoint_singleton_r.
Qed.

Lemma dial_retry_attempt_dialable a limits peer_id m stored backoff failed in_flight dial top :
  dialable a peer_id m -> caps_ok limits top -> 0 <= backoff <= top ->
  exists b, 0 <= b <= top /\
  dial_retry_attempt network_name network_key a limits peer_id stored backoff failed in_flight dial
  = Ret (match in_flight, dial with
         | true, _ => (a, TryAgain b failed)
         | false, None => (a, TryAgain b (wrap 32 (failed + 1)))
         | false, Some conn => (add_route network_name network_key a (m_ip m) conn peer_id, StopDialled)
         end).
Proof.
  intros (Hm & Hp & Hc) Hcaps Hb. destruct (next_backoff_bounded backoff failed limits top Hcaps Hb) as (b & E & Hb').
  exists b. split; [done|]. unfold dial_retry_attempt. rewrite E. cbn [obind]. unfold MemberListM.get.
  rewrite Hm, (unmark_absent a peer_id Hp). rewrite (bool_decide_eq_false_2 _ Hp), bool_decide_eq_true_2 by eauto.
  cbn [dial_retry_decision negb orb].
  assert (existsb (fun p => bool_decide (p.1.1 = peer_id)) (peers_for_network_with_conn (table (ac_links a)) network_name)
    = false) as ->.
  { apply not_true_iff_false. rewrite existsb_exists. intros (p & Hin & Hd%bool_decide_eq_true).
    rewrite Forall_forall in Hc. by apply (Hc p); [apply list_elem_of_In|]. }
  by destruct in_flight, dial.
Qed.

(** A coordinator does not give up on a member.  As long as the member stays on the
    roster and does not come back by itself, the task goes on through any number of
    failed attempts and of attempts it left to another task; the first one that reaches
    the member registers it under its address of the roster, and no delay on the way is
    longer than the largest configured one. *)
Theorem dial_retry_reaches_member a limits peer_id m stored backoff failed (dials : list (bool * option Conn)) conn top :
  dialable a peer_id m -> caps_ok limits top -> 0 <= backoff <= top ->
  Forall (fun d => d.1 = true \/ d.2 = None) dials ->
  exists delays,
    dial_retry_run network_name network_key a limits peer_id stored backoff failed (dials ++ [(false, Some conn)])
    = Ret (add_route network_name network_key a (m_ip m) conn peer_id, StopDialled, delays)
    /\ length delays = S (length dials) /\ Forall (fun d => 0 <= d <= top) delays.
Proof.
  intros Hd Hcaps. revert backoff failed. induction dials as [|[f d] dials IH]; intros backoff failed Hb Hf; cbn [app dial_retry_run].
  - destruct (dial_retry_attempt_dialable a limits peer_id m stored backoff failed false (Some conn) top Hd Hcaps Hb)
      as (b & _ & ->). exists [backoff]. cbn. split_and!; [done..|]. by constructor.
  - apply Forall_cons in Hf as [Hfd Hf].
    destruct (dial_retry_attempt_dialable a limits peer_id m stored backoff failed f d top Hd Hcaps Hb) as (b & Hb' & ->).
    assert (exists k, match f, d with
      | true, _ => (a, TryAgain b failed)
      | false, None => (a, TryAgain b (wrap 32 (failed + 1)))
      | false, Some conn => (add_route network_name network_key a (m_ip m) conn peer_id, StopDialled)
      end = (a, TryAgain b k)) as [k ->].
    { destruct f, d; eauto. by destruct Hfd. }
    cbn [obind]. destruct (IH b k Hb' Hf) as (delays & -> & Hlen & Hall). exists (backoff :: delays). cbn.
    split_and!; [done|by rewrite Hlen|by constructor].
Qed.

(** ** Control messages *)

(** What a connected member can change on a coordinator with its control messages:
    which Veilid node it is.  No message, and no rate of messages, touches another
    member's entry, its own address, name or role, the approved list, the invites, or a
    route; only its own connection can be closed over it. *)
Theorem member_control_effect a conn remote_id msg v :
  let a' := (control_reader_step has_publisher a conn remote_id msg v).1 in
  (forall id, id <> remote_id -> members (ac_state a') !! id = members (ac_state a) !! id)
  /\ (forall m, members (ac_state a) !! remote_id = Some m -> exists veilid,
        members (ac_state a') !! remote_id
        = Some (mkMember (m_identity m) (m_ip m) (m_is_coordinator m) (m_hostname m) (m_collision_index m) (m_last_seen m) veilid))
  /\ (members (ac_state a) !! remote_id = None -> members (ac_state a') = members (ac_state a))
  /\ approved (ac_state a') = approved (ac_state a) /\ invites (ac_state a') = invites (ac_state a)
  /\ table (ac_links a') = table (ac_links a) /\ pruned_peers (ac_links a') = pruned_peers (ac_links a)
  /\ (closed (ac_links a') = closed (ac_links a) \/ closed (ac_links a') = closed (ac_links a) ++ [conn])%list.
Proof.
  assert (forall m, exists veilid, Some m = Some (mkMember (m_identity m) (m_ip m) (m_is_coordinator m) (m_hostname m)
    (m_collision_index m) (m_last_seen m) veilid)) as Hsame by (intros m; exists (m_veilid_node_id m); by destruct m).
  intros a'. unfold a', control_reader_step.
  destruct v; [|cbn; split_and!; try done; [intros m ->; apply Hsame|by left]
               |cbn; split_and!; try done; [intros m ->; apply Hsame|by right]].
  destruct msg; try (cbn; split_and!; try done; [intros m ->; apply Hsame|by left]).
  destruct veilid_node_id as [node|]; cbn [fst]; [|split_and!; try done; [intros m ->; apply Hsame|by left]].
  unfold apply_reconnect_veilid_node_id, MemberListM.get.
  destruct (members (ac_state a) !! remote_id) as [m|] eqn:Em; [|rewrite Em; split_and!; try done; by left].
  case_bool_decide; [rewrite Em; split_and!; try done; [intros ? [= <-]; apply Hsame|by left]|].
  cbn. split_and!; try done; [| |by left].
  - intros id Hne. by rewrite lookup_alter_ne.
  - intros ? [= <-]. rewrite lookup_alter_eq, Em. by eexists.
Qed.
End CoordinatorProofs.

(** Set to zero, the cold backoff is not back at its default: a peer that is cold is
    dialled again without any delay, and so is it ever after. *)
Lemma zero_cold_backoff_never_waits `{UrlScheme} (cfg cfg' : AppConfig) (replace : bool) (backoff failed : Z) :
  config_set cfg "reconnect-cold.backoff" "0" replace = Ok cfg' ->
  let limits := retry_limits cfg' in
  let cap f := backoff_cap f (cold_threshold limits) (frozen_threshold limits) (warm_max limits) (cold_max limits)
                 (frozen_max limits) in
  (0 <= backoff * 2 <= DURATION_MAX -> cold_threshold limits <= failed < frozen_threshold limits ->
   next_backoff backoff (cap failed) = Ret 0)
  /\ (0 <= frozen_max limits -> forall f, next_backoff 0 (cap f) = Ret 0).
Proof.
  intros Hs limits cap. assert (rc_backoff_secs (cfg_reconnect_cold cfg') = Some 0) as H0.
  { revert Hs. unfold config_set. change (parse_entries "0") with ["0"]. eval_tests.
    intros [= <-]. reflexivity. }
  subst limits cap. unfold next_backoff, backoff_cap.
  cbn [retry_limits cold_threshold frozen_threshold warm_max cold_max frozen_max]. rewrite H0. cbn [default from_option id]. split.
  - intros Hb [Hc Hf]. rewrite (proj2 (Z.ltb_ge _ _)), (proj2 (Z.leb_gt _ _)), (proj2 (Z.leb_le _ _)) by lia.
    f_equal. unfold from_secs. lia.
  - intros Hf f. change (DURATION_MAX <? 0 * 2) with false. cbn iota. f_equal. repeat case_match; unfold BACKOFF_MAX, from_secs in *; lia.
Qed.

(** ** Concrete runs *)
Import Demo DemoBlob.

(** A coordinator that severed member 4 before it was let in again. *)
Definition sample_severed : Acceptor Z :=
  mkAcceptor sample_invited (mkLinks table_new {[("home", mkId 4)]} []) [] [] 0.
Definition sample_ip4 : Ipv4Addr := derive_ip (mkId 4) default_subnet.
Definition sample_ip6 : Ipv6Addr := derive_ipv6 (mkId 4) (mkId 9).

Lemma prune_mark_outlives_severed_link_witness :
  let ended sid := mkDisconnectEvent (mkId 4) sample_ip4 sample_ip6 "home" Other (Some sid) None in
  let severed := peer_cleanup id "home" true sample_severed (ended 70) 1000 in
  let back := with_table severed.1 (add (table (ac_links severed.1)) sample_ip4 sample_ip6 71 (mkId 4) "home") in
  severed = (sample_severed, false) /\ (peer_cleanup id "home" true back (ended 71) 2000).2 = false.
Proof.
  destruct (some_such_that (fun _ => true) (members (ac_state sample_severed) !! mkId 4)) as (m & Hm & _);
    [vm_compute; reflexivity|].
  destruct (prune_mark_outlives_severed_link id "home" true sample_severed (mkId 4) sample_ip4 sample_ip6 71 Other 70
    None None m 1000 2000) as (Hs & _ & Hr).
  - reflexivity.
  - by_decide.
  - exact Hm.
  - reflexivity.
  - exact (conj Hs Hr).
Defined.

Definition sample_limits : RetryLimits := retry_limits AppConfig_default.

Lemma dial_retry_reaches_member_witness :
  exists a' delays, dial_retry_run "home" (mkId 9) (sample_acceptor sample_invited) sample_limits (mkId 4) 0 (10 ^ 9) 0
    [(false, None); (true, None); (false, None); (false, Some 71)] = Ret (a', StopDialled, delays)
  /\ length delays = 4%nat.
Proof.
  destruct (some_such_that (fun _ => true) (members (ac_state (sample_acceptor sample_invited)) !! mkId 4)) as (m & Hm & _);
    [vm_compute; reflexivity|].
  destruct (dial_retry_reaches_member "home" (mkId 9) (sample_acceptor sample_invited) sample_limits (mkId 4) m 0 (10 ^ 9) 0
    [(false, None); (true, None); (false, None)] 71 (from_secs BACKOFF_FROZEN_MAX_SECS)) as (delays & Hr & Hl & _).
  - split; [exact Hm|]. split; [by_decide|]. vm_compute. constructor.
  - unfold caps_ok, DURATION_MAX, from_secs. vm_compute. intuition discriminate.
  - unfold from_secs, BACKOFF_FROZEN_MAX_SECS. lia.
  - by_decide.
  - exact (ex_intro _ _ (ex_intro _ delays (conj Hr Hl))).
Defined.
