(* ===== verification/Joining.v ===== *)
(** * Joining a network (src/src/daemon/mesh/join.rs, src/src/daemon/mesh/create_join.rs)

    How a node gets into a network, for the first time or after a restart: it fetches
    the network's blob, checks that it can take part, dials a coordinator, exchanges
    the first messages, saves the network and sets up its state.  And what a member
    then does with the messages it is sent and with connections that end.

    The peers, the network and the record are arguments: the connection a dial gives,
    the first message read from it, the record found, the bytes a peer serves. *)

From S2P Require Import Prelude Externs Addressing Names Codecs Invite Members Control Blob Peers Forward Ratelimit.
From S2P Require Import Select Network Ipc Settings Storage Admission Coordinator.

(** ** Quieting the log *)
Definition RECONNECT_LOG_THRESHOLD : Z := 3.
Definition RECONNECT_LOG_WINDOW_SECS : Z := 300.

(** The time since the window began is never negative. *)
Definition reconnect_log_decision (now window_start count threshold window : Z) : bool * Z * Z :=
  if window <=? Z.max 0 (now - window_start) then (true, now, 1)
  else let new_count := wrap 32 (count + 1) in (new_count <=? threshold, window_start, new_count).

Inductive JoinError :=
| BadNetworkKey
| NoReply                                          (* no stream, no message in time *)
| WasDenied (reason : string)
| UnexpectedReply
| IpTaken (ip : Ipv4Addr) (existing : EndpointId)
| ConfigFailed (e : StorageError)
| HelloFailed
| AlreadyIn (name : string)
| FetchFailed
| SubnetOverlaps (existing : Subnet)
| InterfaceOverlaps (iface : string)
| RosterOutsideSubnet (e : RosterError)
| InvalidHostname (h : string)
| NoCoordinator
| NotAdmitted (tried : nat).

Definition config_result {A} (r : Result A StorageError) : Result A JoinError :=
  match r with Ok a => Ok a | Err e => Err (ConfigFailed e) end.

Record JoinParams := mkJoinParams {
  jp_my_hostname : option string;
  jp_my_veilid_node_id : option string;
  jp_net_pubkey : EndpointId;
  jp_invite_secret : option (list Z);
  jp_reusable_keys : gmap string ReusableKey;
  jp_invites : gmap string InviteEntry;
  jp_nuke_proposals : gmap string Z;
  jp_nuke_consensus_threshold : Z;
  jp_generation : Z;
  jp_transport : option TransportMode;
  jp_initial : bool;
  jp_my_ip : Ipv4Addr;
  jp_network_subnet : Subnet;
}.

Inductive HandshakeOutcome :=
| HAdmitted (ms : list Member) (aps : list ApprovedEntry) (my_ip : Ipv4Addr)
| HPending.

(** The record a lookup found and how peers answer a fetch. *)
Record Lookup := mkLookup {
  lk_record : option NetworkRecord;
  lk_serve : EndpointId -> Hash -> option (list Z) * Z;
}.

Section Joining.
Context `{IrohKeys, Blake3, GroupBlobCodec, NetworkStore Disk} {Conn : Type} (stable_id : Conn -> Z).
Context (me : EndpointId) (network_name : string).
Implicit Types (d : Disk) (p : JoinParams) (a : Acceptor Conn).

(** ** The first messages *)
Definition outgoing_hostname d : option string :=
  match load_network d network_name with Ok (Some net) => nc_my_hostname net | _ => None end.

Definition saved_roster d : list Member :=
  persisted_roster (match load_network d network_name with Ok (Some net) => Some (nc_members net) | _ => None end).

(** What is sent, and what comes of it. *)
Definition perform_join_handshake p d (connected : list EndpointId) (lk : Lookup) (reply : option ControlMsg)
  : list ControlMsg * Result HandshakeOutcome JoinError :=
  if jp_initial p then
    ([JoinRequest (jp_invite_secret p) (jp_my_hostname p) (jp_my_veilid_node_id p)],
     match reply with
     | None => Err NoReply
     | Some (Welcome ms aps) =>
         match resolve_welcome_self_ip ms (jp_my_ip p) me with
         | Ok ip => Ok (HAdmitted ms aps ip)
         | Err existing => Err (IpTaken (jp_my_ip p) existing)
         end
     | Some JoinPending => Ok HPending
     | Some (JoinDenied reason) => Err (WasDenied reason)
     | Some _ => Err UnexpectedReply
     end)
  else
    ([],
     match reply with
     | None => Err NoReply
     | Some (Welcome ms aps) => Ok (HAdmitted ms aps (jp_my_ip p))
     | Some (JoinApproved _ ms) => Ok (HAdmitted ms [] (jp_my_ip p))
     | Some MemberSync =>
         let '(ms, aps) :=
           match lk_record lk with
           | Some r =>
               match fetch_verified_blob connected (rec_hash r) (rec_seeds r) (lk_serve lk) with
               | Some data => (gb_members data, gb_approved data)
               | None => (saved_roster d, [])
               end
           | None => (saved_roster d, [])
           end in
         Ok (HAdmitted ms aps (jp_my_ip p))
     | Some (JoinDenied reason) => Err (WasDenied reason)
     | Some _ => Err UnexpectedReply
     end).

Definition find_member (ms : list Member) (id : EndpointId) : option Member :=
  List.find (fun m => bool_decide (m_identity m = id)) ms.

Definition persist_join_config p d (ms : list Member) (aps : list ApprovedEntry) (my_ip : Ipv4Addr)
  : Result Disk StorageError :=
  let persisted_hostname :=
    match m ← find_member ms me; m_hostname m with
    | Some h => Some h
    | None => jp_my_hostname p
    end in
  found <-? load_network d network_name;
  let direct := match found with Some n => nc_direct n | None => false end in
  save_network d
    (mkNetworkConfig network_name Restricted (Some my_ip) persisted_hostname (to_member_entries ms)
       (to_approved_entries aps) None (Some (jp_net_pubkey p)) (jp_transport p) [] direct
       (Some (jp_network_subnet p)) (jp_nuke_consensus_threshold p)).

Definition send_reconnect_hello p d (my_ip : Ipv4Addr) : ControlMsg :=
  MeshHello me my_ip (outgoing_hostname d) (jp_my_veilid_node_id p).

Definition build_member_state p (ms : list Member) (aps : list ApprovedEntry) : NetworkState :=
  refresh_snapshot
    (mkState (jp_generation p) (MemberListM.from_members ms) (ApprovedListM.from_entries aps) None None
       (jp_net_pubkey p) (Some network_name) Restricted (jp_reusable_keys p) (jp_invites p) (jp_nuke_proposals p)
       (jp_nuke_consensus_threshold p) (jp_network_subnet p)).

Inductive JoinResult :=
| Joined a (my_ip : Ipv4Addr)
| JoinIsPending.

(** One handshake with the coordinator at the other end of [conn], up to the state a
    member starts with.  [node_subnet] is the one this node was started with;
    [hello_sent]: the greeting after a restart could be written. *)
Definition join_mesh_shared p d (node_subnet : Subnet) (links : Links (Conn := Conn)) (store : list (list Z))
  (conn : Conn) (remote_id : EndpointId) (lk : Lookup) (reply : option ControlMsg) (hello_sent : bool)
  : Disk * list (Conn * ControlMsg) * Result JoinResult JoinError :=
  let '(sent, outcome) :=
    perform_join_handshake p d ((peers_for_network (table links) network_name).*1) lk reply in
  let sent := (fun msg => (conn, msg)) <$> sent in
  match outcome with
  | Err e => (d, sent, Err e)
  | Ok HPending => (d, sent, Ok JoinIsPending)
  | Ok (HAdmitted ms aps my_ip) =>
      match persist_join_config p d ms aps my_ip with
      | Err e => (d, sent, Err (ConfigFailed e))
      | Ok d =>
          if negb (jp_initial p) && negb hello_sent then (d, sent, Err HelloFailed)
          else
            let sent := if jp_initial p then sent else (sent ++ [(conn, send_reconnect_hello p d my_ip)])%list in
            let remote_ip := match find_member ms remote_id with
                             | Some m => m_ip m
                             | None => derive_ip remote_id node_subnet
                             end in
            let t := add (table links) remote_ip (derive_ipv6 remote_id (jp_net_pubkey p)) conn remote_id network_name in
            let s := build_member_state p ms aps in
            let store := match snapshot s with Some sn => snap_bytes sn :: store | None => store end in
            (d, sent, Ok (Joined (mkAcceptor s (mkLinks t (pruned_peers links) (closed links)) store sent 0) my_ip))
      end
  end.

(** The rest of the roster is dialled.  [dial]: the connection, if this task was the one
    to dial the member, it was reached and it took the greeting. *)
Definition roster_peer_dials p a d (ms : list Member) (my_ip : Ipv4Addr) (skip_id : EndpointId)
  (dial : Member -> option Conn) : Acceptor Conn :=
  fold_left
    (fun a m =>
       if bool_decide (m_identity m = me) || bool_decide (m_identity m = skip_id) then a
       else match dial m with
            | None => a
            | Some conn =>
                add_route network_name (jp_net_pubkey p)
                  (send a conn (MeshHello me my_ip (outgoing_hostname d) (jp_my_veilid_node_id p)))
                  (m_ip m) conn (m_identity m)
            end) ms a.

(** ** Messages to a member *)
Definition set_secret_key (s : NetworkState) (key : list Z) : NetworkState :=
  mkState (generation s) (members s) (approved s) (snapshot s) (Some key) (network_public_key s)
    (Network.network_name s) (mode s) (reusable_keys s) (invites s) (nuke_proposals s) (nuke_consensus_threshold s)
    (subnet s).

Definition admin_grant_key_valid (secret_key : list Z) (network_pubkey : EndpointId) : bool :=
  bool_decide (secret_public secret_key = network_pubkey).

(** What a message makes the rest of the daemon do. *)
Inductive Signal := Reconverges | Promoted.

Definition approve_ignore (s : NetworkState) (entry : ApprovedEntry) : NetworkState :=
  match ApprovedListM.approve (approved s) entry (members s) with
  | Ok aps => set_roster s (members s) aps
  | Err _ => s
  end.

Definition take_admin_key a d (secret_key : list Z) : Disk * Acceptor Conn :=
  let d := update_ignore d network_name
             (fun net => (mkNetworkConfig (nc_name net) (nc_group_mode net) (nc_my_ip net) (nc_my_hostname net)
                            (nc_members net) (nc_approved net) (Some secret_key) (nc_network_public_key net)
                            (nc_transport net) (nc_admins net) (nc_direct net) (nc_subnet net)
                            (nc_nuke_consensus_threshold net), true)) in
  let s := set_secret_key (ac_state a) secret_key in
  (d, with_state a (refresh_snapshot (set_roster s (mark_coordinator (members s) me) (approved s)))).

(** One message and the verdict of the gates on it; whether the listener goes on. *)
Definition member_control_step a d (conn : Conn) (net_pubkey : EndpointId) (msg : ControlMsg) (v : Verdict)
  : Disk * Acceptor Conn * list Signal * bool :=
  match v with
  | Close =>
      (d, mkAcceptor (ac_state a) (mkLinks (table (ac_links a)) (pruned_peers (ac_links a)) (closed (ac_links a) ++ [conn]))
            (ac_store a) (ac_sent a) (ac_pulses a), [], false)
  | Drop => (d, a, [], true)
  | Allow =>
      match msg with
      | MemberApproved peer ip hostname _ =>
          (d, with_state a (approve_ignore (ac_state a) (mkApproved peer ip hostname 0)), [], true)
      | MemberSync | BlobUpdated => (d, a, [Reconverges], true)
      | AdminGrant network_pubkey secret_key =>
          if negb (bool_decide (network_pubkey = net_pubkey)) then (d, a, [], true)
          else if negb (admin_grant_key_valid secret_key net_pubkey) then (d, a, [], true)
          else let '(d, a) := take_admin_key a d secret_key in (d, a, [Promoted], true)
      | Ping nonce => (d, send a conn (Pong nonce), [], true)
      | _ => (d, a, [], true)
      end
  end.

(** ** A connection of a member ended *)
Definition reconnect_event a (ev : DisconnectEvent) : Acceptor Conn * bool :=
  let '(t, removed) := drop_dead stable_id (table (ac_links a)) ev in
  if negb removed then (a, false)
  else
    let a := with_table a t in
    if prunes_member (de_reason ev) then (a, false)
    else
      let peer_id := de_endpoint_id ev in
      let was_pruned_locally := bool_decide ((network_name, peer_id) ∈ pruned_peers (ac_links a)) in
      let a := unmark_pruned network_name a peer_id in
      match reconnect_decision removed (prunes_member (de_reason ev)) was_pruned_locally with
      | PeerRemovedFromRoster => (a, false)
      | _ => (a, true)
      end.
End Joining.

Section JoiningProofs.
Context `{IrohKeys, Blake3, GroupBlobCodec, NetworkStoreLaws Disk} {Conn : Type}.
Context (me : EndpointId) (network_name : string).
Implicit Types (d : Disk) (p : JoinParams) (a : Acceptor Conn).

(** A member is found in the list of a roster by its identity. *)
Lemma find_member_all (ms : MemberList) id :
  roster_wf ms -> find_member (MemberListM.all ms) id = ms !! id.
Proof.
  intros Hwf. unfold find_member. destruct (List.find _ _) as [m|] eqn:E.
  - apply List.find_some in E as [Hin Hid%bool_decide_eq_true]. apply list_elem_of_In, elem_of_all in Hin as [k Hk].
    by rewrite <- Hid, (proj1 Hwf _ _ Hk), Hk.
  - destruct (ms !! id) as [m|] eqn:Em; [|done]. exfalso.
    assert (In m (MemberListM.all ms)) as Hin by (apply list_elem_of_In, elem_of_all; eauto).
    apply (List.find_none _ _ E), bool_decide_eq_false in Hin. by apply Hin, (proj1 Hwf).
Qed.

(** A join is one agreement.  When a coordinator lets a stranger in, the stranger
    that reads the welcome it was sent ends up with the coordinator's roster, takes
    the address the coordinator has given it, and saves it; the coordinator's route to
    that address, and to the stranger's IPv6 address, is the connection the stranger
    asked on, and the stranger's routes to the coordinator are that connection's other end. *)
Theorem join_handshake_agrees (ca ca' : Acceptor Conn) (cname : string) (pub : bool) (cconn conn : Conn)
  (coordinator : EndpointId) p d d' node_subnet (links : Links (Conn := Conn)) store lk secret now later hello :
  let s := ac_state ca in
  let s' := ac_state ca' in
  let request := JoinRequest (Some secret) (jp_my_hostname p) (jp_my_veilid_node_id p) in
  let welcome := Welcome (roster s') (approved_snapshot s') in
  roster_wf (members s) -> members s !! me = None -> approved_wf (approved s') ->
  coordinator_handle_connection cname (jp_net_pubkey p) pub ca cconn me (Some request) now later = Some ca' ->
  is_Some (members s' !! me) ->
  jp_initial p = true -> jp_invite_secret p = Some secret ->
  (forall my_ip, (m_ip <$> members s' !! me) = Some my_ip ->
     persist_join_config me network_name p d (roster s') (approved_snapshot s') my_ip = Ok d') ->
  (cconn, welcome) ∈ ac_sent ca'
  /\ exists aj my_ip n,
    join_mesh_shared me network_name p d node_subnet links store conn coordinator lk (Some welcome) hello
      = (d', [(conn, request)], Ok (Joined aj my_ip))
    /\ (m_ip <$> members s' !! me) = Some my_ip
    /\ members (ac_state aj) = members s' /\ approved (ac_state aj) = approved s'
    /\ link4 (table (ac_links ca')) my_ip cname = Some cconn
    /\ link6 (table (ac_links ca')) (derive_ipv6 me (jp_net_pubkey p)) cname = Some cconn
    /\ (forall c, members s' !! coordinator = Some c -> link4 (table (ac_links aj)) (m_ip c) network_name = Some conn)
    /\ link6 (table (ac_links aj)) (derive_ipv6 coordinator (jp_net_pubkey p)) network_name = Some conn
    /\ load_network d' network_name = Ok (Some n) /\ nc_my_ip n = Some my_ip.
Proof.
  intros s s' request welcome Hwf Hnew Hawf Hc [m0 Hin] Hinit Hsecret Hsave.
  unfold coordinator_handle_connection, MemberListM.get in Hc. fold s in Hc. rewrite Hnew in Hc.
  cbn [fmap option_fmap option_map] in Hc. apply redeem_outcome in Hc; [|done].
  destruct Hc as [(m & _ & Hseat & Hid & _ & _)|(Hm & _)]; [|fold s s' in Hm; congruence].
  destruct Hseat as (Em & Hwf' & _ & _ & Hw & L4 & L6 & _). fold s s' in Em, Hwf', Hw.
  assert (members s' !! me = Some m) as Hme by (rewrite Em, <- Hid; apply lookup_insert_eq).
  split; [done|]. specialize (Hsave (m_ip m)). rewrite Hme in Hsave. specialize (Hsave eq_refl).
  assert (exists n, load_network d' network_name = Ok (Some n) /\ nc_my_ip n = Some (m_ip m)) as (n & Hn & Hnip).
  { pose proof Hsave as Hsv. apply rbind_ok in Hsv as (found & _ & Hsv). eexists. split; [exact (load_saved _ _ _ Hsv)|done]. }
  unfold join_mesh_shared, perform_join_handshake. rewrite Hinit, Hsecret. unfold resolve_welcome_self_ip, welcome.
  fold (find_member (roster s') me). unfold roster at 1. rewrite find_member_all by done. rewrite Hme, Hsave.
  cbn [negb andb].
  do 2 eexists. exists n. split; [reflexivity|]. split; [done|].
  split; [by apply from_members_all|]. split; [by apply from_entries_all|].
  rewrite <- Hid. do 2 (split; [done|]). split_and!.
  - intros c Hcm. cbn [ac_links table]. unfold roster. rewrite find_member_all, Hcm by done. apply add_links.
  - cbn [ac_links table]. unfold roster. apply add_links.
  - exact Hn.
  - exact Hnip.
Qed.

(** C5: A node never runs on a network key that is not the network's.  Of all messages
    a peer can send, only a grant of a key whose public half is this network's own
    makes a member hold a key, call itself a coordinator or touch its saved copy of the
    network; no message changes another member of the roster, and none changes a route. *)
Theorem network_key_only_by_grant a d conn net_pubkey msg v :
  let '(d', a', signals, _) := member_control_step me network_name a d conn net_pubkey msg v in
  let s := ac_state a in
  let s' := ac_state a' in
  table (ac_links a') = table (ac_links a)
  /\ (forall id, id <> me -> members s' !! id = members s !! id)
  /\ (s' = set_roster s (members s) (approved s') /\ d' = d /\ Promoted ∉ signals
      \/ exists key, msg = AdminGrant net_pubkey key /\ v = Allow /\ secret_public key = net_pubkey
           /\ network_secret_key s' = Some key /\ Promoted ∈ signals /\ approved s' = approved s
           /\ members s' = mark_coordinator (members s) me).
Proof.
  assert (forall s, s = set_roster s (members s) (approved s)) as Hsame by (by intros []).
  assert (Promoted ∉ @nil Signal) as Hnil by apply not_elem_of_nil.
  unfold member_control_step. destruct v; cbn [ac_state ac_links table]; [|split_and!; by (done || left; eauto)..].
  destruct msg; cbn [ac_state ac_links table with_state]; try (split_and!; by (done || left; eauto)).
  - split_and!; try done. left. split_and!; try done. by rewrite list_elem_of_singleton.
  - unfold approve_ignore. destruct (ApprovedListM.approve _ _ _); cbn [members set_roster];
      split_and!; by (done || left; eauto).
  - split_and!; try done. left. split_and!; try done. by rewrite list_elem_of_singleton.
  - destruct (negb _) eqn:Ep; [split_and!; by (done || left; eauto)|].
    destruct (negb (admin_grant_key_valid _ _)) eqn:Ek; [split_and!; by (done || left; eauto)|].
    apply negb_false_iff, bool_decide_eq_true_1 in Ep as <-. apply negb_false_iff, bool_decide_eq_true_1 in Ek.
    cbn [take_admin_key ac_links ac_state table with_state members refresh_snapshot set_snapshot set_roster].
    split; [done|]. split; [intros id Hne; unfold mark_coordinator; by rewrite lookup_alter_ne|].
    right. exists secret_key. split_and!; try done. left.
Qed.

(** Membership does not come from the signed record alone.  Any peer a member is
    connected to can send it the approval of a stranger; the stranger that connects
    after that is let in: it is on the member's roster, is sent the whole roster and
    gets the route of the address the unsigned message named. *)
Theorem unsigned_approval_admits a d conn net_pubkey id ip veilid conn' claimed now :
  let s := ac_state a in
  roster_wf (members s) -> members s !! id = None -> approved s !! id = None ->
  MemberListM.get_by_ip (members s) ip = None -> ApprovedListM.get_by_ip (approved s) ip = None ->
  let '(_, a1, _, _) := member_control_step me network_name a d conn net_pubkey (MemberApproved id ip None veilid) Allow in
  exists a2, member_handle_connection network_name net_pubkey a1 conn' id (Some (MeshHello id claimed None None)) now = Some a2
    /\ members (ac_state a2) !! id = Some (mkMember id ip false None 0 (Some now) None)
    /\ (conn', Welcome (roster (ac_state a2)) (approved_snapshot (ac_state a2))) ∈ ac_sent a2
    /\ link4 (table (ac_links a2)) ip network_name = Some conn'.
Proof.
  intros s Hwf Hm Ha Hmip Haip. cbn [member_control_step]. unfold approve_ignore, ApprovedListM.approve. fold s.
  cbn [a_ip a_identity]. rewrite Hmip, Haip. set (e := mkApproved id ip None 0).
  unfold member_handle_connection, MemberListM.get. cbn [ac_state with_state members approved set_roster].
  rewrite bool_decide_eq_true_2 by done. cbn [negb]. rewrite Hm, lookup_insert_eq. cbn [resolve_hello_ip fmap option_fmap option_map a_ip e].
  cbn [mbind option_bind]. unfold ApprovedListM.is_approved. rewrite lookup_insert_eq, bool_decide_eq_true_2 by eauto.
  eexists. split; [reflexivity|]. unfold admit_approved_member, MemberListM.get, MemberListM.is_member.
  cbn [ac_state with_state members approved set_roster]. rewrite Hm, lookup_insert_eq.
  cbn [resolve_hello_ip fmap option_fmap option_map a_ip e]. rewrite bool_decide_eq_false_2 by (by intros [? [=]]).
  match goal with |- context [bump_generation_and_refresh ?x] => set (s1 := bump_generation_and_refresh x) end.
  match goal with |- context [broadcast_member_sync ?x ?y] => pose proof (broadcast_member_sync_sent x y) as Hb; set (b := x) in * end.
  destruct Hb as (-> & -> & _ & _ & l & ->).
  split_and!.
  - change (ac_state b) with s1. unfold s1. cbn [members bump_generation_and_refresh refresh_snapshot set_snapshot set_generation set_roster a_ip a_collision_index e].
    rewrite add_ignore_free; [by rewrite lookup_insert_eq|intros k m Hk Hip|done].
    exfalso. exact (proj1 (get_by_ip_None _ _) Hmip k m Hk Hip).
  - apply elem_of_app. left. change (ac_state b) with s1. cbn. apply elem_of_app. right. left.
  - cbn [b ac_links table add_route with_table]. apply add_links.
Qed.

(** A member that has just joined can put itself out again.  It starts at the
    generation of the blob it fetched before it was let in.  Until the coordinator has
    published the roster with it, the record still names that blob: the same generation
    and another hash, so a poll fetches it, and so does a hint, and the roster it holds
    does not list the new member, which takes itself for removed. *)
Theorem fresh_joiner_evicts_itself p (data : GroupBlob) (r : NetworkRecord) ms aps connected serve :
  jp_generation p = gb_generation data -> rec_generation r = gb_generation data ->
  obtain_blob r connected serve = Some data ->
  member_removed (gb_members data) (gb_approved data) me = true ->
  let s := build_member_state network_name p ms aps in
  rec_hash r <> blake3_hash (state_bytes s) ->
  poll s me (Some r) connected serve = Removed /\ reconverge s me (Some r) connected serve = Removed.
Proof.
  intros Hg Hr Hb Hrem s Hne.
  assert (snapshot s = Some (mkSnapshot (blake3_hash (state_bytes s)) (state_bytes s))) as Hsn by done.
  assert (generation s = gb_generation data) as Hgen by done. split.
  - unfold poll, poller_should_fetch. rewrite Hsn, Hr, Hgen, Z.ltb_irrefl, Z.eqb_refl. cbn [fmap option_fmap option_map snap_hash orb andb].
    rewrite bool_decide_eq_false_2 by congruence. cbn [negb]. rewrite Hb. unfold poll_finish. by rewrite Hrem.
  - unfold reconverge, trusted_reconverge_hash. rewrite Hsn. cbn [fmap option_fmap option_map snap_hash].
    rewrite ?bool_decide_eq_false_2 by congruence. rewrite Hb. unfold reconverge_finish. by rewrite Hrem.
Qed.
End JoiningProofs.

(** ** Concrete runs *)
Import Demo DemoBlob DemoStore.

Definition sample_params : JoinParams :=
  mkJoinParams (Some "nas") None (mkId 9) (Some sample_secret) ∅ ∅ ∅ 2 1 None true (derive_ip (mkId 5) default_subnet)
    default_subnet.
Definition sample_lookup : Lookup := mkLookup None (fun _ _ => (None, 0)).
Definition no_disk : gmap string NetworkConfig := ∅.

Lemma join_handshake_agrees_witness :
  exists ca' aj my_ip,
    sample_join sample_invited (mkId 5) sample_request = Some ca'
    /\ members (ac_state aj) = members (ac_state ca')
    /\ link4 (table (ac_links ca')) my_ip "home" = Some 500
    /\ link6 (table (ac_links aj)) (derive_ipv6 (mkId 3) (mkId 9)) "house" = Some 700.
Proof.
  destruct (some_such_that (fun a' => bool_decide (is_Some (members (ac_state a') !! mkId 5))
                                      && bool_decide (approved (ac_state a') = ∅))
    (sample_join sample_invited (mkId 5) sample_request)) as (ca' & Hc & Hp); [vm_compute; reflexivity|].
  apply andb_true_iff in Hp as [Hin Hap]. apply bool_decide_eq_true_1 in Hin, Hap.
  pose proof Hin as [m Hm].
  destruct (join_handshake_agrees (mkId 5) "house" (sample_acceptor sample_invited) ca' "home" true 500 700 (mkId 3)
    sample_params no_disk
    (<["house" := mkNetworkConfig "house" Restricted (Some (m_ip m))
        (match h ← find_member (roster (ac_state ca')) (mkId 5); m_hostname h with Some h => Some h | None => Some "nas" end)
        (to_member_entries (roster (ac_state ca'))) (to_approved_entries (approved_snapshot (ac_state ca')))
        None (Some (mkId 9)) None [] false (Some default_subnet) 2]> no_disk)
    default_subnet (mkLinks table_new ∅ []) [] sample_lookup sample_secret 1100 1200 false)
    as (_ & aj & my_ip & n & _ & _ & E3 & _ & E5 & _ & _ & E8 & _).
  - exact sample_roster_wf.
  - vm_compute; reflexivity.
  - rewrite Hap. intros id e He. rewrite lookup_empty in He. discriminate He.
  - exact Hc.
  - exact Hin.
  - reflexivity.
  - reflexivity.
  - intros my_ip. rewrite Hm. intros E%(inj Some). rewrite <- E. reflexivity.
  - exact (ex_intro _ ca' (ex_intro _ aj (ex_intro _ my_ip (conj Hc (conj E3 (conj E5 E8)))))).
Defined.

Lemma unsigned_approval_admits_witness :
  let '(_, a1, _, _) := member_control_step (mkId 3) "home" (sample_acceptor sample_invited) no_disk 500 (mkId 9)
                          (MemberApproved (mkId 7) 42 None None) Allow in
  exists a2, member_handle_connection "home" (mkId 9) a1 600 (mkId 7) (Some (MeshHello (mkId 7) 0 None None)) 1100 = Some a2
    /\ members (ac_state a2) !! mkId 7 = Some (mkMember (mkId 7) 42 false None 0 (Some 1100) None).
Proof.
  pose proof (unsigned_approval_admits (mkId 3) "home" (sample_acceptor sample_invited) no_disk 500 (mkId 9) (mkId 7) 42
    None 600 0 1100 sample_roster_wf) as Hw.
  destruct Hw as (a2 & E1 & E2 & _).
  - vm_compute; reflexivity.
  - vm_compute; reflexivity.
  - vm_compute; reflexivity.
  - vm_compute; reflexivity.
  - exact (ex_intro _ a2 (conj E1 E2)).
Defined.

(** 5 has just been let in; the record is still the one it found before. *)
Lemma fresh_joiner_evicts_itself_witness :
  let r := mkRecord (blake3_hash (state_bytes sample_invited)) 1 [mkId 3] in
  let serve := fun (_ : EndpointId) (_ : Hash) => (Some (state_bytes sample_invited), 1) in
  exists ca', sample_join sample_invited (mkId 5) sample_request = Some ca'
    /\ poll (build_member_state "house" sample_params (roster (ac_state ca')) []) (mkId 5) (Some r) [mkId 3] serve = Removed.
Proof.
  intros r serve.
  destruct (some_such_that (fun d => member_removed (gb_members d) (gb_approved d) (mkId 5) && (gb_generation d =? 1))
    (obtain_blob r [mkId 3] serve)) as (data & Ho & Hd); [vm_compute; reflexivity|].
  apply andb_true_iff in Hd as [Hd Hg]. apply Z.eqb_eq in Hg.
  destruct (some_such_that (fun a' => negb (bool_decide (blake3_hash (state_bytes sample_invited)
      = blake3_hash (state_bytes (build_member_state "house" sample_params (roster (ac_state a')) [])))))
    (sample_join sample_invited (mkId 5) sample_request)) as (ca' & Hc & Hh); [vm_compute; reflexivity|].
  apply negb_true_iff, bool_decide_eq_false_1 in Hh.
  exists ca'. split; [exact Hc|].
  refine (proj1 (fresh_joiner_evicts_itself (mkId 5) "house" sample_params data r (roster (ac_state ca')) [] [mkId 3] serve
    _ _ Ho Hd Hh)); rewrite Hg; reflexivity.
Defined.
