(* ===== verification/Manager.v ===== *)
(** * The commands on a network (src/src/daemon/mod.rs and, in src/src/daemon/mesh/,
      runtime.rs, admin.rs, invite_handler.rs)

    The daemon's table of active networks, how the arguments of a command name a network
    or a peer, and the commands that act on a network the node is in: invites are made,
    listed and revoked, members removed, keys granted, the network left or destroyed, its
    data plane switched on and off.

    What the daemon can not decide alone is an argument: the clock, random bytes, the
    configuration as it loads, whether a peer takes a message, and what the record lookup
    and the peers answer.  Messages to the user are reduced to what they say: [Refusal]
    has one constructor for each reason. *)

From S2P Require Import Prelude Externs Addressing Names Codecs Invite Members Control Blob Peers Forward Ratelimit.
From S2P Require Import Select Network Ipc Settings Storage Admission Coordinator Joining.

Inductive Refusal :=
| TooShort
| CannotResolve
| MatchesSeveral (n : nat)
| UnknownNetwork
| NotActive
| NotCoordinator
| NotKeyHolder
| NotAMember
| CannotKickYourself
| BadDuration (why : string)
| BadHostname (h : string)
| BlobNotStored
| CannotRevoke (e : RevokeError)
| NotConnected
| GrantNotSent
| NoSnapshot
| FlagNotPublished
| NothingToCancel
| NoOwnProposal
| WouldStrand
| NoSuchProposal (e : RevokeError)
| MembersUnreachable (promoted : nat) (unreachable : list EndpointId)
| NotFound.

(** ** The tables *)
Section Manager.
Context `{IrohKeys, Blake3, GroupBlobCodec, Bs58, NetworkStore Disk} {Conn : Type}.

(** [h_dht_notify]: a publisher waits to be woken; [h_pulses] and [h_poller_pulses] count
    how often it and the poller were. *)
Record NetworkHandle := mkHandle {
  h_network_key : EndpointId;
  h_role : NetworkRole;
  h_my_ip : Ipv4Addr;
  h_state : NetworkState;
  h_dht_notify : bool;
  h_pulses : Z;
  h_poller_pulses : Z;
  h_peers : PeerTable Conn;
  h_active : bool;
}.

(** [mm_left] are the networks this node was found to have been removed from, and
    [mm_published] the records given to the record store, oldest first. *)
Record MeshManager := mkManager {
  mm_id : EndpointId;
  mm_networks : gmap string NetworkHandle;
  mm_pruned_peers : gset (string * EndpointId);
  mm_active : bool;
  mm_disk : Disk;
  mm_store : list (list Z);
  mm_sent : list (Conn * ControlMsg);
  mm_closed : list Conn;
  mm_published : list (EndpointId * NetworkRecord);
  mm_left : list string;
}.
Implicit Types (m : MeshManager) (h : NetworkHandle).

Definition with_networks m (nets : gmap string NetworkHandle) : MeshManager :=
  mkManager (mm_id m) nets (mm_pruned_peers m) (mm_active m) (mm_disk m) (mm_store m) (mm_sent m) (mm_closed m)
    (mm_published m) (mm_left m).
Definition with_disk m (d : Disk) : MeshManager :=
  mkManager (mm_id m) (mm_networks m) (mm_pruned_peers m) (mm_active m) d (mm_store m) (mm_sent m) (mm_closed m)
    (mm_published m) (mm_left m).
Definition with_store m (bytes : list Z) : MeshManager :=
  mkManager (mm_id m) (mm_networks m) (mm_pruned_peers m) (mm_active m) (mm_disk m) (bytes :: mm_store m) (mm_sent m)
    (mm_closed m) (mm_published m) (mm_left m).
Definition with_sent m (conn : Conn) (msg : ControlMsg) : MeshManager :=
  mkManager (mm_id m) (mm_networks m) (mm_pruned_peers m) (mm_active m) (mm_disk m) (mm_store m)
    (mm_sent m ++ [(conn, msg)]) (mm_closed m) (mm_published m) (mm_left m).
Definition with_closed m (conns : list Conn) : MeshManager :=
  mkManager (mm_id m) (mm_networks m) (mm_pruned_peers m) (mm_active m) (mm_disk m) (mm_store m) (mm_sent m)
    (mm_closed m ++ conns) (mm_published m) (mm_left m).
Definition with_published m (key : EndpointId) (r : NetworkRecord) : MeshManager :=
  mkManager (mm_id m) (mm_networks m) (mm_pruned_peers m) (mm_active m) (mm_disk m) (mm_store m) (mm_sent m) (mm_closed m)
    (mm_published m ++ [(key, r)]) (mm_left m).

Definition set_state h (s : NetworkState) : NetworkHandle :=
  mkHandle (h_network_key h) (h_role h) (h_my_ip h) s (h_dht_notify h) (h_pulses h) (h_poller_pulses h) (h_peers h)
    (h_active h).
Definition set_active h (active : bool) : NetworkHandle :=
  mkHandle (h_network_key h) (h_role h) (h_my_ip h) (h_state h) (h_dht_notify h) (h_pulses h) (h_poller_pulses h)
    (h_peers h) active.
Definition wake h : NetworkHandle :=
  mkHandle (h_network_key h) (h_role h) (h_my_ip h) (h_state h) (h_dht_notify h)
    (if h_dht_notify h then h_pulses h + 1 else h_pulses h) (h_poller_pulses h) (h_peers h) (h_active h).
Definition put m (name : string) h : MeshManager := with_networks m (<[name := h]> (mm_networks m)).

(** One network as the connection handlers of [Admission] and [Coordinator] see it. *)
Definition mesh_ctx_for m h : Acceptor Conn :=
  mkAcceptor (h_state h) (mkLinks (h_peers h) (mm_pruned_peers m) (mm_closed m)) (mm_store m) (mm_sent m) (h_pulses h).
Definition from_ctx m (name : string) h (a : Acceptor Conn) : MeshManager :=
  mkManager (mm_id m)
    (<[name := mkHandle (h_network_key h) (h_role h) (h_my_ip h) (ac_state a) (h_dht_notify h) (ac_pulses a)
                 (h_poller_pulses h) (table (ac_links a)) (h_active h)]> (mm_networks m))
    (pruned_peers (ac_links a)) (mm_active m) (mm_disk m) (ac_store a) (ac_sent a) (closed (ac_links a)) (mm_published m)
    (mm_left m).

(** ** Naming networks and peers *)
Definition MIN_PREFIX_LEN : nat := 10.

Definition push_match (short : string) (matches : list EndpointId) (id : EndpointId) : list EndpointId :=
  if starts_with (id_to_string id) short && negb (bool_decide (id ∈ matches)) then (matches ++ [id])%list else matches.

Definition known_members m : list EndpointId :=
  m_identity <$> concat ((fun kh => roster (h_state kh.2)) <$> map_to_list (mm_networks m)).

Definition resolve_short_id_any_network m (short : string) : Result EndpointId Refusal :=
  if String.eqb short "self" then Ok (mm_id m)
  else if (String.length short <? MIN_PREFIX_LEN)%nat then Err TooShort
  else match fold_left (push_match short) (known_members m) [] with
       | [] => Err CannotResolve
       | [id] => Ok id
       | ids => Err (MatchesSeveral (length ids))
       end.

Definition resolve_network_short_id m (short : string) : Result string Refusal :=
  if (String.length short <? MIN_PREFIX_LEN)%nat then Err TooShort
  else match List.filter (fun kh => starts_with (id_to_string (h_network_key kh.2)) short) (map_to_list (mm_networks m)) with
       | [] => Err CannotResolve
       | [(name, _)] => Ok name
       | matches => Err (MatchesSeveral (length matches))
       end.

Definition resolve_network_name_or_key m (s : string) : Result string Refusal :=
  if bool_decide (is_Some (mm_networks m !! s)) then Ok s
  else match resolve_network_short_id m s with Ok name => Ok name | Err _ => Err UnknownNetwork end.

Definition eq_ignore_ascii_case (a b : string) : bool := String.eqb (ascii_lowercase a) (ascii_lowercase b).

Definition resolve_peer_name m (network name : string) : Result EndpointId Refusal :=
  match h ← mm_networks m !! network;
        List.find (fun mb => match m_hostname mb with Some hn => eq_ignore_ascii_case hn name | None => false end)
          (roster (h_state h)) with
  | Some mb => Ok (m_identity mb)
  | None => resolve_short_id_any_network m name
  end.

Definition coordinator_handle m (network : string) : Result EndpointId Refusal :=
  match mm_networks m !! network with
  | None => Err NotActive
  | Some h => if role_is_coordinator (h_role h) then Ok (h_network_key h) else Err NotCoordinator
  end.

(** A step that may refuse, in a command that has left the manager as [m] so far. *)
Notation "'let?' x ':=' r 'on' m 'in' k" :=
  (match r with Ok x => k | Err e => (m, Err e) end)
  (at level 10, x name, r at level 100, m at level 100, k at level 200, only parsing).

(** ** Invites *)
Definition DEFAULT_INVITE_EXPIRY : Z := 7 * 24 * 3600.
Definition default_invite_ttl (loaded : Result AppConfig StorageError) : Z :=
  match loaded with Ok c => default DEFAULT_INVITE_EXPIRY (cfg_invite_default_expiry c) | Err _ => DEFAULT_INVITE_EXPIRY end.

Definition invite_ttl (loaded : Result AppConfig StorageError) (expires : option string) : Result Z Refusal :=
  match expires with
  | None => Ok (default_invite_ttl loaded)
  | Some dur =>
      if String.eqb dur "0" || String.eqb dur "never" then Ok 0
      else match parse_duration dur with Ok secs => Ok secs | Err why => Err (BadDuration why) end
  end.

Definition store_state m (s : NetworkState) : MeshManager :=
  match snapshot s with Some sn => with_store m (snap_bytes sn) | None => m end.

Record NewInvite := mkNewInvite { ni_invite_key : string; ni_invite_id : string; ni_expires_at : option Z }.

(** [stored]: the blob store took the new bytes. *)
Definition invite_create m (network : string) (expires : option string) (loaded : Result AppConfig StorageError)
  (secret : list Z) (now : Z) (stored : bool) : MeshManager * Result NewInvite Refusal :=
  let? network := resolve_network_name_or_key m network on m in
  let? _ := coordinator_handle m network on m in
  match mm_networks m !! network with
  | None => (m, Err NotActive)
  | Some h =>
      let? ttl_secs := invite_ttl loaded expires on m in
      let '(key, entry) := invite_from_secret secret now ttl_secs in
      let s := bump_generation_and_refresh (set_invites (h_state h) (<[key := entry]> (invites (h_state h)))) in
      if negb stored then (put m network (set_state h s), Err BlobNotStored)
      else
        (store_state (put m network (wake (set_state h s))) s,
         Ok (mkNewInvite (encode_invite_code (h_network_key h) secret) (ie_id entry)
               (if ttl_secs =? 0 then None else Some (wrap 64 (now + ttl_secs)))))
  end.

Definition invite_list m (network : string) : Result (list InviteInfo) Refusal :=
  network <-? resolve_network_name_or_key m network;
  _ <-? coordinator_handle m network;
  match mm_networks m !! network with
  | None => Err NotActive
  | Some h =>
      Ok ((fun ke => mkInviteInfo (ie_id ke.2) (ie_created ke.2) (ie_expires ke.2) (ie_revoked ke.2))
            <$> btree_iter (invites (h_state h)))
  end.

Definition invite_revoke m (network invite_id : string) (stored : bool) : MeshManager * Result unit Refusal :=
  let? network := resolve_network_name_or_key m network on m in
  let? _ := coordinator_handle m network on m in
  match mm_networks m !! network with
  | None => (m, Err NotActive)
  | Some h =>
      match revoke_invite (invites (h_state h)) invite_id with
      | Err e => (m, Err (CannotRevoke e))
      | Ok revoked =>
          let s := bump_generation_and_refresh (set_invites (h_state h) revoked) in
          if negb stored then (put m network (set_state h s), Err BlobNotStored)
          else (store_state (put m network (wake (set_state h s))) s, Ok tt)
      end
  end.

(** ** Removing a member *)
Definition kick_member m (network_key endpoint_id : string) : MeshManager * Result EndpointId Refusal :=
  let? network := resolve_network_short_id m network_key on m in
  match mm_networks m !! network with
  | None => (m, Err UnknownNetwork)
  | Some h =>
      if bool_decide (network_secret_key (h_state h) = None) then (m, Err NotKeyHolder)
      else
        let? candidate := resolve_short_id_any_network m endpoint_id on m in
        match List.find (fun mb => bool_decide (m_identity mb = candidate)) (roster (h_state h)) with
        | None => (m, Err NotAMember)
        | Some mb =>
            let member_id := m_identity mb in
            if bool_decide (member_id = mm_id m) then (m, Err CannotKickYourself)
            else (from_ctx m network h
                    (finalize_removal network (h_network_key h) (h_dht_notify h)
                       (remove_member_roster_only (mesh_ctx_for m h) member_id) [member_id]), Ok member_id)
        end
  end.

(** ** Granting the network key *)

(** What the world answers to a grant: whether the message could be sent, the record
    found before each attempt to publish, and what a reconvergence after it finds. *)
Record GrantWorld := mkGrantWorld {
  gr_sent : bool;
  gr_record : nat -> option NetworkRecord;
  gr_lookup : nat -> Lookup;
}.

Definition connected_ids h (network : string) : list EndpointId := (peers_for_network (h_peers h) network).*1.

(** The manager after [store_and_publish_group]. *)
Definition publish_group m (network : string) : MeshManager :=
  match mm_networks m !! network with
  | None => m
  | Some h =>
      let m := store_state m (h_state h) in
      match store_and_publish_group (h_state h) (connected_ids h network) (mm_id m), network_secret_key (h_state h) with
      | Some r, Some key => with_published m (secret_public key) r
      | _, _ => m
      end
  end.

Definition nudge_members m (network : string) : MeshManager :=
  match mm_networks m !! network with
  | None => m
  | Some h => from_ctx m network h (broadcast_member_sync (mesh_ctx_for m h) None)
  end.

Definition set_saved_roster (net : NetworkConfig) (ms : list MemberEntry) (aps : list ApprovedConfigEntry) : NetworkConfig :=
  mkNetworkConfig (nc_name net) (nc_group_mode net) (nc_my_ip net) (nc_my_hostname net) ms aps (nc_network_secret_key net)
    (nc_network_public_key net) (nc_transport net) (nc_admins net) (nc_direct net) (nc_subnet net)
    (nc_nuke_consensus_threshold net).
Definition set_saved_hostname (net : NetworkConfig) (h : option string) : NetworkConfig :=
  mkNetworkConfig (nc_name net) (nc_group_mode net) (nc_my_ip net) h (nc_members net) (nc_approved net)
    (nc_network_secret_key net) (nc_network_public_key net) (nc_transport net) (nc_admins net) (nc_direct net)
    (nc_subnet net) (nc_nuke_consensus_threshold net).
Definition set_saved_admins (net : NetworkConfig) (admins : list EndpointId) : NetworkConfig :=
  mkNetworkConfig (nc_name net) (nc_group_mode net) (nc_my_ip net) (nc_my_hostname net) (nc_members net) (nc_approved net)
    (nc_network_secret_key net) (nc_network_public_key net) (nc_transport net) admins (nc_direct net) (nc_subnet net)
    (nc_nuke_consensus_threshold net).

Definition persist_roster (d : Disk) (network : string) (ms : list Member) (aps : list ApprovedEntry) : Disk :=
  update_ignore d network
    (fun net => let '((ms', aps'), changed) := merge_verified_roster (nc_members net, nc_approved net) ms aps in
                (set_saved_roster net ms' aps', changed)).

Definition save_ignore (d : Disk) (net : NetworkConfig) : Disk :=
  match save_network d net with Ok d' => d' | Err _ => d end.

Definition persist_hostname (d : Disk) (network : string) (ms : list Member) (me : EndpointId) : Disk :=
  match find_member ms me, load_network d network with
  | Some mine, Ok (Some net) =>
      let h := reconcile_local_hostname ms me (nc_my_hostname net) in
      if bool_decide (nc_my_hostname net = h) then d else save_ignore d (set_saved_hostname net h)
  | _, _ => d
  end.

(** [reconverge_and_apply] on the network's handle; [None] when it does not return. *)
Definition reconverge_now m (network : string) (lk : Lookup) : option MeshManager :=
  match mm_networks m !! network with
  | None => Some m
  | Some h =>
      match reconverge (h_state h) (mm_id m) (lk_record lk) (connected_ids h network) (lk_serve lk) with
      | Kept => Some m
      | Removed =>
          Some (mkManager (mm_id m) (mm_networks m) (mm_pruned_peers m) (mm_active m) (mm_disk m) (mm_store m) (mm_sent m)
                  (mm_closed m) (mm_published m) (mm_left m ++ [network]))
      | Stuck => None
      | Adopted s' tiebroken aps =>
          let links := prune_departed_peers s' network (mm_id m) (mkLinks (h_peers h) (mm_pruned_peers m) (mm_closed m)) in
          let m := from_ctx m network h (mkAcceptor s' links (mm_store m) (mm_sent m) (h_pulses h)) in
          Some (with_disk m (persist_hostname (persist_roster (mm_disk m) network tiebroken aps) network (roster s') (mm_id m)))
      end
  end.

Definition GRANT_PUBLISH_ATTEMPTS : nat := 3.

Definition assert_flag (s : NetworkState) (grantee : EndpointId) : NetworkState :=
  bump_generation_and_refresh (set_roster s (mark_coordinator (members s) grantee) (approved s)).

Fixpoint publish_grant_from (attempts : nat) m (network : string) (grantee : EndpointId) (w : GrantWorld) (i : nat)
  : option (MeshManager * Result unit Refusal) :=
  match attempts with
  | O => Some (m, Err FlagNotPublished)
  | S attempts =>
      match mm_networks m !! network with
      | None => Some (m, Err NotActive)
      | Some h =>
          let s := assert_flag (h_state h) grantee in
          let m := put m network (set_state h s) in
          match snapshot s with
          | None => Some (m, Err NoSnapshot)
          | Some sn =>
              match grant_publish_action (generation s) (snap_hash sn)
                      ((fun r => (rec_generation r, rec_hash r)) <$> gr_record w i) with
              | Publish => Some (nudge_members (publish_group m network) network, Ok tt)
              | AlreadyPublished => Some (nudge_members m network, Ok tt)
              | Reconverge =>
                  m ← reconverge_now m network (gr_lookup w i);
                  publish_grant_from attempts m network grantee w (S i)
              end
          end
      end
  end.

Definition publish_grant m (network : string) (grantee : EndpointId) (w : GrantWorld)
  : option (MeshManager * Result unit Refusal) :=
  publish_grant_from GRANT_PUBLISH_ATTEMPTS m network grantee w 0.

Definition record_grant (d : Disk) (network : string) (identity : EndpointId) : Disk :=
  match load_network d network with
  | Ok (Some net) =>
      if bool_decide (identity ∈ nc_admins net) then d
      else save_ignore d (set_saved_admins net (nc_admins net ++ [identity]))
  | _ => d
  end.

Definition grant_admin_key m (network : string) (identity : EndpointId) (w : GrantWorld)
  : option (MeshManager * Result unit Refusal) :=
  match mm_networks m !! network with
  | None => Some (m, Err NotActive)
  | Some h =>
      match network_secret_key (h_state h) with
      | None => Some (m, Err NotKeyHolder)
      | Some key =>
          match List.find (fun p => bool_decide (p.1.1 = identity)) (peers_for_network_with_conn (h_peers h) network) with
          | None => Some (m, Err NotConnected)
          | Some (_, _, conn) =>
              if negb (gr_sent w) then Some (m, Err GrantNotSent)
              else
                let m := with_sent m conn (AdminGrant (h_network_key h) key) in
                publish_grant (with_disk m (record_grant (mm_disk m) network identity)) network identity w
          end
      end
  end.

Definition admin_add m (network peer_str : string) (w : GrantWorld) : option (MeshManager * Result EndpointId Refusal) :=
  match resolve_network_name_or_key m network with
  | Err e => Some (m, Err e)
  | Ok network =>
      match resolve_peer_name m network peer_str with
      | Err e => Some (m, Err e)
      | Ok peer =>
          '(m, r) ← grant_admin_key m network peer w;
          Some (m, match r with Ok _ => Ok peer | Err e => Err e end)
      end
  end.

Definition admin_list m (network : string) (loaded : Result AppConfig StorageError) : Result (list AdminInfo) Refusal :=
  network <-? resolve_network_name_or_key m network;
  let self_holds_key :=
    match mm_networks m !! network with
    | Some h => bool_decide (is_Some (network_secret_key (h_state h)))
    | None => false
    end in
  let granted :=
    match loaded with
    | Ok cfg => match List.find (fun n => String.eqb (nc_name n) network) (cfg_networks cfg) with
                | Some net => (fun id => mkAdminInfo (id_fmt_short id) false) <$> nc_admins net
                | None => []
                end
    | Err _ => []
    end in
  let admins := ((if self_holds_key then [mkAdminInfo (id_fmt_short (mm_id m)) true] else []) ++ granted)%list in
  if negb self_holds_key && bool_decide (length admins = 0%nat) then Err NotCoordinator else Ok admins.

(** ** Leaving a network *)

(** The handle is dropped; the TUN device and the tasks go with it. *)
Definition teardown_network_runtime m (name : string) : MeshManager * bool :=
  match mm_networks m !! name with
  | None => (m, false)
  | Some _ => (with_networks m (delete name (mm_networks m)), true)
  end.

Definition is_coordinator_member (s : NetworkState) (id : EndpointId) : bool :=
  match MemberListM.get (members s) id with Some mb => m_is_coordinator mb | None => false end.

(** Whom a leave would leave without a coordinator. *)
Definition stranded_by_leave m (network : string) : list EndpointId :=
  match mm_networks m !! network with
  | None => []
  | Some h =>
      let s := h_state h in
      if is_coordinator_member s (mm_id m) && (coordinator_count (roster s) <=? 1)%nat
      then m_identity <$> List.filter (fun mb => negb (bool_decide (m_identity mb = mm_id m))) (roster s)
      else []
  end.

(** Members [connected] when the leave began are given the key one after the other:
    the number of those that took it, and the rest. *)
Fixpoint promote_members m (network : string) (connected ids : list EndpointId) (grants : EndpointId -> GrantWorld)
  (promoted : nat) (unreachable : list EndpointId) : option (MeshManager * nat * list EndpointId) :=
  match ids with
  | [] => Some (m, promoted, unreachable)
  | id :: ids =>
      if negb (bool_decide (id ∈ connected))
      then promote_members m network connected ids grants promoted (unreachable ++ [id])
      else
        '(m, r) ← grant_admin_key m network id (grants id);
        match r with
        | Ok _ => promote_members m network connected ids grants (S promoted) unreachable
        | Err _ => promote_members m network connected ids grants promoted (unreachable ++ [id])
        end
  end.

(** The part of a leave that nothing stops. *)
Definition leave_now m (network : string) (promoted : nat) : MeshManager * Result nat Refusal :=
  let m := match mm_networks m !! network with
           | Some h => with_closed m (all_connections (h_peers h)).*2
           | None => m
           end in
  let '(m, was_active) := teardown_network_runtime m network in
  let '(m, removed_from_config) :=
    match delete_network (mm_disk m) network with
    | Ok (d, removed) => (with_disk m d, removed)
    | Err _ => (m, false)
    end in
  (m, if was_active || removed_from_config then Ok promoted else Err NotFound).

Definition resolve_left m (network : string) : Result string Refusal :=
  match resolve_network_name_or_key m network with
  | Ok name => Ok name
  | Err e => match load_network (mm_disk m) network with Ok (Some _) => Ok network | _ => Err e end
  end.

Definition leave_network m (network : string) (force : bool) (grants : EndpointId -> GrantWorld)
  : option (MeshManager * Result nat Refusal) :=
  match resolve_left m network with
  | Err e => Some (m, Err e)
  | Ok network =>
      let other_members := if force then [] else stranded_by_leave m network in
      let connected := match mm_networks m !! network with
                       | Some h => (fun p => p.1.1) <$> peers_for_network_with_conn (h_peers h) network
                       | None => []
                       end in
      '(m, promoted, unreachable) ← promote_members m network connected other_members grants 0 [];
      Some (if bool_decide (unreachable = []) then leave_now m network promoted
            else (m, Err (MembersUnreachable promoted unreachable)))
  end.

Definition no_grants : EndpointId -> GrantWorld :=
  fun _ => mkGrantWorld false (fun _ => None) (fun _ => mkLookup None (fun _ _ => (None, 0))).

Definition handle_removed_from_network m (name : string) : option MeshManager :=
  '(m, _) ← leave_network m name true no_grants; Some m.

(** ** Destroying a network *)

(** [client]: a client of the record store could be made. *)
Definition publish_nuke_tombstone m (net_secret_key : option (list Z)) (generation : Z) (client : bool) : MeshManager :=
  match net_secret_key with
  | None => m
  | Some key =>
      if negb client then m
      else
        let empty_bytes := tombstone_bytes generation in
        with_published (with_store m empty_bytes) (secret_public key) (mkRecord (blake3_hash empty_bytes) generation [])
  end.

Inductive NukeReply := NukeLeft (promoted : nat) | NukeCancelled | NukeProposed (active threshold : Z).

Definition nuke_ttl (loaded : Result AppConfig StorageError) : Z :=
  match loaded with Ok c => default NUKE_PROPOSAL_TTL_SECS (cfg_nuke_proposal_ttl c) | Err _ => NUKE_PROPOSAL_TTL_SECS end.

(** The network is poisoned, then left. *)
Definition nuke_now m (network : string) (net_secret_key : option (list Z)) (generation : Z) (client : bool)
  : option (MeshManager * Result NukeReply Refusal) :=
  '(m, r) ← leave_network (publish_nuke_tombstone m net_secret_key generation client) network true no_grants;
  Some (m, match r with Ok n => Ok (NukeLeft n) | Err e => Err e end).

Definition nuke_network m (network_key : string) (force cancel : bool) (second : option string)
  (loaded : Result AppConfig StorageError) (now : Z) (client : bool) : option (MeshManager * Result NukeReply Refusal) :=
  match resolve_network_short_id m network_key with
  | Err e => Some (m, Err e)
  | Ok name =>
      match mm_networks m !! name with
      | None => Some (m, Err UnknownNetwork)
      | Some h =>
          let s := h_state h in
          let has_other_members := (1 <? length (roster s))%nat in
          if negb (is_coordinator_member s (mm_id m)) then Some (m, Err NotCoordinator)
          else if (coordinator_count (roster s) <=? 1)%nat then
            match solo_coordinator_nuke_outcome cancel (bool_decide (is_Some second)) has_other_members force with
            | NothingToCancelOrSecond => Some (m, Err NothingToCancel)
            | WouldStrandMembers => Some (m, Err WouldStrand)
            | Proceed => nuke_now m name (network_secret_key s) (wrap 64 (generation s + 1)) client
            end
          else if cancel then
            match nuke_proposals s !! id_to_string (mm_id m) with
            | None => Some (m, Err NoOwnProposal)
            | Some _ =>
                let s' := bump_generation_and_refresh
                            (set_nuke_proposals s (delete (id_to_string (mm_id m)) (nuke_proposals s))) in
                Some (store_state (put m name (wake (set_state h s'))) s', Ok NukeCancelled)
            end
          else if has_other_members && negb force then Some (m, Err WouldStrand)
          else
            match match second with
                  | Some short => resolve_nuke_proposer (nuke_proposals s) now (nuke_ttl loaded) short
                  | None => Ok ""
                  end with
            | Err e => Some (m, Err (NoSuchProposal e))
            | Ok _ =>
                let s' := bump_generation_and_refresh
                            (set_nuke_proposals s (<[id_to_string (mm_id m) := now]> (nuke_proposals s))) in
                let active := Z.of_nat (length (active_nuke_proposers (nuke_proposals s') now (nuke_ttl loaded))) in
                if active <? nuke_consensus_threshold s' then
                  Some (store_state (put m name (wake (set_state h s'))) s',
                        Ok (NukeProposed active (nuke_consensus_threshold s')))
                else nuke_now (put m name (set_state h s')) name (network_secret_key s') (wrap 64 (generation s' + 1)) client
            end
      end
  end.

(** ** The data plane *)
Definition targets m (network : option string) : Result (list string) Refusal :=
  match network with
  | Some name => if bool_decide (is_Some (mm_networks m !! name)) then Ok [name] else Err NotActive
  | None => Ok (map_to_list (mm_networks m)).*1
  end.

Definition set_default_active m (network : option string) (active : bool) : MeshManager :=
  match network with
  | Some _ => m
  | None => mkManager (mm_id m) (mm_networks m) (mm_pruned_peers m) active (mm_disk m) (mm_store m) (mm_sent m) (mm_closed m)
              (mm_published m) (mm_left m)
  end.

(** Sets the flag of one network: whether that changed it. *)
Definition switch_one (active : bool) (acc : MeshManager * bool) (name : string) : MeshManager * bool :=
  let '(m, any) := acc in
  match mm_networks m !! name with
  | None => acc
  | Some h => if Bool.eqb (h_active h) active then acc else (put m name (set_active h active), true)
  end.

Definition switch m (network : option string) (active : bool) : MeshManager * Result bool Refusal :=
  let? names := targets m network on m in
  let '(m, any) := fold_left (switch_one active) names (set_default_active m network active, false) in (m, Ok any).

Definition deactivate m (network : option string) : MeshManager * Result bool Refusal := switch m network false.

Definition set_default_hostname (c : AppConfig) (v : option string) : AppConfig :=
  mkAppConfig (cfg_operator_uid c) v (cfg_subnet c) (cfg_relay c) (cfg_discovery_dns c) (cfg_ratelimit c)
    (cfg_drop_monitor c) (cfg_path_flap c) (cfg_reconnect_log c) (cfg_reconnect_cold c) (cfg_reconnect_frozen c)
    (cfg_reconnect_holddown c) (cfg_ipc c) (cfg_hello c) (cfg_join c) (cfg_status_cache c) (cfg_nuke_proposal_ttl c)
    (cfg_listen_port c) (cfg_poller_interval c) (cfg_log_retention c) (cfg_invite_default_expiry c)
    (cfg_selfcapture_mitigation c) (cfg_log_level c) (cfg_path_preference c) (cfg_networks c).

(** The settings to save, if any: they are saved also when the rest is refused. *)
Definition activate m (hostname network : option string) (loaded : Result AppConfig StorageError)
  : option AppConfig * (MeshManager * Result bool Refusal) :=
  match hostname with
  | None => (None, switch m network true)
  | Some h =>
      let h := ascii_lowercase h in
      if negb (is_valid_hostname h) then (None, (m, Err (BadHostname h)))
      else (match loaded with Ok c => Some (set_default_hostname c (Some h)) | Err _ => None end, switch m network true)
  end.

Definition wake_poller m (name : string) : MeshManager :=
  match mm_networks m !! name with
  | None => m
  | Some h => put m name (mkHandle (h_network_key h) (h_role h) (h_my_ip h) (h_state h) (h_dht_notify h) (h_pulses h)
                            (h_poller_pulses h + 1) (h_peers h) (h_active h))
  end.

Definition sync_now m (network : option string) : MeshManager * Result (list string) Refusal :=
  let? names := targets m network on m in (fold_left wake_poller names m, Ok names).

(** ** Roles *)
Definition should_promote (current : NetworkRole) : bool := negb (role_is_coordinator current).

Definition promote_to_coordinator m (network : string) : MeshManager :=
  match mm_networks m !! network with
  | None => m
  | Some h =>
      if negb (should_promote (h_role h)) then m
      else put m network (mkHandle (h_network_key h) RoleCoordinator (h_my_ip h) (h_state h) (h_dht_notify h) (h_pulses h)
                            (h_poller_pulses h) (h_peers h) (h_active h))
  end.

(** ** Sweeping the marks of networks that are gone *)
Definition pruned_peer_entry_is_live (live_networks : gset string) (network_name : string) : bool :=
  bool_decide (network_name ∈ live_networks).

Definition pruned_peers_gc m : MeshManager :=
  mkManager (mm_id m) (mm_networks m)
    (filter (fun p => pruned_peer_entry_is_live (dom (mm_networks m)) p.1 = true) (mm_pruned_peers m)) (mm_active m) (mm_disk m) (mm_store m)
    (mm_sent m) (mm_closed m) (mm_published m) (mm_left m).

(** ** The node's own Veilid address *)
Definition wants_veilid m (name : string) : bool :=
  match load_network (mm_disk m) name with
  | Ok (Some nc) => match nc_transport nc with Some TransportVeilid => true | _ => false end
  | _ => false
  end.

Definition set_veilid (node_id : string) (mb : Member) : Member :=
  mkMember (m_identity mb) (m_ip mb) (m_is_coordinator mb) (m_hostname mb) (m_collision_index mb) (m_last_seen mb)
    (Some node_id).

Definition republish_own_veilid (node_id : string) m (name : string) : MeshManager :=
  match mm_networks m !! name with
  | None => m
  | Some h =>
      let s := h_state h in
      if bool_decide (network_secret_key s = None) || negb (wants_veilid m name) then m
      else match MemberListM.get (members s) (mm_id m) with
           | Some mb =>
               if bool_decide (m_veilid_node_id mb = Some node_id) then m
               else
                 let s' := bump_generation_and_refresh
                             (set_roster s (alter (set_veilid node_id) (mm_id m) (members s)) (approved s)) in
                 store_state (put m name (wake (set_state h s'))) s'
           | None => m
           end
  end.

Definition republish_own_veilid_identity m (veilid_node_id : option string) : MeshManager :=
  match veilid_node_id with
  | None => m
  | Some node_id => fold_left (republish_own_veilid node_id) (map_to_list (mm_networks m)).*1 m
  end.

Definition announce_veilid (node_id : string) m (name : string) : MeshManager :=
  match mm_networks m !! name with
  | None => m
  | Some h =>
      let s := h_state h in
      if bool_decide (is_Some (network_secret_key s)) || negb (wants_veilid m name) then m
      else match mb ← List.find m_is_coordinator (roster s);
                 List.find (fun p => bool_decide (p.1.1 = m_identity mb)) (peers_for_network_with_conn (h_peers h) name) with
           | Some (_, _, conn) =>
               with_sent m conn (MeshHello (mm_id m) (h_my_ip h) (outgoing_hostname name (mm_disk m)) (Some node_id))
           | None => m
           end
  end.

Definition announce_veilid_identity_to_coordinator m (veilid_node_id : option string) : MeshManager :=
  match veilid_node_id with
  | None => m
  | Some node_id => fold_left (announce_veilid node_id) (map_to_list (mm_networks m)).*1 m
  end.
End Manager.
Arguments NetworkHandle Conn : clear implicits.
Arguments MeshManager Disk Conn : clear implicits.

(** ** Properties *)
Section ManagerProofs.
Context `{IrohKeys, !IrohKeysLaws, Blake3, !Blake3Laws, GroupBlobCodec, Bs58, !Bs58Laws, NetworkStoreLaws Disk} {Conn : Type}.
Implicit Types (m : MeshManager Disk Conn) (h : NetworkHandle Conn).

Lemma push_match_spec short ids acc :
  NoDup acc ->
  NoDup (fold_left (push_match short) ids acc)
  /\ forall id, id ∈ fold_left (push_match short) ids acc
       <-> id ∈ acc \/ id ∈ ids /\ starts_with (id_to_string id) short = true.
Proof.
  revert acc. induction ids as [|x ids IH]; intros acc Hacc; cbn [fold_left].
  { split; [done|]. intros id. rewrite elem_of_nil. tauto. }
  assert (NoDup (push_match short acc x) /\ forall id, id ∈ push_match short acc x
            <-> id ∈ acc \/ id = x /\ starts_with (id_to_string id) short = true) as [Hp Hx].
  { unfold push_match. destruct (starts_with (id_to_string x) short) eqn:Hs; cbn [andb].
    - case_bool_decide as Hin; cbn [negb]; split; try done.
      + intros id. split; [tauto|]. by intros [?|[-> _]].
      + apply NoDup_app. split_and!; [done| |apply NoDup_singleton]. intros y Hy ->%list_elem_of_singleton. done.
      + intros id. rewrite elem_of_app, list_elem_of_singleton. split; [|tauto]. intros [?| ->]; tauto.
    - split; [done|]. intros id. split; [tauto|]. intros [?|[-> ?]]; [done|congruence]. }
  destruct (IH _ Hp) as [Hn He]. split; [done|]. intros id. rewrite He, Hx, elem_of_cons. tauto.
Qed.

(** A short id names the one known member whose key begins with it. *)
Lemma short_id_resolves m short id :
  resolve_short_id_any_network m short = Ok id <->
  short = "self" /\ id = mm_id m
  \/ short <> "self" /\ (MIN_PREFIX_LEN <= String.length short)%nat /\ id ∈ known_members m
     /\ starts_with (id_to_string id) short = true
     /\ forall id', id' ∈ known_members m -> starts_with (id_to_string id') short = true -> id' = id.
Proof.
  unfold resolve_short_id_any_network. destruct (String.eqb_spec short "self") as [->|Hself].
  { split; [intros [= <-]; by left|]. intros [[_ ->]|[? _]]; done. }
  destruct (Nat.ltb_spec (String.length short) MIN_PREFIX_LEN) as [Hlen|Hlen].
  { split; [done|]. intros [[? _]|(_ & ? & _)]; [done|lia]. }
  destruct (push_match_spec short (known_members m) []) as [Hn He]; [constructor|].
  set (l := fold_left _ _ _) in *.
  assert (forall id, id ∈ l <-> id ∈ known_members m /\ starts_with (id_to_string id) short = true) as Hl.
  { intros x. rewrite He, elem_of_nil. tauto. }
  split.
  - destruct l as [|x [|y l]]; [done| |done]. intros [= ->]. right. specialize (Hl id) as Hid.
    rewrite list_elem_of_singleton in Hid. split_and!; [done|done|by apply Hid..|].
    intros id' Hk Hs. by apply list_elem_of_singleton, Hl.
  - intros [[? _]|(_ & _ & Hk & Hs & Hu)]; [done|]. destruct l as [|x [|y l]].
    + assert (id ∈ []) as Hbad by (by apply Hl). by apply elem_of_nil in Hbad.
    + f_equal. destruct (proj1 (Hl x)); [left|]. by apply Hu.
    + destruct (proj1 (Hl x)) as [? ?]; [left|]. destruct (proj1 (Hl y)) as [? ?]; [right; left|].
      apply NoDup_cons in Hn as [Hn _]. destruct Hn. rewrite (Hu x), (Hu y) by done. left.
Qed.

(** The network is the only one whose key begins with the ten or more characters given. *)
Definition only_network m (short name : string) h : Prop :=
  (MIN_PREFIX_LEN <= String.length short)%nat /\ mm_networks m !! name = Some h
  /\ starts_with (id_to_string (h_network_key h)) short = true
  /\ forall name' h', mm_networks m !! name' = Some h' ->
       starts_with (id_to_string (h_network_key h')) short = true -> name' = name.

Lemma network_short_id_resolves m short name :
  resolve_network_short_id m short = Ok name <-> exists h, only_network m short name h.
Proof.
  unfold resolve_network_short_id, only_network. set (p := fun kh => _). set (l := List.filter p _).
  assert (forall k h, (k, h) ∈ l <-> mm_networks m !! k = Some h /\ starts_with (id_to_string (h_network_key h)) short = true) as Hl.
  { intros k h. unfold l. by rewrite list_elem_of_In, filter_In, <- list_elem_of_In, elem_of_map_to_list. }
  assert (NoDup l) as Hnd by (apply NoDup_ListNoDup, List.NoDup_filter, NoDup_ListNoDup, NoDup_map_to_list).
  destruct (Nat.ltb_spec (String.length short) MIN_PREFIX_LEN) as [Hlen|Hlen].
  { split; [done|]. intros (h & ? & _). lia. }
  split.
  - destruct l as [|[k h] [|]]; [done| |done]. intros [= ->]. exists h.
    destruct (proj1 (Hl name h)) as [Hk Hs]; [left|]. split_and!; [done..|].
    intros name' h' Hk' Hs'. assert ((name', h') ∈ [(name, h)]) as Hin by (by apply Hl).
    by apply list_elem_of_singleton in Hin as [= ->].
  - intros (h & _ & Hh & Hs & Hu). assert ((name, h) ∈ l) as Hin by (by apply Hl).
    assert (forall x, x ∈ l -> x = (name, h)) as Hall.
    { intros [k h'] [Hk Hs']%Hl. pose proof (Hu k h' Hk Hs') as ->. congruence. }
    destruct l as [|x [|y l]].
    + by apply elem_of_nil in Hin.
    + by rewrite (Hall x ltac:(left)).
    + apply NoDup_cons in Hnd as [Hx _]. destruct Hx. rewrite (Hall x ltac:(left)), (Hall y ltac:(right; left)). left.
Qed.

(** C7: A kick removes exactly the member it names, from exactly the network it names, both
    of which it was sure about: the network is the only one, and the member the only
    known one, whose key begins with what was typed, the caller holds the network's key
    and is not the target.  The member is off both lists, the new state is stored to be
    published, everyone is told, and its connections in this network, and no others, are
    closed and unrouted.  A refused kick changes nothing. *)
Theorem kick_exact m key arg :
  let '(m', r) := kick_member m key arg in
  match r with
  | Err _ => m' = m
  | Ok v => exists name h h',
      only_network m key name h /\ network_secret_key (h_state h) <> None
      /\ v <> mm_id m /\ v ∈ m_identity <$> roster (h_state h) /\ starts_with (id_to_string v) arg = true
      /\ (forall id, id ∈ known_members m -> starts_with (id_to_string id) arg = true -> id = v)
      /\ mm_networks m' = <[name := h']> (mm_networks m)
      /\ members (h_state h') = delete v (members (h_state h))
      /\ approved (h_state h') = delete v (approved (h_state h))
      /\ mm_store m' = state_bytes (h_state h') :: mm_store m
      /\ (forall ip c, (ip, c) ∈ all_connections (h_peers h) -> (c, MemberSync) ∈ mm_sent m')
      /\ (forall c, c ∈ mm_closed m' <-> c ∈ mm_closed m \/ exists ip e,
            v4 (h_peers h) !! ip = Some e /\ pe_conns e !! name = Some c /\ pe_endpoint_id e = v)
      /\ (forall ip net c, link4 (h_peers h') ip net = Some c <-> exists e,
            v4 (h_peers h) !! ip = Some e /\ pe_conns e !! net = Some c /\ ~ (net = name /\ pe_endpoint_id e = v))
  end.
Proof.
  unfold kick_member. destruct (resolve_network_short_id m key) as [name|e] eqn:Hnet; [|done].
  destruct (proj1 (network_short_id_resolves _ _ _) Hnet) as (h & Honly). pose proof Honly as (_ & Hh & _). rewrite Hh.
  case_bool_decide as Hkey; [done|].
  destruct (resolve_short_id_any_network m arg) as [v|e] eqn:Hv; [|done].
  destruct (List.find _ _) as [mb|] eqn:Hf; [|done]. apply find_some in Hf as [Hin Hid%bool_decide_eq_true].
  cbv zeta. rewrite Hid. case_bool_decide as Hme; [done|].
  apply short_id_resolves in Hv as [[_ ?]|(_ & _ & _ & Hs & Hu)]; [done|].
  destruct (removal_spec name (h_network_key h) (h_dht_notify h) (mesh_ctx_for m h) v) as (R1 & R2 & _ & _ & R5 & R6 & R7 & R8).
  eexists name, h, _. split_and!; [done..| |done|done|reflexivity|exact R1|exact R2|exact R5|exact R6|exact R7|exact R8].
  apply list_elem_of_fmap. exists mb. by rewrite list_elem_of_In.
Qed.

Lemma put_lookup m name h : mm_networks (put m name h) !! name = Some h.
Proof. apply lookup_insert_eq. Qed.

Lemma store_state_bumped m (s : NetworkState) :
  store_state m (bump_generation_and_refresh s) = with_store m (state_bytes (bump_generation_and_refresh s)).
Proof. done. Qed.

Lemma resolve_exact m name h : mm_networks m !! name = Some h -> resolve_network_name_or_key m name = Ok name.
Proof. intros Hh. unfold resolve_network_name_or_key. by rewrite Hh. Qed.

(** When a revocation has succeeded, the invite whose id was given lets nobody in. *)
Lemma invite_revoke_spec m name h secret e m' :
  mm_networks m !! name = Some h -> invites (h_state h) !! secret_hash secret = Some e ->
  invite_revoke m name (ie_id e) true = (m', Ok tt) ->
  exists h', mm_networks m' !! name = Some h' /\ forall t, validate_invite (invites (h_state h')) secret t = None.
Proof.
  intros Hh He. unfold invite_revoke. rewrite (resolve_exact _ _ _ Hh).
  destruct (coordinator_handle m name); [|done]. rewrite Hh.
  pose proof (revoke_invite_spec (invites (h_state h)) (ie_id e)) as Hspec.
  destruct (revoke_invite _ _) as [revoked|]; [|done]. cbn [negb]. intros [= <-].
  destruct Hspec as (x & e' & _ & Hu & _ & Hdead). rewrite store_state_bumped. eexists. split; [apply lookup_insert_eq|].
  intros t. apply Hdead. apply (Hu _ e). split; [done|by left].
Qed.

(** C17: an invite that was made works until it expires or is revoked.  The code that is
    shown decodes to this network and to the secret whose invite is in the new state;
    that state is stored for the peers to fetch, and the publisher is woken.  Before its
    expiry the secret is a credential that [Admission] takes; from then on, and after a
    successful revocation by the id that was shown, the invite is not. *)
Theorem invite_lifecycle m network expires loaded secret now m1 inv :
  length secret = SECRET_LEN -> bytes_ok secret -> 0 <= now ->
  invite_create m network expires loaded secret now true = (m1, Ok inv) ->
  exists name h h1 ttl,
    resolve_network_name_or_key m network = Ok name /\ mm_networks m !! name = Some h
    /\ role_is_coordinator (h_role h) = true /\ invite_ttl loaded expires = Ok ttl
    /\ mm_networks m1 = <[name := h1]> (mm_networks m) /\ members (h_state h1) = members (h_state h)
    /\ mm_store m1 = state_bytes (h_state h1) :: mm_store m
    /\ h_pulses h1 = (if h_dht_notify h then h_pulses h + 1 else h_pulses h)
    /\ decode_invite_code (ni_invite_key inv) = Ok (h_network_key h, secret)
    /\ (forall t, ttl = 0 \/ t < saturating_add 64 now ttl -> valid_credential (h_state h1) secret t)
    /\ (forall t, 0 < ttl -> saturating_add 64 now ttl <= t -> validate_invite (invites (h_state h1)) secret t = None)
    /\ (forall m2, invite_revoke m1 name (ni_invite_id inv) true = (m2, Ok tt) ->
          exists h2, mm_networks m2 !! name = Some h2
            /\ forall t, validate_invite (invites (h_state h2)) secret t = None).
Proof.
  intros Hlen Hok Hnow. unfold invite_create.
  destruct (resolve_network_name_or_key m network) as [name|] eqn:Hname; [|done].
  unfold coordinator_handle. destruct (mm_networks m !! name) as [h|] eqn:Hh; [|done].
  destruct (role_is_coordinator (h_role h)) eqn:Hrole; [|done].
  destruct (invite_ttl loaded expires) as [ttl|] eqn:Httl; [|done].
  unfold invite_from_secret. set (e := mkInviteEntry _ _ _ _). set (s1 := set_invites _ _).
  rewrite store_state_bumped. intros [= <- <-].
  assert (invites (bump_generation_and_refresh s1) !! secret_hash secret = Some e) as He by apply lookup_insert_eq.
  eexists name, h, _, ttl. cbn [mm_networks with_store put with_networks mm_store ni_invite_key ni_invite_id].
  split_and!; [done..|reflexivity|reflexivity|reflexivity|reflexivity|by apply decode_encode_code| | |].
  - intros t Ht. left. exists e. apply validate_invite_Some. split_and!; [done..|]. cbn [ie_expires e].
    destruct (Z.eqb_spec ttl 0); [by left|]. right. right. by destruct Ht.
  - intros t Hpos Ht. change (validate_invite (invites (bump_generation_and_refresh s1)) secret t = None).
    unfold validate_invite. rewrite He. cbn [mbind option_bind ie_revoked ie_expires e orb].
    unfold saturating_add in *. rewrite (proj2 (Z.eqb_neq ttl 0)) by lia.
    by rewrite (proj2 (Z.ltb_lt _ _)), (proj2 (Z.leb_le _ _)) by lia.
  - intros m2 Hr. apply (invite_revoke_spec _ name (wake (set_state h (bump_generation_and_refresh s1))) secret e m2
                       (lookup_insert_eq _ _ _) He Hr).
Qed.

(** The network is gone from the node and all its connections are closed; nothing else
    of the tables has changed. *)
Definition left_network m m' (name : string) h : Prop :=
  mm_networks m' = delete name (mm_networks m) /\ mm_closed m' = (mm_closed m ++ (all_connections (h_peers h)).*2)%list
  /\ mm_store m' = mm_store m /\ mm_sent m' = mm_sent m /\ mm_published m' = mm_published m
  /\ (forall d' b, delete_network (mm_disk m) name = Ok (d', b) -> mm_disk m' = d').

Lemma leave_now_spec m name h n :
  mm_networks m !! name = Some h -> (leave_now m name n).2 = Ok n /\ left_network m (leave_now m name n).1 name h.
Proof.
  intros Hh. unfold leave_now, teardown_network_runtime. rewrite Hh. cbn [mm_networks with_closed]. rewrite Hh.
  cbn [mm_disk with_closed with_networks]. destruct (delete_network (mm_disk m) name) as [[d b]|] eqn:Hd; cbn [fst snd orb];
    (split; [done|]); split_and!; try done; intros d' b' E; rewrite Hd in E; by simplify_eq.
Qed.

Lemma leave_forced m name h w : mm_networks m !! name = Some h -> leave_network m name true w = Some (leave_now m name 0).
Proof. intros Hh. unfold leave_network, resolve_left. by rewrite (resolve_exact _ _ _ Hh). Qed.

(** Who may destroy a network: its only coordinator, which the other members, if any,
    must not keep from it; or one of several, with [--force] and enough proposals. *)
Definition may_destroy m h (force : bool) (loaded : Result AppConfig StorageError) (now : Z) : Prop :=
  let s := h_state h in
  is_coordinator_member s (mm_id m) = true
  /\ ((length (roster s) <= 1)%nat \/ force = true)
  /\ ((coordinator_count (roster s) <= 1)%nat
      \/ nuke_consensus_reached (<[id_to_string (mm_id m) := now]> (nuke_proposals s)) now (nuke_consensus_threshold s)
           (nuke_ttl loaded) = true).

(** The record that poisons the network is published, if the node has the key and a
    client, and the network is left. *)
Definition destroyed m m' (name : string) h (client : bool) : Prop :=
  mm_networks m' = delete name (mm_networks m)
  /\ mm_closed m' = (mm_closed m ++ (all_connections (h_peers h)).*2)%list
  /\ forall key, network_secret_key (h_state h) = Some key -> client = true -> exists g,
       mm_published m' = (mm_published m ++ [(secret_public key, mkRecord (blake3_hash (tombstone_bytes g)) g [])])%list
       /\ tombstone_bytes g ∈ mm_store m'.

(** Nothing but the node's own proposal has changed. *)
Definition only_proposal m m' (name : string) h (s' : NetworkState) : Prop :=
  mm_networks m' = <[name := wake (set_state h s')]> (mm_networks m) /\ mm_published m' = mm_published m
  /\ mm_closed m' = mm_closed m /\ mm_sent m' = mm_sent m /\ mm_store m' = state_bytes s' :: mm_store m
  /\ members s' = members (h_state h)
  /\ forall id, id <> id_to_string (mm_id m) -> nuke_proposals s' !! id = nuke_proposals (h_state h) !! id.

Lemma nuke_now_spec m name h s g client :
  mm_networks m !! name = Some h ->
  exists m', nuke_now (put m name (set_state h s)) name (network_secret_key (h_state h)) g client = Some (m', Ok (NukeLeft 0))
    /\ destroyed m m' name h client.
Proof.
  intros Hh. unfold nuke_now. set (m0 := publish_nuke_tombstone _ _ _ _).
  assert (mm_networks m0 = <[name := set_state h s]> (mm_networks m) /\ mm_closed m0 = mm_closed m) as [Hn Hc].
  { unfold m0, publish_nuke_tombstone. destruct (network_secret_key _), client; done. }
  assert (mm_networks m0 !! name = Some (set_state h s)) as Hh0 by (rewrite Hn; apply lookup_insert_eq).
  rewrite (leave_forced _ _ _ _ Hh0). destruct (leave_now_spec m0 name _ 0 Hh0) as (Hr & L1 & L2 & L3 & _ & L5 & _).
  destruct (leave_now m0 name 0) as [m' r]. cbn [fst snd mbind option_bind] in *. subst r.
  exists m'. split; [done|]. split_and!.
  - by rewrite L1, Hn, delete_insert_eq.
  - by rewrite L2, Hc.
  - intros key Hkey ->. exists g. rewrite L5, L3. unfold m0, publish_nuke_tombstone. rewrite Hkey. cbn [negb].
    split; [done|]. left.
Qed.

Local Ltac solve_refused := do 2 eexists; split; [reflexivity|]; left; eexists; split; reflexivity.


(** ** What a grant leaves alone *)
Lemma remove_conn_sub (t : gmap Z (PeerEntry Conn)) k net ip e' :
  remove_conn t k net !! ip = Some e' ->
  exists e, t !! ip = Some e /\ pe_endpoint_id e = pe_endpoint_id e' /\ pe_conns e' ⊆ pe_conns e.
Proof.
  assert (alter (drop_network net) k t !! ip = Some e' -> exists e, t !! ip = Some e
            /\ pe_endpoint_id e = pe_endpoint_id e' /\ pe_conns e' ⊆ pe_conns e) as Halter.
  { rewrite lookup_alter_Some. intros [(<- & e & He & ->)|[_ He]].
    - exists e. split_and!; [done..|]. apply delete_subseteq.
    - by exists e'. }
  unfold remove_conn. destruct (alter _ _ _ !! k); [|done]. case_bool_decide; [|done].
  rewrite lookup_delete_Some. intros [_ He]. by apply Halter.
Qed.

Lemma remove_peer_sub (t : PeerTable Conn) ip ip6 net n p :
  p ∈ peers_for_network_with_conn (remove_peer_from_network t ip ip6 net) n -> p ∈ peers_for_network_with_conn t n.
Proof.
  rewrite !peers_with_conn_elem. intros (i & e' & He & Hc & Hp). cbn [v4 remove_peer_from_network] in He.
  apply remove_conn_sub in He as (e & He & Hid & Hsub). exists i, e. split_and!; [done| |by rewrite Hid].
  eapply lookup_weaken; [exact Hc|done].
Qed.

Lemma prune_sub (s : NetworkState) net me l n (p : EndpointId * Ipv4Addr * Conn) :
  p ∈ peers_for_network_with_conn (table (prune_departed_peers s net me l)) n ->
  p ∈ peers_for_network_with_conn (table l) n.
Proof.
  unfold prune_departed_peers. generalize (peers_for_network_with_conn (table l) net) as ps. intros ps.
  revert l. induction ps as [|[[pid ip] c] ps IH]; intros l; [done|]. cbn [fold_left]. intros Hp%IH.
  unfold prune_one in Hp. destruct (_ || _); [done|]. by apply remove_peer_sub in Hp.
Qed.

(** What every step of a grant keeps: the other networks, the keys, the messages sent
    before; connections are only ever removed. *)
Definition grant_frame m m' (network : string) : Prop :=
  mm_id m' = mm_id m /\ mm_sent m `prefix_of` mm_sent m'
  /\ (forall other, other <> network -> mm_networks m' !! other = mm_networks m !! other)
  /\ forall h', mm_networks m' !! network = Some h' -> exists h, mm_networks m !! network = Some h
       /\ h_network_key h' = h_network_key h /\ network_secret_key (h_state h') = network_secret_key (h_state h)
       /\ forall p, p ∈ peers_for_network_with_conn (h_peers h') network ->
                    p ∈ peers_for_network_with_conn (h_peers h) network.

Lemma grant_frame_refl m network : grant_frame m m network.
Proof. split_and!; [done..|]. intros h' Hh'. exists h'. split_and!; [done..|]. tauto. Qed.

Lemma grant_frame_trans m1 m2 m3 network :
  grant_frame m1 m2 network -> grant_frame m2 m3 network -> grant_frame m1 m3 network.
Proof.
  intros (A1 & A2 & A3 & A4) (B1 & B2 & B3 & B4). split_and!.
  - by rewrite B1.
  - by etrans.
  - intros o Ho. by rewrite B3, A3.
  - intros h3 H3'. destruct (B4 h3 H3') as (h2 & E2 & K2 & S2 & P2). destruct (A4 h2 E2) as (h1 & E1 & K1 & S1 & P1).
    exists h1. split_and!; [done|by rewrite K2|by rewrite S2|]. intros p Hp. by apply P1, P2.
Qed.

Lemma grant_frame_put m network h h' :
  mm_networks m !! network = Some h -> h_network_key h' = h_network_key h ->
  network_secret_key (h_state h') = network_secret_key (h_state h) ->
  (forall p, p ∈ peers_for_network_with_conn (h_peers h') network -> p ∈ peers_for_network_with_conn (h_peers h) network) ->
  forall m', mm_id m' = mm_id m -> mm_sent m `prefix_of` mm_sent m' ->
  mm_networks m' = <[network := h']> (mm_networks m) -> grant_frame m m' network.
Proof.
  intros Hh Hk Hs Hp m' Hid Hsent Hnets. split_and!; [done..| |].
  - intros o Ho. rewrite Hnets. by apply lookup_insert_ne.
  - intros h1 E. rewrite Hnets, lookup_insert_eq in E. injection E as <-. by exists h.
Qed.

Lemma grant_frame_same m m' network :
  mm_id m' = mm_id m -> mm_sent m `prefix_of` mm_sent m' -> mm_networks m' = mm_networks m -> grant_frame m m' network.
Proof.
  intros Hid Hsent Hnets. split_and!; [done..| |].
  - intros o _. by rewrite Hnets.
  - intros h' Hh'. rewrite Hnets in Hh'. exists h'. split_and!; [done..|]. tauto.
Qed.

Lemma publish_group_frame m network h key :
  mm_networks m !! network = Some h -> network_secret_key (h_state h) = Some key ->
  let m' := publish_group m network in
  grant_frame m m' network /\ mm_networks m' = mm_networks m
  /\ forall sn, snapshot (h_state h) = Some sn -> exists seeds,
       mm_published m' = (mm_published m ++ [(secret_public key, mkRecord (snap_hash sn) (generation (h_state h)) seeds)])%list.
Proof.
  intros Hh Hkey. unfold publish_group, store_state, store_and_publish_group. rewrite Hh, Hkey.
  destruct (snapshot (h_state h)) as [sn|]; (split_and!; [by apply grant_frame_same|done|]); [|done].
  intros sn' [= <-]. by eexists.
Qed.

Lemma nudge_members_frame m network h :
  mm_networks m !! network = Some h ->
  let m' := nudge_members m network in
  grant_frame m m' network /\ mm_networks m' !! network = Some h /\ mm_published m' = mm_published m.
Proof.
  intros Hh. unfold nudge_members. rewrite Hh.
  destruct (broadcast_member_sync_sent (mesh_ctx_for m h) None) as (E1 & E2 & E3 & E4 & l & E5).
  unfold from_ctx. rewrite E1, E2, E3, E4, E5. cbn [table ac_links mesh_ctx_for pruned_peers closed ac_state ac_pulses].
  assert (mkHandle (h_network_key h) (h_role h) (h_my_ip h) (h_state h) (h_dht_notify h) (h_pulses h) (h_poller_pulses h)
            (h_peers h) (h_active h) = h) as -> by (by destruct h).
  split_and!; [|apply lookup_insert_eq|done]. apply (grant_frame_put _ _ h h); try done. by exists l.
Qed.

Lemma reconverge_keeps_key s me rec connected serve s' ms aps :
  reconverge s me rec connected serve = Adopted s' ms aps -> network_secret_key s' = network_secret_key s.
Proof.
  unfold reconverge. destruct rec; [|done]. destruct (trusted_reconverge_hash _ _); [|done].
  destruct (obtain_blob _ _ _); [|done]. unfold reconverge_finish. destruct (member_removed _ _ _); [done|].
  destruct (_ <? _); [done|]. destruct (resolve_ip_tiebreak _ _); [|done]. by intros [= <- _ _].
Qed.

Lemma reconverge_now_frame m network lk m' : reconverge_now m network lk = Some m' -> grant_frame m m' network.
Proof.
  unfold reconverge_now. destruct (mm_networks m !! network) as [h|] eqn:Hh; [|intros [= <-]; apply grant_frame_refl].
  destruct (reconverge _ _ _ _ _) as [| |s' ms aps|] eqn:Hr; [intros [= <-]; apply grant_frame_refl| | |done].
  - intros [= <-]. by apply grant_frame_same.
  - intros [= <-]. apply reconverge_keeps_key in Hr.
    eapply (grant_frame_put _ _ h); [done| | | |reflexivity|reflexivity|reflexivity]; [done|done|].
    intros p Hp. by apply prune_sub in Hp.
Qed.

(** The grantee is flagged in the network's state, and the record store was given that
    state or was found to have it. *)
Definition flag_announced m (network : string) (grantee : EndpointId) (w : GrantWorld) : Prop :=
  exists h, mm_networks m !! network = Some h
  /\ (forall mb, members (h_state h) !! grantee = Some mb -> m_is_coordinator mb = true)
  /\ let r := (blake3_hash (state_bytes (h_state h)), generation (h_state h)) in
     (exists i rec, gr_record w i = Some rec /\ (rec_hash rec, rec_generation rec) = r)
     \/ (exists key rec, network_secret_key (h_state h) = Some key /\ last (mm_published m) = Some (secret_public key, rec)
           /\ (rec_hash rec, rec_generation rec) = r).

Lemma assert_flag_flags s grantee mb : members (assert_flag s grantee) !! grantee = Some mb -> m_is_coordinator mb = true.
Proof.
  change (members (assert_flag s grantee)) with (alter member_set_coordinator grantee (members s)).
  rewrite lookup_alter_Some. intros [(_ & m0 & _ & ->)|[? _]]; done.
Qed.

Lemma publish_grant_spec k m network grantee w i key m' r :
  (forall h, mm_networks m !! network = Some h -> network_secret_key (h_state h) = Some key) ->
  publish_grant_from k m network grantee w i = Some (m', r) ->
  grant_frame m m' network /\ (r = Ok tt -> flag_announced m' network grantee w).
Proof.
  revert m i. induction k as [|k IH]; intros m i Hkey; cbn [publish_grant_from].
  { intros [= <- <-]. split; [apply grant_frame_refl|done]. }
  destruct (mm_networks m !! network) as [h|] eqn:Hh; [|intros [= <- <-]; split; [apply grant_frame_refl|done]].
  specialize (Hkey h eq_refl). set (s := assert_flag (h_state h) grantee). set (m1 := put m network (set_state h s)).
  assert (grant_frame m m1 network) as F1 by (by apply (grant_frame_put _ _ h (set_state h s))).
  assert (mm_networks m1 !! network = Some (set_state h s)) as Hh1 by apply lookup_insert_eq.
  assert (snapshot s = Some (mkSnapshot (blake3_hash (state_bytes s)) (state_bytes s))) as Hsn by done.
  rewrite Hsn. cbn [snap_hash]. pose proof (assert_flag_flags (h_state h) grantee) as Hflag. fold s in Hflag.
  destruct (grant_publish_action _ _ _) eqn:Hact.
  - intros [= <- <-]. destruct (publish_group_frame m1 network _ key Hh1 Hkey) as (F2 & N2 & P2).
    destruct (P2 _ Hsn) as (seeds & P2'). rewrite <- N2 in Hh1. destruct (nudge_members_frame _ network _ Hh1) as (F3 & N3 & P3).
    split; [by do 2 (eapply grant_frame_trans; [eassumption|])|]. intros _. exists (set_state h s). split_and!; [done..|]. right.
    exists key, (mkRecord (blake3_hash (state_bytes s)) (generation s) seeds). split_and!; [done| |done].
    by rewrite P3, P2', last_snoc.
  - intros [= <- <-]. destruct (nudge_members_frame _ network _ Hh1) as (F3 & N3 & P3).
    split; [by eapply grant_frame_trans|]. intros _. exists (set_state h s). split_and!; [done..|]. left.
    unfold grant_publish_action in Hact. destruct (gr_record w i) as [rec|] eqn:Hrec; [|done].
    cbn [fmap option_fmap option_map] in Hact. exists i, rec.
    split; [done|]. destruct (Z.compare_spec (generation s) (rec_generation rec)) as [E| |]; [|done|done].
    case_bool_decide as E'; [|done]. cbn [h_state set_state]. by rewrite E', E.
  - destruct (reconverge_now m1 network (gr_lookup w i)) as [m2|] eqn:Hm2; [|done]. apply reconverge_now_frame in Hm2 as F2.
    cbn [mbind option_bind]. intros Hrest. assert (grant_frame m m2 network) as F by (by eapply grant_frame_trans).
    destruct (IH m2 (S i)) as [F3 Hok]; [|done|split; [by eapply grant_frame_trans|done]].
    intros h2 Hh2. destruct F as (_ & _ & _ & F4). destruct (F4 h2 Hh2) as (h0 & E0 & _ & -> & _). congruence.
Qed.

(** [id] was sent the key over its connection in the network. *)
Definition was_granted m m' (network : string) (id : EndpointId) : Prop :=
  exists h key ip conn, mm_networks m !! network = Some h /\ network_secret_key (h_state h) = Some key
    /\ (id, ip, conn) ∈ peers_for_network_with_conn (h_peers h) network
    /\ (conn, AdminGrant (h_network_key h) key) ∈ mm_sent m'.

Lemma grant_admin_key_spec m network id w m' r :
  grant_admin_key m network id w = Some (m', r) ->
  grant_frame m m' network /\ (r = Ok tt -> was_granted m m' network id /\ flag_announced m' network id w).
Proof.
  unfold grant_admin_key. pose proof (grant_frame_refl m network) as Hrefl.
  destruct (mm_networks m !! network) as [h|] eqn:Hh; [|by intros [= <- <-]].
  destruct (network_secret_key (h_state h)) as [key|] eqn:Hkey; [|by intros [= <- <-]].
  destruct (List.find _ _) as [[[i ip] conn]|] eqn:Hf; [|by intros [= <- <-]].
  apply find_some in Hf as [Hin Hid%bool_decide_eq_true]. cbn in Hid. subst i. rewrite <- list_elem_of_In in Hin.
  destruct (gr_sent w); cbn [negb]; [|by intros [= <- <-]].
  set (m1 := with_disk _ _). intros Hp.
  assert (grant_frame m m1 network) as F1 by (apply grant_frame_same; [done|by eexists|done]).
  destruct (publish_grant_spec GRANT_PUBLISH_ATTEMPTS m1 network id w 0 key m' r) as [F2 Hok]; [|exact Hp|].
  { intros h0 E. change (mm_networks m1) with (mm_networks m) in E. congruence. }
  split; [by eapply grant_frame_trans|]. intros Hr. split; [|by apply Hok].
  exists h, key, ip, conn. split_and!; [done..|]. destruct F2 as (_ & [l Hl] & _). rewrite Hl.
  apply elem_of_app. left. apply elem_of_app. right. left.
Qed.

Lemma promote_members_spec m network connected ids grants p u m' p' u' :
  promote_members m network connected ids grants p u = Some (m', p', u') ->
  grant_frame m m' network
  /\ (u' = [] -> u = [] /\ p' = (p + length ids)%nat /\ forall id, id ∈ ids -> was_granted m m' network id).
Proof.
  revert m p u. induction ids as [|id ids IH]; intros m p u; cbn [promote_members].
  { intros [= <- <- <-]. split; [apply grant_frame_refl|]. intros ->. split_and!; [done|cbn; lia|].
    intros id []%elem_of_nil. }
  assert (forall m, promote_members m network connected ids grants p (u ++ [id]) = Some (m', p', u') ->
            grant_frame m m' network /\ (u' = [] -> False)) as Hskip.
  { intros m0 [F Hu]%IH. split; [done|]. intros [E%app_nil _]%Hu. by destruct E. }
  destruct (negb _); [intros [F Hu]%Hskip; split; [done|]; intros E; by destruct (Hu E)|].
  destruct (grant_admin_key m network id (grants id)) as [[m1 r]|] eqn:Hg; [|done]. cbn [mbind option_bind].
  apply grant_admin_key_spec in Hg as [F1 Hok]. destruct r as [[]|e].
  - intros [F2 Hu]%IH. split; [by eapply grant_frame_trans|]. intros E. destruct (Hu E) as (-> & -> & Hall).
    split_and!; [done|cbn; lia|]. intros id' [->|Hid']%elem_of_cons.
    + destruct (Hok eq_refl) as [(h & key & ip & conn & ? & ? & ? & Hsent) _]. exists h, key, ip, conn. split_and!; [done..|].
      destruct F2 as (_ & [l Hl] & _). rewrite Hl. apply elem_of_app. by left.
    + destruct (Hall id' Hid') as (h1 & key & ip & conn & E1 & K1 & P1 & Hsent). destruct F1 as (_ & _ & _ & F4).
      destruct (F4 h1 E1) as (h & Eh & Ek & Es & Ep). exists h, key, ip, conn. rewrite <- Ek, <- Es.
      split_and!; [done|done|by apply Ep|done].
  - intros [F2 Hu]%Hskip. split; [by eapply grant_frame_trans|]. intros E. by destruct (Hu E).
Qed.

Lemma leave_now_tables m name n :
  let m' := (leave_now m name n).1 in
  mm_networks m' = delete name (mm_networks m) /\ mm_sent m' = mm_sent m
  /\ (load_network (mm_disk m') name = Ok None \/ exists e, delete_network (mm_disk m') name = Err e).
Proof.
  unfold leave_now. set (m1 := match mm_networks m !! name with Some h => with_closed m _ | None => m end).
  assert (mm_networks m1 = mm_networks m /\ mm_sent m1 = mm_sent m) as [N1 S1].
  { unfold m1. by destruct (mm_networks m !! name). }
  unfold teardown_network_runtime. rewrite N1.
  destruct (mm_networks m !! name) as [h|] eqn:Hh; cbn [mm_disk with_networks];
    destruct (delete_network (mm_disk m1) name) as [[d b]|e] eqn:Hd; cbn [fst mm_networks mm_sent mm_disk with_disk with_networks];
    rewrite ?N1; (split_and!; [by rewrite ?delete_id by done|done|]);
    first [left; by eapply load_deleted|right; by exists e].
Qed.

Lemma leave_now_count m name n k : (leave_now m name n).2 = Ok k -> k = n.
Proof.
  unfold leave_now. destruct (teardown_network_runtime _ _) as [m1 w].
  destruct (delete_network (mm_disk m1) name) as [[d b]|e]; cbn [snd].
  - destruct (w || b); by intros [= <-].
  - destruct (w || false); by intros [= <-].
Qed.



Lemma kick_state name h (a : Acceptor Conn) v :
  ac_state (finalize_removal name (h_network_key h) (h_dht_notify h) (remove_member_roster_only a v) [v])
  = bump_generation_and_refresh
      (set_roster (ac_state a) (delete v (members (ac_state a))) (delete v (approved (ac_state a)))).
Proof.
  unfold finalize_removal. set (b := remove_member_roster_only a v).
  destruct (broadcast_member_sync_sent (republish (h_dht_notify h) b) None) as (E1 & _).
  set (b1 := broadcast_member_sync _ _) in *.
  destruct (sever_fold name (h_network_key h) [v] (peers_for_network_with_conn (table (ac_links b1)) name) b1) as (F1 & _).
  by rewrite F1, E1.
Qed.

Lemma two_active proposals now ttl (a b : string) :
  a <> b -> (exists t, proposals !! a = Some t /\ saturating_sub now t < ttl) ->
  (exists t, proposals !! b = Some t /\ saturating_sub now t < ttl) ->
  2 <= Z.of_nat (length (active_nuke_proposers proposals now ttl)).
Proof.
  rewrite <- !active_elem. intros Hab Ha Hb. change 2 with (Z.of_nat (length [a; b])). apply Nat2Z.inj_le.
  apply submseteq_length, NoDup_submseteq.
  - repeat constructor; rewrite ?elem_of_nil, ?list_elem_of_singleton; tauto.
  - intros x [->|[->|[]%elem_of_nil]%elem_of_cons]%elem_of_cons; done.
Qed.

(** A proposal to destroy a network outlives the membership of who made it.  Of three or
    more coordinators one proposes, and is removed; its proposal stays and counts, so that
    the next coordinator to ask destroys the network alone, although the network asks for
    two. *)
Theorem kicked_proposal_counts m key arg v name h t now loaded client :
  let m1 := (kick_member m key arg).1 in
  only_network m key name h -> (kick_member m key arg).2 = Ok v ->
  is_coordinator_member (h_state h) (mm_id m) = true ->
  (1 < coordinator_count (MemberListM.all (delete v (members (h_state h)))))%nat ->
  nuke_consensus_threshold (h_state h) = 2 -> nuke_proposals (h_state h) = {[ id_to_string v := t ]} ->
  saturating_sub now t < nuke_ttl loaded -> 0 < nuke_ttl loaded -> 0 <= now ->
  exists m2 h1, mm_networks m1 !! name = Some h1 /\ members (h_state h1) !! v = None
    /\ nuke_network m1 key true false None loaded now client = Some (m2, Ok (NukeLeft 0))
    /\ destroyed m1 m2 name h1 client.
Proof.
  intros m1 Honly Hkick Hcoord Hmany Hthr Hprops Hactive Httl Hnow. unfold m1 in *. clear m1.
  unfold kick_member in *. rewrite (proj2 (network_short_id_resolves m key name)) in * by eauto.
  pose proof Honly as (Hlen & Hh & Hs & Hu). rewrite Hh in *.
  case_bool_decide; [done|]. destruct (resolve_short_id_any_network m arg); [|done].
  destruct (List.find _ _) as [mb|]; [|done]. cbv zeta in *. case_bool_decide as Hme; [done|]. cbn [fst snd] in *.
  injection Hkick as Hv. rewrite Hv in *. set (m1 := from_ctx _ _ _ _).
  assert (exists h1, mm_networks m1 = <[name := h1]> (mm_networks m) /\ h_network_key h1 = h_network_key h
    /\ h_state h1 = bump_generation_and_refresh
                      (set_roster (h_state h) (delete v (members (h_state h))) (delete v (approved (h_state h))))) as (h1 & N1 & K1 & S1).
  { eexists. split_and!; [reflexivity|done|]. cbn [h_state]. apply (kick_state name h (mesh_ctx_for m h)). }
  assert (mm_networks m1 !! name = Some h1) as Hh1 by (rewrite N1; apply lookup_insert_eq).
  assert (only_network m1 key name h1) as Honly1.
  { split_and!; [done..|by rewrite K1|]. intros name' h' Hn' Hs'. destruct (decide (name' = name)); [done|].
    rewrite N1, lookup_insert_ne in Hn' by done. by apply (Hu name' h'). }
  unfold nuke_network. rewrite (proj2 (network_short_id_resolves m1 key name)) by eauto. rewrite Hh1, S1.
  set (s1 := bump_generation_and_refresh _).
  assert (is_coordinator_member s1 (mm_id m1) = true) as ->.
  { unfold is_coordinator_member in *. cbn. unfold MemberListM.get in *. by rewrite lookup_delete_ne. }
  assert (roster s1 = MemberListM.all (delete v (members (h_state h)))) as -> by done.
  rewrite (proj2 (Nat.leb_gt _ _) Hmany). cbn [negb andb]. rewrite andb_false_r.
  set (s2 := bump_generation_and_refresh (set_nuke_proposals s1 _)).
  assert (2 <= Z.of_nat (length (active_nuke_proposers (nuke_proposals s2) now (nuke_ttl loaded)))) as Hcount.
  { apply (two_active _ _ _ (id_to_string (mm_id m)) (id_to_string v)).
    - by intros E%(inj id_to_string).
    - exists now. split; [apply lookup_insert_eq|]. unfold saturating_sub. lia.
    - exists t. split; [|done]. cbn. rewrite lookup_insert_ne, Hprops; [apply lookup_singleton_eq|].
      by intros E%(inj id_to_string). }
  assert (nuke_consensus_threshold s2 = 2) as -> by done. rewrite (proj2 (Z.ltb_ge _ _) Hcount).
  destruct (nuke_now_spec m1 name h1 s2 (wrap 64 (generation s2 + 1)) client Hh1) as (m2 & Hm2 & Hd).
  exists m2, h1. split_and!; [done|by rewrite S1; apply lookup_delete_eq| |done].
  rewrite S1 in Hm2. exact Hm2.
Qed.

Lemma set_active_id h active : h_active h = active -> set_active h active = h.
Proof. destruct h; cbn. by intros ->. Qed.

Lemma switch_fold active names m b :
  let '(m', b') := fold_left (switch_one active) names (m, b) in
  (forall name, mm_networks m' !! name
     = if bool_decide (name ∈ names) then (fun h => set_active h active) <$> mm_networks m !! name else mm_networks m !! name)
  /\ (b' = true <-> b = true \/ exists name h, name ∈ names /\ mm_networks m !! name = Some h /\ h_active h <> active).
Proof.
  revert m b. induction names as [|x names IH]; intros m b; cbn [fold_left].
  { split; [done|]. split; [by left|]. intros [?|(n & h & []%elem_of_nil & _)]. done. }
  assert (exists m1 b1, switch_one active (m, b) x = (m1, b1)
    /\ (forall name, mm_networks m1 !! name
          = if bool_decide (name = x) then (fun h => set_active h active) <$> mm_networks m !! name else mm_networks m !! name)
    /\ (b1 = true <-> b = true \/ exists h, mm_networks m !! x = Some h /\ h_active h <> active)) as (m1 & b1 & -> & Hn & Hb).
  { unfold switch_one. destruct (mm_networks m !! x) as [h|] eqn:Hx.
    - destruct (Bool.eqb_spec (h_active h) active) as [E|E]; do 2 eexists; (split; [done|]); split.
      + intros name. case_bool_decide as En; [subst name|done]. rewrite Hx. cbn. by rewrite set_active_id.
      + split; [by left|]. intros [?|(h' & [= <-] & ?)]; done.
      + intros name. cbn. case_bool_decide as En; [subst name; by rewrite lookup_insert_eq, Hx|by apply lookup_insert_ne].
      + split; [|done]. intros _. right. by exists h.
    - do 2 eexists. split; [done|]. split; [|split; [by left|intros [?|(h & ? & _)]; done]].
      intros name. case_bool_decide as En; [subst name; by rewrite Hx|done]. }
  specialize (IH m1 b1). destruct (fold_left _ _ _) as [m' b']. destruct IH as [IH1 IH2]. split.
  - intros name. rewrite IH1, Hn. destruct (decide (name = x)) as [->|Hne].
    + rewrite (bool_decide_eq_true_2 (x = x)), (bool_decide_eq_true_2 (x ∈ x :: names)) by (done || left).
      case_bool_decide; [|done]. destruct (mm_networks m !! x) as [h|]; [|done]. done.
    + rewrite (bool_decide_eq_false_2 (name = x)) by done.
      rewrite (bool_decide_ext (name ∈ x :: names) (name ∈ names)); [done|]. rewrite elem_of_cons. tauto.
  - rewrite IH2, Hb. setoid_rewrite Hn. split.
    + intros [[?|(h & ? & ?)]|(n & h & Hin & Hh & Ha)]; [by left|right; exists x, h; split; [left|done]|right].
      case_bool_decide as En; [|exists n, h; split; [by right|done]]. subst n.
      destruct (mm_networks m !! x); [|done]. cbn in Hh. by injection Hh as <-.
    + intros [?|(n & h & [->|Hin]%elem_of_cons & Hh & Ha)]; [by left; left|left; right; by exists h|].
      destruct (decide (n = x)) as [->|Hne]; [left; right; by exists h|]. right. exists n, h.
      by rewrite bool_decide_eq_false_2.
Qed.

(** Standby and resume set the data plane of exactly the networks they name, one or all,
    and say whether that changed anything; an unknown network is refused. *)
Theorem switch_exact m network active :
  let '(m', r) := switch m network active in
  match r with
  | Err _ => m' = m /\ exists name, network = Some name /\ mm_networks m !! name = None
  | Ok any =>
      (forall name, mm_networks m' !! name
         = (fun h => if bool_decide (network = None \/ network = Some name) then set_active h active else h)
             <$> mm_networks m !! name)
      /\ (any = true <-> exists name h, (network = None \/ network = Some name) /\ mm_networks m !! name = Some h
                                       /\ h_active h <> active)
  end.
Proof.
  unfold switch. assert (forall names, targets m network = Ok names ->
    forall name, is_Some (mm_networks m !! name) -> (name ∈ names <-> network = None \/ network = Some name)) as Ht.
  { unfold targets. destruct network as [n|].
    - case_bool_decide; [|done]. intros names [= <-] name _. rewrite list_elem_of_singleton. naive_solver.
    - intros names [= <-] name [h Hh]. rewrite list_elem_of_fmap. split; [by left|]. intros _. exists (name, h).
      split; [done|]. by apply elem_of_map_to_list. }
  destruct (targets m network) as [names|e] eqn:E.
  - specialize (Ht _ eq_refl). pose proof (switch_fold active names (set_default_active m network active) false) as Hs.
    assert (mm_networks (set_default_active m network active) = mm_networks m) as En by (by destruct network).
    destruct (fold_left _ _ _) as [m' any]. destruct Hs as [Hs1 Hs2]. rewrite En in Hs1. setoid_rewrite En in Hs2. split.
    + intros name. rewrite Hs1. destruct (mm_networks m !! name) as [h|] eqn:Hh; [|by case_bool_decide].
      rewrite (bool_decide_ext (name ∈ names) (network = None \/ network = Some name)) by (apply Ht; by rewrite Hh).
      by case_bool_decide.
    + rewrite Hs2. split.
      * intros [?|(n & h & Hin & Hh & Ha)]; [done|]. exists n, h. split; [|done]. apply Ht; [by exists h|done].
      * intros (n & h & Hin & Hh & Ha). right. exists n, h. split; [|done]. apply Ht; [by exists h|done].
  - split; [done|]. unfold targets in E. destruct network as [n|]; [|done]. exists n. split; [done|].
    case_bool_decide as Hn; [done|]. by apply eq_None_not_Some.
Qed.
End ManagerProofs.

(** ** Concrete runs *)
Import Demo DemoCodecs DemoBlob DemoStore.

(** Node 3 in a network with key 9: with coordinators 4 and 5, of which 4 has proposed to
    destroy the network; or alone with member 4.  4 is connected. *)
Definition sample_member (n : Z) (coordinator : bool) : Member :=
  mkMember (mkId n) (derive_ip (mkId n) default_subnet) coordinator None 0 None None.
Definition sample_network (ms : list Member) (proposals : gmap string Z) : NetworkState :=
  refresh_snapshot
    (mkState 1 (MemberListM.from_members ms) ∅ None (Some (be_bytes 32 8)) (mkId 9) (Some "home") Restricted ∅ sample_invites
       proposals 2 default_subnet).
Definition sample_handle (s : NetworkState) : NetworkHandle Z :=
  mkHandle (mkId 9) RoleCoordinator (derive_ip (mkId 3) default_subnet) s true 0 0
    (add table_new sample_ip4 sample_ip6 400 (mkId 4) "home") true.
Definition sample_manager (s : NetworkState) : MeshManager (gmap string NetworkConfig) Z :=
  mkManager (mkId 3) {[ "home" := sample_handle s ]} ∅ true no_disk [] [] [] [] [].
Definition sample_three : NetworkState :=
  sample_network [sample_member 3 true; sample_member 4 true; sample_member 5 true] {[ id_to_string (mkId 4) := 100 ]}.
Definition sample_two : NetworkState := sample_network [sample_member 3 true; sample_member 4 false] ∅.
Definition sample_grants : GrantWorld := mkGrantWorld true (fun _ => None) (fun _ => sample_lookup).

Lemma pair_ok {A B E} (p : A * Result B E) : is_ok p.2 = true -> exists a b, p = (a, Ok b).
Proof. destruct p as [a [b|e]]; cbn; [eauto|discriminate]. Qed.

Lemma invite_lifecycle_witness :
  exists m1 inv,
    invite_create (sample_manager sample_two) "home" (Some "1h") (Err ParseSettings) (seqZ 7 16) 1000 true = (m1, Ok inv)
    /\ decode_invite_code (ni_invite_key inv) = Ok (mkId 9, seqZ 7 16).
Proof.
  destruct (pair_ok (invite_create (sample_manager sample_two) "home" (Some "1h") (Err ParseSettings) (seqZ 7 16) 1000 true))
    as (m1 & inv & Hc); [vm_compute; reflexivity|].
  exists m1, inv. split; [exact Hc|].
  destruct (invite_lifecycle (sample_manager sample_two) "home" (Some "1h") (Err ParseSettings) (seqZ 7 16) 1000 m1 inv)
    as (name & h & h1 & ttl & Hn & Hh & _ & _ & _ & _ & _ & _ & Hd & _).
  - reflexivity.
  - by_decide.
  - discriminate.
  - exact Hc.
  - assert (resolve_network_name_or_key (sample_manager sample_two) "home" = Ok "home") as E by (vm_compute; reflexivity).
    rewrite E in Hn. injection Hn as <-.
    assert (h_network_key <$> mm_networks (sample_manager sample_two) !! "home" = Some (mkId 9)) as E' by (vm_compute; reflexivity).
    rewrite Hh in E'. apply (inj Some) in E'. rewrite Hd, E'. reflexivity.
Defined.



Lemma only_network_inv {Disk Conn} (m : MeshManager Disk Conn) short name :
  resolve_network_short_id m short = Ok name -> exists h, only_network m short name h.
Proof. apply network_short_id_resolves. Qed.

Lemma kicked_proposal_counts_witness :
  let m := sample_manager sample_three in
  let key := id_to_string (mkId 9) in
  let m1 := (kick_member m key (id_to_string (mkId 4))).1 in
  exists m2, nuke_network m1 key true false None (Err ParseSettings) 200 true = Some (m2, Ok (NukeLeft 0)).
Proof.
  intros m key m1.
  destruct (only_network_inv m key "home") as (h & Ho); [vm_compute; reflexivity|].
  assert (h = sample_handle sample_three) as ->.
  { destruct Ho as (_ & Hh & _). apply (inj Some). rewrite <- Hh. reflexivity. }
  destruct (kicked_proposal_counts m key (id_to_string (mkId 4)) (mkId 4) "home" (sample_handle sample_three) 100 200
    (Err ParseSettings) true Ho) as (m2 & h1 & _ & _ & Hn & _).
  - vm_compute; reflexivity.
  - vm_compute; reflexivity.
  - apply Nat.ltb_lt. vm_compute. reflexivity.
  - reflexivity.
  - reflexivity.
  - reflexivity.
  - reflexivity.
  - discriminate.
  - exact (ex_intro _ m2 Hn).
Defined.
