(* ===== verification/Lifecycle.v ===== *)
(** * Creating, joining and restoring networks (src/src/daemon/mesh/create_join.rs, the
      first half of runtime.rs, src/src/identity.rs)

    How a network comes into the daemon's table: it is created here, joined with an
    invite, or set up again after a restart, as a coordinator from the signed record or
    as a plain member through a coordinator.

    The configuration as it loads, the clock, random bytes, the local network interfaces,
    the signed record as it is found, the bytes peers serve, the connections dials give and
    the first message read from them are arguments.  A run that panics is [Panic]. *)

From S2P Require Import Prelude Externs Addressing Names Codecs Invite Dht Members Control Blob Peers Forward Ratelimit.
From S2P Require Import Select Network Ipc Settings Storage Admission Coordinator Joining Manager.

(** ** The node's own identity *)
Record IrohIdentityProvider := mkProvider {
  pv_endpoint_id : EndpointId;
  pv_ip : Ipv4Addr;
  pv_subnet : Subnet;
}.

Definition provider_new `{IrohKeys, Blake3} (endpoint_id : EndpointId) (collision_index : Z) (subnet : Subnet)
  : IrohIdentityProvider :=
  mkProvider endpoint_id (derive_ip_with_index endpoint_id collision_index subnet) subnet.

(** [nd_interfaces]: name, address and prefix length of the local interfaces;
    [nd_hostname]: the name [generate_hostname] gives. *)
Record LocalNode := mkLocalNode {
  nd_identity : IrohIdentityProvider;
  nd_veilid_node_id : option string;
  nd_interfaces : list (string * Ipv4Addr * Z);
  nd_hostname : string;
}.

Definition find_physical_interface_collision (node : LocalNode) (subnet : Subnet) : option (string * Ipv4Addr * Z) :=
  List.find (fun i => subnets_overlap (i.1.2, i.2) subnet) (nd_interfaces node).

(** The address the node gives itself in a subnet. *)
Definition own_ip `{IrohKeys, Blake3} (node : LocalNode) (subnet : Subnet) : Ipv4Addr :=
  let identity := nd_identity node in
  if bool_decide (subnet = pv_subnet identity) then pv_ip identity else derive_ip (pv_endpoint_id identity) subnet.

Definition is_veilid (transport : option TransportMode) : bool :=
  match transport with Some TransportVeilid => true | _ => false end.

Definition own_veilid (node : LocalNode) (transport : option TransportMode) : option string :=
  if is_veilid transport then nd_veilid_node_id node else None.

Definition existing_subnets (loaded : Result AppConfig StorageError) : list Subnet :=
  match loaded with Ok c => omap nc_subnet (cfg_networks c) | Err _ => [] end.

(** The name to announce, if it is one. *)
Definition own_hostname (node : LocalNode) (loaded : Result AppConfig StorageError) (hostname : option string)
  : Result string string :=
  match hostname with
  | Some h => let h := ascii_lowercase h in if is_valid_hostname h then Ok h else Err h
  | None => Ok (default (nd_hostname node) (match loaded with Ok c => cfg_default_hostname c | Err _ => None end))
  end.

(** ** Creating a network *)
Inductive CreateError :=
| ThresholdTooLow
| BadNetworkName (name : string)
| NameActive (name : string)
| SubnetTaken (existing : Subnet)
| InterfaceInSubnet (iface : string)
| BadOwnHostname (h : string)
| PreApprovalFailed
| ConfigNotSaved (e : StorageError).

Record CreatedNetwork := mkCreated {
  cr_network : string;
  cr_network_key : EndpointId;
  cr_my_ip : Ipv4Addr;
  cr_my_ipv6 : Ipv6Addr;
  cr_initial_invite_key : option string;
  cr_subnet : Subnet;
}.

Section Lifecycle.
Context `{IrohKeys, Blake3, GroupBlobCodec, Bs58, RecordText, Pkarr, NetworkStore Disk} {Conn : Type}.
Implicit Types m : MeshManager Disk Conn.

(** A panicking [expect]. *)
Definition expect {A E} (r : Result A E) : outcome A := match r with Ok a => Ret a | Err _ => Panic end.

Definition build_initial_roster (node : LocalNode) (name : string) (my_ip : Ipv4Addr) (my_hostname : string)
  (mode : GroupMode) (net_secret_key : list Z) (subnet : Subnet) (nuke_consensus_threshold : Z)
  (pre_approve : option (EndpointId * option string)) (want_veilid : bool) : outcome (Result NetworkState CreateError) :=
  member_list <-! expect (MemberListM.add ∅
    (mkMember (pv_endpoint_id (nd_identity node)) my_ip true (Some my_hostname) 0 None
       (if want_veilid then nd_veilid_node_id node else None)));
  let state aps :=
    mkState 0 member_list aps None (Some net_secret_key) (secret_public net_secret_key) (Some name) mode ∅ ∅ ∅
      nuke_consensus_threshold subnet in
  match pre_approve with
  | None => Ret (Ok (state ∅))
  | Some (peer_id, peer_hostname) =>
      match ApprovedListM.approve ∅ (mkApproved peer_id (derive_ip peer_id subnet) peer_hostname 0) member_list with
      | Ok aps => Ret (Ok (state aps))
      | Err _ => Ret (Err PreApprovalFailed)
      end
  end.

(** [found]: the record the guard resolves; [client]: a client of the record store could
    be made.  The state that was sealed, and the manager after it was stored and announced. *)
Definition seal_and_publish m (net_state : NetworkState) (net_secret_key : list Z) (found : option NetworkRecord)
  (client : bool) : MeshManager Disk Conn * NetworkState :=
  let s := refresh_snapshot net_state in
  let m := store_state m s in
  (match snapshot s with
   | Some sn =>
       if client && dht_read_before_write found (generation s) (snap_hash sn)
       then with_published m (secret_public net_secret_key) (mkRecord (snap_hash sn) (generation s) [mm_id m])
       else m
   | None => m
   end, s).

(** [tun]: the network's TUN device could be made. *)
Definition new_handle m (network_key : EndpointId) (role : NetworkRole) (my_ip : Ipv4Addr) (s : NetworkState)
  (dht_notify : bool) (peers : PeerTable Conn) (tun : bool) : NetworkHandle Conn :=
  mkHandle network_key role my_ip s dht_notify 0 0 peers (tun && mm_active m).

Definition nuke_threshold (nuke_consensus : option Z) : Result Z CreateError :=
  match nuke_consensus with
  | Some n => if 2 <=? n then Ok n else Err ThresholdTooLow
  | None => Ok default_nuke_consensus_threshold
  end.

(** The subnet of the new network, and the one to save as the node's default. *)
Definition choose_subnet (loaded : Result AppConfig StorageError) (subnet : option Subnet) (force : bool)
  : Result (Subnet * option Subnet) CreateError :=
  let existing := existing_subnets loaded in
  match subnet with
  | Some requested =>
      match find_subnet_collision requested existing with
      | Some overlapping => if force then Ok (requested, Some requested) else Err (SubnetTaken overlapping)
      | None => Ok (requested, Some requested)
      end
  | None => Ok (next_available_subnet (node_subnet loaded) existing, None)
  end.

(** The random bytes, the clock and what the outside answers. *)
Record CreateWorld := mkCreateWorld {
  cw_generated_name : string;
  cw_net_secret_key : list Z;
  cw_invite_secret : list Z;
  cw_now : Z;
  cw_found : option NetworkRecord;
  cw_client : bool;
  cw_tun : bool;
}.

(** The first invite goes into the state, which is stored and announced without a guard. *)
Definition mint_initial_invite m (name : string) (h : NetworkHandle Conn) (loaded : Result AppConfig StorageError)
  (net_secret_key : list Z) (w : CreateWorld) : MeshManager Disk Conn * string :=
  let s := h_state h in
  let '(key, entry) := invite_from_secret (cw_invite_secret w) (cw_now w) (default_invite_ttl loaded) in
  let s := bump_generation_and_refresh (set_invites s (<[key := entry]> (invites s))) in
  let m := store_state (put m name (set_state h s)) s in
  (match snapshot s with
   | Some sn => if cw_client w
                then with_published m (secret_public net_secret_key) (mkRecord (snap_hash sn) (generation s) [mm_id m])
                else m
   | None => m
   end, encode_invite_code (secret_public net_secret_key) (cw_invite_secret w)).

(** The manager, the default subnet to save and the answer. *)
Definition create_network_inner m (node : LocalNode) (mode : GroupMode) (custom_name hostname : option string)
  (transport : option TransportMode) (subnet : option Subnet) (nuke_consensus : option Z) (force direct : bool)
  (pre_approve : option (EndpointId * option string)) (loaded : Result AppConfig StorageError) (w : CreateWorld)
  : outcome (MeshManager Disk Conn * option Subnet * Result CreatedNetwork CreateError) :=
  let checks :=
    threshold <-? nuke_threshold nuke_consensus;
    name <-? match custom_name with
             | Some n => if is_valid_hostname n then Ok n else Err (BadNetworkName n)
             | None => Ok (cw_generated_name w)
             end;
    _ <-? (if bool_decide (is_Some (mm_networks m !! name)) then Err (NameActive name) else Ok tt);
    chosen <-? choose_subnet loaded subnet force;
    Ok (threshold, name, chosen) in
  match checks with
  | Err e => Ret (m, None, Err e)
  | Ok (threshold, name, (subnet, saved)) =>
      let net_secret_key := cw_net_secret_key w in
      let later :=
        _ <-? match find_physical_interface_collision node subnet with
              | Some (iface, _, _) => if force then Ok tt else Err (InterfaceInSubnet iface)
              | None => Ok tt
              end;
        match own_hostname node loaded hostname with Ok h => Ok h | Err h => Err (BadOwnHostname h) end in
      match later with
      | Err e => Ret (m, saved, Err e)
      | Ok my_hostname =>
          let my_ip := own_ip node subnet in
          built <-! build_initial_roster node name my_ip my_hostname mode net_secret_key subnet threshold pre_approve
                      (is_veilid transport);
          match built with
          | Err e => Ret (m, saved, Err e)
          | Ok net_state =>
              let '(m, s) := seal_and_publish m net_state net_secret_key (cw_found w) (cw_client w) in
              match save_network (mm_disk m)
                      (mkNetworkConfig name mode (Some my_ip) (Some my_hostname) (to_member_entries (roster s))
                         (to_approved_entries (approved_snapshot s)) (Some net_secret_key)
                         (Some (secret_public net_secret_key)) transport [] direct (Some subnet) threshold) with
              | Err e => Ret (m, saved, Err (ConfigNotSaved e))
              | Ok d =>
                  let h := new_handle m (secret_public net_secret_key) RoleCoordinator my_ip s true table_new (cw_tun w) in
                  let '(m, code) := mint_initial_invite (put (with_disk m d) name h) name h loaded net_secret_key w in
                  Ret (m, saved,
                       Ok (mkCreated name (secret_public net_secret_key) my_ip
                             (derive_ipv6 (pv_endpoint_id (nd_identity node)) (secret_public net_secret_key)) (Some code) subnet))
              end
          end
      end
  end.

(** ** Finding a network *)
Inductive FetchError := NoRecordFound | Incompatible (version : Z) | BadRecord (e : RecordError) | NoPeersInRecord | NoBlob.

(** [fetch]: the bytes of the given hash, if the peer can be reached and has them. *)
Definition try_fetch_group_blob (fetch : EndpointId -> Hash -> option (list Z)) (blob_hash : Hash) (peer_id : EndpointId)
  : option GroupBlob :=
  bytes ← fetch peer_id blob_hash;
  match decode_group_blob bytes with Ok data => Some data | Err _ => None end.

Definition resolve_and_fetch_blob (record : option SignedPacket) (fetch : EndpointId -> Hash -> option (list Z))
  : Result GroupBlob FetchError :=
  match record with
  | None => Err NoRecordFound
  | Some record =>
      _ <-? match mesh_version_from_record record with
            | Some net_ver => if net_ver =? MESH_PROTOCOL_VERSION then Ok tt else Err (Incompatible net_ver)
            | None => Ok tt
            end;
      match decode_network_record record with
      | Err e => Err (BadRecord e)
      | Ok (expected_hash, _, peer_ids) =>
          if bool_decide (peer_ids = []) then Err NoPeersInRecord
          else match find_map (try_fetch_group_blob fetch expected_hash) peer_ids with
               | Some data => Ok data
               | None => Err NoBlob
               end
      end
  end.

Definition saved_member (e : MemberEntry) : Member :=
  mkMember (me_identity e) (me_ip e) (me_is_coordinator e) (me_hostname e) 0 None None.
Definition saved_approved (e : ApprovedConfigEntry) : ApprovedEntry :=
  mkApproved (ace_identity e) (ace_ip e) (ace_hostname e) 0.

Definition fallback_blob_from_config (d : Disk) (name : string) : option GroupBlob :=
  match load_network d name with
  | Ok (Some nc) =>
      if bool_decide (nc_members nc = []) then None
      else Some (mkGroupBlob 0 (saved_member <$> nc_members nc) (saved_approved <$> nc_approved nc) (Some name) (nc_subnet nc)
                   ∅ ∅ ∅ (nc_nuke_consensus_threshold nc))
  | _ => None
  end.

(** ** Joining a network *)
Record JoinContext := mkJoinContext {
  jc_display_name : string;
  jc_my_hostname : string;
  jc_my_ip : Ipv4Addr;
  jc_net_pubkey : EndpointId;
  jc_invite : option (list Z);
  jc_transport : option TransportMode;
  jc_network_subnet : Subnet;
}.

(** What the network is reached through: the record and the blobs, the connection a dial
    gives, the first message read from it, the lookups and whether the first message of a
    reconnection could be sent. *)
Record JoinWorld := mkJoinWorld {
  jw_record : option SignedPacket;
  jw_fetch : EndpointId -> Hash -> option (list Z);
  jw_dial : EndpointId -> option Conn;
  jw_reply : EndpointId -> option ControlMsg;
  jw_lookup : Lookup;
  jw_hello_sent : EndpointId -> bool;
  jw_takes : EndpointId -> Z;            (* how long an attempt takes, in nanoseconds *)
  jw_meanwhile : Disk -> Disk;           (* what other tasks write while [finalize_join] updates its file *)
  jw_tun : bool;
}.

Definition not_in_subnets (node : LocalNode) (loaded : Result AppConfig StorageError) (subnet : Subnet) : Result unit JoinError :=
  match find_subnet_collision subnet (existing_subnets loaded) with
  | Some overlapping => Err (SubnetOverlaps overlapping)
  | None =>
      match find_physical_interface_collision node subnet with
      | Some (iface, _, _) => Err (InterfaceOverlaps iface)
      | None => Ok tt
      end
  end.

(** Everything before the first dial. *)
Definition join_context m (node : LocalNode) (network_key : string) (alias hostname : option string)
  (transport : option TransportMode) (invite : option (list Z)) (initial force : bool)
  (loaded : Result AppConfig StorageError) (w : JoinWorld) : Result (JoinContext * GroupBlob) JoinError :=
  match id_parse network_key with
  | None => Err BadNetworkKey
  | Some net_pubkey =>
      let active name := bool_decide (is_Some (mm_networks m !! name)) in
      _ <-? match alias with Some a => if active a then Err (AlreadyIn a) else Ok tt | None => Ok tt end;
      data <-? match resolve_and_fetch_blob (jw_record w) (jw_fetch w) with
               | Ok data => Ok data
               | Err _ =>
                   if initial then Err FetchFailed
                   else match name ← alias; fallback_blob_from_config (mm_disk m) name with
                        | Some fallback => Ok fallback
                        | None => Err FetchFailed
                        end
               end;
      let network_subnet := resolve_subnet (gb_subnet data) in
      _ <-? (if initial && negb force then not_in_subnets node loaded network_subnet else Ok tt);
      _ <-? match validate_subnet_matches_roster network_subnet (gb_members data) (pv_endpoint_id (nd_identity node)) with
            | Ok _ => Ok tt
            | Err e => Err (RosterOutsideSubnet e)
            end;
      let blob_name := default (String.substring 0 (Nat.min (String.length network_key) 8) network_key) (gb_name data) in
      let display_name := default blob_name alias in
      _ <-? (if active display_name then Err (AlreadyIn display_name) else Ok tt);
      my_hostname <-? match own_hostname node loaded hostname with Ok h => Ok h | Err h => Err (InvalidHostname h) end;
      Ok (mkJoinContext display_name my_hostname (own_ip node network_subnet) net_pubkey invite transport network_subnet, data)
  end.

(** One handshake: the disk, the messages sent, and how it ended. *)
Definition run_join_handshake m (node : LocalNode) (ctx : JoinContext) (data : GroupBlob) (initial : bool) (d : Disk)
  (w : JoinWorld) (conn : Conn) (remote_id : EndpointId)
  : Disk * list (Conn * ControlMsg) * Result (JoinResult (Conn := Conn)) JoinError :=
  join_mesh_shared (pv_endpoint_id (nd_identity node)) (jc_display_name ctx)
    (mkJoinParams (Some (jc_my_hostname ctx)) (own_veilid node (jc_transport ctx)) (jc_net_pubkey ctx) (jc_invite ctx)
       (gb_reusable_keys data) (gb_invites data) (gb_nuke_proposals data) (gb_nuke_consensus_threshold data)
       (gb_generation data) (jc_transport ctx) initial (jc_my_ip ctx) (jc_network_subnet ctx))
    d (pv_subnet (nd_identity node)) (mkLinks table_new (mm_pruned_peers m) (mm_closed m)) (mm_store m) conn remote_id
    (jw_lookup w) (jw_reply w remote_id) (jw_hello_sent w remote_id).

Fixpoint dial_fresh_from m (node : LocalNode) (ctx : JoinContext) (data : GroupBlob) (w : JoinWorld) (d : Disk)
  (sent : list (Conn * ControlMsg)) (tried : nat) (order : list EndpointId)
  : Disk * list (Conn * ControlMsg) * Result (option (Acceptor Conn * Ipv4Addr)) JoinError :=
  match order with
  | [] => (d, sent, Err (NotAdmitted tried))
  | coordinator_id :: order =>
      match jw_dial w coordinator_id with
      | None => dial_fresh_from m node ctx data w d sent tried order
      | Some conn =>
          let '(d, msgs, r) := run_join_handshake m node ctx data true d w conn coordinator_id in
          let sent := (sent ++ msgs)%list in
          match r with
          | Ok (Joined a my_ip) => (d, sent, Ok (Some (a, my_ip)))
          | Ok JoinIsPending => (d, sent, Ok None)
          | Err _ => dial_fresh_from m node ctx data w d sent tried order
          end
      end
  end.

Definition dial_fresh_join m (node : LocalNode) (ctx : JoinContext) (data : GroupBlob) (w : JoinWorld)
  : Disk * list (Conn * ControlMsg) * Result (option (Acceptor Conn * Ipv4Addr)) JoinError :=
  let my_id := pv_endpoint_id (nd_identity node) in
  let order := coordinator_dial_order my_id (gb_members data) my_id in
  if bool_decide (order = []) then (mm_disk m, [], Err NoCoordinator)
  else dial_fresh_from m node ctx data w (mm_disk m) [] (length order) order.

(** ** Rejoining after a restart *)
Definition RESTORE_COORDINATOR_BUDGET : Z := 30 * 1000000000.

(** [walk_restore_coordinators] with attempts that change a state. *)
Fixpoint walk_with {S T} (budget : Z) (attempt : S -> EndpointId -> S * RestoreAttempt T * Z) (first : bool)
  (elapsed : Z) (st : S) (order : list EndpointId) : S * RestoreWalk T :=
  match order with
  | [] => (st, WExhausted)
  | c :: rest =>
      if negb first && (budget <=? elapsed) then (st, WExhausted)
      else let '(st, r, dt) := attempt st c in
      match r with
      | AJoined t => (st, WJoined t)
      | APending => (st, WPending)
      | AFailed => walk_with budget attempt false (elapsed + dt) st rest
      end
  end.

Definition state_from_blob (ctx : JoinContext) (data : GroupBlob) : NetworkState :=
  refresh_snapshot
    (mkState (gb_generation data) (MemberListM.from_members (gb_members data))
       (ApprovedListM.from_entries (gb_approved data)) None None (jc_net_pubkey ctx) (Some (jc_display_name ctx)) Restricted
       (gb_reusable_keys data) (gb_invites data) (gb_nuke_proposals data) (gb_nuke_consensus_threshold data)
       (resolve_subnet (gb_subnet data))).

(** An event that makes the reconnection task dial a member never connected to. *)
Definition seed_reconnect (network_name : string) (net_pubkey : EndpointId) (mb : Member) : DisconnectEvent :=
  mkDisconnectEvent (m_identity mb) (m_ip mb) (derive_ipv6 (m_identity mb) net_pubkey) network_name Other None None.

Definition restore_attempt m (node : LocalNode) (ctx : JoinContext) (data : GroupBlob) (w : JoinWorld)
  (st : Disk * list (Conn * ControlMsg)) (coordinator_id : EndpointId)
  : Disk * list (Conn * ControlMsg) * RestoreAttempt (Acceptor Conn) * Z :=
  let '(d, sent) := st in
  let dt := jw_takes w coordinator_id in
  match jw_dial w coordinator_id with
  | None => (d, sent, AFailed, dt)
  | Some conn =>
      let '(d, msgs, r) := run_join_handshake m node ctx data false d w conn coordinator_id in
      (d, (sent ++ msgs)%list,
       match r with
       | Ok (Joined a _) => AJoined a
       | Ok JoinIsPending => APending
       | Err _ => AFailed
       end, dt)
  end.

(** What is established: the network's state and links, this node's address and the
    events the reconnection task is started with. *)
Record EstablishedMesh := mkEstablished {
  em_acceptor : Acceptor Conn;
  em_my_ip : Ipv4Addr;
  em_events : list DisconnectEvent;
}.

Definition dial_reconnect m (node : LocalNode) (ctx : JoinContext) (data : GroupBlob) (w : JoinWorld)
  : Disk * list (Conn * ControlMsg) * option EstablishedMesh :=
  let my_id := pv_endpoint_id (nd_identity node) in
  let order := coordinator_dial_order my_id (gb_members data) my_id in
  let '(st, walk) := walk_with RESTORE_COORDINATOR_BUDGET (restore_attempt m node ctx data w) true 0 (mm_disk m, []) order in
  (st.1, st.2,
   match walk with
   | WJoined a => Some (mkEstablished a (jc_my_ip ctx) [])
   | WPending => None
   | WExhausted =>
       Some (mkEstablished
               (mkAcceptor (state_from_blob ctx data) (mkLinks table_new (mm_pruned_peers m) (mm_closed m)) (mm_store m) [] 0)
               (jc_my_ip ctx)
               (seed_reconnect (jc_display_name ctx) (jc_net_pubkey ctx)
                  <$> List.filter (fun mb => negb (bool_decide (m_identity mb = my_id))) (gb_members data)))
   end).

(** ** The end of both *)
Definition role_for_key_holder (holds_network_key : bool) : NetworkRole :=
  if holds_network_key then RoleCoordinator else RoleMember.

(** [jn_serves_as]: whether connections are given to the coordinator's or the member's handler. *)
Record JoinedNetwork := mkJoinedNetwork {
  jn_network : string;
  jn_my_ip : Ipv4Addr;
  jn_my_ipv6 : Ipv6Addr;
  jn_serves_as : NetworkRole;
}.

Definition set_public_key (s : NetworkState) (key : EndpointId) : NetworkState :=
  mkState (generation s) (members s) (approved s) (snapshot s) (network_secret_key s) key (Network.network_name s) (mode s)
    (reusable_keys s) (invites s) (nuke_proposals s) (nuke_consensus_threshold s) (subnet s).

Definition set_saved_key (net : NetworkConfig) (key : EndpointId) (transport : option TransportMode) : NetworkConfig :=
  mkNetworkConfig (nc_name net) (nc_group_mode net) (nc_my_ip net) (nc_my_hostname net) (nc_members net) (nc_approved net)
    (nc_network_secret_key net) (Some key) transport (nc_admins net) (nc_direct net) (nc_subnet net)
    (nc_nuke_consensus_threshold net).

(** The file is read, other tasks may run, and it is written. *)
Definition save_key (d : Disk) (ctx : JoinContext) (meanwhile : Disk -> Disk) : Disk :=
  match load_network d (jc_display_name ctx) with
  | Ok (Some net) =>
      match save_network (meanwhile d) (set_saved_key net (jc_net_pubkey ctx) (jc_transport ctx)) with
      | Ok d' => d'
      | Err _ => meanwhile d
      end
  | _ => meanwhile d
  end.

Definition finalize_join m (node : LocalNode) (ctx : JoinContext) (mesh : EstablishedMesh) (w : JoinWorld)
  : MeshManager Disk Conn * JoinedNetwork :=
  let a := em_acceptor mesh in
  let serves_as := role_for_key_holder (bool_decide (is_Some (network_secret_key (ac_state a)))) in
  let s := refresh_snapshot (set_public_key (ac_state a) (jc_net_pubkey ctx)) in
  let m := store_state
             (mkManager (mm_id m) (mm_networks m) (pruned_peers (ac_links a)) (mm_active m) (mm_disk m) (ac_store a)
                (mm_sent m) (closed (ac_links a)) (mm_published m) (mm_left m)) s in
  let m := with_disk m (save_key (mm_disk m) ctx (jw_meanwhile w)) in
  (put m (jc_display_name ctx)
     (new_handle m (jc_net_pubkey ctx) RoleMember (em_my_ip mesh) s false (table (ac_links a)) (jw_tun w)),
   mkJoinedNetwork (jc_display_name ctx) (em_my_ip mesh)
     (derive_ipv6 (pv_endpoint_id (nd_identity node)) (jc_net_pubkey ctx)) serves_as).

(** [Ok None]: the request waits for an approval.  The last list holds the events the
    reconnection task starts with. *)
Definition join_network_inner m (node : LocalNode) (network_key : string) (alias hostname : option string)
  (transport : option TransportMode) (invite : option (list Z)) (initial force : bool)
  (loaded : Result AppConfig StorageError) (w : JoinWorld)
  : MeshManager Disk Conn * Result (option JoinedNetwork) JoinError * list DisconnectEvent :=
  match join_context m node network_key alias hostname transport invite initial force loaded w with
  | Err e => (m, Err e, [])
  | Ok (ctx, data) =>
      let '(d, sent, established) :=
        if initial then
          let '(d, sent, r) := dial_fresh_join m node ctx data w in
          (d, sent, match r with
                    | Ok (Some (a, my_ip)) => Ok (Some (mkEstablished a my_ip []))
                    | Ok None => Ok None
                    | Err e => Err e
                    end)
        else let '(d, sent, r) := dial_reconnect m node ctx data w in (d, sent, Ok r) in
      let m := mkManager (mm_id m) (mm_networks m) (mm_pruned_peers m) (mm_active m) d (mm_store m) (mm_sent m ++ sent)
                 (mm_closed m) (mm_published m) (mm_left m) in
      match established with
      | Err e => (m, Err e, [])
      | Ok None => (m, Ok None, [])
      | Ok (Some mesh) => let '(m, joined) := finalize_join m node ctx mesh w in (m, Ok (Some joined), em_events mesh)
      end
  end.

(** ** Restoring a coordinator *)
Definition store_get (store : list (list Z)) (h : Hash) : option (list Z) :=
  List.find (fun bytes => bool_decide (blake3_hash bytes = h)) store.

Definition verified (bytes : option (list Z)) (expected_hash : Hash) : option GroupBlob :=
  b ← bytes; match verify_group_blob b expected_hash with Ok data => Some data | Err _ => None end.

Definition restore_roster_from_blob m (record : option SignedPacket) (fetch : EndpointId -> Hash -> option (list Z))
  : Result GroupBlob FetchError :=
  match record with
  | None => Err NoRecordFound
  | Some record =>
      match decode_network_record record with
      | Err e => Err (BadRecord e)
      | Ok (expected_hash, _, seed_peers) =>
          match verified (store_get (mm_store m) expected_hash) expected_hash with
          | Some data => Ok data
          | None =>
              match find_map (fun peer_id => if bool_decide (peer_id = mm_id m) then None
                                             else verified (fetch peer_id expected_hash) expected_hash) seed_peers with
              | Some data => Ok data
              | None => Err NoBlob
              end
          end
      end
  end.

Record RestoredRoster := mkRestored {
  rr_members : MemberList;
  rr_approved : ApprovedList;
  rr_reusable_keys : gmap string ReusableKey;
  rr_invites : gmap string InviteEntry;
  rr_nuke_proposals : gmap string Z;
  rr_nuke_consensus_threshold : Z;
  rr_generation : Z;
}.

Definition approve_all (members : MemberList) (entries : list ApprovedEntry) : ApprovedList :=
  fold_left (fun aps e => match ApprovedListM.approve aps e members with Ok aps' => aps' | Err _ => aps end) entries ∅.

(** The node is on the restored roster; it panics when another member has its address. *)
Definition restore_member_roster (node : LocalNode) (blob : Result GroupBlob FetchError) (net_config : option NetworkConfig)
  (my_ip : Ipv4Addr) (persisted_hostname : option string) : outcome RestoredRoster :=
  let me := pv_endpoint_id (nd_identity node) in
  let restored :=
    match blob with
    | Ok data =>
        let ms := MemberListM.from_members (gb_members data) in
        mkRestored ms (approve_all ms (gb_approved data)) (gb_reusable_keys data) (gb_invites data) (gb_nuke_proposals data)
          (gb_nuke_consensus_threshold data) (gb_generation data)
    | Err _ =>
        let threshold := match net_config with Some nc => nc_nuke_consensus_threshold nc
                                             | None => default_nuke_consensus_threshold end in
        let ms := MemberListM.from_members (match net_config with Some nc => saved_member <$> nc_members nc | None => [] end) in
        mkRestored ms
          (approve_all ms (match net_config with Some nc => saved_approved <$> nc_approved nc | None => [] end))
          ∅ ∅ ∅ threshold 0
    end in
  if MemberListM.is_member (rr_members restored) me then Ret restored
  else
    ms <-! expect (MemberListM.add (rr_members restored) (mkMember me my_ip true persisted_hostname 0 None None));
    Ret (mkRestored ms (rr_approved restored) (rr_reusable_keys restored) (rr_invites restored) (rr_nuke_proposals restored)
           (rr_nuke_consensus_threshold restored) (rr_generation restored)).

(** The outcome of a dial: left to another task or cancelled, a connection with the
    greeting written or not, or none. *)
Inductive Dialled := NotDialled | Connected (conn : Conn) (greeted : bool) | Unreachable.

(** The events are those of the members that were not reached. *)
Definition dial_all_members m (node : LocalNode) (name : string) (net_pubkey : EndpointId) (my_ip : Ipv4Addr)
  (my_hostname : option string) (peers : PeerTable Conn) (dial : Member -> Dialled) (ms : list Member)
  : PeerTable Conn * list (Conn * ControlMsg) * list DisconnectEvent :=
  let me := pv_endpoint_id (nd_identity node) in
  let my_hostname := match outgoing_hostname name (mm_disk m) with Some h => Some h | None => my_hostname end in
  let my_veilid_node_id :=
    match load_network (mm_disk m) name with Ok (Some nc) => own_veilid node (nc_transport nc) | _ => None end in
  fold_left
    (fun '(t, sent, events) mb =>
       if bool_decide (m_identity mb = me) then (t, sent, events)
       else match dial mb with
            | NotDialled => (t, sent, events)
            | Connected conn greeted =>
                (add t (m_ip mb) (derive_ipv6 (m_identity mb) net_pubkey) conn (m_identity mb) name,
                 if greeted then (sent ++ [(conn, MeshHello me my_ip my_hostname my_veilid_node_id)])%list else sent, events)
            | Unreachable => (t, sent, (events ++ [seed_reconnect name net_pubkey mb])%list)
            end) ms (peers, [], []).

Inductive RestoreError :=
| StillActive (name : string)
| ConfigNotLoaded (e : StorageError)
| NoSecretKey
| AddressOutsideSubnet (e : RosterError)
| RestoreNotSaved (e : StorageError).

Record RestoreWorld := mkRestoreWorld {
  rw_record : option SignedPacket;
  rw_fetch : EndpointId -> Hash -> option (list Z);
  rw_found : option NetworkRecord;
  rw_client : bool;
  rw_dial : Member -> Dialled;
  rw_tun : bool;
}.

(** This node's own transport address in the roster, when it is another than the current
    one; whether it was changed. *)
Definition refresh_own_veilid (node : LocalNode) (transport : option TransportMode) (ms : MemberList) : MemberList * bool :=
  let me := pv_endpoint_id (nd_identity node) in
  match own_veilid node transport, ms !! me with
  | Some v, Some mb =>
      if bool_decide (m_veilid_node_id mb = Some v) then (ms, false) else (alter (set_veilid v) me ms, true)
  | _, _ => (ms, false)
  end.

Definition restore_coordinator_network m (node : LocalNode) (name : string) (mode : GroupMode)
  (loaded : Result AppConfig StorageError) (w : RestoreWorld)
  : outcome (MeshManager Disk Conn * Result CreatedNetwork RestoreError * list DisconnectEvent) :=
  let refused e := Ret (m, Err e, []) in
  if bool_decide (is_Some (mm_networks m !! name)) then refused (StillActive name)
  else match loaded with
  | Err e => refused (ConfigNotLoaded e)
  | Ok app_config =>
      let net_config := List.find (fun n => bool_decide (nc_name n = name)) (cfg_networks app_config) in
      match nc ← net_config; nc_network_secret_key nc with
      | None => refused NoSecretKey
      | Some net_secret_key =>
          let net_public_key := secret_public net_secret_key in
          let persisted_hostname := nc ← net_config; nc_my_hostname nc in
          let transport := nc ← net_config; nc_transport nc in
          let subnet := default default_subnet (nc ← net_config; nc_subnet nc) in
          let my_ip := own_ip node subnet in
          restored <-! restore_member_roster node (restore_roster_from_blob m (rw_record w) (rw_fetch w)) net_config my_ip
                         persisted_hostname;
          match validate_subnet_matches_roster subnet (MemberListM.all (rr_members restored)) (pv_endpoint_id (nd_identity node)) with
          | Err e => refused (AddressOutsideSubnet e)
          | Ok _ =>
              let '(member_list, needs_republish) := refresh_own_veilid node transport (rr_members restored) in
              let net_state :=
                mkState (rr_generation restored) member_list (rr_approved restored) None (Some net_secret_key) net_public_key
                  (Some name) mode (rr_reusable_keys restored) (rr_invites restored) (rr_nuke_proposals restored)
                  (rr_nuke_consensus_threshold restored) subnet in
              let net_state := if needs_republish then bump_generation_and_refresh net_state else net_state in
              let '(m, s) := seal_and_publish m net_state net_secret_key (rw_found w) (rw_client w) in
              match save_network (mm_disk m)
                      (mkNetworkConfig name mode (Some my_ip) persisted_hostname (to_member_entries (roster s))
                         (to_approved_entries (approved_snapshot s)) (Some net_secret_key) (Some net_public_key) transport
                         (match net_config with Some nc => nc_admins nc | None => [] end)
                         (match net_config with Some nc => nc_direct nc | None => false end) (Some subnet)
                         (nuke_consensus_threshold s)) with
              | Err e => Ret (m, Err (RestoreNotSaved e), [])
              | Ok d =>
                  let m := with_disk m d in
                  let '(peers, sent, events) :=
                    dial_all_members m node name net_public_key my_ip persisted_hostname table_new (rw_dial w) (roster s) in
                  let m := put m name (new_handle m net_public_key RoleCoordinator my_ip s true peers (rw_tun w)) in
                  Ret (mkManager (mm_id m) (mm_networks m) (mm_pruned_peers m) (mm_active m) (mm_disk m) (mm_store m)
                         (mm_sent m ++ sent) (mm_closed m) (mm_published m) (mm_left m),
                       Ok (mkCreated name net_public_key my_ip
                             (derive_ipv6 (pv_endpoint_id (nd_identity node)) net_public_key) None subnet), events)
              end
          end
      end
  end.

(** ** After a start *)
Inductive RestoreTask :=
| AsCoordinator (name : string) (mode : GroupMode)
| AsMember (name network_key : string) (hostname : option string) (transport : option TransportMode).

(** The tasks that are started, one for each saved network that has a key. *)
Definition connect_all_networks (loaded : Result AppConfig StorageError) : list RestoreTask :=
  match loaded with
  | Err _ => []
  | Ok app_config =>
      omap (fun net =>
              if bool_decide (is_Some (nc_network_secret_key net))
              then Some (AsCoordinator (nc_name net) (nc_group_mode net))
              else match nc_network_public_key net with
                   | Some k => Some (AsMember (nc_name net) (id_to_string k) (nc_my_hostname net) (nc_transport net))
                   | None => None
                   end) (cfg_networks app_config)
  end.

(** ** What a created network offers *)
Definition served_by m (id : EndpointId) (h : Hash) : option (list Z) :=
  if bool_decide (id = mm_id m) then store_get (mm_store m) h else None.

End Lifecycle.

Section LifecycleProofs.
Context `{IrohKeys, !IrohKeysLaws, Blake3, !Blake3Laws, GroupBlobCodec, !GroupBlobCodecLaws, Bs58, !Bs58Laws}.
Context `{RecordText, !RecordTextLaws, Pkarr, !PkarrLaws, NetworkStore Disk, !NetworkStoreLaws Disk} {Conn : Type}.
Implicit Types (m : MeshManager Disk Conn) (node : LocalNode).

Lemma build_initial_shape node name my_ip my_hostname gmode key sn threshold pre veilid s0 :
  build_initial_roster node name my_ip my_hostname gmode key sn threshold pre veilid = Ret (Ok s0) ->
  let me := pv_endpoint_id (nd_identity node) in
  s0 = mkState 0 {[me := mkMember me my_ip true (Some my_hostname) 0 None (if veilid then nd_veilid_node_id node else None)]}
         match pre with
         | None => ∅
         | Some (peer, peer_name) => {[peer := mkApproved peer (derive_ip peer sn) peer_name 0]}
         end None (Some key) (secret_public key) (Some name) gmode ∅ ∅ ∅ threshold sn.
Proof.
  unfold build_initial_roster, MemberListM.add, MemberListM.get_by_ip at 1, MemberListM.all.
  rewrite map_to_list_empty. cbn [List.find expect obind m_identity fmap list_fmap]. rewrite insert_empty.
  destruct pre as [[peer peer_name]|]; [|by intros [= <-]].
  unfold ApprovedListM.approve, ApprovedListM.get_by_ip, ApprovedListM.all. rewrite map_to_list_empty.
  cbn [List.find a_identity a_ip fmap list_fmap]. rewrite insert_empty. intros Hb. repeat case_match; by simplify_eq.
Qed.

Lemma seal_shape m s key found client m1 s1 :
  seal_and_publish m s key found client = (m1, s1) ->
  let hash := blake3_hash (state_bytes s) in
  s1 = refresh_snapshot s /\ mm_id m1 = mm_id m /\ mm_networks m1 = mm_networks m /\ mm_disk m1 = mm_disk m
  /\ mm_active m1 = mm_active m /\ mm_store m1 = state_bytes s :: mm_store m
  /\ mm_published m1
     = if client && dht_read_before_write found (generation s) hash
       then (mm_published m ++ [(secret_public key, mkRecord hash (generation s) [mm_id m])])%list
       else mm_published m.
Proof.
  unfold seal_and_publish, store_state, refresh_snapshot, set_snapshot.
  cbn [snapshot generation snap_hash snap_bytes]. intros [= <- <-].
  by destruct (client && _).
Qed.

(** The state and everything else a creation leaves. *)
Lemma create_shape m node gmode custom_name hostname transport asked nuke force direct pre loaded w m' saved c :
  create_network_inner m node gmode custom_name hostname transport asked nuke force direct pre loaded w
    = Ret (m', saved, Ok c) ->
  let me := pv_endpoint_id (nd_identity node) in
  let invite := invite_from_secret (cw_invite_secret w) (cw_now w) (default_invite_ttl loaded) in
  exists h my_hostname saved_net d0 store published,
    let s := h_state h in
    mm_networks m' !! cr_network c = Some h /\ generation s = 1
    /\ members s = {[me := mkMember me (own_ip node (cr_subnet c)) true (Some my_hostname) 0 None (own_veilid node transport)]}
    /\ approved s = match pre with
                    | None => ∅
                    | Some (peer, name) => {[peer := mkApproved peer (derive_ip peer (cr_subnet c)) name 0]}
                    end
    /\ Network.network_name s = Some (cr_network c) /\ subnet s = cr_subnet c /\ invites s = {[invite.1 := invite.2]}
    /\ network_secret_key s = Some (cw_net_secret_key w)
    /\ snapshot s = Some (mkSnapshot (blake3_hash (state_bytes s)) (state_bytes s))
    /\ mm_id m' = mm_id m /\ mm_store m' = state_bytes s :: store
    /\ cr_network_key c = secret_public (cw_net_secret_key w)
    /\ cr_initial_invite_key c = Some (encode_invite_code (cr_network_key c) (cw_invite_secret w))
    /\ (cw_client w = true -> mm_published m'
          = (published ++ [(cr_network_key c, mkRecord (blake3_hash (state_bytes s)) 1 [mm_id m])])%list)
    /\ save_network d0 saved_net = Ok (mm_disk m') /\ nc_name saved_net = cr_network c
    /\ nc_network_secret_key saved_net = Some (cw_net_secret_key w) /\ nc_subnet saved_net = Some (cr_subnet c).
Proof.
  intros Hc me invite. unfold create_network_inner in Hc.
  destruct (_ <-? nuke_threshold nuke; _) as [[[threshold name] [sn sv]]|]; [|discriminate].
  destruct (_ <-? match find_physical_interface_collision _ _ with _ => _ end; _) as [my_hostname|]; [|discriminate].
  destruct (build_initial_roster _ _ _ _ _ _ _ _ _ _) as [[s0|]|] eqn:Hb; [|discriminate..].
  apply build_initial_shape in Hb. subst s0. cbn [obind] in Hc.
  set (s0 := mkState 0 _ _ _ _ _ _ _ _ _ _ _ _) in Hc.
  destruct (seal_and_publish _ _ _ _ _) as [m1 s1] eqn:Hseal. apply seal_shape in Hseal as (-> & Hid & _ & _ & _ & _ & _).
  destruct (save_network _ _) as [d|] eqn:Hsave; [|discriminate].
  unfold mint_initial_invite in Hc. fold invite in Hc. destruct invite as [ikey entry] eqn:Hi.
  set (h1 := new_handle _ _ _ _ _ _ _ _) in Hc. set (s := bump_generation_and_refresh _) in Hc.
  assert (snapshot s = Some (mkSnapshot (blake3_hash (state_bytes s)) (state_bytes s))) as Hsn by reflexivity.
  unfold store_state in Hc. rewrite Hsn in Hc. cbn [snap_bytes snap_hash] in Hc. injection Hc as <- <- <-.
  exists (set_state h1 s), my_hostname. do 4 eexists. cbn [cr_network cr_subnet cr_network_key cr_initial_invite_key h_state set_state].
  split; [destruct (cw_client w); apply lookup_insert_eq|].
  do 7 (split; [reflexivity|]). split; [exact Hsn|].
  split; [rewrite <- Hid; by destruct (cw_client w)|]. split; [by destruct (cw_client w)|]. do 2 (split; [reflexivity|]).
  split; [intros ->; rewrite <- Hid; reflexivity|].
  split; [destruct (cw_client w); exact Hsave|]. done.
Qed.

(** The bytes of a state whose members and approvals check decode to it. *)
Lemma state_bytes_decode s :
  is_u32 (subnet s).1 -> 0 <= (subnet s).2 <= 32 -> wire_ok (to_wire (state_blob s)) ->
  map_Forall (fun _ mb => validate_member mb (subnet s) = Ok tt) (members s) ->
  map_Forall (fun _ a => validate_approved a (subnet s) = Ok tt) (approved s) ->
  decode_group_blob (state_bytes s) = Ok (state_blob s).
Proof.
  intros Hb Hp Hw Hm Ha. apply decode_group_blob_ok. split; [by apply from_slice_to_vec|]. split.
  - eapply member_validates_all; [exact Hm|]. apply sort_by_perm.
  - eapply approved_validates_all; [exact Ha|]. apply sort_by_perm.
Qed.

Lemma store_get_head bytes store : store_get (bytes :: store) (blake3_hash bytes) = Some bytes.
Proof. unfold store_get. cbn [List.find]. by rewrite bool_decide_eq_true_2. Qed.

(** A node that was started with collision index 0 gives itself its derived address. *)
Lemma own_ip_derived node id node_subnet sn :
  nd_identity node = provider_new id 0 node_subnet -> own_ip node sn = derive_ip id sn.
Proof. unfold own_ip. intros ->. cbn. case_bool_decide as Hs; [by rewrite Hs|done]. Qed.

Lemma derived_member_validates id coord hostname veilid base p :
  1 <= p <= 30 -> is_u32 base ->
  validate_member (mkMember id (derive_ip id (base, p)) coord hostname 0 None veilid) (base, p) = Ok tt.
Proof. intros Hp Hb. apply validate_member_ok. split; [done|]. by apply derive_ip_in_range. Qed.

Lemma derived_approved_validates id hostname base p :
  1 <= p <= 30 -> is_u32 base -> validate_approved (mkApproved id (derive_ip id (base, p)) hostname 0) (base, p) = Ok tt.
Proof.
  intros Hp Hb. unfold validate_approved, ensure. cbn [a_ip a_identity a_collision_index].
  rewrite (proj2 (Z.eqb_eq _ _) eq_refl). by apply derive_ip_in_range.
Qed.

(** What the world sees of a network that was just created. *)
Lemma created_blob m node node_subnet gmode custom_name hostname transport asked nuke force direct pre
  loaded w m' saved c packet joiner h :
  create_network_inner m node gmode custom_name hostname transport asked nuke force direct pre loaded w
    = Ret (m', saved, Ok c) ->
  nd_identity node = provider_new (mm_id m) 0 node_subnet ->
  is_u32 (cr_subnet c).1 -> 1 <= (cr_subnet c).2 <= 30 ->
  mm_networks m' !! cr_network c = Some h -> wire_ok (to_wire (state_blob (h_state h))) ->
  cw_client w = true ->
  (forall key r, last (mm_published m') = Some (key, r) ->
     encode_network_record (cw_net_secret_key w) (rec_hash r) (rec_generation r) (rec_seeds r) = Some packet) ->
  joiner <> mm_id m ->
  let s := h_state h in
  resolve_and_fetch_blob (Some packet) (served_by m') = Ok (state_blob s)
  /\ Network.network_name s = Some (cr_network c) /\ subnet s = cr_subnet c
  /\ gb_members (state_blob s) = MemberListM.all (members s)
  /\ coordinator_dial_order joiner (MemberListM.all (members s)) joiner = [mm_id m]
  /\ roster_wf (members s) /\ (forall id, id <> mm_id m -> members s !! id = None).
Proof.
  intros Hc Hid Hbase Hp Hh Hwire Hclient Hpacket Hj s.
  apply create_shape in Hc
    as (h' & my_hostname & net & d0 & store & published & Hh' & Hg & Hm & Ha & Hn & Hs & _ & _ & _ & Hidm & Hst & Hk & _ & Hpub & _).
  assert (h' = h) as -> by congruence. fold s in Hg, Hm, Ha, Hn, Hs, Hst, Hpub. fold s in Hwire. specialize (Hpub Hclient).
  assert (pv_endpoint_id (nd_identity node) = mm_id m) as Hme by by rewrite Hid.
  rewrite Hme, (own_ip_derived node _ _ _ Hid) in Hm.
  destruct (cr_subnet c) as [base p] eqn:Hsn. cbn [fst snd] in *.
  assert (decode_group_blob (state_bytes s) = Ok (state_blob s)) as Hdec.
  { apply state_bytes_decode; rewrite ?Hs; cbn; try done; [lia|..].
    - rewrite Hm. apply map_Forall_singleton. by apply derived_member_validates.
    - rewrite Ha. destruct pre as [[peer pn]|]; [|apply map_Forall_empty]. apply map_Forall_singleton.
      by apply derived_approved_validates. }
  split; [|split; [done|split; [done|]]].
  - specialize (Hpacket (cr_network_key c) (mkRecord (blake3_hash (state_bytes s)) 1 [mm_id m])).
    rewrite Hpub, last_snoc in Hpacket. specialize (Hpacket eq_refl). cbn in Hpacket.
    apply network_record_reads_back in Hpacket as [Hd Hv]; [|apply blake3_length|apply blake3_bytes|lia].
    unfold resolve_and_fetch_blob. rewrite Hv, Hd. cbn [rbind]. rewrite Z.eqb_refl. cbn [rbind].
    rewrite bool_decide_eq_false_2 by done. unfold find_map, try_fetch_group_blob, served_by.
    rewrite Hidm, bool_decide_eq_true_2, Hst, store_get_head by done. cbn. by rewrite Hdec.
  - unfold state_blob, canonical_blob. cbn [gb_members]. rewrite Hm. unfold MemberListM.all. rewrite map_to_list_singleton.
    cbn [fmap list_fmap snd]. split; [done|]. split.
    + unfold coordinator_dial_order, push_coordinator. cbn.
      by rewrite !(bool_decide_eq_true_2 (joiner = joiner)), (bool_decide_eq_false_2 (mm_id m = joiner)) by done.
    + split; [|intros id Hne; by rewrite lookup_singleton_ne].
      rewrite <- insert_empty. apply (roster_wf_insert ∅ (mkMember _ _ _ _ _ _ _)); [apply roster_wf_empty|].
      intros ? ? Hl. by rewrite lookup_empty in Hl.
Qed.

(** A network that was created can be joined with the code its creator was shown.  Whoever
    resolves the record that was published last and fetches the blob from the seed it
    names reads the creator's state: its name, its subnet and a roster whose only
    coordinator is the creator, which is whom a joiner dials.  The code decodes to the network's key
    and to a secret that the blob's invites accept until it expires, and the network's
    key is saved. *)
Theorem created_network_is_joinable m node node_subnet gmode custom_name hostname transport asked nuke force direct pre
  loaded w m' saved c packet joiner later :
  create_network_inner m node gmode custom_name hostname transport asked nuke force direct pre loaded w
    = Ret (m', saved, Ok c) ->
  nd_identity node = provider_new (mm_id m) 0 node_subnet ->
  is_u32 (cr_subnet c).1 -> 1 <= (cr_subnet c).2 <= 30 ->
  (forall h, mm_networks m' !! cr_network c = Some h -> wire_ok (to_wire (state_blob (h_state h)))) ->
  cw_client w = true -> length (cw_invite_secret w) = SECRET_LEN -> bytes_ok (cw_invite_secret w) ->
  (forall key r, last (mm_published m') = Some (key, r) ->
     encode_network_record (cw_net_secret_key w) (rec_hash r) (rec_generation r) (rec_seeds r) = Some packet) ->
  joiner <> mm_id m ->
  let expires := ie_expires (invite_from_secret (cw_invite_secret w) (cw_now w) (default_invite_ttl loaded)).2 in
  expires = 0 \/ later < expires ->
  exists data code,
    resolve_and_fetch_blob (Some packet) (served_by m') = Ok data
    /\ gb_name data = Some (cr_network c) /\ resolve_subnet (gb_subnet data) = cr_subnet c
    /\ coordinator_dial_order joiner (gb_members data) joiner = [mm_id m]
    /\ cr_initial_invite_key c = Some code
    /\ decode_invite_code code = Ok (cr_network_key c, cw_invite_secret w)
    /\ is_Some (validate_invite (gb_invites data) (cw_invite_secret w) later)
    /\ exists net, load_network (mm_disk m') (cr_network c) = Ok (Some net)
         /\ nc_network_secret_key net = Some (cw_net_secret_key w) /\ nc_subnet net = Some (cr_subnet c).
Proof.
  intros Hc Hid Hbase Hp Hwire Hclient Hlen Hbytes Hpacket Hj expires Hexp.
  pose proof Hc as (h & my_hostname & net & d0 & store & published & Hh & _ & _ & _ & _ & _ & Hi & _ & _ & _ & _ & _ & Hcode & _
    & Hsave & Hname & Hkey & Hsub)%create_shape.
  destruct (created_blob _ _ _ _ _ _ _ _ _ _ _ _ _ _ _ _ _ _ joiner h Hc Hid Hbase Hp Hh (Hwire h Hh) Hclient Hpacket Hj)
    as (Hr & Hn & Hs & Hm & Ho & _).
  exists (state_blob (h_state h)). eexists. split; [exact Hr|]. split; [exact Hn|]. split; [cbn; by rewrite Hs|].
  split; [by rewrite Hm|]. split; [exact Hcode|]. split; [by apply decode_encode_code|]. split; [|exists net].
  - apply (mk_is_Some _ (invite_from_secret (cw_invite_secret w) (cw_now w) (default_invite_ttl loaded)).2).
    apply validate_invite_Some. cbn [state_blob canonical_blob gb_invites]. rewrite Hi. split; [apply lookup_singleton_eq|].
    split; [done|]. fold expires. tauto.
  - split; [|split; [done|done]]. rewrite <- Hname. exact (load_saved _ _ _ Hsave).
Qed.

(** ** Restarting *)
Definition restored_list (blob : Result GroupBlob FetchError) (net_config : option NetworkConfig) : MemberList :=
  MemberListM.from_members
    match blob with
    | Ok data => gb_members data
    | Err _ => match net_config with Some nc => saved_member <$> nc_members nc | None => [] end
    end.

Lemma restore_member_roster_cases node blob net_config my_ip hostname :
  let me := pv_endpoint_id (nd_identity node) in
  let ms := restored_list blob net_config in
  match restore_member_roster node blob net_config my_ip hostname with
  | Ret r => (is_Some (ms !! me) /\ rr_members r = ms)
             \/ (ms !! me = None /\ ip_free_for ms me my_ip
                 /\ rr_members r = <[me := mkMember me my_ip true hostname 0 None None]> ms)
  | Panic => ms !! me = None /\ exists id mb, ms !! id = Some mb /\ id <> me /\ m_ip mb = my_ip
  end.
Proof.
  intros me ms. unfold restore_member_roster.
  set (restored := match blob with Ok _ => _ | Err _ => _ end).
  assert (rr_members restored = ms) as Hr by by destruct blob.
  rewrite Hr. fold me. unfold MemberListM.is_member. case_bool_decide as Hin; [by left|].
  apply eq_None_not_Some in Hin.
  destruct (add_cases ms (mkMember me my_ip true hostname 0 None None) (roster_wf_from_members _))
    as [[Hfree ->]|(e & He & Hip & Hne & ->)]; cbn in *.
  - right. done.
  - split; [done|]. eauto.
Qed.

(** What a coordinator restores its roster from is the published blob or the saved
    configuration; it is on the roster it restores, where it adds itself if it was not on it, and every
    other member stays as it was.  It panics in exactly one case: it was not on the
    roster, and another member holds the address it derives for itself. *)
Theorem restored_roster_or_panic node blob net_config my_ip hostname :
  let me := pv_endpoint_id (nd_identity node) in
  let ms := restored_list blob net_config in
  match restore_member_roster node blob net_config my_ip hostname with
  | Ret r => roster_wf (rr_members r) /\ is_Some (rr_members r !! me)
             /\ (forall id, id <> me -> rr_members r !! id = ms !! id)
             /\ (is_Some (ms !! me) -> rr_members r = ms) /\ (ms !! me = None -> ip_free_for ms me my_ip)
  | Panic => ms !! me = None /\ exists id mb, ms !! id = Some mb /\ id <> me /\ m_ip mb = my_ip
  end.
Proof.
  intros me ms. pose proof (restore_member_roster_cases node blob net_config my_ip hostname) as Hc. cbv zeta in Hc.
  fold me ms in Hc. destruct (restore_member_roster _ _ _ _ _) as [r|]; [|done].
  assert (roster_wf ms) as Hwf by apply roster_wf_from_members.
  destruct Hc as [[Hin ->]|(Hnone & Hfree & ->)]; [split_and!; [done..|]; intros E; by rewrite E in Hin; destruct Hin|].
  split_and!.
  - by apply (roster_wf_insert ms (mkMember me my_ip true hostname 0 None None)).
  - rewrite lookup_insert_eq. eauto.
  - intros id Hid. by rewrite lookup_insert_ne.
  - rewrite Hnone. by intros [? ?].
  - done.
Qed.

(** Approvals that share no address among themselves or with a member are all taken. *)
Definition approvals_apart (ms : MemberList) (aps : ApprovedList) : Prop :=
  approved_wf aps
  /\ (forall id a, aps !! id = Some a -> ip_free_for ms id (a_ip a))
  /\ (forall id1 id2 a1 a2, aps !! id1 = Some a1 -> aps !! id2 = Some a2 -> a_ip a1 = a_ip a2 -> id1 = id2).

Lemma approvals_apart_empty ms : approvals_apart ms ∅.
Proof. split_and!; [intros ? ? Hl|intros ? ? Hl|intros ? ? ? ? Hl]; by rewrite lookup_empty in Hl. Qed.

Lemma approved_by_ip_elem (aps : ApprovedList) ip e :
  ApprovedListM.get_by_ip aps ip = Some e -> (exists id, aps !! id = Some e) /\ a_ip e = ip.
Proof.
  unfold ApprovedListM.get_by_ip. intros [Hin Hip%Z.eqb_eq]%List.find_some. split; [|done].
  apply list_elem_of_In, list_elem_of_fmap in Hin as ([id e'] & -> & Hin). exists id. by apply elem_of_map_to_list in Hin.
Qed.

Lemma approve_insert ms (aps all_aps : ApprovedList) e :
  roster_wf ms -> approvals_apart ms all_aps -> aps ⊆ all_aps -> all_aps !! a_identity e = Some e ->
  ApprovedListM.approve aps e ms = Ok (<[a_identity e := e]> aps).
Proof.
  intros Hwf (Hawf & Hfree & Huniq) Hsub He. unfold ApprovedListM.approve.
  assert (match ApprovedListM.get_by_ip aps (a_ip e) with
          | Some existing => bool_decide (a_identity existing = a_identity e) = true
          | None => True end) as Hw.
  { destruct (ApprovedListM.get_by_ip aps (a_ip e)) as [x|] eqn:E; [|done].
    apply approved_by_ip_elem in E as [[id Hx] Hip]. eapply (lookup_weaken _ _ _ _) in Hx; [|exact Hsub].
    apply bool_decide_eq_true_2. rewrite (Hawf _ _ Hx). by apply (Huniq _ _ _ _ Hx He). }
  assert (match MemberListM.get_by_ip ms (a_ip e) with
          | Some existing => bool_decide (m_identity existing = a_identity e) = true
          | None => True end) as Hm.
  { destruct (MemberListM.get_by_ip ms (a_ip e)) as [x|] eqn:E; [|done].
    apply get_by_ip_wf in E as [Hx Hip]; [|done]. apply bool_decide_eq_true_2. by apply (Hfree _ _ He _ _ Hx). }
  destruct (MemberListM.get_by_ip ms (a_ip e)); rewrite ?Hm;
    destruct (ApprovedListM.get_by_ip aps (a_ip e)); by rewrite ?Hw.
Qed.

Lemma approve_all_same ms (aps : ApprovedList) es :
  roster_wf ms -> approvals_apart ms aps -> es ≡ₚ ApprovedListM.all aps -> approve_all ms es = aps.
Proof.
  intros Hwf Hap Hp. pose proof Hap as (Hawf & _ & _).
  transitivity (ApprovedListM.from_entries es); [|by apply from_entries_all].
  assert (forall e, e ∈ es -> aps !! a_identity e = Some e) as Hin.
  { intros e He. rewrite Hp in He. apply list_elem_of_fmap in He as ([id e'] & -> & Hm%elem_of_map_to_list).
    cbn. by rewrite (Hawf _ _ Hm). }
  clear Hp. unfold approve_all, ApprovedListM.from_entries.
  assert ((∅ : ApprovedList) ⊆ aps) as Hsub by apply map_empty_subseteq. revert Hsub.
  generalize (∅ : ApprovedList). induction es as [|e es IH]; intros l Hl; [done|]. cbn [fold_left].
  rewrite (approve_insert ms l aps) by (done || apply Hin; left).
  apply IH; [intros x Hx; apply Hin; by right|]. apply insert_subseteq_l; [apply Hin; left|done].
Qed.

Lemma refresh_own_veilid_same node transport ms mb :
  ms !! pv_endpoint_id (nd_identity node) = Some mb ->
  (forall v, own_veilid node transport = Some v -> m_veilid_node_id mb = Some v) ->
  refresh_own_veilid node transport ms = (ms, false).
Proof.
  intros Hm Hv. unfold refresh_own_veilid. rewrite Hm. destruct (own_veilid _ _) as [v|] eqn:E; [|done].
  by rewrite bool_decide_eq_true_2 by by apply Hv.
Qed.

Lemma local_blob_restores m s key seeds packet fetch :
  decode_group_blob (state_bytes s) = Ok (state_blob s) -> is_u64 (generation s) ->
  store_get (mm_store m) (blake3_hash (state_bytes s)) = Some (state_bytes s) ->
  encode_network_record key (blake3_hash (state_bytes s)) (generation s) seeds = Some packet ->
  restore_roster_from_blob m (Some packet) fetch = Ok (state_blob s).
Proof.
  intros Hd Hg Hst Hp. apply network_record_reads_back in Hp as [Hr _]; [|apply blake3_length|apply blake3_bytes|done].
  unfold restore_roster_from_blob, verified, verify_group_blob. rewrite Hr, Hst. cbn [mbind option_bind].
  by rewrite bool_decide_eq_true_2, Hd.
Qed.

(** A state as the operations build it: values of the Rust types, a roster and approvals
    that check. *)
Definition sound s : Prop :=
  is_u32 (subnet s).1 /\ 1 <= (subnet s).2 <= 30 /\ wire_ok (to_wire (state_blob s)) /\ roster_wf (members s)
  /\ map_Forall (fun _ mb => validate_member mb (subnet s) = Ok tt) (members s)
  /\ map_Forall (fun _ a => validate_approved a (subnet s) = Ok tt) (approved s)
  /\ approvals_apart (members s) (approved s).

Lemma sound_decodes s : sound s -> decode_group_blob (state_bytes s) = Ok (state_blob s).
Proof. intros (Hb & Hp & Hw & _ & Hm & Ha & _). apply state_bytes_decode; auto. lia. Qed.

Lemma restored_roster_same node s net_config my_ip hostname :
  sound s -> is_Some (members s !! pv_endpoint_id (nd_identity node)) ->
  restore_member_roster node (Ok (state_blob s)) net_config my_ip hostname
  = Ret (mkRestored (members s) (approved s) (reusable_keys s) (invites s) (nuke_proposals s) (nuke_consensus_threshold s)
           (generation s)).
Proof.
  intros (_ & _ & _ & Hwf & _ & _ & Hap) Hme. unfold restore_member_roster, state_blob, canonical_blob.
  cbn [gb_members gb_approved gb_reusable_keys gb_invites gb_nuke_proposals gb_nuke_consensus_threshold gb_generation].
  rewrite (from_members_all (members s)); [|done|apply sort_by_perm].
  rewrite (approve_all_same _ (approved s)); [|done|done|apply sort_by_perm]. cbn [rr_members].
  unfold MemberListM.is_member. by rewrite bool_decide_eq_true_2.
Qed.

Lemma member_inside_subnet s id mb : sound s -> members s !! id = Some mb ->
  validate_subnet_matches_roster (subnet s) (MemberListM.all (members s)) id = Ok tt.
Proof.
  intros (Hb & Hp & _ & Hwf & Hm & _ & _) Hid. unfold validate_subnet_matches_roster.
  fold (find_member (MemberListM.all (members s)) id). rewrite find_member_all, Hid by done.
  apply Hm in Hid. apply validate_member_ok in Hid as [Hip _]. rewrite Hip.
  by rewrite (proj1 (derive_ip_in_subnet _ _ _ Hp Hb)).
Qed.

(** C8: A coordinator that restarts is where it was.  If its last state was published and its
    bytes are in its store, the state it restores is that state, field for field, with the
    same bytes: nothing is published, a later round of the publisher has nothing to
    publish either, and the saved roster is the published one. *)
Theorem coordinator_restart_roundtrip m node name app_config net key s seeds packet r w connected :
  let me := pv_endpoint_id (nd_identity node) in
  sound s -> Network.network_name s = Some name -> network_secret_key s = Some key ->
  network_public_key s = secret_public key ->
  (exists mb, members s !! me = Some mb
     /\ forall v, own_veilid node (nc_transport net) = Some v -> m_veilid_node_id mb = Some v) ->
  mm_networks m !! name = None ->
  List.find (fun n => bool_decide (nc_name n = name)) (cfg_networks app_config) = Some net ->
  nc_network_secret_key net = Some key -> nc_subnet net = Some (subnet s) ->
  store_get (mm_store m) (blake3_hash (state_bytes s)) = Some (state_bytes s) ->
  encode_network_record key (blake3_hash (state_bytes s)) (generation s) seeds = Some packet ->
  rw_record w = Some packet -> rw_found w = Some r -> rec_hash r = blake3_hash (state_bytes s) ->
  rec_generation r = generation s ->
  (forall n, exists d, save_network (mm_disk m) n = Ok d) ->
  exists m' c events h n,
    restore_coordinator_network m node name (mode s) (Ok app_config) w = Ret (m', Ok c, events)
    /\ mm_networks m' !! name = Some h /\ h_state h = refresh_snapshot s /\ h_role h = RoleCoordinator
    /\ mm_published m' = mm_published m /\ network_publisher_round (h_state h) (Some r) connected me = None
    /\ load_network (mm_disk m') name = Ok (Some n) /\ nc_members n = to_member_entries (roster s)
    /\ nc_approved n = to_approved_entries (approved_snapshot s) /\ nc_admins n = nc_admins net.
Proof.
  intros me Hsound Hname Hkey Hpub (mb & Hmb & Hv) Hnew Hfind Hnk Hns Hst Hpk Hrec Hfound Hrh Hrg Hsave.
  assert (is_u64 (generation s)) as Hg by by destruct Hsound as (_ & _ & [? _] & _).
  unfold restore_coordinator_network. rewrite bool_decide_eq_false_2 by (rewrite Hnew; by intros [? ?]).
  cbv zeta. rewrite Hfind. cbn [mbind option_bind]. rewrite Hnk, Hns, Hrec. cbn [from_option id].
  erewrite (local_blob_restores m s); [|by apply sound_decodes|done..].
  rewrite restored_roster_same by (done || by eexists). cbn [obind rr_members rr_approved rr_reusable_keys rr_invites
    rr_nuke_proposals rr_nuke_consensus_threshold rr_generation].
  erewrite member_inside_subnet by done. erewrite refresh_own_veilid_same by done. cbn [obind].
  set (s1 := mkState _ _ _ _ _ _ _ _ _ _ _ _ _).
  assert (refresh_snapshot s1 = refresh_snapshot s) as Es.
  { unfold s1. destruct s. cbn in Hname, Hkey, Hpub. subst. done. }
  assert (state_bytes s1 = state_bytes s) as Eb.
  { unfold s1. destruct s. cbn in Hname. subst. done. }
  destruct (seal_and_publish _ _ _ _ _) as [m1 s2] eqn:Hseal.
  apply seal_shape in Hseal as (-> & _ & Hnets & Hdisk & _ & _ & Hpubl). rewrite Eb in Hpubl. rewrite Es.
  rewrite Hfound in Hpubl. unfold dht_read_before_write in Hpubl. change (generation s1) with (generation s) in Hpubl.
  rewrite Hrg, Z.compare_refl, bool_decide_eq_true_2, andb_false_r in Hpubl by done.
  rewrite Hdisk. match goal with |- context [save_network _ ?n] => destruct (Hsave n) as [d Hd]; rewrite Hd; pose proof (load_saved _ _ _ Hd) as Hl end.
  destruct (dial_all_members _ _ _ _ _ _ _ _ _) as [[peers sent] events].
  do 5 eexists. split; [reflexivity|]. cbn [mm_networks put with_networks mm_published mm_disk with_disk].
  split; [apply lookup_insert_eq|]. split; [reflexivity|]. split; [reflexivity|]. split; [exact Hpubl|]. split.
  - unfold network_publisher_round, dht_read_before_write, published_hash. cbn [h_state new_handle refresh_snapshot set_snapshot generation snapshot snap_hash].
    by rewrite Hrg, Z.compare_refl; destruct (bool_decide _).
  - split; [exact Hl|]. done.
Qed.

(** ** The walks over the coordinators *)
Definition welcomed m node ctx data (w : JoinWorld) (c : EndpointId) : option (Disk * JoinResult (Conn := Conn)) :=
  conn ← jw_dial w c;
  match run_join_handshake m node ctx data true (mm_disk m) w conn c with
  | (d, _, Ok r) => Some (d, r)
  | _ => None
  end.

Lemma failed_handshake_saves_nothing m node ctx data d (w : JoinWorld) (conn : Conn) c d' msgs e :
  run_join_handshake m node ctx data true d w conn c = (d', msgs, Err e) -> d' = d.
Proof.
  unfold run_join_handshake, join_mesh_shared. cbn [jp_initial negb andb].
  destruct (perform_join_handshake _ _ _ _ _ _ _) as [sent [[ms aps ip|]|]]; intros Hr; simplify_eq; [|done].
  by destruct (persist_join_config _ _ _ _ _ _ _); simplify_eq.
Qed.

(** A fresh join is decided by the first coordinator, in the order of the roster, that can be
    reached and welcomes the node or puts it off; the coordinators before it, which could
    not be reached or refused, leave nothing on the disk.  If there is none, nothing is saved
    and the answer says how many coordinators there were. *)
Theorem fresh_join_first_welcome m node ctx data (w : JoinWorld) :
  let me := pv_endpoint_id (nd_identity node) in
  let order := coordinator_dial_order me (gb_members data) me in
  let '(d, _, r) := dial_fresh_join m node ctx data w in
  (d, r) = match find_map (welcomed m node ctx data w) order with
           | Some (d', Joined a my_ip) => (d', Ok (Some (a, my_ip)))
           | Some (d', JoinIsPending) => (d', Ok None)
           | None => (mm_disk m, Err (match order with [] => NoCoordinator | _ => NotAdmitted (length order) end))
           end.
Proof.
  intros me order. unfold dial_fresh_join. fold me order. case_bool_decide as Ho; [by rewrite Ho|].
  replace (match order with [] => _ | _ => _ end) with (NotAdmitted (length order)) by by destruct order.
  generalize (length order) as tried. clear Ho. generalize (@nil (Conn * ControlMsg)) as sent.
  induction order as [|c rest IH]; intros sent tried; [done|]. cbn [dial_fresh_from find_map]. unfold welcomed at 1.
  destruct (jw_dial w c) as [conn|]; cbn [mbind option_bind]; [|apply IH].
  destruct (run_join_handshake _ _ _ _ _ _ _ _ _) as [[d msgs] [[a ip|]|e]] eqn:Hr; [done..|].
  apply failed_handshake_saves_nothing in Hr as ->. apply IH.
Qed.

(** With attempts that leave the state alone, the walk is [walk_restore_coordinators]. *)
Lemma walk_with_pure {S T} budget (attempt : EndpointId -> RestoreAttempt T * Z) (st : S) first elapsed order :
  walk_with budget (fun st c => (st, (attempt c).1, (attempt c).2)) first elapsed st order
  = (st, walk_from budget attempt first elapsed order).
Proof.
  revert first elapsed. induction order as [|c rest IH]; intros first elapsed; [done|]. cbn [walk_with walk_from].
  destruct (negb first && _); [done|]. destruct (attempt c) as [[t| |] dt]; cbn; [done..|]. apply IH.
Qed.

Lemma unreachable_walk m node ctx data (w : JoinWorld) first elapsed (st : Disk * list (Conn * ControlMsg)) order :
  (forall c, jw_dial w c = None) ->
  walk_with RESTORE_COORDINATOR_BUDGET (restore_attempt m node ctx data w) first elapsed st order = (st, WExhausted).
Proof.
  intros Hd. revert first elapsed. induction order as [|c rest IH]; intros first elapsed; [done|]. cbn [walk_with].
  destruct (negb first && _); [done|]. unfold restore_attempt at 1. destruct st as [d sent]. rewrite Hd. apply IH.
Qed.

(** C25: A member that restarts while no coordinator and no record can be reached keeps its
    network: it runs it from the roster it had saved, and the task that redials is started for every
    other member of it. *)
Theorem offline_restart_keeps_network m node network_key name hostname transport loaded (w : JoinWorld) net net_pubkey my_hostname :
  let me := pv_endpoint_id (nd_identity node) in
  let saved := saved_member <$> nc_members net in
  id_parse network_key = Some net_pubkey -> mm_networks m !! name = None ->
  load_network (mm_disk m) name = Ok (Some net) -> nc_members net <> [] ->
  validate_subnet_matches_roster (resolve_subnet (nc_subnet net)) saved me = Ok tt ->
  own_hostname node loaded hostname = Ok my_hostname ->
  jw_record w = None -> (forall c, jw_dial w c = None) ->
  exists m' j events h,
    join_network_inner m node network_key (Some name) hostname transport None false false loaded w = (m', Ok (Some j), events)
    /\ jn_network j = name /\ mm_networks m' !! name = Some h
    /\ members (h_state h) = MemberListM.from_members saved /\ network_public_key (h_state h) = net_pubkey
    /\ subnet (h_state h) = resolve_subnet (nc_subnet net)
    /\ (forall id, (exists e, e ∈ events /\ de_endpoint_id e = id)
          <-> id <> me /\ exists mb, mb ∈ saved /\ m_identity mb = id)
    /\ Forall (fun e => de_network e = name /\ de_conn_stable_id e = None /\ de_reason e = Other) events.
Proof.
  intros me saved Hkey Hnew Hload Hne Hsub Hhost Hrec Hdial.
  assert (bool_decide (is_Some (mm_networks m !! name)) = false) as Hact
    by (apply bool_decide_eq_false_2; rewrite Hnew; by intros [? ?]).
  unfold join_network_inner, join_context. rewrite Hkey, Hact, Hrec. cbn [rbind resolve_and_fetch_blob mbind option_bind].
  unfold fallback_blob_from_config. rewrite Hload, bool_decide_eq_false_2 by done.
  cbn [rbind andb gb_subnet gb_members gb_name from_option id]. fold saved me. rewrite Hsub. cbn [rbind].
  rewrite Hact, Hhost. cbn [rbind].
  unfold dial_reconnect. rewrite unreachable_walk by done. unfold finalize_join. cbn [em_acceptor em_my_ip em_events].
  do 4 eexists. split; [reflexivity|]. split; [reflexivity|]. split; [apply lookup_insert_eq|].
  do 3 (split; [reflexivity|]). cbn [gb_members jc_display_name jc_net_pubkey]. fold me. split.
  - intros id. split.
    + intros (e & He & <-). apply list_elem_of_fmap in He as (mb & -> & Hin). apply list_elem_of_In, List.filter_In in Hin as [Hin Hn].
      apply negb_true_iff, bool_decide_eq_false in Hn. split; [done|]. exists mb. by rewrite list_elem_of_In.
    + intros [Hid (mb & Hin & <-)]. exists (seed_reconnect name net_pubkey mb). split; [|done]. apply list_elem_of_fmap.
      exists mb. split; [done|]. apply list_elem_of_In, List.filter_In. rewrite <- list_elem_of_In. split; [done|].
      by apply negb_true_iff, bool_decide_eq_false_2.
  - apply Forall_fmap, Forall_forall. done.
Qed.

Lemma join_context_ip m node network_key alias hostname transport invite initial force loaded w ctx data :
  join_context m node network_key alias hostname transport invite initial force loaded w = Ok (ctx, data) ->
  jc_my_ip ctx = own_ip node (resolve_subnet (gb_subnet data)).
Proof.
  unfold join_context. destruct (id_parse network_key) as [pk|]; [|done].
  intros (? & _ & Hc)%rbind_ok. apply rbind_ok in Hc as (data' & _ & Hc). apply rbind_ok in Hc as (? & _ & Hc).
  apply rbind_ok in Hc as (? & _ & Hc). apply rbind_ok in Hc as (? & _ & Hc). apply rbind_ok in Hc as (? & _ & Hc).
  by injection Hc as <- <-.
Qed.

(** A member that was admitted under another address than the first one derived for it,
    because that was taken, does not have that address after a restart: whatever the roster
    it restores from says, it runs the network with the address it derives itself. *)
Theorem restarted_member_loses_address m node node_subnet network_key alias hostname transport invite force loaded w ctx data
  m' j events mb :
  let me := pv_endpoint_id (nd_identity node) in
  join_context m node network_key alias hostname transport invite false force loaded w = Ok (ctx, data) ->
  join_network_inner m node network_key alias hostname transport invite false force loaded w = (m', Ok (Some j), events) ->
  nd_identity node = provider_new me 0 node_subnet ->
  find_member (gb_members data) me = Some mb -> m_ip mb <> derive_ip me (resolve_subnet (gb_subnet data)) ->
  exists h, mm_networks m' !! jn_network j = Some h /\ h_my_ip h = jn_my_ip j /\ h_my_ip h <> m_ip mb.
Proof.
  intros me Hctx Hjoin Hid Hmb Hne. unfold join_network_inner in Hjoin. rewrite Hctx in Hjoin.
  apply join_context_ip in Hctx. rewrite (own_ip_derived _ _ _ _ Hid) in Hctx. rewrite <- Hctx in Hne.
  unfold dial_reconnect in Hjoin. destruct (walk_with _ _ _ _ _ _) as [[d sent] walk]. unfold finalize_join in Hjoin.
  destruct walk as [a| |]; cbn [fst snd em_my_ip em_acceptor] in Hjoin; [|discriminate|]; injection Hjoin as <- <- <-;
    (eexists; split; [apply lookup_insert_eq|]; split; [done|]; cbn; congruence).
Qed.

(** [finalize_join] writes back the file as it had read it: a network key that was granted
    and saved in between is gone. *)
Lemma finalize_join_drops_grant d ctx (meanwhile : Disk -> Disk) net d' granted :
  load_network d (jc_display_name ctx) = Ok (Some net) -> nc_name net = jc_display_name ctx ->
  nc_network_secret_key net = None ->
  load_network (meanwhile d) (jc_display_name ctx) = Ok (Some granted) -> nc_network_secret_key granted <> None ->
  save_network (meanwhile d) (set_saved_key net (jc_net_pubkey ctx) (jc_transport ctx)) = Ok d' ->
  exists n, load_network (save_key d ctx meanwhile) (jc_display_name ctx) = Ok (Some n) /\ nc_network_secret_key n = None.
Proof.
  intros Hl Hn Hnone _ _ Hs. unfold save_key. rewrite Hl, Hs. apply load_saved in Hs. cbn in Hs. rewrite Hn in Hs.
  eexists. split; [exact Hs|done].
Qed.

Lemma joined_subnet me name p (d : Disk) node_subnet links store (conn : Conn) remote lk reply hello d' sent a my_ip :
  join_mesh_shared me name p d node_subnet links store conn remote lk reply hello = (d', sent, Ok (Joined a my_ip)) ->
  subnet (ac_state a) = jp_network_subnet p.
Proof.
  unfold join_mesh_shared. destruct (perform_join_handshake _ _ _ _ _ _ _) as [msgs [[ms aps ip|]|]]; [|done..].
  destruct (persist_join_config _ _ _ _ _ _ _); [|done]. destruct (negb _ && _); [done|]. by intros [= _ _ <- _].
Qed.

Lemma persisted_loads me name p (d d' : Disk) ms aps my_ip n :
  persist_join_config me name p d ms aps my_ip = Ok d' -> load_network d' name = Ok (Some n) ->
  nc_name n = name /\ nc_my_ip n = Some my_ip.
Proof.
  intros (found & _ & Hs)%rbind_ok Hl. apply load_saved in Hs. cbn [nc_name] in Hs. rewrite Hs in Hl.
  injection Hl as <-. done.
Qed.

Lemma save_key_loads (d : Disk) ctx n :
  load_network d (jc_display_name ctx) = Ok (Some n) -> nc_name n = jc_display_name ctx ->
  (forall (d : Disk) n, exists d', save_network d n = Ok d') ->
  load_network (save_key d ctx id) (jc_display_name ctx) = Ok (Some (set_saved_key n (jc_net_pubkey ctx) (jc_transport ctx))).
Proof.
  intros Hl Hn Hsave. unfold save_key. rewrite Hl. destruct (Hsave (id d) (set_saved_key n (jc_net_pubkey ctx) (jc_transport ctx))) as [d' Hd].
  rewrite Hd. apply load_saved in Hd. by rewrite <- Hn.
Qed.


End LifecycleProofs.

(** ** Concrete runs *)
Import Demo DemoCodecs DemoBlob DemoDht DemoStore.

(** Node [n], without interfaces in the way. *)
Definition sample_node (n : Z) : LocalNode := mkLocalNode (provider_new (mkId n) 0 default_subnet) None [] "node".
Definition fresh_manager (n : Z) (d : gmap string NetworkConfig) (store : list (list Z)) : MeshManager (gmap string NetworkConfig) Z :=
  mkManager (mkId n) ∅ ∅ true d store [] [] [] [].
Definition sample_create : CreateWorld := mkCreateWorld "home" (be_bytes 32 8) (seqZ 7 16) 1000 None true false.

Definition created_of (r : outcome (MeshManager (gmap string NetworkConfig) Z * option Subnet * Result CreatedNetwork CreateError))
  : option (MeshManager (gmap string NetworkConfig) Z * option Subnet * CreatedNetwork) :=
  match r with Ret (m, saved, Ok c) => Some (m, saved, c) | _ => None end.
Lemma created_of_inv r m saved c : created_of r = Some (m, saved, c) -> r = Ret (m, saved, Ok c).
Proof. destruct r as [[[m0 saved0] [c0|]]|]; cbn; [|discriminate..]. by intros [= -> -> ->]. Qed.

Lemma created_network_is_joinable_witness :
  exists m' saved c packet data,
    create_network_inner (fresh_manager 3 no_disk []) (sample_node 3) Restricted None None None None None false false None
      (Err ParseSettings) sample_create = Ret (m', saved, Ok c)
    /\ resolve_and_fetch_blob (Some packet) (served_by m') = Ok data
    /\ coordinator_dial_order (mkId 5) (gb_members data) (mkId 5) = [mkId 3].
Proof.
  set (record (m' : MeshManager (gmap string NetworkConfig) Z) := match last (mm_published m') with
                    | Some (_, r) => encode_network_record (cw_net_secret_key sample_create) (rec_hash r) (rec_generation r) (rec_seeds r)
                    | None => None end).
  destruct (some_such_that (A := MeshManager (gmap string NetworkConfig) Z * option Subnet * CreatedNetwork)
    (fun '(m', saved, c) => bool_decide (cr_subnet c = default_subnet) && bool_decide (is_Some (record m'))
       && match mm_networks m' !! cr_network c with
          | Some h => bool_decide (wire_ok (to_wire (state_blob (h_state h)))) | None => false end)
    (created_of (create_network_inner (fresh_manager 3 no_disk []) (sample_node 3) Restricted None None None None None false false
       None (Err ParseSettings) sample_create))) as ([[m' saved] c] & Hc & Ht); [vm_compute; reflexivity|].
  apply created_of_inv in Hc. apply andb_true_iff in Ht as [[Hsub Hrec]%andb_true_iff Hw].
  apply bool_decide_eq_true_1 in Hsub, Hrec. destruct Hrec as [packet Hp]. exists m', saved, c, packet.
  destruct (created_network_is_joinable _ _ default_subnet _ _ _ _ _ _ _ _ _ _ _ _ _ _ packet (mkId 5) 1001 Hc)
    as (data & code & Hd & _ & _ & Ho & _).
  - reflexivity.
  - rewrite Hsub. by_decide.
  - rewrite Hsub. by_decide.
  - intros h Hh. rewrite Hh in Hw. exact (bool_decide_eq_true_1 _ Hw).
  - reflexivity.
  - reflexivity.
  - by_decide.
  - intros key r Hl. unfold record in Hp. rewrite Hl in Hp. exact Hp.
  - discriminate.
  - right. apply Z.ltb_lt. vm_compute. reflexivity.
  - exists data. split; [exact Hc|]. split; [exact Hd|exact Ho].
Defined.


Definition saved_home (key : option (list Z)) (ms : list MemberEntry) : NetworkConfig :=
  mkNetworkConfig "home" Restricted None None ms [] key (Some (mkId 9)) None [] false (Some default_subnet) 2.
Definition sample_entry (n idx : Z) (coordinator : bool) : MemberEntry :=
  mkMemberEntry (mkId n) (derive_ip_with_index (mkId n) idx default_subnet) coordinator None.

Lemma sample_two_sound : sound sample_two.
Proof.
  split; [by_decide|]. split; [by_decide|]. split; [by_decide|]. split; [apply roster_wf_from_members|].
  split; [by_decide|]. split; [by_decide|]. apply approvals_apart_empty.
Qed.

Lemma coordinator_restart_roundtrip_witness :
  exists m' c events,
    restore_coordinator_network (fresh_manager 3 no_disk [state_bytes sample_two]) (sample_node 3) "home" Restricted
      (Ok (Settings.with_networks AppConfig_default [saved_home (Some (be_bytes 32 8)) []]))
      (mkRestoreWorld (encode_network_record (be_bytes 32 8) (blake3_hash (state_bytes sample_two)) 1 [mkId 3]) (fun _ _ => None)
         (Some (mkRecord (blake3_hash (state_bytes sample_two)) 1 [mkId 3])) true (fun _ => Unreachable) false)
    = Ret (m', Ok c, events)
    /\ mm_published m' = [].
Proof.
  destruct (some_such_that (fun _ => true) (encode_network_record (be_bytes 32 8) (blake3_hash (state_bytes sample_two)) 1 [mkId 3]))
    as (packet & Hp & _); [vm_compute; reflexivity|]. rewrite Hp.
  destruct (coordinator_restart_roundtrip (fresh_manager 3 no_disk [state_bytes sample_two]) (sample_node 3) "home"
    (Settings.with_networks AppConfig_default [saved_home (Some (be_bytes 32 8)) []]) (saved_home (Some (be_bytes 32 8)) [])
    (be_bytes 32 8) sample_two [mkId 3] packet (mkRecord (blake3_hash (state_bytes sample_two)) 1 [mkId 3])
    (mkRestoreWorld (Some packet) (fun _ _ => None)
         (Some (mkRecord (blake3_hash (state_bytes sample_two)) 1 [mkId 3])) true (fun _ => Unreachable) false) [])
    as (m' & c & events & h & n & Hr & _ & _ & _ & Hpub & _).
  - exact sample_two_sound.
  - reflexivity.
  - reflexivity.
  - by_decide.
  - exists (sample_member 3 true). split; [by_decide|]. discriminate.
  - reflexivity.
  - by_decide.
  - reflexivity.
  - reflexivity.
  - apply store_get_head.
  - exact Hp.
  - reflexivity.
  - reflexivity.
  - reflexivity.
  - reflexivity.
  - intros n. eexists. reflexivity.
  - exists m', c, events. split; [exact Hr|exact Hpub].
Defined.

Definition offline : JoinWorld (Disk := gmap string NetworkConfig) (Conn := Z) :=
  mkJoinWorld None (fun _ _ => None) (fun _ => None) (fun _ => None) sample_lookup (fun _ => true) (fun _ => 0) id false.

Lemma offline_restart_keeps_network_witness :
  exists m' j events,
    join_network_inner (fresh_manager 4 {[ "home" := saved_home None [sample_entry 3 0 true; sample_entry 4 0 false] ]} [])
      (sample_node 4) (id_to_string (mkId 9)) (Some "home") None None None false false (Err ParseSettings) offline
    = (m', Ok (Some j), events)
    /\ exists e, e ∈ events /\ de_endpoint_id e = mkId 3.
Proof.
  destruct (offline_restart_keeps_network (fresh_manager 4 {[ "home" := saved_home None [sample_entry 3 0 true; sample_entry 4 0 false] ]} [])
    (sample_node 4) (id_to_string (mkId 9)) "home" None None (Err ParseSettings) offline
    (saved_home None [sample_entry 3 0 true; sample_entry 4 0 false]) (mkId 9) "node")
    as (m' & j & events & h & Hj & _ & _ & _ & _ & _ & He & _).
  - apply id_parse_print.
  - reflexivity.
  - reflexivity.
  - discriminate.
  - vm_compute. reflexivity.
  - reflexivity.
  - reflexivity.
  - reflexivity.
  - exists m', j, events. split; [exact Hj|]. apply He. split; [discriminate|].
    exists (saved_member (sample_entry 3 0 true)). split; [left|reflexivity].
Defined.

(** Node 13, whose first address node 72 had taken. *)
Lemma restarted_member_loses_address_witness :
  exists m' j events h,
    join_network_inner (fresh_manager 13 {[ "home" := saved_home None [sample_entry 72 0 true; sample_entry 13 1 false] ]} [])
      (sample_node 13) (id_to_string (mkId 9)) (Some "home") None None None false false (Err ParseSettings) offline
    = (m', Ok (Some j), events)
    /\ mm_networks m' !! jn_network j = Some h /\ h_my_ip h <> derive_ip_with_index (mkId 13) 1 default_subnet.
Proof.
  set (m := fresh_manager 13 {[ "home" := saved_home None [sample_entry 72 0 true; sample_entry 13 1 false] ]} []).
  destruct (join_network_inner m (sample_node 13) (id_to_string (mkId 9)) (Some "home") None None None false false
    (Err ParseSettings) offline) as [[m' [[j|]|]] events] eqn:Hj.
  2-3: exfalso; assert (match join_network_inner m (sample_node 13) (id_to_string (mkId 9)) (Some "home") None None None false false
    (Err ParseSettings) offline with (_, Ok (Some _), _) => true | _ => false end = true) as Ht by (vm_compute; reflexivity);
    rewrite Hj in Ht; discriminate Ht.
  destruct (join_context m (sample_node 13) (id_to_string (mkId 9)) (Some "home") None None None false false
    (Err ParseSettings) offline) as [[ctx data]|] eqn:Hc.
  2: exfalso; assert (is_ok (join_context m (sample_node 13) (id_to_string (mkId 9)) (Some "home") None None None false false
    (Err ParseSettings) offline) = true) as Ht by (vm_compute; reflexivity); rewrite Hc in Ht; discriminate Ht.
  assert (match join_context m (sample_node 13) (id_to_string (mkId 9)) (Some "home") None None None false false
    (Err ParseSettings) offline with
    | Ok (_, data) => bool_decide (find_member (gb_members data) (mkId 13) = Some (saved_member (sample_entry 13 1 false)))
                      && bool_decide (gb_subnet data = Some default_subnet)
    | Err _ => false end = true) as Ht by (vm_compute; reflexivity).
  rewrite Hc in Ht. apply andb_true_iff in Ht as [Hf Hs]. apply bool_decide_eq_true_1 in Hf, Hs.
  destruct (restarted_member_loses_address m (sample_node 13) default_subnet _ _ _ _ _ _ _ _ ctx data m' j events
    (saved_member (sample_entry 13 1 false)) Hc Hj) as (h & Hh & _ & Hne).
  - reflexivity.
  - exact Hf.
  - rewrite Hs. by_decide.
  - exists m', j, events, h. split; [reflexivity|]. split; [exact Hh|exact Hne].
Defined.

(** Node 13 was removed and its address went to node 72: restoring the network panics. *)
Lemma restored_roster_panics :
  restore_member_roster (sample_node 13)
    (Ok (mkGroupBlob 4 [sample_member 72 true] [] (Some "home") (Some default_subnet) ∅ ∅ ∅ 2)) None
    (own_ip (sample_node 13) default_subnet) None = Panic.
Proof. vm_compute. reflexivity. Qed.
