(* ===== verification/Daemon.v ===== *)
(** * The daemon's main loop (src/src/daemon/mesh/bootstrap.rs [serve_ipc] and
      [handle_ipc_client], src/src/daemon/mod.rs [handle_request])

    The requests of local programs are admitted, authorised and given to the operations of
    [Manager] and [Lifecycle]; between them the loop promotes the node in networks whose
    key it was granted and leaves those it was removed from, until it is told to stop.

    An answer is its outcome, not its wording.  What the operations take from outside, and
    the configuration as it loads when a request is handled, come with the request. *)

From S2P Require Import Prelude Externs Addressing Names Codecs Invite Dht Members Control Blob Peers Forward Ratelimit.
From S2P Require Import Select Network Ipc Settings Storage Admission Coordinator Joining Manager Lifecycle.

(** ** Requests *)
Inductive Reply {Networks : Type} :=
| Denied (message : string)
| Refused (e : Refusal)
| BadSubnet (e : CidrError)
| NotCreated (e : CreateError)
| WasCreated (c : CreatedNetwork)
| NotJoined (e : JoinError)
| NeedsLiveApproval
| WasJoined (j : JoinedNetwork)
| WasLeft (promoted : nat)
| WasNuked (r : NukeReply)
| WasKicked (id : EndpointId)
| StatusIs (networks : Networks)
| Switched (changed : bool)
| SyncStarted (names : list string)
| ShuttingDown
| OperatorSet
| SettingsFailed
| LogLevelSet (ok : bool)
| PathPreferenceSet
| WasGranted (id : EndpointId)
| AdminsAre (admins : list AdminInfo)
| InviteIs (i : NewInvite)
| InvitesAre (l : list InviteInfo)
| WasRevoked
| UnexpectedRequest.
Arguments Reply : clear implicits.

Section Daemon.
Context `{IrohKeys, Blake3, GroupBlobCodec, Bs58, RecordText, Pkarr, NetworkStore Disk} {Conn : Type}.
(** [network_statuses]: what a status report says of the networks. *)
Context {Networks : Type} (network_statuses : MeshManager Disk Conn -> Networks).

Record Daemon := mkDaemon {
  dm_manager : MeshManager Disk Conn;
  dm_status_snapshot : option (StatusSnapshot (Networks := Networks));
  dm_path_preference : option string;
  dm_cancelled : bool;
}.
Implicit Types d : Daemon.

Definition with_manager d (m : MeshManager Disk Conn) : Daemon :=
  mkDaemon m (dm_status_snapshot d) (dm_path_preference d) (dm_cancelled d).
Definition with_snapshot d (c : option (StatusSnapshot (Networks := Networks))) : Daemon :=
  mkDaemon (dm_manager d) c (dm_path_preference d) (dm_cancelled d).

(** What a request is handled with: the configuration as it loads and whether it can be
    saved, the clock, and the outside of each operation. *)
Record RequestWorld := mkRequestWorld {
  rq_loaded : Result AppConfig StorageError;
  rq_saves : bool;
  rq_now : Z;
  rq_node : LocalNode;
  rq_create : CreateWorld;
  rq_join : JoinWorld (Disk := Disk) (Conn := Conn);
  rq_grant : GrantWorld;
  rq_leave : EndpointId -> GrantWorld;
  rq_client : bool;
  rq_secret : list Z;
  rq_stored : bool;
  rq_log_reloads : string -> bool;
}.

Definition operator_of (loaded : Result AppConfig StorageError) : option Z :=
  match loaded with Ok c => cfg_operator_uid c | Err _ => None end.
Definition status_interval (loaded : Result AppConfig StorageError) : Z :=
  status_cache_interval (match loaded with Ok c => sc_interval_secs (cfg_status_cache c) | Err _ => None end).

Definition set_operator_uid (c : AppConfig) (v : option Z) : AppConfig :=
  mkAppConfig v (cfg_default_hostname c) (cfg_subnet c) (cfg_relay c) (cfg_discovery_dns c) (cfg_ratelimit c)
    (cfg_drop_monitor c) (cfg_path_flap c) (cfg_reconnect_log c) (cfg_reconnect_cold c) (cfg_reconnect_frozen c)
    (cfg_reconnect_holddown c) (cfg_ipc c) (cfg_hello c) (cfg_join c) (cfg_status_cache c)
    (cfg_nuke_proposal_ttl c) (cfg_listen_port c) (cfg_poller_interval c) (cfg_log_retention c)
    (cfg_invite_default_expiry c) (cfg_selfcapture_mitigation c) (cfg_log_level c) (cfg_path_preference c)
    (cfg_networks c).

(** The settings to write, if they load and can be saved. *)
Definition change_settings (w : RequestWorld) (f : AppConfig -> AppConfig) : option AppConfig :=
  match rq_loaded w with Ok c => if rq_saves w then Some (f c) else None | Err _ => None end.

Definition set_operator (w : RequestWorld) (uid : Z) : option AppConfig * Reply Networks :=
  match change_settings w (fun c => set_operator_uid c (Some uid)) with
  | Some c => (Some c, OperatorSet)
  | None => (None, SettingsFailed)
  end.

Definition answer {A} (f : A -> Reply Networks) (r : Result A Refusal) : Reply Networks :=
  match r with Ok a => f a | Err e => Refused e end.

(** An answered request: the daemon, the settings that were written and the answer. *)
Definition Handled : Type := Daemon * option AppConfig * Reply Networks.

Definition request_create d (w : RequestWorld) (mode : GroupMode) (network_name hostname : option string)
  (transport : option TransportMode) (subnet : option string) (nuke_consensus : option Z) (force : bool) : option Handled :=
  match (match subnet with Some s => sub <-? parse_cidr s; Ok (Some sub) | None => Ok None end) with
  | Err e => Some (d, None, BadSubnet e)
  | Ok parsed =>
      match create_network_inner (dm_manager d) (rq_node w) mode network_name hostname transport parsed nuke_consensus force
              false None (rq_loaded w) (rq_create w) with
      | Panic => None
      | Ret (m, saved, r) =>
          Some (with_manager d m,
                match saved with Some s => change_settings w (fun c => Settings.with_subnet c (Some s)) | None => None end,
                match r with Ok c => WasCreated c | Err e => NotCreated e end)
      end
  end.

Definition request_join d (w : RequestWorld) (network_key : string) (alias hostname : option string)
  (transport : option TransportMode) (invite : option (list Z)) (force : bool) : Handled :=
  let '(m, r, _) := join_network_inner (dm_manager d) (rq_node w) network_key alias hostname transport invite true force
                      (rq_loaded w) (rq_join w) in
  (with_manager d m, None,
   match r with Ok (Some j) => WasJoined j | Ok None => NeedsLiveApproval | Err e => NotJoined e end).

(** The operations that leave the settings alone. *)
Definition managed {A} d (r : MeshManager Disk Conn * Result A Refusal) (f : A -> Reply Networks) : Handled :=
  (with_manager d r.1, None, answer f r.2).

(** A request that got past the gate; [None]: it is never answered. *)
Definition dispatch d (req : IpcMessage Networks) (w : RequestWorld) : option Handled :=
  let m := dm_manager d in
  let loaded := rq_loaded w in
  match req with
  | Create mode network_name hostname transport subnet nuke_consensus force =>
      request_create d w mode network_name hostname transport subnet nuke_consensus force
  | Join network_key alias hostname transport invite force =>
      Some (request_join d w network_key alias hostname transport invite force)
  | Leave network force => r ← leave_network m network force (rq_leave w); Some (managed d r WasLeft)
  | Nuke network_key force cancel second =>
      r ← nuke_network m network_key force cancel second loaded (rq_now w) (rq_client w); Some (managed d r WasNuked)
  | Kick network_key endpoint_id => Some (managed d (kick_member m network_key endpoint_id) WasKicked)
  | Status =>
      let '(cache, networks) :=
        network_statuses_cached (dm_status_snapshot d) (status_interval loaded) (rq_now w) (network_statuses m) in
      Some (with_snapshot d cache, None, StatusIs networks)
  | Resume hostname network =>
      let '(c, r) := activate m hostname network loaded in
      Some (with_manager d r.1, if rq_saves w then c else None, answer Switched r.2)
  | Standby network => Some (managed d (deactivate m network) Switched)
  | Sync network => Some (managed d (sync_now m network) SyncStarted)
  | Shutdown => Some (mkDaemon m (dm_status_snapshot d) (dm_path_preference d) true, None, ShuttingDown)
  | SetOperator uid => let '(c, r) := set_operator w uid in Some (d, c, r)
  | SetLogLevel level => Some (d, None, LogLevelSet (rq_log_reloads w level))
  | SetPathPreference preference =>
      Some (mkDaemon m (dm_status_snapshot d) preference (dm_cancelled d), None, PathPreferenceSet)
  | AdminAdd network peer => r ← admin_add m network peer (rq_grant w); Some (managed d r WasGranted)
  | AdminList network => Some (d, None, answer AdminsAre (admin_list m network loaded))
  | InviteCreate network expires =>
      Some (managed d (invite_create m network expires loaded (rq_secret w) (rq_now w) (rq_stored w)) InviteIs)
  | InviteList network => Some (d, None, answer InvitesAre (invite_list m network))
  | InviteRevoke network invite_id => Some (managed d (invite_revoke m network invite_id (rq_stored w)) (fun _ => WasRevoked))
  | _ => Some (d, None, UnexpectedRequest)
  end.

Definition handle_request d (req : IpcMessage Networks) (peer_cred : option (Z * Z)) (w : RequestWorld) : option Handled :=
  match handle_request_gate req peer_cred (operator_of (rq_loaded w)) (dm_status_snapshot d) with
  | Err (IpcError message) => Some (d, None, Denied message)
  | Err _ => Some (d, None, UnexpectedRequest)
  | Ok cache => dispatch (with_snapshot d cache) req w
  end.

(** ** The loop *)

(** What a client does after it was admitted: nothing in time, something that does not
    decode, or a request. *)
Inductive ClientInput :=
| Silent
| Garbled (why : list Z)
| Asks (req : IpcMessage Networks) (w : RequestWorld).

Inductive ClientReply := NoAnswer | DecodeError (message : list Z) | Answered (r : Reply Networks).

Definition handle_ipc_client d (peer_cred : option (Z * Z)) (i : ClientInput) : option (Daemon * option AppConfig * ClientReply) :=
  match i with
  | Silent => Some (d, None, NoAnswer)
  | Garbled why => Some (d, None, DecodeError (truncate_decode_error why))
  | Asks req w => '(d, c, r) ← handle_request d req peer_cred w; Some (d, c, Answered r)
  end.

(** The loop's own state: the free slots, failures to accept in a row and how many of them
    were not logged, and until when it does not accept; and the settings that requests
    have written, newest first. *)
Record Server := mkServer {
  sv_daemon : Daemon;
  sv_slots : IpcSlots;
  sv_accept_errors : Z;
  sv_accept_repeats : Z;
  sv_paused_until : option Z;
  sv_written : list AppConfig;
}.

Inductive ServerEvent :=
| PauseOver
| Cancelled
| PromoteIn (network : string)
| LeftNetwork (network : string)
| Connects (uid operator : option Z)
| AcceptFails (now : Z)
| ClientDone (p : Permit) (peer_cred : option (Z * Z)) (i : ClientInput).

Inductive ServerOutput := Nothing | Serves (p : Permit) | TurnsAway | Replies (r : ClientReply) | Stopped.

Definition with_daemon (s : Server) d : Server :=
  mkServer d (sv_slots s) (sv_accept_errors s) (sv_accept_repeats s) (sv_paused_until s) (sv_written s).

(** One turn; [None] where the loop or a handler does not come to an end.  While it is
    paused a connection is not accepted; a handler that is done gives its slot back. *)
Definition serve_ipc_step (s : Server) (e : ServerEvent) : option (Server * ServerOutput) :=
  let d := sv_daemon s in
  match e with
  | PauseOver => Some (mkServer d (sv_slots s) (sv_accept_errors s) (sv_accept_repeats s) None (sv_written s), Nothing)
  | Cancelled => Some (with_daemon s (with_manager d (deactivate (dm_manager d) None).1), Stopped)
  | PromoteIn network => Some (with_daemon s (with_manager d (promote_to_coordinator (dm_manager d) network)), Nothing)
  | LeftNetwork network =>
      m ← handle_removed_from_network (dm_manager d) network; Some (with_daemon s (with_manager d m), Nothing)
  | Connects uid operator =>
      if bool_decide (is_Some (sv_paused_until s)) then Some (s, Nothing)
      else
        let '(errors, repeats) := if 0 <? sv_accept_errors s then (0, 0) else (sv_accept_errors s, sv_accept_repeats s) in
        let '(slots, permit) := try_admit (sv_slots s) (is_privileged_uid uid operator) in
        Some (mkServer d slots errors repeats None (sv_written s), match permit with Some p => Serves p | None => TurnsAway end)
  | AcceptFails now =>
      if bool_decide (is_Some (sv_paused_until s)) then Some (s, Nothing)
      else
        let errors := Z.min (2 ^ 32 - 1) (sv_accept_errors s + 1) in
        Some (mkServer d (sv_slots s) errors
                (if sv_accept_errors s =? 0 then sv_accept_repeats s else wrap 32 (sv_accept_repeats s + 1))
                (Some (now + accept_backoff errors)) (sv_written s), Nothing)
  | ClientDone p peer_cred i =>
      '(d, c, r) ← handle_ipc_client d peer_cred i;
      Some (mkServer d (release (sv_slots s) p) (sv_accept_errors s) (sv_accept_repeats s) (sv_paused_until s)
              (match c with Some c => c :: sv_written s | None => sv_written s end), Replies r)
  end.

(** Some turns, up to the one that stops the loop. *)
Fixpoint serve_ipc (s : Server) (es : list ServerEvent) : option (Server * list ServerOutput) :=
  match es with
  | [] => Some (s, [])
  | e :: es =>
      '(s, o) ← serve_ipc_step s e;
      match o with
      | Stopped => Some (s, [Stopped])
      | _ => '(s, os) ← serve_ipc s es; Some (s, o :: os)
      end
  end.

(** ** Who changes anything *)

(** A manager without the count of how often its pollers were woken. *)
Definition forget_polls_of (h : NetworkHandle Conn) : NetworkHandle Conn :=
  mkHandle (h_network_key h) (h_role h) (h_my_ip h) (h_state h) (h_dht_notify h) (h_pulses h) 0 (h_peers h) (h_active h).
Definition forget_polls (m : MeshManager Disk Conn) : MeshManager Disk Conn :=
  with_networks m (forget_polls_of <$> mm_networks m).

(** The same daemon but for the cached status and the waking of pollers. *)
Definition same_daemon d d' : Prop :=
  forget_polls (dm_manager d) = forget_polls (dm_manager d') /\ dm_path_preference d = dm_path_preference d'
  /\ dm_cancelled d = dm_cancelled d'.

#[export] Instance same_daemon_equivalence : Equivalence same_daemon.
Proof.
  split.
  - by intros d.
  - intros d d' (? & ? & ?). by split_and!.
  - intros d1 d2 d3 (? & ? & ?) (? & ? & ?). split_and!; congruence.
Qed.

Lemma wake_poller_forgets m name : forget_polls (wake_poller m name) = forget_polls m.
Proof.
  unfold wake_poller. destruct (mm_networks m !! name) as [h|] eqn:Hh; [|done]. unfold forget_polls, put, with_networks. cbn.
  f_equal. rewrite fmap_insert. apply insert_id. by rewrite lookup_fmap, Hh.
Qed.

Lemma sync_forgets m network : forget_polls (sync_now m network).1 = forget_polls m.
Proof.
  unfold sync_now. destruct (targets m network) as [names|]; [|done]. cbn [fst].
  revert m. induction names as [|n names IH]; intros m; [done|]. cbn [fold_left]. by rewrite IH, wake_poller_forgets.
Qed.

Lemma gate_ok_unprivileged (req : IpcMessage Networks) cred operator (cache cache' : option (StatusSnapshot (Networks := Networks))) :
  handle_request_gate req cred operator cache = Ok cache' -> is_privileged_uid (fst <$> cred) operator = false ->
  read_only req = true.
Proof.
  unfold handle_request_gate, is_privileged_uid. rewrite check_authorized_cases.
  destruct (read_only req); [done|]. cbn [orb]. intros Hg [Hroot Hop]%orb_false_iff. rewrite Hroot, Hop in Hg.
  by destruct (sets_operator req).
Qed.

Lemma unprivileged_request_harmless d req cred w :
  is_privileged_uid (fst <$> cred) (operator_of (rq_loaded w)) = false ->
  exists d' r, handle_request d req cred w = Some (d', None, r) /\ same_daemon d d'.
Proof.
  intros Hp. unfold handle_request. destruct (handle_request_gate _ _ _ _) as [cache|denied] eqn:Hg.
  - apply gate_ok_unprivileged in Hg; [|done].
    destruct req; try discriminate Hg; cbn [dispatch].
    + destruct (network_statuses_cached _ _ _ _). do 2 eexists. split; [reflexivity|]. by split_and!.
    + do 2 eexists. split; [reflexivity|]. split_and!; [|done..]. cbn. by rewrite sync_forgets.
    + do 2 eexists. split; [reflexivity|]. by split_and!.
    + do 2 eexists. split; [reflexivity|]. by split_and!.
  - destruct denied; (do 2 eexists; split; [reflexivity|]; by split_and!).
Qed.

(** What only lets in and answers callers that are neither root nor the operator. *)
Definition unprivileged_event (e : ServerEvent) : bool :=
  match e with
  | PauseOver | Connects _ _ | AcceptFails _ => true
  | ClientDone _ cred (Asks _ w) => negb (is_privileged_uid (fst <$> cred) (operator_of (rq_loaded w)))
  | ClientDone _ _ _ => true
  | Cancelled | PromoteIn _ | LeftNetwork _ => false
  end.

Lemma unprivileged_step s e :
  unprivileged_event e = true ->
  exists s' o, serve_ipc_step s e = Some (s', o) /\ o <> Stopped /\ same_daemon (sv_daemon s) (sv_daemon s')
    /\ sv_written s' = sv_written s.
Proof.
  destruct e as [| | | |uid operator|now|p cred [|why|req w]]; cbn [unprivileged_event serve_ipc_step]; intros Hu; try discriminate Hu.
  - by do 2 eexists.
  - case_bool_decide; [by do 2 eexists|]. destruct (0 <? sv_accept_errors s), (try_admit _ _) as [? [p|]]; by do 2 eexists.
  - case_bool_decide; by do 2 eexists.
  - by do 2 eexists.
  - by do 2 eexists.
  - apply negb_true_iff in Hu. destruct (unprivileged_request_harmless (sv_daemon s) req cred w Hu) as (d' & r & Hr & Hd).
    cbn [handle_ipc_client]. rewrite Hr. cbn. by do 2 eexists.
Qed.

(** C26: only root and the operator change anything.  However many other callers connect and whatever
    they send, in any order and mixed with failures to accept, every one is
    answered or turned away, the loop goes on, and the daemon is the same but for its
    cached status and for pollers that were woken: no network, saved file, setting,
    message, connection or record has changed. *)
Theorem only_root_or_operator_changes (s : Server) (es : list ServerEvent) :
  forallb unprivileged_event es = true ->
  exists s' os, serve_ipc s es = Some (s', os) /\ length os = length es /\ ~ (Stopped ∈ os)
    /\ same_daemon (sv_daemon s) (sv_daemon s') /\ sv_written s' = sv_written s.
Proof.
  revert s. induction es as [|e es IH]; intros s Hu.
  { exists s, []. split_and!; [done|done| |done|done]. by intros ?%elem_of_nil. }
  cbn [forallb] in Hu. apply andb_true_iff in Hu as [He Hes].
  destruct (unprivileged_step s e He) as (s1 & o & Hs & Ho & Hd & Hw). cbn [serve_ipc]. rewrite Hs. cbn [mbind option_bind].
  destruct (IH s1 Hes) as (s2 & os & Hrun & Hlen & Hno & Hd2 & Hw2).
  exists s2, (o :: os). rewrite Hrun. split_and!.
  - by destruct o.
  - cbn. by rewrite Hlen.
  - intros [E|?]%elem_of_cons; [by rewrite <- E in Ho|done].
  - by etrans.
  - congruence.
Qed.

End Daemon.

(** ** A concrete run *)
Import Demo DemoCodecs DemoBlob DemoDht DemoStore.

Definition sample_request : RequestWorld (Disk := gmap string NetworkConfig) (Conn := Z) :=
  mkRequestWorld (Err ParseSettings) true 1000 (sample_node 3) sample_create offline sample_grants (fun _ => sample_grants) true
    (seqZ 7 16) true (fun _ => true).
Definition sample_server : Server (Disk := gmap string NetworkConfig) (Conn := Z) (Networks := nat) :=
  mkServer (mkDaemon (sample_manager sample_two) None None false) (mkSlots 2 1) 0 0 None [].

(** A user without rights connects, tries to remove member 4, wakes the pollers and sends
    something unreadable; in between the system runs out of descriptors. *)
Definition sample_visits : list (ServerEvent (Disk := gmap string NetworkConfig) (Conn := Z) (Networks := nat)) :=
  [Connects (Some 1000) None;
   ClientDone GeneralPermit (Some (1000, 1000)) (Asks (Kick (id_to_string (mkId 9)) (id_to_string (mkId 4))) sample_request);
   AcceptFails 5; PauseOver; Connects (Some 1000) None;
   ClientDone GeneralPermit (Some (1000, 1000)) (Asks (Sync None) sample_request);
   Connects None None; ClientDone GeneralPermit None (Garbled [255])].

Lemma only_root_or_operator_changes_witness :
  exists s' os, serve_ipc (fun m => size (mm_networks m)) sample_server sample_visits = Some (s', os)
    /\ length os = 8%nat /\ same_daemon (sv_daemon sample_server) (sv_daemon s').
Proof.
  destruct (only_root_or_operator_changes (fun m => size (mm_networks m)) sample_server sample_visits)
    as (s' & os & Hs & Hl & _ & Hd & _).
  - vm_compute. reflexivity.
  - exists s', os. split; [exact Hs|]. split; [exact Hl|exact Hd].
Defined.
