(* ===== verification/Redial.v ===== *)
(** * A member's tasks that dial peers again (src/src/daemon/mesh/join.rs, src/src/daemon/mod.rs)

    [spawn_reconnect_loop]: every lost connection that is not a leave or a removal starts a
    task, which sleeps, looks at the roster, claims the peer, dials it and registers the
    connection.  Tasks run side by side: a step is one of them from one [await] to the next,
    so that what happens while a task sleeps or dials is other steps.  The claims
    ([DialInFlightGuard]) and the streaks of short-lived connections are shared by all tasks,
    the claims also with the node's other places that dial.

    The delay of a sleep is the backoff before jitter is added; log lines are left out. *)

From S2P Require Import Prelude Externs Addressing Peers Forward Members Blob Select Network Settings Storage Admission.
From S2P Require Import Coordinator Joining.

(** [const RECONNECT_HOLDDOWN_MIN_UPTIME_SECS]. *)
Definition RECONNECT_HOLDDOWN_MIN_UPTIME_SECS : Z := 5.

Definition min_uptime (cfg : AppConfig) : Z :=
  from_secs (default RECONNECT_HOLDDOWN_MIN_UPTIME_SECS (rh_min_uptime_secs (cfg_reconnect_holddown cfg))).

(** ** Claims on a peer *)
Definition Claims : Type := gset (string * EndpointId).

Definition try_claim (set : Claims) (network : string) (peer : EndpointId) : option Claims :=
  if bool_decide ((network, peer) ∈ set) then None else Some ({[(network, peer)]} ∪ set).
Definition release_claim (set : Claims) (network : string) (peer : EndpointId) : Claims := set ∖ {[(network, peer)]}.

(** ** Tasks *)
Inductive Phase :=
| Starting (event_uptime : option Z)
| Sleeping (limits : RetryLimits) (backoff failed_attempts : Z)
| Dialling (limits : RetryLimits) (backoff failed_attempts : Z) (peer_ip : Ipv4Addr).

(** The peer, and the addresses it had when its connection ended. *)
Record Task := mkTask {
  tk_peer : EndpointId;
  tk_ip : Ipv4Addr;
  tk_ipv6 : Ipv6Addr;
  tk_phase : Phase;
}.

Definition in_phase (k : Task) (p : Phase) : Task := mkTask (tk_peer k) (tk_ip k) (tk_ipv6 k) p.

Section Redial.
Context `{IrohKeys, Blake3, GroupBlobCodec} {Conn : Type} (stable_id : Conn -> Z) (network_name : string).
Implicit Types a : Acceptor Conn.

(** [rd_others]: the peers that other places of the node are dialling. *)
Record Redialler := mkRedialler {
  rd_acc : Acceptor Conn;
  rd_health : gmap (string * EndpointId) Z;
  rd_in_flight : Claims;
  rd_others : gset EndpointId;
  rd_tasks : gmap nat Task;
  rd_next : nat;
}.
Implicit Types r : Redialler.

Definition with_acc r a : Redialler := mkRedialler a (rd_health r) (rd_in_flight r) (rd_others r) (rd_tasks r) (rd_next r).
Definition with_health r h : Redialler := mkRedialler (rd_acc r) h (rd_in_flight r) (rd_others r) (rd_tasks r) (rd_next r).
Definition with_in_flight r c : Redialler := mkRedialler (rd_acc r) (rd_health r) c (rd_others r) (rd_tasks r) (rd_next r).
Definition with_others r o : Redialler := mkRedialler (rd_acc r) (rd_health r) (rd_in_flight r) o (rd_tasks r) (rd_next r).
Definition with_tasks r ts : Redialler := mkRedialler (rd_acc r) (rd_health r) (rd_in_flight r) (rd_others r) ts (rd_next r).
Definition set_task r (t : nat) (k : Task) : Redialler := with_tasks r (<[t := k]> (rd_tasks r)).
Definition end_task r (t : nat) : Redialler := with_tasks r (delete t (rd_tasks r)).

Definition idle a : Redialler := mkRedialler a ∅ ∅ ∅ ∅ 0.

(** The loop over lost connections. *)
Definition on_disconnect r (ev : DisconnectEvent) : Redialler :=
  let '(a, again) := reconnect_event stable_id network_name (rd_acc r) ev in
  let r := with_acc r a in
  if again then
    mkRedialler a (rd_health r) (rd_in_flight r) (rd_others r)
      (<[rd_next r := mkTask (de_endpoint_id ev) (de_ip ev) (de_ipv6 ev) (Starting (de_uptime ev))]>
         (rd_tasks r)) (S (rd_next r))
  else r.

(** A task starts: settings are read and the streak is brought up to date. *)
Definition start_task r (t : nat) (k : Task) (uptime : option Z) (cfg : AppConfig) : Redialler :=
  let limits := retry_limits cfg in
  let '(health, backoff, failed) :=
    dial_retry_start network_name (rd_health r) limits (tk_peer k) uptime (min_uptime cfg) BACKOFF_INITIAL in
  set_task (with_health r health) t (in_phase k (Sleeping limits backoff failed)).

Definition connected_to a (peer : EndpointId) : bool :=
  existsb (fun p => bool_decide (p.1.1 = peer)) (peers_for_network_with_conn (table (ac_links a)) network_name).

(** A sleep is over: up to the dial. *)
Definition wake_task r (t : nat) (k : Task) (l : RetryLimits) (backoff failed : Z) : outcome Redialler :=
  backoff' <-! next_backoff backoff
                 (backoff_cap failed (cold_threshold l) (frozen_threshold l) (warm_max l) (cold_max l) (frozen_max l));
  let m := MemberListM.get (members (ac_state (rd_acc r))) (tk_peer k) in
  let peer_ip := reconnect_route_ip m (tk_ip k) in
  let was_pruned := bool_decide ((network_name, tk_peer k) ∈ pruned_peers (ac_links (rd_acc r))) in
  let r := with_acc r (unmark_pruned network_name (rd_acc r) (tk_peer k)) in
  match dial_retry_decision (bool_decide (is_Some m)) was_pruned with
  | AbandonPeerGone => Ret (end_task (with_health r (delete (network_name, tk_peer k) (rd_health r))) t)
  | KeepDialing =>
      if connected_to (rd_acc r) (tk_peer k) then Ret (end_task r t)
      else match try_claim (rd_in_flight r) network_name (tk_peer k) with
           | None => Ret (set_task r t (in_phase k (Sleeping l backoff' failed)))
           | Some claims => Ret (set_task (with_in_flight r claims) t (in_phase k (Dialling l backoff' failed peer_ip)))
           end
  end.

(** The dial is over; [Some]: connected, and the greeting was sent. *)
Definition dial_ended r (t : nat) (k : Task) (l : RetryLimits) (backoff failed : Z) (peer_ip : Ipv4Addr) (dial : option Conn) : Redialler :=
  let r := with_in_flight r (release_claim (rd_in_flight r) network_name (tk_peer k)) in
  match dial with
  | None => set_task r t (in_phase k (Sleeping l backoff (wrap 32 (failed + 1))))
  | Some conn =>
      end_task (with_acc r (with_table (rd_acc r)
        (add (table (ac_links (rd_acc r))) peer_ip (tk_ipv6 k) conn (tk_peer k) network_name))) t
  end.

(** [Changes]: anything else the node does with what it shares with the tasks. *)
Inductive Event :=
| Disconnects (ev : DisconnectEvent)
| Starts (t : nat) (cfg : AppConfig)
| Wakes (t : nat)
| DialEnds (t : nat) (dial : option Conn)
| OtherDials (peer : EndpointId)
| OtherDialEnds (peer : EndpointId)
| Changes a
| Cancels (t : nat).

(** A step that is not due does nothing.  A task notices that it is cancelled when it is
    about to sleep or asleep. *)
Definition redial_step r (e : Event) : outcome Redialler :=
  match e with
  | Disconnects ev => Ret (on_disconnect r ev)
  | Starts t cfg =>
      match rd_tasks r !! t with
      | Some k => match tk_phase k with Starting uptime => Ret (start_task r t k uptime cfg) | _ => Ret r end
      | None => Ret r
      end
  | Wakes t =>
      match rd_tasks r !! t with
      | Some k => match tk_phase k with Sleeping l backoff failed => wake_task r t k l backoff failed | _ => Ret r end
      | None => Ret r
      end
  | DialEnds t dial =>
      match rd_tasks r !! t with
      | Some k =>
          match tk_phase k with
          | Dialling l backoff failed ip => Ret (dial_ended r t k l backoff failed ip dial)
          | _ => Ret r
          end
      | None => Ret r
      end
  | OtherDials peer =>
      match try_claim (rd_in_flight r) network_name peer with
      | Some claims => Ret (with_others (with_in_flight r claims) ({[peer]} ∪ rd_others r))
      | None => Ret r
      end
  | OtherDialEnds peer =>
      if bool_decide (peer ∈ rd_others r) then
        Ret (with_others (with_in_flight r (release_claim (rd_in_flight r) network_name peer)) (rd_others r ∖ {[peer]}))
      else Ret r
  | Changes a => Ret (with_acc r a)
  | Cancels t =>
      match rd_tasks r !! t with
      | Some k => match tk_phase k with Sleeping _ _ _ => Ret (end_task r t) | _ => Ret r end
      | None => Ret r
      end
  end.

Fixpoint redial_run r (es : list Event) : outcome Redialler :=
  match es with
  | [] => Ret r
  | e :: es => r <-! redial_step r e; redial_run r es
  end.

(** ** One dial per peer *)
Definition dialling_peer (k : Task) : option EndpointId :=
  match tk_phase k with Dialling _ _ _ _ => Some (tk_peer k) | _ => None end.
Definition dialling r : gmap nat EndpointId := omap dialling_peer (rd_tasks r).

(** The claimed peers are those that a task is dialling and those others are, never the same. *)
Definition claims_exact (claims : Claims) (others : gset EndpointId) (dials : gmap nat EndpointId) : Prop :=
  (forall n p, (n, p) ∈ claims <-> n = network_name /\ (p ∈ others \/ exists t, dials !! t = Some p))
  /\ (forall t t' p, dials !! t = Some p -> dials !! t' = Some p -> t = t')
  /\ (forall t p, dials !! t = Some p -> p ∉ others).

Lemma claims_claim c o d t p :
  claims_exact c o d -> (network_name, p) ∉ c -> d !! t = None -> claims_exact ({[(network_name, p)]} ∪ c) o (<[t := p]> d).
Proof.
  intros (Hc & Hd & Ho) Hp Ht.
  assert (forall t', d !! t' <> Some p) as Hnew by (intros t' E; apply Hp, Hc; eauto).
  assert (p ∉ o) as Hpo by (intros E; apply Hp, Hc; eauto). split_and!.
  - intros n q. rewrite elem_of_union, elem_of_singleton, Hc. split.
    + intros [[= -> ->]|(-> & [?|(t' & Ht')])]; (split; [done|]); [right|by left|right].
      * exists t. apply lookup_insert_eq.
      * exists t'. rewrite lookup_insert_ne; [done|]. intros ->. congruence.
    + intros (-> & [?|(t' & Ht')]); [by eauto|]. apply lookup_insert_Some in Ht' as [[_ ->]|[_ ?]]; eauto.
  - intros t1 t2 q [[<- <-]|[Hn1 H1']]%lookup_insert_Some [[E2 E2']|[Hn2 H2']]%lookup_insert_Some; subst; eauto;
      exfalso; by eapply Hnew.
  - intros t' q [[<- <-]|[_ Hq]]%lookup_insert_Some; [done|by eapply Ho].
Qed.

Lemma claims_release c o d t p :
  claims_exact c o d -> d !! t = Some p -> claims_exact (release_claim c network_name p) o (delete t d).
Proof.
  intros (Hc & Hd & Ho) Ht. unfold release_claim. split_and!.
  - intros n q. rewrite elem_of_difference, elem_of_singleton, Hc. split.
    + intros [(-> & [?|(t' & Ht')]) Hne]; (split; [done|]); [by left|right]. exists t'. rewrite lookup_delete_ne; [done|].
      intros ->. simplify_eq.
    + intros (-> & [Hq|(t' & [Hne Ht']%lookup_delete_Some)]); (split; [by eauto|]); intros [= ->]; [by eapply Ho|].
      apply Hne. by eapply Hd.
  - intros t1 t2 q [_ ?]%lookup_delete_Some [_ ?]%lookup_delete_Some. by eapply Hd.
  - intros t' q [_ ?]%lookup_delete_Some. by eapply Ho.
Qed.

Lemma claims_others c o d p :
  claims_exact c o d -> (network_name, p) ∉ c -> claims_exact ({[(network_name, p)]} ∪ c) ({[p]} ∪ o) d.
Proof.
  intros (Hc & Hd & Ho) Hp. split_and!; [|done|].
  - intros n q. rewrite elem_of_union, elem_of_singleton, Hc, elem_of_union, elem_of_singleton. split.
    + intros [[= -> ->]|(-> & [?|?])]; eauto.
    + intros (-> & [[->|?]|?]); eauto.
  - intros t q Hq [->%elem_of_singleton|?]%elem_of_union; [|by eapply Ho]. apply Hp, Hc. eauto.
Qed.

Lemma claims_others_release c o d p :
  claims_exact c o d -> p ∈ o -> claims_exact (release_claim c network_name p) (o ∖ {[p]}) d.
Proof.
  intros (Hc & Hd & Ho) Hp. unfold release_claim. split_and!; [|done|].
  - intros n q. rewrite elem_of_difference, elem_of_singleton, Hc, elem_of_difference, elem_of_singleton. split.
    + intros [(-> & [?|?]) Hne]; eauto. split; [done|]. left. split; [done|]. by intros ->.
    + intros (-> & [[Hq Hne]|(t & Ht)]); (split; [by eauto|]); intros [= ->]; [done|by eapply Ho].
  - intros t q Hq [? _]%elem_of_difference. by eapply Ho.
Qed.

(** ** Every run *)
Definition phase_ok (top : Z) (p : Phase) : Prop :=
  match p with
  | Starting _ => True
  | Sleeping l backoff _ | Dialling l backoff _ _ => caps_ok l top /\ 0 <= backoff <= top
  end.

Definition tasks_ok (top : Z) (claims : Claims) (others : gset EndpointId) (tasks : gmap nat Task) (next : nat) : Prop :=
  claims_exact claims others (omap dialling_peer tasks)
  /\ (forall t, is_Some (tasks !! t) -> (t < next)%nat)
  /\ map_Forall (fun _ k => phase_ok top (tk_phase k)) tasks.
Definition redial_ok (top : Z) r : Prop := tasks_ok top (rd_in_flight r) (rd_others r) (rd_tasks r) (rd_next r).

Lemma dialling_none (tasks : gmap nat Task) t k :
  tasks !! t = Some k -> dialling_peer k = None -> omap dialling_peer tasks !! t = None.
Proof. intros Ht Hk. by rewrite lookup_omap, Ht. Qed.

(** A task goes from one phase to another: [c] are the claims then. *)
Lemma tasks_ok_set top c c' o tasks next t k k' :
  tasks_ok top c o tasks next -> tasks !! t = Some k -> phase_ok top (tk_phase k') ->
  claims_exact c' o (match dialling_peer k' with
                     | Some p => <[t := p]> (omap dialling_peer tasks)
                     | None => delete t (omap dialling_peer tasks)
                     end) ->
  tasks_ok top c' o (<[t := k']> tasks) next.
Proof.
  intros (_ & Hn & Hp) Ht Hk Hc. split_and!.
  - rewrite omap_insert. by destruct (dialling_peer k').
  - intros t' [? [[<- _]|[_ ?]]%lookup_insert_Some]; apply Hn; eauto.
  - by apply map_Forall_insert_2.
Qed.

Lemma tasks_ok_end top c c' o tasks next t :
  tasks_ok top c o tasks next -> claims_exact c' o (delete t (omap dialling_peer tasks)) ->
  tasks_ok top c' o (delete t tasks) next.
Proof.
  intros (_ & Hn & Hp) Hc. split_and!.
  - by rewrite omap_delete.
  - intros t' [? [_ ?]%lookup_delete_Some]. apply Hn. eauto.
  - by apply map_Forall_delete.
Qed.

Lemma start_backoff_ok health l peer uptime min_up top :
  caps_ok l top -> BACKOFF_INITIAL <= top ->
  0 <= (dial_retry_start network_name health l peer uptime min_up BACKOFF_INITIAL).1.2 <= top.
Proof.
  intros (Hw & Hc & Hf & _) Hi. unfold dial_retry_start, reconnect_storm_decision.
  assert (0 < BACKOFF_INITIAL) as Hpos by done.
  destruct uptime as [lived|]; [destruct (min_up <=? lived)|]; cbn; [lia| |lia].
  set (n := Z.min _ 20). assert (0 <= 2 ^ n) by (apply Z.pow_nonneg; lia).
  assert (0 <= BACKOFF_INITIAL * 2 ^ n) as Hprod by lia. revert Hprod. generalize (BACKOFF_INITIAL * 2 ^ n). intros z Hz.
  unfold checked_mul, backoff_cap. repeat case_match; cbn [default from_option id] in *; simplify_eq; lia.
Qed.

Definition event_ok (top : Z) (e : Event) : Prop :=
  match e with Starts _ cfg => caps_ok (retry_limits cfg) top | _ => True end.

Lemma wake_ok top r t k l backoff failed :
  redial_ok top r -> rd_tasks r !! t = Some k -> tk_phase k = Sleeping l backoff failed ->
  exists r', wake_task r t k l backoff failed = Ret r' /\ redial_ok top r'.
Proof.
  intros Hr Ht Hk. pose proof Hr as (Hc & _ & Hp). pose proof (Hp _ _ Ht) as Hph. cbn in Hph. rewrite Hk in Hph.
  destruct Hph as [Hl Hb]. destruct (next_backoff_bounded backoff failed l top Hl Hb) as (b & E & Hb').
  unfold wake_task. rewrite E. cbn [obind].
  assert (omap dialling_peer (rd_tasks r) !! t = None) as Hnone.
  { eapply dialling_none; [exact Ht|]. unfold dialling_peer. by rewrite Hk. }
  assert (claims_exact (rd_in_flight r) (rd_others r) (delete t (omap dialling_peer (rd_tasks r)))) as Hsame
    by by rewrite delete_id.
  destruct (dial_retry_decision _ _).
  2: { eexists. split; [done|]. by apply (tasks_ok_end top (rd_in_flight r)). }
  destruct (connected_to _ _); [eexists; split; [done|]; by apply (tasks_ok_end top (rd_in_flight r))|].
  unfold try_claim. cbn [rd_in_flight with_acc]. case_bool_decide; eexists; (split; [done|]).
  - by apply (tasks_ok_set top (rd_in_flight r) _ _ _ _ _ k).
  - apply (tasks_ok_set top (rd_in_flight r) _ _ _ _ _ k); [done|done|done|]. cbn. by apply claims_claim.
Qed.

Lemma redial_step_ok top r e :
  BACKOFF_INITIAL <= top -> redial_ok top r -> event_ok top e -> exists r', redial_step r e = Ret r' /\ redial_ok top r'.
Proof.
  intros Hi Hr He. pose proof Hr as (Hc & Hn & Hp).
  destruct e as [ev|t cfg|t|t dial|p|p|a|t]; cbn [redial_step];
    try (destruct (rd_tasks r !! t) as [k|] eqn:Ht; [|by eauto]; destruct (tk_phase k) as [up|l b f|l b f ip] eqn:Hk; try by eauto).
  - eexists. split; [done|]. unfold on_disconnect. destruct (reconnect_event _ _ _ _) as [a []]; [|done].
    assert (rd_tasks r !! rd_next r = None) as Hfresh.
    { apply eq_None_not_Some. intros ?%Hn. lia. }
    split_and!; cbn.
    + rewrite omap_insert. cbn. rewrite delete_id; [done|]. by rewrite lookup_omap, Hfresh.
    + intros t' [? [[<- _]|[_ ?]]%lookup_insert_Some]; [lia|]. apply Nat.lt_lt_succ_r, Hn. eauto.
    + by apply map_Forall_insert_2.
  - eexists. split; [done|]. unfold start_task.
    pose proof (start_backoff_ok (rd_health r) (retry_limits cfg) (tk_peer k) up (min_uptime cfg) top He Hi) as Hb.
    destruct (dial_retry_start _ _ _ _ _ _ _) as [[health b] f]. cbn in Hb.
    apply (tasks_ok_set top (rd_in_flight r) _ _ _ _ _ k); [done|done|done|]. cbn. rewrite delete_id; [done|].
    eapply dialling_none; [exact Ht|]. unfold dialling_peer. by rewrite Hk.
  - by eapply wake_ok.
  - eexists. split; [done|]. pose proof (Hp _ _ Ht) as Hph. cbn in Hph. rewrite Hk in Hph.
    assert (omap dialling_peer (rd_tasks r) !! t = Some (tk_peer k)) as Hd.
    { rewrite lookup_omap, Ht. cbn. unfold dialling_peer. by rewrite Hk. }
    unfold dial_ended. destruct dial as [conn|].
    + eapply tasks_ok_end; [exact Hr|]. by apply claims_release.
    + eapply tasks_ok_set; [exact Hr|exact Ht|done|]. cbn. by apply claims_release.
  - unfold try_claim. case_bool_decide; [by eauto|]. eexists. split; [done|]. split; [|done]. by apply claims_others.
  - case_bool_decide; [|by eauto]. eexists. split; [done|]. split; [|done]. by apply claims_others_release.
  - eexists. split; [done|]. done.
  - eexists. split; [done|]. eapply tasks_ok_end; [exact Hr|]. rewrite delete_id; [done|].
    eapply dialling_none; [exact Ht|]. unfold dialling_peer. by rewrite Hk.
Qed.

(** C24: whatever happens in whatever order, with any number of tasks for any peers: no run
    panics, no two tasks dial the same peer at once, and none dials a peer that another place
    of the node is dialling.  A claim is never left behind: a peer is claimed exactly
    while somebody dials it.  No task ever sleeps longer than the largest configured delay. *)
Theorem one_dial_per_peer (a : Acceptor Conn) (top : Z) (es : list Event) :
  BACKOFF_INITIAL <= top -> Forall (event_ok top) es ->
  exists r, redial_run (idle a) es = Ret r
    /\ (forall t t' p, dialling r !! t = Some p -> dialling r !! t' = Some p -> t = t')
    /\ (forall t p, dialling r !! t = Some p -> p ∉ rd_others r)
    /\ (forall n p, (n, p) ∈ rd_in_flight r <-> n = network_name /\ (p ∈ rd_others r \/ exists t, dialling r !! t = Some p))
    /\ (forall t k l backoff failed, rd_tasks r !! t = Some k -> tk_phase k = Sleeping l backoff failed -> 0 <= backoff <= top).
Proof.
  intros Hi Hes.
  assert (forall r, redial_ok top r -> exists r', redial_run r es = Ret r' /\ redial_ok top r') as Hrun.
  { induction Hes as [|e es He Hes IH]; intros r Hr; cbn; [by eauto|].
    destruct (redial_step_ok top r e Hi Hr He) as (r1 & -> & Hr1). by apply IH. }
  destruct (Hrun (idle a)) as (r & Hr & (Hf & Hd & Ho) & _ & Hp).
  { split_and!; [|by intros t []|apply map_Forall_empty]. cbn. rewrite omap_empty. split_and!.
    - intros n p. split; [by intros ?%elem_of_empty|]. intros (_ & [?%elem_of_empty|(t & ?)]); [done|]. by rewrite lookup_empty in *.
    - by intros ? ? ? ?.
    - by intros ? ? ?. }
  exists r. split_and!; try done. intros t k l b f Ht Hk. pose proof (Hp _ _ Ht) as Hph. cbn in Hph. rewrite Hk in Hph. apply Hph.
Qed.

(** ** One attempt, undisturbed *)

(** What an attempt leaves behind, given the outcome of the coordinator's attempt. *)
Definition after_attempt r (t : nat) (k : Task) (l : RetryLimits) a (o : Attempt) : Redialler :=
  let r := with_acc r a in
  match o with
  | TryAgain b f => set_task r t (in_phase k (Sleeping l b f))
  | StopPeerGone => end_task (with_health r (delete (network_name, tk_peer k) (rd_health r))) t
  | _ => end_task r t
  end.

Lemma claim_released (c : Claims) p : (network_name, p) ∉ c -> release_claim ({[(network_name, p)]} ∪ c) network_name p = c.
Proof.
  intros Hp. apply set_eq. intros x. unfold release_claim. rewrite elem_of_difference, elem_of_union, elem_of_singleton.
  split; [tauto|]. intros Hx. split; [by right|]. by intros ->.
Qed.

(** A task that nothing disturbs between its wake-up and the end of its dial does in one
    attempt what the task of a coordinator ([spawn_coordinator_dial_retry]) does. *)
Lemma attempt_undisturbed r t k l b f dial network_key :
  rd_tasks r !! t = Some k -> tk_phase k = Sleeping l b f -> tk_ipv6 k = derive_ipv6 (tk_peer k) network_key ->
  redial_run r [Wakes t; DialEnds t dial]
  = (o <-! dial_retry_attempt network_name network_key (rd_acc r) l (tk_peer k) (tk_ip k) b f
             (bool_decide ((network_name, tk_peer k) ∈ rd_in_flight r)) dial;
     Ret (after_attempt r t k l o.1 o.2)).
Proof.
  intros Ht Hk H6. cbn [redial_run]. cbn [redial_step]. rewrite Ht, Hk. unfold wake_task, dial_retry_attempt.
  destruct (next_backoff _ _) as [b'|]; [|done]. cbn [obind]. fold (connected_to (unmark_pruned network_name (rd_acc r) (tk_peer k)) (tk_peer k)).
  destruct (dial_retry_decision _ _); cbn [obind redial_step];
    [|cbn [rd_tasks end_task with_tasks]; by rewrite lookup_delete_eq]. cbn [rd_acc with_acc].
  destruct (connected_to _ _); [cbn [obind redial_step rd_tasks end_task with_tasks]; by rewrite lookup_delete_eq|].
  unfold try_claim. cbn [rd_in_flight with_acc]. case_bool_decide as Hc; cbn [obind redial_step rd_tasks set_task with_tasks].
  { rewrite lookup_insert_eq. cbn [in_phase tk_phase]. done. }
  rewrite lookup_insert_eq. cbn [in_phase tk_phase obind]. unfold dial_ended.
  cbn [tk_peer rd_in_flight set_task with_tasks with_in_flight]. rewrite claim_released by done.
  destruct dial as [conn|]; cbn [obind].
  - unfold after_attempt, end_task, set_task, with_tasks, with_acc, with_in_flight, add_route. cbn. rewrite H6, delete_insert_eq.
    by destruct r.
  - unfold after_attempt, set_task, with_tasks, with_acc, with_in_flight, in_phase. cbn. by rewrite insert_insert_eq.
Qed.

Lemma redial_run_app r es es' : redial_run r (es ++ es') = (r <-! redial_run r es; redial_run r es').
Proof. revert r. induction es as [|e es IH]; intros r; cbn; [done|]. destruct (redial_step r e); [apply IH|done]. Qed.

(** C32: A peer that stays on the roster is reached, however many attempts fail before: the
    task goes on, the first dial that succeeds registers the peer under the address the
    roster gives it now, with the claim given back and the task at its end. *)
Theorem member_redial_reaches_peer r (t : nat) (k : Task) l backoff failed network_key (m : Member) (conn : Conn) (top : Z)
  (failures : nat) :
  rd_tasks r !! t = Some k -> tk_phase k = Sleeping l backoff failed -> tk_ipv6 k = derive_ipv6 (tk_peer k) network_key ->
  dialable network_name (rd_acc r) (tk_peer k) m -> (network_name, tk_peer k) ∉ rd_in_flight r ->
  caps_ok l top -> 0 <= backoff <= top ->
  exists r', redial_run r (concat (replicate failures [Wakes t; DialEnds t None]) ++ [Wakes t; DialEnds t (Some conn)]) = Ret r'
    /\ rd_acc r' = add_route network_name network_key (rd_acc r) (m_ip m) conn (tk_peer k)
    /\ link4 (table (ac_links (rd_acc r'))) (m_ip m) network_name = Some conn
    /\ rd_tasks r' = delete t (rd_tasks r) /\ rd_in_flight r' = rd_in_flight r /\ rd_health r' = rd_health r.
Proof.
  intros Ht Hk H6 Hd Hc Hl. assert (bool_decide ((network_name, tk_peer k) ∈ rd_in_flight r) = false) as Hfree
    by by apply bool_decide_eq_false_2.
  revert r k backoff failed Ht Hk H6 Hd Hc Hfree. induction failures as [|n IH]; intros r k backoff failed Ht Hk H6 Hd Hc Hfree Hb;
    cbn [replicate concat].
  - cbn [app]. rewrite (attempt_undisturbed r t k l backoff failed (Some conn) network_key Ht Hk H6), Hfree.
    destruct (dial_retry_attempt_dialable network_name network_key (rd_acc r) l (tk_peer k) m (tk_ip k) backoff failed false
      (Some conn) top Hd Hl Hb) as (b & _ & ->).
    eexists. split; [reflexivity|]. split; [done|]. split; [apply add_links|]. done.
  - rewrite <- app_assoc, redial_run_app.
    rewrite (attempt_undisturbed r t k l backoff failed None network_key Ht Hk H6), Hfree.
    destruct (dial_retry_attempt_dialable network_name network_key (rd_acc r) l (tk_peer k) m (tk_ip k) backoff failed false
      None top Hd Hl Hb) as (b & Hb' & ->). cbn [obind fst snd].
    destruct (IH (after_attempt r t k l (rd_acc r) (TryAgain b (wrap 32 (failed + 1))))
      (in_phase k (Sleeping l b (wrap 32 (failed + 1)))) b (wrap 32 (failed + 1))) as (r' & Hrun & Ha & Hlk & Hts & Hcl & Hh); try done.
    { apply lookup_insert_eq. }
    exists r'. split; [exact Hrun|]. split; [exact Ha|]. split; [done|]. split; [|done].
    rewrite Hts. apply delete_insert_eq.
Qed.

(** A peer that is gone from the roster, or that this node has severed, is not dialled: the
    task ends with its next wake-up, no route or claim is made, and the streak is forgotten. *)
Lemma gone_peer_not_dialled r t k l b f top :
  rd_tasks r !! t = Some k -> tk_phase k = Sleeping l b f -> caps_ok l top -> 0 <= b <= top ->
  members (ac_state (rd_acc r)) !! tk_peer k = None \/ (network_name, tk_peer k) ∈ pruned_peers (ac_links (rd_acc r)) ->
  exists r', redial_run r [Wakes t] = Ret r' /\ rd_tasks r' = delete t (rd_tasks r) /\ rd_in_flight r' = rd_in_flight r
    /\ table (ac_links (rd_acc r')) = table (ac_links (rd_acc r)) /\ rd_health r' !! (network_name, tk_peer k) = None.
Proof.
  intros Ht Hk Hl Hb Hgone. destruct (next_backoff_bounded b f l top Hl Hb) as (b' & E & _).
  cbn [redial_run redial_step]. rewrite Ht, Hk. unfold wake_task. rewrite E. cbn [obind].
  assert (dial_retry_decision (bool_decide (is_Some (MemberListM.get (members (ac_state (rd_acc r))) (tk_peer k))))
    (bool_decide ((network_name, tk_peer k) ∈ pruned_peers (ac_links (rd_acc r)))) = AbandonPeerGone) as ->.
  { unfold MemberListM.get. destruct Hgone as [->|Hp]; [done|]. rewrite (bool_decide_eq_true_2 _ Hp). by destruct (bool_decide _). }
  eexists. split; [done|]. split_and!; try done. apply lookup_delete_eq.
Qed.

(** The roster is not looked at again after the dial: a peer that is removed while it is
    being dialled is registered all the same. *)
Lemma removed_while_dialled_is_registered r t k l b f ip a conn :
  rd_tasks r !! t = Some k -> tk_phase k = Dialling l b f ip ->
  members (ac_state a) !! tk_peer k = None -> (network_name, tk_peer k) ∈ pruned_peers (ac_links a) ->
  exists r', redial_run r [Changes a; DialEnds t (Some conn)] = Ret r'
    /\ members (ac_state (rd_acc r')) !! tk_peer k = None
    /\ link4 (table (ac_links (rd_acc r'))) ip network_name = Some conn.
Proof.
  intros Ht Hk Hm Hp. cbn [redial_run redial_step obind rd_tasks with_acc]. rewrite Ht, Hk. eexists. split; [done|].
  split; [done|]. apply add_links.
Qed.

(** ** A peer that flaps *)

(** The streaks after [n] connections to [peer] that lived for [lived] only. *)
Fixpoint after_flaps (l : RetryLimits) (peer : EndpointId) (lived min_up : Z) (health : gmap (string * EndpointId) Z) (n : nat)
  : gmap (string * EndpointId) Z :=
  match n with
  | O => health
  | S n =>
      (dial_retry_start network_name (after_flaps l peer lived min_up health n) l peer (Some lived) min_up BACKOFF_INITIAL).1.1
  end.

Lemma after_flaps_streak l peer lived min_up health n :
  health !! (network_name, peer) = None -> lived < min_up -> Z.of_nat n < 2 ^ 32 ->
  default 0 (after_flaps l peer lived min_up health n !! (network_name, peer)) = Z.of_nat n.
Proof.
  intros Hh Hl. induction n as [|n IH]; intros Hn; cbn [after_flaps]; [by rewrite Hh|].
  unfold dial_retry_start, reconnect_storm_decision.
  rewrite (proj2 (Z.leb_gt _ _)) by done. rewrite IH by lia.
  assert (saturating_add 32 (Z.of_nat n) 1 = Z.of_nat (S n)) as -> by (unfold saturating_add; lia).
  cbn [fst]. rewrite (proj2 (Z.eqb_neq _ _)) by lia. by rewrite lookup_insert_eq.
Qed.

(** A peer that takes every connection and drops it at once is not dialled every
    second: after its [n]-th short-lived connection the first delay is two to the [n] seconds,
    up to the cap that so many failed attempts would have brought. *)
Lemma flapping_peer_backs_off l peer lived min_up health n :
  health !! (network_name, peer) = None -> lived < min_up -> Z.of_nat (S n) < 2 ^ 32 -> 0 <= warm_max l -> 0 <= cold_max l -> 0 <= frozen_max l ->
  let k := Z.of_nat (S n) in
  let '(_, backoff, failed) :=
    dial_retry_start network_name (after_flaps l peer lived min_up health n) l peer (Some lived) min_up BACKOFF_INITIAL in
  failed = k
  /\ backoff = Z.min (from_secs (2 ^ Z.min k 20))
                 (backoff_cap k (cold_threshold l) (frozen_threshold l) (warm_max l) (cold_max l) (frozen_max l)).
Proof.
  intros Hh Hl Hn Hw Hc Hf k. unfold dial_retry_start, reconnect_storm_decision. rewrite (proj2 (Z.leb_gt _ _)) by done.
  rewrite after_flaps_streak by (done || lia).
  assert (saturating_add 32 (Z.of_nat n) 1 = k) as -> by (unfold saturating_add, k; lia). split; [done|].
  assert (0 <= 2 ^ Z.min k 20 <= 2 ^ 20) as Hp by (split; [apply Z.pow_nonneg; lia|apply Z.pow_le_mono_r; lia]).
  unfold checked_mul. rewrite (proj2 (Z.ltb_ge _ _)); [|change BACKOFF_INITIAL with (10 ^ 9); unfold DURATION_MAX; lia].
  cbn [default from_option id]. unfold from_secs. change BACKOFF_INITIAL with (10 ^ 9). f_equal. lia.
Qed.
End Redial.

(** ** Concrete runs *)
Import Demo DemoBlob.

(** The connection to member 4 is lost; it is dialled twice in vain and then reached. *)
Definition sample_lost : DisconnectEvent :=
  mkDisconnectEvent (mkId 4) 0 (derive_ipv6 (mkId 4) (mkId 9)) "home" Other None None.
Definition sample_events : list (Event (Conn := Z)) :=
  [Disconnects sample_lost; Starts 0 AppConfig_default; Wakes 0; OtherDials (mkId 4); DialEnds 0 None; Wakes 0].

Lemma sample_caps : caps_ok (retry_limits AppConfig_default) (from_secs BACKOFF_FROZEN_MAX_SECS).
Proof. unfold caps_ok, DURATION_MAX, from_secs. vm_compute. intuition discriminate. Qed.

Lemma one_dial_per_peer_witness :
  exists r, redial_run id "home" (idle (sample_acceptor sample_invited)) sample_events = Ret r
    /\ forall t p, dialling r !! t = Some p -> p ∉ rd_others r.
Proof.
  destruct (one_dial_per_peer id "home" (sample_acceptor sample_invited) (from_secs BACKOFF_FROZEN_MAX_SECS) sample_events)
    as (r & Hr & _ & Ho & _).
  - unfold BACKOFF_INITIAL, from_secs, BACKOFF_FROZEN_MAX_SECS. lia.
  - repeat constructor; cbn; apply sample_caps.
  - exists r. split; [exact Hr|exact Ho].
Defined.

Definition sample_asleep : Redialler (Conn := Z) :=
  mkRedialler (sample_acceptor sample_invited) ∅ ∅ ∅
    {[0%nat := mkTask (mkId 4) 0 (derive_ipv6 (mkId 4) (mkId 9)) (Sleeping sample_limits (10 ^ 9) 0)]} 1.

Lemma member_redial_reaches_peer_witness :
  exists r', redial_run id "home" sample_asleep
               [Wakes 0; DialEnds 0 None; Wakes 0; DialEnds 0 None; Wakes 0; DialEnds 0 (Some 71)] = Ret r'
    /\ rd_tasks r' = ∅.
Proof.
  destruct (some_such_that (fun _ => true) (members (ac_state (sample_acceptor sample_invited)) !! mkId 4)) as (m & Hm & _);
    [vm_compute; reflexivity|].
  destruct (member_redial_reaches_peer id "home" sample_asleep 0
    (mkTask (mkId 4) 0 (derive_ipv6 (mkId 4) (mkId 9)) (Sleeping sample_limits (10 ^ 9) 0)) sample_limits (10 ^ 9) 0 (mkId 9) m 71
    (from_secs BACKOFF_FROZEN_MAX_SECS) 2) as (r' & Hr & _ & _ & Ht & _).
  - reflexivity.
  - reflexivity.
  - reflexivity.
  - split; [exact Hm|]. split; [by_decide|]. vm_compute. constructor.
  - by_decide.
  - apply sample_caps.
  - unfold from_secs, BACKOFF_FROZEN_MAX_SECS. lia.
  - exists r'. split; [exact Hr|]. rewrite Ht. reflexivity.
Defined.
