(* ===== verification/Status.v ===== *)
(** * Status reports (src/src/daemon/mesh/diagnostics.rs, src/tetron-proto/src/ipc.rs)

    What [tetron status] is told: for every running network its roster with, for each peer, the
    connection to it, if there is one, and the path of that connection that is reported.

    A connection's paths and counters are the QUIC library's: they are arguments, with
    round-trip times and counters as arbitrary values that are only passed on.  Addresses are
    reported as they are, not in their text form.  [poisoned] tells of which networks the state's lock is
    poisoned. *)

From S2P Require Import Prelude Externs Addressing Names Peers Stats Forward Members Blob Select Network Ipc Settings Storage.
From S2P Require Import Admission Manager.

Section Status.
Context `{IrohKeys, Blake3, GroupBlobCodec, NetworkStore Disk} {Conn PathStats ConnStats : Type}.

(** ** Connections *)

(** [ph_rx_bytes]: what was received on the path. *)
Record Path := mkPath {
  ph_addr : TransportAddr;
  ph_selected : bool;
  ph_rx_bytes : Z;
  ph_stats : PathStats;
}.

Record PathCandidateInfo := mkPathCandidateInfo {
  pci_conn_type : ConnType;
  pci_remote_addr : TransportAddr;
  pci_is_selected : bool;
  pci_in_subnet : bool;
  pci_has_activity : bool;
  pci_stats : PathStats;
}.

Record ConnectionInfo := mkConnectionInfo {
  ci_conn_type : ConnType;
  ci_remote_addr : option TransportAddr;
  ci_path_stats : option PathStats;
  ci_stats : ConnStats;
  ci_max_datagram_size : option Z;
  ci_paths : list PathCandidateInfo;
  ci_via_detail : option ViaDetail;
}.

Record PeerStatus := mkPeerStatus {
  ps_endpoint_id : EndpointId;
  ps_ip : Ipv4Addr;
  ps_ipv6 : option Ipv6Addr;
  ps_hostname : option string;
  ps_connection : option ConnectionInfo;
  ps_is_coordinator : bool;
  ps_last_seen : option Z;
}.

Record NukeProposalInfo := mkNukeProposalInfo { np_short_id : string; np_proposed_at : Z }.

Record NetworkStatus := mkNetworkStatus {
  ns_network : string;
  ns_role : NetworkRole;
  ns_my_ip : Ipv4Addr;
  ns_my_ipv6 : option Ipv6Addr;
  ns_my_hostname : option string;
  ns_network_key : option string;
  ns_member_count : nat;
  ns_peers : list PeerStatus;
  ns_tun_name : string;
  ns_nuke_proposals : list NukeProposalInfo;
  ns_active : bool;
  ns_subnet : string;
  ns_nuke_consensus_threshold : Z;
}.

Record DropCounts := mkDropCounts {
  dc_send_failure : Z;
  dc_no_peer : Z;
  dc_malformed : Z;
  dc_backpressure : Z;
  dc_spoof : Z;
  dc_fragmentation_failed : Z;
}.

Record StatusReport := mkStatusReport {
  sr_endpoint_id : EndpointId;
  sr_active : bool;
  sr_networks : list NetworkStatus;
  sr_packets : Z * Z;
  sr_bytes : Z * Z;
  sr_drops : DropCounts;
  sr_fragmented : Z * Z;
}.

Context (veilid : bool) (paths : Conn -> list Path) (conn_stats : Conn -> ConnStats)
  (max_datagram_size : Conn -> option Z).
Implicit Types (m : MeshManager Disk Conn) (h : NetworkHandle Conn).

Definition path_candidate (managed_subnets : list Subnet) (managed_network_keys : list EndpointId) (p : Path)
  : PathCandidateInfo :=
  let '(ct, in_subnet) := classify_candidate_addr veilid (ph_addr p) managed_subnets managed_network_keys in
  mkPathCandidateInfo ct (ph_addr p) (ph_selected p) in_subnet (0 <? ph_rx_bytes p) (ph_stats p).

Definition candidate_class (c : PathCandidateInfo) : PathClass :=
  mkPathClass (pci_conn_type c) (pci_is_selected c) (pci_in_subnet c) (pci_has_activity c).

Definition gather_conn_info (conn : Conn) (managed_subnets : list Subnet) (managed_network_keys : list EndpointId)
  : ConnectionInfo :=
  let candidates := path_candidate managed_subnets managed_network_keys <$> paths conn in
  let classes := candidate_class <$> candidates in
  let chosen := idx ← choose_path_index classes; c ← classes !! idx; p ← paths conn !! idx; Some (c, p) in
  let '(conn_type, remote_addr, stats) :=
    match chosen with
    | Some (c, p) => (pc_type c, Some (ph_addr p), Some (ph_stats p))
    | None => (Unknown, None, None)
    end in
  mkConnectionInfo conn_type remote_addr stats (conn_stats conn) (max_datagram_size conn) candidates
    (classify_via_detail classes conn_type).

(** ** Networks *)

(** The last connection of an endpoint counts. *)
Definition connected_map (l : list (EndpointId * Ipv4Addr * Conn)) : gmap EndpointId Conn :=
  fold_left (fun acc p => <[p.1.1 := p.2]> acc) l ∅.

Definition nuke_proposal_infos (proposals : gmap string Z) (now ttl : Z) : list NukeProposalInfo :=
  (fun id => mkNukeProposalInfo (string_take 10 id) (default 0 (proposals !! id))) <$> active_nuke_proposers proposals now ttl.

Definition network_status m (name : string) h (direct : bool) (managed_subnets : list Subnet)
  (managed_network_keys : list EndpointId) (poisoned : bool) (tun_name : string) (loaded : Result AppConfig StorageError) (now : Z)
  : NetworkStatus :=
  let my_id := mm_id m in
  let role := if direct then RoleDirect else h_role h in
  let key := h_network_key h in
  let s := h_state h in
  let status hostname count peers proposals subnet threshold :=
    mkNetworkStatus name role (h_my_ip h) (Some (derive_ipv6 my_id key)) hostname (Some (id_to_string key)) count peers tun_name
      proposals (h_active h) subnet threshold in
  if poisoned then status None O [] [] (format_cidr default_subnet) default_nuke_consensus_threshold
  else
    let ms := roster s in
    let others := List.filter (fun mb => negb (bool_decide (m_identity mb = my_id))) ms in
    let connected := connected_map (peers_for_network_with_conn (h_peers h) name) in
    let peer mb :=
      mkPeerStatus (m_identity mb) (m_ip mb) (Some (derive_ipv6 (m_identity mb) key)) (m_hostname mb)
        ((fun conn => gather_conn_info conn managed_subnets managed_network_keys) <$> connected !! m_identity mb)
        (m_is_coordinator mb) (m_last_seen mb) in
    status (mb ← List.find (fun mb => bool_decide (m_identity mb = my_id)) ms; m_hostname mb)
      (length others) (peer <$> others) (nuke_proposal_infos (nuke_proposals s) now (nuke_ttl loaded))
      (format_cidr (subnet s)) (nuke_consensus_threshold s).

Definition direct_names (loaded : Result AppConfig StorageError) : gset string :=
  match loaded with Ok c => list_to_set (nc_name <$> List.filter nc_direct (cfg_networks c)) | Err _ => ∅ end.

Definition build_network_statuses (poisoned : string -> bool) (tun_name : string -> string)
  (loaded : Result AppConfig StorageError) (now : Z) m : list NetworkStatus :=
  let nets := map_to_list (mm_networks m) in
  let managed_subnets := (fun nh => subnet (h_state nh.2)) <$> nets in
  let managed_network_keys := (fun nh => h_network_key nh.2) <$> nets in
  (fun nh => network_status m nh.1 nh.2 (bool_decide (nh.1 ∈ direct_names loaded)) managed_subnets managed_network_keys
               (poisoned nh.1) (tun_name nh.1) loaded now) <$> nets.

(** [networks]: from the cache or just built. *)
Definition status m (networks : list NetworkStatus) (stats : ForwardMetrics) : StatusReport :=
  mkStatusReport (mm_id m) (existsb ns_active networks) networks (packets_rx stats, packets_tx stats) (bytes_rx stats, bytes_tx stats)
    (mkDropCounts (drop_count stats SendFailure) (drop_count stats NoPeer) (drop_count stats Malformed)
       (drop_count stats Backpressure) (drop_count stats Spoof) (drop_count stats FragmentationFailed))
    (fragmented_ipv4 stats, fragmented_ipv6 stats).

(** ** What a report says *)

(** The address lies in none of the overlays this daemon runs. *)
Definition outside_overlays m (addr : TransportAddr) : Prop :=
  forall name h, mm_networks m !! name = Some h ->
  match addr with
  | Ip4 ip _ => ip_in_subnet ip (subnet (h_state h)) = false
  | Ip6 ip _ => ipv6_in_network ip (h_network_key h) = false
  | _ => True
  end.

Lemma filter_sublist {A} (f : A -> bool) (l : list A) : List.filter f l `sublist_of` l.
Proof. induction l as [|x l IH]; cbn; [done|]. destruct (f x); [by apply sublist_skip|by apply sublist_cons]. Qed.

Lemma connected_map_spec l (acc : gmap EndpointId Conn) id :
  is_Some (fold_left (fun acc (p : EndpointId * Ipv4Addr * Conn) => <[p.1.1 := p.2]> acc) l acc !! id)
  <-> is_Some (acc !! id) \/ exists ip conn, (id, ip, conn) ∈ l.
Proof.
  revert acc. induction l as [|[[i ip] c] l IH]; intros acc; cbn.
  - split; [by left|]. intros [?|(? & ? & []%elem_of_nil)]. done.
  - rewrite IH, lookup_insert_is_Some'. split.
    + intros [[<-|?]|(ip' & c' & Hin)]; [right; exists ip, c; left|by left|right; exists ip', c'; by right].
    + intros [?|(ip' & c' & [[= -> -> ->]|Hin]%elem_of_cons)]; [by left; right|by left; left|right; eauto].
Qed.

Lemma connected_map_elem l (acc : gmap EndpointId Conn) id conn :
  fold_left (fun acc (p : EndpointId * Ipv4Addr * Conn) => <[p.1.1 := p.2]> acc) l acc !! id = Some conn ->
  acc !! id = Some conn \/ exists ip, (id, ip, conn) ∈ l.
Proof.
  revert acc. induction l as [|[[i ip] c] l IH]; intros acc; cbn; [by left|]. intros Hf.
  destruct (IH _ Hf) as [[[-> ->]|[_ ?]]%lookup_insert_Some|(ip' & ?)];
    [right; exists ip; left|by left|right; exists ip'; by right].
Qed.

(** The reported path of a connection is one of its paths, and its address is in no overlay. *)
Lemma gathered_path m (conn : Conn) addr :
  let nets := map_to_list (mm_networks m) in
  let info := gather_conn_info conn ((fun nh => subnet (h_state nh.2)) <$> nets) ((fun nh => h_network_key nh.2) <$> nets) in
  ci_remote_addr info = Some addr ->
  outside_overlays m addr /\ (exists p, p ∈ paths conn /\ ph_addr p = addr)
  /\ ci_conn_type info = (classify_candidate_addr veilid addr [] []).1.
Proof.
  intros nets info. subst info. unfold gather_conn_info. set (cands := path_candidate _ _ <$> paths conn).
  set (classes := candidate_class <$> cands). pose proof (choose_path_index_sound classes) as Hs.
  destruct (choose_path_index classes) as [i|]; cbn [mbind option_bind]; [|done].
  destruct Hs as (c & Hc & Hin & _). rewrite Hc. cbn [mbind option_bind].
  unfold classes, cands in Hc. rewrite !list_lookup_fmap in Hc.
  destruct (paths conn !! i) as [p|] eqn:Hp; [|done]. injection Hc as <-. intros [= <-]. split; [|split].
  - intros name h Hh. revert Hin. unfold candidate_class, path_candidate.
    assert ((name, h) ∈ nets) as Hnet by by apply elem_of_map_to_list.
    destruct (ph_addr p) as [ip ?|ip ?| |]; [| |done|done]; cbn; intros Hin%negb_true_iff;
      apply not_true_iff_false; intros Ht; rewrite <- not_true_iff_false in Hin; apply Hin, existsb_exists; eexists;
      (split; [apply list_elem_of_In, list_elem_of_fmap; exists (name, h); by split|exact Ht]).
  - exists p. split; [|done]. by eapply list_elem_of_lookup_2.
  - unfold candidate_class, path_candidate. by destruct (ph_addr p).
Qed.

End Status.

(** ** A concrete report *)
Import Demo DemoBlob DemoStore.

Definition sample_paths (conn : Z) : list (Path (PathStats := unit)) :=
  [mkPath (Ip4 (derive_ip (mkId 4) default_subnet) 1) true 10 tt; mkPath (Ip4 (ipv4_new 192 0 2 7) conn) false 10 tt].

