(* ===== verification/Service.v ===== *)
(** * The system service (src/src/cli/service.rs, src/contrib/tetron.service)

    What [tetron install] and [tetron uninstall] do about the service unit on Linux: the
    unit written from the template, the drop-in beside a packaged unit, the unit of an
    earlier install that is moved away with its settings kept.

    The file system is what is looked at and written: the unit under [/etc], whether a
    package installed one, the drop-in and the backups.  Who owns the executable is the
    package manager's answer; its text form is parsed here.  The macOS half is left out. *)

From S2P Require Import Prelude.

(** ** Text *)
Definition strip_suffix (suffix s : string) : option string :=
  string_rev <$> strip_prefix (string_rev suffix) (string_rev s).

Definition NL : ascii := "010".

(** [str::lines]. *)
Definition drop_cr (l : string) : string := default l (strip_suffix (String "013" EmptyString) l).
Fixpoint drop_last_empty (ls : list string) : list string :=
  match ls with
  | [] => []
  | [l] => match l with EmptyString => [] | _ => [l] end
  | l :: ls => l :: drop_last_empty ls
  end.
Definition lines (s : string) : list string := drop_cr <$> drop_last_empty (split_on NL s).

(** [str::split_whitespace]: no word is longer than the text. *)
Definition at_white_space (s : string) : bool := existsb (fun p => String.prefix p s) white_space.
Fixpoint take_word (s : string) : string * string :=
  match s with
  | EmptyString => (EmptyString, EmptyString)
  | String c s' => if at_white_space s then (EmptyString, s) else let '(w, r) := take_word s' in (String c w, r)
  end.
Fixpoint words (fuel : nat) (s : string) : list string :=
  match fuel with
  | O => []
  | S fuel =>
      match trim_start s with
      | EmptyString => []
      | s => let '(w, r) := take_word s in w :: words fuel r
      end
  end.
Definition split_whitespace (s : string) : list string := words (String.length s) s.

(** [str::replace] for a non-empty pattern; [skip] characters belong to the last match. *)
Fixpoint replace_from (p to : string) (skip : nat) (s : string) : string :=
  match s with
  | EmptyString => EmptyString
  | String c s' =>
      match skip with
      | S skip => replace_from p to skip s'
      | O =>
          if String.prefix p s then to +:+ replace_from p to (pred (String.length p)) s'
          else String c (replace_from p to O s')
      end
  end.
Definition replace (s p to : string) : string := replace_from p to O s.

(** [str::contains]. *)
Fixpoint contains (s p : string) : bool :=
  String.prefix p s || match s with EmptyString => false | String _ s' => contains s' p end.

(** [Path::file_name]. *)
Definition file_name (path : string) : option string :=
  match last (List.filter (fun c => negb (String.eqb c "" || String.eqb c ".")) (split_on "/" path)) with
  | Some c => if String.eqb c ".." then None else Some c
  | None => None
  end.

(** ** Who owns the executable *)
Definition strip_deleted_suffix (path : string) : string := default path (strip_suffix " (deleted)" path).

Definition package_char (c : ascii) : bool :=
  let b := byte_of_ascii c in
  ((97 <=? b) && (b <=? 122)) || is_digit c || existsb (fun d => bool_decide (c = d)) ["+"; "-"; "."]%char.
Definition alphanumeric (c : ascii) : bool :=
  let b := byte_of_ascii c in ((97 <=? b) && (b <=? 122)) || ((65 <=? b) && (b <=? 90)) || is_digit c.

(** [str::split_once] at [sep]. *)
Fixpoint split_once_at (sep s : string) : option (string * string) :=
  match strip_prefix sep s with
  | Some rest => Some (EmptyString, rest)
  | None =>
      match s with
      | EmptyString => None
      | String c s' => '(a, b) ← split_once_at sep s'; Some (String c a, b)
      end
  end.

Definition dpkg_line (l : string) : option string :=
  '(owners, path) ← split_once_at ": " l;
  if negb (starts_with path "/") then None
  else
    first ← head (split_on "," owners);
    name ← head (split_on ":" (trim first));
    match name with
    | String c _ => if alphanumeric c && all_chars package_char name then Some name else None
    | EmptyString => None
    end.

Fixpoint find_map {A B} (f : A -> option B) (l : list A) : option B :=
  match l with [] => None | x :: l => match f x with Some y => Some y | None => find_map f l end end.

Definition parse_dpkg_search (out : string) : option string :=
  find_map dpkg_line (List.filter (fun l => negb (starts_with l "diversion by ")) (lines out)).

(** [canonicalize]: the path with links resolved, if it exists; [run]: what [dpkg -S] prints. *)
Definition package_owner_with (canonicalize run : string -> option string) (path : string) : option string :=
  let stripped := strip_deleted_suffix path in
  out ← run (default stripped (canonicalize stripped)); parse_dpkg_search out.

(** ** Path overrides *)
Record PathOverrides := mkPathOverrides { po_config_dir : option string; po_log_dir : option string; po_socket_path : option string }.

Definition env_line (key value : string) : string := "Environment=TETRON_" +:+ key +:+ "=" +:+ value +:+ String NL "".

Definition env_text (key : string) (value : option string) : string :=
  match value with Some v => env_line key v | None => "" end.

Definition dropin_text (o : PathOverrides) : option string :=
  match env_text "CONFIG_DIR" (po_config_dir o) +:+ env_text "LOG_DIR" (po_log_dir o) +:+ env_text "SOCKET_PATH" (po_socket_path o) with
  | EmptyString => None
  | ls => Some ("[Service]" +:+ String NL ls)
  end.

Inductive UnitPlan := WriteUnit | UsePackaged (package : string) (dropin : option string).

Definition plan_linux_unit (owner : option string) (vendor_unit_exists : bool) (overrides : PathOverrides) : UnitPlan :=
  match owner with
  | Some package => if vendor_unit_exists then UsePackaged package (dropin_text overrides) else WriteUnit
  | None => WriteUnit
  end.

Definition UNIT_TEMPLATE_DESCRIPTION : string := "Description=tetron P2P mesh VPN".

Definition unit_env (text key : string) : option string :=
  v ← find_map (fun l => strip_prefix ("Environment=TETRON_" +:+ key +:+ "=") (trim l)) (lines text);
  if String.eqb v "" || starts_with v "__TETRON_" then None else Some v.

Definition legacy_unit_overrides (text : string) : option PathOverrides :=
  if negb (existsb (fun l => String.eqb (trim l) UNIT_TEMPLATE_DESCRIPTION) (lines text)) then None
  else
    exec ← find_map (fun l => strip_prefix "ExecStart=" (trim l)) (lines text);
    match split_whitespace exec with
    | program :: words =>
        if negb (bool_decide (file_name program = Some "tetron")) || negb (bool_decide (head words = Some "daemon")) then None
        else Some (mkPathOverrides (unit_env text "CONFIG_DIR") (unit_env text "LOG_DIR") (unit_env text "SOCKET_PATH"))
    | [] => None
    end.

Definition or_else (a b : option string) : option string := match a with Some _ => a | None => b end.
Definition merge_overrides (flags legacy : PathOverrides) : PathOverrides :=
  mkPathOverrides (or_else (po_config_dir flags) (po_config_dir legacy)) (or_else (po_log_dir flags) (po_log_dir legacy))
    (or_else (po_socket_path flags) (po_socket_path legacy)).

(** The template, as it is in the repository. *)
Definition unit_template : string :=
"[Unit]
Description=tetron P2P mesh VPN
After=network-online.target
Wants=network-online.target

[Service]
Type=simple
Environment=TETRON_CONFIG_DIR=__TETRON_CONFIG_DIR__
Environment=TETRON_LOG_DIR=__TETRON_LOG_DIR__
Environment=TETRON_SOCKET_PATH=__TETRON_SOCKET_PATH__
ExecStart=/usr/local/bin/tetron daemon
Restart=on-failure
RestartSec=5

[Install]
WantedBy=multi-user.target
".

Definition placeholder (env_var : string) : string := "__TETRON_" +:+ env_var +:+ "__".
Definition inject_env (service env_var : string) (value : option string) : string :=
  match value with
  | Some v => replace service (placeholder env_var) v
  | None => replace service (env_line env_var (placeholder env_var)) ""
  end.

Definition unit_text (exe : string) (o : PathOverrides) : string :=
  let service := replace unit_template "/usr/local/bin/tetron" exe in
  let service := inject_env service "CONFIG_DIR" (po_config_dir o) in
  let service := inject_env service "LOG_DIR" (po_log_dir o) in
  inject_env service "SOCKET_PATH" (po_socket_path o).

(** ** Installing and uninstalling *)
Record Host := mkHost {
  etc_unit : option string;
  vendor_unit : bool;
  host_dropin : option string;
  backups : list (string * string);
  commands : list (list string);
}.

Definition run_cmd (h : Host) (c : list string) : Host :=
  mkHost (etc_unit h) (vendor_unit h) (host_dropin h) (backups h) (commands h ++ [c]).
Definition set_etc_unit (h : Host) (u : option string) : Host :=
  mkHost u (vendor_unit h) (host_dropin h) (backups h) (commands h).
Definition set_dropin (h : Host) (d : option string) : Host :=
  mkHost (etc_unit h) (vendor_unit h) d (backups h) (commands h).
Definition add_backup (h : Host) (name text : string) : Host :=
  mkHost (etc_unit h) (vendor_unit h) (host_dropin h) (backups h ++ [(name, text)]) (commands h).

(** Which writes go through. *)
Record Io := mkIo { io_unit : bool; io_dropin : bool; io_copy : bool; io_remove : bool }.
Inductive IoFailed := UnitNotWritten | DropinNotWritten | BackupNotCopied | UnitNotRemoved.

(** [move_to_backup] of the unit under [/etc]. *)
Definition move_to_backup (h : Host) (io : Io) (text : string) (stamp : Z) : Host * Result unit IoFailed :=
  if negb (io_copy io) then (h, Err BackupNotCopied)
  else
    let h := add_backup h ("tetron.service." +:+ dec stamp) text in
    if negb (io_remove io) then (h, Err UnitNotRemoved) else (set_etc_unit h None, Ok tt).

(** [answer]: what was read from the terminal, if there is one. *)
Definition confirm_move_legacy_unit (answer : option string) : bool :=
  match answer with
  | None => false
  | Some a => negb (existsb (String.eqb (trim a)) ["n"; "N"; "no"; "No"])
  end.

Definition write_dropin (h : Host) (io : Io) (text : string) : Host * Result unit IoFailed :=
  if io_dropin io then (set_dropin h (Some text), Ok tt) else (h, Err DropinNotWritten).

Definition daemon_reload : list string := ["systemctl"; "daemon-reload"].

Definition ensure_service_installed (h : Host) (io : Io) (current_exe : string) (owner : option string) (overrides : PathOverrides)
  (answer : option string) (stamp : Z) : Host * Result unit IoFailed :=
  let exe := strip_deleted_suffix current_exe in
  let vendor := vendor_unit h in
  match plan_linux_unit (if vendor then owner else None) vendor overrides with
  | UsePackaged _ dropin =>
      let legacy := text ← etc_unit h; old ← legacy_unit_overrides text; Some (text, old) in
      let '(h, moved, dropin) :=
        match legacy with
        | Some (text, old) =>
            if confirm_move_legacy_unit answer then
              let '(h, r) := move_to_backup (run_cmd h ["systemctl"; "disable"; "tetron"]) io text stamp in
              (match r with Ok _ => run_cmd h daemon_reload | Err _ => h end, r, dropin_text (merge_overrides overrides old))
            else (h, Ok tt, dropin)
        | None => (h, Ok tt, dropin)
        end in
      match moved with
      | Err e => (h, Err e)
      | Ok _ =>
          match dropin with
          | Some text =>
              let '(h, r) := write_dropin h io text in
              (match r with Ok _ => run_cmd h daemon_reload | Err _ => h end, r)
          | None => (h, Ok tt)
          end
      end
  | WriteUnit =>
      if io_unit io then (run_cmd (set_etc_unit h (Some (unit_text exe overrides))) daemon_reload, Ok tt)
      else (h, Err UnitNotWritten)
  end.

Record UninstallPlan := mkUninstallPlan { up_installed : bool; up_remove_etc_unit : bool; up_hint : option string }.

Definition plan_uninstall (etc_unit_exists vendor_unit_exists : bool) (vendor_owner : option string) : UninstallPlan :=
  mkUninstallPlan (etc_unit_exists || vendor_unit_exists) etc_unit_exists
    (if vendor_unit_exists then
       Some (match vendor_owner with
             | Some pkg => "The service unit is installed by package '" +:+ pkg
                           +:+ "' and was not deleted; remove it with: sudo apt remove " +:+ pkg
             | None => "The service unit is installed by a package and was not deleted; remove it with your package manager"
             end)
     else None).

Definition cmd_uninstall_service (h : Host) (io : Io) (vendor_owner : option string) : Host * Result (option string) IoFailed :=
  let plan := plan_uninstall (bool_decide (is_Some (etc_unit h))) (vendor_unit h) (if vendor_unit h then vendor_owner else None) in
  if negb (up_installed plan) then (h, Ok None)
  else
    let h := run_cmd h ["systemctl"; "disable"; "--now"; "tetron"] in
    if up_remove_etc_unit plan then
      if io_remove io then (run_cmd (set_etc_unit h None) daemon_reload, Ok (up_hint plan)) else (h, Err UnitNotRemoved)
    else (h, Ok (up_hint plan)).

(** [systemctl show -p Environment --value]: the settings, separated by blanks. *)
Definition service_env_dirs (env : string) : option string * option string :=
  let get key :=
    v ← find_map (fun kv => strip_prefix key kv) (split_whitespace env); if String.eqb v "" then None else Some v in
  (get "TETRON_CONFIG_DIR=", get "TETRON_LOG_DIR=").

(** ** Replacing in a text with unknown parts *)
Fixpoint mismatch (p s : string) : bool :=
  match p, s with
  | String a p', String b s' => if bool_decide (a = b) then mismatch p' s' else true
  | _, _ => false
  end.
(** No occurrence of [p] starts in [s], whatever follows. *)
Fixpoint quiet (p s : string) : bool :=
  match s with
  | EmptyString => true
  | String _ s' => mismatch p s && quiet p s'
  end.

Lemma prefix_cons a p b s : String.prefix (String a p) (String b s) = bool_decide (a = b) && String.prefix p s.
Proof. cbn. destruct (Ascii.ascii_dec a b); case_bool_decide; done. Qed.

Lemma mismatch_prefix p s t : mismatch p s = true -> String.prefix p (s +:+ t) = false.
Proof.
  revert s. induction p as [|a p IH]; intros [|b s]; cbn [mismatch]; try done.
  change (String b s +:+ t) with (String b (s +:+ t)). rewrite prefix_cons. case_bool_decide; [|done]. cbn. apply IH.
Qed.

(** A part of the text that replacing leaves as it is, before [t]. *)
Definition inert (p s t : string) : Prop :=
  forall to, replace_from p to O (s +:+ t) = s +:+ replace_from p to O t.

Lemma quiet_inert p s t : quiet p s = true -> inert p s t.
Proof.
  intros Hq to. induction s as [|c s IH]; [done|]. cbn [quiet] in Hq. apply andb_true_iff in Hq as [Hm Hq].
  change (String c s +:+ t) with (String c (s +:+ t)). cbn [replace_from].
  change (String c (s +:+ t)) with (String c s +:+ t) at 1. rewrite (mismatch_prefix p (String c s) t Hm).
  change (String c s +:+ replace_from p to 0 t) with (String c (s +:+ replace_from p to 0 t)). f_equal. by apply IH.
Qed.

Lemma inert_app p s1 s2 t : inert p s1 (s2 +:+ t) -> inert p s2 t -> inert p (s1 +:+ s2) t.
Proof. intros H1 H2 to. by rewrite <- !sapp_assoc, H1, H2. Qed.

Lemma replace_skip p to n s t : n = String.length s -> replace_from p to n (s +:+ t) = replace_from p to O t.
Proof. intros ->. induction s as [|c s IH]; [done|]. exact IH. Qed.

Lemma prefix_refl_app p t : String.prefix p (p +:+ t) = true.
Proof.
  induction p as [|c p IH]; [by destruct t|]. change (String c p +:+ t) with (String c (p +:+ t)). rewrite prefix_cons.
  by rewrite bool_decide_eq_true_2.
Qed.

Lemma replace_hit p to t : p <> EmptyString -> replace_from p to O (p +:+ t) = to +:+ replace_from p to O t.
Proof.
  destruct p as [|c p]; [done|]. intros _. change (String c p +:+ t) with (String c (p +:+ t)). cbn [replace_from].
  change (String c (p +:+ t)) with (String c p +:+ t) at 1. rewrite prefix_refl_app. f_equal. by apply replace_skip.
Qed.

Lemma prefix_app_cases p s c t :
  String.prefix p (s +:+ String c t) = true -> (exists u, s = p +:+ u) \/ exists p2, p = s +:+ String c p2.
Proof.
  revert s. induction p as [|a p IH]; intros [|b s]; try (by left; eexists).
  - change (EmptyString +:+ String c t) with (String c t). rewrite prefix_cons. case_bool_decide; [|done]. subst a. intros _. right. by exists p.
  - change (String b s +:+ String c t) with (String b (s +:+ String c t)). rewrite prefix_cons.
    case_bool_decide; [|done]. subst a. intros [[u ->]|[p2 ->]]%IH; [by left; exists u|by right; exists p2].
Qed.

Lemma contains_app s t q : contains s q = true -> contains (s +:+ t) q = true.
Proof.
  induction s as [|c s IH]; cbn [contains].
  - destruct q; [|done]. intros _. by destruct t.
  - change (String c s +:+ t) with (String c (s +:+ t)). cbn [contains]. intros [Hp|Hs]%orb_true_iff; apply orb_true_iff; [left|right; by apply IH].
    clear IH. revert c s Hp. induction q as [|a q IHq]; intros c s Hp; [done|]. rewrite prefix_cons in *.
    apply andb_true_iff in Hp as [-> Hp]. destruct s as [|d s]; [by destruct q; [destruct t|]|]. exact (IHq d s Hp).
Qed.

(** Where [p] is cut at a [c], what is before has [q] in it. *)
Fixpoint cuts_ok (seen p : string) (c : ascii) (q : string) : bool :=
  match p with
  | EmptyString => true
  | String d p' => (if bool_decide (d = c) then contains seen q else true) && cuts_ok (seen +:+ String d "") p' c q
  end.

Lemma cuts_ok_spec seen p c q s p2 : cuts_ok seen p c q = true -> p = s +:+ String c p2 -> contains (seen +:+ s) q = true.
Proof.
  revert seen s. induction p as [|d p IH]; intros seen [|b s] Hc E; cbn [cuts_ok] in Hc.
  - done.
  - done.
  - injection E as -> ->. rewrite bool_decide_eq_true_2 in Hc by done. apply andb_true_iff in Hc as [Hc _]. by rewrite sapp_nil_r.
  - injection E as -> ->. apply andb_true_iff in Hc as [_ Hc]. pose proof (IH _ s Hc eq_refl) as Hr. by rewrite <- sapp_assoc in Hr.
Qed.

(** An unknown part without [q], which is in [p], before a [c]. *)
Lemma plain_inert p v c t q :
  contains p q = true -> cuts_ok "" p c q = true -> contains v q = false -> inert p v (String c t).
Proof.
  intros Hp Hc Hv to. induction v as [|d v IH]; [done|]. pose proof Hv as Hv'. cbn [contains] in Hv'. apply orb_false_iff in Hv' as [_ Hv'].
  change (String d v +:+ String c t) with (String d (v +:+ String c t)). cbn [replace_from].
  change (String d (v +:+ String c t)) with (String d v +:+ String c t) at 1.
  destruct (String.prefix p (String d v +:+ String c t)) eqn:E; [exfalso|].
  - apply prefix_app_cases in E as [[u E]|[p2 E]].
    + rewrite E in Hv. by rewrite (contains_app p u q Hp) in Hv.
    + pose proof (cuts_ok_spec "" p c q (String d v) p2 Hc E) as Hr.
      change ("" +:+ String d v) with (String d v) in Hr. congruence.
  - by rewrite IH.
Qed.

(** ** The unit that is written *)

(** A value that is taken as it is: printable, without blanks, without a placeholder. *)
Definition plain (v : string) : Prop := v <> "" /\ all_chars trim_safe v = true /\ contains v "__TETRON_" = false.
Definition plain_overrides (o : PathOverrides) : Prop :=
  forall v, v ∈ [po_config_dir o; po_log_dir o; po_socket_path o] -> match v with Some v => plain v | None => True end.

Definition unlines (ls : list string) : string := fold_right (fun l t => l +:+ String NL t) "" ls.

Definition unit_head : list string :=
  ["[Unit]"; UNIT_TEMPLATE_DESCRIPTION; "After=network-online.target"; "Wants=network-online.target"; ""; "[Service]"; "Type=simple"].
Definition unit_tail : list string := ["Restart=on-failure"; "RestartSec=5"; ""; "[Install]"; "WantedBy=multi-user.target"].

(** The text with some environment lines and some executable. *)
Definition unit_body (c l s exe : string) : string :=
  unlines unit_head +:+ c +:+ l +:+ s +:+ "ExecStart=" +:+ exe +:+ " daemon" +:+ String NL (unlines unit_tail).

Definition raw_env (key : string) : string := env_line key (placeholder key).

Lemma template_exe exe :
  replace unit_template "/usr/local/bin/tetron" exe
  = unit_body (raw_env "CONFIG_DIR") (raw_env "LOG_DIR") (raw_env "SOCKET_PATH") exe.
Proof. vm_compute. reflexivity. Qed.

(** The marks that are looked for are told from everything else in a unit. *)
Definition telling (p : string) : bool :=
  contains p "__TETRON_" && cuts_ok "" p NL "__TETRON_" && cuts_ok "" p " " "__TETRON_" && quiet p (String NL "")
  && quiet p (unlines unit_head) && quiet p "ExecStart=" && quiet p (" daemon" +:+ String NL (unlines unit_tail)).

Lemma telling_spec p : telling p = true ->
  contains p "__TETRON_" = true /\ cuts_ok "" p NL "__TETRON_" = true /\ cuts_ok "" p " " "__TETRON_" = true
  /\ quiet p (String NL "") = true /\ quiet p (unlines unit_head) = true /\ quiet p "ExecStart=" = true
  /\ quiet p (" daemon" +:+ String NL (unlines unit_tail)) = true.
Proof. unfold telling. rewrite !andb_true_iff. tauto. Qed.

Lemma env_inert p key v t :
  telling p = true -> quiet p ("Environment=TETRON_" +:+ key +:+ "=") = true -> match v with Some v => plain v | None => True end ->
  inert p (env_text key v) t.
Proof.
  intros (Hq & Hc & _ & Hn & _)%telling_spec Hk Hv. destruct v as [v|]; [|by intros to]. cbn [env_text]. unfold env_line.
  rewrite !sapp_assoc. rewrite <- (sapp_assoc "Environment=TETRON_" key "="). apply inert_app; [|by apply quiet_inert].
  apply inert_app; [by apply quiet_inert|]. apply (plain_inert p v NL t "__TETRON_"); [done|done|apply Hv].
Qed.

Lemma exec_inert p exe : telling p = true -> plain exe ->
  inert p ("ExecStart=" +:+ exe +:+ " daemon" +:+ String NL (unlines unit_tail)) "".
Proof.
  intros (Hq & _ & Hs & _ & _ & He & Ht)%telling_spec (_ & _ & Hx). apply inert_app; [by apply quiet_inert|].
  apply inert_app; [|by apply quiet_inert]. by apply (plain_inert p exe " " _ "__TETRON_").
Qed.

(** One setting put in its place, between parts that have no mark of it. *)
Lemma inject_at key value before after :
  quiet (placeholder key) ("Environment=TETRON_" +:+ key +:+ "=") = true -> quiet (placeholder key) (String NL "") = true ->
  inert (placeholder key) before (raw_env key +:+ after) -> inert (placeholder key) after "" ->
  inert (raw_env key) before (raw_env key +:+ after) -> inert (raw_env key) after "" ->
  inject_env (before +:+ raw_env key +:+ after) key value = before +:+ env_text key value +:+ after.
Proof.
  intros Hk Hn Hb Ha Hb' Ha'. unfold inject_env, replace.
  assert (forall p to, inert p after "" -> replace_from p to 0 after = after) as Hend.
  { intros p to Hi. specialize (Hi to). rewrite sapp_nil_r in Hi. rewrite Hi. apply sapp_nil_r. }
  destruct value as [v|].
  - rewrite Hb. f_equal. unfold raw_env, env_text, env_line. rewrite <- !sapp_assoc.
    rewrite (sapp_assoc "Environment=TETRON_" key), (sapp_assoc _ "="), (quiet_inert _ _ _ (Hk : quiet _ (("Environment=TETRON_" +:+ key) +:+ "=") = true)).
    rewrite replace_hit by done. rewrite (quiet_inert _ _ _ Hn), Hend by done. by rewrite <- !sapp_assoc.
  - rewrite Hb'. f_equal. rewrite replace_hit by done. by rewrite Hend.
Qed.

Lemma unit_text_shape exe o :
  plain exe -> plain_overrides o ->
  unit_text exe o = unit_body (env_text "CONFIG_DIR" (po_config_dir o)) (env_text "LOG_DIR" (po_log_dir o))
                      (env_text "SOCKET_PATH" (po_socket_path o)) exe.
Proof.
  intros Hx Ho.
  assert (match po_config_dir o with Some v => plain v | None => True end) as Hc by (apply Ho; left).
  assert (match po_log_dir o with Some v => plain v | None => True end) as Hl by (apply Ho; right; left).
  unfold unit_text. cbn zeta. rewrite template_exe. unfold unit_body.
  set (exec := "ExecStart=" +:+ exe +:+ " daemon" +:+ String NL (unlines unit_tail)).
  assert (forall p, telling p = true -> inert p exec "") as He by (intros p Hp; by apply exec_inert).
  assert (forall p t, telling p = true -> inert p (unlines unit_head) t) as Hh
    by (intros p t Hp; apply quiet_inert; by apply telling_spec in Hp as (_ & _ & _ & _ & ? & _)).
  rewrite (inject_at "CONFIG_DIR" (po_config_dir o) (unlines unit_head)
    (raw_env "LOG_DIR" +:+ raw_env "SOCKET_PATH" +:+ exec)); [|done|done|by apply Hh| |by apply Hh|];
    [|repeat first [by apply He|apply inert_app; [by apply quiet_inert|]]..].
  rewrite (sapp_assoc (unlines unit_head)), (inject_at "LOG_DIR" (po_log_dir o) (unlines unit_head +:+ env_text "CONFIG_DIR" (po_config_dir o))
    (raw_env "SOCKET_PATH" +:+ exec)); [|done|done| | | |];
    [|first [apply inert_app; [by apply Hh|by apply env_inert]|apply inert_app; [by apply quiet_inert|by apply He]]..].
  rewrite <- (sapp_assoc (unlines unit_head)), (sapp_assoc (env_text "CONFIG_DIR" _)), (sapp_assoc (unlines unit_head)).
  rewrite (inject_at "SOCKET_PATH" (po_socket_path o) (unlines unit_head +:+ env_text "CONFIG_DIR" (po_config_dir o) +:+ env_text "LOG_DIR" (po_log_dir o))
    exec); [|done|done| |by apply He| |by apply He];
    [|apply inert_app; [by apply Hh|apply inert_app; by apply env_inert]..].
  by rewrite <- !sapp_assoc.
Qed.

(** ** Reading it back *)
Definition line_char (c : ascii) : bool := not_char NL c && not_char "013" c.

Lemma drop_cr_id l : all_chars line_char l = true -> drop_cr l = l.
Proof.
  intros Hl. unfold drop_cr, strip_suffix. assert (all_chars line_char (string_rev l) = true) as Hr.
  { unfold string_rev. by rewrite all_chars_rev_app, Hl. }
  destruct (string_rev l) as [|c r]; [done|]. cbn [all_chars] in Hr. apply andb_true_iff in Hr as [Hc _].
  unfold line_char in Hc. apply andb_true_iff in Hc as [_ Hc%negb_true_iff].
  change (string_rev (String "013" "")) with (String "013" ""). cbn [strip_prefix].
  by rewrite Hc.
Qed.

Lemma lines_cons l t : all_chars line_char l = true -> lines (l +:+ String NL t) = l :: lines t.
Proof.
  intros Hl. unfold lines. rewrite split_on_app.
  - destruct (split_on NL t) as [|x xs] eqn:E; [|change (drop_last_empty (l :: x :: xs)) with (l :: drop_last_empty (x :: xs)); rewrite fmap_cons, drop_cr_id; done].
    exfalso. revert E. clear. unfold split_on. destruct t; cbn; [done|]. case_match; [done|]. by case_match.
  - eapply all_chars_impl; [|exact Hl]. by intros c [Hc _]%andb_true_iff.
Qed.

Lemma lines_unlines ls t : Forall (fun l => all_chars line_char l = true) ls -> lines (unlines ls +:+ t) = (ls ++ lines t)%list.
Proof.
  induction 1 as [|l ls Hl _ IH]; [done|]. cbn [unlines fold_right]. rewrite <- sapp_assoc.
  change (String NL (fold_right (fun l t => l +:+ String NL t) "" ls) +:+ t) with (String NL (unlines ls +:+ t)).
  rewrite lines_cons by done. cbn. by rewrite IH.
Qed.

Lemma safe_line_char c : trim_safe c = true -> line_char c = true.
Proof.
  unfold trim_safe, line_char, NL. intros [Hc _]%andb_true_iff. apply andb_true_iff.
  split; apply negb_true_iff, bool_decide_eq_false; intros <-; by vm_compute in Hc.
Qed.

Definition env_lines (key : string) (v : option string) : list string :=
  match v with Some v => ["Environment=TETRON_" +:+ key +:+ "=" +:+ v] | None => [] end.

Lemma lines_env key v t :
  all_chars trim_safe key = true -> match v with Some v => plain v | None => True end ->
  lines (env_text key v +:+ t) = (env_lines key v ++ lines t)%list.
Proof.
  intros Hk Hv. destruct v as [v|]; [|done]. cbn [env_text env_lines]. unfold env_line. rewrite <- !sapp_assoc.
  rewrite (sapp_assoc "="), (sapp_assoc key), (sapp_assoc "Environment=TETRON_").
  change (String NL "" +:+ t) with (String NL t). rewrite lines_cons; [done|].
  eapply all_chars_impl; [exact safe_line_char|]. rewrite !all_chars_app, Hk, (proj1 (proj2 Hv)). done.
Qed.

Lemma unit_lines exe o :
  plain exe -> plain_overrides o ->
  lines (unit_text exe o)
  = (unit_head ++ env_lines "CONFIG_DIR" (po_config_dir o) ++ env_lines "LOG_DIR" (po_log_dir o)
     ++ env_lines "SOCKET_PATH" (po_socket_path o) ++ ("ExecStart=" +:+ exe +:+ " daemon") :: unit_tail)%list.
Proof.
  intros Hx Ho. rewrite unit_text_shape by done. unfold unit_body. rewrite lines_unlines by (repeat constructor).
  f_equal. rewrite !lines_env; [|done|apply Ho; right; right; left|done|apply Ho; right; left|done|apply Ho; left].
  do 3 f_equal. rewrite (sapp_assoc exe), (sapp_assoc "ExecStart="), lines_cons.
  - done.
  - rewrite !all_chars_app. rewrite (all_chars_impl trim_safe line_char exe safe_line_char (proj1 (proj2 Hx))). done.
Qed.

Lemma find_map_app {A B} (f : A -> option B) l1 l2 :
  find_map f (l1 ++ l2)%list = match find_map f l1 with Some y => Some y | None => find_map f l2 end.
Proof. induction l1 as [|x l1 IH]; cbn; [done|]. by destruct (f x). Qed.

Lemma env_lines_trimmed key v :
  all_chars trim_safe key = true -> match v with Some v => plain v | None => True end ->
  Forall (fun l => trim l = l) (env_lines key v).
Proof.
  intros Hk Hv. destruct v as [v|]; constructor; [|done]. apply trim_safe_id.
  by rewrite !all_chars_app, Hk, (proj1 (proj2 Hv)).
Qed.

Lemma find_trimmed {B} (f : string -> option B) ls :
  Forall (fun l => trim l = l) ls -> find_map (fun l => f (trim l)) ls = find_map f ls.
Proof. induction 1 as [|l ls Hl _ IH]; cbn; [done|]. rewrite Hl. by destruct (f l). Qed.

Lemma exec_line_trimmed exe : trim ("ExecStart=" +:+ exe +:+ " daemon") = "ExecStart=" +:+ exe +:+ " daemon".
Proof.
  eapply trim_id; [reflexivity| |reflexivity|].
  - rewrite !string_rev_app_distr. reflexivity.
  - reflexivity.
Qed.

Lemma safe_not_white c s : trim_safe c = true -> at_white_space (String c s) = false.
Proof.
  intros Hc. apply not_true_iff_false. intros (p & Hp & Hpre)%existsb_exists.
  assert (forallb (fun p => match p with String d _ => negb (trim_safe d) | EmptyString => false end) white_space = true) as Hw
    by (vm_compute; reflexivity).
  rewrite forallb_forall in Hw. specialize (Hw p Hp). destruct p as [|d p]; [done|]. rewrite prefix_cons in Hpre.
  apply andb_true_iff in Hpre as [->%bool_decide_eq_true _]. by rewrite Hc in Hw.
Qed.

Lemma take_word_safe w t : all_chars trim_safe w = true -> at_white_space t = true -> take_word (w +:+ t) = (w, t).
Proof.
  intros Hw Ht. induction w as [|c w IH]; cbn [all_chars] in Hw.
  - change ("" +:+ t) with t. destruct t; [done|]. cbn [take_word]. by rewrite Ht.
  - apply andb_true_iff in Hw as [Hc Hw]. change (String c w +:+ t) with (String c (w +:+ t)). cbn [take_word].
    by rewrite safe_not_white, IH.
Qed.

Lemma exec_words exe : plain exe -> split_whitespace (exe +:+ " daemon") = [exe; "daemon"].
Proof.
  intros (Hne & Hs & _). destruct exe as [|c e]; [done|]. unfold split_whitespace.
  pose proof Hs as Hs'. cbn [all_chars] in Hs'. apply andb_true_iff in Hs' as [Hc _].
  assert (exists n, String.length (String c e +:+ " daemon") = S (S n)) as [n ->].
  { exists (String.length (e +:+ "daemon")). change (String c e +:+ " daemon") with (String c (e +:+ " daemon")). cbn [String.length].
    rewrite !sapp_length. cbn. lia. }
  cbn [words]. assert (trim_start (String c e +:+ " daemon") = String c e +:+ " daemon") as ->.
  { unfold trim_start. change (String c e +:+ " daemon") with (String c (e +:+ " daemon")). apply strip_leading_safe; [vm_compute; reflexivity|done]. }
  change (String c e +:+ " daemon") with (String c (e +:+ " daemon")). cbn iota.
  change (String c (e +:+ " daemon")) with (String c e +:+ " daemon"). rewrite (take_word_safe (String c e) " daemon" Hs eq_refl). change (trim_start " daemon") with "daemon". cbn.
  by destruct n.
Qed.

Lemma env_found key key' v :
  find_map (strip_prefix ("Environment=TETRON_" +:+ key +:+ "=")) (env_lines key' v)
  = if String.eqb key key' then v else match v with
      | Some v => strip_prefix ("Environment=TETRON_" +:+ key +:+ "=") ("Environment=TETRON_" +:+ key' +:+ "=" +:+ v)
      | None => None
      end.
Proof.
  destruct v as [v|]; cbn [env_lines find_map].
  - destruct (String.eqb_spec key key') as [->|_].
    + replace ("Environment=TETRON_" +:+ key' +:+ "=" +:+ v) with (("Environment=TETRON_" +:+ key' +:+ "=") +:+ v)
        by (by rewrite <- !sapp_assoc). by rewrite strip_prefix_app.
    + by destruct (strip_prefix _ _).
  - by destruct (String.eqb key key').
Qed.

Lemma plain_kept v : match v with Some v => plain v | None => True end ->
  (x ← v; if String.eqb x "" || starts_with x "__TETRON_" then None else Some x) = v.
Proof.
  destruct v as [v|]; [|done]. intros (Hne & _ & Hc). cbn [mbind option_bind]. rewrite (proj2 (String.eqb_neq v "") Hne).
  destruct v as [|x v]; [done|]. cbn [contains] in Hc. apply orb_false_iff in Hc as [Hc _]. unfold starts_with. by rewrite Hc.
Qed.

(** The settings of a unit that was written for [o] are those of [o]. *)
Lemma unit_read_back exe o :
  plain exe -> file_name exe = Some "tetron" -> plain_overrides o -> legacy_unit_overrides (unit_text exe o) = Some o.
Proof.
  intros Hx Hf Ho. unfold legacy_unit_overrides, unit_env. rewrite unit_lines by done.
  set (c := env_lines "CONFIG_DIR" _). set (l := env_lines "LOG_DIR" _). set (s := env_lines "SOCKET_PATH" _).
  assert (Forall (fun x => trim x = x) c) as Hc by (apply env_lines_trimmed; [done|apply Ho; left]).
  assert (Forall (fun x => trim x = x) l) as Hl by (apply env_lines_trimmed; [done|apply Ho; right; left]).
  assert (Forall (fun x => trim x = x) s) as Hs by (apply env_lines_trimmed; [done|apply Ho; right; right; left]).
  rewrite existsb_app. change (existsb _ unit_head) with true. cbn [orb negb].
  assert (forall key, find_map (fun x => strip_prefix key (trim x))
      (unit_head ++ c ++ l ++ s ++ ("ExecStart=" +:+ exe +:+ " daemon") :: unit_tail)
    = match find_map (fun x => strip_prefix key (trim x)) unit_head with
      | Some y => Some y
      | None => find_map (strip_prefix key) (c ++ l ++ s ++ ("ExecStart=" +:+ exe +:+ " daemon") :: unit_tail)
      end) as Hfind.
  { intros key. rewrite find_map_app. destruct (find_map _ unit_head); [done|]. apply find_trimmed.
    repeat (apply Forall_app; split); [done..|]. constructor; [apply exec_line_trimmed|]. repeat (constructor; [vm_compute; reflexivity|]). done. }
  rewrite !Hfind. change (find_map _ unit_head) with (@None string). cbn iota. clear Hfind Hc Hl Hs.
  assert (forall k v, find_map (strip_prefix "ExecStart=") (env_lines k v) = None) as Hno by (by intros k [v|]).
  subst c l s. rewrite !find_map_app, !Hno.
  change (find_map (strip_prefix "ExecStart=") (("ExecStart=" +:+ exe +:+ " daemon") :: unit_tail)) with (Some (exe +:+ " daemon")).
  cbn [mbind option_bind]. rewrite exec_words by done. rewrite Hf. cbn [bool_decide negb orb head].
  rewrite !env_found, !bool_decide_eq_true_2 by done. cbn [negb orb].
  destruct o as [oc ol os]. unfold plain_overrides in Ho. cbn [po_config_dir po_log_dir po_socket_path] in *.
  f_equal. f_equal; (etrans; [|apply plain_kept, Ho; repeat (left || right)]); destruct oc, ol, os; reflexivity.
Qed.

(** ** From a unit of its own to the packaged one *)
Definition io_all : Io := mkIo true true true true.

(** A package with a unit of its own is installed. *)
Definition packaged (h : Host) : Host := mkHost (etc_unit h) true (host_dropin h) (backups h) (commands h).

(** An upgrade keeps the paths.  A host set up by [tetron install] with some paths, on which a package
    then installs its unit, and [tetron install] is run again with the answer yes: the old unit is
    out of the way, its text in a backup, and the drop-in beside the packaged unit holds
    the paths of the old unit, with those given now in front.  Whatever fails on the way,
    the old unit is still in its place or in a backup. *)
Theorem upgrade_keeps_paths (h : Host) (exe exe' package : string) (o flags : PathOverrides) (answer answer' : option string)
  (owner : option string) (stamp stamp' : Z) (io : Io) :
  plain (strip_deleted_suffix exe) -> file_name (strip_deleted_suffix exe) = Some "tetron" -> plain_overrides o ->
  vendor_unit h = false -> confirm_move_legacy_unit answer' = true ->
  let text := unit_text (strip_deleted_suffix exe) o in
  let h1 := (ensure_service_installed h io_all exe owner o answer stamp).1 in
  let again io := ensure_service_installed (packaged h1) io exe' (Some package) flags answer' stamp' in
  etc_unit h1 = Some text
  /\ (etc_unit (again io).1 = Some text \/ ("tetron.service." +:+ dec stamp', text) ∈ backups (again io).1)
  /\ (again io_all).2 = Ok tt /\ etc_unit (again io_all).1 = None
  /\ backups (again io_all).1 = (backups h ++ [("tetron.service." +:+ dec stamp', text)])%list
  /\ host_dropin (again io_all).1 = match dropin_text (merge_overrides flags o) with Some d => Some d | None => host_dropin h end.
Proof.
  intros Hx Hf Ho Hv Ha text h1 again.
  assert (legacy_unit_overrides text = Some o) as Hread by by apply unit_read_back.
  assert (h1 = run_cmd (set_etc_unit h (Some text)) daemon_reload) as Hh1.
  { unfold h1, ensure_service_installed. by rewrite Hv. }
  assert (forall io, again io
    = let '(h', r) := move_to_backup (run_cmd (packaged h1) ["systemctl"; "disable"; "tetron"]) io text stamp' in
      match r with
      | Err e => (h', Err e)
      | Ok _ =>
          match dropin_text (merge_overrides flags o) with
          | Some d =>
              let '(h', r) := write_dropin (run_cmd h' daemon_reload) io d in
              (match r with Ok _ => run_cmd h' daemon_reload | Err _ => h' end, r)
          | None => (run_cmd h' daemon_reload, Ok tt)
          end
      end) as Hagain.
  { intros i. unfold again, ensure_service_installed. rewrite Hh1. cbn [packaged vendor_unit plan_linux_unit etc_unit run_cmd set_etc_unit mbind option_bind].
    rewrite Hread. cbn [mbind option_bind]. rewrite Ha.
    destruct (move_to_backup _ _ _ _) as [h' [[]|e]]; [|done]. by destruct (dropin_text _). }
  rewrite !Hagain, Hh1. unfold move_to_backup, write_dropin. split; [done|]. split.
  - destruct (io_copy io); [right|by left]. assert (("tetron.service." +:+ dec stamp', text)
      ∈ (backups h ++ [("tetron.service." +:+ dec stamp', text)])%list) as Hin by (apply elem_of_app; right; left).
    destruct (io_remove io); [|exact Hin]. cbn. destruct (dropin_text _); [|exact Hin]. by destruct (io_dropin io).
  - cbn. by destruct (dropin_text (merge_overrides flags o)).
Qed.

Lemma upgrade_keeps_paths_witness :
  let host := mkHost None false None [] [] in
  let o := mkPathOverrides (Some "/srv/tetron") None None in
  let h1 := (ensure_service_installed host io_all "/usr/local/bin/tetron (deleted)" None o None 0).1 in
  (ensure_service_installed (packaged h1) io_all "/usr/bin/tetron" (Some "tetron") (mkPathOverrides None (Some "/srv/log") None)
     (Some "y") 7).2 = Ok tt.
Proof.
  apply (upgrade_keeps_paths (mkHost None false None [] []) "/usr/local/bin/tetron (deleted)" "/usr/bin/tetron" "tetron"
    (mkPathOverrides (Some "/srv/tetron") None None) (mkPathOverrides None (Some "/srv/log") None) None (Some "y") None 0 7 io_all).
  - split; [discriminate|]. split; vm_compute; reflexivity.
  - vm_compute. reflexivity.
  - intros v Hv. rewrite !elem_of_cons, elem_of_nil in Hv. destruct Hv as [->|[->|[->|[]]]]; [|exact I|exact I].
    split; [discriminate|]. split; vm_compute; reflexivity.
  - reflexivity.
  - vm_compute. reflexivity.
Defined.

(** Uninstalling removes the unit under [/etc] and nothing a package installed. *)
Lemma uninstall_keeps_packaged (h : Host) (owner : option string) :
  let '(h', r) := cmd_uninstall_service h io_all owner in
  etc_unit h' = None /\ vendor_unit h' = vendor_unit h /\ host_dropin h' = host_dropin h /\ backups h' = backups h
  /\ (r = Ok None <-> vendor_unit h = false).
Proof.
  unfold cmd_uninstall_service, plan_uninstall. destruct h as [[u|] [] d b c]; cbn; split_and!; try done; destruct owner; done.
Qed.

(** What [dpkg -S] prints for a file of one package is understood. *)
Lemma dpkg_owner_examples :
  parse_dpkg_search ("tetron: /usr/bin/tetron" +:+ String NL "") = Some "tetron"
  /\ parse_dpkg_search ("tetron:amd64: /usr/bin/tetron" +:+ String NL "") = Some "tetron"
  /\ parse_dpkg_search ("diversion by a from: /usr/bin/b" +:+ String NL ("a, b: /usr/bin/b" +:+ String NL "")) = Some "a"
  /\ parse_dpkg_search "dpkg-query: no path found matching pattern /x" = None.
Proof. vm_compute. repeat split. Qed.
