(* ===== verification/Veilid.v ===== *)
(** * The Veilid transport (src/veilid-transport/src/)

    Node ids and the addresses made of them (lib.rs), the requests to and the lines from the
    companion daemon (wire.rs), and the task that owns the connection to it (client.rs): it
    numbers the requests, gives each answer to who asked, passes received messages on and
    connects again when the connection is lost.

    JSON is the [serde_json] library's: a line is what it parses to, if it does, and a value
    is an arbitrary type with the two readings the code uses.  Base 64 is the [base64]
    crate's.  A request that waits for its answer is a ticket. *)

From S2P Require Import Prelude Externs Select.

(** ** Node ids and addresses *)
Class Base64 := {
  b64_encode : list Z -> string;
  b64_decode : string -> option (list Z);
}.

Class Base64Laws `{Base64} : Prop := {
  b64_roundtrip : forall l, bytes_ok l -> b64_decode (b64_encode l) = Some l;
  (** The alphabet is ASCII. *)
  b64_ascii : forall s l, b64_decode s = Some l -> all_chars (fun c => byte_of_ascii c <? 128) s = true;
}.

Definition NODE_ID_PREFIX : string := "VLD0:".
Definition NODE_ID_KEY_LEN : nat := 32.

(** The id in its text form. *)
Record NodeId := mkNodeId { node_id_text : string }.

Inductive NodeIdError := NoPrefix | NotBase64 | WrongLength (n : nat) | NotVeilid | NotUtf8.

(** [CustomAddr]: the id of a transport and the data it keeps. *)
Definition CustomAddr : Type := Z * list Z.

Section Veilid.
Context `{Base64}.

Definition node_id_from_str (s : string) : Result NodeId NodeIdError :=
  match strip_prefix NODE_ID_PREFIX s with
  | None => Err NoPrefix
  | Some rest =>
      match b64_decode rest with
      | None => Err NotBase64
      | Some decoded =>
          if (length decoded =? NODE_ID_KEY_LEN)%nat then Ok (mkNodeId s) else Err (WrongLength (length decoded))
      end
  end.

Definition node_id_to_custom_addr (n : NodeId) : CustomAddr := (VEILID_TRANSPORT_ID, as_bytes (node_id_text n)).

Definition parse_custom_addr (addr : CustomAddr) : Result NodeId NodeIdError :=
  if negb (addr.1 =? VEILID_TRANSPORT_ID) then Err NotVeilid
  else if utf8_valid addr.2 then node_id_from_str (utf8 addr.2) else Err NotUtf8.

Definition is_valid_send_addr (addr : CustomAddr) : bool := addr.1 =? VEILID_TRANSPORT_ID.

(** ** Requests and lines *)

(** [as_u64] reads a number, [network_node_ids] the list under [network.node_ids]. *)
Context {Value : Type} (as_u64 : Value -> option Z) (network_node_ids : Value -> option (list string)).

Inductive Request :=
| NewRoutingContext
| WithSafety (rc_id : Z)
| GetState
| AppMessage (rc_id : Z) (target : NodeId) (payload : list Z).

Inductive Incoming :=
| Response (id : Z) (value : Value) (error : option string)
| Update (kind : string) (sender message : option string).

(** A line that is blank or does not parse is [None]. *)
Definition Line : Type := option Incoming.

Definition extract_u32 (v : Value) : option Z := n ← as_u64 v; if n <? 2 ^ 32 then Some n else None.
Definition extract_node_ids (v : Value) : list string := default [] (network_node_ids v).

(** ** The first exchange *)
Inductive HandshakeError := ClosedEarly | DaemonSays (message : string) | NoContextId | NotReached.

(** The answer to request [id], and the lines after it. *)
Fixpoint call_once (id : Z) (lines : list Line) : Result (Value * list Line) HandshakeError :=
  match lines with
  | [] => Err ClosedEarly
  | Some (Response i v e) :: rest =>
      if i =? id then match e with Some m => Err (DaemonSays m) | None => Ok (v, rest) end else call_once id rest
  | _ :: rest => call_once id rest
  end.

(** The requests that were sent, and the routing context with the lines not read yet. *)
Definition connect_and_handshake (lines : list Line) : list (Z * Request) * Result (Z * list Line) HandshakeError :=
  match call_once 1 lines with
  | Err e => ([(1, NewRoutingContext)], Err e)
  | Ok (v, lines) =>
      match extract_u32 v with
      | None => ([(1, NewRoutingContext)], Err NoContextId)
      | Some base_rc_id =>
          ([(1, NewRoutingContext); (2, WithSafety base_rc_id)],
           r <-? call_once 2 lines;
           match extract_u32 r.1 with Some rc_id => Ok (rc_id, r.2) | None => Err NoContextId end)
      end
  end.

(** ** The connection's task *)
Inductive CallError := EncodeFailed | WriteFailed | Disconnected | DaemonError (message : string) | DroppedRequest.

Record Command := mkCommand { cm_body : Request; cm_ticket : nat }.

(** One connection: the next number and the tickets that wait under a number. *)
Record Connection := mkConnection { cn_next_id : Z; cn_pending : gmap Z nat }.

Definition INITIAL_RECONNECT_BACKOFF : Z := 500 * 10 ^ 6.
Definition MAX_RECONNECT_BACKOFF : Z := 30 * 10 ^ 9.

(** [va_issued]: how many requests were made; [va_conn]: [None] while it connects again;
    [va_written]: what was written, with its number; [va_answers]: what callers were told. *)
Record Actor := mkActor {
  va_issued : nat;
  va_queue : list Command;
  va_rc_id : Z;
  va_conn : option Connection;
  va_backoff : Z;
  va_written : list (Z * Command);
  va_answers : list (nat * Result Value CallError);
  va_inbound : list (CustomAddr * list Z);
}.
Implicit Types a : Actor.

Definition with_answers a (l : list (nat * Result Value CallError)) : Actor :=
  mkActor (va_issued a) (va_queue a) (va_rc_id a) (va_conn a) (va_backoff a) (va_written a) (va_answers a ++ l) (va_inbound a).
Definition with_conn a (c : option Connection) : Actor :=
  mkActor (va_issued a) (va_queue a) (va_rc_id a) c (va_backoff a) (va_written a) (va_answers a) (va_inbound a).
Definition with_queue a (q : list Command) : Actor :=
  mkActor (va_issued a) q (va_rc_id a) (va_conn a) (va_backoff a) (va_written a) (va_answers a) (va_inbound a).
Definition with_inbound a (from : CustomAddr) (data : list Z) : Actor :=
  mkActor (va_issued a) (va_queue a) (va_rc_id a) (va_conn a) (va_backoff a) (va_written a) (va_answers a)
    (va_inbound a ++ [(from, data)]).

(** [ClientHandle::call], up to the wait. *)
Definition call a (body : Request) : Actor :=
  mkActor (S (va_issued a)) (va_queue a ++ [mkCommand body (va_issued a)]) (va_rc_id a) (va_conn a) (va_backoff a)
    (va_written a) (va_answers a) (va_inbound a).

(** The connection is lost: every request that was sent fails. *)
Definition drop_connection a (c : Connection) : Actor :=
  with_conn (with_answers a ((fun p => (p.2, Err Disconnected)) <$> map_to_list (cn_pending c))) None.

(** How writing a request went. *)
Inductive Sending := NotEncoded | NotWritten | Written.

(** The next request is taken: it gets a number and waits under it; whoever waited under
    that number is told that its request was dropped. *)
Definition take_command a (c : Connection) (cmd : Command) (o : Sending) : Actor :=
  let id := cn_next_id c in
  let next := wrap 32 (id + 1) in
  match o with
  | NotEncoded => with_answers (with_conn a (Some (mkConnection next (cn_pending c)))) [(cm_ticket cmd, Err EncodeFailed)]
  | NotWritten => drop_connection (with_answers a [(cm_ticket cmd, Err WriteFailed)]) c
  | Written =>
      let a := with_answers a (match cn_pending c !! id with Some old => [(old, Err DroppedRequest)] | None => [] end) in
      mkActor (va_issued a) (va_queue a) (va_rc_id a) (Some (mkConnection next (<[id := cm_ticket cmd]> (cn_pending c))))
        (va_backoff a) (va_written a ++ [(id, cmd)]) (va_answers a) (va_inbound a)
  end.

Definition handle_incoming_line a (c : Connection) (i : Incoming) : Actor :=
  match i with
  | Response id value error =>
      match cn_pending c !! id with
      | Some ticket =>
          with_answers (with_conn a (Some (mkConnection (cn_next_id c) (delete id (cn_pending c)))))
            [(ticket, match error with Some m => Err (DaemonError m) | None => Ok value end)]
      | None => a
      end
  | Update kind sender message =>
      if negb (String.eqb kind "AppMessage") then a
      else match sender, message with
           | Some sender, Some message_b64 =>
               match node_id_from_str sender, b64_decode message_b64 with
               | Ok node_id, Some payload => with_inbound a (node_id_to_custom_addr node_id) payload
               | _, _ => a
               end
           | _, _ => a
           end
  end.

Inductive Event :=
| Calls (body : Request)
| Takes (o : Sending)
| Reads (l : Line)
| Closes
| Reconnects (r : Result Z HandshakeError).

(** One turn of [serve_one_connection], or of the loop that connects again. *)
Definition actor_step a (e : Event) : Actor :=
  match e, va_conn a with
  | Calls body, _ => call a body
  | Takes o, Some c =>
      match va_queue a with
      | cmd :: q => take_command (with_queue a q) c cmd o
      | [] => a
      end
  | Reads (Some i), Some c => handle_incoming_line a c i
  | Closes, Some c => drop_connection a c
  | Reconnects (Ok rc_id), None =>
      mkActor (va_issued a) (va_queue a) rc_id (Some (mkConnection 100 ∅)) INITIAL_RECONNECT_BACKOFF (va_written a)
        (va_answers a) (va_inbound a)
  | Reconnects (Err _), None =>
      mkActor (va_issued a) (va_queue a) (va_rc_id a) None (Z.min (va_backoff a * 2) MAX_RECONNECT_BACKOFF) (va_written a)
        (va_answers a) (va_inbound a)
  | _, _ => a
  end.

Definition run_actor a (es : list Event) : Actor := fold_left actor_step es a.

Definition spawn_actor (rc_id : Z) : Actor :=
  mkActor 0 [] rc_id (Some (mkConnection 100 ∅)) INITIAL_RECONNECT_BACKOFF [] [] [].

(** ** Finding out the node's own id *)
Definition IDENTITY_POLL_ATTEMPTS : nat := 600.

(** [answers]: what [GetState] gives, one after the other. *)
Fixpoint identity_poll (attempts : nat) (answers : nat -> Result Value CallError) (n : nat) : option NodeId :=
  match attempts with
  | O => None
  | S attempts =>
      match answers n with
      | Err _ => None
      | Ok value =>
          match extract_node_ids value with
          | id_str :: _ =>
              match node_id_from_str id_str with
              | Ok node_id => Some node_id
              | Err _ => identity_poll attempts answers (S n)
              end
          | [] => identity_poll attempts answers (S n)
          end
      end
  end.

Definition identity_poll_loop (answers : nat -> Result Value CallError) : option NodeId :=
  identity_poll IDENTITY_POLL_ATTEMPTS answers 0.

(** ** Datagrams *)
Definition poll_send a (dst : CustomAddr) (payload : list Z) : Actor * Result unit NodeIdError :=
  match parse_custom_addr dst with
  | Err e => (a, Err e)
  | Ok node_id => (call a (AppMessage (va_rc_id a) node_id payload), Ok tt)
  end.

(** [sizes] are those of the free buffers; a datagram too large for the next one is dropped. *)
Fixpoint fill_buffers (sizes : list nat) (items : list (CustomAddr * list Z)) : list (CustomAddr * list Z) :=
  match items, sizes with
  | item :: items, size :: rest =>
      if (size <? length item.2)%nat then fill_buffers sizes items else item :: fill_buffers rest items
  | _, _ => []
  end.

(** What is waiting is taken, as much as there are buffers. *)
Definition poll_recv (waiting : list (CustomAddr * list Z)) (sizes : list nat)
  : list (CustomAddr * list Z) * list (CustomAddr * list Z) :=
  (drop (length sizes) waiting, fill_buffers sizes (take (length sizes) waiting)).

(** ** Every request is answered once *)
Definition pending_of a : list nat :=
  match va_conn a with Some c => (map_to_list (cn_pending c)).*2 | None => [] end.
Definition answered a : list nat := (va_answers a).*1.

(** Of the requests that were made each is in exactly one place. *)
Definition accounted a : Prop :=
  seq 0 (va_issued a) ≡ₚ (cm_ticket <$> va_queue a) ++ pending_of a ++ answered a.

(** What waits under a number, and what was answered with a value, was written. *)
Definition was_written a (t : nat) : Prop := exists id cmd, (id, cmd) ∈ va_written a /\ cm_ticket cmd = t.
Definition correlated a : Prop :=
  Forall (was_written a) (pending_of a) /\ forall t v, (t, Ok v) ∈ va_answers a -> was_written a t.

Lemma values_delete (m : gmap Z nat) id :
  (map_to_list m).*2 ≡ₚ (match m !! id with Some t => [t] | None => [] end) ++ (map_to_list (delete id m)).*2.
Proof.
  destruct (m !! id) as [t|] eqn:E.
  - rewrite <- (insert_delete_id m id t E) at 1. rewrite map_to_list_insert by apply lookup_delete_eq. done.
  - by rewrite delete_id.
Qed.

Lemma values_insert (m : gmap Z nat) id t : (map_to_list (<[id := t]> m)).*2 ≡ₚ t :: (map_to_list (delete id m)).*2.
Proof. rewrite <- insert_delete_eq, map_to_list_insert by apply lookup_delete_eq. done. Qed.

Ltac count_tickets :=
  apply (Permutation_count_occ Nat.eq_dec); intros ?x;
  repeat match goal with
         | Hp : _ ≡ₚ _ |- _ =>
             let Hc := fresh in
             pose proof (proj1 (Permutation_count_occ Nat.eq_dec _ _) Hp x) as Hc; clear Hp
         end;
  repeat first [rewrite count_occ_app in * | progress cbn [fmap list_fmap count_occ app fst snd] in *];
  repeat case_match; lia.

Lemma drop_answers a c : answered (drop_connection a c) = (answered a ++ (map_to_list (cn_pending c)).*2)%list.
Proof. unfold answered, drop_connection. cbn. rewrite fmap_app. f_equal. by rewrite <- list_fmap_compose. Qed.

Lemma take_accounted a c cmd q o :
  va_conn a = Some c -> va_queue a = cmd :: q -> accounted a -> accounted (take_command (with_queue a q) c cmd o).
Proof.
  unfold accounted. intros Hc Hq Ha. assert (pending_of a = (map_to_list (cn_pending c)).*2) as Hp by (unfold pending_of; by rewrite Hc).
  rewrite Hq, Hp in Ha. destruct o; cbn [take_command].
  - unfold pending_of, answered in *. cbn in *. rewrite fmap_app. cbn. count_tickets.
  - rewrite drop_answers. unfold pending_of, answered in *. cbn in *. rewrite fmap_app. cbn. count_tickets.
  - unfold pending_of, answered in *. cbn in *. rewrite fmap_app.
    pose proof (values_insert (cn_pending c) (cn_next_id c) (cm_ticket cmd)) as H1.
    pose proof (values_delete (cn_pending c) (cn_next_id c)) as H2.
    destruct (cn_pending c !! cn_next_id c) as [old|]; cbn in *; count_tickets.
Qed.

Lemma step_accounted a e : accounted a -> accounted (actor_step a e).
Proof.
  intros Ha. destruct e as [body|o|[i|]| |[rc|e]]; cbn [actor_step]; try (destruct (va_conn a) as [c|] eqn:Hc; done).
  - destruct (va_conn a) as [c|]; unfold accounted, call, pending_of, answered in *; cbn -[seq] in *; rewrite seq_S, fmap_app;
      cbn -[seq]; count_tickets.
  - destruct (va_conn a) as [c|] eqn:Hc; [|done]. destruct (va_queue a) as [|cmd q] eqn:Hq; [done|]. by apply take_accounted.
  - destruct (va_conn a) as [c|] eqn:Hc; [|done]. destruct i as [id v err|kind sender msg]; cbn [handle_incoming_line].
    + pose proof (values_delete (cn_pending c) id) as H2. destruct (cn_pending c !! id) as [t|]; [|done].
      unfold accounted, pending_of, answered in *. rewrite Hc in Ha. cbn in *. rewrite fmap_app. cbn. count_tickets.
    + repeat case_match; done.
  - destruct (va_conn a) as [c|] eqn:Hc; [|done]. unfold accounted in *. rewrite drop_answers. unfold pending_of in *. rewrite Hc in Ha.
    cbn in *. count_tickets.
  - destruct (va_conn a) as [c|] eqn:Hc; [done|]. unfold accounted, pending_of in *. rewrite Hc in Ha. cbn in *. exact Ha.
  - destruct (va_conn a) as [c|] eqn:Hc; [done|]. unfold accounted, pending_of in *. rewrite Hc in Ha. exact Ha.
Qed.

Lemma was_written_mono a a' t : va_written a ⊆ va_written a' -> was_written a t -> was_written a' t.
Proof. intros Hs (id & cmd & Hin & Ht). exists id, cmd. split; [by apply Hs|done]. Qed.

Lemma values_delete_subset (m : gmap Z nat) id : (map_to_list (delete id m)).*2 ⊆ (map_to_list m).*2.
Proof. intros t Ht. rewrite (values_delete m id). apply elem_of_app. by right. Qed.

Lemma correlated_mono a a' :
  correlated a -> va_written a ⊆ va_written a' -> pending_of a' ⊆ pending_of a ->
  (forall t v, (t, Ok v) ∈ va_answers a' -> (t, Ok v) ∈ va_answers a \/ t ∈ pending_of a) -> correlated a'.
Proof.
  intros [Hp Ha] Hw Hsub Hans. split.
  - apply Forall_forall. intros t Ht. eapply was_written_mono; [exact Hw|]. eapply Forall_forall; [exact Hp|by apply Hsub].
  - intros t v Ht. eapply was_written_mono; [exact Hw|]. destruct (Hans t v Ht) as [?|?]; [by eapply Ha|].
    by eapply Forall_forall in Hp.
Qed.

(** An answer that is no value changes nothing in the correlation. *)
Lemma failing_answers a a' l :
  va_answers a' = (va_answers a ++ l)%list -> Forall (fun p => is_ok p.2 = false) l ->
  forall t v, (t, Ok v) ∈ va_answers a' -> (t, Ok v) ∈ va_answers a \/ t ∈ pending_of a.
Proof.
  intros -> Hl t v [?|Ht]%elem_of_app; [by left|]. eapply Forall_forall in Hl; [|exact Ht]. done.
Qed.

Lemma take_correlated a c cmd q o :
  va_conn a = Some c -> correlated a -> correlated (take_command (with_queue a q) c cmd o).
Proof.
  intros Hc Hcor. assert (pending_of a = (map_to_list (cn_pending c)).*2) as Hp by (unfold pending_of; by rewrite Hc).
  destruct o; cbn [take_command].
  - apply (correlated_mono a); [done|done|by rewrite Hp|]. eapply failing_answers; [reflexivity|]. by repeat constructor.
  - apply (correlated_mono a); [done|done|intros t []%elem_of_nil|].
    eapply (failing_answers a _ ((cm_ticket cmd, Err WriteFailed) :: _)); [cbn; by rewrite <- app_assoc|].
    constructor; [done|]. apply Forall_fmap, Forall_forall. done.
  - destruct Hcor as [Hpw Hans]. rewrite Hp in Hpw. set (a' := mkActor _ _ _ _ _ _ _ _).
    assert (forall t, was_written a t -> was_written a' t) as Hmono.
    { intros t. apply was_written_mono. intros x Hx. apply elem_of_app. by left. }
    split.
    + apply Forall_forall. intros t Ht. unfold pending_of in Ht. cbn in Ht. rewrite values_insert in Ht.
      apply elem_of_cons in Ht as [->|Ht].
      * exists (cn_next_id c), cmd. split; [|done]. apply elem_of_app. right. left.
      * apply Hmono. eapply Forall_forall; [exact Hpw|]. by eapply values_delete_subset.
    + intros t v Ht. apply Hmono. cbn in Ht. apply elem_of_app in Ht as [Ht|Ht]; [by eapply Hans|].
      destruct (cn_pending c !! _); [|by apply elem_of_nil in Ht]. by apply list_elem_of_singleton in Ht.
Qed.

Lemma step_correlated a e : correlated a -> correlated (actor_step a e).
Proof.
  intros Hcor. destruct e as [body|o|[i|]| |[rc|e]]; cbn [actor_step]; try (destruct (va_conn a) as [c|] eqn:Hc; done).
  - destruct (va_conn a) as [c|] eqn:Hc; [|done]. destruct (va_queue a) as [|cmd q]; [done|]. by apply take_correlated.
  - destruct (va_conn a) as [c|] eqn:Hc; [|done].
    assert (pending_of a = (map_to_list (cn_pending c)).*2) as Hp by (unfold pending_of; by rewrite Hc).
    destruct i as [id v err|kind sender msg]; cbn [handle_incoming_line]; [|repeat case_match; done].
    destruct (cn_pending c !! id) as [t|] eqn:Et; [|done].
    apply (correlated_mono a); [done|done| |].
    + rewrite Hp. unfold pending_of. cbn. apply values_delete_subset.
    + intros t' v' [?|Ht]%elem_of_app; [by left|]. right. apply list_elem_of_singleton in Ht. injection Ht as -> _.
      rewrite Hp, (values_delete _ id), Et. left.
  - destruct (va_conn a) as [c|] eqn:Hc; [|done].
    apply (correlated_mono a); [done|done|intros t []%elem_of_nil|].
    eapply failing_answers; [reflexivity|]. apply Forall_fmap, Forall_forall. done.
  - destruct (va_conn a) as [c|] eqn:Hc; [done|]. apply (correlated_mono a); [done|done| |by left].
    unfold pending_of. cbn. rewrite map_to_list_empty. intros t []%elem_of_nil.
  - destruct (va_conn a) as [c|] eqn:Hc; [done|]. apply (correlated_mono a); [done|done|intros t []%elem_of_nil|by left].
Qed.

Lemma step_backoff a e :
  INITIAL_RECONNECT_BACKOFF <= va_backoff a <= MAX_RECONNECT_BACKOFF ->
  INITIAL_RECONNECT_BACKOFF <= va_backoff (actor_step a e) <= MAX_RECONNECT_BACKOFF.
Proof.
  unfold INITIAL_RECONNECT_BACKOFF, MAX_RECONNECT_BACKOFF. intros Hb.
  destruct e as [body|o|[i|]| |[rc|e]]; cbn [actor_step]; destruct (va_conn a) as [c|]; cbn; try lia.
  - destruct (va_queue a) as [|cmd q]; [done|]. by destruct o.
  - destruct i as [id v err|kind sender msg]; cbn [handle_incoming_line]; repeat case_match; done.
  - unfold INITIAL_RECONNECT_BACKOFF. lia.
  - unfold MAX_RECONNECT_BACKOFF. lia.
Qed.

Lemma run_invariant (I : Actor -> Prop) a es :
  (forall a e, I a -> I (actor_step a e)) -> I a -> I (run_actor a es).
Proof. intros Hstep. unfold run_actor. revert a. induction es as [|e es IH]; intros a Ha; cbn; [done|]. by apply IH, Hstep. Qed.

(** C28: no request is lost or answered twice.  Whatever is asked, read, written, lost and
    connected again, in whatever order, every request that was made is in exactly one
    place: waiting to be written, waiting for its answer, or answered.  Only what was written
    gets an answer with a value, nothing waits for an answer on a connection that is gone, and the
    pause between two attempts to connect stays between half a second and half a minute. *)
Theorem veilid_requests_conserved (rc_id : Z) (es : list Event) :
  let a := run_actor (spawn_actor rc_id) es in
  seq 0 (va_issued a) ≡ₚ (cm_ticket <$> va_queue a) ++ pending_of a ++ answered a
  /\ NoDup (answered a)
  /\ (forall t v, (t, Ok v) ∈ va_answers a -> was_written a t)
  /\ (va_conn a = None -> pending_of a = [])
  /\ 5 * 10 ^ 8 <= va_backoff a <= 3 * 10 ^ 10.
Proof.
  intros a. enough (accounted a /\ correlated a /\ INITIAL_RECONNECT_BACKOFF <= va_backoff a <= MAX_RECONNECT_BACKOFF)
    as (Ha & [_ Hc] & Hb).
  { split; [exact Ha|]. split; [|split; [exact Hc|split; [|exact Hb]]].
    - pose proof (NoDup_seq 0 (va_issued a)) as Hnd. unfold accounted in Ha. rewrite Ha in Hnd. by apply NoDup_app in Hnd as (_ & _ & (_ & _ & ?)%NoDup_app).
    - unfold pending_of. by intros ->. }
  unfold a. clear a. apply run_invariant.
  - intros a e (Ha & Hc & Hb). split; [by apply step_accounted|]. split; [by apply step_correlated|by apply step_backoff].
  - split; [|split; [split|]].
    + unfold accounted. cbn. unfold pending_of. cbn. by rewrite map_to_list_empty.
    + unfold pending_of. cbn. rewrite map_to_list_empty. by constructor.
    + intros t v []%elem_of_nil.
    + done.
Qed.

(** A request keeps the routing context it was built with: written on a later connection it
    names a context of the one before. *)
Lemma queued_message_keeps_stale_context (rc0 rc1 : Z) (target : NodeId) (payload : list Z) :
  let a := run_actor (spawn_actor rc0) [Calls (AppMessage rc0 target payload); Closes; Reconnects (Ok rc1); Takes Written] in
  va_rc_id a = rc1 /\ va_written a = [(100, mkCommand (AppMessage rc0 target payload) 0)].
Proof. done. Qed.

Lemma all_chars_strip_prefix f p s rest :
  strip_prefix p s = Some rest -> all_chars f p = true -> all_chars f rest = true -> all_chars f s = true.
Proof.
  revert s. induction p as [|x p IH]; intros [|y s]; cbn; try (by intros [= <-]); try done.
  case_bool_decide; [subst y|done]. intros Hs [-> Hp]%andb_true_iff Hr. by apply IH.
Qed.

(** An accepted node id is its own address's node id, and a datagram may be sent there. *)
Lemma node_addr_roundtrip `{!Base64Laws} (s : string) (n : NodeId) :
  node_id_from_str s = Ok n ->
  node_id_text n = s /\ parse_custom_addr (node_id_to_custom_addr n) = Ok n
  /\ is_valid_send_addr (node_id_to_custom_addr n) = true.
Proof.
  intros Hn. assert (node_id_text n = s /\ all_chars (fun c => byte_of_ascii c <? 128) s = true) as [Ht Ha].
  { unfold node_id_from_str in Hn. repeat case_match; simplify_eq. split; [done|].
    eapply all_chars_strip_prefix; [eassumption|done|]. by eapply b64_ascii. }
  split; [done|]. split; [|done]. unfold parse_custom_addr, node_id_to_custom_addr. cbn [fst snd].
  rewrite Z.eqb_refl. cbn [negb]. by rewrite Ht, utf8_valid_ascii, utf8_as_bytes.
Qed.

(** Datagrams come in order, each whole and in a buffer of its own; one that is too large for
    the buffer it would get is lost, no other is. *)
Lemma poll_recv_exact (waiting : list (CustomAddr * list Z)) (sizes : list nat) :
  let (left, got) := poll_recv waiting sizes in
  left = drop (length sizes) waiting
  /\ got `sublist_of` take (length sizes) waiting
  /\ (length got <= length sizes)%nat
  /\ (Forall (fun size => Forall (fun item => length item.2 <= size)%nat waiting) sizes ->
      (got ++ left)%list = waiting).
Proof.
  unfold poll_recv. split; [done|].
  assert (forall items sizes, fill_buffers sizes items `sublist_of` items
    /\ (length (fill_buffers sizes items) <= length sizes)%nat) as Hg.
  { clear. induction items as [|i items IH]; intros [|size rest]; cbn; split;
      try case_match; try solve [done|lia|apply sublist_nil_l].
    - apply sublist_cons, IH.
    - apply sublist_skip, IH.
    - apply (IH (size :: rest)).
    - cbn. apply le_n_S, IH. }
  split; [apply Hg|]. split; [apply Hg|]. intros Hfit.
  enough (fill_buffers sizes (take (length sizes) waiting) = take (length sizes) waiting) as -> by apply take_drop.
  revert waiting Hfit. induction sizes as [|size rest IH]; intros [|i items] Hfit; try done.
  apply Forall_cons in Hfit as [Hi Hrest]. cbn [fill_buffers length take]. apply Forall_cons in Hi as [Hi _].
  rewrite (proj2 (Nat.ltb_ge _ _)) by done. f_equal. apply IH.
  eapply Forall_impl; [exact Hrest|]. by intros ? [_ ?]%Forall_cons.
Qed.

End Veilid.
