(* ===== verification/Transport.v ===== *)
(** * Reaching peers and being reached (src/src/peercache.rs, src/src/transport.rs, src/src/daemon/mesh/accept.rs)

    The cache of peer addresses that survives a restart, the candidate addresses a dial is made
    with, the relays an endpoint is set up with, and the router that hands an incoming
    connection to the network it was made for.

    The cache file's encoding is [rmp_serde]'s, addresses, relays and protocol
    negotiation are iroh's, the Tor lookup is the Tor transport's: parameters. *)

From S2P Require Import Prelude Externs Addressing Peers Forward Names Select Settings Storage Dht Manager Service Veilid.

(** ** The peer cache *)
Record Entry := mkEntry { en_id : EndpointId; en_addrs : list TransportAddr; en_last_seen : Z }.

Class CacheCodec := {
  cache_to_vec : list Entry -> option (list Z);
  cache_from_slice : list Z -> option (list Entry);
}.
Class CacheCodecLaws `{CacheCodec} : Prop := {
  cache_codec_roundtrip : forall l bytes, cache_to_vec l = Some bytes -> cache_from_slice bytes = Some l;
}.

Definition PRUNE_DAYS : Z := 30.
Definition is_fresh (last_seen now : Z) : bool := Z.max 0 (now - last_seen) <? PRUNE_DAYS * 86400.

(** [HashMap<EndpointId, (Vec<TransportAddr>, u64)>]. *)
Abbreviation PeerAddrCache := (gmap EndpointId (list TransportAddr * Z)).

Section PeerCache.
Context `{CacheCodec}.
Implicit Types c : PeerAddrCache.

(** [file]: the cache file's content, if it can be read.  A later entry of an id replaces an earlier one. *)
Definition cache_new (file : option (list Z)) (now : Z) : PeerAddrCache :=
  let entries := default [] (bytes ← file; cache_from_slice bytes) in
  fold_left (fun c e => <[en_id e := (en_addrs e, en_last_seen e)]> c)
    (List.filter (fun e => is_fresh (en_last_seen e) now) entries) ∅.

Definition cache_lookup c (id : EndpointId) : option (list TransportAddr) :=
  match c !! id with
  | Some ((_ :: _) as addrs, _) => Some addrs
  | _ => None
  end.

Definition cache_update c (id : EndpointId) (addrs : list TransportAddr) (now : Z) : PeerAddrCache := <[id := (addrs, now)]> c.

Definition prune_stale c (now : Z) : PeerAddrCache := filter (fun kv => is_fresh kv.2.2 now = true) c.

(** The cache and the file after [save]: the entries are written to a temporary file ([wrote])
    that is then renamed over the cache file ([renamed]); a failure leaves the file as it was. *)
Definition entries_of c : list Entry := (fun kv => mkEntry kv.1 kv.2.1 kv.2.2) <$> map_to_list c.

Definition cache_save c (file : option (list Z)) (now : Z) (wrote renamed : bool) : PeerAddrCache * option (list Z) :=
  let c := prune_stale c now in
  match cache_to_vec (entries_of c) with
  | Some data => (c, if wrote && renamed then Some data else file)
  | None => (c, file)
  end.

(** [addrs]: the remote addresses of the connection's paths. *)
Definition update_from_connection c (id : EndpointId) (addrs : list TransportAddr) (now : Z) : PeerAddrCache :=
  match addrs with [] => c | _ => cache_update c id addrs now end.

Section Live.
Context {Conn : Type} (path_addrs : Conn -> list TransportAddr).

Definition refresh_from_peers c (t : PeerTable Conn) (now : Z) : PeerAddrCache :=
  fold_left (fun c p => update_from_connection c p.1.1 (path_addrs p.2) now) (all_entries t) c.

(** [tables]: the peer tables of the daemon's networks. *)
Definition refresh_peer_cache c (tables : list (PeerTable Conn)) (now : Z) : PeerAddrCache :=
  fold_left (fun c t => refresh_from_peers c t now) tables c.

(** The last steps of [run_daemon]. *)
Definition shutdown_save c (tables : list (PeerTable Conn)) (file : option (list Z)) (now : Z) (wrote renamed : bool)
  : PeerAddrCache * option (list Z) :=
  cache_save (refresh_peer_cache c tables now) file now wrote renamed.
End Live.

(** The ticks of [spawn_periodic_save]: when each comes, and how its writing ends. *)
Fixpoint periodic_saves c (file : option (list Z)) (ticks : list (Z * bool * bool)) : PeerAddrCache * option (list Z) :=
  match ticks with
  | [] => (c, file)
  | (now, wrote, renamed) :: rest =>
      let r := cache_save c file now wrote renamed in periodic_saves r.1 r.2 rest
  end.

Lemma NoDup_filtered (f : Entry -> bool) l : NoDup (en_id <$> l) -> NoDup (en_id <$> List.filter f l).
Proof.
  induction l as [|e l IH]; cbn; [done|]. intros [He Hnd]%NoDup_cons. destruct (f e); cbn; [|by apply IH].
  apply NoDup_cons. split; [|by apply IH]. intros (x & Hx & Hin)%list_elem_of_fmap. apply He. apply list_elem_of_fmap.
  exists x. split; [done|]. apply list_elem_of_In in Hin. apply list_elem_of_In. by apply List.filter_In in Hin as [? _].
Qed.

Lemma entries_insert (l : list Entry) c id :
  NoDup (en_id <$> l) ->
  fold_left (fun c e => <[en_id e := (en_addrs e, en_last_seen e)]> c) l c !! id
  = match List.find (fun e => bool_decide (en_id e = id)) l with
    | Some e => Some (en_addrs e, en_last_seen e)
    | None => c !! id
    end.
Proof.
  revert c. induction l as [|e l IH]; intros c Hnd; cbn [fold_left List.find]; [done|]. cbn in Hnd.
  apply NoDup_cons in Hnd as [He Hnd]. rewrite IH by done.
  destruct (List.find _ l) as [e'|] eqn:E.
  - apply List.find_some in E as [Hin Hid%bool_decide_eq_true]. case_bool_decide as Hx; [|done]. exfalso. apply He.
    rewrite Hx, <- Hid. apply list_elem_of_fmap. exists e'. split; [done|]. by apply list_elem_of_In.
  - cbn beta. case_bool_decide as Hx; [subst id; by rewrite lookup_insert_eq|by rewrite lookup_insert_ne].
Qed.

Lemma find_unique (l : list Entry) e :
  NoDup (en_id <$> l) -> e ∈ l -> List.find (fun x => bool_decide (en_id x = en_id e)) l = Some e.
Proof.
  induction l as [|x l IH]; intros Hnd Hin; [by apply elem_of_nil in Hin|]. cbn in Hnd. apply NoDup_cons in Hnd as [Hx Hnd].
  cbn [List.find]. apply elem_of_cons in Hin as [->|Hin]; [by rewrite bool_decide_eq_true_2|].
  rewrite bool_decide_eq_false_2; [by apply IH|]. intros E. apply Hx. rewrite E. apply list_elem_of_fmap. by exists e.
Qed.

(** The entries a restart keeps. *)
Lemma entries_filtered (l : list Entry) now id :
  NoDup (en_id <$> l) ->
  fold_left (fun c e => <[en_id e := (en_addrs e, en_last_seen e)]> c)
    (List.filter (fun e => is_fresh (en_last_seen e) now) l) (∅ : PeerAddrCache) !! id
  = (e ← List.find (fun e => bool_decide (en_id e = id)) l;
     if is_fresh (en_last_seen e) now then Some (en_addrs e, en_last_seen e) else None).
Proof.
  intros Hnd. rewrite entries_insert by (by apply NoDup_filtered). rewrite lookup_empty.
  induction l as [|e l IH]; [done|]. cbn in Hnd. apply NoDup_cons in Hnd as [He Hnd]. cbn [List.filter List.find].
  destruct (is_fresh (en_last_seen e) now) eqn:Ef; cbn [List.find].
  - case_bool_decide; cbn; [by rewrite Ef|by apply IH].
  - case_bool_decide as Hx; cbn; [|by apply IH]. rewrite Ef. destruct (List.find _ _) as [e'|] eqn:E; [|done]. exfalso.
    apply List.find_some in E as [[Hin _]%List.filter_In Hid%bool_decide_eq_true]. apply He. rewrite Hx, <- Hid.
    apply list_elem_of_fmap. exists e'. split; [done|]. by apply list_elem_of_In.
Qed.

Lemma entries_of_NoDup c : NoDup (en_id <$> entries_of c).
Proof. unfold entries_of. rewrite <- list_fmap_compose. apply (NoDup_fst_map_to_list c). Qed.

(** Reading back entries that were written from a map. *)
Lemma entries_of_map c id :
  List.find (fun e => bool_decide (en_id e = id)) (entries_of c)
  = (fun v => mkEntry id v.1 v.2) <$> c !! id.
Proof.
  pose proof (entries_of_NoDup c) as Hnd.
  destruct (c !! id) as [v|] eqn:E; cbn.
  - apply (find_unique _ (mkEntry id v.1 v.2) Hnd). apply list_elem_of_fmap. exists (id, v). split; [done|]. by apply elem_of_map_to_list.
  - destruct (List.find _ _) as [e|] eqn:Ef; [|done]. exfalso. apply List.find_some in Ef as [Hin Hid%bool_decide_eq_true].
    apply list_elem_of_In, list_elem_of_fmap in Hin as ([i v] & -> & Hin%elem_of_map_to_list). cbn in Hid. subst i. congruence.
Qed.
Lemma fresh_earlier seen now later : now <= later -> is_fresh seen later = true -> is_fresh seen now = true.
Proof. unfold is_fresh. rewrite !Z.ltb_lt. lia. Qed.

(** What a restart finds in the file a save wrote. *)
Lemma save_then_new `{!CacheCodecLaws} c file now later id :
  now <= later -> is_Some (cache_to_vec (entries_of (prune_stale c now))) ->
  cache_new (cache_save c file now true true).2 later !! id
  = (v ← c !! id; if is_fresh v.2 later then Some v else None).
Proof.
  intros Hle [data Hd]. unfold cache_save. rewrite Hd. cbn [snd andb]. unfold cache_new. cbn [mbind option_bind].
  rewrite (cache_codec_roundtrip _ _ Hd). cbn [default from_option]. change (Datatypes.id (entries_of (prune_stale c now))) with (entries_of (prune_stale c now)).
  rewrite entries_filtered by apply entries_of_NoDup.
  rewrite entries_of_map. unfold prune_stale. rewrite map_lookup_filter.
  destruct (c !! id) as [[a seen]|]; cbn; [|done].
  destruct (is_fresh seen later) eqn:Hl.
  - rewrite option_guard_True by (by apply (fresh_earlier seen now later)). cbn. by rewrite Hl.
  - case_guard; cbn; [by rewrite Hl|done].
Qed.

Section Refresh.
Context {Conn : Type} (path_addrs : Conn -> list TransportAddr).

(** The connections to [id] that have a path. *)
Definition live_with_path (tables : list (PeerTable Conn)) (id : EndpointId) (conn : Conn) : Prop :=
  (exists t ip, t ∈ tables /\ (id, ip, conn) ∈ all_entries t) /\ path_addrs conn <> [].

Definition refresh_all c (l : list (EndpointId * Ipv4Addr * Conn)) (now : Z) : PeerAddrCache :=
  fold_left (fun c p => update_from_connection c p.1.1 (path_addrs p.2) now) l c.

Lemma refresh_flat tables c now :
  refresh_peer_cache path_addrs c tables now = refresh_all c (concat (all_entries <$> tables)) now.
Proof.
  unfold refresh_peer_cache, refresh_all. revert c. induction tables as [|t ts IH]; intros c; [done|]. cbn [fold_left].
  rewrite IH. cbn [fmap list_fmap concat]. by rewrite fold_left_app.
Qed.

(** An id is refreshed from one of its connections with a path, or left alone. *)
Lemma refresh_all_lookup l c now id :
  (exists ip conn, (id, ip, conn) ∈ l /\ path_addrs conn <> [] /\ refresh_all c l now !! id = Some (path_addrs conn, now))
  \/ ((forall ip conn, (id, ip, conn) ∈ l -> path_addrs conn = []) /\ refresh_all c l now !! id = c !! id).
Proof.
  revert c. induction l as [|[[i ip] conn] l IH]; intros c.
  { right. split; [|done]. by intros ? ? ?%elem_of_nil. }
  unfold refresh_all. cbn [fold_left fst snd]. fold (refresh_all (update_from_connection c i (path_addrs conn) now) l now).
  destruct (IH (update_from_connection c i (path_addrs conn) now)) as [(ip' & conn' & Hin & Hp & E)|[Hno E]].
  { left. exists ip', conn'. split_and!; [by right|done|done]. }
  rewrite E. unfold update_from_connection, cache_update.
  destruct (path_addrs conn) as [|a rest] eqn:Ep.
  - right. split; [|done]. intros ip' conn' [[= -> -> ->]|Hin]%elem_of_cons; [done|by apply (Hno ip')].
  - destruct (decide (i = id)) as [->|Hne].
    + left. exists ip, conn. rewrite lookup_insert_eq, Ep. split_and!; [by left|done|done].
    + right. rewrite lookup_insert_ne by done. split; [|done].
      intros ip' conn' [[= -> -> ->]|Hin]%elem_of_cons; [done|by apply (Hno ip')].
Qed.

Lemma refresh_lookup tables c now id :
  (exists conn, live_with_path tables id conn /\ refresh_peer_cache path_addrs c tables now !! id = Some (path_addrs conn, now))
  \/ ((forall conn, ~ live_with_path tables id conn) /\ refresh_peer_cache path_addrs c tables now !! id = c !! id).
Proof.
  rewrite refresh_flat.
  assert (forall ip conn, (id, ip, conn) ∈ concat (all_entries <$> tables)
            <-> exists t, t ∈ tables /\ (id, ip, conn) ∈ all_entries t) as Hc.
  { intros ip conn. rewrite list_elem_of_In, List.in_concat. setoid_rewrite <- list_elem_of_In. setoid_rewrite list_elem_of_fmap. naive_solver. }
  destruct (refresh_all_lookup (concat (all_entries <$> tables)) c now id) as [(ip & conn & Hin & Hp & E)|[Hno E]].
  - left. exists conn. split; [|done]. apply Hc in Hin as (t & Ht & Hin). split; [by exists t, ip|done].
  - right. split; [|done]. intros conn [(t & ip & Ht & Hin) Hp]. apply Hp, (Hno ip). apply Hc. by exists t.
Qed.

(** C37: a graceful shutdown keeps the addresses of the peers for the next start.  When the
    daemon shuts down at [now] and starts again at [later], within thirty days, a peer that was
    connected over some path is looked up with the addresses of a connection it had, and any
    other peer with what the cache held for it, unless that is older than thirty days at the restart. *)
Theorem addresses_survive_restart `{!CacheCodecLaws} c tables file now later id
  (Hle : now <= later) (Hsoon : later < now + PRUNE_DAYS * 86400)
  (Henc : is_Some (cache_to_vec (entries_of (prune_stale (refresh_peer_cache path_addrs c tables now) now)))) :
  let c' := cache_new (shutdown_save path_addrs c tables file now true true).2 later in
  (exists conn, live_with_path tables id conn /\ cache_lookup c' id = Some (path_addrs conn))
  \/ ((forall conn, ~ live_with_path tables id conn)
      /\ cache_lookup c' id
         = match c !! id with
           | Some (addrs, seen) => if is_fresh seen later then cache_lookup c id else None
           | None => None
           end).
Proof.
  cbv zeta. unfold cache_lookup at 1 2, shutdown_save. rewrite save_then_new by done.
  destruct (refresh_lookup tables c now id) as [(conn & Hl & E)|[Hno E]]; rewrite E.
  - left. exists conn. split; [done|]. cbn. replace (is_fresh now later) with true.
    + destruct Hl as [_ Hp]. by destruct (path_addrs conn).
    + symmetry. unfold is_fresh, PRUNE_DAYS in *. apply Z.ltb_lt. lia.
  - right. split; [done|]. unfold cache_lookup. destruct (c !! id) as [[addrs seen]|]; cbn; [|done].
    destruct (is_fresh seen later); by destruct addrs.
Qed.
End Refresh.

(** The periodic task only saves: after thirty days up, a tick drops a peer that has been
    connected all along. *)
Lemma long_lived_connection_forgotten {Conn} (path_addrs : Conn -> list TransportAddr) c tables id conn file start later :
  live_with_path path_addrs tables id conn -> start + PRUNE_DAYS * 86400 <= later ->
  cache_lookup (periodic_saves (refresh_peer_cache path_addrs c tables start) file [(later, true, true)]).1 id = None.
Proof.
  intros Hl Hlate. unfold periodic_saves, cache_save.
  destruct (refresh_lookup path_addrs tables c start id) as [(conn' & _ & E)|[Hno _]]; [|by destruct (Hno conn)].
  destruct (cache_to_vec _); cbn [fst]; unfold cache_lookup, prune_stale; rewrite map_lookup_filter, E; cbn;
    (rewrite option_guard_False; [done|]); unfold is_fresh; rewrite Z.ltb_lt; lia.
Qed.
End PeerCache.

(** ** Dialling a peer *)
Inductive DialFailure := NoSharedProtocol | ConnectFailed.

Section Dial.
Context `{Base64}.

(** [lookup.resolve(id)] of the Tor transport: no stream, or the first item of the stream. *)
Definition TorLookup : Type := EndpointId -> option (option (option (list TransportAddr))).

(** [get_or_insert_with(Vec::new)] followed by an extension. *)
Definition extend_addrs (addrs : option (list TransportAddr)) (more : list TransportAddr) : option (list TransportAddr) :=
  Some (default [] addrs ++ more)%list.

(** The candidates of [connect_to_peer_with_alpn]: the cached ones, the Veilid one of the
    roster, the Tor one.  [veilid]: built with the feature.  A Tor item is an error when [None]. *)
Definition dial_addrs (veilid : bool) (c : PeerAddrCache) (id : EndpointId) (veilid_node_id : option string)
  (tor_addr_lookup : option TorLookup) : list TransportAddr :=
  let addrs := cache_lookup c id in
  let addrs :=
    match veilid_node_id with
    | Some vnid =>
        if veilid then
          match node_id_from_str vnid with
          | Ok node_id => let a := node_id_to_custom_addr node_id in extend_addrs addrs [Custom a.1 a.2]
          | Err _ => addrs
          end
        else addrs
    | None => addrs
    end in
  let addrs :=
    match tor_addr_lookup with
    | Some lookup =>
        match lookup id with
        | Some (Some (Some tor_addrs)) => extend_addrs addrs tor_addrs
        | _ => addrs
        end
    | None => addrs
    end in
  default [] addrs.

(** [str::to_lowercase] on an ASCII error text. *)
Definition is_alpn_mismatch (err : string) : bool :=
  let e := ascii_lowercase err in contains e "known protocol" || contains e "application protocol".

(** [connect]: the endpoint's own, failing with the text of its error. *)
Definition connect_to_peer_with_alpn {Conn} (connect : EndpointId -> list TransportAddr -> list Z -> Result Conn string)
  (veilid : bool) (c : PeerAddrCache) (id : EndpointId) (veilid_node_id : option string)
  (tor_addr_lookup : option TorLookup) (alpn : list Z) : Result Conn DialFailure :=
  match connect id (dial_addrs veilid c id veilid_node_id tor_addr_lookup) alpn with
  | Ok conn => Ok conn
  | Err e => if is_alpn_mismatch e then Err NoSharedProtocol else Err ConnectFailed
  end.

Lemma elem_of_extend addrs more a : a ∈ default [] (extend_addrs addrs more) <-> a ∈ default [] addrs \/ a ∈ more.
Proof. unfold extend_addrs. cbn. apply elem_of_app. Qed.

(** A dial offers exactly the candidates of its three sources. *)
Lemma dial_addrs_exact veilid c id vnid tor a :
  a ∈ dial_addrs veilid c id vnid tor
  <-> (exists l, cache_lookup c id = Some l /\ a ∈ l)
      \/ (veilid = true /\ exists s n, vnid = Some s /\ node_id_from_str s = Ok n
          /\ a = Custom VEILID_TRANSPORT_ID (as_bytes (node_id_text n)))
      \/ (exists f l, tor = Some f /\ f id = Some (Some (Some l)) /\ a ∈ l).
Proof.
  unfold dial_addrs. set (a1 := match vnid with Some _ => _ | None => _ end).
  assert (a ∈ default [] a1 <-> (exists l, cache_lookup c id = Some l /\ a ∈ l)
      \/ (veilid = true /\ exists s n, vnid = Some s /\ node_id_from_str s = Ok n
          /\ a = Custom VEILID_TRANSPORT_ID (as_bytes (node_id_text n)))) as H1.
  { assert (a ∈ default [] (cache_lookup c id) <-> exists l, cache_lookup c id = Some l /\ a ∈ l) as H0.
    { destruct (cache_lookup c id) as [l|]; cbn; [|rewrite elem_of_nil]; naive_solver. }
    rewrite <- H0. subst a1. destruct vnid as [s|]; [|split; [by left|intros [?|(_ & ? & ? & ? & _)]; done]].
    destruct veilid; [|split; [by left|intros [?|[? _]]; done]].
    destruct (node_id_from_str s) as [n|] eqn:En; [|split; [by left|intros [?|(_ & ? & ? & [= <-] & ? & _)]; congruence]].
    rewrite elem_of_extend, list_elem_of_singleton. unfold node_id_to_custom_addr. cbn [fst snd]. apply or_iff_compat_l.
    split; [intros ->; split; [done|by exists s, n]|intros (_ & s' & n' & [= <-] & ? & ->); congruence]. }
  rewrite <- Logic.or_assoc, <- H1. clearbody a1. clear H1.
  destruct tor as [f|]; [destruct (f id) as [[[lt|]|]|] eqn:Ef|]; rewrite ?elem_of_extend; naive_solver.
Qed.
End Dial.

(** ** Relays *)
Inductive RelayMode {RelayUrl : Type} := RelayDisabled | RelayCustom (urls : list RelayUrl).
Arguments RelayMode : clear implicits.

Section Relay.
Context `{UrlScheme} {RelayUrl : Type} (parse_relay : string -> option RelayUrl) (default_relays : list RelayUrl).

Fixpoint parse_relays (urls : list string) : CResult (list RelayUrl) :=
  match urls with
  | [] => Ok []
  | u :: rest =>
      match parse_relay u with
      | None => Err (InvalidUrl u)
      | Some r => rs <-? parse_relays rest; Ok (r :: rs)
      end
  end.

Definition build_relay_mode (o : ServerOverride) : CResult (option (RelayMode RelayUrl)) :=
  if bool_decide (so_servers o = ["off"]) then Ok (Some RelayDisabled)
  else
    urls <-? relay_urls o;
    if bool_decide (urls = []) then Ok None
    else
      parsed <-? parse_relays urls;
      Ok (Some (RelayCustom (if so_replace o then parsed else parsed ++ default_relays)%list)).

(** The public relays are used with an override only when it does not replace them. *)
Lemma relay_mode_exact o m :
  build_relay_mode o = Ok (Some m) ->
  (so_servers o = ["off"] /\ m = RelayDisabled)
  \/ exists urls parsed, relay_urls o = Ok urls /\ mapM parse_relay urls = Some parsed
     /\ m = RelayCustom (if so_replace o then parsed else parsed ++ default_relays)%list.
Proof.
  assert (forall us ps, parse_relays us = Ok ps -> mapM parse_relay us = Some ps) as Hp.
  { induction us as [|u us IH]; cbn; [by intros ? [= <-]|]. intros ps. destruct (parse_relay u) as [r|]; [|done].
    destruct (parse_relays us) as [rs|] eqn:E; [|done]. cbn. intros [= <-]. by rewrite (IH rs). }
  unfold build_relay_mode. case_bool_decide; [by intros [= <-]; left|].
  destruct (relay_urls o) as [urls|]; [|done]. cbn. case_bool_decide; [done|].
  destruct (parse_relays urls) as [ps|] eqn:E; [|done]. cbn. intros [= <-]. right. exists urls, ps. auto.
Qed.
End Relay.

(** ** The protocol router *)
Inductive Dispatched {Handler : Type} := ToBlobs | ToHandler (h : Handler) | NoHandler.
Arguments Dispatched : clear implicits.

Section Router.
Context `{IrohKeys} {Handler : Type} (BLOBS_ALPN : list Z).

(** [handlers]: by protocol name. *)
Record ProtocolRouter := mkRouter { handlers : gmap (list Z) Handler }.
Implicit Type r : ProtocolRouter.

Definition router_new : ProtocolRouter := mkRouter ∅.
Definition register r (alpn : list Z) (h : Handler) : ProtocolRouter := mkRouter (<[alpn := h]> (handlers r)).
Definition unregister r (alpn : list Z) : ProtocolRouter := mkRouter (delete alpn (handlers r)).
Definition alpns r : list (list Z) := ((map_to_list (handlers r)).*1 ++ [BLOBS_ALPN])%list.

(** What the accept loop does with an established connection. *)
Definition accept_conn r (alpn : list Z) : Dispatched Handler :=
  if bool_decide (alpn = BLOBS_ALPN) then ToBlobs
  else match handlers r !! alpn with Some h => ToHandler h | None => NoHandler end.

(** The router and what the endpoint advertises: a network's handler is set when it is created,
    joined, restored or promoted, dropped when its runtime is torn down, and the names refreshed after. *)
Inductive RouterOp := Serves (key : EndpointId) (h : Handler) | Drops (key : EndpointId).

Definition op_key (o : RouterOp) : EndpointId := match o with Serves k _ => k | Drops k => k end.

Definition router_step (s : ProtocolRouter * list (list Z)) (o : RouterOp) : ProtocolRouter * list (list Z) :=
  let r := match o with
           | Serves key h => register s.1 (network_alpn key) h
           | Drops key => unregister s.1 (network_alpn key)
           end in
  (r, alpns r).

Definition initial_alpns (networks : list NetworkConfig) : list (list Z) :=
  (omap (fun net => network_alpn <$> nc_network_public_key net) networks ++ [BLOBS_ALPN])%list.

Definition router_run (networks : list NetworkConfig) (ops : list RouterOp) : ProtocolRouter * list (list Z) :=
  fold_left router_step ops (router_new, initial_alpns networks).

(** The promise: a handler for each network served. *)
Definition serving (m : gmap EndpointId Handler) (o : RouterOp) : gmap EndpointId Handler :=
  match o with Serves key h => <[key := h]> m | Drops key => delete key m end.

(** The names tell the networks apart. *)
Definition names_apart (keys : list EndpointId) : Prop :=
  forall k k', k ∈ keys -> k' ∈ keys -> network_alpn k = network_alpn k' -> k = k'.

Definition router_refines (r : ProtocolRouter) (m : gmap EndpointId Handler) (keys : list EndpointId) : Prop :=
  (forall k, k ∈ keys -> handlers r !! network_alpn k = m !! k)
  /\ forall alpn, is_Some (handlers r !! alpn) -> exists k, k ∈ keys /\ network_alpn k = alpn.

Lemma router_step_refines r adv m keys o :
  names_apart keys -> op_key o ∈ keys -> router_refines r m keys ->
  router_refines (router_step (r, adv) o).1 (serving m o) keys.
Proof.
  intros Hap Hk [Hm Hr]. destruct o as [key h|key]; cbn [op_key] in Hk; unfold router_refines, router_step, serving, register, unregister; cbn [fst handlers]; split.
  - intros k Hin. destruct (decide (k = key)) as [->|Hne]; [by rewrite !lookup_insert_eq|].
    rewrite !lookup_insert_ne; [by apply Hm|done|]. intros E. by apply Hne, (Hap k key).
  - intros alpn [h' E]. apply lookup_insert_Some in E as [[<- _]|[_ E]]; [by exists key|]. by apply Hr.
  - intros k Hin. destruct (decide (k = key)) as [->|Hne]; [by rewrite !lookup_delete_eq|].
    rewrite !lookup_delete_ne; [by apply Hm|done|]. intros E. by apply Hne, (Hap k key).
  - intros alpn [h' [_ E]%lookup_delete_Some]. by apply Hr.
Qed.

Lemma router_fold_refines ops s m keys :
  names_apart keys -> Forall (fun o => op_key o ∈ keys) ops -> router_refines s.1 m keys ->
  router_refines (fold_left router_step ops s).1 (fold_left serving ops m) keys
  /\ (ops <> [] -> (fold_left router_step ops s).2 = alpns (fold_left router_step ops s).1).
Proof.
  intros Hap. revert s m. induction ops as [|o ops IH]; intros [r adv] m Hk Hm; cbn [fold_left]; [done|].
  apply Forall_cons in Hk as [Ho Hk]. pose proof (router_step_refines r adv m keys o Hap Ho Hm) as Hm'.
  destruct (IH _ _ Hk Hm') as [Hr Ha]. split; [done|]. intros _.
  destruct ops; [done|]. by apply Ha.
Qed.

Lemma serving_keys ops m k :
  is_Some (fold_left serving ops m !! k) -> is_Some (m !! k) \/ k ∈ (op_key <$> ops).
Proof.
  revert m. induction ops as [|o ops IH]; intros m Hs; cbn [fold_left] in Hs; [by left|].
  destruct (IH _ Hs) as [[h E]|Hin]; [|right; cbn; by right].
  destruct o as [key h'|key]; cbn [serving] in E; cbn [fmap list_fmap op_key].
  - apply lookup_insert_Some in E as [[<- _]|[_ E]]; [right; by left|left; by exists h].
  - apply lookup_delete_Some in E as [_ E]. left. by exists h.
Qed.

(** C27: an incoming connection reaches the network it was dialled for.  After any sequence
    of networks being taken up, promoted and left whose names differ, a connection negotiated under a
    network's name is given to the handler that network has now and to none if it has none;
    one under the blob protocol's name goes to the blob store; and the endpoint
    advertises the names of the networks served and the blob protocol, no other. *)
Theorem connection_reaches_its_network networks ops k
  (Hne : ops <> []) (Hap : names_apart (k :: (op_key <$> ops))) (Hblobs : forall k', network_alpn k' <> BLOBS_ALPN) :
  let s := router_run networks ops in
  let m := fold_left serving ops ∅ in
  accept_conn s.1 (network_alpn k) = match m !! k with Some h => ToHandler h | None => NoHandler end
  /\ accept_conn s.1 BLOBS_ALPN = ToBlobs
  /\ forall alpn, alpn ∈ s.2 <-> alpn = BLOBS_ALPN \/ exists k' h, m !! k' = Some h /\ alpn = network_alpn k'.
Proof.
  cbv zeta. unfold router_run. set (keys := k :: (op_key <$> ops)) in *.
  assert (Forall (fun o => op_key o ∈ keys) ops) as Hk.
  { apply Forall_forall. intros o Ho. right. by apply list_elem_of_fmap_2. }
  destruct (router_fold_refines ops (router_new, initial_alpns networks) ∅ keys Hap Hk) as [[Hm Hr] Ha].
  { split; cbn; [intros; by rewrite !lookup_empty|]. intros alpn. rewrite lookup_empty. by intros [? ?]. }
  rewrite (Ha Hne). generalize dependent (fold_left router_step ops (router_new, initial_alpns networks)).
  intros s Hm Hr _. split_and!.
  - unfold accept_conn. rewrite bool_decide_eq_false_2 by apply Hblobs. rewrite Hm by left. done.
  - unfold accept_conn. by rewrite bool_decide_eq_true_2.
  - intros alpn. unfold alpns. rewrite elem_of_app, list_elem_of_singleton, list_elem_of_fmap. split.
    + intros [([a h] & -> & Hin%elem_of_map_to_list)|?]; [right|by left]. cbn.
      destruct (Hr a (ex_intro _ h Hin)) as (k' & Hk' & <-). rewrite Hm in Hin by done. by exists k', h.
    + intros [?|(k' & h & E & ->)]; [by right|left]. exists (network_alpn k', h). split; [done|].
      apply elem_of_map_to_list. rewrite Hm; [done|].
      destruct (serving_keys ops ∅ k') as [[? E']|Hin]; [by exists h|by rewrite lookup_empty in E'|by right].
Qed.

(** Two networks whose keys share sixteen hexadecimal digits share a name: leaving
    one stops the other from being reached. *)
Lemma shared_prefix_unserved networks k k' h h' :
  network_alpn k = network_alpn k' -> network_alpn k <> BLOBS_ALPN ->
  accept_conn (router_run networks [Serves k h; Serves k' h'; Drops k']).1 (network_alpn k) = NoHandler.
Proof.
  intros E Hb. unfold accept_conn. rewrite bool_decide_eq_false_2 by done.
  unfold router_run, router_step, unregister. cbn [fold_left fst handlers]. by rewrite <- E, lookup_delete_eq.
Qed.
End Router.

(** ** Concrete instances *)
Module DemoTransport.
(** A codec of entries with one IPv4 address: four numbers each. *)
Definition put_entry (e : Entry) : option (list Z) :=
  match en_addrs e with
  | [Ip4 ip port] => Some [id_key (en_id e); ip; port; en_last_seen e]
  | _ => None
  end.

Fixpoint put_entries (l : list Entry) : option (list Z) :=
  match l with
  | [] => Some []
  | e :: rest =>
      match put_entry e, put_entries rest with
      | Some b, Some bs => Some (b ++ bs)%list
      | _, _ => None
      end
  end.

Fixpoint get_entries (l : list Z) : option (list Entry) :=
  match l with
  | [] => Some []
  | k :: ip :: port :: seen :: rest => es ← get_entries rest; Some (mkEntry (mkId k) [Ip4 ip port] seen :: es)
  | _ => None
  end.

#[export] Instance demo_cache_codec : CacheCodec := {
  cache_to_vec := put_entries;
  cache_from_slice := get_entries;
}.

#[export] Instance demo_cache_codec_laws : CacheCodecLaws.
Proof.
  constructor. intros l. cbn [cache_to_vec demo_cache_codec cache_from_slice].
  induction l as [|[id addrs seen] l IH]; intros bytes; cbn [put_entries]; [by intros [= <-]|].
  unfold put_entry. cbn [en_addrs en_id en_last_seen].
  destruct addrs as [|[ip port| | |] [|]]; try done.
  destruct (put_entries l) as [bs|]; [|done]. intros [= <-]. cbn.
  rewrite (IH bs) by done. cbn. by rewrite mkId_key.
Qed.
End DemoTransport.
Import Externs.Demo DemoTransport.

Lemma addresses_survive_restart_witness :
  let table := add (Conn := Z) table_new 7 [1] 100 (mkId 1) "alpha" in
  let path (conn : Z) := [Ip4 conn 4242] in
  let old : PeerAddrCache := <[mkId 2 := ([Ip4 5 1], 900)]> ∅ in
  cache_lookup (cache_new (shutdown_save path old [table] None 1000 true true).2 2000) (mkId 1) = Some [Ip4 100 4242].
Proof.
  intros table path old.
  destruct (addresses_survive_restart path old [table] None 1000 2000 (mkId 1)) as [(conn & [(t & ip & Ht & Hin) _] & ->)|[Hno _]].
  - lia.
  - unfold PRUNE_DAYS. lia.
  - by_decide.
  - apply list_elem_of_singleton in Ht as ->. unfold path. do 2 f_equal.
    assert (all_entries table = [(mkId 1, 7, 100)]) as E by (vm_compute; reflexivity).
    rewrite E in Hin. apply list_elem_of_singleton in Hin. congruence.
  - destruct (Hno 100). split; [|done]. exists table, 7. split; [by apply list_elem_of_singleton|].
    assert (all_entries table = [(mkId 1, 7, 100)]) as -> by (vm_compute; reflexivity). by apply list_elem_of_singleton.
Defined.

Lemma connection_reaches_its_network_witness :
  accept_conn (Handler := string) (as_bytes "/iroh-bytes/4")
    (router_run (as_bytes "/iroh-bytes/4") [] [Serves (mkId (2 ^ 250)) "member"; Serves (mkId (2 ^ 240)) "other"; Serves (mkId (2 ^ 250)) "coordinator"]).1
    (network_alpn (mkId (2 ^ 250))) = ToHandler "coordinator".
Proof.
  destruct (connection_reaches_its_network (Handler := string) (as_bytes "/iroh-bytes/4") []
    [Serves (mkId (2 ^ 250)) "member"; Serves (mkId (2 ^ 240)) "other"; Serves (mkId (2 ^ 250)) "coordinator"] (mkId (2 ^ 250))) as [-> _].
  - discriminate.
  - intros k k' Hk Hk'. cbn [fmap list_fmap op_key] in Hk, Hk'.
    assert (network_alpn (mkId (2 ^ 250)) <> network_alpn (mkId (2 ^ 240))) as Hne by (vm_compute; discriminate).
    rewrite !elem_of_cons, elem_of_nil in Hk, Hk'. intros E.
    destruct Hk as [->|[->|[->|[->|[]]]]], Hk' as [->|[->|[->|[->|[]]]]]; congruence.
  - intros k' E. apply (f_equal head) in E. vm_compute in E. discriminate E.
  - vm_compute. reflexivity.
Defined.
