(* ===== verification/System.v ===== *)
(** * The host system (src/src/selfcapture.rs, src/src/userdb.rs, src/src/identity.rs, src/src/tun.rs)

    The node's key on disk, the lookup of a local user or group, the list of local
    interfaces, and the routing rule that keeps iroh's own packets out of the overlays, on Linux.

    The C library's lookup and the [ip] tool are parameters: an answer for each size of
    buffer, and a kernel state that commands change and listings show. *)

From S2P Require Import Prelude Externs Addressing Service.

(** ** The node's key *)
Inductive IdentityError := CorruptKey | KeyNotWritten.

(** [file]: the key file, [generated]: the bytes of a new key, [wrote]: whether [write_file],
    which replaces the file in one step, succeeds. *)
Definition load_or_create (file : option (list Z)) (generated : list Z) (wrote : bool)
  : option (list Z) * Result (list Z) IdentityError :=
  match file with
  | Some bytes => (file, if (length bytes =? 32)%nat then Ok bytes else Err CorruptKey)
  | None => if wrote then (Some generated, Ok generated) else (None, Err KeyNotWritten)
  end.

Fixpoint identity_starts (file : option (list Z)) (starts : list (list Z * bool)) : option (list Z) * list (Result (list Z) IdentityError) :=
  match starts with
  | [] => (file, [])
  | (generated, wrote) :: rest =>
      let r := load_or_create file generated wrote in
      let later := identity_starts r.1 rest in (later.1, r.2 :: later.2)
  end.

(** [content]: the file as text. *)
Definition load_collision_index (content : option string) : option Z :=
  match content with Some s => parse_u32 (trim s) | None => Some 0 end.

Lemma identity_starts_kept k starts :
  length k = 32%nat -> identity_starts (Some k) starts = (Some k, replicate (length starts) (Ok k)).
Proof.
  intros Hk. induction starts as [|[g w] rest IH]; [done|]. cbn [identity_starts load_or_create fst snd].
  rewrite IH, Hk. done.
Qed.

(** However often the daemon starts, all starts that get a key get the same one. *)
Lemma identity_stable file starts k k' :
  Forall (fun s => length s.1 = 32%nat) starts ->
  Ok k ∈ (identity_starts file starts).2 -> Ok k' ∈ (identity_starts file starts).2 -> k = k'.
Proof.
  assert (forall k0 n (x : list Z), Ok x ∈ replicate n (Ok (E := IdentityError) k0) -> x = k0) as Hrep.
  { intros k0 n x [[= ->] _]%elem_of_replicate. done. }
  revert file. induction starts as [|[g w] rest IH]; intros file Hg; [by intros ?%elem_of_nil|].
  apply Forall_cons in Hg as [Hl Hg]. cbn [fst] in Hl. cbn [identity_starts snd].
  destruct file as [bytes|]; cbn [load_or_create fst snd].
  - destruct (length bytes =? 32)%nat eqn:E.
    + apply Nat.eqb_eq in E. rewrite identity_starts_kept by done. cbn [snd].
      intros [[= ->]|H1%Hrep]%elem_of_cons [[= ->]|H2%Hrep]%elem_of_cons; congruence.
    + intros [?|H1]%elem_of_cons [?|H2]%elem_of_cons; try done. by apply (IH (Some bytes)).
  - destruct w; cbn [fst snd].
    + rewrite identity_starts_kept by done. cbn [snd].
      intros [[= ->]|H1%Hrep]%elem_of_cons [[= ->]|H2%Hrep]%elem_of_cons; congruence.
    + intros [?|H1]%elem_of_cons [?|H2]%elem_of_cons; try done. by apply (IH None).
Qed.

(** ** Users and groups *)
Definition START_BUF : Z := 1024.
Definition MAX_BUF : Z := 2 ^ 20.

(** What [getgrnam_r] or [getpwnam_r] answers: the buffer is too small, another error, or
    the entry if there is one. *)
Inductive DbAnswer := Erange | DbError | Entry (found : option Z).

(** The loop of [group_gid] and [user_uid]; [fuel] bounds the number of times the buffer grows. *)
Fixpoint db_lookup (query : Z -> DbAnswer) (fuel : nat) (buf : Z) : option (option Z) :=
  match query buf with
  | Erange =>
      if buf <? MAX_BUF then match fuel with S fuel => db_lookup query fuel (buf * 2) | O => None end
      else Some None
  | DbError => Some None
  | Entry found => Some found
  end.

(** A name with a NUL byte is no C string. *)
Definition group_gid (query : Z -> DbAnswer) (name : string) : option (option Z) :=
  if all_chars (not_char "000") name then db_lookup query 10 START_BUF else Some None.

Lemma db_lookup_returns query n : forall fuel buf, buf * 2 ^ Z.of_nat n = MAX_BUF -> (n <= fuel)%nat -> is_Some (db_lookup query fuel buf).
Proof.
  induction n as [|n IH]; intros fuel buf Hb Hf; destruct fuel as [|fuel]; cbn [db_lookup]; try lia;
    destruct (query buf); try by eexists.
  - rewrite (proj2 (Z.ltb_ge buf MAX_BUF)) by lia. by eexists.
  - rewrite (proj2 (Z.ltb_ge buf MAX_BUF)) by lia. by eexists.
  - destruct (buf <? MAX_BUF); [|by eexists]. apply IH; [|lia]. rewrite <- Hb, Nat2Z.inj_succ, Z.pow_succ_r by lia. ring.
Qed.

Lemma db_lookup_finds query needed found : (forall b, query b = if b <? needed then Erange else Entry found) ->
  forall fuel buf r, needed <= MAX_BUF -> db_lookup query fuel buf = Some r -> r = found.
Proof.
  intros Hq fuel. induction fuel as [|fuel IH]; intros buf r Hn; cbn [db_lookup]; rewrite Hq;
    (destruct (buf <? needed) eqn:E; [apply Z.ltb_lt in E; rewrite (proj2 (Z.ltb_lt buf MAX_BUF)) by lia|by intros [= <-]]); [done|].
  by apply IH.
Qed.

(** The lookup of a user or group ends after at most eleven calls, whatever the library answers;
    an entry that fits a mebibyte is found, and one that is missing is reported so. *)
Lemma user_lookup_total query name :
  is_Some (group_gid query name)
  /\ forall needed found, needed <= MAX_BUF -> all_chars (not_char "000") name = true ->
     (forall b, query b = if b <? needed then Erange else Entry found) -> group_gid query name = Some found.
Proof.
  assert (is_Some (db_lookup query 10 START_BUF)) as Hs by (by apply (db_lookup_returns query 10)).
  unfold group_gid. split; [destruct (all_chars _ name); [exact Hs|by eexists]|].
  intros needed found Hn Hc Hq. rewrite Hc. destruct Hs as [r Hr]. rewrite Hr. f_equal. by eapply db_lookup_finds.
Qed.

(** ** Local interfaces *)
Fixpoint scan_inet (toks : list string) : option (Ipv4Addr * Z) :=
  match toks with
  | [] => None
  | t :: rest =>
      if String.eqb t "inet" then
        match rest with
        | [] => None
        | cidr :: rest' =>
            match ('(a, p) ← split_once "/" cidr; addr ← parse_ipv4_addr a; plen ← parse_u8 p; Some (addr, plen)) with
            | Some r => Some r
            | None => scan_inet rest'
            end
        end
      else scan_inet rest
  end.

Definition interface_line (line : string) : option (string * Ipv4Addr * Z) :=
  match split_whitespace line with
  | _ :: iface :: rest =>
      if String.eqb iface "lo" then None else (fun r => (iface, r.1, r.2)) <$> scan_inet rest
  | _ => None
  end.

(** [out]: what [ip -o -4 addr show] prints, if it runs and succeeds. *)
Definition local_ipv4_interfaces (out : option string) : list (string * Ipv4Addr * Z) :=
  match out with
  | Some text => omap interface_line (lines text)
  | None => []
  end.

(** An address as the tool prints it is read back, whatever follows it. *)
Lemma scan_inet_reads ip plen rest :
  is_u32 ip -> 0 <= plen < 256 -> scan_inet ("inet" :: (ipv4_to_string ip +:+ "/" +:+ dec plen) :: rest) = Some (ip, plen).
Proof.
  intros Hip Hp. cbn [scan_inet String.eqb]. change (String.eqb "inet" "inet") with true. cbn iota.
  change ("/" +:+ dec plen) with (String "/" (dec plen)).
  rewrite split_once_app; [|eapply all_chars_impl, ipv4_to_string_chars, Hip; intros c Hc; unfold not_char; apply negb_true_iff, bool_decide_eq_false_2; by intros <-].
  cbn [mbind option_bind]. rewrite parse_ipv4_to_string by done. cbn. by rewrite parse_u8_dec.
Qed.

(** ** The self-capture rule *)
Definition SHADOW_TABLE : Z := 52369.
Definition RULE_PRIORITY : Z := 52369.

Inductive SelfCaptureError := IpFailed | NoDefaultRoute | NoGateway | NoDevice.

(** The text of a line after the first ["sport "], up to the next one. *)
Definition line_port (line : string) : option Z :=
  '(_, after) ← split_once_at "sport " line;
  let part := match split_once_at "sport " after with Some (a, _) => a | None => after end in
  w ← head (split_whitespace part); parse_unsigned 65535 w.

Definition needle : string := "lookup " +:+ dec SHADOW_TABLE.

Definition rule_port (text : string) : option Z :=
  find_map (fun line => if contains line needle then line_port line else None) (lines text).

Fixpoint gateway (toks : list string) (gw dev : option string) : option string * option string :=
  match toks with
  | [] => (gw, dev)
  | t :: rest =>
      if String.eqb t "via" then match rest with [] => (None, dev) | g :: rest' => gateway rest' (Some g) dev end
      else if String.eqb t "dev" then match rest with [] => (gw, None) | d :: rest' => gateway rest' gw (Some d) end
      else gateway rest gw dev
  end.

(** The [ip] tool on a kernel state: what a listing prints, when it succeeds, and what a
    command does, with whether it succeeds. *)
Class IpTool (Kernel : Type) := {
  ip_rule_list : Kernel -> option string;
  ip_route_default : Kernel -> option string;
  run_ip : Kernel -> list string -> Kernel * bool;
}.

(** A rule for the shadow table as [ip rule list] prints it. *)
Definition rule_line (port : Z) : string :=
  "52369:" +:+ String "009" "from all ipproto udp sport " +:+ dec port +:+ " lookup " +:+ dec SHADOW_TABLE.

Section SelfCapture.
Context `{IpTool Kernel}.
Implicit Type k : Kernel.

Definition current_rule_port k : Result (option Z) SelfCaptureError :=
  match ip_rule_list k with Some text => Ok (rule_port text) | None => Err IpFailed end.

Definition rule_args (what : string) (port : Z) : list string :=
  ["rule"; what; "ipproto"; "udp"; "sport"; dec port; "table"; dec SHADOW_TABLE; "priority"; dec RULE_PRIORITY].
Definition route_args (gw dev : string) : list string :=
  ["route"; "replace"; "default"; "via"; gw; "dev"; dev; "table"; dec SHADOW_TABLE].
Definition flush_args : list string := ["route"; "flush"; "table"; dec SHADOW_TABLE].

Definition run_checked k (args : list string) : Kernel * Result unit SelfCaptureError :=
  let r := run_ip k args in (r.1, if r.2 : bool then Ok tt else Err IpFailed).

Definition add_rule k (port : Z) : Kernel * Result unit SelfCaptureError := run_checked k (rule_args "add" port).
Definition remove_rule k (port : Z) : Kernel * Result unit SelfCaptureError := run_checked k (rule_args "del" port).

Definition refresh_shadow_default_route k : Kernel * Result unit SelfCaptureError :=
  match ip_route_default k with
  | None => (k, Err IpFailed)
  | Some text =>
      match lines text with
      | [] => (k, Err NoDefaultRoute)
      | first_line :: _ =>
          match gateway (split_whitespace first_line) None None with
          | (None, _) => (k, Err NoGateway)
          | (Some _, None) => (k, Err NoDevice)
          | (Some gw, Some dev) => run_checked k (route_args gw dev)
          end
      end
  end.

Definition apply_inner k (listen_port : Z) : Kernel * Result unit SelfCaptureError :=
  match current_rule_port k with
  | Err e => (k, Err e)
  | Ok found =>
      let r :=
        match found with
        | Some p =>
            if p =? listen_port then (k, Ok tt)
            else
              match remove_rule k p with
              | (k, Ok _) => add_rule k listen_port
              | (k, Err e) => (k, Err e)
              end
        | None => add_rule k listen_port
        end in
      match r with
      | (k, Ok _) => refresh_shadow_default_route k
      | (k, Err e) => (k, Err e)
      end
  end.

Definition teardown_inner k : Kernel :=
  let k := match current_rule_port k with Ok (Some port) => (remove_rule k port).1 | _ => k end in
  (run_ip k flush_args).1.

Definition apply k (listen_port : Z) (enabled : bool) : Kernel :=
  if negb enabled then teardown_inner k else (apply_inner k listen_port).1.

(** The starts of the daemon with the port and the setting of each. *)
Definition starts k (l : list (Z * bool)) : Kernel := fold_left (fun k s => apply k s.1 s.2) l k.
End SelfCapture.

(** [shadow_rules]: the ports of the rules for the shadow table.  A listing shows them among other
    rules, a command that fails changes nothing, and one that succeeds does what it says. *)
Class IpToolLaws (Kernel : Type) `{IpTool Kernel} (shadow_rules : Kernel -> list Z) : Prop := {
  rule_list_shows : forall k text, ip_rule_list k = Some text ->
    exists before after, lines text = (before ++ (rule_line <$> shadow_rules k) ++ after)%list
      /\ Forall (fun l => contains l needle = false) (before ++ after);
  run_failed : forall k args, (run_ip k args).2 = false -> shadow_rules (run_ip k args).1 = shadow_rules k;
  run_adds : forall k port, 0 <= port <= 65535 -> (run_ip k (rule_args "add" port)).2 = true ->
    shadow_rules (run_ip k (rule_args "add" port)).1 = (shadow_rules k ++ [port])%list;
  run_deletes : forall k port, 0 <= port <= 65535 -> (run_ip k (rule_args "del" port)).2 = true ->
    exists l1 l2, shadow_rules k = (l1 ++ port :: l2)%list /\ shadow_rules (run_ip k (rule_args "del" port)).1 = (l1 ++ l2)%list;
  run_route : forall k args, shadow_rules (run_ip k ("route" :: args)).1 = shadow_rules k;
}.

Lemma no_sport w t : all_chars is_digit w = true -> split_once_at "sport " t = None -> split_once_at "sport " (w +:+ t) = None.
Proof.
  intros Hw Ht. induction w as [|c w IH]; [done|]. cbn [all_chars] in Hw. apply andb_true_iff in Hw as [Hc Hw].
  change (String c w +:+ t) with (String c (w +:+ t)). cbn [split_once_at]. rewrite IH by done.
  cbn [strip_prefix]. rewrite bool_decide_eq_false_2; [done|]. by intros <-.
Qed.

Lemma first_word w t : w <> "" -> all_chars trim_safe w = true -> at_white_space t = true -> head (split_whitespace (w +:+ t)) = Some w.
Proof.
  intros Hne Hs Ht. destruct w as [|c e]; [done|]. unfold split_whitespace.
  pose proof Hs as Hs'. cbn [all_chars] in Hs'. apply andb_true_iff in Hs' as [Hc _].
  change (String c e +:+ t) with (String c (e +:+ t)). cbn [String.length words].
  assert (trim_start (String c (e +:+ t)) = String c (e +:+ t)) as ->
    by (unfold trim_start; apply strip_leading_safe; [vm_compute; reflexivity|done]).
  cbn iota. change (String c (e +:+ t)) with (String c e +:+ t). by rewrite (take_word_safe (String c e) t Hs Ht).
Qed.

Lemma rule_line_port port : 0 <= port <= 65535 -> line_port (rule_line port) = Some port.
Proof.
  intros Hp. destruct (dec_digits port ltac:(lia)) as (Hd & _ & Hne). unfold line_port, rule_line.
  assert (forall t, split_once_at "sport " ("52369:" +:+ String "009" "from all ipproto udp sport " +:+ t)
                    = Some ("52369:" +:+ String "009" "from all ipproto udp ", t)) as Hsplit by (intros t; reflexivity).
  rewrite Hsplit. cbn [mbind option_bind]. rewrite no_sport by done.
  rewrite first_word; [|done|eapply all_chars_impl; [apply digit_trim_safe|done]|done].
  cbn [mbind option_bind]. by apply parse_unsigned_dec.
Qed.

Lemma contains_suffix s t q : contains t q = true -> contains (s +:+ t) q = true.
Proof. intros Ht. induction s as [|c s IH]; [done|]. change (String c s +:+ t) with (String c (s +:+ t)). cbn [contains]. by rewrite IH, orb_true_r. Qed.

Lemma rule_line_needle port : contains (rule_line port) needle = true.
Proof. unfold rule_line. do 3 apply contains_suffix. vm_compute. reflexivity. Qed.

Section SelfCaptureRules.
Context `{HL : IpToolLaws Kernel shadow_rules}.
Implicit Type k : Kernel.

(** At most one rule, for a port. *)
Definition one_rule (l : list Z) : Prop := l = [] \/ exists p, 0 <= p <= 65535 /\ l = [p].

(** The listing is read as the rule that is there. *)
Lemma rule_port_found k text : one_rule (shadow_rules k) -> ip_rule_list k = Some text -> rule_port text = head (shadow_rules k).
Proof.
  intros Hone Hl. destruct (rule_list_shows k text Hl) as (before & after & Ht & [Hb Ha]%Forall_app).
  unfold rule_port. rewrite Ht.
  assert (forall l, Forall (fun l => contains l needle = false) l ->
            find_map (fun line => if contains line needle then line_port line else None) l = None) as Hno.
  { induction 1 as [|x l Hx _ IH]; cbn [find_map]; [done|]. by rewrite Hx. }
  rewrite find_map_app, (Hno before Hb). destruct Hone as [->|(p & Hp & ->)]; cbn [fmap list_fmap app head].
  - by apply Hno.
  - cbn [find_map]. by rewrite rule_line_needle, rule_line_port.
Qed.

Lemma run_checked_ok k args : (run_checked k args).2 = Ok tt -> (run_ip k args).2 = true.
Proof. unfold run_checked. cbn. by destruct ((run_ip k args).2). Qed.
Lemma run_checked_err k args e : (run_checked k args).2 = Err e -> shadow_rules (run_checked k args).1 = shadow_rules k.
Proof. unfold run_checked. cbn. destruct ((run_ip k args).2) eqn:E; [done|]. intros _. by apply run_failed. Qed.

Lemma add_rule_effect k port : 0 <= port <= 65535 ->
  shadow_rules (add_rule k port).1 = match (add_rule k port).2 with Ok _ => shadow_rules k ++ [port] | Err _ => shadow_rules k end%list.
Proof.
  intros Hp. unfold add_rule. destruct ((run_checked k (rule_args "add" port)).2) as [[]|e] eqn:E.
  - apply run_adds, run_checked_ok, E; done.
  - by apply (run_checked_err k _ e).
Qed.

Lemma remove_rule_effect k port : 0 <= port <= 65535 -> shadow_rules k = [port] ->
  shadow_rules (remove_rule k port).1 = match (remove_rule k port).2 with Ok _ => [] | Err _ => [port] end.
Proof.
  intros Hp Hk. unfold remove_rule. destruct ((run_checked k (rule_args "del" port)).2) as [[]|e] eqn:E.
  - change ((run_checked k (rule_args "del" port)).1) with ((run_ip k (rule_args "del" port)).1).
    destruct (run_deletes k port) as (l1 & l2 & Hs & ->); [done|by apply run_checked_ok|].
    rewrite Hk in Hs. destruct l1 as [|x [|]]; cbn in Hs; simplify_eq; done.
  - by rewrite (run_checked_err k _ e).
Qed.

Lemma refresh_keeps_rules k : shadow_rules (refresh_shadow_default_route k).1 = shadow_rules k.
Proof.
  unfold refresh_shadow_default_route. destruct (ip_route_default k) as [text|]; [|done].
  destruct (lines text); [done|]. destruct (gateway _ _ _) as [[gw|] [dev|]]; try done. apply run_route.
Qed.

(** One start: the rule is the one for the port or none when it says so, and whatever fails
    there is still at most one. *)
Lemma apply_effect k port enabled :
  0 <= port <= 65535 -> one_rule (shadow_rules k) ->
  one_rule (shadow_rules (apply k port enabled))
  /\ (enabled = true -> (apply_inner k port).2 = Ok tt -> shadow_rules (apply k port enabled) = [port])
  /\ (enabled = false -> is_Some (ip_rule_list k) ->
      (forall p, shadow_rules k = [p] -> (remove_rule k p).2 = Ok tt) -> shadow_rules (apply k port enabled) = []).
Proof.
  intros Hp Hone. unfold apply. destruct enabled; cbn [negb].
  - unfold apply_inner, current_rule_port. destruct (ip_rule_list k) as [text|] eqn:El; [|done].
    rewrite (rule_port_found k text Hone El).
    destruct Hone as [Hk|(p & Hp' & Hk)]; rewrite Hk; cbn [head].
    + pose proof (add_rule_effect k port Hp) as Ha. rewrite Hk in Ha.
      destruct (add_rule k port) as [k1 [[]|e]]; cbn [fst snd app] in *.
      * rewrite refresh_keeps_rules, Ha. split; [right; by exists port|done].
      * rewrite Ha. split; [by left|done].
    + destruct (Z.eqb_spec p port) as [->|Hne].
      { rewrite refresh_keeps_rules, Hk. split; [right; by exists port|done]. }
      pose proof (remove_rule_effect k p Hp' Hk) as Hr. destruct (remove_rule k p) as [k1 [[]|e]]; cbn [fst snd] in *.
      * pose proof (add_rule_effect k1 port Hp) as Ha. rewrite Hr in Ha.
        destruct (add_rule k1 port) as [k2 [[]|e]]; cbn [fst snd app] in *.
        -- rewrite refresh_keeps_rules, Ha. split; [right; by exists port|done].
        -- rewrite Ha. split; [by left|done].
      * rewrite Hr. split; [right; by exists p|done].
  - unfold teardown_inner, flush_args. rewrite run_route. unfold current_rule_port.
    destruct (ip_rule_list k) as [text|] eqn:El; [|split_and!; [done|done|by intros _ [? ?]]].
    rewrite (rule_port_found k text Hone El). destruct Hone as [Hk|(p & Hp' & Hk)]; rewrite Hk; cbn [head].
    + rewrite Hk. split_and!; [by left|done|done].
    + rewrite (remove_rule_effect k p Hp' Hk). split_and!; [|done|].
      * destruct ((remove_rule k p).2); [by left|right; by exists p].
      * intros _ _ Hok. by rewrite (Hok p eq_refl).
Qed.

(** The daemon never leaves more than one routing rule behind.  Through any sequence of
    starts, with any ports and settings and whatever commands fail, there is at most one rule for
    the shadow table; a start that succeeds leaves exactly the rule for its port, whatever
    port an earlier one was for, and a start with the mitigation off leaves none when the
    rule can be listed and removed. *)
Theorem selfcapture_single_rule k (l : list (Z * bool)) port enabled
  (Hk : shadow_rules k = []) (Hl : Forall (fun s => 0 <= s.1 <= 65535) l) (Hp : 0 <= port <= 65535) :
  let k' := starts k l in
  one_rule (shadow_rules (apply k' port enabled))
  /\ (enabled = true -> (apply_inner k' port).2 = Ok tt -> shadow_rules (apply k' port enabled) = [port])
  /\ (enabled = false -> is_Some (ip_rule_list k') ->
      (forall p, shadow_rules k' = [p] -> (remove_rule k' p).2 = Ok tt) -> shadow_rules (apply k' port enabled) = []).
Proof.
  cbv zeta. apply apply_effect; [done|].
  assert (one_rule (shadow_rules k)) as Hone by by left. clear Hk. revert k Hone.
  unfold starts. induction Hl as [|[q en] l Hq _ IH]; intros k Hone; cbn [fold_left]; [done|].
  apply IH. by apply apply_effect.
Qed.
End SelfCaptureRules.

(** ** Concrete instance: a kernel with the rules and a default route. *)
Module DemoIp.
Record Kernel := mkKernel { kn_rules : list Z; kn_route : bool }.

Fixpoint remove_first (p : Z) (l : list Z) : option (list Z) :=
  match l with
  | [] => None
  | x :: l => if x =? p then Some l else cons x <$> remove_first p l
  end.

Definition demo_rule (k : Kernel) (what port : string) : Kernel * bool :=
  match parse_unsigned 65535 port with
  | None => (k, false)
  | Some p =>
      if String.eqb what "add" then (mkKernel (kn_rules k ++ [p])%list (kn_route k), true)
      else match remove_first p (kn_rules k) with Some l => (mkKernel l (kn_route k), true) | None => (k, false) end
  end.

Definition demo_run (k : Kernel) (args : list string) : Kernel * bool :=
  match args with
  | cmd :: what :: _ :: _ :: _ :: port :: _ => if String.eqb cmd "rule" then demo_rule k what port else (k, true)
  | _ => (k, true)
  end.

Definition demo_lines (k : Kernel) : list string :=
  (["0:" +:+ String "009" "from all lookup local"] ++ (rule_line <$> kn_rules k) ++ ["32766:" +:+ String "009" "from all lookup main"])%list.

#[export] Instance demo_ip : IpTool Kernel := {
  ip_rule_list k := Some (unlines (demo_lines k));
  ip_route_default k := if kn_route k then Some "default via 192.168.1.1 dev eth0 proto dhcp" else Some "";
  run_ip := demo_run;
}.

Lemma remove_first_spec p l l' : remove_first p l = Some l' -> exists l1 l2, l = (l1 ++ p :: l2)%list /\ l' = (l1 ++ l2)%list.
Proof.
  revert l'. induction l as [|x l IH]; intros l'; cbn; [done|]. destruct (Z.eqb_spec x p) as [->|].
  - intros [= <-]. by exists [], l.
  - destruct (remove_first p l) as [r|]; [|done]. intros [= <-]. destruct (IH r eq_refl) as (l1 & l2 & -> & ->). by exists (x :: l1), l2.
Qed.

Lemma rule_line_chars p : all_chars line_char (rule_line p) = true.
Proof.
  assert (all_chars is_digit (dec p) = true) as Hd.
  { destruct (Z.le_gt_cases 0 p) as [Hp|Hp]; [apply dec_digits, Hp|]. unfold dec. by replace (Z.to_N p) with 0%N by lia. }
  assert (all_chars line_char (dec p) = true) as Hl.
  { eapply all_chars_impl, Hd. intros c Hc. by apply safe_line_char, digit_trim_safe. }
  unfold rule_line. rewrite !all_chars_app, Hl. vm_compute. reflexivity.
Qed.

#[export] Instance demo_ip_laws : IpToolLaws Kernel kn_rules.
Proof.
  split.
  - intros k text Ht. cbn [ip_rule_list demo_ip] in Ht. assert (text = unlines (demo_lines k)) as -> by congruence.
    exists ["0:" +:+ String "009" "from all lookup local"], ["32766:" +:+ String "009" "from all lookup main"].
    split; [|repeat constructor; vm_compute; reflexivity].
    assert (Forall (fun l => all_chars line_char l = true) (demo_lines k)) as Hf; [|pose proof (lines_unlines (demo_lines k) "" Hf) as E].
    + constructor; [vm_compute; reflexivity|]. apply Forall_app. split; [|by repeat constructor].
      apply Forall_fmap, Forall_forall. intros p _. apply rule_line_chars.
    + rewrite sapp_nil_r in E. rewrite E. change (lines "") with (@nil string). by rewrite app_nil_r.
  - intros k args. cbn [run_ip demo_ip]. unfold demo_run, demo_rule. repeat case_match; done.
  - intros k port Hp. cbn [run_ip demo_ip]. unfold rule_args, demo_run, demo_rule. change (String.eqb "rule" "rule") with true. cbn iota. rewrite parse_unsigned_dec by done. done.
  - intros k port Hp. cbn [run_ip demo_ip]. unfold rule_args, demo_run, demo_rule. change (String.eqb "rule" "rule") with true. cbn iota. rewrite parse_unsigned_dec by done.
    change (String.eqb "del" "add") with false. cbn iota.
    destruct (remove_first port (kn_rules k)) as [l|] eqn:E; [|done]. intros _. by apply remove_first_spec.
  - intros k args. cbn [run_ip demo_ip]. unfold demo_run. change (String.eqb "route" "rule") with false. repeat case_match; done.
Qed.
End DemoIp.
Import DemoIp.

Lemma selfcapture_single_rule_witness :
  kn_rules (apply (starts (mkKernel [] true) [(43737, true); (43737, true)]) 5000 true) = [5000]
  /\ kn_rules (apply (starts (mkKernel [] true) [(43737, true); (5000, true)]) 5000 false) = [].
Proof.
  split.
  - apply (selfcapture_single_rule (mkKernel [] true) [(43737, true); (43737, true)] 5000 true); first [vm_compute; reflexivity | by_decide].
  - apply (selfcapture_single_rule (mkKernel [] true) [(43737, true); (5000, true)] 5000 false); [by_decide..|reflexivity|by eexists|].
    intros p Hp. assert (p = 5000) as -> by (vm_compute in Hp; congruence). vm_compute. reflexivity.
Defined.
