(* ===== verification/Show.v ===== *)
(** * What the command line prints of a status (src/src/cli/status.rs)

    The presentation helpers shared by the commands, and the block printed for each
    network: its header, the table of its members and the pending nuke proposals.

    Output is a list of lines without their line ends.  A line is UTF-8 text; widths are
    counted in bytes and padding in characters, as the program does.  Indexing out of a
    table's columns panics. *)

From S2P Require Import Prelude Externs Addressing Names Select Ipc Settings Status Service.

(** ** Small texts *)
Definition HOUR : Z := 3600.
Definition DAY : Z := 24 * HOUR.

Definition format_age (secs : Z) : string :=
  if secs <? HOUR then dec (secs / 60) +:+ "m"
  else if secs <? 2 * DAY then dec (secs / HOUR) +:+ "h"
  else dec (secs / DAY) +:+ "d".

Definition offline_cell (last_seen : option Z) (now : Z) : string :=
  match last_seen with
  | Some ts => "offline " +:+ format_age (saturating_sub now ts)
  | None => "offline"
  end.

(** The message is ASCII. *)
Definition infer_hint (message : string) : option string :=
  let m := ascii_lowercase message in
  if contains m "daemon" && (contains m "not running" || contains m "connect") then Some "start the service: sudo tetron install"
  else if contains m "expired" || contains m "invite" then Some "ask the coordinator for a fresh code: tetron invite <net>"
  else if contains m "root" || contains m "permission" || contains m "operator" then
    Some "run with sudo, or `sudo tetron set-operator <you>` once"
  else if contains m "hostname" && contains m "collision" then Some "pick another name: --hostname <name>"
  else None.

Definition error_lines (title detail : string) (hint : option string) : list string :=
  ([ "  ! " +:+ title ]
   ++ (if is_empty detail then [] else ["    " +:+ detail])
   ++ match match hint with Some h => Some h | None => infer_hint detail end with
      | Some h => ["    hint  " +:+ h]
      | None => []
      end)%list.

Definition next_lines (steps : list (string * string)) : list string :=
  imap (fun i step => (if (i =? 0)%nat then "    next  " else "          ") +:+ step.1 +:+ "   " +:+ step.2) steps.

(** ** Tables *)
Fixpoint spaces (n : nat) : string := match n with O => "" | S n => String " " (spaces n) end.

Definition indent (block : string) (n : nat) : string :=
  String.concat (String NL "") ((fun l => spaces n +:+ l) <$> lines block).

Definition table (headers : list string) (rows : list (list string)) (pad : nat) : string :=
  String.concat "" ((fun row => indent (String.concat "  " row) pad +:+ String NL "") <$> headers :: rows).

(** Characters of UTF-8 text. *)
Fixpoint char_count (s : string) : nat :=
  match s with
  | EmptyString => O
  | String c s => ((if continuation (byte_of_ascii c) then 0 else 1) + char_count s)%nat
  end.

(** [format!("{:<width$}")]. *)
Definition pad_cell (width : nat) (c : string) : string := c +:+ spaces (width - char_count c).

Fixpoint widen (widths : list nat) (row : list string) : list nat :=
  match widths, row with
  | w :: widths, c :: row => Nat.max w (String.length c) :: widen widths row
  | _, _ => widths
  end.

Fixpoint pad_cells (widths : list nat) (cells : list string) : outcome (list string) :=
  match cells with
  | [] => Ret []
  | c :: cells =>
      match widths with
      | [] => Panic
      | w :: widths => rest <-! pad_cells widths cells; Ret (pad_cell w c :: rest)
      end
  end.

Definition pad_row (widths : list nat) (cells : list string) : outcome string :=
  padded <-! pad_cells widths cells; Ret (trim_end (String.concat "  " padded)).

Fixpoint pad_rows (widths : list nat) (rows : list (list string)) : outcome (list string) :=
  match rows with
  | [] => Ret []
  | r :: rows => l <-! pad_row widths r; ls <-! pad_rows widths rows; Ret (l :: ls)
  end.

Definition column_widths (headers : list string) (rows : list (list string)) : list nat :=
  fold_left widen rows (String.length <$> headers).

Definition render_aligned_table (headers : list string) (rows : list (list string)) : outcome (list string) :=
  pad_rows (column_widths headers rows) (headers :: rows).

(** ** A network *)
Section PrintNetwork.
Context {PathStats ConnStats : Type}.
Implicit Types (net : NetworkStatus (PathStats := PathStats) (ConnStats := ConnStats))
  (p : PeerStatus (PathStats := PathStats) (ConnStats := ConnStats)).

Definition via_cell p (now : Z) : string :=
  match ps_connection p with
  | Some ci =>
      match ci_conn_type ci with
      | Direct => "direct"
      | RelayConn => "relay"
      | Tor => "tor"
      | Veilid => "veilid"
      | Unknown => "?"
      end
  | None => offline_cell (ps_last_seen p) now
  end.

Definition role_cell (admin : bool) : string := if admin then "admin" else "member".

Definition peer_row (now : Z) p : list string :=
  [role_cell (ps_is_coordinator p); default (ipv4_to_string (ps_ip p)) (ps_hostname p); ipv4_to_string (ps_ip p); via_cell p now].

Definition network_rows net (now : Z) : list (list string) :=
  [role_cell (role_is_coordinator (ns_role net)); default (ipv4_to_string (ns_my_ip net)) (ns_my_hostname net);
   ipv4_to_string (ns_my_ip net); "(you)"] :: (peer_row now <$> ns_peers net).

Definition count (f : PeerStatus (PathStats := PathStats) (ConnStats := ConnStats) -> bool) net : nat :=
  length (List.filter f (ns_peers net)).
Definition is_online p : bool := bool_decide (is_Some (ps_connection p)).
Definition me (net : NetworkStatus (PathStats := PathStats) (ConnStats := ConnStats)) : nat :=
  if role_is_coordinator (ns_role net) then 1 else 0.
Definition dec_nat (n : nat) : string := dec (Z.of_nat n).

Definition online net : nat := count (fun p => negb (ps_is_coordinator p) && is_online p) net.
Definition members_total net : nat := count (fun p => negb (ps_is_coordinator p)) net.
Definition admins_total net : nat := (count ps_is_coordinator net + me net)%nat.
Definition admins_online net : nat := (count (fun p => ps_is_coordinator p && is_online p) net + me net)%nat.

Definition short_key net : option string :=
  if role_is_coordinator (ns_role net) then string_take 10 <$> ns_network_key net else None.

Definition header_line net : string :=
  "  network " +:+ ns_network net +:+ "   subnet " +:+ ns_subnet net
  +:+ "   admins " +:+ dec_nat (admins_online net) +:+ "/" +:+ dec_nat (admins_total net)
  +:+ "   members " +:+ dec_nat (online net) +:+ "/" +:+ dec_nat (members_total net)
  +:+ (if negb (is_empty (ns_tun_name net)) && negb (String.eqb (ns_tun_name net) "pending")
       then "   interface " +:+ ns_tun_name net else "")
  +:+ (if ns_active net then "" else "   ·standby·").

Definition proposal_line net : string :=
  let said := "    ! nuke proposed by " +:+ String.concat ", " (np_short_id <$> ns_nuke_proposals net)
    +:+ " (" +:+ dec_nat (length (ns_nuke_proposals net)) +:+ "/" +:+ dec (ns_nuke_consensus_threshold net) +:+ ")" in
  match short_key net with
  | Some id => said +:+ " — run `tetron nuke " +:+ id +:+ "` to second, or `tetron nuke " +:+ id +:+ " --cancel` to withdraw yours"
  | None => said
  end.

Definition print_network net (now : Z) : outcome (list string) :=
  rows <-! render_aligned_table ["role"; "host"; "ip"; "via"] (network_rows net now);
  Ret (["" ; header_line net]
       ++ match short_key net with Some short => ["    network_key " +:+ short] | None => [] end
       ++ [""]
       ++ ((fun l => "    " +:+ l) <$> rows)
       ++ (if bool_decide (ns_nuke_proposals net = []) then [] else [proposal_line net]))%list.
End PrintNetwork.

(** ** Tables line up *)

(** A cell that can be told from padding: ASCII, not empty, with no blank at its end. *)
Definition ascii_char (c : ascii) : bool := byte_of_ascii c <? 128.
Definition shown (c : string) : Prop :=
  all_chars ascii_char c = true /\ exists c' d, c = c' +:+ String d "" /\ trim_safe d = true.

Definition starts_at (line : string) (off : nat) (cell : string) : Prop :=
  exists before after, line = before +:+ cell +:+ after /\ String.length before = off.

(** Where a column begins: two blanks follow each one before it. *)
Definition column_offset (widths : list nat) (j : nat) : nat := sum_list_with (fun w => w + 2)%nat (take j widths).

Lemma char_count_ascii s : all_chars ascii_char s = true -> char_count s = String.length s.
Proof.
  induction s as [|c s IH]; [done|]. cbn [all_chars char_count String.length]. intros [Hc Hs]%andb_true_iff. rewrite IH by done.
  unfold continuation, between. unfold ascii_char in Hc. apply Z.ltb_lt in Hc.
  by rewrite (proj2 (Z.leb_gt 128 (byte_of_ascii c))).
Qed.

Lemma spaces_length n : String.length (spaces n) = n.
Proof. induction n as [|n IH]; cbn; [done|by rewrite IH]. Qed.

Lemma widen_length ws row : length (widen ws row) = length ws.
Proof. revert row. induction ws as [|w ws IH]; intros [|c row]; cbn; [done..|]. by rewrite IH. Qed.

Lemma widen_ge ws row j w : ws !! j = Some w -> exists w', widen ws row !! j = Some w' /\ (w <= w')%nat.
Proof.
  revert row j. induction ws as [|w0 ws IH]; intros [|c row] [|j]; cbn; try done; try (intros ?; exists w; split; [done|lia]).
  - intros [= <-]. eexists. split; [done|lia].
  - apply IH.
Qed.

Lemma widen_fits ws row j w c :
  widen ws row !! j = Some w -> row !! j = Some c -> (String.length c <= w)%nat.
Proof.
  revert row j. induction ws as [|w0 ws IH]; intros [|c0 row] [|j]; cbn; try done.
  - intros [= <-] [= <-]. lia.
  - apply IH.
Qed.

Lemma widths_length headers rows : length (column_widths headers rows) = length headers.
Proof.
  unfold column_widths. rewrite <- (length_fmap String.length headers). generalize (String.length <$> headers) as ws.
  induction rows as [|r rows IH]; intros ws; cbn [fold_left]; [done|]. by rewrite IH, widen_length.
Qed.

Lemma widths_ge rows ws j w : ws !! j = Some w -> exists w', fold_left widen rows ws !! j = Some w' /\ (w <= w')%nat.
Proof.
  revert ws w. induction rows as [|r rows IH]; intros ws w Hw; cbn [fold_left]; [by exists w|].
  destruct (widen_ge ws r j w Hw) as (w1 & H1 & ?). destruct (IH _ _ H1) as (w2 & H2 & ?). exists w2. split; [done|lia].
Qed.

(** No cell is wider than its column. *)
Lemma widths_fit headers rows row j w c :
  row ∈ headers :: rows -> column_widths headers rows !! j = Some w -> row !! j = Some c -> (String.length c <= w)%nat.
Proof.
  intros [->|Hin]%elem_of_cons Hw Hc; unfold column_widths in Hw.
  - destruct (widths_ge rows (String.length <$> headers) j (String.length c)) as (w' & Hw' & ?).
    { by rewrite list_lookup_fmap, Hc. }
    congruence.
  - revert Hw. generalize (String.length <$> headers) as ws.
    induction rows as [|r rows IH]; [by apply elem_of_nil in Hin|]. intros ws. cbn [fold_left].
    apply elem_of_cons in Hin as [->|Hin]; [|by apply IH].
    intros Hw. destruct (widen ws r !! j) as [w1|] eqn:E1.
    + pose proof (widen_fits ws r j w1 c E1 Hc). destruct (widths_ge rows _ j w1 E1) as (w2 & H2 & ?).
      rewrite H2 in Hw. simplify_eq. lia.
    + apply lookup_ge_None in E1. apply lookup_lt_Some in Hw.
      assert (forall l ws0, length (fold_left widen l ws0) = length ws0) as Hl
        by (induction l as [|? ? IHl]; intros ws0; cbn; [done|by rewrite IHl, widen_length]).
      rewrite Hl in Hw. lia.
Qed.

Lemma pad_cells_ret ws cells : (length cells <= length ws)%nat -> pad_cells ws cells = Ret (zip_with pad_cell ws cells).
Proof.
  revert ws. induction cells as [|c cells IH]; intros [|w ws]; cbn; try done; try lia. intros. rewrite IH by lia. done.
Qed.

Lemma pad_cell_length w c : all_chars ascii_char c = true -> (String.length c <= w)%nat -> String.length (pad_cell w c) = w.
Proof. intros Ha Hw. unfold pad_cell. rewrite sapp_length, spaces_length, char_count_ascii by done. lia. Qed.

Lemma concat_cons sep c cs : cs <> [] -> String.concat sep (c :: cs) = c +:+ sep +:+ String.concat sep cs.
Proof. by destruct cs. Qed.

(** Where a cell begins in a padded row. *)
Lemma row_starts_at ws cells j c :
  (length cells <= length ws)%nat -> Forall (fun c => all_chars ascii_char c = true) cells ->
  (forall j w c, ws !! j = Some w -> cells !! j = Some c -> (String.length c <= w)%nat) ->
  cells !! j = Some c -> starts_at (String.concat "  " (zip_with pad_cell ws cells)) (column_offset ws j) c.
Proof.
  revert ws j. induction cells as [|c0 cells IH]; intros [|w ws] j Hlen Ha Hfit Hj; cbn in Hlen; try lia; [done|done|].
  apply Forall_cons in Ha as [Ha0 Ha]. cbn [zip_with].
  destruct j as [|j]; cbn in Hj.
  - injection Hj as ->. exists "". destruct (zip_with pad_cell ws cells) as [|x l]; unfold pad_cell.
    + exists (spaces (w - char_count c)). split; reflexivity.
    + rewrite concat_cons by done. rewrite <- sapp_assoc. eexists. split; [reflexivity|]. reflexivity.
  - destruct (IH ws j) as (before & after & E & Hb); [lia|done|intros j' w' c' Hw' Hc'; by apply (Hfit (S j') w' c')|done|].
    rewrite concat_cons, E.
    2: { destruct ws as [|w' ws]; cbn in Hlen; [destruct cells; cbn in *; [done|lia]|]. by destruct cells. }
    exists (pad_cell w c0 +:+ "  " +:+ before), after. split; [by rewrite <- !sapp_assoc|].
    rewrite !sapp_length, Hb, pad_cell_length by (done || by apply (Hfit O)).
    unfold column_offset. cbn. lia.
Qed.

(** *** Trimming leaves what is shown *)
Definition blank_pattern (p : string) : bool := all_chars (fun c => negb (trim_safe c)) p && negb (is_empty p).

Lemma prefix_blank p b c s : blank_pattern p = true -> trim_safe c = true -> String.prefix p (b +:+ String c s) = true ->
  exists b', b = p +:+ b'.
Proof.
  intros [Hp _]%andb_true_iff Hc. revert b. induction p as [|d p IH]; intros b Hpre; [by exists b|].
  cbn [all_chars] in Hp. apply andb_true_iff in Hp as [Hd Hp].
  destruct b as [|e b].
  - change ("" +:+ String c s) with (String c s) in Hpre. rewrite prefix_cons in Hpre.
    apply andb_true_iff in Hpre as [->%bool_decide_eq_true _]. by rewrite Hc in Hd.
  - change (String e b +:+ String c s) with (String e (b +:+ String c s)) in Hpre. rewrite prefix_cons in Hpre.
    apply andb_true_iff in Hpre as [->%bool_decide_eq_true Hpre]. destruct (IH Hp b Hpre) as [b' ->]. by exists b'.
Qed.

Lemma string_drop_app p s : string_drop (String.length p) (p +:+ s) = s.
Proof. induction p as [|c p IH]; [done|]. change (String c p +:+ s) with (String c (p +:+ s)). cbn. apply IH. Qed.

Lemma strip_leading_stops pats n b c s :
  forallb blank_pattern pats = true -> trim_safe c = true ->
  exists b' b'', b = b'' +:+ b' /\ strip_leading pats n (b +:+ String c s) = b' +:+ String c s.
Proof.
  intros Hp Hc. revert b. induction n as [|n IH]; intros b; cbn [strip_leading]; [by exists b, ""|].
  destruct (List.find _ pats) as [p|] eqn:E; [|by exists b, ""].
  apply List.find_some in E as [Hin Hpre]. rewrite forallb_forall in Hp.
  destruct (prefix_blank p b c s (Hp p Hin) Hc Hpre) as [b' ->].
  rewrite <- sapp_assoc, string_drop_app. destruct (IH b') as (b1 & b2 & -> & E1).
  exists b1, (p +:+ b2). by rewrite <- sapp_assoc.
Qed.

Lemma trim_end_keeps a d b : trim_safe d = true -> exists b', trim_end (a +:+ String d b) = a +:+ String d b'.
Proof.
  intros Hd. unfold trim_end. rewrite string_rev_app_distr.
  assert (forall x, string_rev (String d x) = string_rev x +:+ String d "") as Hr by (intros x; unfold string_rev; cbn; apply string_rev_app_spec).
  rewrite Hr, <- sapp_assoc. change (String d "" +:+ string_rev a) with (String d (string_rev a)).
  destruct (strip_leading_stops (string_rev <$> white_space) (String.length (a +:+ String d b)) (string_rev b) d (string_rev a))
    as (b' & b'' & _ & ->); [vm_compute; reflexivity|done|].
  exists (string_rev b'). rewrite string_rev_app_distr, Hr, <- sapp_assoc. by rewrite string_rev_involutive.
Qed.

Lemma starts_at_trimmed line off c : shown c -> starts_at line off c -> starts_at (trim_end line) off c.
Proof.
  intros (_ & c' & d & -> & Hd) (before & after & -> & Hb). rewrite <- (sapp_assoc c').
  change (String d "" +:+ after) with (String d after). rewrite (sapp_assoc before).
  destruct (trim_end_keeps (before +:+ c') d after Hd) as [b' ->].
  exists before, b'. split; [|done]. by rewrite <- !sapp_assoc.
Qed.

Lemma pad_rows_lookup ws rows :
  Forall (fun r => (length r <= length ws)%nat) rows ->
  pad_rows ws rows = Ret ((fun r => trim_end (String.concat "  " (zip_with pad_cell ws r))) <$> rows).
Proof.
  induction 1 as [|r rows Hr _ IH]; [done|]. cbn [pad_rows fmap list_fmap]. unfold pad_row. rewrite pad_cells_ret, IH by done. done.
Qed.

(** A table whose rows have no more cells than it has columns is printed, one line a row, and
    every cell begins where its column begins. *)
Lemma table_aligned headers rows :
  Forall (fun r => (length r <= length headers)%nat /\ Forall shown r) rows -> Forall shown headers ->
  exists ls, render_aligned_table headers rows = Ret ls /\ length ls = S (length rows)
    /\ forall i row j c, (headers :: rows) !! i = Some row -> row !! j = Some c ->
       exists line, ls !! i = Some line /\ starts_at line (column_offset (column_widths headers rows) j) c.
Proof.
  intros Hrows Hh. unfold render_aligned_table. set (ws := column_widths headers rows).
  assert (Forall (fun r => (length r <= length ws)%nat /\ Forall shown r) (headers :: rows)) as Hall.
  { unfold ws. constructor; [rewrite widths_length; by split|]. eapply Forall_impl; [exact Hrows|].
    intros r. by rewrite widths_length. }
  rewrite pad_rows_lookup by (eapply Forall_impl; [exact Hall|]; by intros r []).
  eexists. split; [reflexivity|]. split; [by rewrite length_fmap|].
  intros i row j c Hi Hj. rewrite list_lookup_fmap, Hi. eexists. split; [reflexivity|].
  rewrite Forall_lookup in Hall. destruct (Hall i row Hi) as [Hlen Hsh].
  apply starts_at_trimmed; [rewrite Forall_lookup in Hsh; by apply (Hsh j)|].
  apply row_starts_at; [done| |intros j' w c' Hw Hc'; eapply widths_fit; [by eapply list_elem_of_lookup_2|done|done]|done].
  eapply Forall_impl; [exact Hsh|]. by intros ? [].
Qed.

(** ** What is printed of a network *)
Lemma shown_app a b : all_chars ascii_char a = true -> shown b -> shown (a +:+ b).
Proof.
  intros Ha (Hb & c' & d & -> & Hd). split; [by rewrite all_chars_app, Ha|].
  exists (a +:+ c'), d. by rewrite sapp_assoc.
Qed.

Lemma safe_ascii c : trim_safe c = true -> ascii_char c = true.
Proof. unfold trim_safe, ascii_char. rewrite andb_true_iff, !Z.leb_le, Z.ltb_lt. lia. Qed.

Lemma safe_shown s : s <> "" -> all_chars trim_safe s = true -> shown s.
Proof.
  intros Hne Hs. split; [by eapply all_chars_impl, Hs; apply safe_ascii|].
  destruct (string_rev s) as [|d r] eqn:E; [by rewrite <- (string_rev_involutive s), E in Hne|].
  assert (s = string_rev r +:+ String d "") as -> by (rewrite <- (string_rev_involutive s), E; unfold string_rev; cbn; apply string_rev_app_spec).
  exists (string_rev r), d. split; [done|]. rewrite all_chars_app in Hs. cbn in Hs. apply andb_true_iff in Hs as [_ Hs].
  by apply andb_true_iff in Hs as [? _].
Qed.

Lemma dec_shown z : 0 <= z -> shown (dec z).
Proof. intros Hz. destruct (dec_digits z Hz) as (Hd & _ & Hn). apply safe_shown; [done|]. by eapply all_chars_impl, Hd; apply digit_trim_safe. Qed.

Lemma ip_shown ip : is_u32 ip -> shown (ipv4_to_string ip).
Proof.
  intros Hip. apply safe_shown; [|eapply all_chars_impl, ipv4_to_string_chars, Hip; apply ip_char_trim_safe].
  destruct (ip_octets ip Hip) as (Ha & _). unfold ipv4_to_string. intros E. apply (f_equal String.length) in E.
  rewrite !sapp_length in E. cbn in E. lia.
Qed.

Lemma hostname_shown h : is_valid_hostname h = true -> shown h.
Proof.
  unfold is_valid_hostname. intros Hv. apply safe_shown.
  - intros ->. cbn in Hv. done.
  - destruct (_ || _); [done|]. destruct (_ || _); [done|]. eapply all_chars_impl, Hv. by intros [[] [] [] [] [] [] [] []].
Qed.

Lemma age_shown secs : 0 <= secs -> shown (format_age secs).
Proof.
  intros Hs. unfold format_age, DAY, HOUR.
  assert (forall z c, 0 <= z -> trim_safe c = true -> shown (dec z +:+ String c "")) as Hd.
  { intros z c Hz Hc. destruct (dec_shown z Hz) as [Ha _]. apply shown_app; [done|].
    split; [cbn; by rewrite safe_ascii|]. by exists "", c. }
  repeat case_match; apply Hd; try done; apply Z.div_pos; lia.
Qed.

Section Printed.
Context {PathStats ConnStats : Type}.
Implicit Types (net : NetworkStatus (PathStats := PathStats) (ConnStats := ConnStats))
  (p : PeerStatus (PathStats := PathStats) (ConnStats := ConnStats)).

(** Addresses are addresses, names are valid host names. *)
Definition printable_host (ip : Ipv4Addr) (host : option string) : Prop :=
  is_u32 ip /\ match host with Some h => is_valid_hostname h = true | None => True end.

Lemma host_shown ip host : printable_host ip host -> shown (default (ipv4_to_string ip) host).
Proof. intros [Hip Hh]. destruct host as [h|]; cbn; [by apply hostname_shown|by apply ip_shown]. Qed.

Lemma role_shown b : shown (role_cell b).
Proof. destruct b; by apply safe_shown. Qed.

Lemma via_shown p now : shown (via_cell p now).
Proof.
  unfold via_cell. destruct (ps_connection p) as [ci|]; [destruct (ci_conn_type ci); by apply safe_shown|].
  unfold offline_cell. destruct (ps_last_seen p); [|by apply safe_shown].
  apply shown_app; [done|]. apply age_shown. unfold saturating_sub. lia.
Qed.

Lemma count_le (f g : PeerStatus (PathStats := PathStats) (ConnStats := ConnStats) -> bool) net :
  (forall p, f p = true -> g p = true) -> (count f net <= count g net)%nat.
Proof.
  intros Hfg. unfold count. induction (ns_peers net) as [|p l IH]; cbn; [done|].
  destruct (f p) eqn:E; [rewrite (Hfg p E); cbn; lia|]. destruct (g p); cbn; lia.
Qed.

Lemma count_split net : (count ps_is_coordinator net + count (fun p => negb (ps_is_coordinator p)) net = length (ns_peers net))%nat.
Proof.
  unfold count. induction (ns_peers net) as [|p l IH]; cbn [List.filter length]; [done|].
  destruct (ps_is_coordinator p); cbn [negb length]; lia.
Qed.

End Printed.

