(* ===== verification/Cli.v ===== *)
(** * The command line (src/src/main.rs and, in src/src/cli/, network.rs, invite.rs, admin.rs,
      status.rs, service.rs)

    What a command of [tetron] does.  A command is a client of the daemon: a tree of the things
    it asks of the outside (a request over the socket, a command of the service manager, the
    wait for the daemon to come up) with a continuation for each answer, ending with the lines
    printed and the way the process ends.

    What a command reads is in [Env]: the user, files, the saved configuration, the clock.
    Which options exist and exclude each other is declared to the [clap] library; the exclusions are
    [args_ok].  JSON is printed by [serde_json] from the value given here. *)

From S2P Require Import Prelude Externs Codecs Addressing Names Invite Select Network Ipc Settings Storage Status Service Show.

(** ** The commands *)
Module Cmd.
Inductive AdminAction := AdminAdd (peer : string) | AdminList.
Inductive InviteAction := InviteCreate (expires : option string) | InviteList | InviteRevoke (invite_id : string).
Inductive ConfigAction := ConfigGet (key : option string) | ConfigSet (key value : string) (replace : bool) | ConfigUnset (key : string).

Inductive Command :=
| Create (network_name hostname subnet : option string) (nuke_consensus : option Z) (tor veilid force : bool)
| Join (invite_code invite_file alias hostname : option string) (tor veilid force : bool)
| Leave (network : string) (force : bool)
| Nuke (network_key : string) (force cancel : bool) (second : option string)
| Kick (network_key endpoint_id : string)
| Status
| Daemon
| Resume (hostname network : option string)
| Standby (network : option string)
| Sync (network : option string)
| Stop
| Start
| Uninstall
| Install (config_dir log_dir socket_path : option string)
| Restart
| Completions
| Invite (network : string) (action : InviteAction)
| Admin (network : string) (action : AdminAction)
| Config (action : option ConfigAction)
| SetOperator (user : string)
| Version.
End Cmd.
Abbreviation Command := Cmd.Command.

(** [conflicts_with], [conflicts_with_all] and [required_unless_present]. *)
Definition args_ok (c : Command) : bool :=
  match c with
  | Cmd.Create _ _ _ _ tor veilid _ => negb (tor && veilid)
  | Cmd.Join invite_code invite_file _ _ tor veilid _ =>
      negb (tor && veilid) && xorb (bool_decide (is_Some invite_code)) (bool_decide (is_Some invite_file))
  | Cmd.Nuke _ force cancel second => negb (cancel && (force || bool_decide (is_Some second)))
  | _ => true
  end.

(** ** What a command prints and how it ends *)
Section Cli.
Context `{IrohKeys, Blake3, Bs58, UrlScheme} {PathStats ConnStats : Type}.

(** A status answer carries the daemon's version and its report. *)
Definition Report : Type := string * StatusReport (PathStats := PathStats) (ConnStats := ConnStats).
Definition Msg : Type := IpcMessage Report.

Inductive Json :=
| JNull
| JBool (b : bool)
| JNum (z : Z)
| JStr (s : string)
| JArr (l : list Json)
| JObj (fields : list (string * Json))
| JNetworks (l : list (NetworkStatus (PathStats := PathStats) (ConnStats := ConnStats)))
| JDrops (d : DropCounts).

Definition json_opt {A} (f : A -> Json) (o : option A) : Json := match o with Some a => f a | None => JNull end.

(** A line of text, a JSON value, or a message in its debugging form. *)
Inductive Line := Text (s : string) | JsonLine (v : Json) | Debugged (m : Msg).

Inductive CliError :=
| DaemonNotRunning
| NotSent
| ConnectionLost
| BadCidr (e : CidrError)
| ConsensusTooLow
| BadInvite (e : InviteError)
| InviteNotRead (e : ReadError)
| InviteFileNotRead
| NoInviteGiven
| SettingsRootOnly
| SettingsNotLoaded (e : StorageError)
| BadSetting (e : ConfigError)
| SettingsNotSaved
| UnknownUser (user : string)
| UnitNotInstalled (e : IoFailed)
| UnitNotDeleted.

(** [main] returns [Ok], a handler calls [exit(1)], [main] returns an error, which is printed
    and makes the process exit with 1, or a handler panics.  The daemon's command goes on in
    [run_daemon].  [OutOfFuel] is the model's. *)
Inductive Ending := Returned | Exited | Failed (e : CliError) | Panicked | RunsDaemon | OutOfFuel.

Record Ran := mkRan { ran_out : list Line; ran_err : list Line; ran_end : Ending }.

Definition fails (e : CliError) : Ran := mkRan [] [] (Failed e).
Definition says (l : list string) : Ran := mkRan (Text <$> l) [] Returned.
Definition exits (l : list string) : Ran := mkRan [] (Text <$> l) Exited.
Definition print_error (title detail : string) : Ran := exits (error_lines title detail None).

(** ** Clients *)
Inductive CmdOutcome := Success | ExitedWith (status : string) | NotRun (why : string).

Inductive Client :=
| Finish (r : Ran)
| Say (l : Line) (k : Client)
| Warn (l : Line) (k : Client)
(** [ipc::connect], [send] and [recv] on that connection. *)
| Connect (k : bool -> Client)
| Send (req : Msg) (k : bool -> Client)
| Recv (k : option Msg -> Client)
(** [Instant::now] and [sleep], in milliseconds. *)
| Clock (k : Z -> Client)
| Sleep (ms : Z) (k : Client)
(** A command of the host; what it writes when its output is taken. *)
| Spawn (cmd : list string) (k : CmdOutcome -> Client)
| Capture (cmd : list string) (k : option string -> Client)
(** [ensure_service_installed], [remove_file] of the unit, [selfcapture::teardown]. *)
| InstallUnit (o : PathOverrides) (k : option IoFailed -> Client)
| RemoveUnit (k : bool -> Client)
| Teardown (k : Client)
(** [set_var("TETRON_SOCKET_PATH", path)]. *)
| SetSocket (path : string) (k : Client).

(** With [?]. *)
Definition connect (k : Client) : Client := Connect (fun up => if up then k else Finish (fails DaemonNotRunning)).
Definition send (req : Msg) (k : Client) : Client := Send req (fun sent => if sent then k else Finish (fails NotSent)).
Definition recv (k : Msg -> Client) : Client :=
  Recv (fun a => match a with Some m => k m | None => Finish (fails ConnectionLost) end).

Definition asks (req : Msg) (reply : Msg -> Ran) : Client := connect (send req (recv (fun m => Finish (reply m)))).

(** The answers every command treats the same; [title] is that of an error. *)
Definition otherwise (title : string) (m : Msg) : Ran :=
  match m with
  | IpcError message => print_error title message
  | other => mkRan [] [Debugged other] Returned
  end.

Definition ok_or_error (m : Msg) : Ran :=
  match m with IpcOk message => says [message] | m => otherwise "error" m end.

(** ** What a command reads *)
Record Env := mkEnv {
  e_json : bool;
  e_now : Z;
  (** [CARGO_PKG_VERSION] and [TETRON_GIT_SHA]. *)
  e_version : string;
  e_git_sha : string;
  (** The effective user is root. *)
  e_root : bool;
  e_exists : string -> bool;
  (** The package that owns a path. *)
  e_package_owner : string -> option string;
  e_sudo_user : option string;
  (** [user_uid]. *)
  e_user_uid : string -> option Z;
  (** Standard input: the line typed at a terminal, or what a pipe delivers. *)
  e_stdin : option string + Reader;
  e_file : string -> option Reader;
  (** [config_dir] and [log_dir]. *)
  e_config_dir : option string;
  e_log_dir : string;
  (** The settings: whether opening them is denied, what they load as, whether they are
      saved, and what they load as after that. *)
  e_denied : bool;
  e_loaded : Result AppConfig StorageError;
  e_saves : AppConfig -> bool;
  e_reloaded : Result AppConfig StorageError;
}.
Implicit Types (env : Env) (m : Msg).

Definition FULL_VERSION env : string := e_version env +:+ " (" +:+ e_git_sha env +:+ ")".

(** One [println] of several lines. *)
Definition unlined (ls : list string) : string := String.concat (String NL "") ls.

(** ** Networks *)
Definition transport_of (tor veilid : bool) : option TransportMode :=
  if tor then Some TransportTor else if veilid then Some TransportVeilid else None.

Definition created_json (network : string) (network_key : EndpointId) (my_ip : Ipv4Addr) (my_ipv6 : option Ipv6Addr)
  (warning initial_invite_key : option string) (subnet : string) : Json :=
  JObj [("network", JStr network); ("network_key", JStr (id_to_string network_key)); ("my_ip", JStr (ipv4_to_string my_ip));
        ("my_ipv6", json_opt (fun a => JStr (ipv6_to_string a)) my_ipv6); ("warning", json_opt JStr warning);
        ("initial_invite_key", json_opt JStr initial_invite_key); ("subnet", JStr subnet)].

(** The first four and the last four characters of a long key. *)
Definition short_form (key : string) : string :=
  if (12 <? Z.of_nat (String.length key)) then
    String.substring 0 4 key +:+ "…" +:+ String.substring (String.length key - 4) 4 key
  else key.

Definition warning_lines (warning : option string) : list string := match warning with Some w => ["  ⚠ " +:+ w] | None => [] end.

Definition created_lines (network : string) (network_key : EndpointId) (my_ip : Ipv4Addr)
  (warning initial_invite_key : option string) (subnet : string) : list string :=
  ([""; "  created " +:+ network; "    address  " +:+ ipv4_to_string my_ip +:+ "  ·  " +:+ short_form (id_to_string network_key)]
   ++ (if is_empty subnet then [] else ["    subnet   " +:+ subnet])
   ++ match initial_invite_key with
      | Some invite =>
          next_lines [("tetron join " +:+ invite, "single-use invite (one more available)");
                      ("tetron invite <net> create", "mint another invite"); ("tetron resume", "activate the VPN")]
      | None =>
          next_lines [("tetron join " +:+ id_to_string network_key, "share this to invite peers"); ("tetron resume", "activate the VPN")]
      end
   ++ warning_lines warning ++ [""])%list.

Definition created_reply env m : Ran :=
  match m with
  | Created network network_key my_ip my_ipv6 warning initial_invite_key subnet =>
      if e_json env then mkRan [JsonLine (created_json network network_key my_ip my_ipv6 warning initial_invite_key subnet)] [] Returned
      else says (created_lines network network_key my_ip warning initial_invite_key subnet)
  | m => otherwise "create failed" m
  end.

Definition ipc_create env (mode : GroupMode) (network_name hostname subnet : option string) (nuke_consensus : option Z)
  (tor veilid force : bool) : Client :=
  let checked :=
    _ <-? match subnet with
          | Some cidr => match parse_cidr cidr with Ok _ => Ok tt | Err e => Err (BadCidr e) end
          | None => Ok tt
          end;
    match nuke_consensus with Some n => if 2 <=? n then Ok tt else Err ConsensusTooLow | None => Ok tt end in
  match checked with
  | Err e => Finish (fails e)
  | Ok _ => asks (Create mode network_name hostname (transport_of tor veilid) subnet nuke_consensus force) (created_reply env)
  end.

Definition read_invite_from (r : Reader) : Result string CliError :=
  match read_invite r with Ok c => Ok c | Err e => Err (InviteNotRead e) end.

(** At a terminal there is a prompt, whose line the typed one ends, and one line is read. *)
Definition read_invite_stdin env : list Line * Result string CliError :=
  match e_stdin env with
  | inl typed =>
      ([Text "Paste the invite and press Enter: "],
       match typed with Some line => read_invite_from (mkReader (as_bytes line) false) | None => Err (InviteNotRead ReadFailed) end)
  | inr pipe => ([], read_invite_from pipe)
  end.

Definition resolve_invite env (arg file : option string) : list Line * Result string CliError :=
  match file, arg with
  | Some path, _ => ([], match e_file env path with Some r => read_invite_from r | None => Err InviteFileNotRead end)
  | None, Some code => if String.eqb code "-" then read_invite_stdin env else ([], Ok code)
  | None, None => ([], Err NoInviteGiven)
  end.

Definition joined_reply m : Ran :=
  match m with
  | IpcOk message => says [message]
  | Joined network my_ip my_ipv6 warning =>
      says ([""; "  joined " +:+ network; "    address  " +:+ ipv4_to_string my_ip]
            ++ next_lines [("tetron status", "see who's online"); ("tetron resume", "activate the VPN")]
            ++ warning_lines warning ++ [""])%list
  | m => otherwise "join failed" m
  end.

Definition ipc_join (invite_code : string) (alias hostname : option string) (tor veilid force : bool) : Client :=
  let request network_key invite :=
    connect (send (Join network_key alias hostname (transport_of tor veilid) invite force)
      (Warn (Text "joining…") (recv (fun m => Finish (joined_reply m))))) in
  match decode_invite_code invite_code with
  | Ok (net_pubkey, secret) => request (id_to_string net_pubkey) (Some secret)
  | Err e => if negb (is_bare_room_id invite_code) then Finish (fails (BadInvite e)) else request invite_code None
  end.

Definition ipc_nuke (network_key : string) (force cancel : bool) (second : option string) : Client :=
  asks (Nuke network_key force cancel second) ok_or_error.
Definition ipc_kick (network_key endpoint_id : string) : Client := asks (Kick network_key endpoint_id) ok_or_error.
Definition ipc_leave (network : string) (force : bool) : Client := asks (Leave network force) ok_or_error.
Definition ipc_standby (network : option string) : Client := asks (Standby network) ok_or_error.
Definition ipc_sync (network : option string) : Client := asks (Sync network) ok_or_error.

(** ** Admins and invites *)
Definition blank_line_around (s : string) : string := unlined [""; s; ""].

Definition admin_json (a : AdminInfo) : Json := JObj [("id", JStr (ai_short_id a)); ("self", JBool (ai_self_node a))].
Definition admin_line (a : AdminInfo) : string :=
  "  " +:+ ai_short_id a +:+ " " +:+ (if ai_self_node a then "  ·this device·" else "").

Definition admin_reply env m : Ran :=
  match m with
  | IpcOk message => says [message]
  | AdminListResponse admins =>
      if e_json env then mkRan [JsonLine (JArr (admin_json <$> admins))] [] Returned
      else match admins with
           | [] => says [blank_line_around "  (no admins recorded)"]
           | _ => says ([""] ++ (admin_line <$> admins) ++ [""])%list
           end
  | m => otherwise "error" m
  end.

Definition admin_request (network : string) (action : Cmd.AdminAction) : Msg :=
  match action with Cmd.AdminAdd peer => AdminAdd network peer | Cmd.AdminList => AdminList network end.
Definition ipc_admin env (network : string) (action : Cmd.AdminAction) : Client :=
  asks (admin_request network action) (admin_reply env).

Definition invite_json (i : InviteInfo) : Json :=
  JObj [("id", JStr (ii_id i)); ("created_at", JNum (ii_created_at i)); ("expires_at", JNum (ii_expires_at i));
        ("revoked", JBool (ii_revoked i))].
Definition invite_row env (i : InviteInfo) : list string :=
  [ii_id i;
   if ii_revoked i then "revoked"
   else if (0 <? ii_expires_at i) && (ii_expires_at i <=? e_now env) then "expired"
   else "active";
   dec (ii_created_at i)].

Definition invite_reply env m : Ran :=
  match m with
  | InviteCreated invite_key invite_id expires_at =>
      if e_json env then
        mkRan [JsonLine (JObj [("invite_key", JStr invite_key); ("invite_id", JStr invite_id);
                               ("expires_at", json_opt JNum expires_at)])] [] Returned
      else
        says [""; "  invite key  " +:+ invite_key;
              "  invite id   " +:+ invite_id +:+ (match expires_at with Some ts => "  expires  unix:" +:+ dec ts | None => "" end);
              ""; "  share: tetron join " +:+ invite_key]
  | InviteListResponse invites =>
      if e_json env then mkRan [JsonLine (JArr (invite_json <$> invites))] [] Returned
      else match invites with
           | [] => says [blank_line_around "  (no invites)"]
           | _ => says ([""] ++ lines (table ["id"; "status"; "created"] (invite_row env <$> invites) 2) ++ [""])%list
           end
  | IpcOk message => says [message]
  | m => otherwise "error" m
  end.

Definition invite_request (network : string) (action : Cmd.InviteAction) : Msg :=
  match action with
  | Cmd.InviteCreate expires => InviteCreate network expires
  | Cmd.InviteList => InviteList network
  | Cmd.InviteRevoke invite_id => InviteRevoke network invite_id
  end.
Definition ipc_invite env (network : string) (action : Cmd.InviteAction) : Client :=
  asks (invite_request network action) (invite_reply env).

(** ** Status *)

(** [bytesize::ByteSize]'s display. *)
Context (format_bytes : Z -> string).

Definition saved_line (net : NetworkConfig) : string :=
  "    " +:+ nc_name net +:+ "  (" +:+ default "?" (ipv4_to_string <$> nc_my_ip net) +:+ ")  "
  +:+ dec (Z.of_nat (length (nc_members net))) +:+ " members".

Definition status_offline env : Ran :=
  match e_loaded env with
  | Err e => fails (SettingsNotLoaded e)
  | Ok cfg =>
      match cfg_networks cfg with
      | [] => says [""; "  ! daemon not running"; "  (no saved networks)"; ""]
      | nets => says ([""; "  ! daemon not running"; "  saved networks:"] ++ (saved_line <$> nets) ++ [""])%list
      end
  end.

Definition status_json (daemon_version : string) (s : StatusReport) : Json :=
  JObj [("endpoint", JStr (id_to_string (sr_endpoint_id s))); ("active", JBool (sr_active s));
        ("daemon_version", JStr daemon_version); ("networks", JNetworks (sr_networks s));
        ("traffic", JObj [("packets_rx", JNum (sr_packets s).1); ("packets_tx", JNum (sr_packets s).2);
                          ("bytes_rx", JNum (sr_bytes s).1); ("bytes_tx", JNum (sr_bytes s).2)]);
        ("drops", JDrops (sr_drops s)); ("fragmented_ipv4", JNum (sr_fragmented s).1);
        ("fragmented_ipv6", JNum (sr_fragmented s).2)].

Definition drop_reasons (d : DropCounts) : list (string * Z) :=
  List.filter (fun r => 0 <? r.2)
    [("send_failure", dc_send_failure d); ("no_peer", dc_no_peer d); ("malformed", dc_malformed d);
     ("backpressure", dc_backpressure d); ("spoof", dc_spoof d); ("fragmentation_failed", dc_fragmentation_failed d)].

Definition drop_lines (d : DropCounts) : list string :=
  let total := wrap 64 (fold_right Z.add 0 (drop_reasons d).*2) in
  if 0 <? total then
    ["    drops    " +:+ dec total +:+ " total ("
     +:+ String.concat ", " ((fun r => r.1 +:+ " " +:+ dec r.2) <$> drop_reasons d) +:+ ")"]
  else [].

Fixpoint print_networks (now : Z) (nets : list (NetworkStatus (PathStats := PathStats) (ConnStats := ConnStats))) : outcome (list string) :=
  match nets with
  | [] => Ret []
  | net :: nets => block <-! print_network net now; rest <-! print_networks now nets; Ret (block ++ rest)%list
  end.

(** Saved networks the daemon does not run. *)
Definition inactive_lines env (s : StatusReport (PathStats := PathStats) (ConnStats := ConnStats)) : list string :=
  match e_loaded env with
  | Ok cfg =>
      concat ((fun net => [""; "  " +:+ nc_name net +:+ "  ·inactive·"])
              <$> List.filter (fun net => negb (bool_decide (nc_name net ∈ ns_network <$> sr_networks s))) (cfg_networks cfg))
  | Err _ => []
  end.

Definition skew_lines env (daemon_version : string) : list string :=
  if negb (is_empty daemon_version) && negb (String.eqb daemon_version (e_version env)) then
    [""; "  ! daemon is v" +:+ daemon_version +:+ " but CLI is v" +:+ e_version env;
     "  (run `sudo tetron restart` to restart the daemon onto the new binary)"]
  else [].

Definition status_lines env (daemon_version : string) (s : StatusReport) : outcome (list string) :=
  let shown_version := if is_empty daemon_version then e_version env else daemon_version in
  blocks <-! match sr_networks s with
             | [] => Ret [""; "  (no active networks)"]
             | nets => print_networks (e_now env) nets
             end;
  Ret ([""; "  tetron v" +:+ shown_version +:+ "  state " +:+ (if sr_active s then "active" else "standby")
            +:+ "  endpoint " +:+ id_fmt_short (sr_endpoint_id s);
        "    traffic  ↑" +:+ format_bytes (sr_bytes s).2 +:+ "  ↓" +:+ format_bytes (sr_bytes s).1]
       ++ drop_lines (sr_drops s)
       ++ (if sr_active s then [] else ["  (run `tetron resume` to activate)"])
       ++ blocks ++ inactive_lines env s ++ skew_lines env daemon_version ++ [""])%list.

Definition status_reply env m : Ran :=
  match m with
  | StatusResponse (daemon_version, s) =>
      if e_json env then mkRan [JsonLine (status_json daemon_version s)] [] Returned
      else match status_lines env daemon_version s with Ret ls => says ls | Panic => mkRan [] [] Panicked end
  | m => otherwise "status failed" m
  end.

Definition ipc_status env : Client :=
  Connect (fun up => if up then send Status (recv (fun m => Finish (status_reply env m))) else Finish (status_offline env)).

(** ** Settings *)

(** Whether the running daemon took the setting. *)
Definition try_live_reload (req : Msg) (k : bool -> Client) : Client :=
  Connect (fun up =>
    if up then
      Send req (fun sent =>
        if sent then Recv (fun a => k (match a with Some (IpcOk _) => true | _ => false end)) else k false)
    else k false).
Definition try_live_reload_log_level env : (bool -> Client) -> Client := try_live_reload (SetLogLevel (log_level (e_reloaded env))).
Definition try_live_reload_path_preference env : (bool -> Client) -> Client :=
  try_live_reload (SetPathPreference (path_preference (e_reloaded env))).

Definition reload_line (verb key : string) (live : bool) : string :=
  verb +:+ " " +:+ key
  +:+ (if live then ". Applied immediately to the running daemon (no restart needed)."
       else ". Run 'sudo tetron restart' for changes to take effect.").
Definition announce_log_level_change env (verb key : string) : Client :=
  try_live_reload_log_level env (fun live => Finish (says [reload_line verb key live])).
Definition announce_path_preference_change env (verb : string) : Client :=
  try_live_reload_path_preference env (fun live => Finish (says [reload_line verb "path-preference" live])).

Definition change_setting env (verb key value : string) (replace : bool) (changed : string) : Client :=
  match e_loaded env with
  | Err e => Finish (fails (SettingsNotLoaded e))
  | Ok cfg =>
      match config_set cfg key value replace with
      | Err e => Finish (fails (BadSetting e))
      | Ok cfg =>
          if negb (e_saves env cfg) then Finish (fails SettingsNotSaved)
          else if String.eqb key "log-level" then announce_log_level_change env verb key
          else if String.eqb key "path-preference" then announce_path_preference_change env verb
          else Finish (says [changed])
      end
  end.

Definition cmd_config env (action : option Cmd.ConfigAction) : Client :=
  match default (Cmd.ConfigGet None) action with
  | Cmd.ConfigGet key =>
      if e_denied env then Finish (fails SettingsRootOnly)
      else
        Finish (match e_loaded env with
                | Err e => fails (SettingsNotLoaded e)
                | Ok cfg =>
                    match config_get cfg key with
                    | Err e => fails (BadSetting e)
                    | Ok rows =>
                        if e_json env then mkRan [JsonLine (JObj ((fun r => (r.1, JStr r.2)) <$> rows))] [] Returned
                        else says ((fun r => r.1 +:+ " = " +:+ r.2) <$> rows)
                    end
                end)
  | Cmd.ConfigSet key value replace =>
      change_setting env "Set" key value replace ("Set " +:+ key +:+ ". Run 'sudo tetron restart' for changes to take effect.")
  | Cmd.ConfigUnset key =>
      change_setting env "Reset" key "" false
        ("Reset " +:+ key +:+ " to default. Run 'sudo tetron restart' for changes to take effect.")
  end.

(** ** The operator *)
Definition uid_for_user env (user : string) : option Z :=
  match e_user_uid env user with Some uid => Some uid | None => parse_u32 user end.

Definition cmd_set_operator env (user : string) : Client :=
  match uid_for_user env user with
  | None => Finish (fails (UnknownUser user))
  | Some uid => asks (SetOperator uid) ok_or_error
  end.

(** ** The service (Linux) *)
Definition run_cmd (program : string) (args : list string) (k : Client) : Client :=
  Spawn (program :: args) (fun o =>
    match o with
    | Success => k
    | ExitedWith status => Warn (Text ("warning: `" +:+ program +:+ "` exited with " +:+ status)) k
    | NotRun e => Warn (Text ("warning: failed to run `" +:+ program +:+ "`: " +:+ e)) k
    end).

Definition ensure_tetron_group (k : Client) : Client :=
  Spawn ["getent"; "group"; "tetron"] (fun o =>
    match o with
    | Success => k
    | _ => Spawn ["groupadd"; "--system"; "tetron"] (fun _ => k)
    end).

Definition require_root env (k : Client) : Client :=
  if e_root env then k
  else Finish (exits [unlined ["this command manages the system service and needs root."; "Re-run with: sudo tetron <command>"]]).

Definition check_root env (k : Client) : Client :=
  if e_root env then k
  else Finish (exits ["tetron requires root privileges to create TUN devices. Run with sudo."]).

Definition systemd_available env : bool := e_exists env "/run/systemd/system".
Definition require_systemd env (k : Client) : Client :=
  if systemd_available env then k
  else Finish (exits [unlined
    ["this command manages the system service via systemd, which this system";
     "does not have (checked for /run/systemd/system). Run the daemon directly";
     "under your own init system instead: `tetron daemon` runs standalone with";
     "no systemd dependency of its own -- see contrib/ for a reference unit for";
     "at least one alternative init system, and the README's " +:+ String "034" "Non-systemd Linux" +:+ String "034" "";
     "section for the full explanation."]]).

Definition UNIT_DIRS : list string := ["/etc/systemd/system"; "/usr/lib/systemd/system"; "/lib/systemd/system"].
Definition unit_in (dir : string) : string := dir +:+ "/tetron.service".
Definition unit_exists_in env (dirs : list string) : bool := existsb (fun d => e_exists env (unit_in d)) dirs.
Definition service_unit_exists env : bool := unit_exists_in env UNIT_DIRS.
Definition vendor_unit_path env : option string := List.find (e_exists env) (unit_in <$> drop 1 UNIT_DIRS).

Definition DAEMON_REACHABLE_TIMEOUT : Z := 30 * 1000.

Fixpoint poll_daemon (fuel : nat) (deadline : Z) (k : bool -> Client) : Client :=
  match fuel with
  | O => Finish (mkRan [] [] OutOfFuel)
  | S fuel =>
      Connect (fun up =>
        if up then k true
        else Clock (fun now => if deadline <=? now then k false else Sleep 250 (poll_daemon fuel deadline k)))
  end.
Definition wait_for_daemon (fuel : nat) (timeout : Z) (k : bool -> Client) : Client :=
  Clock (fun now => poll_daemon fuel (now + timeout) k).

Definition print_daemon_log_tail (k : Client) : Client :=
  Warn (Text (unlined [""; "Recent daemon log (journalctl -u tetron):"]))
    (run_cmd "journalctl" ["-u"; "tetron"; "-n"; "15"; "--no-pager"] k).

Definition never_reachable (l : string) : Client :=
  Warn (Text l) (print_daemon_log_tail (Finish (mkRan [] [] Exited))).

Definition cmd_resume (hostname network : option string) : Client :=
  Connect (fun up =>
    if up then send (Resume hostname network) (recv (fun m => Finish (ok_or_error m)))
    else Finish (exits ["tetron service is not running. Install and start it with: sudo tetron install"])).

Definition started_line (reply : string) : string :=
  let reply := trim reply in
  if is_empty reply then "tetron service started." else "tetron service started; VPN: " +:+ reply.

Definition grant_operator_to_invoking_user env (k : Client) : Client :=
  match e_sudo_user env with
  | None => k
  | Some user =>
      if String.eqb user "root" then k
      else
        match uid_for_user env user with
        | None => k
        | Some uid =>
            Connect (fun up =>
              if up then
                Send (SetOperator uid) (fun _ =>
                  Recv (fun a =>
                    match a with
                    | Some (IpcOk _) => Say (Text ("granted operator access to '" +:+ user +:+ "' — run tetron without sudo")) k
                    | _ => k
                    end))
              else k)
        end
  end.

Definition install_and_start_service env (fuel : nat) (hostname : option string) (overrides : PathOverrides) : Client :=
  ensure_tetron_group (InstallUnit overrides (fun r =>
    match r with
    | Some e => Finish (fails (UnitNotInstalled e))
    | None =>
        let finish := grant_operator_to_invoking_user env (Finish (mkRan [] [] Returned)) in
        let wait :=
          Warn (Text "waiting for daemon…")
            (wait_for_daemon fuel DAEMON_REACHABLE_TIMEOUT (fun up =>
               if up then
                 send (Resume hostname None) (recv (fun m =>
                   match m with
                   | IpcOk message => Say (Text (started_line message)) finish
                   | IpcError message => Finish (print_error "error" message)
                   | other => Warn (Debugged other) finish
                   end))
               else
                 never_reachable (unlined
                   ["tetron service was started but the daemon never became reachable.";
                    "It likely crashed on startup — common causes are the chosen overlay subnet";
                    "overlapping an existing local network (see `tetron config set subnet`),";
                    "DNS port 53 already in use, or a conflicting route."]))) in
        Say (Text "enabling and starting systemd service 'tetron' (systemctl enable/restart)")
          (run_cmd "systemctl" ["enable"; "tetron"]
             (run_cmd "systemctl" ["restart"; "tetron"]
                match po_socket_path overrides with Some p => SetSocket p wait | None => wait end))
    end)).

Definition cmd_install env (fuel : nat) (config_dir log_dir socket_path : option string) : Client :=
  require_root env (require_systemd env
    (Say (Text ("installing tetron " +:+ FULL_VERSION env))
       (install_and_start_service env fuel None (mkPathOverrides config_dir log_dir socket_path)))).

(** The guards of [restart], [stop] and [start]. *)
Definition with_service env (missing : string) (k : Client) : Client :=
  require_root env (require_systemd env (if service_unit_exists env then k else Finish (exits [missing]))).

Definition restart_service_and_wait (fuel : nat) : Client :=
  run_cmd "systemctl" ["restart"; "tetron"]
    (wait_for_daemon fuel DAEMON_REACHABLE_TIMEOUT (fun up =>
       if up then Finish (says ["tetron service restarted."])
       else never_reachable "tetron service was restarted but the daemon never became reachable.")).
Definition cmd_restart env (fuel : nat) : Client :=
  with_service env "tetron service is not installed. Run: sudo tetron install" (restart_service_and_wait fuel).

Definition cmd_stop env : Client :=
  with_service env "tetron service is not installed. Nothing to stop."
    (run_cmd "systemctl" ["stop"; "tetron"] (Finish (says ["tetron service stopped."]))).

Definition cmd_start env (fuel : nat) : Client :=
  with_service env "tetron service is not installed. Run: sudo tetron install"
    (run_cmd "systemctl" ["start"; "tetron"]
       (wait_for_daemon fuel DAEMON_REACHABLE_TIMEOUT (fun up =>
          if up then Finish (says ["tetron service started."])
          else never_reachable "tetron service was started but the daemon never became reachable."))).

Definition kept_data_notice (c l : string) : string :=
  "Kept: the node identity and settings in " +:+ c +:+ " and the logs in " +:+ l
  +:+ " (removing tetron never deletes them; without the identity this node drops out of its networks). To delete them: sudo rm -rf "
  +:+ c +:+ " " +:+ l +:+ " && sudo groupdel tetron".

Definition print_kept_data_notice env (service_env : option string) : list string :=
  let '(config, log) := match service_env with Some v => service_env_dirs v | None => (None, None) end in
  match match config with Some c => Some c | None => e_config_dir env end with
  | None => []
  | Some c => [kept_data_notice c (default (e_log_dir env) log)]
  end.

Definition cmd_uninstall_service env : Client :=
  Teardown (
    let vendor := vendor_unit_path env in
    let plan := plan_uninstall (e_exists env "/etc/systemd/system/tetron.service") (bool_decide (is_Some vendor))
                  (v ← vendor; e_package_owner env v) in
    if negb (up_installed plan) then Finish (says ["Service not installed."])
    else
      require_systemd env
        (Capture ["systemctl"; "show"; "-p"; "Environment"; "--value"; "tetron"] (fun service_env =>
           let notices := (match up_hint plan with Some h => [h] | None => [] end ++ print_kept_data_notice env service_env)%list in
           run_cmd "systemctl" ["disable"; "--now"; "tetron"]
             (if up_remove_etc_unit plan then
                RemoveUnit (fun removed =>
                  if removed then
                    run_cmd "systemctl" ["daemon-reload"] (Say (Text "Removed systemd service.") (Finish (says notices)))
                  else Finish (fails UnitNotDeleted))
              else Finish (says notices))))).

(** ** The program *)
Definition main env (fuel : nat) (completions : list string) (c : Command) : Client :=
  match c with
  | Cmd.Leave network force => ipc_leave network force
  | Cmd.Create network_name hostname subnet nuke_consensus tor veilid force =>
      ipc_create env Restricted network_name hostname subnet nuke_consensus tor veilid force
  | Cmd.Join invite_code invite_file alias hostname tor veilid force =>
      let '(prompt, r) := resolve_invite env invite_code invite_file in
      foldr Warn (match r with
                  | Ok code => ipc_join code alias hostname tor veilid force
                  | Err e => Finish (fails e)
                  end) prompt
  | Cmd.Nuke network_key force cancel second => ipc_nuke network_key force cancel second
  | Cmd.Kick network_key endpoint_id => ipc_kick network_key endpoint_id
  | Cmd.Status => ipc_status env
  | Cmd.Daemon => check_root env (Finish (mkRan [] [] RunsDaemon))
  | Cmd.Resume hostname network => cmd_resume hostname network
  | Cmd.Standby network => ipc_standby network
  | Cmd.Sync network => ipc_sync network
  | Cmd.Stop => cmd_stop env
  | Cmd.Start => cmd_start env fuel
  | Cmd.Uninstall => cmd_uninstall_service env
  | Cmd.Install config_dir log_dir socket_path => cmd_install env fuel config_dir log_dir socket_path
  | Cmd.Restart => cmd_restart env fuel
  | Cmd.Completions => Finish (says completions)
  | Cmd.Invite network action => ipc_invite env network action
  | Cmd.Admin network action => ipc_admin env network action
  | Cmd.Config action => cmd_config env action
  | Cmd.SetOperator user => cmd_set_operator env user
  | Cmd.Version => Finish (says ["tetron " +:+ FULL_VERSION env])
  end.
End Cli.

(** ** Running a client *)
Section Run.
Context `{IrohKeys, Blake3, Bs58, UrlScheme} {PathStats ConnStats : Type}.
Implicit Types c : Client (PathStats := PathStats) (ConnStats := ConnStats).

(** The outside of a command: the daemon's socket, the clock and the host. *)
Class World (W : Type) := {
  w_connect : W -> W * bool;
  w_send : W -> Msg (PathStats := PathStats) (ConnStats := ConnStats) -> W * bool;
  w_recv : W -> W * option (Msg (PathStats := PathStats) (ConnStats := ConnStats));
  w_clock : W -> Z;
  w_sleep : W -> Z -> W;
  w_spawn : W -> list string -> W * CmdOutcome;
  w_capture : W -> list string -> W * option string;
  w_install : W -> PathOverrides -> W * option IoFailed;
  w_remove_unit : W -> W * bool;
  w_teardown : W -> W;
  w_set_socket : W -> string -> W;
}.

(** What a process did: what it printed, the requests it sent and how it ended. *)
Record Trace := mkTrace {
  tr_out : list (Line (PathStats := PathStats) (ConnStats := ConnStats));
  tr_err : list (Line (PathStats := PathStats) (ConnStats := ConnStats));
  tr_sent : list (Msg (PathStats := PathStats) (ConnStats := ConnStats));
  tr_end : Ending;
}.

(** [None] while the daemon runs. *)
Definition exit_code (t : Trace) : option Z :=
  match tr_end t with
  | Returned => Some 0
  | Exited | Failed _ => Some 1
  | Panicked => Some 101
  | RunsDaemon | OutOfFuel => None
  end.

Definition also_out l (t : Trace) : Trace := mkTrace (l :: tr_out t) (tr_err t) (tr_sent t) (tr_end t).
Definition also_err l (t : Trace) : Trace := mkTrace (tr_out t) (l :: tr_err t) (tr_sent t) (tr_end t).
Definition also_sent m (t : Trace) : Trace := mkTrace (tr_out t) (tr_err t) (m :: tr_sent t) (tr_end t).

Fixpoint run {W} {HW : World W} c (w : W) : W * Trace :=
  match c with
  | Finish r => (w, mkTrace (ran_out r) (ran_err r) [] (ran_end r))
  | Say l k => let '(w, t) := run k w in (w, also_out l t)
  | Warn l k => let '(w, t) := run k w in (w, also_err l t)
  | Connect k => let '(w, up) := w_connect w in run (k up) w
  | Send req k => let '(w, sent) := w_send w req in let '(w, t) := run (k sent) w in (w, also_sent req t)
  | Recv k => let '(w, a) := w_recv w in run (k a) w
  | Clock k => run (k (w_clock w)) w
  | Sleep ms k => run k (w_sleep w ms)
  | Spawn cmd k => let '(w, o) := w_spawn w cmd in run (k o) w
  | Capture cmd k => let '(w, o) := w_capture w cmd in run (k o) w
  | InstallUnit o k => let '(w, r) := w_install w o in run (k r) w
  | RemoveUnit k => let '(w, r) := w_remove_unit w in run (k r) w
  | Teardown k => run k (w_teardown w)
  | SetSocket p k => run k (w_set_socket w p)
  end.

(** A monotonic clock, a sleep that lasts at least as long as asked for. *)
Class WorldLaws (W : Type) `{World W} := {
  clock_connect : forall w, w_clock w <= w_clock (w_connect w).1;
  clock_sleep : forall w ms, 0 <= ms -> w_clock w + ms <= w_clock (w_sleep w ms);
}.

(** ** Every command ends *)
Section Ends.
Context {W} `{WorldLaws W}.

Definition ends c : Prop := forall w : W, tr_end (run c w).2 <> OutOfFuel.

Lemma ends_finish r : ran_end r <> OutOfFuel -> ends (Finish r).
Proof. intros Hr w. exact Hr. Qed.
Lemma ends_say l k : ends k -> ends (Say l k).
Proof. intros Hk w. specialize (Hk w). cbn [run]. by destruct (run k w). Qed.
Lemma ends_warn l k : ends k -> ends (Warn l k).
Proof. intros Hk w. specialize (Hk w). cbn [run]. by destruct (run k w). Qed.
Lemma ends_connect k : (forall up, ends (k up)) -> ends (Connect k).
Proof. intros Hk w. cbn [run]. destruct (w_connect w). apply Hk. Qed.
Lemma ends_send req k : (forall up, ends (k up)) -> ends (Send req k).
Proof.
  intros Hk w. cbn [run]. destruct (w_send w req) as [w' sent]. specialize (Hk sent w'). by destruct (run (k sent) w').
Qed.
Lemma ends_recv k : (forall a, ends (k a)) -> ends (Recv k).
Proof. intros Hk w. cbn [run]. destruct (w_recv w). apply Hk. Qed.
Lemma ends_spawn cmd k : (forall o, ends (k o)) -> ends (Spawn cmd k).
Proof. intros Hk w. cbn [run]. destruct (w_spawn w cmd). apply Hk. Qed.
Lemma ends_capture cmd k : (forall o, ends (k o)) -> ends (Capture cmd k).
Proof. intros Hk w. cbn [run]. destruct (w_capture w cmd). apply Hk. Qed.
Lemma ends_install o k : (forall r, ends (k r)) -> ends (InstallUnit o k).
Proof. intros Hk w. cbn [run]. destruct (w_install w o). apply Hk. Qed.
Lemma ends_remove k : (forall r, ends (k r)) -> ends (RemoveUnit k).
Proof. intros Hk w. cbn [run]. destruct (w_remove_unit w). apply Hk. Qed.
Lemma ends_teardown k : ends k -> ends (Teardown k).
Proof. intros Hk w. apply Hk. Qed.
Lemma ends_set_socket p k : ends k -> ends (SetSocket p k).
Proof. intros Hk w. apply Hk. Qed.

(** The number of polls that fit before the deadline, and one more. *)
Definition enough_polls (fuel : nat) (wait : Z) : Prop := wait <= 250 * (Z.of_nat fuel - 1).

Lemma poll_reaches (fuel : nat) (deadline : Z) k (w : W) :
  (0 < fuel)%nat -> enough_polls fuel (deadline - w_clock w) ->
  exists up w0, run (poll_daemon fuel deadline k) w = run (k up) (w_connect w0).1 /\ (w_connect w0).2 = up
    /\ (up = false -> deadline <= w_clock (w_connect w0).1).
Proof.
  unfold enough_polls. revert w. induction fuel as [|fuel IH]; intros w Hpos Hfuel; [lia|].
  cbn [poll_daemon run]. pose proof (clock_connect w) as Hmono.
  destruct (w_connect w) as [w1 [|]] eqn:E; cbn [fst] in Hmono.
  { exists true, w. by rewrite E. }
  cbn [run]. destruct (Z.leb_spec deadline (w_clock w1)) as [Hle|Hlt].
  { exists false, w. rewrite E. by split_and!. }
  cbn [run]. pose proof (clock_sleep w1 250 ltac:(lia)) as Hsleep. apply IH; lia.
Qed.

Lemma ends_wait (fuel : nat) (timeout : Z) k :
  (0 < fuel)%nat -> enough_polls fuel timeout -> (forall up, ends (k up)) -> ends (wait_for_daemon fuel timeout k).
Proof.
  intros Hpos Hfuel Hk w. unfold wait_for_daemon. cbn [run].
  destruct (poll_reaches fuel (w_clock w + timeout) k w Hpos) as (up & w0 & -> & _); [unfold enough_polls in *; lia|]. apply Hk.
Qed.

Lemma enough_for_timeout (fuel : nat) : (121 <= fuel)%nat -> (0 < fuel)%nat /\ enough_polls fuel DAEMON_REACHABLE_TIMEOUT.
Proof. unfold enough_polls, DAEMON_REACHABLE_TIMEOUT. lia. Qed.
End Ends.

Ltac client_ends :=
  repeat first
    [ apply ends_say | apply ends_warn | apply ends_connect; intros ? | apply ends_send; intros ? | apply ends_recv; intros ?
    | apply ends_spawn; intros ? | apply ends_capture; intros ? | apply ends_install; intros ? | apply ends_remove; intros ?
    | apply ends_teardown | apply ends_set_socket | apply ends_finish; done
    | match goal with |- ends (match ?x with _ => _ end) => destruct x end ].

Section Ending.
Context {W} `{WorldLaws W} (format_bytes : Z -> string).

Lemma ends_run_cmd p args k : ends (W := W) k -> ends (W := W) (run_cmd p args k).
Proof. intros Hk. unfold run_cmd. client_ends; exact Hk. Qed.

Ltac client_ends ::=
  repeat first
    [ apply ends_run_cmd | apply ends_say | apply ends_warn | apply ends_connect; intros ? | apply ends_send; intros ?
    | apply ends_recv; intros ? | apply ends_spawn; intros ? | apply ends_capture; intros ? | apply ends_install; intros ?
    | apply ends_remove; intros ? | apply ends_teardown | apply ends_set_socket | apply ends_finish; done
    | match goal with |- ends (match ?x with _ => _ end) => destruct x end ].

Lemma ends_never_reachable l : ends (W := W) (never_reachable l).
Proof. unfold never_reachable, print_daemon_log_tail. apply ends_warn, ends_warn, ends_run_cmd. client_ends. Qed.

Lemma ends_reply req reply : (forall m, ran_end (reply m) <> OutOfFuel) -> ends (W := W) (asks req reply).
Proof. intros Hr. unfold asks, connect, send, recv. client_ends. Qed.

Lemma ends_grant env k : ends (W := W) k -> ends (W := W) (grant_operator_to_invoking_user env k).
Proof. intros Hk. unfold grant_operator_to_invoking_user. client_ends; exact Hk. Qed.

Ltac reply_ends :=
  intros m; destruct m; cbn [created_reply joined_reply ok_or_error admin_reply invite_reply otherwise]; repeat case_match; done.

Lemma ends_ok_or_error req : ends (W := W) (asks req ok_or_error).
Proof. apply ends_reply. reply_ends. Qed.

Lemma ends_join code alias hostname tor veilid force : ends (W := W) (ipc_join code alias hostname tor veilid force).
Proof.
  assert (forall m, ran_end (joined_reply (PathStats := PathStats) (ConnStats := ConnStats) m) <> OutOfFuel) as Hr by reply_ends.
  unfold ipc_join, connect, send, recv. client_ends.
Qed.

Lemma ends_prompt prompt k : ends (W := W) k -> ends (W := W) (foldr Warn k prompt).
Proof. intros Hk. induction prompt; [done|]. by apply ends_warn. Qed.

Lemma ends_status env : ends (W := W) (ipc_status format_bytes env).
Proof.
  assert (forall m, ran_end (status_reply (PathStats := PathStats) (ConnStats := ConnStats) format_bytes env m) <> OutOfFuel) as Hr.
  { intros m. unfold status_reply. destruct m as [| | | | | | | | | | | | | | | | | | |[v s]| | | | | |]; cbn; repeat case_match; done. }
  assert (ran_end (status_offline (PathStats := PathStats) (ConnStats := ConnStats) env) <> OutOfFuel) as Ho
    by (unfold status_offline; repeat case_match; done).
  unfold ipc_status, send, recv. client_ends.
Qed.

Lemma ends_config env action : ends (W := W) (cmd_config env action).
Proof.
  unfold cmd_config, change_setting, announce_log_level_change, announce_path_preference_change,
    try_live_reload_log_level, try_live_reload_path_preference, try_live_reload.
  destruct (default (Cmd.ConfigGet None) action); client_ends; apply ends_finish; repeat case_match; done.
Qed.

Lemma ends_restart fuel : (121 <= fuel)%nat -> ends (W := W) (restart_service_and_wait fuel).
Proof.
  intros [Hpos Hf]%enough_for_timeout. unfold restart_service_and_wait. apply ends_run_cmd, ends_wait; [done|done|].
  intros [|]; [client_ends|apply ends_never_reachable].
Qed.

Lemma ends_install_and_start env fuel hostname o :
  (121 <= fuel)%nat -> ends (W := W) (install_and_start_service env fuel hostname o).
Proof.
  intros [Hpos Hf]%enough_for_timeout. unfold install_and_start_service, ensure_tetron_group, send, recv.
  assert (forall k, ends (W := W) k -> ends (W := W) (ensure_tetron_group k)) as Hg
    by (intros k Hk; unfold ensure_tetron_group; client_ends; exact Hk).
  apply Hg, ends_install. intros [e|]; [client_ends|]. apply ends_say, ends_run_cmd, ends_run_cmd.
  assert (forall k, ends (W := W) k -> ends (W := W) match po_socket_path o with Some p => SetSocket p k | None => k end) as Hs
    by (intros k Hk; client_ends; exact Hk).
  apply Hs, ends_warn, ends_wait; [done|done|]. intros [|]; [|apply ends_never_reachable].
  client_ends; apply ends_grant; client_ends.
Qed.

Lemma ends_start env fuel : (121 <= fuel)%nat -> ends (W := W) (cmd_start env fuel).
Proof.
  intros [Hpos Hf]%enough_for_timeout. unfold cmd_start, with_service, require_root, require_systemd. client_ends.
  apply ends_wait; [done|done|]. intros [|]; [client_ends|apply ends_never_reachable].
Qed.

Lemma ends_uninstall env : ends (W := W) (cmd_uninstall_service env).
Proof.
  unfold cmd_uninstall_service, require_systemd. client_ends.
Qed.

Lemma ends_main env fuel completions (cmd : Command) : (121 <= fuel)%nat -> ends (W := W) (main format_bytes env fuel completions cmd).
Proof.
  intros Hf. destruct cmd; cbn [main]; try apply ends_ok_or_error; try (client_ends; done).
  - unfold ipc_create. case_match; [apply ends_reply; reply_ends|client_ends].
  - destruct (resolve_invite env invite_code invite_file) as [prompt [code|e]]; apply ends_prompt; [apply ends_join|client_ends].
  - apply ends_status.
  - unfold check_root. client_ends.
  - unfold cmd_resume, send, recv.
    assert (forall m, ran_end (ok_or_error (PathStats := PathStats) (ConnStats := ConnStats) m) <> OutOfFuel) as Hr by reply_ends.
    client_ends.
  - unfold cmd_stop, with_service, require_root, require_systemd. client_ends.
  - by apply ends_start.
  - apply ends_uninstall.
  - unfold cmd_install, require_root, require_systemd. do 2 (case_match; [|client_ends]).
    by apply ends_say, ends_install_and_start.
  - unfold cmd_restart, with_service, require_root, require_systemd. do 3 (case_match; [|client_ends]). by apply ends_restart.
  - apply ends_reply. reply_ends.
  - apply ends_reply. reply_ends.
  - apply ends_config.
  - unfold cmd_set_operator. case_match; [apply ends_ok_or_error|client_ends].
Qed.

Lemma wait_reaches fuel k (w : W) :
  (121 <= fuel)%nat ->
  exists up w0, run (wait_for_daemon fuel DAEMON_REACHABLE_TIMEOUT k) w = run (k up) (w_connect w0).1
    /\ (w_connect w0).2 = up /\ (up = false -> w_clock w + DAEMON_REACHABLE_TIMEOUT <= w_clock (w_connect w0).1).
Proof.
  intros [Hpos Hf]%enough_for_timeout. unfold wait_for_daemon. cbn [run]. apply poll_reaches; [done|].
  by replace (_ - _) with DAEMON_REACHABLE_TIMEOUT by lia.
Qed.

Lemma run_spawned p args k (w : W) :
  exists warned, (run (run_cmd p args k) w).1 = (run k (w_spawn w (p :: args)).1).1
    /\ (run (run_cmd p args k) w).2 = foldr also_err (run k (w_spawn w (p :: args)).1).2 warned.
Proof.
  unfold run_cmd. cbn [run]. destruct (w_spawn w (p :: args)) as [w1 [|s|s]]; cbn [run fst].
  - by exists [].
  - eexists [_]. by destruct (run k w1).
  - eexists [_]. by destruct (run k w1).
Qed.

Lemma warned_out ls t : tr_out (foldr also_err t ls) = tr_out t.
Proof. by induction ls. Qed.
Lemma warned_exit ls t : exit_code (foldr also_err t ls) = exit_code t.
Proof. unfold exit_code. by induction ls. Qed.

Lemma never_reachable_exit l (w : W) : tr_out (run (never_reachable l) w).2 = [] /\ exit_code (run (never_reachable l) w).2 = Some 1.
Proof.
  unfold never_reachable, print_daemon_log_tail. cbn [run].
  destruct (run_spawned "journalctl" ["-u"; "tetron"; "-n"; "15"; "--no-pager"] (Finish (mkRan [] [] Exited)) w) as (ws & _ & Ht).
  destruct (run (run_cmd "journalctl" _ _) w) as [w' t]. cbn [snd] in *. subst t.
  pose proof (warned_out (Text l :: Text (unlined [""; "Recent daemon log (journalctl -u tetron):"]) :: ws)) as Ho.
  pose proof (warned_exit (Text l :: Text (unlined [""; "Recent daemon log (journalctl -u tetron):"]) :: ws)) as He.
  cbn [foldr] in Ho, He. by rewrite Ho, He.
Qed.

End Ending.
End Run.

(** ** A concrete run *)
Import Demo DemoCodecs DemoUrl.

(** A host where every command succeeds, the clock is in milliseconds, and the daemon accepts
    connections from the seventh second on. *)
Definition sample_ready : Z := 7000.
#[local] Instance sample_world : World (PathStats := unit) (ConnStats := unit) Z := {
  w_connect w := (w, sample_ready <=? w);
  w_send w _ := (w, true);
  w_recv w := (w, None);
  w_clock w := w;
  w_sleep w ms := w + ms;
  w_spawn w _ := (w, Success);
  w_capture w _ := (w, None);
  w_install w _ := (w, None);
  w_remove_unit w := (w, true);
  w_teardown w := w;
  w_set_socket w _ := w;
}.
#[local] Instance sample_world_laws : WorldLaws (PathStats := unit) (ConnStats := unit) Z.
Proof. split; cbn; lia. Qed.

Definition sample_env : Env :=
  mkEnv false 1000 "1.2.3" "abc12345" true (fun _ => true) (fun _ => None) None (fun _ => None) (inl None) (fun _ => None)
    None "/var/log/tetron" false (Err ParseSettings) (fun _ => true) (Err ParseSettings).

