(* ===== verification/Client.v ===== *)
(** * A command and its daemon (src/src/main.rs, src/src/cli/ with src/src/daemon/mod.rs)

    A command of [tetron] that talks to the daemon is one exchange: [request_of] is the request
    it sends and [reply_of] what it makes of the answer.  Here the other end of the socket is the daemon
    of [Daemon]: the request passes the gate for the caller's credentials, is dispatched,
    and the answer is what the command prints. *)

From S2P Require Import Prelude Externs Addressing Names Codecs Invite Dht Members Control Blob Peers Forward Ratelimit.
From S2P Require Import Select Network Ipc Settings Storage Admission Coordinator Joining Manager Lifecycle Daemon Status Service Show Cli.

Section Client.
Context `{IrohKeys, Blake3, GroupBlobCodec, Bs58, RecordText, Pkarr, UrlScheme} {PathStats ConnStats : Type}.
Context (format_bytes : Z -> string) (env : Env) (fuel : nat) (completions : list string).
Abbreviation CliMsg := (Msg (PathStats := PathStats) (ConnStats := ConnStats)).
Abbreviation CliLine := (Line (PathStats := PathStats) (ConnStats := ConnStats)).
Abbreviation command := (main (PathStats := PathStats) (ConnStats := ConnStats) format_bytes env fuel completions).

Abbreviation resolved := (resolve_invite (PathStats := PathStats) (ConnStats := ConnStats) env).

(** ** One exchange *)
Definition create_ok (subnet : option string) (nuke_consensus : option Z) : bool :=
  match subnet with Some cidr => match parse_cidr cidr with Ok _ => true | Err _ => false end | None => true end
  && match nuke_consensus with Some n => 2 <=? n | None => true end.

Definition join_target (code : string) : option (string * option (list Z)) :=
  match decode_invite_code code with
  | Ok (key, secret) => Some (id_to_string key, Some secret)
  | Err _ => if is_bare_room_id code then Some (code, None) else None
  end.

(** The request a command sends, if it is one that asks the daemon and its arguments are good. *)
Definition request_of (cmd : Command) : option CliMsg :=
  match cmd with
  | Cmd.Create network_name hostname subnet nuke_consensus tor veilid force =>
      if create_ok subnet nuke_consensus
      then Some (Create Restricted network_name hostname (transport_of tor veilid) subnet nuke_consensus force) else None
  | Cmd.Join invite_code invite_file alias hostname tor veilid force =>
      match (resolved invite_code invite_file).2 with
      | Ok code =>
          '(key, invite) ← join_target code; Some (Join key alias hostname (transport_of tor veilid) invite force)
      | Err _ => None
      end
  | Cmd.Leave network force => Some (Leave network force)
  | Cmd.Nuke network_key force cancel second => Some (Nuke network_key force cancel second)
  | Cmd.Kick network_key endpoint_id => Some (Kick network_key endpoint_id)
  | Cmd.Status => Some Status
  | Cmd.Resume hostname network => Some (Resume hostname network)
  | Cmd.Standby network => Some (Standby network)
  | Cmd.Sync network => Some (Sync network)
  | Cmd.Invite network action => Some (invite_request network action)
  | Cmd.Admin network action => Some (admin_request network action)
  | Cmd.SetOperator user => SetOperator <$> uid_for_user env user
  | _ => None
  end.

Definition reply_of (cmd : Command) : CliMsg -> Ran :=
  match cmd with
  | Cmd.Create _ _ _ _ _ _ _ => created_reply env
  | Cmd.Join _ _ _ _ _ _ _ => joined_reply
  | Cmd.Status => status_reply format_bytes env
  | Cmd.Invite _ _ => invite_reply env
  | Cmd.Admin _ _ => admin_reply env
  | _ => ok_or_error
  end.

(** What is on standard error before the answer. *)
Definition before_reply (cmd : Command) : list CliLine :=
  match cmd with
  | Cmd.Join invite_code invite_file _ _ _ _ _ => (resolved invite_code invite_file).1 ++ [Text "joining…"]
  | _ => []
  end%list.

Lemma run_prompt {W} {HW : World (PathStats := PathStats) (ConnStats := ConnStats) W} prompt k (w : W) :
  run (foldr Warn k prompt) w
  = ((run k w).1, mkTrace (tr_out (run k w).2) (prompt ++ tr_err (run k w).2)%list (tr_sent (run k w).2) (tr_end (run k w).2)).
Proof.
  induction prompt as [|l prompt IH]; cbn [foldr app run]; [by destruct (run k w) as [w' []]|]. by rewrite IH.
Qed.

Lemma main_is_one_exchange {W} {HW : World (PathStats := PathStats) (ConnStats := ConnStats) W} cmd req m (w w1 w2 w3 : W) :
  request_of cmd = Some req -> w_connect w = (w1, true) -> w_send w1 req = (w2, true) -> w_recv w2 = (w3, Some m) ->
  run (command cmd) w
  = (w3, mkTrace (ran_out (reply_of cmd m)) (before_reply cmd ++ ran_err (reply_of cmd m))%list [req] (ran_end (reply_of cmd m))).
Proof.
  intros Hreq Hc Hs Hr.
  destruct cmd; cbn [request_of] in Hreq; try discriminate Hreq; cbn [main reply_of before_reply app];
    try (injection Hreq as <-; unfold ipc_leave, ipc_nuke, ipc_kick, ipc_standby, ipc_sync, ipc_invite, ipc_admin, ipc_status,
           cmd_resume, asks, connect, send, recv; cbn [run]; rewrite Hc; cbn [run]; rewrite Hs; cbn [run]; rewrite Hr; done).
  - destruct (create_ok subnet nuke_consensus) eqn:Hok; [|done]. injection Hreq as <-. unfold ipc_create.
    unfold create_ok in Hok. apply andb_true_iff in Hok as [Hok1 Hok2].
    assert ((match subnet with
             | Some cidr => match parse_cidr cidr with Ok _ => Ok tt | Err e => Err (BadCidr e) end
             | None => Ok tt
             end) = Ok tt) as ->.
    { destruct subnet as [c|]; [|done]. by destruct (parse_cidr c). }
    cbn [rbind]. destruct nuke_consensus as [n|]; [rewrite Hok2|];
      unfold asks, connect, send, recv; cbn [run]; rewrite Hc; cbn [run]; rewrite Hs; cbn [run]; by rewrite Hr.
  - destruct (resolved invite_code invite_file) as [prompt r]. cbn [fst snd] in *. rewrite run_prompt.
    destruct r as [code|]; [|done]. unfold ipc_join, join_target in *.
    destruct (decode_invite_code code) as [[key secret]|e]; [|destruct (is_bare_room_id code); [|done]];
      injection Hreq as <-; cbn [negb]; unfold connect, send, recv; cbn [run]; rewrite Hc; cbn [run]; rewrite Hs; cbn [run];
      rewrite Hr; cbn [run also_err also_sent fst snd tr_out tr_err tr_sent tr_end]; by rewrite <- app_assoc.
  - unfold cmd_set_operator. destruct (uid_for_user env user) as [uid|]; [|done]. injection Hreq as <-.
    unfold asks, connect, send, recv; cbn [run]; rewrite Hc; cbn [run]; rewrite Hs; cbn [run]; by rewrite Hr.
Qed.

Lemma refusal_exits cmd message :
  exists title, reply_of cmd (IpcError message) = print_error title message.
Proof. destruct cmd; eexists; reflexivity. Qed.

(** ** The daemon at the other end *)
Context `{NetworkStore Disk} {Conn : Type}.
Context (network_statuses : MeshManager Disk Conn -> Report (PathStats := PathStats) (ConnStats := ConnStats)).
Abbreviation CliDaemon := (Daemon (Disk := Disk) (Conn := Conn) (Networks := Report (PathStats := PathStats) (ConnStats := ConnStats))).
Abbreviation CliReply := (Reply (Report (PathStats := PathStats) (ConnStats := ConnStats))).

(** The answers as messages; [wording] is the text of the others. *)
Definition message_of (wording : CliReply -> CliMsg) (r : CliReply) : CliMsg :=
  match r with
  | Denied message => IpcError message
  | StatusIs report => StatusResponse report
  | AdminsAre admins => AdminListResponse admins
  | InviteIs i => InviteCreated (ni_invite_key i) (ni_invite_id i) (ni_expires_at i)
  | InvitesAre l => InviteListResponse l
  | r => wording r
  end.

(** The connection's end at the daemon: its answer if there is one, and the settings that
    requests have written. *)
Record Link := mkLink { l_daemon : CliDaemon; l_answer : option CliMsg; l_written : list AppConfig }.

Context (wording : CliReply -> CliMsg) (cred : option (Z * Z)) (rq : RequestWorld (Disk := Disk) (Conn := Conn)).

(** The caller's credentials are [cred]; the host does nothing. *)
#[local] Instance daemon_world : World (PathStats := PathStats) (ConnStats := ConnStats) Link := {
  w_connect l := (l, true);
  w_send l req :=
    match handle_request network_statuses (l_daemon l) req cred rq with
    | Some (d, c, r) => (mkLink d (Some (message_of wording r)) (option_list c ++ l_written l), true)
    | None => (mkLink (l_daemon l) None (l_written l), true)
    end;
  w_recv l := (l, l_answer l);
  w_clock _ := 0;
  w_sleep l _ := l;
  w_spawn l _ := (l, NotRun "");
  w_capture l _ := (l, None);
  w_install l _ := (l, None);
  w_remove_unit l := (l, false);
  w_teardown l := l;
  w_set_socket l _ := l;
}.

(** ** Callers without rights *)
Definition stays (l l' : Link) : Prop := same_daemon (l_daemon l) (l_daemon l') /\ l_written l' = l_written l.

Lemma unprivileged_stays c (l : Link) :
  is_privileged_uid (fst <$> cred) (operator_of (rq_loaded rq)) = false -> stays l (run c l).1.
Proof.
  intros Hp. revert l.
  induction c as [r|x k IH|x k IH|k IH|req k IH|k IH|k IH|ms k IH|x k IH|x k IH|o k IH|k IH|k IH|p k IH]; intros l;
    cbn [run w_connect w_recv w_clock w_sleep w_spawn w_capture w_install w_remove_unit w_teardown w_set_socket daemon_world];
    try apply IH; try (destruct (run k l) as [l' t] eqn:E; specialize (IH l); rewrite E in IH; exact IH).
  - by split.
  - cbn [w_send daemon_world].
    destruct (unprivileged_request_harmless network_statuses (l_daemon l) req cred rq Hp) as (d' & r & -> & Hd).
    specialize (IH true (mkLink d' (Some (message_of wording r)) (l_written l))). cbn [option_list app].
    destruct (run (k true) _) as [l' t]. destruct IH as [IH1 IH2]. split; [by etrans|done].
Qed.

Lemma gate_refuses (req : CliMsg) (cache : option (StatusSnapshot (Networks := Report (PathStats := PathStats) (ConnStats := ConnStats)))) operator :
  is_privileged_uid (fst <$> cred) operator = false -> read_only req = false ->
  exists message, handle_request_gate req cred operator cache = Err (IpcError message)
    /\ infer_hint message = Some "run with sudo, or `sudo tetron set-operator <you>` once" /\ is_empty message = false.
Proof.
  intros [Hroot Hop]%orb_false_iff Hw. unfold handle_request_gate. rewrite check_authorized_cases, Hw, Hroot. cbn [orb].
  destruct (sets_operator req); [|rewrite Hop]; (eexists; split_and!; [reflexivity|vm_compute; reflexivity|reflexivity]).
Qed.

End Client.

(** ** An invite from one machine to another *)

(** The ways to give an invite to [join]: as its argument, on standard input from a terminal or a pipe, or
    in a file. *)
Definition given (env : Env) (code text : string) (arg file : option string) : Prop :=
  (arg = Some code /\ file = None)
  \/ (arg = Some "-" /\ file = None /\ (e_stdin env = inl (Some text) \/ e_stdin env = inr (mkReader (as_bytes text) false)))
  \/ (exists path, file = Some path /\ e_file env path = Some (mkReader (as_bytes text) false)).

Section Invited.
Context `{IrohKeys, !IrohKeysLaws, Blake3, !Blake3Laws, Bs58, !Bs58Laws, GroupBlobCodec, RecordText, Pkarr, UrlScheme, NetworkStore Disk}
  {PathStats ConnStats Conn : Type}.

Lemma code_is_no_dash net secret : bytes_ok secret -> String.eqb (encode_invite_code net secret) "-" = false.
Proof.
  intros Hok. apply String.eqb_neq. intros E. pose proof (encode_chars net secret Hok) as Hc. by rewrite E in Hc.
Qed.

Lemma given_resolves env net secret pre post arg file :
  length secret = SECRET_LEN -> bytes_ok secret ->
  all_chars ascii_blank pre = true -> all_chars ascii_blank post = true ->
  (String.length (pre +:+ encode_invite_code net secret +:+ post) <= INVITE_CODE_MAX_CHARS + 64)%nat ->
  given env (encode_invite_code net secret) (pre +:+ encode_invite_code net secret +:+ post) arg file ->
  (resolve_invite (PathStats := PathStats) (ConnStats := ConnStats) env arg file).2 = Ok (encode_invite_code net secret).
Proof.
  intros Hs Hok Hpre Hpost Hlen Hg.
  destruct (invite_code_read_back net secret pre post Hs Hok Hpre Hpost Hlen) as (Hread & _ & _).
  destruct Hg as [[-> ->]|[(-> & -> & [Hin|Hin])|(path & -> & Hf)]]; unfold resolve_invite.
  - by rewrite code_is_no_dash.
  - cbn [String.eqb Ascii.eqb Bool.eqb]. unfold read_invite_stdin, read_invite_from. by rewrite Hin, Hread.
  - cbn [String.eqb Ascii.eqb Bool.eqb]. unfold read_invite_stdin, read_invite_from. by rewrite Hin, Hread.
  - unfold read_invite_from. by rewrite Hf, Hread.
Qed.

Lemma invite_create_made (m m1 : MeshManager Disk Conn) network expires loaded secret now stored inv :
  invite_create m network expires loaded secret now stored = (m1, Ok inv) ->
  exists name h h1 ttl,
    resolve_network_name_or_key m network = Ok name /\ invite_ttl loaded expires = Ok ttl
    /\ mm_networks m !! name = Some h /\ mm_networks m1 !! name = Some h1
    /\ ni_invite_key inv = encode_invite_code (h_network_key h) secret
    /\ forall t, ttl = 0 \/ t < saturating_add 64 now ttl -> is_Some (validate_invite (invites (h_state h1)) secret t).
Proof.
  unfold invite_create, coordinator_handle.
  destruct (resolve_network_name_or_key m network) as [name|]; [|done].
  destruct (mm_networks m !! name) as [h|] eqn:Hh; [|done]. destruct (role_is_coordinator (h_role h)); [|done].
  destruct (invite_ttl loaded expires) as [ttl|]; [|done]. destruct stored; [|done].
  unfold invite_from_secret. set (e := mkInviteEntry _ _ _ _). set (s1 := set_invites _ _).
  rewrite store_state_bumped. intros [= <- <-]. eexists name, h, _, ttl.
  cbn [mm_networks with_store put with_networks ni_invite_key].
  split_and!; [done..|apply lookup_insert_eq|done|]. intros t Ht. exists e. apply validate_invite_Some.
  split_and!; [apply lookup_insert_eq|done|]. cbn [ie_expires e]. destruct (Z.eqb_spec ttl 0); [by left|].
  right. right. by destruct Ht.
Qed.

(** C11: an invite gets from the machine that made it to the one that uses it.  When the daemon makes an
    invite for [tetron invite <network> create], the command prints the [tetron join] line with its code and
    exits with 0.  That code, typed as the argument, pasted at a terminal, piped in or put in a file, with blanks
    and blank lines around it within the limit, makes [tetron join] ask its own daemon, in one request, to
    join exactly this network with exactly the secret the inviting daemon drew; and until it expires that secret
    is a valid invite of the network's state there. *)
Theorem printed_invite_joins env fuel completions format_bytes
  (network_statuses : MeshManager Disk Conn -> Report (PathStats := PathStats) (ConnStats := ConnStats))
  wording cred rq (l : Link) network expires d' written inv :
  e_json env = false -> length (rq_secret rq) = SECRET_LEN -> bytes_ok (rq_secret rq) ->
  handle_request network_statuses (l_daemon l) (InviteCreate network expires) cred rq = Some (d', written, InviteIs inv) ->
  (let t := (run (W := Link) (HW := daemon_world network_statuses wording cred rq)
               (main format_bytes env fuel completions (Cmd.Invite network (Cmd.InviteCreate expires))) l).2 in
   exit_code t = Some 0 /\ Text ("  share: tetron join " +:+ ni_invite_key inv) ∈ tr_out t)
  /\ exists name h h1 ttl,
       mm_networks (dm_manager (l_daemon l)) !! name = Some h /\ mm_networks (dm_manager d') !! name = Some h1
       /\ invite_ttl (rq_loaded rq) expires = Ok ttl
       /\ (forall t, ttl = 0 \/ t < saturating_add 64 (rq_now rq) ttl ->
             is_Some (validate_invite (invites (h_state h1)) (rq_secret rq) t))
       /\ forall (env' : Env) pre post arg file alias hostname tor veilid force,
            all_chars ascii_blank pre = true -> all_chars ascii_blank post = true ->
            (String.length (pre +:+ ni_invite_key inv +:+ post) <= INVITE_CODE_MAX_CHARS + 64)%nat ->
            given env' (ni_invite_key inv) (pre +:+ ni_invite_key inv +:+ post) arg file ->
            forall fb f cs (W : Type) (HW : World (PathStats := PathStats) (ConnStats := ConnStats) W) (w w1 w2 w3 : W) m,
              let req := Join (id_to_string (h_network_key h)) alias hostname (transport_of tor veilid) (Some (rq_secret rq)) force in
              w_connect w = (w1, true) -> w_send w1 req = (w2, true) -> w_recv w2 = (w3, Some m) ->
              tr_sent (run (main fb env' f cs (Cmd.Join arg file alias hostname tor veilid force)) w).2 = [req].
Proof.
  intros Hjson Hs Hok Hd.
  assert (exists m1, invite_create (dm_manager (l_daemon l)) network expires (rq_loaded rq) (rq_secret rq) (rq_now rq) (rq_stored rq)
            = (m1, Ok inv) /\ dm_manager d' = m1) as (m1 & Hm & Hd').
  { unfold handle_request in Hd. destruct (handle_request_gate _ _ _ _) as [cache|[]]; try done.
    cbn [dispatch dm_manager with_snapshot] in Hd. unfold managed in Hd.
    destruct (invite_create _ _ _ _ _ _ _) as [m1 [i|e]]; cbn in Hd; [|done]. injection Hd as <- <- <-. by exists m1. }
  apply invite_create_made in Hm as (name & h & h1 & ttl & Hname & Httl & Hh & Hh1 & Hkey & Hvalid). split.
  - erewrite (main_is_one_exchange (HW := daemon_world network_statuses wording cred rq) format_bytes env fuel completions
                (Cmd.Invite network (Cmd.InviteCreate expires)));
      [|reflexivity|reflexivity|cbn [w_send daemon_world invite_request]; rewrite Hd; reflexivity|reflexivity].
    cbn [reply_of message_of invite_reply]. rewrite Hjson. split; [done|]. apply list_elem_of_fmap_2. set_solver.
  - exists name, h, h1, ttl. rewrite Hd'. split_and!; [done..|].
    intros env' pre post arg file alias hostname tor veilid force Hpre Hpost Hlen Hg fb f cs W HW w w1 w2 w3 m req Hc Hw Hr.
    rewrite Hkey in *.
    rewrite (main_is_one_exchange fb env' f cs _ req m w w1 w2 w3); [done| |done..].
    cbn [request_of]. rewrite (given_resolves env' (h_network_key h) (rq_secret rq) pre post) by done.
    unfold join_target. by rewrite decode_encode_code.
Qed.
End Invited.

(** ** Concrete runs *)
Import Demo DemoCodecs DemoBlob DemoDht DemoStore DemoUrl.

Definition sample_report : Report (PathStats := unit) (ConnStats := unit) :=
  ("1.2.3", mkStatusReport (mkId 3) true [] (0, 0) (0, 0) (mkDropCounts 0 0 0 0 0 0) (0, 0)).
Definition sample_statuses (_ : MeshManager (gmap string NetworkConfig) Z) : Report (PathStats := unit) (ConnStats := unit) := sample_report.
Definition sample_wording (_ : Reply (Report (PathStats := unit) (ConnStats := unit))) : Msg (PathStats := unit) (ConnStats := unit) :=
  IpcOk "done".
Definition sample_link : Link (Disk := gmap string NetworkConfig) (Conn := Z) (PathStats := unit) (ConnStats := unit) :=
  mkLink (mkDaemon (sample_manager sample_two) None None false) None [].


(** The inviting machine is the coordinator of [home]; on the other one the daemon is up. *)
#[local] Instance joining_world : World (PathStats := unit) (ConnStats := unit) unit := {
  w_connect w := (w, true);
  w_send w _ := (w, true);
  w_recv w := (w, Some (IpcOk "joined"));
  w_clock _ := 0;
  w_sleep w _ := w;
  w_spawn w _ := (w, Success);
  w_capture w _ := (w, None);
  w_install w _ := (w, None);
  w_remove_unit w := (w, true);
  w_teardown w := w;
  w_set_socket w _ := w;
}.

Definition sample_invited : option (Handled (Disk := gmap string NetworkConfig) (Conn := Z) (Networks := Report (PathStats := unit) (ConnStats := unit))) :=
  handle_request sample_statuses (l_daemon sample_link) (InviteCreate "home" (Some "1h")) (Some (0, 0)) sample_request.

Lemma invite_is_made : exists d' written inv, sample_invited = Some (d', written, InviteIs inv).
Proof.
  assert (match sample_invited with Some (_, InviteIs _) => true | _ => false end = true) as Hm by (vm_compute; reflexivity).
  destruct sample_invited as [[[d' written] []]|]; try discriminate Hm. by do 3 eexists.
Qed.

Lemma printed_invite_joins_witness :
  exists inv key,
    Text ("  share: tetron join " +:+ ni_invite_key inv)
      ∈ tr_out (run (HW := daemon_world sample_statuses sample_wording (Some (0, 0)) sample_request)
                  (main (fun _ => "") sample_env 121 [] (Cmd.Invite "home" (Cmd.InviteCreate (Some "1h")))) sample_link).2
    /\ tr_sent (run (main (fun _ => "") sample_env 121 [] (Cmd.Join (Some (ni_invite_key inv)) None None None false false false)) tt).2
       = [Join key None None None (Some (rq_secret sample_request)) false].
Proof.
  destruct invite_is_made as (d' & written & inv & Hinv).
  destruct (printed_invite_joins sample_env 121 [] (fun _ => "") sample_statuses sample_wording (Some (0, 0)) sample_request
              sample_link "home" (Some "1h") d' written inv) as [[_ Hshare] (name & h & h1 & ttl & Hh & _ & _ & _ & Hjoin)].
  - reflexivity.
  - reflexivity.
  - by_decide.
  - exact Hinv.
  - exists inv, (id_to_string (h_network_key h)). split; [exact Hshare|].
    assert (String.length (ni_invite_key inv) <= INVITE_CODE_MAX_CHARS + 64)%nat as Hlen.
    { assert (match sample_invited with
              | Some (_, InviteIs i) => Nat.leb (String.length (ni_invite_key i)) (INVITE_CODE_MAX_CHARS + 64)
              | _ => false
              end = true) as E by (vm_compute; reflexivity).
      rewrite Hinv in E. by apply Nat.leb_le. }
    apply (Hjoin sample_env "" "" (Some (ni_invite_key inv)) None None None false false false eq_refl eq_refl) with
      (w1 := tt) (w2 := tt) (w3 := tt) (m := IpcOk "joined"); [|by left|reflexivity..].
    by rewrite sapp_nil_r.
Defined.
