(* ===== verification/Tunnel.v ===== *)
(** * The data planes (src/src/daemon/mod.rs, src/src/daemon/mesh/runtime.rs, src/src/tun.rs,
      src/src/forward.rs)

    Every network has a packet interface of its own and two tasks: the writer, which takes the packets
    of the network's peers from a channel to the interface, and the mesh loop, which reads the
    interface.  The network's handle keeps the tasks, the sending end of the channel
    and the flag that the writer reads.

    Dropping the handle of a task does not stop it: the running tasks are a store of
    their own, as are the flags, so that a task nobody keeps any more is visible.  The kernel's part
    is its links and IPv6 routes: a link exists as long as one of its halves is open, a new one is up
    ([Configuration::up]), [ip] and netlink fail on a link that does not exist and may
    fail otherwise.  The code is that of Linux. *)

From S2P Require Import Prelude Externs Addressing.

(** ** State *)

(** The tasks of one attachment; cancelling the token ends the mesh loop. *)
Record TunTasks := mkTunTasks { tt_writer : nat; tt_mesh : nat }.

(** A writer has the receiving end of a channel and its network's flag. *)
Inductive Task := Writer (device : string) (rx flag : nat) | Mesh (device : string).
#[export] Instance task_eq_dec : EqDecision Task.
Proof. solve_decision. Defined.
Definition task_device (t : Task) : string := match t with Writer d _ _ => d | Mesh d => d end.

(** What a [NetworkHandle] has of the data plane. *)
Record Plane := mkPlane {
  pl_network_key : EndpointId;
  pl_my_ip : Ipv4Addr;
  pl_subnet : Subnet;
  pl_tun_name : string;
  pl_tun_tx : nat;
  pl_tun_tasks : option TunTasks;
  pl_active : nat;
}.

Record NetLink := mkNetLink {
  lk_up : bool;
  lk_address : Ipv4Addr;
  lk_destination : Ipv4Addr;
  lk_netmask : Ipv4Addr;
  lk_mtu : Z;
  lk_ipv6 : option Ipv6Addr;
}.

Record Node := mkNode {
  nd_planes : gmap string Plane;
  (** The daemon's default for new networks. *)
  nd_active : bool;
  nd_flags : gmap nat bool;
  nd_running : gmap nat Task;
  nd_links : gmap string NetLink;
  nd_routes : gmap (Ipv6Addr * Z) string;
  (** The next channel, flag or task. *)
  nd_next : nat;
}.
Implicit Types (nd : Node) (h : Plane).

(** The kernel's answers to one network's requests: the name of a new link, and whether
    each request goes through. *)
Record Kernel := mkKernel {
  k_name : string;
  k_creates : bool;
  k_ipv6 : bool;
  k_sets : bool;
  k_routes : bool;
  k_deletes : bool;
}.

Definition with_planes nd p : Node :=
  mkNode p (nd_active nd) (nd_flags nd) (nd_running nd) (nd_links nd) (nd_routes nd) (nd_next nd).
Definition with_default nd a : Node :=
  mkNode (nd_planes nd) a (nd_flags nd) (nd_running nd) (nd_links nd) (nd_routes nd) (nd_next nd).
Definition with_flags nd f : Node :=
  mkNode (nd_planes nd) (nd_active nd) f (nd_running nd) (nd_links nd) (nd_routes nd) (nd_next nd).
Definition with_running nd r : Node :=
  mkNode (nd_planes nd) (nd_active nd) (nd_flags nd) r (nd_links nd) (nd_routes nd) (nd_next nd).
Definition with_links nd l : Node :=
  mkNode (nd_planes nd) (nd_active nd) (nd_flags nd) (nd_running nd) l (nd_routes nd) (nd_next nd).
Definition with_routes nd r : Node :=
  mkNode (nd_planes nd) (nd_active nd) (nd_flags nd) (nd_running nd) (nd_links nd) r (nd_next nd).
Definition with_next nd n : Node :=
  mkNode (nd_planes nd) (nd_active nd) (nd_flags nd) (nd_running nd) (nd_links nd) (nd_routes nd) n.

Definition put_plane nd (network : string) h : Node := with_planes nd (<[network := h]> (nd_planes nd)).
Definition flag nd (f : nat) : bool := default false (nd_flags nd !! f).

(** ** The kernel *)
Definition TUN_MTU : Z := 1280.

(** [tun::create]; without the IPv6 address the link still serves. *)
Definition create nd (v4 : Ipv4Addr) (v6 : Ipv6Addr) (subnet : Subnet) (k : Kernel) : option (Node * string) :=
  if k_creates k && bool_decide (nd_links nd !! k_name k = None) then
    let link := mkNetLink true v4 (subnet_gateway subnet) (subnet_netmask subnet.2) TUN_MTU
                  (if k_ipv6 k then Some v6 else None) in
    Some (with_links nd (<[k_name k := link]> (nd_links nd)), k_name k)
  else None.

Definition set_link_state nd (tun_name : string) (up : bool) (k : Kernel) : Node * bool :=
  match nd_links nd !! tun_name with
  | Some l =>
      if k_sets k then
        (with_links nd (<[tun_name := mkNetLink up (lk_address l) (lk_destination l) (lk_netmask l) (lk_mtu l) (lk_ipv6 l)]> (nd_links nd)), true)
      else (nd, false)
  | None => (nd, false)
  end.
Definition set_link_up nd (tun_name : string) (k : Kernel) : Node * bool := set_link_state nd tun_name true k.
Definition set_link_down nd (tun_name : string) (k : Kernel) : Node * bool := set_link_state nd tun_name false k.

Definition route_peer_range nd (tun_name : string) (network_prefix : Ipv6Addr) (prefix_len : Z) (k : Kernel) : Node * bool :=
  if bool_decide (is_Some (nd_links nd !! tun_name)) && k_routes k
  then (with_routes nd (<[(network_prefix, prefix_len) := tun_name]> (nd_routes nd)), true)
  else (nd, false).

(** A link goes away with its routes. *)
Definition remove_link nd (device : string) : Node :=
  with_routes (with_links nd (delete device (nd_links nd))) (filter (fun r => r.2 <> device) (nd_routes nd)).

(** [tun::delete]. *)
Definition delete_link nd (tun_name : string) (k : Kernel) : Node :=
  if k_deletes k then remove_link nd tun_name else nd.

(** A half of an interface was dropped. *)
Definition in_use nd (device : string) : bool :=
  bool_decide (Exists (fun t => task_device t = device) (map_to_list (nd_running nd)).*2).
Definition close_half nd (device : string) : Node := if in_use nd device then nd else remove_link nd device.

(** ** Tasks *)

(** Aborting a task drops what it owns. *)
Definition abort nd (id : nat) : Node :=
  match nd_running nd !! id with
  | Some t => close_half (with_running nd (delete id (nd_running nd))) (task_device t)
  | None => nd
  end.
Definition stop_tasks nd (tasks : TunTasks) : Node := abort (abort nd (tt_writer tasks)) (tt_mesh tasks).

Definition spawn nd (t : Task) : Node * nat :=
  (with_next (with_running nd (<[nd_next nd := t]> (nd_running nd))) (S (nd_next nd)), nd_next nd).

(** A new channel or flag. *)
Definition fresh nd : Node * nat := (with_next nd (S (nd_next nd)), nd_next nd).

(** [new_network_data_plane] and the handle it goes into, inserted under its name; the
    receiving end of the first channel is dropped. *)
Definition insert_network nd (network : string) (key : EndpointId) (my_ip : Ipv4Addr) (subnet : Subnet) : Node :=
  let '(nd, tun_tx) := fresh nd in
  let '(nd, active) := fresh nd in
  put_plane (with_flags nd (<[active := false]> (nd_flags nd))) network
    (mkPlane key my_ip subnet "pending" tun_tx None active).

Definition set_tun_name h (name : string) : Plane :=
  mkPlane (pl_network_key h) (pl_my_ip h) (pl_subnet h) name (pl_tun_tx h) (pl_tun_tasks h) (pl_active h).
Definition set_tun_tx h (tx : nat) : Plane :=
  mkPlane (pl_network_key h) (pl_my_ip h) (pl_subnet h) (pl_tun_name h) tx (pl_tun_tasks h) (pl_active h).
Definition set_tun_tasks h (t : option TunTasks) : Plane :=
  mkPlane (pl_network_key h) (pl_my_ip h) (pl_subnet h) (pl_tun_name h) (pl_tun_tx h) t (pl_active h).

Definition attach_tun nd (network device : string) : Node :=
  match nd_planes nd !! network with
  | None => close_half nd device
  | Some h =>
      let '(nd, tx) := fresh nd in
      let '(nd, writer) := spawn nd (Writer device tx (pl_active h)) in
      let '(nd, mesh) := spawn nd (Mesh device) in
      let nd := put_plane nd network (set_tun_tasks (set_tun_tx h tx) (Some (mkTunTasks writer mesh))) in
      match pl_tun_tasks h with Some old => stop_tasks nd old | None => nd end
  end.

Definition detach_tun nd (network : string) : Node :=
  match nd_planes nd !! network with
  | None => nd
  | Some h =>
      match pl_tun_tasks h with
      | Some tasks => stop_tasks (put_plane nd network (set_tun_tasks h None)) tasks
      | None => nd
      end
  end.

Section Planes.
Context `{IrohKeys, Blake3} (me : EndpointId).

Inductive Warning := LinkNotUp | RangeNotRouted.

(** Link up, then the route of the network's own IPv6 block; what failed is told. *)
Definition bring_up nd (tun_name : string) (key : EndpointId) (k : Kernel) : Node * list Warning :=
  let '(nd, up) := set_link_up nd tun_name k in
  let '(nd, routed) := route_peer_range nd tun_name (ipv6_network_prefix key) IPV6_NETWORK_PREFIX_LEN k in
  (nd, ((if up then [] else [LinkNotUp])
        ++ (if routed then [] else [RangeNotRouted]))%list).

Definition create_and_attach_network_tun nd (network : string) (my_ip : Ipv4Addr) (subnet : Subnet) (k : Kernel) : Node :=
  match nd_planes nd !! network with
  | None => nd
  | Some h =>
      let key := pl_network_key h in
      match create nd my_ip (derive_ipv6 me key) subnet k with
      | None => nd
      | Some (nd, tun_name) =>
          let nd := put_plane nd network (set_tun_name h tun_name) in
          let nd := attach_tun nd network tun_name in
          if nd_active nd then
            (bring_up (with_flags nd (<[pl_active h := true]> (nd_flags nd))) tun_name key k).1
          else nd
      end
  end.

(** ** Switching *)
Definition plane_targets nd (network : option string) : option (list string) :=
  match network with
  | Some name => if bool_decide (is_Some (nd_planes nd !! name)) then Some [name] else None
  | None => Some (map_to_list (nd_planes nd)).*1
  end.

(** One network: whether it was switched, and the warnings. *)
Definition activate_one (kernel : string -> Kernel) (acc : Node * bool * list Warning) (name : string) : Node * bool * list Warning :=
  let '(nd, any, warnings) := acc in
  match nd_planes nd !! name with
  | None => acc
  | Some h =>
      if flag nd (pl_active h) then acc
      else
        let '(nd, w) := bring_up (with_flags nd (<[pl_active h := true]> (nd_flags nd))) (pl_tun_name h) (pl_network_key h) (kernel name) in
        (nd, true, warnings ++ w)%list
  end.

Definition activate nd (network : option string) (kernel : string -> Kernel) : Node * option (bool * list Warning) :=
  match plane_targets nd network with
  | None => (nd, None)
  | Some names =>
      let nd := match network with None => with_default nd true | Some _ => nd end in
      let '(nd, any, warnings) := fold_left (activate_one kernel) names (nd, false, []) in
      (nd, Some (any, warnings))
  end.

Definition deactivate_one (kernel : string -> Kernel) (acc : Node * bool) (name : string) : Node * bool :=
  let '(nd, any) := acc in
  match nd_planes nd !! name with
  | None => acc
  | Some h =>
      if flag nd (pl_active h) then
        ((set_link_down (with_flags nd (<[pl_active h := false]> (nd_flags nd))) (pl_tun_name h) (kernel name)).1, true)
      else acc
  end.

Definition deactivate nd (network : option string) (kernel : string -> Kernel) : Node * option bool :=
  match plane_targets nd network with
  | None => (nd, None)
  | Some names =>
      let nd := match network with None => with_default nd false | Some _ => nd end in
      let '(nd, any) := fold_left (deactivate_one kernel) names (nd, false) in
      (nd, Some any)
  end.

Definition teardown_network_runtime nd (name : string) (k : Kernel) : Node * bool :=
  match nd_planes nd !! name with
  | None => (nd, false)
  | Some h =>
      let nd := with_planes nd (delete name (nd_planes nd)) in
      let nd := match pl_tun_tasks h with Some tasks => stop_tasks nd tasks | None => nd end in
      (if String.eqb (pl_tun_name h) "pending" then nd else delete_link nd (pl_tun_name h) k, true)
  end.

(** ** Packets *)

(** The links a packet put into a channel is written to. *)
Definition written_to nd (tx : nat) : list string :=
  omap (fun t => match t with Writer d rx f => if (rx =? tx)%nat && flag nd f then Some d else None | Mesh _ => None end)
    (map_to_list (nd_running nd)).*2.

(** Whether packets routed into a link are read and forwarded to peers. *)
Definition forwarded_from nd (device : string) : bool :=
  match nd_links nd !! device with Some l => lk_up l | None => false end
  && bool_decide (Mesh device ∈ (map_to_list (nd_running nd)).*2).

(** ** Histories *)
Inductive Op :=
| OpInsert (network : string) (key : EndpointId) (my_ip : Ipv4Addr) (subnet : Subnet)
| OpCreateTun (network : string) (my_ip : Ipv4Addr) (subnet : Subnet) (k : Kernel)
| OpDetach (network : string)
| OpActivate (network : option string) (kernel : string -> Kernel)
| OpDeactivate (network : option string) (kernel : string -> Kernel)
| OpTeardown (network : string) (k : Kernel).

Definition exec nd (o : Op) : Node :=
  match o with
  | OpInsert network key my_ip subnet => insert_network nd network key my_ip subnet
  | OpCreateTun network my_ip subnet k => create_and_attach_network_tun nd network my_ip subnet k
  | OpDetach network => detach_tun nd network
  | OpActivate network kernel => (activate nd network kernel).1
  | OpDeactivate network kernel => (deactivate nd network kernel).1
  | OpTeardown network k => (teardown_network_runtime nd network k).1
  end.

Definition start : Node := mkNode ∅ false ∅ ∅ ∅ ∅ 0.
End Planes.

(** ** Stopping an attachment *)
Lemma in_use_spec nd device :
  in_use nd device = true <-> exists id t, nd_running nd !! id = Some t /\ task_device t = device.
Proof.
  unfold in_use. rewrite bool_decide_eq_true, Exists_exists. split.
  - intros (t & Ht & Hd). apply list_elem_of_fmap in Ht as ([id t'] & -> & Hin). apply elem_of_map_to_list in Hin. eauto.
  - intros (id & t & Ht & Hd). exists t. split; [|done]. apply list_elem_of_fmap. exists (id, t). split; [done|].
    by apply elem_of_map_to_list.
Qed.

(** The tasks of an attachment that has its device to itself. *)
Lemma stop_tasks_spec nd tasks device rx f :
  nd_running nd !! tt_writer tasks = Some (Writer device rx f) -> nd_running nd !! tt_mesh tasks = Some (Mesh device) ->
  (forall id t, nd_running nd !! id = Some t -> task_device t = device -> id = tt_writer tasks \/ id = tt_mesh tasks) ->
  stop_tasks nd tasks
  = remove_link (with_running nd (delete (tt_mesh tasks) (delete (tt_writer tasks) (nd_running nd)))) device.
Proof.
  intros Hw Hm Hsolo. assert (tt_writer tasks <> tt_mesh tasks) as Hne by congruence.
  unfold stop_tasks, abort at 2. rewrite Hw. cbn [task_device]. unfold close_half at 1.
  rewrite (proj2 (in_use_spec _ _)).
  2:{ exists (tt_mesh tasks), (Mesh device). cbn [with_running nd_running]. by rewrite lookup_delete_ne. }
  unfold abort. cbn [with_running nd_running]. rewrite lookup_delete_ne, Hm by done. cbn [task_device]. unfold close_half.
  destruct (in_use _ device) eqn:Hu; [|done].
  apply in_use_spec in Hu as (id & t & Ht & Hd). cbn [with_running nd_running] in Ht.
  apply lookup_delete_Some in Ht as [H1 [H2 Ht]%lookup_delete_Some]. by destruct (Hsolo id t Ht Hd).
Qed.

(** ** Every task is kept *)
Definition keeps h (id : nat) (t : Task) : Prop :=
  exists tasks, pl_tun_tasks h = Some tasks
    /\ ((id = tt_writer tasks /\ t = Writer (pl_tun_name h) (pl_tun_tx h) (pl_active h))
        \/ (id = tt_mesh tasks /\ t = Mesh (pl_tun_name h))).
Definition attached h : Prop := is_Some (pl_tun_tasks h).

Record planes_ok (planes : gmap string Plane) (running : gmap nat Task) (links : gmap string NetLink) (next : nat) : Prop := {
  ok_next : forall id, (next <= id)%nat -> running !! id = None;
  ok_ids : forall network h, planes !! network = Some h -> (pl_tun_tx h < next)%nat /\ (pl_active h < next)%nat;
  ok_kept : forall id t, running !! id = Some t -> exists network h, planes !! network = Some h /\ keeps h id t;
  ok_running : forall network h tasks, planes !! network = Some h -> pl_tun_tasks h = Some tasks ->
    running !! tt_writer tasks = Some (Writer (pl_tun_name h) (pl_tun_tx h) (pl_active h))
    /\ running !! tt_mesh tasks = Some (Mesh (pl_tun_name h)) /\ is_Some (links !! pl_tun_name h);
  ok_distinct : forall n1 n2 h1 h2, planes !! n1 = Some h1 -> planes !! n2 = Some h2 -> n1 <> n2 ->
    pl_tun_tx h1 <> pl_tun_tx h2 /\ pl_active h1 <> pl_active h2
    /\ (attached h1 -> attached h2 -> pl_tun_name h1 <> pl_tun_name h2);
  ok_links : forall device, is_Some (links !! device) ->
    exists network h, planes !! network = Some h /\ attached h /\ pl_tun_name h = device;
}.
Definition node_ok nd : Prop := planes_ok (nd_planes nd) (nd_running nd) (nd_links nd) (nd_next nd).

(** A network without an interface was never given one. *)
Definition named nd : Prop :=
  forall network h, nd_planes nd !! network = Some h -> pl_tun_tasks h = None -> pl_tun_name h = "pending".

Lemma same_links_ok nd nd' :
  nd_planes nd' = nd_planes nd -> nd_running nd' = nd_running nd -> nd_next nd' = nd_next nd ->
  dom (nd_links nd') = dom (nd_links nd) -> node_ok nd -> node_ok nd'.
Proof.
  unfold node_ok. intros -> -> -> Hdom [? ? ? Hrun ? Hlinks].
  assert (forall d, is_Some (nd_links nd' !! d) <-> is_Some (nd_links nd !! d)) as E by (intros d; by rewrite <- !elem_of_dom, Hdom).
  split; [done..| |done|].
  - intros network h tasks Hh Ht. rewrite E. by apply Hrun with network.
  - intros d Hd%E. auto.
Qed.

Lemma solo nd network h tasks :
  node_ok nd -> nd_planes nd !! network = Some h -> pl_tun_tasks h = Some tasks ->
  forall id t, nd_running nd !! id = Some t -> task_device t = pl_tun_name h -> id = tt_writer tasks \/ id = tt_mesh tasks.
Proof.
  intros Hok Hh Ht id t Hid Hd. destruct (ok_kept _ _ _ _ Hok id t Hid) as (n' & h' & Hh' & tasks' & Ht' & Hcase).
  assert (task_device t = pl_tun_name h') as Hd' by (destruct Hcase as [[_ ->]|[_ ->]]; done).
  destruct (decide (n' = network)) as [->|Hne].
  - rewrite Hh in Hh'. injection Hh' as <-. rewrite Ht in Ht'. injection Ht' as <-. by destruct Hcase as [[-> _]|[-> _]]; [left|right].
  - destruct (ok_distinct _ _ _ _ Hok n' network h' h Hh' Hh Hne) as (_ & _ & Hdev).
    destruct Hdev; [by eexists|by eexists|congruence].
Qed.

(** Stopping the tasks that a handle keeps, when that handle is changed or gone. *)
Lemma stop_kept nd nd1 network h tasks :
  node_ok nd -> nd_planes nd !! network = Some h -> pl_tun_tasks h = Some tasks -> nd_running nd1 = nd_running nd ->
  stop_tasks nd1 tasks
  = remove_link (with_running nd1 (delete (tt_mesh tasks) (delete (tt_writer tasks) (nd_running nd)))) (pl_tun_name h).
Proof.
  intros Hok Hh Ht Hr. destruct (ok_running _ _ _ _ Hok network h tasks Hh Ht) as (Hw & Hm & _).
  rewrite (stop_tasks_spec nd1 tasks (pl_tun_name h) (pl_tun_tx h) (pl_active h)); rewrite ?Hr; [done..|].
  by apply (solo nd network h tasks).
Qed.

Lemma drop_ok nd network h tasks planes' :
  node_ok nd -> nd_planes nd !! network = Some h -> pl_tun_tasks h = Some tasks ->
  (forall n, n <> network -> planes' !! n = nd_planes nd !! n) ->
  (forall h', planes' !! network = Some h' -> h' = set_tun_tasks h None) ->
  planes_ok planes' (delete (tt_mesh tasks) (delete (tt_writer tasks) (nd_running nd)))
    (delete (pl_tun_name h) (nd_links nd)) (nd_next nd).
Proof.
  intros Hok Hh Ht Hother Hown. pose proof (solo nd network h tasks Hok Hh Ht) as Hsolo.
  assert (forall n h', planes' !! n = Some h' ->
            (n <> network /\ nd_planes nd !! n = Some h') \/ (n = network /\ h' = set_tun_tasks h None)) as Hcase.
  { intros n h' Hn. destruct (decide (n = network)) as [->|Hne]; [right; auto|left]. by rewrite <- Hother. }
  destruct Hok as [Hnext Hids Hkept Hrun Hdist Hlinks]. split.
  - intros id Hid. by rewrite !lookup_delete_None, Hnext; auto.
  - intros n h' [[_ Hn]|[_ ->]]%Hcase; [by apply (Hids n)|exact (Hids network h Hh)].
  - intros id t [Hm [Hw Hid]%lookup_delete_Some]%lookup_delete_Some. destruct (Hkept id t Hid) as (n & h' & Hn & Hk).
    destruct (decide (n = network)) as [->|Hne].
    + rewrite Hh in Hn. injection Hn as <-. destruct Hk as (tasks' & Ht' & [[-> _]|[-> _]]); rewrite Ht in Ht'; by injection Ht' as <-.
    + exists n, h'. by rewrite Hother.
  - intros n h' tasks' [[Hne Hn]|[_ ->]]%Hcase Ht'; [|done]. destruct (Hrun n h' tasks' Hn Ht') as (Hw & Hm & Hl).
    destruct (Hdist n network h' h Hn Hh Hne) as (_ & _ & Hdev). specialize (Hdev ltac:(by eexists) ltac:(by eexists)).
    destruct (Hrun network h tasks Hh Ht) as (Hw0 & Hm0 & _).
    rewrite !(lookup_delete_ne _ (tt_mesh tasks)), !(lookup_delete_ne _ (tt_writer tasks)), (lookup_delete_ne _ (pl_tun_name h));
      [done|congruence..].
  - intros n1 n2 h1 h2 H1 H2 Hne.
    destruct (Hcase _ _ H1) as [[N1 P1]|[-> ->]], (Hcase _ _ H2) as [[N2 P2]|[-> ->]]; [by apply (Hdist n1 n2)| | |done].
    + destruct (Hdist n1 network h1 h P1 Hh Hne) as (? & ? & _). split_and!; [done..|by intros _ [? ?]].
    + destruct (Hdist network n2 h h2 Hh P2 Hne) as (? & ? & _). split_and!; [done..|by intros [? ?]].
  - intros d [l [Hd Hl]%lookup_delete_Some]. destruct (Hlinks d ltac:(by eexists)) as (n & h' & Hn & Ha & Hname).
    exists n, h'. split_and!; [|done..]. rewrite Hother; [done|]. intros ->. congruence.
Qed.

Definition attached_plane h (device : string) (next : nat) : Plane :=
  mkPlane (pl_network_key h) (pl_my_ip h) (pl_subnet h) device next (Some (mkTunTasks (S next) (S (S next)))) (pl_active h).

Lemma add_ok planes running links next network h device link :
  planes_ok planes running links next -> planes !! network = Some h -> pl_tun_tasks h = None -> links !! device = None ->
  planes_ok (<[network := attached_plane h device next]> planes)
    (<[S (S next) := Mesh device]> (<[S next := Writer device next (pl_active h)]> running)) (<[device := link]> links)
    (S (S (S next))).
Proof.
  intros [Hnext Hids Hkept Hrun Hdist Hlinks] Hh Ht Hd. set (h' := attached_plane h device next).
  assert (forall n h1, <[network := h']> planes !! n = Some h1 ->
            (n <> network /\ planes !! n = Some h1) \/ (n = network /\ h1 = h')) as Hcase.
  { intros n h1 [[<- ->]|[? ?]]%lookup_insert_Some; auto. }
  assert (forall n h1, n <> network -> planes !! n = Some h1 -> attached h1 -> pl_tun_name h1 <> device) as Hfresh.
  { intros n h1 _ Hn [tasks Ht1] <-. destruct (Hrun n h1 tasks Hn Ht1) as (_ & _ & [l Hl]). congruence. }
  destruct (Hids network h Hh) as [_ Hf]. split.
  - intros id Hid. rewrite !lookup_insert_ne by lia. apply Hnext. lia.
  - intros n h1 [[_ Hn]|[_ ->]]%Hcase; [destruct (Hids n h1 Hn); lia|]. cbn. lia.
  - intros id t [[<- <-]|[_ [[<- <-]|[_ Hid]]%lookup_insert_Some]]%lookup_insert_Some.
    + exists network, h'. rewrite lookup_insert_eq. split; [done|]. eexists. split; [done|]. by right.
    + exists network, h'. rewrite lookup_insert_eq. split; [done|]. eexists. split; [done|]. by left.
    + destruct (Hkept id t Hid) as (n & h1 & Hn & Hk). exists n, h1. split; [|done]. rewrite lookup_insert_ne; [done|].
      intros <-. destruct Hk as (tasks & Ht1 & _). congruence.
  - intros n h1 tasks [[Hne Hn]|[_ ->]]%Hcase Ht1.
    + destruct (Hrun n h1 tasks Hn Ht1) as (Hw & Hm & Hl).
      assert (forall id t, running !! id = Some t -> (id < next)%nat) as Hlt.
      { intros id t Hid. destruct (Nat.lt_ge_cases id next) as [|Hge]; [done|]. by rewrite Hnext in Hid. }
      apply Hlt in Hw as Hw1. apply Hlt in Hm as Hm1. rewrite !lookup_insert_ne by lia. split_and!; [done..|].
      rewrite lookup_insert_ne; [done|]. apply not_eq_sym. by apply (Hfresh n h1); [..|by eexists].
    + injection Ht1 as <-. cbn [tt_writer tt_mesh h' attached_plane pl_tun_name pl_tun_tx pl_active].
      rewrite (lookup_insert_ne _ (S (S next)) (S next)) by lia. rewrite !lookup_insert_eq. split_and!; [done..|by eexists].
  - intros n1 n2 h1 h2 H1 H2 Hne.
    destruct (Hcase _ _ H1) as [[N1 P1]|[-> ->]], (Hcase _ _ H2) as [[N2 P2]|[-> ->]]; [by apply (Hdist n1 n2)| | |done].
    + destruct (Hids n1 h1 P1) as [? ?]. destruct (Hdist n1 network h1 h P1 Hh N1) as (_ & Ha & _). cbn.
      split_and!; [lia|done|]. intros Hat _. by apply (Hfresh n1 h1).
    + destruct (Hids n2 h2 P2) as [? ?]. destruct (Hdist network n2 h h2 Hh P2 Hne) as (_ & Ha & _). cbn.
      split_and!; [lia|done|]. intros _ Hat E. by apply (Hfresh n2 h2 N2 P2 Hat).
  - intros d [l [[<- _]|[Hne Hl]]%lookup_insert_Some].
    + exists network, h'. rewrite lookup_insert_eq. split_and!; [done|by eexists|done].
    + destruct (Hlinks d ltac:(by eexists)) as (n & h1 & Hn & Ha & Hname). exists n, h1. split_and!; [|done..].
      rewrite lookup_insert_ne; [done|]. intros <-. destruct Ha as [? Ha]. congruence.
Qed.

(** ** Every operation keeps the invariant *)
Lemma attach_result nd network h device link :
  node_ok nd -> nd_planes nd !! network = Some h -> nd_links nd !! device = None ->
  let nd' := attach_tun (put_plane (with_links nd (<[device := link]> (nd_links nd))) network (set_tun_name h device)) network device in
  node_ok nd' /\ nd_planes nd' = <[network := attached_plane h device (nd_next nd)]> (nd_planes nd)
  /\ nd_flags nd' = nd_flags nd /\ nd_active nd' = nd_active nd /\ nd_links nd' !! device = Some link.
Proof.
  intros Hok Hh Hd. set (nd1 := put_plane _ _ _). unfold attach_tun.
  assert (nd_planes nd1 !! network = Some (set_tun_name h device)) as -> by apply lookup_insert_eq.
  cbn [set_tun_name pl_tun_tasks fresh spawn]. destruct (pl_tun_tasks h) as [old|] eqn:Hold.
  - destruct (ok_running _ _ _ _ Hok network h old Hh Hold) as (Hw & Hm & Hl).
    assert (pl_tun_name h <> device) as Hne by (intros E; rewrite E, Hd in Hl; by destruct Hl).
    assert (forall id t, nd_running nd !! id = Some t -> (id < nd_next nd)%nat) as Hlt.
    { intros id t Hid. destruct (Nat.lt_ge_cases id (nd_next nd)) as [|Hge]; [done|]. by rewrite (ok_next _ _ _ _ Hok) in Hid. }
    apply Hlt in Hw as Hw1. apply Hlt in Hm as Hm1. pose proof (solo nd network h old Hok Hh Hold) as Hsolo.
    rewrite (stop_tasks_spec _ old (pl_tun_name h) (pl_tun_tx h) (pl_active h)).
    2,3: cbn; by rewrite !lookup_insert_ne by lia.
    2:{ cbn. intros id t [[<- <-]|[_ [[<- <-]|[_ Hid]]%lookup_insert_Some]]%lookup_insert_Some Hdev;
          [cbn in Hdev; congruence..|by apply (Hsolo id t)]. }
    cbn. rewrite insert_insert_eq. split; [|split_and!; [done..|by rewrite lookup_delete_ne, lookup_insert_eq by done]].
    unfold node_ok. cbn. rewrite insert_insert_eq. rewrite !(delete_insert_ne _ (tt_writer old)), !(delete_insert_ne _ (tt_mesh old)) by lia.
    rewrite delete_insert_ne by done.
    assert (planes_ok (<[network := set_tun_tasks h None]> (nd_planes nd))
              (delete (tt_mesh old) (delete (tt_writer old) (nd_running nd))) (delete (pl_tun_name h) (nd_links nd)) (nd_next nd)) as Hdrop.
    { apply (drop_ok nd network h old); [done..| |].
      - intros n Hn. by rewrite lookup_insert_ne.
      - intros h'. rewrite lookup_insert_eq. by intros [= <-]. }
    pose proof (add_ok _ _ _ _ network (set_tun_tasks h None) device link Hdrop) as Hadd.
    rewrite lookup_insert_eq, lookup_delete_ne, insert_insert_eq in Hadd by done. by apply Hadd.
  - cbn. rewrite insert_insert_eq. split; [|by rewrite lookup_insert_eq]. unfold node_ok. cbn. rewrite insert_insert_eq.
    by apply (add_ok _ _ _ _ network h device link).
Qed.

Lemma set_link_state_dom nd tun_name up k : dom (nd_links (set_link_state nd tun_name up k).1) = dom (nd_links nd).
Proof.
  unfold set_link_state. destruct (nd_links nd !! tun_name) as [l|] eqn:Hl; [|done]. destruct (k_sets k); [|done]. cbn.
  rewrite dom_insert_L. apply elem_of_dom_2 in Hl. set_solver.
Qed.

(** Flags, routes and the state of links. *)
Definition same_planes nd nd' : Prop :=
  nd_planes nd' = nd_planes nd /\ nd_running nd' = nd_running nd /\ nd_next nd' = nd_next nd
  /\ dom (nd_links nd') = dom (nd_links nd).

#[export] Instance same_planes_preorder : PreOrder same_planes.
Proof. split; [by intros nd|]. intros ? ? ? (? & ? & ? & ?) (? & ? & ? & ?). split_and!; congruence. Qed.

Lemma same_planes_ok nd nd' : same_planes nd nd' -> node_ok nd -> node_ok nd'.
Proof. intros (? & ? & ? & ?). by apply same_links_ok. Qed.

Lemma set_link_state_same nd tun_name up k : same_planes nd (set_link_state nd tun_name up k).1.
Proof.
  pose proof (set_link_state_dom nd tun_name up k) as Hdom. revert Hdom. unfold set_link_state, same_planes.
  destruct (nd_links nd !! tun_name); [destruct (k_sets k)|]; done.
Qed.

Lemma bring_up_same `{IrohKeys, Blake3} nd tun_name key k : same_planes nd (bring_up nd tun_name key k).1.
Proof.
  unfold bring_up. pose proof (set_link_state_same nd tun_name true k) as Hs. unfold set_link_up.
  destruct (set_link_state nd tun_name true k) as [nd1 up]. cbn [fst] in Hs. etrans; [exact Hs|].
  unfold route_peer_range. by destruct (bool_decide _ && k_routes k).
Qed.

Lemma activate_one_same `{IrohKeys, Blake3} kernel acc name : same_planes acc.1.1 (activate_one kernel acc name).1.1.
Proof.
  destruct acc as [[nd any] ws]. unfold activate_one. cbn [fst]. destruct (nd_planes nd !! name) as [h|]; [|done].
  destruct (flag nd (pl_active h)); [done|].
  pose proof (bring_up_same (with_flags nd (<[pl_active h := true]> (nd_flags nd))) (pl_tun_name h) (pl_network_key h) (kernel name)) as Hb.
  by destruct (bring_up _ _ _ _).
Qed.

Lemma activate_same `{IrohKeys, Blake3} nd network kernel : same_planes nd (activate nd network kernel).1.
Proof.
  unfold activate. destruct (plane_targets nd network) as [names|]; [|done].
  assert (forall names acc, same_planes acc.1.1 (fold_left (activate_one kernel) names acc).1.1) as Hf.
  { clear. intros names. induction names as [|n names IH]; intros acc; [done|]. cbn [fold_left].
    etrans; [|apply IH]. apply activate_one_same. }
  specialize (Hf names ((match network with None => with_default nd true | Some _ => nd end), false, [])).
  destruct (fold_left _ _ _) as [[nd' any] ws]. cbn [fst] in *. etrans; [|exact Hf]. by destruct network.
Qed.

Lemma deactivate_one_same kernel acc name : same_planes acc.1 (deactivate_one kernel acc name).1.
Proof.
  destruct acc as [nd any]. unfold deactivate_one. cbn [fst]. destruct (nd_planes nd !! name) as [h|]; [|done].
  destruct (flag nd (pl_active h)); [|done]. cbn [fst]. apply (set_link_state_same (with_flags nd _)).
Qed.

Lemma deactivate_fold_same kernel names acc : same_planes acc.1 (fold_left (deactivate_one kernel) names acc).1.
Proof.
  revert acc. induction names as [|n names IH]; intros acc; [done|]. cbn [fold_left].
  etrans; [|apply IH]. apply deactivate_one_same.
Qed.

Lemma deactivate_same nd network kernel : same_planes nd (deactivate nd network kernel).1.
Proof.
  unfold deactivate. destruct (plane_targets nd network) as [names|]; [|done].
  pose proof (deactivate_fold_same kernel names ((match network with None => with_default nd false | Some _ => nd end), false)) as Hf.
  destruct (fold_left _ _ _) as [nd' any]. cbn [fst] in *. etrans; [|exact Hf]. by destruct network.
Qed.

Lemma insert_ok nd network key my_ip subnet :
  nd_planes nd !! network = None -> node_ok nd -> node_ok (insert_network nd network key my_ip subnet).
Proof.
  intros Hnew [Hnext Hids Hkept Hrun Hdist Hlinks]. unfold insert_network, node_ok. cbn. set (h' := mkPlane _ _ _ _ _ _ _).
  assert (forall n h1, <[network := h']> (nd_planes nd) !! n = Some h1 ->
            (n <> network /\ nd_planes nd !! n = Some h1) \/ (n = network /\ h1 = h')) as Hcase.
  { intros n h1 [[<- ->]|[? ?]]%lookup_insert_Some; auto. }
  assert (forall n h1, nd_planes nd !! n = Some h1 -> <[network := h']> (nd_planes nd) !! n = Some h1) as Hold.
  { intros n h1 Hn. rewrite lookup_insert_ne; [done|congruence]. }
  split.
  - intros id Hid. apply Hnext. lia.
  - intros n h1 [[_ Hn]|[_ ->]]%Hcase; [destruct (Hids n h1 Hn); lia|]. cbn. lia.
  - intros id t Hid. destruct (Hkept id t Hid) as (n & h1 & Hn & Hk). eauto.
  - intros n h1 tasks [[_ Hn]|[_ ->]]%Hcase Ht; [by apply (Hrun n)|done].
  - intros n1 n2 h1 h2 H1 H2 Hne.
    destruct (Hcase _ _ H1) as [[N1 P1]|[-> ->]], (Hcase _ _ H2) as [[N2 P2]|[-> ->]]; [by apply (Hdist n1 n2)| | |done].
    + destruct (Hids n1 h1 P1). cbn. split_and!; [lia|lia|by intros _ [? ?]].
    + destruct (Hids n2 h2 P2). cbn. split_and!; [lia|lia|by intros [? ?]].
  - intros d Hd. destruct (Hlinks d Hd) as (n & h1 & Hn & Ha & Hname). eauto 6.
Qed.

Section Kept.
Context `{IrohKeys, Blake3} (me : EndpointId).

Lemma create_tun_result nd network my_ip subnet k :
  node_ok nd ->
  let nd' := create_and_attach_network_tun me nd network my_ip subnet k in
  nd' = nd \/ exists h device, nd_planes nd !! network = Some h /\ nd_links nd !! device = None
    /\ node_ok nd' /\ nd_planes nd' = <[network := attached_plane h device (nd_next nd)]> (nd_planes nd)
    /\ (nd_active nd = false -> nd_flags nd' = nd_flags nd /\ lk_up <$> nd_links nd' !! device = Some true).
Proof.
  intros Hok. unfold create_and_attach_network_tun. destruct (nd_planes nd !! network) as [h|] eqn:Hh; [|by left].
  unfold create. destruct (k_creates k && _) eqn:Hc; [|by left]. right. apply andb_true_iff in Hc as [_ Hd%bool_decide_eq_true].
  set (link := mkNetLink _ _ _ _ _ _).
  destruct (attach_result nd network h (k_name k) link Hok Hh Hd) as (Hok' & Hp & Hf & Ha & Hl).
  exists h, (k_name k). rewrite Ha. split_and!; [done..| | |].
  - destruct (nd_active nd); [|done]. eapply same_planes_ok; [apply bring_up_same|]. by eapply same_links_ok; [..|exact Hok'].
  - destruct (nd_active nd); [|done]. edestruct bring_up_same as (-> & _). exact Hp.
  - intros ->. by rewrite Hf, Hl.
Qed.

Lemma create_tun_ok nd network my_ip subnet k : node_ok nd -> node_ok (create_and_attach_network_tun me nd network my_ip subnet k).
Proof. intros Hok. destruct (create_tun_result nd network my_ip subnet k Hok) as [->|(? & ? & _ & _ & ? & _)]; done. Qed.

Lemma create_tun_named nd network my_ip subnet k :
  node_ok nd -> named nd -> named (create_and_attach_network_tun me nd network my_ip subnet k).
Proof.
  intros Hok Hn. destruct (create_tun_result nd network my_ip subnet k Hok) as [->|(h & d & _ & _ & _ & Hp & _)]; [done|].
  intros n h'. rewrite Hp. intros [[<- <-]|[_ Hh]]%lookup_insert_Some; [done|by apply (Hn n)].
Qed.

Lemma detach_ok nd network : node_ok nd -> node_ok (detach_tun nd network).
Proof.
  intros Hok. unfold detach_tun. destruct (nd_planes nd !! network) as [h|] eqn:Hh; [|done].
  destruct (pl_tun_tasks h) as [tasks|] eqn:Ht; [|done].
  rewrite (stop_kept nd _ network h tasks) by done. apply (drop_ok nd network h tasks); [done..| |]; cbn.
  - intros n Hn. by rewrite lookup_insert_ne.
  - intros h'. rewrite lookup_insert_eq. by intros [= <-].
Qed.

Lemma teardown_ok nd network k : node_ok nd -> named nd -> node_ok (teardown_network_runtime nd network k).1.
Proof.
  intros Hok Hn. unfold teardown_network_runtime. destruct (nd_planes nd !! network) as [h|] eqn:Hh; [|done]. cbn [fst].
  destruct (pl_tun_tasks h) as [tasks|] eqn:Ht.
  - rewrite (stop_kept nd _ network h tasks) by done.
    assert (planes_ok (delete network (nd_planes nd)) (delete (tt_mesh tasks) (delete (tt_writer tasks) (nd_running nd)))
              (delete (pl_tun_name h) (nd_links nd)) (nd_next nd)) as Hdrop.
    { apply (drop_ok nd network h tasks); [done..| |].
      - intros n Hne. by rewrite lookup_delete_ne.
      - intros h'. by rewrite lookup_delete_eq. }
    destruct (String.eqb (pl_tun_name h) "pending"); [exact Hdrop|]. unfold delete_link. destruct (k_deletes k); [|exact Hdrop].
    unfold node_ok. cbn. by rewrite delete_delete_eq.
  - rewrite (Hn network h Hh Ht). cbn [String.eqb Ascii.eqb Bool.eqb].
    destruct Hok as [Hnext Hids Hkept Hrun Hdist Hlinks]. split; cbn.
    + done.
    + intros n h1 [_ Hn1]%lookup_delete_Some. by apply (Hids n).
    + intros id t Hid. destruct (Hkept id t Hid) as (n & h1 & Hn1 & Hk). exists n, h1. split; [|done].
      rewrite lookup_delete_ne; [done|]. intros <-. destruct Hk as (? & ? & _). congruence.
    + intros n h1 tasks [_ Hn1]%lookup_delete_Some. by apply (Hrun n).
    + intros n1 n2 h1 h2 [_ H1]%lookup_delete_Some [_ H2]%lookup_delete_Some. by apply (Hdist n1 n2).
    + intros d Hd. destruct (Hlinks d Hd) as (n & h1 & Hn1 & [tasks Ha] & Hname). exists n, h1. split_and!; [|by eexists|done].
      rewrite lookup_delete_ne; [done|]. intros <-. congruence.
Qed.

Lemma teardown_planes nd network k :
  nd_planes (teardown_network_runtime nd network k).1 = delete network (nd_planes nd).
Proof.
  unfold teardown_network_runtime. destruct (nd_planes nd !! network) as [h|] eqn:Hh; [|by rewrite delete_id].
  assert (forall nd1 id, nd_planes (abort nd1 id) = nd_planes nd1) as Ha.
  { intros nd1 id. unfold abort, close_half. destruct (nd_running nd1 !! id); [|done]. by case_match. }
  cbn [fst]. unfold delete_link. destruct (pl_tun_tasks h); cbn; repeat case_match; unfold stop_tasks; cbn; rewrite ?Ha; done.
Qed.
End Kept.

(** ** Where packets go *)
Lemma omap_values_none {A B} (f : A -> option B) (m : gmap nat A) :
  (forall id a, m !! id = Some a -> f a = None) -> omap f (map_to_list m).*2 = [].
Proof.
  intros Hn. apply elem_of_nil_inv. intros b [a [Ha Hb]]%list_elem_of_omap.
  apply list_elem_of_fmap in Ha as ([id a'] & -> & Hin%elem_of_map_to_list). cbn [snd] in Hb. by rewrite (Hn id a') in Hb.
Qed.

Lemma omap_values_one {A B} (f : A -> option B) (m : gmap nat A) id a b :
  m !! id = Some a -> f a = Some b -> (forall id' a', m !! id' = Some a' -> id' <> id -> f a' = None) ->
  omap f (map_to_list m).*2 = [b].
Proof.
  intros Ha Hb Hn. apply Permutation_singleton_r. rewrite <- (insert_delete_id m id a Ha).
  rewrite map_to_list_insert by apply lookup_delete_eq. cbn [fmap list_fmap snd omap list_omap]. rewrite Hb.
  rewrite omap_values_none; [done|]. intros id' a' [Hne Ha']%lookup_delete_Some. by apply (Hn id').
Qed.

Lemma written_to_own nd network h :
  node_ok nd -> nd_planes nd !! network = Some h ->
  written_to nd (pl_tun_tx h) = if bool_decide (attached h) && flag nd (pl_active h) then [pl_tun_name h] else [].
Proof.
  intros Hok Hh. unfold written_to. set (f := fun t => _).
  assert (forall id t d, nd_running nd !! id = Some t -> f t = Some d ->
            exists tasks, pl_tun_tasks h = Some tasks /\ id = tt_writer tasks /\ flag nd (pl_active h) = true) as Honly.
  { intros id t d Hid Hf. destruct (ok_kept _ _ _ _ Hok id t Hid) as (n & h' & Hh' & tasks & Ht & [[-> ->]|[-> ->]]); [|done].
    cbn in Hf. destruct (Nat.eqb_spec (pl_tun_tx h') (pl_tun_tx h)) as [E|]; [|done]. cbn in Hf.
    destruct (decide (n = network)) as [->|Hne].
    - rewrite Hh in Hh'. injection Hh' as <-. exists tasks. by destruct (flag nd (pl_active h)).
    - by destruct (ok_distinct _ _ _ _ Hok n network h' h Hh' Hh Hne). }
  destruct (decide (attached h)) as [[tasks Ht]|Hna].
  - rewrite bool_decide_eq_true_2 by (by eexists). destruct (ok_running _ _ _ _ Hok network h tasks Hh Ht) as (Hw & _ & _).
    destruct (flag nd (pl_active h)) eqn:Hflag; cbn [andb].
    + eapply omap_values_one; [exact Hw|cbn; by rewrite Nat.eqb_refl, Hflag|].
      intros id t Hid Hne. destruct (f t) eqn:Hf; [|done]. destruct (Honly id t _ Hid Hf) as (tasks' & Ht' & -> & _). congruence.
    + apply omap_values_none. intros id t Hid. destruct (f t) eqn:Hf; [|done]. by destruct (Honly id t _ Hid Hf) as (? & _ & _ & ?).
  - rewrite bool_decide_eq_false_2 by done. apply omap_values_none. intros id t Hid. destruct (f t) eqn:Hf; [|done].
    destruct (Honly id t _ Hid Hf) as (? & ? & _). destruct Hna. by eexists.
Qed.

(** ** Any history *)
Section Histories.
Context `{IrohKeys, Blake3} (me : EndpointId).

(** Networks are inserted under names that are free ([create_network_inner] and [join_network_inner] check), and
    only an embedder detaches. *)
Definition permitted nd (o : Op) : bool :=
  match o with
  | OpInsert network _ _ _ => bool_decide (nd_planes nd !! network = None)
  | OpDetach _ => false
  | _ => true
  end.

Fixpoint history nd (ops : list Op) : option Node :=
  match ops with
  | [] => Some nd
  | o :: ops => if permitted nd o then history (exec me nd o) ops else None
  end.

Lemma exec_ok nd o : permitted nd o = true -> node_ok nd -> named nd -> node_ok (exec me nd o) /\ named (exec me nd o).
Proof.
  intros Hp Hok Hn. destruct o; cbn [exec].
  - split; [apply insert_ok; [by apply bool_decide_eq_true in Hp|done]|].
    intros n h. cbn. intros [[<- <-]|[_ Hh]]%lookup_insert_Some; [done|by apply (Hn n)].
  - split; [by apply create_tun_ok|by apply create_tun_named].
  - done.
  - split; [eapply same_planes_ok; [apply activate_same|done]|]. unfold named. destruct (activate_same nd network kernel) as (-> & _). done.
  - split; [eapply same_planes_ok; [apply deactivate_same|done]|]. unfold named. destruct (deactivate_same nd network kernel) as (-> & _). done.
  - split; [by apply teardown_ok|]. intros n h. rewrite teardown_planes. intros [_ Hh]%lookup_delete_Some. by apply (Hn n).
Qed.

Lemma start_ok : node_ok start /\ named start.
Proof. split; [split; cbn; intros *; rewrite ?lookup_empty; try done; by intros [? ?]|by intros n h]. Qed.

Lemma history_ok nd ops nd' : node_ok nd -> named nd -> history nd ops = Some nd' -> node_ok nd' /\ named nd'.
Proof.
  revert nd. induction ops as [|o ops IH]; intros nd Hok Hn Hh; cbn in Hh; [by simplify_eq|].
  destruct (permitted nd o) eqn:Hp; [|done]. destruct (exec_ok nd o Hp Hok Hn). by apply (IH (exec me nd o)).
Qed.

End Histories.

(** ** Standby *)

(** Networks that are not active forward nothing. *)
Definition quiet nd : Prop :=
  forall network h, nd_planes nd !! network = Some h -> flag nd (pl_active h) = false -> forwarded_from nd (pl_tun_name h) = false.

Lemma flag_insert nd f g (b : bool) : flag (with_flags nd (<[f := b]> (nd_flags nd))) g = if decide (f = g) then b else flag nd g.
Proof. unfold flag. cbn. case_decide as E; [subst; by rewrite lookup_insert_eq|by rewrite lookup_insert_ne]. Qed.

Lemma set_link_state_flags nd name up k f : flag (set_link_state nd name up k).1 f = flag nd f.
Proof. unfold set_link_state. destruct (nd_links nd !! name); [destruct (k_sets k)|]; done. Qed.

Lemma set_link_state_other nd name up k device :
  device <> name -> nd_links (set_link_state nd name up k).1 !! device = nd_links nd !! device.
Proof.
  intros Hne. unfold set_link_state. destruct (nd_links nd !! name); [destruct (k_sets k)|]; cbn; [by rewrite lookup_insert_ne|done..].
Qed.

Lemma set_link_down_forwards nd name k device :
  forwarded_from nd device = false -> forwarded_from (set_link_down nd name k).1 device = false.
Proof.
  unfold set_link_down, set_link_state, forwarded_from. destruct (nd_links nd !! name) as [l|] eqn:Hl; [|done].
  destruct (k_sets k); [|done]. cbn [fst with_links nd_links nd_running].
  destruct (decide (name = device)) as [->|Hne]; [by rewrite lookup_insert_eq|by rewrite lookup_insert_ne].
Qed.

Lemma set_link_down_stops nd name k : k_sets k = true -> forwarded_from (set_link_down nd name k).1 name = false.
Proof.
  intros Hk. unfold set_link_down, set_link_state, forwarded_from. rewrite Hk.
  destruct (nd_links nd !! name) as [l|] eqn:Hl; cbn; [by rewrite lookup_insert_eq|by rewrite Hl].
Qed.

Lemma deactivate_one_lowers kernel nd any name f device :
  (flag nd f = false -> flag (deactivate_one kernel (nd, any) name).1 f = false)
  /\ (forwarded_from nd device = false -> forwarded_from (deactivate_one kernel (nd, any) name).1 device = false).
Proof.
  unfold deactivate_one. destruct (nd_planes nd !! name) as [h|]; [|done]. destruct (flag nd (pl_active h)); [|done]. cbn [fst]. split.
  - intros Hf. unfold set_link_down. rewrite set_link_state_flags, flag_insert. by case_decide.
  - intros Hd. by apply set_link_down_forwards.
Qed.

Lemma deactivate_one_stops kernel nd any name h :
  nd_planes nd !! name = Some h -> k_sets (kernel name) = true ->
  (flag nd (pl_active h) = false -> forwarded_from nd (pl_tun_name h) = false) ->
  flag (deactivate_one kernel (nd, any) name).1 (pl_active h) = false
  /\ forwarded_from (deactivate_one kernel (nd, any) name).1 (pl_tun_name h) = false.
Proof.
  intros Hh Hk Hq. unfold deactivate_one. rewrite Hh. destruct (flag nd (pl_active h)) eqn:Hf; [|auto]. cbn [fst]. split.
  - unfold set_link_down. rewrite set_link_state_flags, flag_insert. by case_decide.
  - by apply set_link_down_stops.
Qed.

Lemma deactivate_one_quiet kernel nd any name :
  node_ok nd -> (forall n, k_sets (kernel n) = true) -> quiet nd -> quiet (deactivate_one kernel (nd, any) name).1.
Proof.
  intros Hok Hk Hq n h. destruct (deactivate_one_same kernel (nd, any) name) as (-> & _). cbn [fst]. intros Hn Hf.
  destruct (decide (n = name)) as [->|Hne]; [by apply (deactivate_one_stops kernel nd any name h); [..|apply (Hq name)]|].
  apply (deactivate_one_lowers kernel nd any name 0 (pl_tun_name h)). apply (Hq n h Hn). unfold deactivate_one in Hf.
  destruct (nd_planes nd !! name) as [h'|] eqn:Hh'; [|done]. destruct (flag nd (pl_active h')); [|done]. cbn [fst] in Hf.
  unfold set_link_down in Hf. rewrite set_link_state_flags, flag_insert in Hf. case_decide as E; [|done].
  by destruct (ok_distinct _ _ _ _ Hok name n h' h Hh' Hn (not_eq_sym Hne)) as (_ & ? & _).
Qed.

Lemma deactivate_fold_stops kernel names nd any :
  node_ok nd -> (forall n, k_sets (kernel n) = true) -> quiet nd ->
  let nd' := (fold_left (deactivate_one kernel) names (nd, any)).1 in
  forall n h, nd_planes nd !! n = Some h -> (n ∈ names \/ flag nd (pl_active h) = false) ->
    flag nd' (pl_active h) = false /\ forwarded_from nd' (pl_tun_name h) = false.
Proof.
  revert nd any. induction names as [|name names IH]; intros nd any Hok Hk Hq; cbn zeta.
  { intros n h Hn [Hin|Hf]; [by apply elem_of_nil in Hin|]. split; [done|by apply (Hq n)]. }
  cbn [fold_left]. pose proof (deactivate_one_quiet kernel nd any name Hok Hk Hq) as Hq1.
  pose proof (deactivate_one_same kernel (nd, any) name) as Hsame.
  pose proof (deactivate_one_lowers kernel nd any name) as Hlow. pose proof (deactivate_one_stops kernel nd any name) as Hstop.
  destruct (deactivate_one kernel (nd, any) name) as [nd1 any1]. cbn [fst] in *. intros n h Hn Hin.
  apply (IH nd1 any1 (same_planes_ok _ _ Hsame Hok) Hk Hq1 n h).
  - by destruct Hsame as (-> & _).
  - destruct Hin as [[->|Hin]%elem_of_cons|Hf]; [right|by left|right; by apply (Hlow (pl_active h) EmptyString)]. by apply Hstop; [..|apply (Hq name)].
Qed.

(** What standby leaves alone. *)
Lemma deactivate_fold_keeps kernel names nd any device :
  (forall n h, nd_planes nd !! n = Some h -> flag nd (pl_active h) = true -> pl_tun_name h <> device) ->
  nd_links (fold_left (deactivate_one kernel) names (nd, any)).1 !! device = nd_links nd !! device.
Proof.
  revert nd any. induction names as [|name names IH]; intros nd any Hother; [done|]. cbn [fold_left].
  pose proof (deactivate_one_same kernel (nd, any) name) as Hsame.
  pose proof (fun f => deactivate_one_lowers kernel nd any name f device) as Hlow.
  assert (nd_links (deactivate_one kernel (nd, any) name).1 !! device = nd_links nd !! device) as <-.
  { unfold deactivate_one. destruct (nd_planes nd !! name) as [h|] eqn:Hh; [|done]. destruct (flag nd (pl_active h)) eqn:Hf; [|done].
    cbn [fst]. unfold set_link_down. rewrite set_link_state_other; [done|]. apply not_eq_sym. by apply (Hother name h). }
  destruct (deactivate_one kernel (nd, any) name) as [nd1 any1]. cbn [fst] in *. apply IH.
  intros n h. destruct Hsame as (-> & _). cbn. intros Hn Hf. apply (Hother n h Hn).
  destruct (flag nd (pl_active h)) eqn:E; [done|]. destruct (Hlow (pl_active h)) as [Hl _]. by rewrite Hl in Hf.
Qed.

Section Standby.
Context `{IrohKeys, Blake3} (me : EndpointId).

Lemma mesh_runs nd network h : node_ok nd -> nd_planes nd !! network = Some h -> attached h ->
  bool_decide (Mesh (pl_tun_name h) ∈ (map_to_list (nd_running nd)).*2) = true.
Proof.
  intros Hok Hh [tasks Ht]. apply bool_decide_eq_true. destruct (ok_running _ _ _ _ Hok network h tasks Hh Ht) as (_ & Hm & _).
  apply list_elem_of_fmap. exists (tt_mesh tasks, Mesh (pl_tun_name h)). split; [done|]. by apply elem_of_map_to_list.
Qed.

(** C29: what [tetron standby] stops.  When inactive networks forward nothing and the link commands go through, it leaves no
    network with traffic: packets of peers are written to no interface and no packet is read from one.
    But a network that gets its interface while the node is on standby is not inactive in that
    sense: its link is up from the start, so its outgoing packets are read and forwarded to peers although
    the network is on standby, and another [tetron standby] does not change that. *)
Theorem standby_stops_traffic (ops : list Op) (nd : Node) (kernel : string -> Kernel) :
  history me start ops = Some nd ->
  ((forall n, k_sets (kernel n) = true) -> quiet nd ->
     let nd' := (deactivate nd None kernel).1 in
     forall network h, nd_planes nd' !! network = Some h ->
       written_to nd' (pl_tun_tx h) = [] /\ forwarded_from nd' (pl_tun_name h) = false)
  /\ (forall network my_ip subnet k h,
        nd_active nd = false -> nd_planes nd !! network = Some h -> flag nd (pl_active h) = false ->
        k_creates k = true -> nd_links nd !! k_name k = None -> k_name k <> "pending" ->
        let nd' := create_and_attach_network_tun me nd network my_ip subnet k in
        forwarded_from nd' (k_name k) = true /\ forwarded_from (deactivate nd' None kernel).1 (k_name k) = true).
Proof.
  intros Hh. destruct start_ok as [Hs1 Hs2]. destruct (history_ok me _ _ _ Hs1 Hs2 Hh) as [Hok Hnamed]. split.
  - intros Hk Hq nd' network h Hn. destruct (deactivate_same nd None kernel) as (Hp & Hr & Hx & Hl).
    assert (node_ok nd') as Hok' by (by apply (same_links_ok nd)). rewrite (written_to_own nd' network h Hok' Hn).
    unfold nd', deactivate in *. cbn [plane_targets] in *. rewrite Hp in Hn.
    pose proof (deactivate_fold_stops kernel (map_to_list (nd_planes nd)).*1 (with_default nd false) false Hok Hk Hq network h Hn) as Hst.
    destruct (fold_left _ _ _) as [nd2 any]. cbn [fst] in *. destruct Hst as [-> ->]; [|by rewrite andb_false_r].
    left. apply list_elem_of_fmap. exists (network, h). split; [done|]. by apply elem_of_map_to_list.
  - intros network my_ip subnet k h Ha Hn Hf Hc Hd Hne nd'.
    assert (exists next, node_ok nd' /\ nd_planes nd' = <[network := attached_plane h (k_name k) next]> (nd_planes nd)
              /\ nd_flags nd' = nd_flags nd /\ lk_up <$> nd_links nd' !! k_name k = Some true) as (next & Hok' & Hp & Hfl & Hup).
    { unfold nd', create_and_attach_network_tun. rewrite Hn. unfold create. rewrite Hc, (bool_decide_eq_true_2 _ Hd). cbn [andb].
      set (link := mkNetLink _ _ _ _ _ _). destruct (attach_result nd network h (k_name k) link Hok Hn Hd) as (H1 & H2 & H3 & H4 & H5).
      rewrite H4, Ha, H5. by exists (nd_next nd). }
    pose proof (mesh_runs nd' network (attached_plane h (k_name k) next) Hok') as Hm. rewrite Hp, lookup_insert_eq in Hm.
    specialize (Hm eq_refl ltac:(by eexists)). cbn [attached_plane pl_tun_name] in Hm.
    assert (forwarded_from nd' (k_name k) = true) as Hfw.
    { unfold forwarded_from. rewrite Hm. destruct (nd_links nd' !! k_name k) as [l|]; [|done]. cbn in Hup. injection Hup as ->. done. }
    split; [done|]. destruct (deactivate_same nd' None kernel) as (_ & Hr & _). unfold forwarded_from in *. rewrite Hr.
    unfold deactivate. cbn [plane_targets]. pose proof (deactivate_fold_keeps kernel (map_to_list (nd_planes nd')).*1
      (with_default nd' false) false (k_name k)) as Hkeep.
    destruct (fold_left _ _ _) as [nd2 any]. cbn [fst] in *. rewrite Hkeep; [done|]. intros n h1 Hn1 Hf1 E.
    unfold flag in Hf, Hf1. cbn [with_default nd_planes nd_flags] in *. rewrite Hfl in Hf1. rewrite Hp in Hn1.
    apply lookup_insert_Some in Hn1 as [[<- <-]|[_ Hn1]]; [cbn in Hf1; congruence|].
    destruct (pl_tun_tasks h1) as [tasks|] eqn:Ht; [|by rewrite (Hnamed n h1 Hn1 Ht) in E].
    destruct (ok_running _ _ _ _ Hok n h1 tasks Hn1 Ht) as (_ & _ & [l Hl]). by rewrite E, Hd in Hl.
Qed.
End Standby.

(** ** Concrete histories *)
Import Demo.

Definition sample_kernel (name : string) : Kernel := mkKernel name true true true true true.
Definition sample_subnet : Subnet := (176685056, 24).
Definition sample_ops : list Op :=
  [OpActivate None sample_kernel;
   OpInsert "home" (mkId 9) 176685058 sample_subnet; OpCreateTun "home" 176685058 sample_subnet (sample_kernel "tun0");
   OpInsert "work" (mkId 8) 176685059 sample_subnet; OpCreateTun "work" 176685059 sample_subnet (sample_kernel "tun1");
   OpCreateTun "home" 176685058 sample_subnet (sample_kernel "tun2");
   OpDeactivate (Some "work") sample_kernel].


(** [home] runs, the node goes on standby, and [late] is joined. *)
Definition standby_ops : list Op :=
  [OpActivate None sample_kernel;
   OpInsert "home" (mkId 9) 176685058 sample_subnet; OpCreateTun "home" 176685058 sample_subnet (sample_kernel "tun0");
   OpDeactivate None sample_kernel;
   OpInsert "late" (mkId 8) 176685059 sample_subnet].

Lemma quiet_all nd :
  bool_decide (map_Forall (fun _ h => flag nd (pl_active h) = false -> forwarded_from nd (pl_tun_name h) = false) (nd_planes nd)) = true ->
  quiet nd.
Proof. intros Hq%bool_decide_eq_true network h Hn. by apply (Hq network h Hn). Qed.

Lemma standby_stops_traffic_witness :
  exists nd, history (mkId 3) start standby_ops = Some nd
    /\ (forall network h, nd_planes (deactivate nd None sample_kernel).1 !! network = Some h ->
          forwarded_from (deactivate nd None sample_kernel).1 (pl_tun_name h) = false)
    /\ forwarded_from (create_and_attach_network_tun (mkId 3) nd "late" 176685059 sample_subnet (sample_kernel "tun1")) "tun1" = true.
Proof.
  destruct (history (mkId 3) start standby_ops) as [nd|] eqn:E; [|vm_compute in E; discriminate E].
  exists nd. split; [reflexivity|]. destruct (standby_stops_traffic (mkId 3) standby_ops nd sample_kernel E) as [Hstop Hlate].
  vm_compute in E. injection E as <-. split.
  - intros network h Hn. refine (proj2 (Hstop _ _ network h Hn)); [reflexivity|]. apply quiet_all. vm_compute. reflexivity.
  - refine (proj1 (Hlate "late" _ _ (sample_kernel "tun1") (mkPlane (mkId 8) 176685059 sample_subnet "pending" 5 None 6) _ _ _ _ _ _));
      [reflexivity..|discriminate].
Defined.

(** A network inserted under the name of another one, as by two joins of the same network that both passed the check
    before either was finished: the first one's tasks go on, kept by nobody. *)
Lemma reinserted_network_leaks :
  let nd := foldl (exec (mkId 3)) start
    [OpInsert "home" (mkId 9) 176685058 sample_subnet; OpCreateTun "home" 176685058 sample_subnet (sample_kernel "tun0");
     OpInsert "home" (mkId 9) 176685058 sample_subnet; OpCreateTun "home" 176685058 sample_subnet (sample_kernel "tun1")] in
  nd_running nd !! 3%nat = Some (Writer "tun0" 2 1) /\ size (nd_planes nd) = 1%nat /\ size (nd_running nd) = 4%nat
  /\ (pl_tun_name <$> nd_planes nd !! "home") = Some "tun1".
Proof. vm_compute. done. Qed.

(** A detached network keeps the name of its interface: tearing it down deletes the interface of the network that
    has got the name since. *)
Lemma detached_name_reused :
  let nd := foldl (exec (mkId 3)) start
    [OpInsert "home" (mkId 9) 176685058 sample_subnet; OpCreateTun "home" 176685058 sample_subnet (sample_kernel "tun0");
     OpDetach "home";
     OpInsert "work" (mkId 8) 176685059 sample_subnet; OpCreateTun "work" 176685059 sample_subnet (sample_kernel "tun0");
     OpTeardown "home" (sample_kernel "")] in
  (pl_tun_name <$> nd_planes nd !! "work") = Some "tun0" /\ nd_links nd !! "tun0" = None.
Proof. vm_compute. done. Qed.
