(* ===== verification/Files.v ===== *)
(** * Writing a file of the configuration (src/src/config/storage.rs)

    [write_file] as the system calls it makes, one at a time, so that several writers
    can be interleaved and any of them can stop at any call: the directory is made, a
    temporary file is created beside the target, filled in pieces, given its mode and owner
    and renamed over the target.

    The file system is one directory: names of inodes.  An open file is its inode, whatever
    becomes of its name; creating a file under a name that is taken empties that inode. *)

From S2P Require Import Prelude.

(** ** The directory *)
Record Inode := mkInode { in_bytes : list Z; in_mode : Z; in_uid : Z; in_gid : Z }.

Record Fs := mkFs {
  fs_dir : option (Z * Z * Z);
  fs_entries : gmap string nat;
  fs_inodes : gmap nat Inode;
  fs_next : nat;
}.
Implicit Types fs : Fs.

Definition with_entries fs e : Fs := mkFs (fs_dir fs) e (fs_inodes fs) (fs_next fs).
Definition with_inode fs (i : nat) (x : Inode) : Fs := mkFs (fs_dir fs) (fs_entries fs) (<[i := x]> (fs_inodes fs)) (fs_next fs).

Definition read fs (name : string) : option (list Z) := i ← fs_entries fs !! name; in_bytes <$> fs_inodes fs !! i.

(** [O_CREAT | O_TRUNC], with the mode that the process's mask leaves of 0666. *)
Definition open_new fs (umask : Z) (name : string) : Fs * nat :=
  match fs_entries fs !! name with
  | Some i =>
      match fs_inodes fs !! i with
      | Some x => (with_inode fs i (mkInode [] (in_mode x) (in_uid x) (in_gid x)), i)
      | None => (fs, i)
      end
  | None =>
      (mkFs (fs_dir fs) (<[name := fs_next fs]> (fs_entries fs))
         (<[fs_next fs := mkInode [] (Z.land 438 (Z.lnot umask)) 0 0]> (fs_inodes fs)) (S (fs_next fs)), fs_next fs)
  end.

(** Writing at an offset; past the end the gap is zeros. *)
Definition write_at (bytes : list Z) (pos : nat) (chunk : list Z) : list Z :=
  (take pos bytes ++ replicate (pos - length bytes) 0 ++ chunk ++ drop (pos + length chunk) bytes)%list.

Definition change fs (i : nat) (f : Inode -> Inode) : Fs :=
  match fs_inodes fs !! i with Some x => with_inode fs i (f x) | None => fs end.
Definition change_named fs (name : string) (f : Inode -> Inode) : Fs :=
  match fs_entries fs !! name with Some i => change fs i f | None => fs end.

(** ** A writer *)
Inductive Stage :=
| SBegin
| SDirMade
| SWriting (i : nat) (pos : nat)
| SWritten
| SModeSet
| SOwned
| SCleanup
| SDone (ok : bool).
#[export] Instance stage_eq_dec : EqDecision Stage.
Proof. solve_decision. Defined.

Record FileWriter := mkWriter { w_name : string; w_bytes : list Z; w_secret : bool; w_pid : Z; w_stage : Stage }.
Implicit Types w : FileWriter.

Definition at_stage w (s : Stage) : FileWriter := mkWriter (w_name w) (w_bytes w) (w_secret w) (w_pid w) s.

(** The name of the temporary file. *)
Definition tmp w : string := "." +:+ w_name w +:+ ".tmp." +:+ dec (w_pid w).
Arguments tmp : simpl never.

(** How a call ends; a write says how much it took. *)
Inductive Answer := Fails | Succeeds | Wrote (n : nat).
Definition goes (a : Answer) : bool := match a with Fails => false | _ => true end.

Record Host := mkHost { h_umask : Z; h_tetron_gid : option Z }.

(** [set_owner] on Linux: the owner is root. *)
Definition owner_gid (h : Host) (secret : bool) : Z := if secret then 0 else default 0 (h_tetron_gid h).
Definition file_mode (secret : bool) : Z := if secret then 384 else 416.

(** [ensure_dir]; mode and owner are set as well as possible, here they are. *)
Definition ensure_dir (h : Host) fs : Fs :=
  mkFs (Some (488, 0, owner_gid h false)) (fs_entries fs) (fs_inodes fs) (fs_next fs).

(** [write_file], by one call. *)
Definition write_step (h : Host) fs w (a : Answer) : Fs * FileWriter :=
  match w_stage w with
  | SBegin => if goes a then (ensure_dir h fs, at_stage w SDirMade) else (fs, at_stage w (SDone false))
  | SDirMade =>
      if goes a then let '(fs, i) := open_new fs (h_umask h) (tmp w) in (fs, at_stage w (SWriting i 0))
      else (fs, at_stage w (SDone false))
  | SWriting i pos =>
      if (length (w_bytes w) <=? pos)%nat then (fs, at_stage w SWritten)
      else
        match a with
        | Wrote (S n) =>
            let chunk := take (S n) (drop pos (w_bytes w)) in
            (change fs i (fun x => mkInode (write_at (in_bytes x) pos chunk) (in_mode x) (in_uid x) (in_gid x)),
             at_stage w (SWriting i (pos + length chunk)))
        | _ => (fs, at_stage w (SDone false))
        end
  | SWritten =>
      (if goes a then change_named fs (tmp w) (fun x => mkInode (in_bytes x) (file_mode (w_secret w)) (in_uid x) (in_gid x)) else fs,
       at_stage w SModeSet)
  | SModeSet =>
      (if goes a then change_named fs (tmp w) (fun x => mkInode (in_bytes x) (in_mode x) 0 (owner_gid h (w_secret w))) else fs,
       at_stage w SOwned)
  | SOwned =>
      match fs_entries fs !! tmp w with
      | Some i =>
          if goes a then (with_entries fs (<[w_name w := i]> (delete (tmp w) (fs_entries fs))), at_stage w (SDone true))
          else (fs, at_stage w SCleanup)
      | None => (fs, at_stage w SCleanup)
      end
  | SCleanup => (if goes a then with_entries fs (delete (tmp w) (fs_entries fs)) else fs, at_stage w (SDone false))
  | SDone _ => (fs, w)
  end.

(** ** Many writers *)

(** Each step is of one writer. *)
Fixpoint run_writers (h : Host) fs (ws : list FileWriter) (schedule : list (nat * Answer)) : Fs * list FileWriter :=
  match schedule with
  | [] => (fs, ws)
  | (k, a) :: schedule =>
      match ws !! k with
      | Some w => let '(fs, w) := write_step h fs w a in run_writers h fs (<[k := w]> ws) schedule
      | None => run_writers h fs ws schedule
      end
  end.

(** One writer alone, through the whole of [write_file]. *)
Definition write_file (h : Host) fs (name : string) (bytes : list Z) (secret : bool) (pid : Z) (answers : list Answer) : Fs * Stage :=
  let '(fs, ws) := run_writers h fs [mkWriter name bytes secret pid SBegin] (pair 0%nat <$> answers) in
  (fs, match ws with w :: _ => w_stage w | [] => SBegin end).

(** ** Moving an earlier tree *)
Inductive Entry := EFile (bytes : list Z) (mode : Z) | EDir (name : string).
Definition is_file (e : Entry) : bool := match e with EFile _ _ => true | EDir _ => false end.

Definition populated (new : gmap string Entry) : bool :=
  bool_decide (is_Some (new !! "secret_key")) || bool_decide (is_Some (new !! "settings.toml"))
  || bool_decide (is_Some (new !! "networks.toml"))
  || match new !! "networks" with Some (EDir _) => true | _ => false end.

(** [restrict_perms]. *)
Definition restrict_perms (secret : bool) (e : Entry) : Entry :=
  match e with EFile bytes _ => EFile bytes (file_mode secret) | EDir name => EDir name end.

(** One entry; [renames] says for which the rename goes through. *)
Definition move_entry (renames : string -> bool) (acc : gmap string Entry * gmap string Entry * Z) (e : string * Entry)
  : gmap string Entry * gmap string Entry * Z :=
  let '(old, new, moved) := acc in
  if renames e.1 then (delete e.1 old, <[e.1 := e.2]> new, moved + 1) else acc.

(** [migrate_location]: the old directory, if there is one apart from the new, and the new one. *)
Definition migrate_location (renames : string -> bool) (old : option (gmap string Entry)) (new : gmap string Entry)
  : option (gmap string Entry) * gmap string Entry :=
  if populated new then (old, new)
  else
    match old with
    | None => (None, new)
    | Some o =>
        let '(o, n, moved) := fold_left (move_entry renames) (map_to_list o) (o, new, 0) in
        (Some o, if 0 <? moved then restrict_perms true <$> n else n)
    end.

(** ** What a step leaves alone *)

(** Every name has an inode of its own. *)
Record fs_ok fs : Prop := {
  names_apart : forall n1 n2 i, fs_entries fs !! n1 = Some i -> fs_entries fs !! n2 = Some i -> n1 = n2;
  names_valid : forall n i, fs_entries fs !! n = Some i -> (i < fs_next fs)%nat /\ is_Some (fs_inodes fs !! i);
}.

(** The name still stands for the same inode, with the same bytes. *)
Definition same_at fs fs' (n : string) : Prop := fs_entries fs' !! n = fs_entries fs !! n /\ read fs' n = read fs n.

Lemma change_ok fs i f : fs_ok fs -> fs_ok (change fs i f).
Proof.
  intros [Ha Hv]. unfold change. destruct (fs_inodes fs !! i) as [x|] eqn:E; [|done]. split; [exact Ha|]. cbn. intros n j Hj.
  destruct (Hv n j Hj) as [? ?]. split; [done|]. destruct (decide (i = j)) as [->|]; [by rewrite lookup_insert_eq|by rewrite lookup_insert_ne].
Qed.

Lemma change_same fs i f n : fs_entries fs !! n <> Some i -> same_at fs (change fs i f) n.
Proof.
  intros Hn. unfold change, same_at. destruct (fs_inodes fs !! i) as [x|]; [|done]. split; [done|]. unfold read. cbn.
  destruct (fs_entries fs !! n) as [j|]; [|done]. cbn. rewrite lookup_insert_ne; [done|congruence].
Qed.

Lemma change_read fs i f n x :
  fs_entries fs !! n = Some i -> fs_inodes fs !! i = Some x -> read (change fs i f) n = Some (in_bytes (f x)).
Proof. intros Hn Hx. unfold change, read. rewrite Hx. cbn. rewrite Hn. cbn. by rewrite lookup_insert_eq. Qed.

Lemma change_named_ok fs name f : fs_ok fs -> fs_ok (change_named fs name f).
Proof. intros Hok. unfold change_named. destruct (fs_entries fs !! name); [by apply change_ok|done]. Qed.

Lemma change_named_same fs name f n : fs_ok fs -> n <> name -> same_at fs (change_named fs name f) n.
Proof.
  intros Hok Hne. unfold change_named. destruct (fs_entries fs !! name) as [i|] eqn:E; [|done]. apply change_same.
  intros Hn. by destruct (Hne (names_apart _ Hok n name i Hn E)).
Qed.

(** A new mode or owner. *)
Lemma change_named_keeps fs name f bytes :
  (forall x, in_bytes (f x) = in_bytes x) -> read fs name = Some bytes -> read (change_named fs name f) name = Some bytes.
Proof.
  intros Hf Hr. unfold change_named. destruct (fs_entries fs !! name) as [i|] eqn:E; [|done].
  unfold read in Hr. rewrite E in Hr. cbn in Hr. destruct (fs_inodes fs !! i) as [x|] eqn:Hx; [|done].
  rewrite (change_read fs i f name x E Hx), Hf. exact Hr.
Qed.

Lemma open_new_ok fs umask name : fs_ok fs -> fs_ok (open_new fs umask name).1.
Proof.
  intros Hok. pose proof Hok as [Ha Hv]. unfold open_new. destruct (fs_entries fs !! name) as [i|] eqn:E.
  - destruct (fs_inodes fs !! i) as [x|] eqn:Hx; [|done]. cbn [fst].
    pose proof (change_ok fs i (fun x => mkInode [] (in_mode x) (in_uid x) (in_gid x)) Hok) as Hc. unfold change in Hc. by rewrite Hx in Hc.
  - cbn. split; cbn.
    + intros n1 n2 i [[<- <-]|[H1 N1]]%lookup_insert_Some [[<- Hi]|[H2 N2]]%lookup_insert_Some; [done|..].
      * destruct (Hv n2 _ N2). lia.
      * subst i. destruct (Hv n1 _ N1). lia.
      * by apply (Ha n1 n2 i).
    + intros n i [[<- <-]|[_ Hn]]%lookup_insert_Some; [split; [lia|by rewrite lookup_insert_eq]|].
      destruct (Hv n i Hn) as [? ?]. split; [lia|]. rewrite lookup_insert_ne; [done|lia].
Qed.

Lemma open_new_same fs umask name n : fs_ok fs -> n <> name -> same_at fs (open_new fs umask name).1 n.
Proof.
  intros Hok Hne. unfold open_new. destruct (fs_entries fs !! name) as [i|] eqn:E.
  - destruct (fs_inodes fs !! i) as [x|] eqn:Hx; [|done].
    assert (fs_entries fs !! n <> Some i) as Hn by (intros Hn; by destruct (Hne (names_apart _ Hok n name i Hn E))).
    pose proof (change_same fs i (fun x => mkInode [] (in_mode x) (in_uid x) (in_gid x)) n Hn) as Hc. unfold change in Hc. by rewrite Hx in Hc.
  - unfold same_at, read. cbn. rewrite lookup_insert_ne by done. split; [done|].
    destruct (fs_entries fs !! n) as [j|] eqn:Hj; [|done]. cbn. destruct (names_valid _ Hok n j Hj). rewrite lookup_insert_ne; [done|lia].
Qed.

Lemma open_new_empty fs umask name :
  fs_ok fs -> let '(fs', i) := open_new fs umask name in
  fs_entries fs' !! name = Some i /\ in_bytes <$> fs_inodes fs' !! i = Some [].
Proof.
  intros Hok. unfold open_new. destruct (fs_entries fs !! name) as [i|] eqn:E.
  - destruct (names_valid _ Hok name i E) as [_ [x Hx]]. rewrite Hx. cbn. by rewrite lookup_insert_eq.
  - cbn. by rewrite !lookup_insert_eq.
Qed.

(** ** Files are never torn *)

(** What has been written so far is where the writer thinks it is. *)
Definition stage_ok fs w : Prop :=
  match w_stage w with
  | SWriting i pos =>
      fs_entries fs !! tmp w = Some i /\ (pos <= length (w_bytes w))%nat /\ in_bytes <$> fs_inodes fs !! i = Some (take pos (w_bytes w))
  | SWritten | SModeSet | SOwned => read fs (tmp w) = Some (w_bytes w)
  | _ => True
  end.

Lemma stage_ok_same fs fs' w : same_at fs fs' (tmp w) -> stage_ok fs w -> stage_ok fs' w.
Proof.
  intros [He Hr]. unfold stage_ok, read in *. rewrite He in *. destruct (w_stage w) as [| |i pos| | | | |]; try done; try (by rewrite Hr).
  intros (Hi & Hp & Hx). rewrite Hi in *. cbn in Hr. by rewrite Hr.
Qed.

Lemma write_at_end (bytes : list Z) pos n :
  (pos <= length bytes)%nat ->
  write_at (take pos bytes) pos (take n (drop pos bytes)) = take (pos + length (take n (drop pos bytes))) bytes.
Proof.
  intros Hp. unfold write_at. rewrite length_take_le by done. rewrite (take_ge (take pos bytes)) by (rewrite length_take; lia).
  replace (pos - pos)%nat with 0%nat by lia. cbn [replicate app].
  rewrite (drop_ge (take pos bytes)) by (rewrite length_take; lia). rewrite app_nil_r, length_take, length_drop.
  rewrite take_take_drop. destruct (Nat.le_ge_cases n (length bytes - pos)).
  - by rewrite Nat.min_l.
  - rewrite Nat.min_r by done. rewrite !take_ge by lia. done.
Qed.

(** A name that does not begin with a dot. *)
Definition visible (name : string) : bool :=
  match name with String c _ => negb (Ascii.eqb c ".") | EmptyString => true end.

Lemma visible_no_tmp w w' : visible (w_name w) = true -> tmp w' <> w_name w.
Proof. intros Hv E. by rewrite <- E in Hv. Qed.

Lemma rename_ok fs w i :
  fs_ok fs -> fs_entries fs !! tmp w = Some i -> fs_ok (with_entries fs (<[w_name w := i]> (delete (tmp w) (fs_entries fs)))).
Proof.
  intros [Ha Hv] Ht. split; cbn.
  - intros n1 n2 j [[<- <-]|[H1 [D1 N1]%lookup_delete_Some]]%lookup_insert_Some [[<- Hj]|[H2 [D2 N2]%lookup_delete_Some]]%lookup_insert_Some;
      [done|..].
    + by destruct (D2 (Ha (tmp w) n2 i Ht N2)).
    + subst j. by destruct (D1 (Ha (tmp w) n1 i Ht N1)).
    + by apply (Ha n1 n2 j).
  - intros n j [[<- <-]|[_ [_ Hn]%lookup_delete_Some]]%lookup_insert_Some; [by apply (Hv (tmp w))|by apply (Hv n)].
Qed.

Lemma rename_read fs w i n :
  fs_entries fs !! tmp w = Some i -> n <> tmp w ->
  let fs' := with_entries fs (<[w_name w := i]> (delete (tmp w) (fs_entries fs))) in
  (n = w_name w /\ read fs' n = read fs (tmp w)) \/ (n <> w_name w /\ same_at fs fs' n).
Proof.
  intros Ht Hn. unfold same_at, read. cbn. destruct (decide (n = w_name w)) as [->|Hne].
  - left. by rewrite lookup_insert_eq, Ht.
  - right. by rewrite lookup_insert_ne, lookup_delete_ne by done.
Qed.

Lemma delete_tmp fs w : fs_ok fs ->
  fs_ok (with_entries fs (delete (tmp w) (fs_entries fs)))
  /\ forall n, n <> tmp w -> same_at fs (with_entries fs (delete (tmp w) (fs_entries fs))) n.
Proof.
  intros [Ha Hv]. split; [split; cbn|].
  - intros n1 n2 i [_ N1]%lookup_delete_Some [_ N2]%lookup_delete_Some. by apply (Ha n1 n2 i).
  - intros n i [_ Hn]%lookup_delete_Some. by apply (Hv n).
  - intros n Hn. unfold same_at, read. cbn. by rewrite lookup_delete_ne.
Qed.

Lemma chunk_step fs w i pos n :
  fs_ok fs -> fs_entries fs !! tmp w = Some i -> (pos <= length (w_bytes w))%nat ->
  in_bytes <$> fs_inodes fs !! i = Some (take pos (w_bytes w)) ->
  let chunk := take n (drop pos (w_bytes w)) in
  let fs' := change fs i (fun x => mkInode (write_at (in_bytes x) pos chunk) (in_mode x) (in_uid x) (in_gid x)) in
  fs_ok fs' /\ stage_ok fs' (at_stage w (SWriting i (pos + length chunk))) /\ forall m, m <> tmp w -> same_at fs fs' m.
Proof.
  intros Hok Hi Hp Hx chunk fs'. split; [by apply change_ok|]. split.
  - destruct (fs_inodes fs !! i) as [x|] eqn:E; [|done]. cbn in Hx. injection Hx as Hx.
    unfold stage_ok, fs', change. cbn [w_stage at_stage w_bytes tmp w_name w_pid]. rewrite E. cbn. rewrite lookup_insert_eq. cbn. split_and!.
    + exact Hi.
    + unfold chunk. rewrite length_take, length_drop. lia.
    + rewrite Hx. unfold chunk. by rewrite write_at_end.
  - intros m Hm. apply change_same. intros Hj. by destruct (Hm (names_apart _ Hok m (tmp w) i Hj Hi)).
Qed.

Lemma write_step_ok h fs w a :
  fs_ok fs -> stage_ok fs w ->
  let '(fs', w') := write_step h fs w a in
  fs_ok fs' /\ stage_ok fs' w' /\ w' = at_stage w (w_stage w') /\ (w_stage w = SDone true -> w_stage w' = SDone true)
  /\ ((w_stage w' = SDone true -> w_stage w <> SDone true ->
         forall n, n <> tmp w -> (n = w_name w /\ read fs' n = Some (w_bytes w)) \/ (n <> w_name w /\ same_at fs fs' n)))
  /\ ((w_stage w' <> SDone true \/ w_stage w = SDone true) -> forall n, n <> tmp w -> same_at fs fs' n).
Proof.
  intros Hok Hst. unfold write_step. destruct (w_stage w) as [| |i pos| | | | |ok] eqn:Hw.
  - destruct (goes a); (split_and!; [by destruct Hok|done|done|done|done|by intros]).
  - destruct (goes a); [|split_and!; [done..|by intros _ n Hn]].
    pose proof (open_new_ok fs (h_umask h) (tmp w) Hok) as H1. pose proof (open_new_empty fs (h_umask h) (tmp w) Hok) as H2.
    pose proof (fun n => open_new_same fs (h_umask h) (tmp w) n Hok) as H3.
    destruct (open_new fs (h_umask h) (tmp w)) as [fs' i]. cbn [fst] in *. destruct H2 as [H2 H2'].
    split_and!; [done| |done..|by auto]. unfold stage_ok. cbn. split_and!; [done|lia|done].
  - unfold stage_ok in Hst. rewrite Hw in Hst. destruct Hst as (Hi & Hp & Hx).
    destruct (Nat.leb_spec (length (w_bytes w)) pos) as [Hle|Hlt].
    { split_and!; [done| |done..|by intros]. unfold stage_ok. cbn. rewrite take_ge in Hx by done.
      unfold read. change (tmp (at_stage w SWritten)) with (tmp w). by rewrite Hi. }
    destruct a as [| |[|n]]; [split_and!; [done..|by intros _ n Hn]|split_and!; [done..|by intros _ n Hn]|split_and!; [done..|by intros _ n Hn]|].
    destruct (chunk_step fs w i pos (S n) Hok Hi Hp Hx) as (H1 & H2 & H3). split_and!; [done..|intros _ m Hm; by apply H3].
  - unfold stage_ok in Hst. rewrite Hw in Hst. destruct (goes a).
    + split_and!; [by apply change_named_ok| |done..|intros _ n Hn; by apply change_named_same].
      unfold stage_ok. cbn. by apply change_named_keeps.
    + split_and!; [done..|by intros _ n Hn].
  - unfold stage_ok in Hst. rewrite Hw in Hst. destruct (goes a).
    + split_and!; [by apply change_named_ok| |done..|intros _ n Hn; by apply change_named_same].
      unfold stage_ok. cbn. by apply change_named_keeps.
    + split_and!; [done..|by intros _ n Hn].
  - unfold stage_ok in Hst. rewrite Hw in Hst. destruct (fs_entries fs !! tmp w) as [i|] eqn:Ht; [|split_and!; [done..|by intros _ n Hn]].
    destruct (goes a); [|split_and!; [done..|by intros _ n Hn]]. split_and!; [by apply rename_ok|done|done|done| |by intros [?|?]].
    intros _ _ n Hn. destruct (rename_read fs w i n Ht Hn) as [[-> ->]|?]; [by left|by right].
  - destruct (delete_tmp fs w Hok) as [H1 H2]. destruct (goes a); (split_and!; [done..|intros _ n Hn; by try apply H2]).
  - split_and!; [done|done|by destruct w; cbn in *; subst|by rewrite Hw|by rewrite Hw|by intros].
Qed.

(** ** Any interleaving *)

(** The last acknowledged write to a name, or what was there before any. *)
Definition settled (fs0 : Fs) fs (ws : list FileWriter) (n : string) : Prop :=
  ((forall w, w ∈ ws -> w_name w = n -> w_stage w <> SDone true) /\ read fs n = read fs0 n)
  \/ exists w, w ∈ ws /\ w_name w = n /\ w_stage w = SDone true /\ read fs n = Some (w_bytes w).

Record writers_ok (fs0 : Fs) fs (ws : list FileWriter) : Prop := {
  ok_fs : fs_ok fs;
  ok_stages : forall w, w ∈ ws -> stage_ok fs w;
  ok_tmps : NoDup (tmp <$> ws);
  ok_visible : forall w, w ∈ ws -> visible (w_name w) = true;
  ok_settled : forall n, n ∉ tmp <$> ws -> settled fs0 fs ws n;
}.

Lemma insert_cases (ws : list FileWriter) k w w' x :
  ws !! k = Some w -> x ∈ <[k := w']> ws -> x = w' \/ exists j, j <> k /\ ws !! j = Some x.
Proof.
  intros Hk [j Hj]%list_elem_of_lookup. destruct (decide (j = k)) as [->|Hne].
  - left. rewrite list_lookup_insert_eq in Hj by (by eapply lookup_lt_Some). by injection Hj.
  - right. exists j. by rewrite list_lookup_insert_ne in Hj.
Qed.

Lemma settled_step fs0 fs fs' ws k w w' n :
  ws !! k = Some w -> w' = at_stage w (w_stage w') -> (w_stage w = SDone true -> w_stage w' = SDone true) ->
  same_at fs fs' n -> (w_stage w' = SDone true -> w_stage w <> SDone true -> w_name w <> n) ->
  settled fs0 fs ws n -> settled fs0 fs' (<[k := w']> ws) n.
Proof.
  intros Hk Hw Hdone [_ Hr] Hnew [[Hnone Hread]|(x & Hx & Hn & Hd & Hread)].
  - left. split; [|congruence]. intros y Hy Hyn. destruct (insert_cases ws k w w' y Hk Hy) as [->|(j & _ & Hj)].
    + intros Hd. assert (w_name w = n) as Hn by (by rewrite Hw in Hyn). apply Hnew; [done| |done].
      apply (Hnone w); [by eapply list_elem_of_lookup_2|done].
    + apply (Hnone y); [by eapply list_elem_of_lookup_2|done].
  - right. apply list_elem_of_lookup in Hx as [j Hj]. destruct (decide (j = k)) as [->|Hne].
    + rewrite Hk in Hj. injection Hj as <-. exists w'. split_and!; [|by rewrite Hw|by apply Hdone|].
      * apply (list_elem_of_lookup_2 _ k). rewrite list_lookup_insert_eq; [done|by eapply lookup_lt_Some].
      * rewrite Hr, Hread. by rewrite Hw.
    + exists x. split_and!; [|done..|congruence]. apply (list_elem_of_lookup_2 _ j). by rewrite list_lookup_insert_ne.
Qed.

Lemma writers_step h fs0 fs ws k w a :
  writers_ok fs0 fs ws -> ws !! k = Some w ->
  writers_ok fs0 (write_step h fs w a).1 (<[k := (write_step h fs w a).2]> ws).
Proof.
  intros [Hok Hst Hnd Hvis Hset] Hk. pose proof (write_step_ok h fs w a Hok (Hst w ltac:(by eapply list_elem_of_lookup_2))) as Hstep.
  destruct (write_step h fs w a) as [fs' w']. cbn [fst snd]. destruct Hstep as (Hok' & Hst' & Hw & Hdone & Hren & Hsame).
  assert (tmp w' = tmp w) as Htmp by (by rewrite Hw).
  assert (tmp <$> <[k := w']> ws = tmp <$> ws) as Htmps.
  { rewrite list_fmap_insert, Htmp. apply list_insert_id. by rewrite list_lookup_fmap, Hk. }
  assert (forall j x, ws !! j = Some x -> j <> k -> tmp x <> tmp w) as Hother.
  { intros j x Hj Hne E. apply Hne. apply (NoDup_lookup (tmp <$> ws) j k (tmp w) Hnd); rewrite list_lookup_fmap;
      [by rewrite Hj; cbn; rewrite E|by rewrite Hk]. }
  assert (forall n, n <> tmp w -> n <> w_name w -> same_at fs fs' n) as Hframe.
  { intros n Hn Hne. destruct (decide (w_stage w' = SDone true)) as [Hd|Hd]; [|by apply Hsame; [left|]].
    destruct (decide (w_stage w = SDone true)) as [Hd0|Hd0]; [by apply Hsame; [right|]|]. by destruct (Hren Hd Hd0 n Hn) as [[? _]|[_ ?]]. }
  assert (w ∈ ws) as Hin by (by eapply list_elem_of_lookup_2).
  split; [done| | | |].
  - intros x Hx. destruct (insert_cases ws k w w' x Hk Hx) as [->|(j & Hne & Hj)]; [done|].
    apply (stage_ok_same fs); [|apply Hst; by eapply list_elem_of_lookup_2]. apply Hframe; [by apply (Hother j)|].
    apply visible_no_tmp. by apply Hvis.
  - by rewrite Htmps.
  - intros x Hx. destruct (insert_cases ws k w w' x Hk Hx) as [->|(j & Hne & Hj)]; [rewrite Hw; exact (Hvis w Hin)|].
    apply Hvis. by eapply list_elem_of_lookup_2.
  - intros n. rewrite Htmps. intros Hn.
    assert (n <> tmp w) as Hnt by (intros ->; apply Hn, list_elem_of_fmap; by exists w).
    destruct (decide (w_stage w' = SDone true)) as [Hd|Hd]; [destruct (decide (w_stage w = SDone true)) as [Hd0|Hd0]|].
    + apply (settled_step fs0 fs _ ws k w); [done..|apply Hsame; [by right|done]|done|by apply Hset].
    + destruct (Hren Hd Hd0 n Hnt) as [[-> Hread]|[Hne Hs]].
      * right. exists w'. split_and!; [|by rewrite Hw|done|by rewrite Hread, Hw].
        apply (list_elem_of_lookup_2 _ k). rewrite list_lookup_insert_eq; [done|by eapply lookup_lt_Some].
      * apply (settled_step fs0 fs _ ws k w); [done..|by intros _ _ ?|by apply Hset].
    + apply (settled_step fs0 fs _ ws k w); [done..|apply Hsame; [by left|done]|done|by apply Hset].
Qed.

Lemma writers_run h fs0 schedule fs ws :
  writers_ok fs0 fs ws -> let '(fs', ws') := run_writers h fs ws schedule in writers_ok fs0 fs' ws' /\ tmp <$> ws' = tmp <$> ws.
Proof.
  revert fs ws. induction schedule as [|[k a] schedule IH]; intros fs ws Hok; [done|]. cbn [run_writers].
  destruct (ws !! k) as [w|] eqn:Hk; [|by apply IH]. pose proof (writers_step h fs0 fs ws k w a Hok Hk) as Hs.
  pose proof (write_step_ok h fs w a (ok_fs _ _ _ Hok) (ok_stages _ _ _ Hok w ltac:(by eapply list_elem_of_lookup_2))) as Hw.
  destruct (write_step h fs w a) as [fs1 w1]. cbn [fst snd] in Hs. specialize (IH fs1 _ Hs).
  destruct (run_writers h fs1 _ schedule) as [fs' ws']. destruct IH as [IH1 IH2]. split; [done|]. rewrite IH2, list_fmap_insert.
  destruct Hw as (_ & _ & -> & _). apply list_insert_id. by rewrite list_lookup_fmap, Hk.
Qed.

(** C13: a file of the configuration is never torn and an acknowledged write is never lost.  Whatever the other writers of the
    directory do, in any interleaving of their system calls, with calls that fail, partial writes and writers that
    stop anywhere for ever, as long as no two of them use the same temporary name: at every moment a file has the
    whole contents of one write that was acknowledged, or, when none was, what it had before. *)
Theorem config_file_never_torn (h : Host) fs (ws : list FileWriter) (schedule : list (nat * Answer)) :
  fs_ok fs -> Forall (fun w => w_stage w = SBegin /\ visible (w_name w) = true) ws -> NoDup (tmp <$> ws) ->
  let '(fs', ws') := run_writers h fs ws schedule in
  forall n, visible n = true -> settled fs fs' ws' n.
Proof.
  intros Hok Hws Hnd. rewrite Forall_forall in Hws.
  assert (writers_ok fs fs ws) as Hstart.
  { split; [done| |done| |].
    - intros w Hw. unfold stage_ok. by rewrite (proj1 (Hws w Hw)).
    - intros w Hw. by apply Hws.
    - intros n _. left. split; [|done]. intros w Hw _. by rewrite (proj1 (Hws w Hw)). }
  pose proof (writers_run h fs schedule fs ws Hstart) as Hrun. destruct (run_writers h fs ws schedule) as [fs' ws'].
  destruct Hrun as [[_ _ _ _ Hset] Htmp]. intros n Hn. apply Hset.
  intros (w & -> & _)%list_elem_of_fmap. discriminate Hn.
Qed.

(** ** A write that goes through *)
Lemma run_one h fs w a fs' w' schedule :
  write_step h fs w a = (fs', w') -> run_writers h fs [w] ((0%nat, a) :: schedule) = run_writers h fs' [w'] schedule.
Proof. intros E. cbn. by rewrite E. Qed.

(** When no call fails, the target is a new inode with all the bytes, the mode and the owner asked for, and the
    temporary name is gone. *)
Lemma write_file_done h fs name bytes secret pid :
  let w := mkWriter name bytes secret pid SBegin in
  visible name = true -> bytes <> [] -> fs_entries fs !! tmp w = None ->
  exists fs', write_file h fs name bytes secret pid [Succeeds; Succeeds; Wrote (length bytes); Succeeds; Succeeds; Succeeds; Succeeds]
      = (fs', SDone true)
    /\ fs_entries fs' !! name = Some (fs_next fs) /\ fs_entries fs' !! tmp w = None
    /\ fs_inodes fs' !! fs_next fs = Some (mkInode bytes (file_mode secret) 0 (owner_gid h secret)).
Proof.
  intros w Hv Hb Ht. assert (tmp w <> name) as Hne by exact (visible_no_tmp w w Hv). set (i := fs_next fs).
  set (dir := Some (488, 0, owner_gid h false)). set (e := <[tmp w := i]> (fs_entries fs)).
  set (at_ x := mkFs dir e (<[i := x]> (fs_inodes fs)) (S i)).
  assert (forall f x, change (at_ x) i f = at_ (f x)) as Hch.
  { intros f x. unfold change, with_inode, at_. cbn. by rewrite lookup_insert_eq, insert_insert_eq. }
  assert (forall f x s, change_named (at_ x) (tmp (at_stage w s)) f = at_ (f x)) as Hnm.
  { intros f x s. change (tmp (at_stage w s)) with (tmp w). unfold change_named. change (fs_entries (at_ x)) with e.
    unfold e at 1. by rewrite lookup_insert_eq, Hch. }
  set (x0 := mkInode [] (Z.land 438 (Z.lnot (h_umask h))) 0 0).
  unfold write_file. cbn [fmap list_fmap]. fold w.
  rewrite (run_one h fs w Succeeds (ensure_dir h fs) (at_stage w SDirMade)) by done.
  rewrite (run_one _ _ _ _ (at_ x0) (at_stage w (SWriting i 0))).
  2:{ unfold write_step. change (w_stage (at_stage w SDirMade)) with SDirMade. cbn [goes]. change (tmp (at_stage w SDirMade)) with (tmp w).
      unfold open_new. cbn [ensure_dir fs_entries]. by rewrite Ht. }
  rewrite (run_one _ _ _ _ (at_ (mkInode bytes (in_mode x0) 0 0)) (at_stage w (SWriting i (length bytes)))).
  2:{ unfold write_step. cbn [w_stage at_stage w_bytes w]. destruct (length bytes) as [|n] eqn:Hl; [by destruct bytes|].
      cbn [Nat.leb drop]. rewrite (take_ge bytes), Hch, Hl by lia. cbn [in_bytes x0 in_mode in_uid in_gid]. do 2 f_equal.
      unfold write_at. cbn. rewrite drop_nil. by rewrite app_nil_r. }
  rewrite (run_one _ _ _ _ (at_ (mkInode bytes (in_mode x0) 0 0)) (at_stage w SWritten)).
  2:{ unfold write_step. cbn [w_stage at_stage w_bytes w]. by rewrite Nat.leb_refl. }
  rewrite (run_one _ _ _ _ (at_ (mkInode bytes (file_mode secret) 0 0)) (at_stage w SModeSet)).
  2:{ unfold write_step. change (w_stage (at_stage w SWritten)) with SWritten. cbn [goes]. by rewrite Hnm. }
  rewrite (run_one _ _ _ _ (at_ (mkInode bytes (file_mode secret) 0 (owner_gid h secret))) (at_stage w SOwned)).
  2:{ unfold write_step. change (w_stage (at_stage w SModeSet)) with SModeSet. cbn [goes]. by rewrite Hnm. }
  erewrite (run_one _ _ _ _ _ (at_stage w (SDone true))).
  2:{ unfold write_step. change (w_stage (at_stage w SOwned)) with SOwned. change (tmp (at_stage w SOwned)) with (tmp w).
      change (fs_entries (at_ (mkInode bytes (file_mode secret) 0 (owner_gid h secret)))) with e. unfold e at 1.
      rewrite lookup_insert_eq. reflexivity. }
  eexists. split; [reflexivity|]. cbn. rewrite lookup_insert_eq, lookup_insert_ne, lookup_delete_eq, lookup_insert_eq by done. done.
Qed.

(** ** Moving loses nothing *)
Lemma move_entries renames l old new moved :
  NoDup l.*1 -> 0 <= moved ->
  let '(o, n, m) := fold_left (move_entry renames) l (old, new, moved) in
  moved <= m
  /\ (forall name e, (name, e) ∈ l -> renames name = true -> n !! name = Some e /\ 0 < m)
  /\ (forall name, (renames name = false \/ name ∉ l.*1) -> o !! name = old !! name /\ n !! name = new !! name).
Proof.
  revert old new moved. induction l as [|[x ex] l IH]; intros old new moved Hnd Hm.
  { cbn. split_and!; [lia|by intros ? ? ?%elem_of_nil|done]. }
  cbn [fold_left fmap list_fmap fst] in *. apply NoDup_cons in Hnd as [Hx Hnd]. cbn [move_entry fst snd]. destruct (renames x) eqn:Hr.
  - specialize (IH (delete x old) (<[x := ex]> new) (moved + 1) Hnd ltac:(lia)).
    destruct (fold_left _ l _) as [[o n] m]. destruct IH as (H1 & H2 & H3). split_and!; [lia| |].
    + intros name e [[= -> ->]|Hin]%elem_of_cons Hn; [|by apply H2].
      destruct (H3 x (or_intror Hx)) as [_ ->]. rewrite lookup_insert_eq. split; [done|lia].
    + intros name Hn. assert (name <> x) as Hne by (intros ->; destruct Hn as [?|Hn]; [congruence|apply Hn; left]).
      destruct (H3 name) as [-> ->]; [destruct Hn as [?|Hn]; [by left|right; intros ?; apply Hn; by right]|].
      by rewrite lookup_delete_ne, lookup_insert_ne.
  - specialize (IH old new moved Hnd Hm). destruct (fold_left _ l _) as [[o n] m]. destruct IH as (H1 & H2 & H3). split_and!; [lia| |].
    + intros name e [[= -> ->]|Hin]%elem_of_cons Hn; [congruence|by apply H2].
    + intros name Hn. apply H3. destruct Hn as [?|Hn]; [by left|right; intros ?; apply Hn; by right].
Qed.

(** Every entry of the old tree is in the new one when its rename went through, a file then with mode 0600, and where it
    was otherwise; a tree that is in use is not touched. *)
Lemma migrate_loses_nothing renames (old new : gmap string Entry) :
  (populated new = true -> migrate_location renames (Some old) new = (Some old, new))
  /\ (populated new = false ->
       exists o n, migrate_location renames (Some old) new = (Some o, n)
         /\ forall name e, old !! name = Some e ->
              if renames name then n !! name = Some (restrict_perms true e) else o !! name = Some e).
Proof.
  unfold migrate_location. split; [by intros ->|]. intros ->.
  pose proof (move_entries renames (map_to_list old) old new 0 (NoDup_fst_map_to_list old) ltac:(lia)) as Hm.
  destruct (fold_left _ _ _) as [[o n] m]. destruct Hm as (_ & H2 & H3). eexists _, _. split; [done|].
  intros name e He. destruct (renames name) eqn:Hr.
  - destruct (H2 name e ltac:(by apply elem_of_map_to_list) Hr) as [Hn Hpos]. apply Z.ltb_lt in Hpos as ->.
    by rewrite lookup_fmap, Hn.
  - by rewrite (proj1 (H3 name (or_introl Hr))).
Qed.

(** ** Concrete runs *)
Definition sample_fs : Fs := mkFs (Some (488, 0, 0)) {[ "settings.toml" := 0%nat ]} {[ 0%nat := mkInode [1; 2; 3] 384 0 0 ]} 1.
Definition sample_host : Host := mkHost 18 (Some 990).

Lemma sample_fs_ok : fs_ok sample_fs.
Proof.
  split; cbn.
  - intros n1 n2 i [<- _]%lookup_singleton_Some [<- _]%lookup_singleton_Some. done.
  - intros n i [_ <-]%lookup_singleton_Some. split; [lia|by rewrite lookup_singleton_eq].
Qed.

Definition daemon_write : FileWriter := mkWriter "settings.toml" [7; 8; 9] true 100 SBegin.
Definition cli_write : FileWriter := mkWriter "settings.toml" [4; 5] true 200 SBegin.
Definition steps (k n : nat) : list (nat * Answer) := replicate n (k, Wrote 2).

(** Two processes write the same file; one of them stops in the middle. *)
Lemma config_file_never_torn_witness :
  let '(fs', ws') := run_writers sample_host sample_fs [daemon_write; cli_write] (steps 0 3 ++ steps 1 9 ++ steps 0 1)%list in
  settled sample_fs fs' ws' "settings.toml".
Proof.
  pose proof (config_file_never_torn sample_host sample_fs [daemon_write; cli_write] (steps 0 3 ++ steps 1 9 ++ steps 0 1)%list
                sample_fs_ok ltac:(repeat constructor) ltac:(by_decide)) as Hc.
  destruct (run_writers _ _ _ _) as [fs' ws']. apply Hc. reflexivity.
Defined.

(** Two writers of one process have the same temporary file: one renames it while the other has it half
    written, and the file is neither the old nor a new one. *)
Lemma same_process_tears :
  let again := mkWriter "settings.toml" [4; 5; 6] true 100 SBegin in
  let '(fs', _) := run_writers sample_host sample_fs [daemon_write; again] (steps 0 7 ++ steps 1 3 ++ steps 0 1)%list in
  read fs' "settings.toml" = Some [4; 5].
Proof. vm_compute. reflexivity. Qed.

(** While it is being written the temporary file of a secret one has the mode the process's mask leaves it,
    here 0644. *)
Lemma secret_readable_while_written :
  let '(fs', _) := run_writers sample_host sample_fs [daemon_write] (steps 0 5)%list in
  (in_mode <$> (i ← fs_entries fs' !! tmp daemon_write; fs_inodes fs' !! i)) = Some 420
  /\ read fs' (tmp daemon_write) = Some [7; 8; 9].
Proof. vm_compute. done. Qed.
