(* ===== verification/Boot.v ===== *)
(** * Starting the daemon (src/src/daemon/mesh/bootstrap.rs, src/src/transport.rs)

    [run_daemon] from the check of the overlay's range to the end of the process: the
    identity, the endpoint with its relays, lookups and extra transports, bound to the
    configured port or to any free one, the routing rule for the port that was bound, the
    blob store, and the phases that follow.

    The host is a parameter: what each read of the configuration returns, which start of
    the Tor service or of the Veilid client succeeds, and which sockets a bind gives. *)

From S2P Require Import Prelude Externs Addressing Ratelimit Dht Network Ipc Settings Storage Lifecycle Transport System.

Definition TETRON_LISTEN_PORT : Z := 43737.

Inductive BootError :=
| SubnetOverlaps (subnet : Subnet) (iface : string) (addr : Ipv4Addr) (plen : Z)
| NoConfigDir
| Identity (e : IdentityError)
| BadCollisionIndex
| ConfigUnreadable (e : StorageError)
| TorNotBuiltIn | TorUnavailable
| VeilidNotBuiltIn | VeilidUnavailable
| BadServer (e : ConfigError)
| BindFailed
| BlobsDirFailed | BlobStoreFailed.

(** ** The endpoint *)

(** Where addresses are published and looked up. *)
Inductive Lookup {Url : Type} := N0Lookup | PkarrPublisher (u : Url) | PkarrResolver (u : Url) | TorLookup.
Arguments Lookup : clear implicits.

Record QuicConfig := mkQuic { send_fairness : bool; segmentation_offload : bool }.
Definition quic_transport_config : QuicConfig := mkQuic false true.

(** [bl_relay]: [None] for the preset's relays. *)
Record Builder {Url RelayUrl : Type} := mkBuilder {
  bl_secret : list Z;
  bl_alpns : list (list Z);
  bl_bind : Z;
  bl_quic : QuicConfig;
  bl_relay : option (RelayMode RelayUrl);
  bl_lookups : list (Lookup Url);
  bl_tor : bool;
  bl_veilid : bool;
}.
Arguments Builder : clear implicits.
Arguments mkBuilder {Url RelayUrl}.

(** [ep_sockets]: the ports of the sockets. *)
Record Endpoint {Url RelayUrl : Type} := mkEndpoint { ep_built : Builder Url RelayUrl; ep_sockets : list Z }.
Arguments Endpoint : clear implicits.
Arguments mkEndpoint {Url RelayUrl}.

(** [bh_load n]: what the [n]-th read of the configuration returns; [bh_bind n port]: the
    sockets the [n]-th bind gets, port 0 asking for any. *)
Record BootHost := mkHost {
  bh_tor_feature : bool;
  bh_veilid_feature : bool;
  bh_interfaces : list (string * Ipv4Addr * Z);
  bh_load : nat -> Result AppConfig StorageError;
  bh_config_dir : nat -> bool;
  bh_generated : list Z;
  bh_key_written : bool;
  bh_collision_file : option string;
  bh_tor_builds : bool;
  bh_veilid_builds : nat -> bool;
  bh_bind : nat -> Z -> option (list Z);
  bh_now : Z;
  bh_blobs_dir : bool;
  bh_blob_store : bool;
}.
Implicit Type h : BootHost.

(** A bind gives sockets, on the port that was asked for. *)
Definition binds_as_asked h : Prop := forall n port ports, bh_bind h n port = Some ports ->
  ports <> [] /\ Forall (fun q => 0 < q <= 65535 /\ (port <> 0 -> q = port)) ports.

Section Boot.
Context `{IrohKeys, Blake3, UrlScheme, Ratelimiter, IpTool Kernel} {Url RelayUrl : Type}.
Context (parse_url : string -> option Url) (parse_relay : string -> option RelayUrl) (default_relays : list RelayUrl)
  (BLOBS_ALPN : list Z).

(** [bs_onions]: the hidden services made, [bs_veilid]: the Veilid clients started, [bs_binds]: the binds tried. *)
Record BootState := mkBoot {
  bs_kernel : Kernel;
  bs_key : option (list Z);
  bs_pkarr_override : option string;
  bs_onions : nat;
  bs_veilid : nat;
  bs_binds : nat;
}.
Implicit Type s : BootState.

Definition with_kernel s k : BootState := mkBoot k (bs_key s) (bs_pkarr_override s) (bs_onions s) (bs_veilid s) (bs_binds s).
Definition with_key s key : BootState := mkBoot (bs_kernel s) key (bs_pkarr_override s) (bs_onions s) (bs_veilid s) (bs_binds s).
Definition onion_made s : BootState := mkBoot (bs_kernel s) (bs_key s) (bs_pkarr_override s) (S (bs_onions s)) (bs_veilid s) (bs_binds s).
Definition veilid_started s : BootState := mkBoot (bs_kernel s) (bs_key s) (bs_pkarr_override s) (bs_onions s) (S (bs_veilid s)) (bs_binds s).
Definition bind_tried s : BootState := mkBoot (bs_kernel s) (bs_key s) (bs_pkarr_override s) (bs_onions s) (bs_veilid s) (S (bs_binds s)).

(** [OnceLock::set]: the first value stays. *)
Definition set_discovery_override s (o : ServerOverride) : BootState :=
  match discovery_urls o with
  | Ok (first :: _) =>
      mkBoot (bs_kernel s) (bs_key s) (Some (default first (bs_pkarr_override s))) (bs_onions s) (bs_veilid s) (bs_binds s)
  | _ => s
  end.

Fixpoint add_lookups (urls : list string) (lookups : list (Lookup Url)) : CResult (list (Lookup Url)) :=
  match urls with
  | [] => Ok lookups
  | u :: rest =>
      match parse_url u with
      | None => Err (InvalidUrl u)
      | Some url => add_lookups rest (lookups ++ [PkarrPublisher url; PkarrResolver url])%list
      end
  end.

Definition apply_discovery (lookups : list (Lookup Url)) (o : ServerOverride) : CResult (list (Lookup Url)) :=
  urls <-? discovery_urls o;
  if bool_decide (urls = []) then Ok lookups
  else add_lookups urls (if so_replace o then [] else lookups).

Definition Stepped A : Type := BootState * Result A BootError.

(** [tor]: whether the Tor transport, built by the caller, is there to be registered. *)
Definition bind_endpoint h s (secret : list Z) (alpns : list (list Z)) (tor veilid : bool) (bind : Z)
  (relay discovery : ServerOverride) : Stepped (Endpoint Url RelayUrl) :=
  match build_relay_mode parse_relay default_relays relay with
  | Err e => (s, Err (BadServer e))
  | Ok mode =>
      match apply_discovery [N0Lookup] discovery with
      | Err e => (s, Err (BadServer e))
      | Ok lookups =>
          let lookups := if tor then (lookups ++ [TorLookup])%list else lookups in
          if veilid && negb (bh_veilid_feature h) then (s, Err VeilidNotBuiltIn)
          else if veilid && negb (bh_veilid_builds h (bs_veilid s)) then (s, Err VeilidUnavailable)
          else
            let s := if veilid then veilid_started s else s in
            let builder := mkBuilder secret alpns bind quic_transport_config mode lookups tor veilid in
            (bind_tried s,
             match bh_bind h (bs_binds s) bind with
             | Some ports => Ok (mkEndpoint builder ports)
             | None => Err BindFailed
             end)
      end
  end.

(** The hidden service, made once for both binds. *)
Definition build_tor h s (tor : bool) : Stepped bool :=
  if negb tor then (s, Ok false)
  else if negb (bh_tor_feature h) then (s, Err TorNotBuiltIn)
  else if bh_tor_builds h then (onion_made s, Ok true) else (s, Err TorUnavailable).

Definition create_endpoint_with_alpns h s (secret : list Z) (alpns : list (list Z)) (tor veilid : bool)
  (relay discovery : ServerOverride) (listen_port : Z) : Stepped (Endpoint Url RelayUrl) :=
  match build_tor h s tor with
  | (s, Err e) => (s, Err e)
  | (s, Ok transport) =>
      match bind_endpoint h s secret alpns transport veilid listen_port relay discovery with
      | (s, Ok ep) => (s, Ok ep)
      | (s, Err _) => bind_endpoint h s secret alpns transport veilid 0 relay discovery
      end
  end.

(** ** The daemon *)
Record Daemon := mkDaemon {
  dm_endpoint : Endpoint Url RelayUrl;
  dm_tor_keepalive : bool;
  dm_path_preference : option string;
  dm_identity : IrohIdentityProvider;
  dm_global_gate : GlobalRateLimiter;
  dm_active : bool;
}.

Definition is_tor (transport : option TransportMode) : bool :=
  match transport with Some TransportTor => true | _ => false end.

Definition use_tor (cfg : AppConfig) : bool := existsb (fun net => is_tor (nc_transport net)) (cfg_networks cfg).
Definition use_veilid (cfg : AppConfig) : bool := existsb (fun net => is_veilid (nc_transport net)) (cfg_networks cfg).

Definition actual_listen_port (ep : Endpoint Url RelayUrl) (listen_port : Z) : Z := default listen_port (head (ep_sockets ep)).

Definition global_gate (cfg : AppConfig) (now : Z) : outcome GlobalRateLimiter :=
  let r := cfg_ratelimit cfg in from_config (rl_global_capacity r) (rl_global_refill_per_sec r) (rl_global_strike_limit r) now.

(** From the bound endpoint on: the routing rule, the gate, the blob store. *)
Definition finish_daemon h s (identity : IrohIdentityProvider) (cfg : AppConfig) (ep : Endpoint Url RelayUrl)
  : BootState * outcome (Result Daemon BootError) :=
  let listen_port := default TETRON_LISTEN_PORT (cfg_listen_port cfg) in
  let s := with_kernel s (apply (bs_kernel s) (actual_listen_port ep listen_port)
                            (selfcapture_mitigation_enabled (bh_load h 3))) in
  (s,
   gate <-! global_gate cfg (bh_now h);
   Ret (if negb (bh_config_dir h 1) then Err NoConfigDir
        else if negb (bh_blobs_dir h) then Err BlobsDirFailed
        else if negb (bh_blob_store h) then Err BlobStoreFailed
        else Ok (mkDaemon ep (bl_tor (ep_built ep)) (cfg_path_preference cfg) identity gate false))).

(** The endpoint for the key and the identity that were read. *)
Definition connect_daemon h s (key : list Z) (identity : IrohIdentityProvider) : BootState * outcome (Result Daemon BootError) :=
  match bh_load h 2 with
  | Err e => (s, Ret (Err (ConfigUnreadable e)))
  | Ok cfg =>
      let s := set_discovery_override s (cfg_discovery_dns cfg) in
      match create_endpoint_with_alpns h s key (initial_alpns BLOBS_ALPN (cfg_networks cfg)) (use_tor cfg) (use_veilid cfg)
              (cfg_relay cfg) (cfg_discovery_dns cfg) (default TETRON_LISTEN_PORT (cfg_listen_port cfg)) with
      | (s, Err e) => (s, Ret (Err e))
      | (s, Ok ep) => finish_daemon h s identity cfg ep
      end
  end.

Definition build_daemon h s : BootState * outcome (Result Daemon BootError) :=
  if negb (bh_config_dir h 0) then (s, Ret (Err NoConfigDir))
  else
    match load_or_create (bs_key s) (bh_generated h) (bh_key_written h) with
    | (key_file, Err e) => (with_key s key_file, Ret (Err (Identity e)))
    | (key_file, Ok key) =>
        let s := with_key s key_file in
        match load_collision_index (bh_collision_file h) with
        | None => (s, Ret (Err BadCollisionIndex))
        | Some collision_index =>
            connect_daemon h s key (provider_new (secret_public key) collision_index (node_subnet (bh_load h 1)))
        end
    end.

Definition check_subnet_overlap h (subnet : Subnet) : Result unit BootError :=
  match List.find (fun i => subnets_overlap (i.1.2, i.2) subnet) (bh_interfaces h) with
  | Some (iface, addr, plen) => Err (SubnetOverlaps subnet iface addr plen)
  | None => Ok tt
  end.

(** ** The life of the process *)
Inductive Phase :=
| NetworksConnected | WatchersSpawned | CacheRefreshed | Activated | PeriodicSaveSpawned | PrunedGcSpawned
| Served | CacheSaved | EndpointClosed.

(** [served]: what the loop that serves the socket ends with. *)
Definition run_daemon h s (served : Result unit BootError) : BootState * list Phase * outcome (Result unit BootError) :=
  match check_subnet_overlap h (node_subnet (bh_load h 0)) with
  | Err e => (s, [], Ret (Err e))
  | Ok _ =>
      match build_daemon h s with
      | (s, Panic) => (s, [], Panic)
      | (s, Ret (Err e)) => (s, [], Ret (Err e))
      | (s, Ret (Ok _)) =>
          (s, [NetworksConnected; WatchersSpawned; CacheRefreshed; Activated; PeriodicSaveSpawned; PrunedGcSpawned;
               Served; CacheRefreshed; CacheSaved; EndpointClosed], Ret served)
      end
  end.

(** The daemon of an embedder: no packet interface, no socket. *)
Definition build_headless h s : BootState * list Phase * outcome (Result Daemon BootError) :=
  match build_daemon h s with
  | (s, Ret (Ok d)) => (s, [NetworksConnected; WatchersSpawned], Ret (Ok d))
  | (s, r) => (s, [], r)
  end.

(** ** What a start gives *)

(** A bind leaves the kernel, the key and the hidden services alone. *)
Lemma bind_endpoint_frame h s secret alpns tor veilid port relay discovery :
  let r := bind_endpoint h s secret alpns tor veilid port relay discovery in
  bs_kernel r.1 = bs_kernel s /\ bs_key r.1 = bs_key s /\ bs_onions r.1 = bs_onions s
  /\ (bs_binds s <= bs_binds r.1 <= S (bs_binds s))%nat
  /\ (forall ep, r.2 = Ok ep ->
      bh_bind h (bs_binds s) port = Some (ep_sockets ep) /\ bl_alpns (ep_built ep) = alpns /\ bl_tor (ep_built ep) = tor).
Proof.
  unfold bind_endpoint. repeat case_match; cbn; (split_and!; [done..|lia|lia|]); intros ep [= <-]; done.
Qed.

(** Of an endpoint made from [s]: one hidden service if asked for, at most two binds. *)
Definition endpoint_made h s (alpns : list (list Z)) (tor : bool) (port : Z) (r : Stepped (Endpoint Url RelayUrl)) : Prop :=
  bs_kernel r.1 = bs_kernel s /\ bs_key r.1 = bs_key s
  /\ (bs_onions s <= bs_onions r.1 <= bs_onions s + (if tor then 1 else 0))%nat
  /\ (bs_binds r.1 <= bs_binds s + 2)%nat
  /\ (forall ep, r.2 = Ok ep ->
      bs_onions r.1 = (bs_onions s + (if tor then 1 else 0))%nat /\ bl_tor (ep_built ep) = tor /\ bl_alpns (ep_built ep) = alpns
      /\ exists n, bh_bind h n port = Some (ep_sockets ep) \/ bh_bind h n 0 = Some (ep_sockets ep)).

(** The hidden service is made at most once, for both binds. *)
Lemma create_endpoint_frame h s secret alpns tor veilid relay discovery port :
  endpoint_made h s alpns tor port (create_endpoint_with_alpns h s secret alpns tor veilid relay discovery port).
Proof.
  unfold create_endpoint_with_alpns, build_tor, endpoint_made.
  assert (forall s0 t, bs_kernel s0 = bs_kernel s -> bs_key s0 = bs_key s -> bs_binds s0 = bs_binds s ->
    bs_onions s0 = (bs_onions s + (if tor then 1 else 0))%nat -> t = tor ->
    endpoint_made h s alpns tor port
      match bind_endpoint h s0 secret alpns t veilid port relay discovery with
      | (s, Ok ep) => (s, Ok ep)
      | (s, Err _) => bind_endpoint h s secret alpns t veilid 0 relay discovery
      end) as Hb.
  { unfold endpoint_made. intros s0 t Hk Hf Hb Ho ->. pose proof (bind_endpoint_frame h s0 secret alpns tor veilid port relay discovery) as F1.
    destruct (bind_endpoint h s0 _ _ _ _ _ _ _) as [s1 [ep1|e1]]; cbn [fst snd] in F1; destruct F1 as (K1 & F1 & O1 & B1 & E1).
    - cbn. split_and!; [congruence..|lia|lia|lia|]. intros ep [= <-]. destruct (E1 ep1 eq_refl) as (Hs & Ha & Ht).
      split_and!; [lia|done..|]. eexists. by left.
    - pose proof (bind_endpoint_frame h s1 secret alpns tor veilid 0 relay discovery) as F2. cbn zeta in F2.
      destruct F2 as (K2 & F2 & O2 & B2 & E2). cbn zeta. split_and!; [congruence..|lia|lia|lia|].
      intros ep Hep. destruct (E2 ep Hep) as (Hs & Ha & Ht). split_and!; [lia|done..|]. eexists. by right. }
  destruct tor; cbn [negb].
  - destruct (bh_tor_feature h); cbn [negb]; [|cbn; split_and!; [done..|lia|lia|lia|done]].
    destruct (bh_tor_builds h); [|cbn; split_and!; [done..|lia|lia|lia|done]].
    apply (Hb (onion_made s) true); cbn; auto; lia.
  - apply (Hb s false); cbn; auto; lia.
Qed.

(** A bind with readable server lists and a Veilid client fails only for its port. *)
Lemma bind_endpoint_bound h s secret alpns tor veilid port relay discovery mode lookups ports :
  build_relay_mode parse_relay default_relays relay = Ok mode -> apply_discovery [N0Lookup] discovery = Ok lookups ->
  (veilid = true -> bh_veilid_feature h = true /\ forall n, bh_veilid_builds h n = true) ->
  bh_bind h (bs_binds s) port = Some ports ->
  exists ep, (bind_endpoint h s secret alpns tor veilid port relay discovery).2 = Ok ep /\ ep_sockets ep = ports.
Proof.
  intros Hm Hl Hv Hb. unfold bind_endpoint. rewrite Hm, Hl. destruct veilid; cbn [andb].
  - destruct Hv as [-> Hv]; [done|]. rewrite Hv. cbn. rewrite Hb. eauto.
  - rewrite Hb. eauto.
Qed.

(** What the start needs of the host: readable files, server lists that parse, Tor and
    Veilid when a saved network uses them, and some free port. *)
Record Bootable h s (cfg : AppConfig) : Prop := {
  boot_dirs : bh_config_dir h 0 = true /\ bh_config_dir h 1 = true /\ bh_blobs_dir h = true /\ bh_blob_store h = true;
  boot_key : exists key, (load_or_create (bs_key s) (bh_generated h) (bh_key_written h)).2 = Ok key;
  boot_index : is_Some (load_collision_index (bh_collision_file h));
  boot_config : bh_load h 2 = Ok cfg;
  boot_relay : exists mode, build_relay_mode parse_relay default_relays (cfg_relay cfg) = Ok mode;
  boot_discovery : exists lookups, apply_discovery [N0Lookup] (cfg_discovery_dns cfg) = Ok lookups;
  boot_tor : use_tor cfg = true -> bh_tor_feature h = true /\ bh_tor_builds h = true;
  boot_veilid : use_veilid cfg = true -> bh_veilid_feature h = true /\ forall n, bh_veilid_builds h n = true;
  boot_some_port : forall n, is_Some (bh_bind h n 0);
  boot_gate : exists gate, global_gate cfg (bh_now h) = Ret gate;
}.

Lemma override_frame s o :
  bs_kernel (set_discovery_override s o) = bs_kernel s /\ bs_onions (set_discovery_override s o) = bs_onions s
  /\ bs_binds (set_discovery_override s o) = bs_binds s.
Proof. unfold set_discovery_override. by repeat case_match. Qed.

(** The endpoint is made whether or not the configured port is free, on it if it is. *)
Lemma endpoint_bound h s s0 cfg secret alpns port :
  Bootable h s0 cfg -> 
  exists ep, (create_endpoint_with_alpns h s secret alpns (use_tor cfg) (use_veilid cfg) (cfg_relay cfg) (cfg_discovery_dns cfg) port).2 = Ok ep
    /\ (forall ports, bh_bind h (bs_binds s) port = Some ports -> ep_sockets ep = ports).
Proof.
  intros [_ _ _ _ [mode Hm] [lookups Hl] Ht Hv Hp _]. unfold create_endpoint_with_alpns.
  assert (exists s1, build_tor h s (use_tor cfg) = (s1, Ok (use_tor cfg)) /\ bs_binds s1 = bs_binds s) as (s1 & -> & <-).
  { unfold build_tor. destruct (use_tor cfg); cbn [negb]; [destruct Ht as [-> ->]; [done|]|]; eexists; split; reflexivity. }
  destruct (bh_bind h (bs_binds s1) port) as [ports|] eqn:Hb.
  - destruct (bind_endpoint_bound h s1 secret alpns (use_tor cfg) (use_veilid cfg) port _ _ mode lookups ports Hm Hl Hv Hb) as (ep & He & <-).
    destruct (bind_endpoint h s1 _ _ _ _ _ _ _) as [s2 r]; cbn in He; subst r. exists ep. split; [done|congruence].
  - pose proof (bind_endpoint_frame h s1 secret alpns (use_tor cfg) (use_veilid cfg) port (cfg_relay cfg) (cfg_discovery_dns cfg)) as F.
    destruct (bind_endpoint h s1 secret _ _ _ port _ _) as [s2 [ep|e]] eqn:E.
    + destruct F as (_ & _ & _ & _ & F). destruct (F ep eq_refl) as [F' _]. congruence.
    + destruct (Hp (bs_binds s2)) as [ports Hb2].
      destruct (bind_endpoint_bound h s2 secret alpns (use_tor cfg) (use_veilid cfg) 0 _ _ mode lookups ports Hm Hl Hv Hb2) as (ep & He & _).
      exists ep. split; [done|]. congruence.
Qed.

(** The steps of [build_daemon] that a bootable host passes. *)
Lemma build_daemon_steps h s cfg :
  Bootable h s cfg ->
  exists s1 key identity, bs_kernel s1 = bs_kernel s /\ bs_onions s1 = bs_onions s /\ bs_binds s1 = bs_binds s
    /\ build_daemon h s =
       match create_endpoint_with_alpns h s1 key (initial_alpns BLOBS_ALPN (cfg_networks cfg)) (use_tor cfg) (use_veilid cfg)
               (cfg_relay cfg) (cfg_discovery_dns cfg) (default TETRON_LISTEN_PORT (cfg_listen_port cfg)) with
       | (s, Err e) => (s, Ret (Err e))
       | (s, Ok ep) => finish_daemon h s identity cfg ep
       end.
Proof.
  intros [(Hd & _) [key Hk] [index Hi] Hc _ _ _ _ _ _]. unfold build_daemon, connect_daemon. rewrite Hd. cbn [negb].
  destruct (load_or_create _ _ _) as [file r]. cbn in Hk. subst r. rewrite Hi, Hc.
  destruct (override_frame (with_key s file) (cfg_discovery_dns cfg)) as (Hk & Ho & Hb).
  eexists _, key, _. split_and!; [exact Hk|exact Ho|exact Hb|reflexivity].
Qed.


(** A process that got its daemon saves the cache and then closes the endpoint, whatever
    ended the serving; one whose range overlaps an interface has touched nothing. *)
Lemma run_daemon_closes h s served :
  (forall d, check_subnet_overlap h (node_subnet (bh_load h 0)) = Ok tt -> (build_daemon h s).2 = Ret (Ok d) ->
     exists before, (run_daemon h s served).1.2 = (before ++ [Served; CacheRefreshed; CacheSaved; EndpointClosed])%list
       /\ (run_daemon h s served).2 = Ret served)
  /\ (forall e, check_subnet_overlap h (node_subnet (bh_load h 0)) = Err e -> run_daemon h s served = (s, [], Ret (Err e))).
Proof.
  unfold run_daemon. split.
  - intros d -> Hd. destruct (build_daemon h s) as [s' r]. cbn in Hd. subst r. cbn.
    exists [NetworksConnected; WatchersSpawned; CacheRefreshed; Activated; PeriodicSaveSpawned; PrunedGcSpawned]. done.
  - by intros e ->.
Qed.
End Boot.

(** ** Concrete starts *)
Import Externs.Demo DemoUrl DemoRatelimit DemoIp.

(** A host with a Tor network, whose configured port is [taken] or not. *)
Module DemoHost.
Definition net : NetworkConfig :=
  mkNetworkConfig "house" Restricted None None [] [] None (Some (mkId 5)) (Some TransportTor) [] false None 1.

Definition config (subnet : option Subnet) : AppConfig := Settings.with_networks (with_subnet AppConfig_default subnet) [net].

Definition interfaces : list (string * Ipv4Addr * Z) := [("eth0", 192 * 16777216 + 168 * 65536 + 256 + 20, 24)].

Definition bind (taken : bool) (n : nat) (port : Z) : option (list Z) :=
  if port =? 0 then Some [50000]
  else if (taken && (port =? TETRON_LISTEN_PORT)) || (port <? 0) || (65535 <? port) then None
  else Some [port].

Definition host (taken : bool) (load : nat -> Result AppConfig StorageError) : BootHost :=
  mkHost true false interfaces load (fun _ => true) (replicate 32 7) true None true (fun _ => false) (bind taken) 0 true true.

Definition state : BootState (Kernel := Kernel) := mkBoot (mkKernel [5000] true) None None 0 0 0.

Definition parse (s : string) : option string := Some s.
Definition blobs : list Z := [9].
End DemoHost.
Import DemoHost.

Lemma demo_bootable taken subnet load :
  load 2%nat = Ok (config subnet) -> Bootable parse parse [] (host taken load) state (config subnet).
Proof.
  intros Hl. constructor.
  - done.
  - by exists (replicate 32 7).
  - by exists 0.
  - exact Hl.
  - exists None. reflexivity.
  - exists [N0Lookup]. reflexivity.
  - done.
  - done.
  - intros n. by exists [50000].
  - eexists. reflexivity.
Qed.

Lemma demo_binds taken load : binds_as_asked (host taken load).
Proof.
  intros n port ports. cbn [host bh_bind]. unfold bind.
  destruct (Z.eqb_spec port 0) as [->|]; [intros [= <-]; split; [done|]; repeat constructor; lia|].
  destruct (taken && (port =? TETRON_LISTEN_PORT)); [done|].
  destruct (Z.ltb_spec port 0); [done|]. destruct (Z.ltb_spec 65535 port); [done|]. cbn.
  intros [= <-]. split; [done|]. repeat constructor; lia.
Qed.


(** The range is checked against the interfaces before the files of an older version are
    moved into place: a range those files set is not checked, and the daemon starts on it. *)
Lemma migrated_range_not_checked :
  let subnet : Subnet := (192 * 16777216 + 168 * 65536 + 256, 24) in
  let load n := if Nat.eqb n 0 then Ok AppConfig_default else Ok (config (Some subnet)) in
  check_subnet_overlap (host true load) (node_subnet (load 0%nat)) = Ok tt
  /\ (exists e, check_subnet_overlap (host true load) (node_subnet (load 1%nat)) = Err e)
  /\ exists d, (build_daemon parse parse [] blobs (host true load) state).2 = Ret (Ok d).
Proof.
  intros subnet load. split; [vm_compute; reflexivity|]. split; [eexists; vm_compute; reflexivity|].
  destruct (build_daemon_steps parse parse [] blobs (host true load) state (config (Some subnet)))
    as (s1 & key & identity & _ & _ & _ & ->); [by apply demo_bootable|].
  destruct (endpoint_bound parse parse [] (host true load) s1 state (config (Some subnet)) key
    (initial_alpns blobs (cfg_networks (config (Some subnet)))) (default TETRON_LISTEN_PORT (cfg_listen_port (config (Some subnet)))))
    as (ep & He & _); [by apply demo_bootable|].
  destruct (create_endpoint_with_alpns _ _ _ _ _ _ _ _ _ _ _ _) as [s2 r]. cbn in He. subst r. eexists. reflexivity.
Qed.
