(* ===== verification/Platform.v ===== *)
(** * Per-platform parts and shared value types (src/src/tun.rs, src/src/logdir.rs,
    src/src/log_reload.rs, src/tetron-proto/src/{ipc,firewall,types}.rs)

    The parts of the packet interface that only macOS has, where the program reads
    [ifconfig]'s listing and keeps the routing table with [route]; the paths that
    environment variables override; the filter of the running log; and the enumerations
    that travel as text.

    The [route] tool is a parameter: a table that its commands change. *)

From S2P Require Import Prelude Externs Addressing Network Ipc Service.

(** ** Enumerations with a text form *)
Inductive Direction := DirIn | DirOut.
Inductive Protocol := ProtoTcp | ProtoUdp | ProtoIcmp | ProtoAny.
Inductive Action := ActAllow | ActDeny.

(** A type with its printed form, its parser and all its values: what is printed parses
    back, and nothing else parses. *)
Class TextEnum (A : Type) := {
  enum_values : list A;
  enum_to_string : A -> string;
  enum_from_str : string -> option A;
}.
Class TextEnumLaws (A : Type) `{TextEnum A} : Prop := {
  enum_complete : forall a : A, a ∈ enum_values;
  enum_exact : forall s (a : A), enum_from_str s = Some a <-> s = enum_to_string a;
}.

Definition direction_to_string (d : Direction) : string := match d with DirIn => "in" | DirOut => "out" end.
Definition direction_from_str (s : string) : option Direction :=
  if String.eqb s "in" then Some DirIn else if String.eqb s "out" then Some DirOut else None.

Definition protocol_to_string (p : Protocol) : string :=
  match p with ProtoTcp => "tcp" | ProtoUdp => "udp" | ProtoIcmp => "icmp" | ProtoAny => "any" end.
Definition protocol_from_str (s : string) : option Protocol :=
  if String.eqb s "tcp" then Some ProtoTcp else if String.eqb s "udp" then Some ProtoUdp
  else if String.eqb s "icmp" then Some ProtoIcmp else if String.eqb s "any" then Some ProtoAny else None.

Definition action_to_string (a : Action) : string := match a with ActAllow => "allow" | ActDeny => "deny" end.
Definition action_from_str (s : string) : option Action :=
  if String.eqb s "allow" then Some ActAllow else if String.eqb s "deny" then Some ActDeny else None.

Definition group_mode_to_string (m : GroupMode) : string := match m with Open => "open" | Restricted => "restricted" end.
Definition group_mode_from_str (s : string) : option GroupMode :=
  if String.eqb s "open" then Some Open else if String.eqb s "restricted" then Some Restricted else None.

#[export] Instance direction_text : TextEnum Direction :=
  Build_TextEnum _ [DirIn; DirOut] direction_to_string direction_from_str.
#[export] Instance protocol_text : TextEnum Protocol :=
  Build_TextEnum _ [ProtoTcp; ProtoUdp; ProtoIcmp; ProtoAny] protocol_to_string protocol_from_str.
#[export] Instance action_text : TextEnum Action :=
  Build_TextEnum _ [ActAllow; ActDeny] action_to_string action_from_str.
#[export] Instance group_mode_text : TextEnum GroupMode :=
  Build_TextEnum _ [Open; Restricted] group_mode_to_string group_mode_from_str.

Ltac enum_laws :=
  split; [intros []; cbn; rewrite !elem_of_cons; auto 10|];
  intros s a; cbn [enum_from_str enum_to_string direction_text protocol_text action_text group_mode_text];
  unfold direction_from_str, protocol_from_str, action_from_str, group_mode_from_str; split;
  [repeat match goal with |- context [String.eqb ?x ?y] => destruct (String.eqb_spec x y) as [->|] end; by intros [= <-]
  | intros ->; by destruct a].

#[export] Instance direction_text_laws : TextEnumLaws Direction.
Proof. enum_laws. Qed.
#[export] Instance protocol_text_laws : TextEnumLaws Protocol.
Proof. enum_laws. Qed.
#[export] Instance action_text_laws : TextEnumLaws Action.
Proof. enum_laws. Qed.
#[export] Instance group_mode_text_laws : TextEnumLaws GroupMode.
Proof. enum_laws. Qed.

(** Two values with the same printed form are the same. *)
Lemma enum_to_string_inj `{TextEnumLaws A} (a b : A) : enum_to_string a = enum_to_string b -> a = b.
Proof.
  intros E. assert (enum_from_str (enum_to_string a) = Some a) as Ha by by apply enum_exact.
  assert (enum_from_str (enum_to_string a) = Some b) as Hb by by apply enum_exact. congruence.
Qed.

(** ** Paths *)
Inductive Os := Linux | Macos.

(** [env]: the variable's value, if set. *)
Definition socket_path (os : Os) (env : option string) : string :=
  match env with
  | Some path => path
  | None => match os with Macos => "/var/run/tetron.sock" | Linux => "/var/run/tetron/tetron.sock" end
  end.

Definition log_dir (os : Os) (env : option string) : string :=
  match env with
  | Some dir => dir
  | None => match os with Linux => "/var/log/tetron" | Macos => "/Library/Logs/tetron" end
  end.

(** ** The running log's filter *)
Section LogFilter.
Context {Filter : Type} (parse_filter : string -> option Filter).

Inductive ReloadError := NotReloadable | InvalidLevel (level : string) | ReloadFailed.

(** A handle is the filter it governs and whether the subscriber is still there. *)
Record FilterHandle := mkHandle { fh_filter : Filter; fh_subscribed : bool }.

(** [OnceLock::set]: a second call changes nothing. *)
Definition set_handle (cell : option FilterHandle) (handle : FilterHandle) : option FilterHandle :=
  match cell with Some _ => cell | None => Some handle end.

Definition build_filter (level : string) : Result Filter ReloadError :=
  match parse_filter ("info,tetron=" +:+ level) with Some f => Ok f | None => Err (InvalidLevel level) end.

Definition reload_log_level (cell : option FilterHandle) (level : string) : option FilterHandle * Result unit ReloadError :=
  match cell with
  | None => (cell, Err NotReloadable)
  | Some handle =>
      match build_filter level with
      | Err e => (cell, Err e)
      | Ok filter => if fh_subscribed handle then (Some (mkHandle filter true), Ok tt) else (cell, Err ReloadFailed)
      end
  end.

(** A reload that fails leaves the filter that was running. *)
Lemma reload_exact cell level :
  let r := reload_log_level cell level in
  (forall e, r.2 = Err e -> r.1 = cell)
  /\ (r.2 = Ok tt -> exists f, build_filter level = Ok f /\ fh_filter <$> r.1 = Some f).
Proof. unfold reload_log_level. repeat case_match; cbn; split; try done; intros; by eexists. Qed.
End LogFilter.

(** ** Local interfaces on macOS *)
Definition hex_value (c : ascii) : option Z :=
  let b := byte_of_ascii c in
  if is_digit c then Some (b - 48)
  else if (97 <=? b) && (b <=? 102) then Some (b - 87)
  else if (65 <=? b) && (b <=? 70) then Some (b - 55) else None.

Fixpoint hex_digits (acc : Z) (s : string) : option Z :=
  match s with
  | EmptyString => Some acc
  | String c s' => d ← hex_value c; let acc := acc * 16 + d in if acc <=? u32_max then hex_digits acc s' else None
  end.

(** [u32::from_str_radix(s, 16)]. *)
Definition parse_hex_u32 (s : string) : option Z :=
  match match s with String "+" s' => s' | _ => s end with
  | EmptyString => None
  | digits => hex_digits 0 digits
  end.

(** [trim_start_matches("0x")]. *)
Fixpoint trim_0x (fuel : nat) (s : string) : string :=
  match fuel with
  | O => s
  | S fuel => match strip_prefix "0x" s with Some s' => trim_0x fuel s' | None => s end
  end.

Definition count_ones (bits : Z) : Z := Z.of_nat (length (List.filter (Z.testbit bits) (seqZ 0 32))).

Definition netmask_prefix (m : string) : option Z := count_ones <$> parse_hex_u32 (trim_0x (String.length m) m).

Fixpoint scan_ifconfig (toks : list string) (addr : option Ipv4Addr) (plen : option Z) : option Ipv4Addr * option Z :=
  match toks with
  | [] => (addr, plen)
  | t :: rest =>
      if String.eqb t "inet" then
        match rest with [] => (None, plen) | a :: rest' => scan_ifconfig rest' (parse_ipv4_addr a) plen end
      else if String.eqb t "netmask" then
        match rest with [] => (addr, None) | m :: rest' => scan_ifconfig rest' addr (netmask_prefix m) end
      else scan_ifconfig rest addr plen
  end.

Definition indented (line : string) : bool :=
  match line with String c _ => bool_decide (c = " "%char) || bool_decide (c = "009"%char) | EmptyString => false end.

Fixpoint ifconfig_lines (current_iface : option string) (ls : list string) : list (string * Ipv4Addr * Z) :=
  match ls with
  | [] => []
  | line :: rest =>
      if negb (indented line) then ifconfig_lines (head (split_on ":" line)) rest
      else
        match current_iface with
        | None => ifconfig_lines current_iface rest
        | Some iface =>
            if String.eqb iface "lo0" then ifconfig_lines current_iface rest
            else
              match scan_ifconfig (split_whitespace line) None None with
              | (Some a, Some p) => (iface, a, p) :: ifconfig_lines current_iface rest
              | _ => ifconfig_lines current_iface rest
              end
        end
  end.

(** [out]: what [ifconfig] prints, if it runs and succeeds. *)
Definition macos_ipv4_interfaces (out : option string) : list (string * Ipv4Addr * Z) :=
  match out with Some text => ifconfig_lines None (lines text) | None => [] end.

(** A netmask as [ifconfig] prints it is read as its prefix length. *)
Lemma netmask_prefix_reads p :
  1 <= p <= 32 -> netmask_prefix ("0x" +:+ to_hex (be_bytes 4 (subnet_netmask p))) = Some p.
Proof.
  intros Hp. assert (forallb (fun p => bool_decide (netmask_prefix ("0x" +:+ to_hex (be_bytes 4 (subnet_netmask p))) = Some p))
    (seqZ 1 32) = true) as H by (vm_compute; reflexivity).
  rewrite forallb_forall in H. specialize (H p). rewrite bool_decide_eq_true in H. apply H.
  apply list_elem_of_In, elem_of_seqZ. lia.
Qed.

(** The address line of an interface gives its address and prefix length. *)
Lemma scan_ifconfig_reads ip p rest :
  is_u32 ip -> 1 <= p <= 32 -> scan_ifconfig rest (Some ip) (Some p) = (Some ip, Some p) ->
  scan_ifconfig (["inet"; ipv4_to_string ip; "netmask"; "0x" +:+ to_hex (be_bytes 4 (subnet_netmask p))] ++ rest) None None
  = (Some ip, Some p).
Proof.
  intros Hip Hp Hrest. cbn [app scan_ifconfig].
  change (String.eqb "inet" "inet") with true. change (String.eqb "netmask" "inet") with false.
  change (String.eqb "netmask" "netmask") with true. cbn iota.
  by rewrite parse_ipv4_to_string, netmask_prefix_reads.
Qed.

(** ** Routes on macOS *)

(** A route: its family, ["-net"] or ["-host"], the destination and the interface. *)
Definition Route : Type := string * string * string * string.

Definition route_cmd (what : string) (r : Route) : list string :=
  let '(family, kind, dest, iface) := r in ["-n"; what; family; kind; dest; "-interface"; iface].

(** [None]: the tool cannot be run. *)
Class RouteTool (Table : Type) := run_route : Table -> list string -> Table * option bool.

(** [routes]: the routes of a table.  A command that fails or cannot be run changes nothing. *)
Class RouteToolLaws (Table : Type) `{RouteTool Table} (routes : Table -> gset Route) : Prop := {
  route_added : forall t r, (run_route t (route_cmd "add" r)).2 = Some true -> routes (run_route t (route_cmd "add" r)).1 = {[r]} ∪ routes t;
  route_deleted : forall t r, (run_route t (route_cmd "delete" r)).2 = Some true -> routes (run_route t (route_cmd "delete" r)).1 = routes t ∖ {[r]};
  route_failed : forall t args, (run_route t args).2 <> Some true -> routes (run_route t args).1 = routes t;
}.

Section Routes.
Context `{RouteTool Table}.
Implicit Type t : Table.

Fixpoint replace_routes t (rs : list Route) : Table * Result unit string :=
  match rs with
  | [] => (t, Ok tt)
  | r :: rest =>
      let t := (run_route t (route_cmd "delete" r)).1 in
      match run_route t (route_cmd "add" r) with
      | (t, Some true) => replace_routes t rest
      | (t, _) => (t, Err r.1.2)
      end
  end.

Definition peer_range_routes (tun_name : string) (subnet : Subnet) (network_prefix : Ipv6Addr) (prefix_len : Z) : list Route :=
  [("-inet", "-net", ipv4_to_string subnet.1 +:+ "/" +:+ dec subnet.2, tun_name);
   ("-inet6", "-net", ipv6_to_string network_prefix +:+ "/" +:+ dec prefix_len, tun_name)].

Definition macos_route_peer_range t tun_name subnet network_prefix prefix_len : Table * Result unit string :=
  replace_routes t (peer_range_routes tun_name subnet network_prefix prefix_len).

Definition self_routes (v4 : Ipv4Addr) (v6 : Ipv6Addr) : list Route :=
  [("-inet", "-host", ipv4_to_string v4, "lo0"); ("-inet6", "-host", ipv6_to_string v6, "lo0")].

Definition route_self_loopback t v4 v6 : Table * Result unit string := replace_routes t (self_routes v4 v6).

Context `{HL : !RouteToolLaws Table routes}.

Lemma deleted_others t r x : x <> r -> x ∈ routes (run_route t (route_cmd "delete" r)).1 <-> x ∈ routes t.
Proof.
  intros Hx. destruct (decide ((run_route t (route_cmd "delete" r)).2 = Some true)) as [E|E].
  - rewrite route_deleted by done. rewrite elem_of_difference, elem_of_singleton. tauto.
  - by rewrite route_failed.
Qed.

(** Replacing routes changes no other route, and adds them all when it succeeds, however
    often it is done. *)
Lemma replace_routes_exact rs t x :
  let r := replace_routes t rs in
  (x ∉ rs -> x ∈ routes r.1 <-> x ∈ routes t) /\ (r.2 = Ok tt -> x ∈ routes r.1 <-> x ∈ routes t \/ x ∈ rs).
Proof.
  revert t. induction rs as [|r rs IH]; intros t; cbn [replace_routes].
  { cbn. split; [done|]. intros _. rewrite elem_of_nil. tauto. }
  pose proof (deleted_others t r x) as H1. set (t1 := (run_route t (route_cmd "delete" r)).1) in *. clearbody t1.
  pose proof (route_added t1 r) as Ha. pose proof (route_failed t1 (route_cmd "add" r)) as Hf. rewrite elem_of_cons.
  destruct (run_route t1 (route_cmd "add" r)) as [t2 [[]|]]; cbn [fst snd] in *;
    [|rewrite Hf by done; split; [tauto|done]..].
  destruct (IH t2) as [I1 I2]. rewrite Ha, elem_of_union, elem_of_singleton in I1, I2 by done.
  clear IH Ha Hf. destruct (decide (x = r)) as [->|Hx]; [|specialize (H1 Hx)]; (split; [intros Hn|intros Hok; rewrite (I2 Hok); clear -H1; intuition]).
  - destruct Hn. by left.
  - rewrite I1 by auto. clear -H1 Hx. intuition.
Qed.
End Routes.
